(* ===== verification/_CoqProject ===== *)
-Q . S2P
Prelude.v
GoStrings.v
GoTime.v
GoPath.v
GoFlag.v
GoJson.v
JsonFuel.v
GoFloat.v
GoAny.v
Api.v
Libs.v
Merge.v
GoHeap.v
CommandLine.v
Client.v
RestoreData.v
SleepInfoData.v
Legacy.v
Schedule.v
Patcher.v
Webhook.v
Resource.v
ManagedResources.v
ManagedResourcesSpec.v
SleepWakeSpec.v
RoundTrip.v
Secrets.v
Reconcile.v
Execution.v
ReconcileSpec.v
Gauge.v
ExecutionSpec.v
Store.v
Lifecycle.v
Night.v
Rhythm.v
Losses.v
FakeClient.v
Mocks.v
Scheme.v
DeepCopy.v
Manager.v
TestUtil.v
Reference.v
Server.v
Scenario.v
ScenarioProcess.v
Race.v
