(* ===== verification/Prelude.v ===== *)
(** * kube-green: a verification development

    kube-green is a Kubernetes controller that puts the workloads of a namespace
    to sleep outside working hours and wakes them up again.  This library models
    its Go code and proves what makes it correct.

    ** The program and its parts

    A [SleepInfo] (api/v1alpha1) gives the weekdays and the times of the sleep
    and of the wake up, filters on resources, and JSON 6902 patches to apply at
    sleep (the default ones set the replicas of Deployments and StatefulSets to
    zero and suspend CronJobs).  A webhook validates it.  The SleepInfo
    reconciler (internal/controller/sleepinfo) runs when the spec changes and
    when the delay it asked for has passed: it reads the SleepInfo and its
    secret, decides from the cron schedule whether the next operation is due,
    collects the target resources, writes the status, sleeps or wakes up the
    resources, and writes the secret, which keeps the time and the type of the
    last operation and, after a sleep, the merge patches that restore the
    resources.  A [SleepInfoExecution] asks for one operation at once; its
    reconciler shares everything but the schedule.  [main] (cmd) turns the
    command line into the options of the manager and its servers, and starts both
    reconcilers and the webhook.

    ** Files

    - Prelude.v: results, errors and the state monad [M] of code that talks to
      the API server; its triples; the hint database [go].
    - GoStrings.v, GoTime.v, GoPath.v, GoFlag.v, GoJson.v, JsonFuel.v, GoFloat.v,
      GoAny.v: what the code uses of Go's standard library: strings, paths, the
      flag package with the integers of strconv at the width of the platform,
      [time.Time] with int64 durations that wrap and saturate and RFC 3339 with the
      proleptic calendar, [encoding/json] (printer and parser with their round trip,
      UTF-8, float64 numbers, maps).
    - Api.v: the types and methods of api/v1alpha1.
    - Libs.v: the third-party libraries as classes of operations with classes of
      laws (robfig/cron, evanphx/json-patch, sigs yaml, unstructured objects,
      selectors) and Go's unspecified map iteration order ([MapRange]).
      Merge.v: RFC 7396 merges act path by path.
    - Client.v: [client.Client] as a class; the world (server state, clock,
      gauge, iteration counter, trace of calls) and the calls.
    - RestoreData.v, SleepInfoData.v, Legacy.v: jsonpatch.GetOriginalInfoToRestore,
      deployments.go, cronjobs.go; sleepinfodata.go; the conversion of older
      secrets.
    - Schedule.v: schedule.go.  Patcher.v: internal/patcher.  Webhook.v:
      [SleepInfo.Validate] and internal/webhook.
    - Resource.v: resource/resource.go and jsonpatch/genericresources.go.
    - ManagedResources.v: jsonpatch/jsonpatch.go ([NewResources], [Sleep],
      [WakeUp], [GetOriginalInfoToSave], [buildSparseApplyObject]);
      ManagedResourcesSpec.v, SleepWakeSpec.v, RoundTrip.v: its theorems.
    - Secrets.v: secrets.go.  Reconcile.v: sleepinfo_controller.go.
      Execution.v: sleepinfoexecution_controller.go.  ReconcileSpec.v,
      Gauge.v, ExecutionSpec.v: their theorems.
    - Store.v: a server that keeps the data of secrets ([StoreLaws]; their metadata
      are its own); the state after a run is the effect of its calls.  Lifecycle.v: many runs, of both reconcilers, as a
      transition system.  Night.v: a sleep and the wake up after it, end to end.
      Rhythm.v: a run and the one that follows the delay it asked for.  Losses.v:
      what runs that fail or overlap lose.
    - GoHeap.v: Go's memory, with pointers, slices that share arrays, [append]
      and maps; views of structures and copiers.  DeepCopy.v: the API types in
      memory, with all of [ObjectMeta], and zz_generated.deepcopy.go.
    - CommandLine.v: the flags of cmd/main.go.  Manager.v: the rest of [main], the
      SetupWithManager functions, metrics.go and [SetupWebhookWithManager].
      Scheme.v: the [init] functions and the registration of the types.
    - FakeClient.v: testutil/fakeclient.go as a function from clients to clients,
      where a client ([CtrlClient]) hands the objects of the caller back; over an
      in-memory client it satisfies [StoreLaws].
      TestUtil.v: testutil/testenv.go, realk8s.go and random.go over a platform
      that answers each operation.  Mocks.v: the builders of internal/mocks as
      struct values.
    - Reference.v, Server.v: concrete functions that satisfy the laws, and an
      in-memory API server with a plan of faults.  Scenario.v: one night of a
      namespace, the witnesses of the theorems, and runs with failures.
      ScenarioProcess.v: the same for the memory, the manager, the fake client (with
      a night on it), the test environment, the mocks and the scheme.
      Race.v: a client with another run between two calls, and a race.

    ** State, effects and errors

    The handlers are functions of the monad [M World]: a call returns a value or
    an error and the world on both branches, so effects made before an error
    stay.  Every call is recorded in the trace, whatever it returns; theorems on
    ordering speak of the calls a run adds to it.  The API server is a parameter
    and may answer anything to any call.  The maps Go iterates over are walked in
    an order the model does not fix: [range] is any enumeration, and may differ
    at each loop.  Reconcilers return the pair of Go, a result and an error.

    Objects are immutable records in the reconcilers.  That this is faithful is
    proved where the code mutates: [handleSleepInfoStatus] runs on a deep copy,
    and deep copies are equal and share no memory (DeepCopy.v).  [main] keeps its
    TLS options in slices of the memory model, since it appends twice to one.

    A write to a nil map panics: restore data of a target that was saved as [null]
    is read as a nil map, to which [Sleep] writes.  controller-runtime recovers the
    panic of a reconciler, so that it is an error of the run, at the place of the
    write.

    A Go error is its class (what the code tests) and its text.  The texts of
    encoding/json and time errors are abbreviated.  Logging is left out.

    ** What the theorems show

    - Schedules: the cron expression is well formed; an operation runs only near
      a firing that is after the last run, and always when there is one; the next
      run is at the next firing and its delay is positive (Api.v, Schedule.v).
    - Filters: for targets of a named group the list options select the resources
      the API promises ([selected], stated on apiVersions, kinds, names and labels);
      references to the core group are ignored (Resource.v).
    - Sleep and wake up: which resources change, by which calls, what is saved;
      sleeping twice does nothing; the saved data survives its encoding; a wake up
      restores, of a resource the sleep patch would not change, every path that
      still holds the value the sleep gave it, and the whole resource when nothing
      changed; server-side apply gets the identifiers and the changed fields only.
    - The secret is a faithful memory, also across an upgrade (Secrets.v,
      Legacy.v).
    - The reconciler: effects come in a fixed order and a failed operation is
      never recorded in the secret; the secret follows the machine of awake and
      asleep ([op_step]); writes happen only when an operation is due; an
      existing SleepInfo is always looked at again.
    - Executions are processed once, end in a terminal phase or an error, and act
      only from the phase their operation asks for (ExecutionSpec.v).
    - Admission implies that the cron errors of the reconciler cannot happen.
    - Over time: what the evening run saved makes the morning run restore a
      workload it finds, with nothing shared but the server (Night.v); the run that
      follows the delay a run asked for finds its operation due and skips no firing,
      but for a sleep that found no resources (Rhythm.v); after any history the
      secrets can be read (Lifecycle.v).
    - What is lost (Losses.v), on any server that stores secrets: a sleep whose secret could not be
      written is not undone after its retry; a wake up that cannot list a target
      forgets its restore patches; an on-demand run saves its own view over what
      another run saved meanwhile; a failed run leaves a status that names its
      operation.
    - Deep copies are equal and independent (DeepCopy.v).
    - The command line is read as it is written (CommandLine.v); [main] follows
      its plan up to the first failure, and the servers get the TLS options of the
      flags, except that the webhook server presents the certificate of the metrics
      server where the slice both append to has room (Manager.v); the scheme knows
      the types of the group (Scheme.v).
    - The helpers of the tests: the fake client is a store of secrets and evaluates
      field selectors, over a client that does neither (FakeClient.v);
      the test environment is started in order, stops at the first failure, and is
      lost to the caller when its version cannot be read (TestUtil.v); the mocks
      of workloads select their own pods (Mocks.v).

    ** Bounds

    The JSON parser takes as fuel the length of its input plus one: what
    succeeds with any fuel succeeds with it (JsonFuel.v); it refuses nesting
    deeper than 10000, as Go does.  Durations are int64 nanoseconds; the schedule
    theorems assume a delta of at most nine hundred million seconds, for which no
    product wraps.  Numbers of documents go through float64 as in Go; the restore
    theorems assume originals whose numbers survive it ([any_ok]) and in which what
    the patch changed is free of nulls, which a merge patch cannot store
    ([mergeable]); nulls elsewhere are allowed.

    An int has 64 or 32 bits, by the platform ([IntSize]).  The capacity [append]
    gives a slice is a parameter, of which nothing is assumed.

    ** Not modelled

    The logger, the controller-runtime work queue (when a run takes place is the
    premise of the theorems on runs), and the conversion of typed objects to
    unstructured ones, which is a parameter.  testutil.GetResource only forwards a
    read.  Open: the machine of phases over histories, and conditions under which
    concurrent runs are harmless. *)

From Stdlib Require Export ZArith Lia Ascii String.
From stdpp Require Export base tactics option list gmap strings sorting.

#[global] Open Scope Z_scope.

(** ** Errors and results

    A Go [error] is modelled by what the code observes of it: its class (the
    tests [apierrors.IsNotFound], [meta.IsNoMatchError] and [errors.Is] of the
    sentinels) and its text ([err.Error()]). *)

Inductive error_class :=
| EPlain
| ENotFound        (* apierrors.IsNotFound *)
| ENoMatch         (* meta.IsNoMatchError *)
| EJSONPatch       (* errors.Is ErrJSONPatch *)
| EListResources   (* errors.Is ErrListResources *)
| EInvalidClient.  (* errors.Is ErrInvalidClient *)

#[export] Instance error_class_eq_dec : EqDecision error_class.
Proof. solve_decision. Defined.

Record error := mkError { err_class : error_class; err_msg : string }.

#[export] Instance error_eq_dec : EqDecision error.
Proof. solve_decision. Defined.

(** [fmt.Errorf] with [%s] verbs only: a plain error. *)
Definition errorf (msg : string) : error := mkError EPlain msg.

(** [fmt.Errorf("%w: %s", sentinel, err)]: wraps the sentinel and keeps only
    the text of [err]. *)
Definition wrapf (c : error_class) (sentinel : string) (msg : string) : error :=
  mkError c (sentinel +:+ ": " +:+ msg).

Inductive result (A : Type) :=
| Ok (a : A)
| Err (e : error).
Arguments Ok {A} a.
Arguments Err {A} e.

Definition rbind {A B} (r : result A) (f : A -> result B) : result B :=
  match r with Ok a => f a | Err e => Err e end.

Definition rmap {A B} (f : A -> B) (r : result A) : result B :=
  match r with Ok a => Ok (f a) | Err e => Err e end.

Definition is_ok {A} (r : result A) : bool :=
  match r with Ok _ => true | Err _ => false end.

Declare Scope go_scope.
Delimit Scope go_scope with go.
Notation "'let?' x ':=' r 'in' k" := (rbind r (fun x => k))
  (at level 10, x pattern, r at level 100, k at level 200) : go_scope.
#[global] Open Scope go_scope.

(** ** State and errors

    Code that talks to the API server threads a world [W] through calls that
    return a value or an error.  An error does not undo the effects made
    before it: the world is returned on both branches. *)

Definition M (W A : Type) : Type := W -> result A * W.

Definition gret {W A} (a : A) : M W A := fun w => (Ok a, w).
Definition gfail {W A} (e : error) : M W A := fun w => (Err e, w).
Definition gbind {W A B} (c : M W A) (k : A -> M W B) : M W B :=
  fun w => match c w with
           | (Ok a, w') => k a w'
           | (Err e, w') => (Err e, w')
           end.
(** [v, err := c]: the error is a value the caller inspects. *)
Definition gtry {W A} (c : M W A) : M W (result A) :=
  fun w => let '(r, w') := c w in (Ok r, w').
Definition glift {W A} (r : result A) : M W A := fun w => (r, w).

Notation "x <~ c ;; k" := (gbind c (fun x => k))
  (at level 100, c at next level, right associativity) : go_scope.
Notation "'let!' x ':=' c 'in' k" := (gbind c (fun x => k))
  (at level 10, x pattern, c at level 100, k at level 200) : go_scope.
Notation "c ;;~ k" := (gbind c (fun _ => k))
  (at level 100, right associativity) : go_scope.

(** Hoare-style triples over [M]: the postcondition sees the outcome, error
    or value, and the final world. *)
Definition hoare {W A} (P : W -> Prop) (c : M W A)
    (Q : result A -> W -> Prop) : Prop :=
  forall w, P w -> Q (c w).1 (c w).2.

Lemma hoare_weaken {W A} (P P' : W -> Prop) (c : M W A) (Q Q' : result A -> W -> Prop) :
  hoare P c Q -> (forall w, P' w -> P w) -> (forall r w, Q r w -> Q' r w) ->
  hoare P' c Q'.
Proof. intros H HP HQ w Hw. apply HQ, H, HP, Hw. Qed.

Lemma hoare_bind {W A B} (c : M W A) (k : A -> M W B)
    (P : W -> Prop) (R : A -> W -> Prop) (Q : result B -> W -> Prop) :
  hoare P c (fun r w => match r with Ok a => R a w | Err e => Q (Err e) w end) ->
  (forall a, hoare (R a) (k a) Q) ->
  hoare P (gbind c k) Q.
Proof.
  intros Hc Hk w Hw. specialize (Hc w Hw). unfold gbind.
  destruct (c w) as [[a|e] w']; cbn in *; [apply Hk, Hc|exact Hc].
Qed.

Lemma hoare_try {W A} (c : M W A) (P : W -> Prop) (Q : result (result A) -> W -> Prop) :
  hoare P c (fun r w => Q (Ok r) w) -> hoare P (gtry c) Q.
Proof.
  intros H w Hw. specialize (H w Hw). unfold gtry.
  destruct (c w) as [r w']; exact H.
Qed.

(** An invariant of the world is kept by a computation whatever it returns. *)
Definition keeps {W A} (I : W -> Prop) (c : M W A) : Prop :=
  hoare I c (fun _ => I).

Lemma keeps_ret {W A} (I : W -> Prop) (a : A) : keeps I (gret a).
Proof. by intros w Hw. Qed.

Lemma keeps_fail {W A} (I : W -> Prop) e : keeps I (@gfail W A e).
Proof. by intros w Hw. Qed.

Lemma keeps_lift {W A} (I : W -> Prop) (r : result A) : keeps I (glift r).
Proof. by intros w Hw. Qed.

Lemma keeps_bind {W A B} (I : W -> Prop) (c : M W A) (k : A -> M W B) :
  keeps I c -> (forall a, keeps I (k a)) -> keeps I (gbind c k).
Proof.
  intros Hc Hk. apply (hoare_bind c k I (fun _ => I)); [|apply Hk].
  eapply hoare_weaken; [exact Hc|done|]. by intros [].
Qed.

Lemma keeps_try {W A} (I : W -> Prop) (c : M W A) : keeps I c -> keeps I (gtry c).
Proof. intros H. apply hoare_try, H. Qed.

(** Inverts a bind that returned a value. *)
Lemma gbind_ok {W A B} (c : M W A) (k : A -> M W B) w b w' :
  gbind c k w = (Ok b, w') -> exists a w1, c w = (Ok a, w1) /\ k a w1 = (Ok b, w').
Proof. unfold gbind. destruct (c w) as [[a|e] w1]; [eauto|done]. Qed.

Lemma bind_run {W A B} (c : M W A) (k : A -> M W B) w a w' :
  c w = (Ok a, w') -> gbind c k w = k a w'.
Proof. unfold gbind. by intros ->. Qed.

Lemma bind_try {W A B} (c : M W A) (k : result A -> M W B) w :
  gbind (gtry c) k w = k (c w).1 (c w).2.
Proof. unfold gbind, gtry. by destruct (c w). Qed.

Lemma glift_ok {W A} (r : result A) (w w' : W) a :
  glift r w = (Ok a, w') -> r = Ok a /\ w' = w.
Proof. unfold glift. by intros [= -> ->]. Qed.

Create HintDb go.
#[export] Hint Resolve keeps_ret keeps_fail keeps_lift keeps_try : go.

(** Splits a [match] or an [if] on the subject of the goal, keeping the
    equation, and closes the branches [go] knows. *)
Ltac go_case :=
  match goal with
  | |- context [match ?x with _ => _ end] => destruct x eqn:?
  end.

Ltac keeps_tac :=
  repeat (first [ apply keeps_bind; [|intros] | go_case | progress auto with go ]).
