(* ===== verification/GoStrings.v ===== *)
(** * Go strings

    The part of Go's [strings], [strconv] and [fmt] packages that kube-green
    uses.  A Go string is a sequence of bytes, modelled by [string]; a [[]byte]
    is modelled by the same type (and by [option string] where the code tests
    it against [nil]). *)

From Stdlib Require Import DecimalString DecimalZ.
From S2P Require Import Prelude.

(** ** strings.Split with a one-byte separator, strings.Join, HasPrefix *)

Fixpoint split_on (sep : ascii) (s : string) : list string :=
  match s with
  | EmptyString => [""%string]
  | String c s' =>
      if Ascii.eqb c sep then ""%string :: split_on sep s'
      else match split_on sep s' with
           | w :: ws => String c w :: ws
           | [] => [String c ""]
           end
  end.

Fixpoint join (sep : string) (l : list string) : string :=
  match l with
  | [] => ""
  | [x] => x
  | x :: l' => x +:+ sep +:+ join sep l'
  end.

Definition has_prefix (s prefix : string) : bool := String.prefix prefix s.

(** The number of occurrences of a byte. *)
Fixpoint count (c : ascii) (s : string) : nat :=
  match s with
  | EmptyString => 0
  | String x s' => (if Ascii.eqb x c then 1 else 0) + count c s'
  end.

Lemma append_assoc (a b c : string) : (a +:+ b) +:+ c = a +:+ (b +:+ c).
Proof. induction a as [|x a IH]; [done|]. exact (f_equal (String x) IH). Qed.

Lemma append_nil_r (a : string) : a +:+ "" = a.
Proof. induction a as [|x a IH]; [done|]. exact (f_equal (String x) IH). Qed.

Lemma append_cons c (a b : string) : String c a +:+ b = String c (a +:+ b).
Proof. done. Qed.

Lemma append_nil_l (b : string) : "" +:+ b = b.
Proof. done. Qed.

Lemma length_append (a b : string) :
  String.length (a +:+ b) = (String.length a + String.length b)%nat.
Proof. induction a as [|x a IH]; [done|]. exact (f_equal S IH). Qed.

Lemma count_append c (a b : string) : count c (a +:+ b) = (count c a + count c b)%nat.
Proof.
  induction a as [|x a IH]; [done|]. rewrite append_cons. cbn [count]. lia.
Qed.

Create Rewrite HintDb go_str.
#[export] Hint Rewrite append_assoc append_cons append_nil_l append_nil_r length_append
  count_append : go_str.

Lemma split_on_nonnil sep s : split_on sep s <> [].
Proof.
  destruct s as [|c s]; cbn; [done|]. case_match; [done|]. by case_match.
Qed.

(** Splitting gives one more piece than there are separators. *)
Lemma split_on_length sep s : length (split_on sep s) = S (count sep s).
Proof.
  induction s as [|c s IH]; [done|]. cbn [split_on count].
  destruct (Ascii.eqb c sep); [cbn; by rewrite IH|].
  pose proof (split_on_nonnil sep s). destruct (split_on sep s); [done|].
  cbn in *. lia.
Qed.

(** Joining the pieces with the separator rebuilds the string. *)
Lemma join_split_on sep s : join (String sep "") (split_on sep s) = s.
Proof.
  induction s as [|c s IH]; [done|]. cbn [split_on].
  pose proof (split_on_nonnil sep s) as Hn.
  destruct (Ascii.eqb c sep) eqn:E.
  - apply Ascii.eqb_eq in E as ->.
    destruct (split_on sep s) as [|w ws]; [done|].
    change (String sep "" +:+ join (String sep "") (w :: ws) = String sep s).
    by rewrite IH.
  - destruct (split_on sep s) as [|w [|w' ws]]; [done|by rewrite <- IH|].
    change (String c (join (String sep "") (w :: w' :: ws)) = String c s).
    by rewrite IH.
Qed.

Lemma split_on_app sep (a b : string) :
  count sep a = 0%nat ->
  split_on sep (a +:+ String sep b) = a :: split_on sep b.
Proof.
  induction a as [|x a IH]; intros H.
  - rewrite append_nil_l. cbn [split_on]. by rewrite Ascii.eqb_refl.
  - rewrite append_cons. cbn [split_on count] in *.
    destruct (Ascii.eqb x sep); [done|]. by rewrite IH.
Qed.

Lemma split_on_id sep a : count sep a = 0%nat -> split_on sep a = [a].
Proof.
  induction a as [|x a IH]; cbn; intros H; [done|].
  destruct (Ascii.eqb x sep); [done|]. by rewrite IH.
Qed.

(** Splitting what was joined gives the pieces back when none of them
    contains the separator. *)
Lemma split_on_join sep l :
  l <> [] -> Forall (fun w => count sep w = 0%nat) l ->
  split_on sep (join (String sep "") l) = l.
Proof.
  intros Hn Hl. induction Hl as [|w l Hw Hl IH]; [done|].
  destruct l as [|w' l]; [by apply split_on_id|].
  change (split_on sep (w +:+ String sep (join (String sep "") (w' :: l))) = w :: w' :: l).
  rewrite split_on_app by done. by rewrite IH.
Qed.

Lemma has_prefix_spec s p : has_prefix s p = true <-> exists t, s = p +:+ t.
Proof.
  unfold has_prefix. revert s. induction p as [|c p IH]; intros s; cbn.
  - split; [by exists s|by destruct s].
  - destruct s as [|x s]; cbn.
    + split; [done|]. by intros [t Ht].
    + destruct (ascii_dec c x) as [->|Hne].
      * rewrite IH. split; intros [t Ht]; exists t; [by rewrite Ht|].
        rewrite append_cons in Ht. by injection Ht.
      * split; [done|]. intros [t Ht]. rewrite append_cons in Ht. by injection Ht as ->.
Qed.

(** ** Integers in decimal ([%d]) *)

Definition itoa (z : Z) : string := NilZero.string_of_int (Z.to_int z).

(** [strconv.ParseInt(s, 10, 64)] on the digits a JSON number can have: an
    optional minus sign and decimal digits. *)
Definition parse_int (s : string) : option Z :=
  option_map Z.of_int (NilZero.int_of_string s).

Lemma to_int_nonnil z : Z.to_int z <> Decimal.Pos Decimal.Nil
  /\ Z.to_int z <> Decimal.Neg Decimal.Nil.
Proof.
  destruct z as [|p|p]; cbn; [done| |];
    pose proof (DecimalPos.Unsigned.to_uint_nonnil p); split; congruence.
Qed.

Lemma parse_int_itoa z : parse_int (itoa z) = Some z.
Proof.
  unfold parse_int, itoa. rewrite NilZero.isi by apply to_int_nonnil.
  cbn. by rewrite DecimalZ.of_to.
Qed.

(** A number in decimal has no leading zero. *)
Lemma nzhead_head d d' : Decimal.nzhead d <> Decimal.D0 d'.
Proof. induction d; cbn; congruence. Qed.

Lemma to_uint_head p d' : Pos.to_uint p <> Decimal.D0 d'.
Proof.
  intros E. pose proof (DecimalPos.Unsigned.of_to p) as Hp.
  pose proof (DecimalZ.to_of (Decimal.Pos (Pos.to_uint p))) as Hn.
  assert (Z.of_int (Decimal.Pos (Pos.to_uint p)) = Z.pos p) as Hz.
  { cbn. unfold Z.of_uint. by rewrite Hp. }
  rewrite Hz in Hn. cbn in Hn. injection Hn as Hn. unfold Decimal.unorm in Hn.
  destruct (Decimal.nzhead (Pos.to_uint p)) eqn:En; rewrite E in Hn; try discriminate.
  - injection Hn as ->. by rewrite E in Hp.
  - by apply (nzhead_head (Pos.to_uint p) u).
Qed.

(** ** [%q]

    Exact on ASCII; the bytes above 0x7f (printable runes of identifiers) are
    copied. *)
Definition byte_of (c : ascii) : Z := Z.of_N (N_of_ascii c).
Definition chr (z : Z) : ascii := ascii_of_N (Z.to_N z).

Lemma byte_of_chr z : 0 <= z < 256 -> byte_of (chr z) = z.
Proof.
  intros H. unfold byte_of, chr. rewrite N_ascii_embedding by lia. lia.
Qed.

Lemma chr_byte_of c : chr (byte_of c) = c.
Proof. unfold chr, byte_of. rewrite N2Z.id. apply ascii_N_embedding. Qed.

Lemma byte_of_range c : 0 <= byte_of c < 256.
Proof. unfold byte_of. pose proof (N_ascii_bounded c). lia. Qed.

Definition hex_digit (z : Z) : ascii :=
  if (z <? 10)%Z then chr (48 + z) else chr (87 + z).

Definition quote_byte (c : ascii) : string :=
  let b := byte_of c in
  if (b =? 34)%Z || (b =? 92)%Z then String "\" (String c "")
  else if (b =? 7)%Z then "\a" else if (b =? 8)%Z then "\b"
  else if (b =? 12)%Z then "\f" else if (b =? 10)%Z then "\n"
  else if (b =? 13)%Z then "\r" else if (b =? 9)%Z then "\t"
  else if (b =? 11)%Z then "\v"
  else if (b <? 32)%Z || (b =? 127)%Z
       then "\x" +:+ String (hex_digit (b / 16)) (String (hex_digit (b mod 16)) "")
  else String c "".

Fixpoint quote_body (s : string) : string :=
  match s with
  | EmptyString => ""
  | String c s' => quote_byte c +:+ quote_body s'
  end.

Definition dquote : ascii := chr 34.

Definition go_quote (s : string) : string :=
  String dquote (quote_body s) +:+ String dquote "".

Definition fmt_bool (b : bool) : string := if b then "true" else "false".
