(* ===== verification/GoTime.v ===== *)
(** * Go time

    [time.Time], [time.Duration] and the RFC 3339 layout, as far as kube-green
    uses them.  An instant is a number of nanoseconds since the zero time
    (January 1, year 1, 00:00 UTC), so that [IsZero] is [instant = 0]; the zone
    is the offset in seconds the value is printed with.  A [Duration] is an
    int64 of nanoseconds and its arithmetic keeps the width: products wrap,
    [Sub] saturates.  Monotonic clock readings are not modelled (every time the
    controller compares with [now] was parsed or computed by the scheduler and
    has none), nor is the overflow of the years beyond 292 billion. *)

From S2P Require Import Prelude GoStrings.

(** ** Durations *)

Definition wrap64 (z : Z) : Z := (z + 2 ^ 63) mod 2 ^ 64 - 2 ^ 63.
Definition maxDuration : Z := 2 ^ 63 - 1.
Definition minDuration : Z := - 2 ^ 63.
Definition saturate64 (z : Z) : Z := Z.max minDuration (Z.min maxDuration z).

Abbreviation Duration := Z (only parsing).
Definition Millisecond : Duration := 1000000.
Definition Second : Duration := 1000000000.

Definition dmul (a b : Duration) : Duration := wrap64 (a * b).
Definition dneg (a : Duration) : Duration := wrap64 (- a).
(** [d.Milliseconds()]: int64 division truncates towards zero. *)
Definition Milliseconds (d : Duration) : Z := Z.quot d Millisecond.

(** ** Instants *)

Record Time := mkTime { instant : Z; zone : Z }.

#[export] Instance Time_eq_dec : EqDecision Time.
Proof. solve_decision. Defined.

Definition zeroTime : Time := mkTime 0 0.
Definition IsZero (t : Time) : bool := instant t =? 0.
Definition TimeEqual (t u : Time) : bool := instant t =? instant u.
Definition Before (t u : Time) : bool := instant t <? instant u.
Definition AddT (t : Time) (d : Duration) : Time := mkTime (instant t + d) (zone t).
Definition SubT (t u : Time) : Duration := saturate64 (instant t - instant u).

Definition in_int64 (z : Z) : Prop := minDuration <= z <= maxDuration.

Lemma wrap64_id z : in_int64 z -> wrap64 z = z.
Proof.
  unfold in_int64, minDuration, maxDuration, wrap64. intros H.
  rewrite Z.mod_small; lia.
Qed.

Lemma saturate64_id z : in_int64 z -> saturate64 z = z.
Proof. unfold in_int64, saturate64. lia. Qed.

Lemma saturate64_range z : in_int64 (saturate64 z).
Proof. unfold in_int64, saturate64, minDuration, maxDuration. lia. Qed.

Lemma saturate64_pos z : 0 < z -> 0 < saturate64 z.
Proof. unfold saturate64, minDuration, maxDuration. lia. Qed.

(** ** The proleptic Gregorian calendar *)

Definition leap (y : Z) : bool :=
  (y mod 4 =? 0) && (negb (y mod 100 =? 0) || (y mod 400 =? 0)).

Definition daysIn (y m : Z) : Z :=
  if m =? 2 then if leap y then 29 else 28
  else if (m =? 4) || (m =? 6) || (m =? 9) || (m =? 11) then 30 else 31.

(** Days from January 1, year 1 to January 1 of year [y]. *)
Definition daysBeforeYear (y : Z) : Z :=
  let p := y - 1 in 365 * p + p / 4 - p / 100 + p / 400.

(** Days before month [m] (counted from the list of the months so far). *)
Definition daysBeforeMonth (y m : Z) : Z :=
  fold_right Z.add 0
    (map (fun k => daysIn y (Z.of_nat k)) (List.seq 1 (Z.to_nat (m - 1)))).

Definition days_of_civil (y m d : Z) : Z :=
  daysBeforeYear y + daysBeforeMonth y m + (d - 1).

(** The month and day of a day of the year: subtract the months in order. *)
Fixpoint month_of_yday (fuel : nat) (y m yday : Z) : Z * Z :=
  match fuel with
  | O => (m, yday + 1)
  | S fuel' =>
      if yday <? daysIn y m then (m, yday + 1)
      else month_of_yday fuel' y (m + 1) (yday - daysIn y m)
  end.

Definition daysPer400Years : Z := 146097.

Definition civil_of_days (n : Z) : Z * Z * Z :=
  let era := n / daysPer400Years in
  let doe := n mod daysPer400Years in
  let n100 := Z.min 3 (doe / 36524) in
  let doc := doe - 36524 * n100 in
  let n4 := doc / 1461 in
  let d4 := doc - 1461 * n4 in
  let n1 := Z.min 3 (d4 / 365) in
  let yday := d4 - 365 * n1 in
  let y := 400 * era + 100 * n100 + 4 * n4 + n1 + 1 in
  let '(m, d) := month_of_yday 12 y 1 yday in
  (y, m, d).

(** The day-of-year part of the date, checked on both year shapes; the rest of
    the correctness of [civil_of_days] is linear arithmetic. *)
Definition yday_ok (y yday : Z) : bool :=
  let '(m, d) := month_of_yday 12 y 1 yday in
  (1 <=? m) && (m <=? 12) && (1 <=? d) && (d <=? daysIn y m)
  && (daysBeforeMonth y m + (d - 1) =? yday).

Lemma yday_ok_all :
  forallb (fun k => yday_ok 1 (Z.of_nat k)) (List.seq 0 365)
  && forallb (fun k => yday_ok 4 (Z.of_nat k)) (List.seq 0 366) = true.
Proof. vm_compute. reflexivity. Qed.

Lemma daysIn_leap y y' m : leap y = leap y' -> daysIn y m = daysIn y' m.
Proof. unfold daysIn. by intros ->. Qed.

Lemma month_of_yday_leap y y' fuel m n :
  leap y = leap y' -> month_of_yday fuel y m n = month_of_yday fuel y' m n.
Proof.
  intros H. revert m n. induction fuel as [|fuel IH]; intros m n; [done|].
  cbn [month_of_yday]. rewrite (daysIn_leap _ _ m H). by rewrite IH.
Qed.

Lemma yday_ok_leap y y' n : leap y = leap y' -> yday_ok y n = yday_ok y' n.
Proof.
  intros H. unfold yday_ok. rewrite (month_of_yday_leap _ _ _ _ _ H).
  destruct (month_of_yday _ _ _ _) as [m d]. rewrite (daysIn_leap _ _ _ H).
  unfold daysBeforeMonth.
  rewrite (map_ext (fun k => daysIn y (Z.of_nat k)) (fun k => daysIn y' (Z.of_nat k))
    ltac:(intros; by apply daysIn_leap)). done.
Qed.

Lemma yday_ok_spec y n :
  0 <= n < 365 + (if leap y then 1 else 0) -> yday_ok y n = true.
Proof.
  intros Hn. pose proof yday_ok_all as H. apply andb_true_iff in H as [H1 H4].
  rewrite forallb_forall in H1, H4.
  rewrite <- (Z2Nat.id n) by lia.
  destruct (leap y) eqn:E.
  - rewrite (yday_ok_leap y 4) by done. apply H4, in_seq. lia.
  - rewrite (yday_ok_leap y 1) by done. apply H1, in_seq. lia.
Qed.

(** The year found by [civil_of_days] contains the day. *)
Lemma civil_year n :
  let era := n / daysPer400Years in
  let doe := n mod daysPer400Years in
  let n100 := Z.min 3 (doe / 36524) in
  let doc := doe - 36524 * n100 in
  let n4 := doc / 1461 in
  let d4 := doc - 1461 * n4 in
  let n1 := Z.min 3 (d4 / 365) in
  let y := 400 * era + 100 * n100 + 4 * n4 + n1 + 1 in
  daysBeforeYear y + (d4 - 365 * n1) = n
  /\ 0 <= d4 - 365 * n1 < 365 + (if leap y then 1 else 0).
Proof.
  intros era doe n100 doc n4 d4 n1 y.
  assert (Hdoe : n = 146097 * era + doe /\ 0 <= doe < 146097).
  { unfold era, doe, daysPer400Years. split; [by apply Z.div_mod|by apply Z.mod_pos_bound]. }
  assert (Ha : 0 <= n100 <= 3 /\ 0 <= doc < 36524 + (if n100 =? 3 then 1 else 0)).
  { unfold doc, n100. destruct (_ =? 3) eqn:E; Z.to_euclidean_division_equations; lia. }
  assert (Hb : doe - 36524 * n100 = 1461 * n4 + d4 /\ 0 <= d4 < 1461).
  { fold doc. unfold d4, n4. Z.to_euclidean_division_equations; lia. }
  assert (Hb' : 0 <= n4 <= 24 /\ (n4 = 24 -> n100 <> 3 -> d4 < 1460)).
  { unfold doc in Ha. destruct (n100 =? 3) eqn:E; lia. }
  assert (Hc : 0 <= n1 <= 3 /\ 0 <= d4 - 365 * n1 /\ (n1 < 3 -> d4 - 365 * n1 < 365)
               /\ (n1 = 3 -> d4 - 365 * n1 <= 365)).
  { unfold n1. Z.to_euclidean_division_equations; lia. }
  clearbody n1 d4 n4. destruct Ha as [Ha _]. clear doc. clearbody n100 doe era. subst y.
  split.
  - unfold daysBeforeYear. cbn zeta.
    rewrite Z.add_simpl_r. Z.to_euclidean_division_equations; lia.
  - destruct (leap _) eqn:E; [lia|]. unfold leap in E.
    assert (n1 = 3 -> d4 - 365 * n1 <> 365); [|lia]. intros -> Hd.
    apply andb_false_iff in E as [E|E].
    + apply Z.eqb_neq in E. apply E. Z.to_euclidean_division_equations; lia.
    + apply orb_false_iff in E as [E1 E2]. apply negb_false_iff, Z.eqb_eq in E1.
      apply Z.eqb_neq in E2. Z.to_euclidean_division_equations; lia.
Qed.

(** Every day has a well-formed date, and the date determines the day. *)
Lemma civil_of_days_spec n y m d :
  civil_of_days n = (y, m, d) ->
  1 <= m <= 12 /\ 1 <= d <= daysIn y m /\ days_of_civil y m d = n.
Proof.
  pose proof (civil_year n) as Hy. unfold civil_of_days. cbv zeta in *.
  destruct Hy as [Hn Hr]. apply yday_ok_spec in Hr. unfold yday_ok in Hr.
  destruct (month_of_yday _ _ _ _) as [m' d'].
  intros [= <- <- <-]. unfold days_of_civil.
  rewrite !andb_true_iff, !Z.leb_le, !Z.eqb_eq in Hr. lia.
Qed.

(** ** RFC 3339 *)

Definition digit (z : Z) : ascii := chr (48 + z).
Definition digit_val (c : ascii) : option Z :=
  let b := byte_of c in
  if (48 <=? b) && (b <=? 57) then Some (b - 48) else None.

(** The [w] low decimal digits of [z]. *)
Fixpoint digits (w : nat) (z : Z) : string :=
  match w with
  | O => ""
  | S w' => String (digit ((z / 10 ^ Z.of_nat w') mod 10)) (digits w' z)
  end.

(** [appendInt(b, x, width)]: at least [width] digits, with a sign. *)
Definition append_int (w : nat) (z : Z) : string :=
  let u := Z.abs z in
  let body := if u <? 10 ^ Z.of_nat w then digits w u else itoa u in
  if z <? 0 then String "-" body else body.

Definition secondsPerDay : Z := 86400.

(** [t.Format(time.RFC3339)]. *)
Definition FormatRFC3339 (t : Time) : string :=
  let s := instant t / Second + zone t in
  let '(y, m, d) := civil_of_days (s / secondsPerDay) in
  let sod := s mod secondsPerDay in
  let mins := Z.abs (Z.quot (zone t) 60) in
  append_int 4 y +:+ "-" +:+ append_int 2 m +:+ "-" +:+ append_int 2 d +:+ "T"
  +:+ append_int 2 (sod / 3600) +:+ ":" +:+ append_int 2 (sod / 60 mod 60) +:+ ":"
  +:+ append_int 2 (sod mod 60)
  +:+ (if zone t =? 0 then "Z"
       else (if Z.quot (zone t) 60 <? 0 then "-" else "+")
            +:+ append_int 2 (mins / 60) +:+ ":" +:+ append_int 2 (mins mod 60)).

Fixpoint take_digits (w : nat) (acc : Z) (s : string) : option (Z * string) :=
  match w, s with
  | O, _ => Some (acc, s)
  | S w', String c s' => d ← digit_val c; take_digits w' (10 * acc + d) s'
  | S _, EmptyString => None
  end.

Definition expect (c : ascii) (s : string) : option string :=
  match s with
  | String x s' => if Ascii.eqb x c then Some s' else None
  | EmptyString => None
  end.

(** The hour of the layout, "15", also accepts a single digit. *)
Definition take_hour (s : string) : option (Z * string) :=
  match take_digits 2 0 s with
  | Some r => Some r
  | None => take_digits 1 0 s
  end.

(** An optional fraction of a second after the seconds: all the digits are
    consumed, the first nine count. *)
Fixpoint frac_digits (unit_ : Z) (s : string) : Z * string :=
  match s with
  | String c s' =>
      match digit_val c with
      | Some d => let '(n, r) := frac_digits (unit_ / 10) s' in (d * unit_ + n, r)
      | None => (0, s)
      end
  | EmptyString => (0, s)
  end.

Definition take_fraction (s : string) : Z * string :=
  match s with
  | String p (String c s') =>
      if (Ascii.eqb p "." || Ascii.eqb p ",") && bool_decide (is_Some (digit_val c))
      then frac_digits (Second / 10) (String c s')
      else (0, s)
  | _ => (0, s)
  end.

Definition take_zone (s : string) : option (Z * string) :=
  match s with
  | String "Z" s' => Some (0, s')
  | String sg s' =>
      '(hh, s') ← take_digits 2 0 s'; s' ← expect ":" s'; '(mm, s') ← take_digits 2 0 s';
      if (24 <? hh) || (60 <? mm) then None
      else if Ascii.eqb sg "+" then Some ((hh * 60 + mm) * 60, s')
      else if Ascii.eqb sg "-" then Some (- ((hh * 60 + mm) * 60), s')
      else None
  | EmptyString => None
  end.

(** [time.Parse(time.RFC3339, s)]; the text of the error is abbreviated. *)
Definition parse_rfc3339 (s : string) : option Time :=
  '(y, s) ← take_digits 4 0 s; s ← expect "-" s;
  '(mo, s) ← take_digits 2 0 s; s ← expect "-" s;
  '(d, s) ← take_digits 2 0 s; s ← expect "T" s;
  '(hh, s) ← take_hour s; s ← expect ":" s;
  '(mm, s) ← take_digits 2 0 s; s ← expect ":" s;
  '(ss, s) ← take_digits 2 0 s;
  let '(ns, s) := take_fraction s in
  '(off, s) ← take_zone s;
  if (1 <=? mo) && (mo <=? 12) && (hh <? 24) && (mm <? 60) && (ss <? 60)
     && (1 <=? d) && (d <=? daysIn y mo) && String.eqb s ""
  then Some (mkTime ((days_of_civil y mo d * secondsPerDay + hh * 3600 + mm * 60 + ss - off)
                     * Second + ns) off)
  else None.

Definition ParseRFC3339 (s : string) : result Time :=
  match parse_rfc3339 s with
  | Some t => Ok t
  | None => Err (errorf ("parsing time " +:+ go_quote s))
  end.

Example format_ex :
  FormatRFC3339 (mkTime ((days_of_civil 2021 3 23 * 86400 + 20 * 3600 + 5 * 60 + 59) * Second + 999) 3600)
  = "2021-03-23T21:05:59+01:00"%string.
Proof. vm_compute. reflexivity. Qed.

Example parse_ex :
  option_map FormatRFC3339 (parse_rfc3339 "2021-03-23T20:05:59.000Z")
  = Some "2021-03-23T20:05:59Z"%string.
Proof. vm_compute. reflexivity. Qed.

(** *** Round trip *)

Lemma digit_val_digit z : 0 <= z <= 9 -> digit_val (digit z) = Some z.
Proof.
  intros H. unfold digit_val, digit. rewrite byte_of_chr by lia.
  destruct (_ && _) eqn:E; [f_equal; lia|].
  apply andb_false_iff in E. rewrite !Z.leb_gt in E. lia.
Qed.

Lemma take_digits_digits w acc z rest :
  take_digits w acc (digits w z +:+ rest)
  = Some (acc * 10 ^ Z.of_nat w + z mod 10 ^ Z.of_nat w, rest).
Proof.
  revert acc. induction w as [|w IH]; intros acc.
  - rewrite append_nil_l. cbn [take_digits Z.of_nat]. f_equal. f_equal.
    rewrite Z.pow_0_r, Z.mod_1_r. lia.
  - cbn [digits]. rewrite append_cons. cbn [take_digits].
    rewrite digit_val_digit by (pose proof (Z.mod_pos_bound (z / 10 ^ Z.of_nat w) 10); lia).
    cbn [mbind option_bind]. rewrite IH. do 2 f_equal.
    replace (Z.of_nat (S w)) with (Z.of_nat w + 1) by lia.
    rewrite Z.pow_add_r, Z.pow_1_r by lia.
    rewrite (Z.mul_comm _ 10), (Z.mul_comm 10 (10 ^ _)), Z.rem_mul_r by lia. lia.
Qed.

Lemma append_int_digits w z : 0 <= z < 10 ^ Z.of_nat w -> append_int w z = digits w z.
Proof.
  intros H. unfold append_int. rewrite Z.abs_eq by lia.
  destruct (Z.ltb_spec z (10 ^ Z.of_nat w)); [|lia].
  by destruct (Z.ltb_spec z 0); [lia|].
Qed.

Lemma take_append_int w z rest :
  0 <= z < 10 ^ Z.of_nat w -> take_digits w 0 (append_int w z +:+ rest) = Some (z, rest).
Proof.
  intros H. rewrite append_int_digits, take_digits_digits by done.
  rewrite Z.mod_small by done. do 2 f_equal.
Qed.

Lemma take_hour_append_int z rest :
  0 <= z < 100 -> take_hour (append_int 2 z +:+ rest) = Some (z, rest).
Proof. intros H. unfold take_hour. by rewrite take_append_int. Qed.

Lemma expect_cons c s : expect c (String c s) = Some s.
Proof. cbn. by rewrite Ascii.eqb_refl. Qed.

Lemma daysIn_le y m : daysIn y m <= 31.
Proof. unfold daysIn. repeat case_match; lia. Qed.

Lemma take_fraction_none c s :
  Ascii.eqb c "." = false -> Ascii.eqb c "," = false ->
  take_fraction (String c s) = (0, String c s).
Proof. intros H1 H2. destruct s as [|x s]; cbn; [done|]. by rewrite H1, H2. Qed.

(** The zone suffix [FormatRFC3339] prints. *)
Definition zone_suffix (z : Z) : string :=
  if z =? 0 then "Z"
  else (if Z.quot z 60 <? 0 then "-" else "+")
       +:+ append_int 2 (Z.abs (Z.quot z 60) / 60) +:+ ":"
       +:+ append_int 2 (Z.abs (Z.quot z 60) mod 60).

(** A zone the layout can print: whole minutes, at most a day. *)
Definition zone_ok (z : Z) : bool := (z mod 60 =? 0) && (Z.abs z <=? 86400).

Lemma take_zone_suffix z :
  zone_ok z = true ->
  take_zone (zone_suffix z) = Some (z, ""%string)
  /\ forall r, take_fraction (zone_suffix z +:+ r) = (0, zone_suffix z +:+ r).
Proof.
  unfold zone_ok. rewrite andb_true_iff, Z.eqb_eq, Z.leb_le. intros [Hm Ha].
  unfold zone_suffix. destruct (Z.eqb_spec z 0) as [->|Hz]; [split; [done|by intros []]|].
  set (q := Z.quot z 60). assert (Hq : z = 60 * q).
  { unfold q. Z.to_euclidean_division_equations; lia. }
  assert (0 <= Z.abs q / 60 < 100 /\ 0 <= Z.abs q mod 60 < 60 /\ Z.abs q / 60 <= 24
          /\ Z.abs q = 60 * (Z.abs q / 60) + Z.abs q mod 60) as (Hh & Hmm & H24 & He).
  { Z.to_euclidean_division_equations; lia. }
  split.
  - destruct (Z.ltb_spec q 0); rewrite append_cons, append_nil_l; cbn [take_zone];
      rewrite take_append_int by (cbn; lia); cbn [mbind option_bind];
      rewrite append_cons, append_nil_l, expect_cons; cbn [mbind option_bind];
      rewrite <- (append_nil_r (append_int 2 (Z.abs q mod 60))), take_append_int by (cbn; lia);
      cbn [mbind option_bind];
      destruct (Z.ltb_spec 24 (Z.abs q / 60)); try lia;
      destruct (Z.ltb_spec 60 (Z.abs q mod 60)); try lia; cbn; do 2 f_equal; lia.
  - intros r. destruct (Z.ltb_spec q 0); autorewrite with go_str;
      by apply take_fraction_none.
Qed.

(** A time whose local year has four digits, in a zone the layout prints. *)
Definition printable (t : Time) : bool :=
  let '(y, _, _) := civil_of_days ((instant t / Second + zone t) / secondsPerDay) in
  (0 <=? y) && (y <=? 9999) && zone_ok (zone t).

(** Formatting and parsing back gives the same instant, cut to the second. *)
Lemma parse_format_rfc3339 t :
  printable t = true ->
  parse_rfc3339 (FormatRFC3339 t) = Some (mkTime (instant t / Second * Second) (zone t)).
Proof.
  unfold printable, FormatRFC3339. cbv zeta. fold (zone_suffix (zone t)).
  set (s := instant t / Second + zone t).
  destruct (civil_of_days (s / secondsPerDay)) as [[y m] d] eqn:E.
  rewrite !andb_true_iff, !Z.leb_le. intros [[Hy0 Hy] Hz].
  apply civil_of_days_spec in E as (Hm & Hd & He).
  pose proof (daysIn_le y m) as H31.
  destruct (take_zone_suffix _ Hz) as [Hzone Hfrac].
  assert (s = s / 86400 * 86400 + s mod 86400 /\ 0 <= s mod 86400 < 86400) as [Hs Hr].
  { Z.to_euclidean_division_equations; lia. }
  unfold secondsPerDay in *. set (r := s mod 86400) in *.
  assert (0 <= r / 3600 < 24 /\ 0 <= r / 60 mod 60 < 60 /\ 0 <= r mod 60 < 60
          /\ r = r / 3600 * 3600 + r / 60 mod 60 * 60 + r mod 60) as (Hh & Hmi & Hse & Hrr).
  { Z.to_euclidean_division_equations; lia. }
  unfold parse_rfc3339.
  repeat first [ rewrite take_append_int by (cbn; lia)
               | rewrite take_hour_append_int by lia
               | rewrite append_cons | rewrite append_nil_l | rewrite expect_cons
               | progress cbn [mbind option_bind] ].
  rewrite <- (append_nil_r (zone_suffix _)), Hfrac, append_nil_r, Hzone.
  cbn [mbind option_bind].
  repeat match goal with
         | |- context [?a <=? ?b] => destruct (Z.leb_spec a b); [|lia]
         | |- context [?a <? ?b] => destruct (Z.ltb_spec a b); [|lia]
         end.
  assert (Hsdef : s = instant t / Second + zone t) by done.
  clearbody s. rewrite He, Z.add_0_r. unfold secondsPerDay. cbn [andb String.eqb]. do 3 f_equal. lia.
Qed.
