(* ===== verification/GoPath.v ===== *)
(** * Go's path and filepath packages, on Unix *)

From S2P Require Import Prelude GoStrings.

(** One component of a path on the stack of the components before it. *)
Definition clean_step (rooted : bool) (stack : list string) (c : string) : list string :=
  if String.eqb c "" || String.eqb c "." then stack
  else if String.eqb c ".." then
    match stack with
    | top :: rest => if String.eqb top ".." then ".."%string :: stack else rest
    | [] => if rooted then [] else [".."%string]
    end
  else c :: stack.

Definition starts_with_slash (p : string) : bool :=
  match p with String c _ => Ascii.eqb c "/" | EmptyString => false end.

(** [filepath.Clean] (on Unix). *)
Definition Clean (p : string) : string :=
  let rooted := starts_with_slash p in
  let cs := rev (fold_left (clean_step rooted) (split_on "/" p) []) in
  match cs, rooted with
  | [], false => "."
  | _, true => "/" +:+ join "/" cs
  | _, false => join "/" cs
  end.

(** [filepath.Join]: empty elements are ignored. *)
Definition Join (a b : string) : string :=
  if String.eqb a "" then (if String.eqb b "" then "" else Clean b)
  else if String.eqb b "" then Clean a else Clean (a +:+ "/" +:+ b).

Lemma clean_step_nonempty rooted stack c :
  Forall (fun x => x <> ""%string) stack -> Forall (fun x => x <> ""%string) (clean_step rooted stack c).
Proof.
  intros H. unfold clean_step.
  destruct (String.eqb_spec c ""); [done|]. destruct (String.eqb c "."); [done|]. cbn [orb].
  destruct (String.eqb c ".."); [|by constructor].
  destruct H as [|top rest Ht H]; [by destruct rooted; repeat constructor|].
  destruct (String.eqb top ".."); [by repeat constructor|done].
Qed.

Lemma clean_steps_nonempty rooted cs stack :
  Forall (fun x => x <> ""%string) stack ->
  Forall (fun x => x <> ""%string) (fold_left (clean_step rooted) cs stack).
Proof.
  revert stack. induction cs as [|c cs IH]; intros stack H; [done|]. by apply IH, clean_step_nonempty.
Qed.

(** A cleaned path is never empty. *)
Lemma Clean_nonempty p : Clean p <> ""%string.
Proof.
  unfold Clean. set (r := starts_with_slash p).
  pose proof (clean_steps_nonempty r (split_on "/" p) [] (Forall_nil_2 _)) as H.
  apply Forall_rev in H. destruct H as [|c cs Hc _]; destruct r; try done.
  destruct cs; [done|]. cbn. by destruct c.
Qed.

Lemma Join_nonempty a b : b <> ""%string -> Join a b <> ""%string.
Proof.
  intros Hb. unfold Join. destruct (String.eqb_spec b ""); [done|].
  destruct (String.eqb a ""); apply Clean_nonempty.
Qed.
