(* ===== verification/GoFlag.v ===== *)
(** * Go's flag package

    The command line: [strconv.ParseBool], [strconv.ParseInt] with base 0 at any
    width, and the parser of [flag.FlagSet], over any set of flags.  The theorem
    says which arguments set which flags. *)

From Stdlib Require Import DecimalString.
From S2P Require Import Prelude GoStrings GoTime.

(** ** strconv *)

Definition errSyntaxNum : error := errorf "parse error".
Definition errRange : error := errorf "value out of range".

Definition ParseBool (s : string) : result bool :=
  if bool_decide (s ∈ ["1"; "t"; "T"; "TRUE"; "true"; "True"]%string) then Ok true
  else if bool_decide (s ∈ ["0"; "f"; "F"; "FALSE"; "false"; "False"]%string) then Ok false
  else Err errSyntaxNum.

Definition between (lo hi : ascii) (c : ascii) : bool :=
  (byte_of lo <=? byte_of c) && (byte_of c <=? byte_of hi).

(** [lower(c)]: the bit 0x20 set. *)
Definition lower (c : ascii) : ascii := chr (Z.lor (byte_of c) 32).

Definition digit_value (c : ascii) : option Z :=
  if between "0" "9" c then Some (byte_of c - 48)
  else if between "a" "z" (lower c) then Some (byte_of (lower c) - 87)
  else None.

(** [maxVal := uint64(1)<<uint(bitSize) - 1] *)
Definition maxVal (bitSize : Z) : Z := 2 ^ bitSize - 1.

(** The loop of [ParseUint] with base 0; underscores are skipped. *)
Fixpoint parse_digits (bitSize base : Z) (s : string) (n : Z) : result Z :=
  match s with
  | EmptyString => Ok n
  | String c s =>
      if Ascii.eqb c "_" then parse_digits bitSize base s n
      else match digit_value c with
           | None => Err errSyntaxNum
           | Some d =>
               if base <=? d then Err errSyntaxNum
               else if maxVal bitSize <? n * base + d then Err errRange
               else parse_digits bitSize base s (n * base + d)
           end
  end.

(** The base and the digits that follow the prefix. *)
Definition base_prefix (s : string) : Z * string :=
  match s with
  | String c0 (String c1 ((String _ _) as rest)) =>
      if Ascii.eqb c0 "0" then
        if Ascii.eqb (lower c1) "b" then (2, rest)
        else if Ascii.eqb (lower c1) "o" then (8, rest)
        else if Ascii.eqb (lower c1) "x" then (16, rest)
        else (8, String c1 rest)
      else (10, s)
  | String c0 rest => if Ascii.eqb c0 "0" then (8, rest) else (10, s)
  | EmptyString => (10, s)
  end.

(** What [underscoreOK] saw last. *)
Inductive seen := SBegin | SDigit | SUnderscore | SOther.

Fixpoint underscore_run (hex : bool) (s : string) (i : seen) : bool :=
  match s with
  | EmptyString => match i with SUnderscore => false | _ => true end
  | String c s =>
      if between "0" "9" c || (hex && between "a" "f" (lower c)) then underscore_run hex s SDigit
      else if Ascii.eqb c "_" then
        match i with SDigit => underscore_run hex s SUnderscore | _ => false end
      else match i with SUnderscore => false | _ => underscore_run hex s SOther end
  end.

(** [underscoreOK], on a string without its sign. *)
Definition underscoreOK (s : string) : bool :=
  match s with
  | String c0 (String c1 rest) =>
      let l := lower c1 in
      if Ascii.eqb c0 "0" && (Ascii.eqb l "b" || Ascii.eqb l "o" || Ascii.eqb l "x")
      then underscore_run (Ascii.eqb l "x") rest SDigit
      else underscore_run false s SBegin
  | _ => underscore_run false s SBegin
  end.

Definition has_underscore (s : string) : bool := negb (count "_" s =? 0)%nat.

Definition ParseUint0 (bitSize : Z) (s : string) : result Z :=
  match s with
  | EmptyString => Err errSyntaxNum
  | _ =>
      let '(base, digits) := base_prefix s in
      let? n := parse_digits bitSize base digits 0 in
      if has_underscore digits && negb (underscoreOK s) then Err errSyntaxNum else Ok n
  end.

(** [strconv.ParseInt(s, 0, bitSize)] *)
Definition ParseInt0 (bitSize : Z) (s : string) : result Z :=
  let '(neg, digits) :=
    match s with
    | String "+" s' => (false, s')
    | String "-" s' => (true, s')
    | _ => (false, s)
    end in
  let? n := ParseUint0 bitSize digits in
  if negb neg && (2 ^ (bitSize - 1) <=? n) then Err errRange
  else if neg && (2 ^ (bitSize - 1) <? n) then Err errRange
  else Ok (if neg then - n else n).

(** ** flag *)

(** A flag that sets a part of [S]. *)
Record Flag (S : Type) := mkFlag {
  isBoolFlag : bool;
  set_flag : string -> S -> result S
}.
Arguments mkFlag {S}.
Arguments isBoolFlag {S}.
Arguments set_flag {S}.

(** [flag.ErrHelp], for which the process exits with 0; otherwise with 2. *)
Definition ErrHelp : error := errorf "flag: help requested".

(** The name and the value of the text after the dashes; an equals sign cannot
    come first. *)
Fixpoint cut_equals (s : string) : string * option string :=
  match s with
  | EmptyString => (""%string, None)
  | String c s' =>
      if Ascii.eqb c "=" then (""%string, Some s')
      else let '(name, v) := cut_equals s' in (String c name, v)
  end.

Definition starts (c : ascii) (s : string) : bool :=
  match s with String x _ => Ascii.eqb x c | EmptyString => false end.

(** What an argument is: a flag with the text after its dashes, or not. *)
Inductive arg := NotFlag | Terminator | BadSyntax | FlagText (text : string).

Definition classify (s : string) : arg :=
  match s with
  | String "-" (String c rest) =>
      if Ascii.eqb c "-" && String.eqb rest "" then Terminator
      else
        let text := if Ascii.eqb c "-" then rest else String c rest in
        if String.eqb text "" || starts "-" text || starts "=" text then BadSyntax
        else FlagText text
  | _ => NotFlag
  end.

Section Parse.
Context {S : Type}.
Variable formal : string -> option (Flag S).

Definition failf (msg : string) : error := errorf msg.

(** [FlagSet.Parse]: the flags set and the arguments that are left. *)
Fixpoint Parse (args : list string) (st : S) : result (S * list string) :=
  match args with
  | [] => Ok (st, [])
  | s :: rest =>
      match classify s with
      | NotFlag => Ok (st, args)
      | Terminator => Ok (st, rest)
      | BadSyntax => Err (failf ("bad flag syntax: " +:+ s))
      | FlagText text =>
          let '(name, value) := cut_equals text in
          match formal name with
          | None =>
              if String.eqb name "help" || String.eqb name "h" then Err ErrHelp
              else Err (failf ("flag provided but not defined: -" +:+ name))
          | Some fl =>
              let invalid v (e : error) :=
                failf (if isBoolFlag fl
                       then "invalid boolean value " +:+ go_quote v +:+ " for -" +:+ name +:+ ": " +:+ err_msg e
                       else "invalid value " +:+ go_quote v +:+ " for flag -" +:+ name +:+ ": " +:+ err_msg e) in
              let set v := match set_flag fl v st with Ok st' => Ok st' | Err e => Err (invalid v e) end in
              if isBoolFlag fl then
                let? st' := set (default "true"%string value) in Parse rest st'
              else
                match value, rest with
                | Some v, _ => let? st' := set v in Parse rest st'
                | None, v :: rest' => let? st' := set v in Parse rest' st'
                | None, [] => Err (failf ("flag needs an argument: -" +:+ name))
                end
          end
      end
  end.
End Parse.

(** ** Theorems *)

(** *** Numbers *)

(** The value of decimal digits after [n]. *)
Fixpoint uval (d : Decimal.uint) (n : Z) : Z :=
  match d with
  | Decimal.Nil => n
  | Decimal.D0 d => uval d (n * 10 + 0) | Decimal.D1 d => uval d (n * 10 + 1)
  | Decimal.D2 d => uval d (n * 10 + 2) | Decimal.D3 d => uval d (n * 10 + 3)
  | Decimal.D4 d => uval d (n * 10 + 4) | Decimal.D5 d => uval d (n * 10 + 5)
  | Decimal.D6 d => uval d (n * 10 + 6) | Decimal.D7 d => uval d (n * 10 + 7)
  | Decimal.D8 d => uval d (n * 10 + 8) | Decimal.D9 d => uval d (n * 10 + 9)
  end.

Lemma uval_acc d p : Z.pos (Pos.of_uint_acc d p) = uval d (Z.pos p).
Proof. revert p. induction d; intros p; cbn [Pos.of_uint_acc uval]; try rewrite IHd; f_equal; lia. Qed.

Lemma uval_of_uint d : Z.of_N (Pos.of_uint d) = uval d 0.
Proof. induction d; cbn; try done; by rewrite uval_acc. Qed.

Lemma uval_ge d n : 0 <= n -> n <= uval d n.
Proof. revert n. induction d; intros n Hn; cbn [uval]; [lia|..]; (etrans; [|apply IHd]); lia. Qed.

Lemma digit_step bits c k s n v :
  digit_value c = Some k -> Ascii.eqb c "_" = false -> k < 10 ->
  n * 10 + k <= v -> v <= maxVal bits ->
  parse_digits bits 10 (String c s) n = parse_digits bits 10 s (n * 10 + k).
Proof.
  intros Hd Hc Hk Hv Hm. cbn [parse_digits]. rewrite Hc, Hd.
  rewrite (proj2 (Z.leb_gt 10 k)) by lia. by rewrite (proj2 (Z.ltb_ge _ _)) by lia.
Qed.

Lemma digits_read bits d n :
  0 <= n -> uval d n <= maxVal bits ->
  parse_digits bits 10 (NilEmpty.string_of_uint d) n = Ok (uval d n).
Proof.
  revert n. induction d as [|d IH|d IH|d IH|d IH|d IH|d IH|d IH|d IH|d IH|d IH]; intros n Hn Hm;
    cbn [uval NilEmpty.string_of_uint] in *; [done|..];
    match goal with |- parse_digits _ 10 (String ?c _) _ = Ok (uval _ (_ + ?k)) =>
      rewrite (digit_step bits c k _ _ _ eq_refl eq_refl ltac:(lia) (uval_ge d (n * 10 + k) ltac:(lia)) Hm) end;
    (apply IH; [lia|exact Hm]).
Qed.

Lemma decimal_no_underscore d : count "_" (NilEmpty.string_of_uint d) = 0%nat.
Proof. by induction d. Qed.

(** A decimal without a leading zero. *)
Lemma uint_read bits d :
  d <> Decimal.Nil -> (forall d', d <> Decimal.D0 d') -> uval d 0 <= maxVal bits ->
  ParseUint0 bits (NilEmpty.string_of_uint d) = Ok (uval d 0).
Proof.
  intros Hn Hz Hm. pose proof (digits_read bits d 0 ltac:(lia) Hm) as Hd.
  pose proof (decimal_no_underscore d) as Hu.
  assert (base_prefix (NilEmpty.string_of_uint d) = (10, NilEmpty.string_of_uint d)) as Hb.
  { destruct d; try done; [by destruct (Hz d)|..]; cbn;
      destruct (NilEmpty.string_of_uint d) as [|? [|? ?]]; done. }
  unfold ParseUint0, has_underscore. rewrite Hb, Hd, Hu. cbn [rbind Nat.eqb negb andb].
  by destruct d.
Qed.

(** The integers of a width. *)
Definition in_int (bits : Z) (z : Z) : Prop := - 2 ^ (bits - 1) <= z < 2 ^ (bits - 1).

Lemma maxVal_half bits : 0 < bits -> 2 ^ (bits - 1) <= maxVal bits.
Proof.
  intros Hb. unfold maxVal. replace bits with (Z.succ (bits - 1)) at 2 by lia.
  rewrite Z.pow_succ_r by lia. pose proof (Z.pow_pos_nonneg 2 (bits - 1)). lia.
Qed.

(** The decimal form of an integer of the width is read back. *)
Lemma ParseInt0_itoa bits z : 0 < bits -> in_int bits z -> ParseInt0 bits (itoa z) = Ok z.
Proof.
  intros Hb. pose proof (maxVal_half bits Hb) as Hmax. unfold in_int. intros Hz.
  unfold itoa. destruct z as [|p|p].
  1: { unfold ParseInt0. cbn. by rewrite (proj2 (Z.leb_gt _ _)) by lia. }
  all: cbn [Z.to_int NilZero.string_of_int];
    pose proof (DecimalPos.Unsigned.to_uint_nonnil p) as Hn; pose proof (to_uint_head p) as H0;
    pose proof (uval_of_uint (Pos.to_uint p)) as Hu; rewrite DecimalPos.Unsigned.of_to in Hu; cbn in Hu;
    pose proof (uint_read bits (Pos.to_uint p) Hn H0 ltac:(lia)) as Hr;
    assert (NilZero.string_of_uint (Pos.to_uint p) = NilEmpty.string_of_uint (Pos.to_uint p)) as ->
      by (by destruct (Pos.to_uint p)).
  - unfold ParseInt0.
    assert (forall A (a b : string -> A) c, (match NilEmpty.string_of_uint (Pos.to_uint p) with
      | String "+" s' => a s' | String "-" s' => b s' | _ => c end) = c) as ->
      by (intros; by destruct (Pos.to_uint p)).
    rewrite Hr, <- Hu. cbn [rbind negb andb]. by rewrite (proj2 (Z.leb_gt _ _)) by lia.
  - unfold ParseInt0. cbn [append]. rewrite Hr, <- Hu. cbn [rbind negb andb].
    by rewrite (proj2 (Z.ltb_ge _ _)) by lia.
Qed.

Lemma ParseBool_fmt b : ParseBool (fmt_bool b) = Ok b.
Proof. by destruct b. Qed.

(** *** The command line *)

(** A flag name that can be written: not empty, no equals sign, no leading dash. *)
Definition name_ok (name : string) : bool :=
  negb (String.eqb name "") && negb (starts "-" name) && (count "=" name =? 0)%nat.

Section ParseSpec.
Context {S : Type}.
Variable formal : string -> option (Flag S).

(** The arguments that set the flag [name] to [v]. *)
Inductive renders (name v : string) : list string -> Prop :=
| renders_equals dash :
    dash = "-"%string \/ dash = "--"%string -> renders name v [dash +:+ name +:+ "=" +:+ v]
| renders_next dash fl :
    dash = "-"%string \/ dash = "--"%string -> formal name = Some fl -> isBoolFlag fl = false ->
    renders name v [dash +:+ name; v]
| renders_bool dash fl :
    dash = "-"%string \/ dash = "--"%string -> formal name = Some fl -> isBoolFlag fl = true ->
    v = "true"%string -> renders name v [dash +:+ name].

(** The arguments after the flags, and those that [Parse] leaves. *)
Inductive stops_at : list string -> list string -> Prop :=
| stops_end : stops_at [] []
| stops_terminator rest : stops_at ("--"%string :: rest) rest
| stops_word s rest : starts "-" s = false \/ s = "-"%string -> stops_at (s :: rest) (s :: rest).

(** Setting flags one after the other. *)
Fixpoint set_all (settings : list (string * string)) (st : S) : option S :=
  match settings with
  | [] => Some st
  | (name, v) :: settings =>
      fl ← formal name;
      match set_flag fl v st with Ok st' => set_all settings st' | Err _ => None end
  end.

Lemma starts_append c s t : s <> ""%string -> starts c (s +:+ t) = starts c s.
Proof. by destruct s. Qed.

Lemma starts_count c s : count c s = 0%nat -> starts c s = false.
Proof. destruct s as [|x s]; [done|]. cbn. by destruct (Ascii.eqb x c). Qed.

Lemma classify_flag dash name t :
  dash = "-"%string \/ dash = "--"%string -> name_ok name = true ->
  classify (dash +:+ name +:+ t) = FlagText (name +:+ t).
Proof.
  unfold name_ok. rewrite !andb_true_iff, !negb_true_iff, Nat.eqb_eq. intros Hd [[Hn Hs] Hc].
  apply String.eqb_neq in Hn. pose proof (starts_count "=" name Hc) as He.
  destruct name as [|c name]; [done|]. cbn in Hs, He.
  destruct Hd as [->| ->]; rewrite !append_cons, !append_nil_l; cbn; rewrite Hs; cbn; by rewrite ?Hs, He.
Qed.

Lemma cut_name name t : count "=" name = 0%nat ->
  cut_equals (name +:+ t) = let '(n, v) := cut_equals t in (name +:+ n, v).
Proof.
  induction name as [|c name IH]; intros Hc; [rewrite append_nil_l; by destruct (cut_equals t)|].
  rewrite append_cons. cbn in *. destruct (Ascii.eqb c "="); [done|]. rewrite IH by done.
  by destruct (cut_equals t).
Qed.

(** One flag is read. *)
Lemma Parse_one name v args rest st fl st' :
  name_ok name = true -> formal name = Some fl -> set_flag fl v st = Ok st' -> renders name v args ->
  Parse formal (args ++ rest) st = Parse formal rest st'.
Proof.
  intros Hn Hf Hs Hr.
  assert (count "=" name = 0%nat) as Hc.
  { unfold name_ok in Hn. rewrite !andb_true_iff, Nat.eqb_eq in Hn. tauto. }
  assert (cut_equals name = (name, None)) as Hcut.
  { pose proof (cut_name name "" Hc) as H. cbn in H. by rewrite !append_nil_r in H. }
  pose proof (fun dash t Hd => classify_flag dash name t Hd Hn) as Hcl.
  destruct Hr as [dash Hd|dash fl' Hd Hf' Hb|dash fl' Hd Hf' Hb ->].
  - assert (cut_equals (name +:+ "=" +:+ v) = (name, Some v)) as Hcv.
    { rewrite cut_name by done. change (cut_equals ("=" +:+ v)) with (""%string, Some v). cbv iota beta.
      by rewrite append_nil_r. }
    cbn [app Parse]. rewrite Hcl, Hcv, Hf by done. cbn [default]. unfold id. rewrite Hs.
    by destruct (isBoolFlag fl).
  - rewrite Hf in Hf'. injection Hf' as <-. cbn [app Parse].
    rewrite <- (append_nil_r name) at 1. rewrite Hcl, append_nil_r, Hcut, Hf, Hb, Hs by done. done.
  - rewrite Hf in Hf'. injection Hf' as <-. cbn [app Parse].
    rewrite <- (append_nil_r name) at 1. rewrite Hcl, append_nil_r, Hcut, Hf, Hb by done. cbn. by rewrite Hs.
Qed.

Lemma Parse_stop rest left st : stops_at rest left -> Parse formal rest st = Ok (st, left).
Proof.
  destruct 1 as [|rest|s rest Hs]; [done|done|]. cbn [Parse].
  assert (classify s = NotFlag) as ->; [|done].
  destruct Hs as [Hs| ->]; [|done]. destruct s as [|c s]; [done|]. cbn in Hs. unfold classify.
  destruct c as [[] [] [] [] [] [] [] []]; try done.
Qed.

(** Flags are set in their order, each in any of its forms; the parser stops at
    the end, at a double dash or at the first argument that is no flag. *)
Lemma Parse_all settings argss rest left st st' :
  Forall (fun nv => name_ok nv.1 = true) settings ->
  Forall2 (fun nv => renders nv.1 nv.2) settings argss ->
  set_all settings st = Some st' -> stops_at rest left ->
  Parse formal (concat argss ++ rest) st = Ok (st', left).
Proof.
  intros Hn Hr. revert st Hn. induction Hr as [|[name v] args settings argss H1 _ IH]; intros st Hn Hs Hrest.
  - injection Hs as <-. by apply Parse_stop.
  - apply Forall_cons in Hn as [Hn1 Hn]. cbn in *.
    destruct (formal name) as [fl|] eqn:Hf; [|done]. cbn in Hs.
    destruct (set_flag fl v st) as [st1|e] eqn:E1; [|done].
    rewrite <- app_assoc, (Parse_one name v args _ _ fl st1) by done. by apply IH.
Qed.
End ParseSpec.
