(* ===== verification/GoJson.v ===== *)
(** * encoding/json

    Go's JSON codec as kube-green uses it: [json.Marshal] with its HTML-safe
    escapes and sorted keys, [json.Unmarshal] with its syntax, its nesting bound
    and its UTF-8 repair.  A document is a [json] value; numbers keep their
    literal.  A Go map with string keys is an object whose keys are strictly
    sorted ([canonical]), so that printing in list order is printing in key
    order. *)

From S2P Require Import Prelude GoStrings.

(** ** UTF-8 *)

(** A decoded piece of text: an ASCII byte, a well-formed multi-byte sequence
    with its code point, or one byte that starts no well-formed sequence. *)
Inductive rune :=
| RByte (c : ascii)
| RMulti (bytes : string) (cp : Z)
| RBad.

#[export] Instance rune_eq_dec : EqDecision rune.
Proof. solve_decision. Defined.

Definition in_range (lo hi : Z) (c : ascii) : bool :=
  (lo <=? byte_of c) && (byte_of c <=? hi).

Definition cont (c : ascii) : Z := byte_of c - 128.

Definition dec2 (a b : ascii) : option rune :=
  if in_range 194 223 a && in_range 128 191 b
  then Some (RMulti (String a (String b "")) ((byte_of a - 192) * 64 + cont b))
  else None.

Definition dec3 (a b c : ascii) : option rune :=
  if ((in_range 224 224 a && in_range 160 191 b)
      || (in_range 225 236 a && in_range 128 191 b)
      || (in_range 237 237 a && in_range 128 159 b)
      || (in_range 238 239 a && in_range 128 191 b)) && in_range 128 191 c
  then Some (RMulti (String a (String b (String c "")))
               ((byte_of a - 224) * 4096 + cont b * 64 + cont c))
  else None.

Definition dec4 (a b c d : ascii) : option rune :=
  if ((in_range 240 240 a && in_range 144 191 b)
      || (in_range 241 243 a && in_range 128 191 b)
      || (in_range 244 244 a && in_range 128 143 b))
     && in_range 128 191 c && in_range 128 191 d
  then Some (RMulti (String a (String b (String c (String d ""))))
               ((byte_of a - 240) * 262144 + cont b * 4096 + cont c * 64 + cont d))
  else None.

(** [utf8.DecodeRune] repeated over a string. *)
Fixpoint runes (s : string) : list rune :=
  match s with
  | EmptyString => []
  | String a s1 =>
      if byte_of a <? 128 then RByte a :: runes s1
      else match s1 with
      | EmptyString => RBad :: runes s1
      | String b s2 =>
          match dec2 a b with
          | Some r => r :: runes s2
          | None => match s2 with
            | EmptyString => RBad :: runes s1
            | String c s3 =>
                match dec3 a b c with
                | Some r => r :: runes s3
                | None => match s3 with
                  | EmptyString => RBad :: runes s1
                  | String d s4 =>
                      match dec4 a b c d with
                      | Some r => r :: runes s4
                      | None => RBad :: runes s1
                      end
                  end
                end
            end
          end
      end
  end.

Definition byte_string (l : list Z) : string :=
  fold_right (fun z s => String (chr z) s) ""%string l.

(** [utf8.AppendRune]: surrogates and values past U+10FFFF give U+FFFD. *)
Definition rune_of_cp (cp : Z) : rune :=
  let bad := (cp <? 0) || (1114111 <? cp) || ((55296 <=? cp) && (cp <=? 57343)) in
  let p := if bad then 65533 else cp in
  if p <? 128 then RByte (chr p)
  else if p <? 2048 then RMulti (byte_string [192 + p / 64; 128 + p mod 64]) p
  else if p <? 65536
       then RMulti (byte_string [224 + p / 4096; 128 + p / 64 mod 64; 128 + p mod 64]) p
  else RMulti (byte_string [240 + p / 262144; 128 + p / 4096 mod 64;
                            128 + p / 64 mod 64; 128 + p mod 64]) p.

Definition replacement : rune := rune_of_cp 65533.

(** The bytes of decoded text; a bad byte is repaired to U+FFFD. *)
Definition rune_bytes (r : rune) : string :=
  match r with
  | RByte c => String c ""
  | RMulti s _ => s
  | RBad => match replacement with RMulti s _ => s | _ => "" end
  end.

Definition flatten (l : list rune) : string :=
  fold_right (fun r s => rune_bytes r +:+ s) ""%string l.

(** A string is valid UTF-8 when decoding meets no bad byte. *)
Definition is_bad (r : rune) : bool := match r with RBad => true | _ => false end.
Definition valid_utf8 (s : string) : bool := forallb (fun r => negb (is_bad r)) (runes s).

(** What [runes] produces. *)
Inductive good_rune : rune -> Prop :=
| good_byte c : byte_of c < 128 -> good_rune (RByte c)
| good_2 a b r : dec2 a b = Some r -> good_rune r
| good_3 a b c r : dec3 a b c = Some r -> good_rune r
| good_4 a b c d r : dec4 a b c d = Some r -> good_rune r.

Lemma runes_ind (P : string -> Prop) :
  P ""%string ->
  (forall a s, byte_of a < 128 -> P s -> P (String a s)) ->
  (forall a b r s, dec2 a b = Some r -> P s -> P (String a (String b s))) ->
  (forall a b c r s, dec3 a b c = Some r -> P s -> P (String a (String b (String c s)))) ->
  (forall a b c d r s, dec4 a b c d = Some r -> P s ->
     P (String a (String b (String c (String d s))))) ->
  (forall a s, runes (String a s) = RBad :: runes s -> P s -> P (String a s)) ->
  forall s, P s.
Proof.
  intros H0 H1 H2 H3 H4 Hb s.
  induction s as [s IH] using (induction_ltof1 _ String.length). unfold ltof in IH.
  destruct s as [|a s1]; [done|].
  assert (runes (String a s1) = RBad :: runes s1 -> P (String a s1)) as Hbad.
  { intros E. apply Hb; [exact E|]. apply IH. cbn. lia. }
  cbn [runes] in Hbad.
  destruct (Z.ltb_spec (byte_of a) 128); [apply H1; [done|apply IH; cbn; lia]|].
  destruct s1 as [|b s2]; [by apply Hbad|].
  destruct (dec2 a b) eqn:E2; [eapply H2; [done|apply IH; cbn; lia]|].
  destruct s2 as [|c s3]; [by apply Hbad|].
  destruct (dec3 a b c) eqn:E3; [eapply H3; [done|apply IH; cbn; lia]|].
  destruct s3 as [|d s4]; [by apply Hbad|].
  destruct (dec4 a b c d) eqn:E4; [eapply H4; [done|apply IH; cbn; lia]|].
  by apply Hbad.
Qed.

Lemma in_range_spec lo hi c : in_range lo hi c = true <-> lo <= byte_of c <= hi.
Proof. unfold in_range. by rewrite andb_true_iff, !Z.leb_le. Qed.

(** The decoders are exclusive by their leading byte. *)
Lemma dec2_lead a b r : dec2 a b = Some r -> 194 <= byte_of a <= 223.
Proof.
  unfold dec2. case_match eqn:E; [|done]. intros _.
  rewrite andb_true_iff, !in_range_spec in E. lia.
Qed.

Lemma dec3_lead a b c r : dec3 a b c = Some r -> 224 <= byte_of a <= 239.
Proof.
  unfold dec3. case_match eqn:E; [|done]. intros _.
  rewrite !andb_true_iff, !orb_true_iff, !andb_true_iff, !in_range_spec in E. lia.
Qed.

Lemma dec4_lead a b c d r : dec4 a b c d = Some r -> 240 <= byte_of a <= 244.
Proof.
  unfold dec4. case_match eqn:E; [|done]. intros _.
  rewrite !andb_true_iff, !orb_true_iff, !andb_true_iff, !in_range_spec in E. lia.
Qed.

Lemma dec2_none a b : ~ (194 <= byte_of a <= 223) -> dec2 a b = None.
Proof. intros H. destruct (dec2 a b) eqn:E; [|done]. by apply dec2_lead in E. Qed.

Lemma dec3_none a b c : ~ (224 <= byte_of a <= 239) -> dec3 a b c = None.
Proof. intros H. destruct (dec3 a b c) eqn:E; [|done]. by apply dec3_lead in E. Qed.

Lemma runes_byte a s : byte_of a < 128 -> runes (String a s) = RByte a :: runes s.
Proof. intros H. cbn [runes]. by destruct (Z.ltb_spec (byte_of a) 128); [|lia]. Qed.

Lemma runes_2 a b r s : dec2 a b = Some r -> runes (String a (String b s)) = r :: runes s.
Proof.
  intros H. pose proof (dec2_lead _ _ _ H). cbn [runes].
  destruct (Z.ltb_spec (byte_of a) 128); [lia|]. by rewrite H.
Qed.

Lemma runes_3 a b c r s :
  dec3 a b c = Some r -> runes (String a (String b (String c s))) = r :: runes s.
Proof.
  intros H. pose proof (dec3_lead _ _ _ _ H). cbn [runes].
  destruct (Z.ltb_spec (byte_of a) 128); [lia|].
  rewrite dec2_none by lia. by rewrite H.
Qed.

Lemma runes_4 a b c d r s :
  dec4 a b c d = Some r ->
  runes (String a (String b (String c (String d s)))) = r :: runes s.
Proof.
  intros H. pose proof (dec4_lead _ _ _ _ _ H). cbn [runes].
  destruct (Z.ltb_spec (byte_of a) 128); [lia|].
  rewrite dec2_none, dec3_none by lia. by rewrite H.
Qed.

Lemma dec2_bytes a b r : dec2 a b = Some r -> exists p, r = RMulti (String a (String b "")) p.
Proof. unfold dec2. case_match; [|done]. intros [= <-]. by eexists. Qed.

Lemma dec3_bytes a b c r :
  dec3 a b c = Some r -> exists p, r = RMulti (String a (String b (String c ""))) p.
Proof. unfold dec3. case_match; [|done]. intros [= <-]. by eexists. Qed.

Lemma dec4_bytes a b c d r :
  dec4 a b c d = Some r -> exists p, r = RMulti (String a (String b (String c (String d "")))) p.
Proof. unfold dec4. case_match; [|done]. intros [= <-]. by eexists. Qed.

Lemma flatten_cons r l : flatten (r :: l) = rune_bytes r +:+ flatten l.
Proof. done. Qed.

Lemma runes_rune_bytes r s : good_rune r -> runes (rune_bytes r +:+ s) = r :: runes s.
Proof.
  intros [c H|a b r' H|a b c r' H|a b c d r' H].
  - by apply runes_byte.
  - destruct (dec2_bytes _ _ _ H) as [p ->]. by apply runes_2.
  - destruct (dec3_bytes _ _ _ _ H) as [p ->]. by apply runes_3.
  - destruct (dec4_bytes _ _ _ _ _ H) as [p ->]. by apply runes_4.
Qed.

(** Decoding encoded text gives the text back. *)
Lemma runes_flatten l : Forall good_rune l -> runes (flatten l) = l.
Proof.
  induction 1 as [|r l Hr Hl IH]; [done|]. cbn [flatten fold_right].
  rewrite runes_rune_bytes by done. by f_equal.
Qed.

Lemma valid_utf8_runes s :
  valid_utf8 s = true -> flatten (runes s) = s /\ Forall good_rune (runes s).
Proof.
  unfold valid_utf8. induction s as [|a s H IH|a b r s H IH|a b c r s H IH
    |a b c d r s H IH|a s H IH] using runes_ind.
  - by split; [|constructor].
  - rewrite runes_byte by done. cbn [forallb]. rewrite andb_true_iff. intros [_ Hv].
    destruct (IH Hv) as [Hf Hg]. split; [by rewrite flatten_cons, Hf|].
    constructor; [by constructor|done].
  - rewrite (runes_2 _ _ _ _ H). cbn [forallb]. rewrite andb_true_iff. intros [_ Hv].
    destruct (IH Hv) as [Hf Hg]. split; [|constructor; [by eapply good_2|done]].
    destruct (dec2_bytes _ _ _ H) as [p ->]. by rewrite flatten_cons, Hf.
  - rewrite (runes_3 _ _ _ _ _ H). cbn [forallb]. rewrite andb_true_iff. intros [_ Hv].
    destruct (IH Hv) as [Hf Hg]. split; [|constructor; [by eapply good_3|done]].
    destruct (dec3_bytes _ _ _ _ H) as [p ->]. by rewrite flatten_cons, Hf.
  - rewrite (runes_4 _ _ _ _ _ _ H). cbn [forallb]. rewrite andb_true_iff. intros [_ Hv].
    destruct (IH Hv) as [Hf Hg]. split; [|constructor; [by eapply good_4|done]].
    destruct (dec4_bytes _ _ _ _ _ H) as [p ->]. by rewrite flatten_cons, Hf.
  - rewrite H. done.
Qed.

Lemma flatten_app l l' : flatten (l ++ l') = flatten l +:+ flatten l'.
Proof.
  induction l as [|r l IH]; [done|]. cbn [app]. rewrite !flatten_cons, IH.
  by rewrite append_assoc.
Qed.

(** ** Documents *)

Unset Elimination Schemes.
Inductive json :=
| JNull
| JBool (b : bool)
| JNum (lit : string)
| JStr (s : string)
| JArr (l : list json)
| JObj (l : list (string * json)).
Set Elimination Schemes.

Section json_ind.
Variable P : json -> Prop.
Hypothesis Hnull : P JNull.
Hypothesis Hbool : forall b, P (JBool b).
Hypothesis Hnum : forall l, P (JNum l).
Hypothesis Hstr : forall s, P (JStr s).
Hypothesis Harr : forall l, Forall P l -> P (JArr l).
Hypothesis Hobj : forall l, Forall (fun kv => P (snd kv)) l -> P (JObj l).

Fixpoint json_ind (v : json) : P v :=
  match v with
  | JNull => Hnull
  | JBool b => Hbool b
  | JNum l => Hnum l
  | JStr s => Hstr s
  | JArr l => Harr l
      ((fix go (l : list json) : Forall P l :=
          match l with
          | [] => Forall_nil_2 _
          | v :: l' => Forall_cons_2 _ _ _ (json_ind v) (go l')
          end) l)
  | JObj l => Hobj l
      ((fix go (l : list (string * json)) : Forall (fun kv => P (snd kv)) l :=
          match l with
          | [] => Forall_nil_2 _
          | kv :: l' => Forall_cons_2 _ _ _ (json_ind (snd kv)) (go l')
          end) l)
  end.
End json_ind.

Fixpoint json_eqb (v w : json) : bool :=
  match v, w with
  | JNull, JNull => true
  | JBool a, JBool b => Bool.eqb a b
  | JNum a, JNum b => String.eqb a b
  | JStr a, JStr b => String.eqb a b
  | JArr l, JArr l' =>
      (fix go (l l' : list json) : bool :=
         match l, l' with
         | [], [] => true
         | x :: l, y :: l' => json_eqb x y && go l l'
         | _, _ => false
         end) l l'
  | JObj l, JObj l' =>
      (fix go (l l' : list (string * json)) : bool :=
         match l, l' with
         | [], [] => true
         | (k, x) :: l, (k', y) :: l' => String.eqb k k' && json_eqb x y && go l l'
         | _, _ => false
         end) l l'
  | _, _ => false
  end.

Lemma json_eqb_spec v w : json_eqb v w = true <-> v = w.
Proof.
  revert w. induction v as [|b|l|s|l IH|l IH] using json_ind; intros [|b'|l'|s'|l'|l']; cbn;
    try done.
  - rewrite Bool.eqb_true_iff. split; congruence.
  - rewrite String.eqb_eq. split; congruence.
  - rewrite String.eqb_eq. split; congruence.
  - revert l'. induction IH as [|x l Hx Hl IHl]; intros [|y l']; try done.
    rewrite andb_true_iff, Hx. rewrite IHl. split; [intros [-> [= ->]]; done|].
    intros [= -> ->]. done.
  - revert l'. induction IH as [|[k x] l Hx Hl IHl]; intros [|[k' y] l']; try done.
    cbn in Hx. rewrite !andb_true_iff, String.eqb_eq, Hx, IHl.
    split; [intros [[-> ->] [= ->]]; done|]. intros [= -> -> ->]. done.
Qed.

#[export] Instance json_eq_dec : EqDecision json.
Proof.
  intros v w. destruct (json_eqb v w) eqn:E.
  - left. by apply json_eqb_spec.
  - right. intros H%json_eqb_spec. congruence.
Defined.

(** ** json.Marshal *)

Definition ascii_runes (s : string) : list rune := map RByte (list_ascii_of_string s).

Definition hex4 (z : Z) : string :=
  String (hex_digit (z / 4096 mod 16)) (String (hex_digit (z / 256 mod 16))
    (String (hex_digit (z / 16 mod 16)) (String (hex_digit (z mod 16)) ""))).

Definition unicode_escape (z : Z) : list rune := ascii_runes ("\u" +:+ hex4 z).

(** The escapes of a rune inside a string literal (HTML escaping is on). *)
Definition escape (r : rune) : list rune :=
  match r with
  | RByte c =>
      let b := byte_of c in
      if (b =? 34) || (b =? 92) then [RByte "\"; RByte c]
      else if b =? 8 then ascii_runes "\b" else if b =? 12 then ascii_runes "\f"
      else if b =? 10 then ascii_runes "\n" else if b =? 13 then ascii_runes "\r"
      else if b =? 9 then ascii_runes "\t"
      else if (b <? 32) || (b =? 60) || (b =? 62) || (b =? 38) then unicode_escape b
      else [r]
  | RMulti _ cp => if (cp =? 8232) || (cp =? 8233) then unicode_escape cp else [r]
  | RBad => unicode_escape 65533
  end.

Definition quote_rune : rune := RByte dquote.

Definition print_str (s : string) : list rune :=
  quote_rune :: flat_map escape (runes s) ++ [quote_rune].

Fixpoint sep_by {A} (sep : A) (ls : list (list A)) : list A :=
  match ls with
  | [] => []
  | [l] => l
  | l :: ls' => l ++ sep :: sep_by sep ls'
  end.

Fixpoint print_runes (v : json) : list rune :=
  match v with
  | JNull => ascii_runes "null"
  | JBool b => ascii_runes (fmt_bool b)
  | JNum lit => ascii_runes lit
  | JStr s => print_str s
  | JArr l => RByte "[" :: sep_by (RByte ",") (map print_runes l) ++ [RByte "]"]
  | JObj l =>
      RByte "{"
      :: sep_by (RByte ",") (map (fun '(k, v) => print_str k ++ RByte ":" :: print_runes v) l)
      ++ [RByte "}"]
  end.

(** [json.Marshal] of a value made of JSON types never fails. *)
Definition Marshal (v : json) : string := flatten (print_runes v).

(** ** json.Unmarshal: syntax *)

Definition is_ws (c : ascii) : bool :=
  Ascii.eqb c " " || (byte_of c =? 9) || (byte_of c =? 10) || (byte_of c =? 13).

Fixpoint skip_ws (s : list rune) : list rune :=
  match s with
  | RByte c :: s' => if is_ws c then skip_ws s' else s
  | _ => s
  end.

Definition hex_val (r : rune) : option Z :=
  match r with
  | RByte c =>
      let b := byte_of c in
      if (48 <=? b) && (b <=? 57) then Some (b - 48)
      else if (97 <=? b) && (b <=? 102) then Some (b - 87)
      else if (65 <=? b) && (b <=? 70) then Some (b - 55)
      else None
  | _ => None
  end.

Definition hex4_val (a b c d : rune) : option Z :=
  x ← hex_val a; y ← hex_val b; z ← hex_val c; t ← hex_val d;
  Some (4096 * x + 256 * y + 16 * z + t).

Definition simple_escape (c : ascii) : option ascii :=
  let b := byte_of c in
  if (b =? 34) || (b =? 92) || (b =? 47) then Some c
  else if Ascii.eqb c "b" then Some (chr 8)
  else if Ascii.eqb c "f" then Some (chr 12)
  else if Ascii.eqb c "n" then Some (chr 10)
  else if Ascii.eqb c "r" then Some (chr 13)
  else if Ascii.eqb c "t" then Some (chr 9)
  else None.

Definition is_high (z : Z) : bool := (55296 <=? z) && (z <=? 56319).
Definition is_low (z : Z) : bool := (56320 <=? z) && (z <=? 57343).

Definition cons_rune (r : rune) (o : option (list rune * list rune)) :=
  option_map (fun '(l, rest) => (r :: l, rest)) o.

(** The rest of a string literal after its opening quote: decoded text and the
    input that follows the closing quote. *)
Fixpoint parse_str (s : list rune) : option (list rune * list rune) :=
  match s with
  | [] => None
  | RBad :: s1 => cons_rune replacement (parse_str s1)
  | RMulti b cp :: s1 => cons_rune (RMulti b cp) (parse_str s1)
  | RByte c :: s1 =>
      if Ascii.eqb c dquote then Some ([], s1)
      else if byte_of c <? 32 then None
      else if negb (Ascii.eqb c "\") then cons_rune (RByte c) (parse_str s1)
      else match s1 with
      | RByte e :: s2 =>
          if negb (Ascii.eqb e "u") then
            x ← simple_escape e; cons_rune (RByte x) (parse_str s2)
          else match s2 with
          | h1 :: h2 :: h3 :: h4 :: s3 =>
              z ← hex4_val h1 h2 h3 h4;
              match s3 with
              | RByte "\" :: RByte "u" :: g1 :: g2 :: g3 :: g4 :: s4 =>
                  match hex4_val g1 g2 g3 g4 with
                  | Some z' =>
                      if is_high z && is_low z'
                      then cons_rune (rune_of_cp (65536 + (z - 55296) * 1024 + (z' - 56320)))
                             (parse_str s4)
                      else cons_rune (rune_of_cp z) (parse_str s3)
                  | None => cons_rune (rune_of_cp z) (parse_str s3)
                  end
              | _ => cons_rune (rune_of_cp z) (parse_str s3)
              end
          | _ => None
          end
      | _ => None
      end
  end.

(** The number grammar as a machine. *)
Inductive num_state := NStart | NMinus | NZero | NInt | NDot | NFrac | NExp | NExpSign | NExpDig.

Definition num_step (st : num_state) (c : ascii) : option num_state :=
  let b := byte_of c in
  let dig := (48 <=? b) && (b <=? 57) in
  let e := Ascii.eqb c "e" || Ascii.eqb c "E" in
  match st with
  | NStart => if Ascii.eqb c "-" then Some NMinus
              else if b =? 48 then Some NZero else if dig then Some NInt else None
  | NMinus => if b =? 48 then Some NZero else if dig then Some NInt else None
  | NZero => if Ascii.eqb c "." then Some NDot else if e then Some NExp else None
  | NInt => if dig then Some NInt
            else if Ascii.eqb c "." then Some NDot else if e then Some NExp else None
  | NDot => if dig then Some NFrac else None
  | NFrac => if dig then Some NFrac else if e then Some NExp else None
  | NExp => if Ascii.eqb c "+" || Ascii.eqb c "-" then Some NExpSign
            else if dig then Some NExpDig else None
  | NExpSign | NExpDig => if dig then Some NExpDig else None
  end.

Definition num_final (st : num_state) : bool :=
  match st with NZero | NInt | NFrac | NExpDig => true | _ => false end.

Fixpoint num_run (st : num_state) (s : string) : bool :=
  match s with
  | EmptyString => num_final st
  | String c s' => match num_step st c with Some st' => num_run st' s' | None => false end
  end.

Definition valid_number (s : string) : bool := num_run NStart s.

Definition is_num_char (c : ascii) : bool :=
  in_range 48 57 c || Ascii.eqb c "-" || Ascii.eqb c "+" || Ascii.eqb c "."
  || Ascii.eqb c "e" || Ascii.eqb c "E".

Fixpoint span_num (s : list rune) : string * list rune :=
  match s with
  | RByte c :: s' =>
      if is_num_char c then let '(l, r) := span_num s' in (String c l, r) else (""%string, s)
  | _ => (""%string, s)
  end.

Fixpoint strip (p s : list rune) : option (list rune) :=
  match p, s with
  | [], _ => Some s
  | x :: p', y :: s' => if decide (x = y) then strip p' s' else None
  | _ :: _, [] => None
  end.

(** Consumes the byte [c] when it comes first. *)
Definition next (c : ascii) (s : list rune) : option (list rune) :=
  match s with
  | RByte x :: s' => if Ascii.eqb x c then Some s' else None
  | _ => None
  end.

Definition maxNestingDepth : Z := 10000.

(** [depth] counts the open arrays and objects; [fuel] bounds the recursion
    and is more than the length of the input, which is enough (JsonFuel.v). *)
Fixpoint parse_value (fuel : nat) (depth : Z) (s : list rune) {struct fuel}
    : option (json * list rune) :=
  match fuel with
  | O => None
  | S fuel =>
    match skip_ws s with
    | RByte c :: s1 =>
        if Ascii.eqb c dquote then '(l, s2) ← parse_str s1; Some (JStr (flatten l), s2)
        else if Ascii.eqb c "{" then
          if maxNestingDepth <? depth + 1 then None
          else match next "}" (skip_ws s1) with
               | Some s2 => Some (JObj [], s2)
               | None => '(l, s3) ← parse_members fuel (depth + 1) s1; Some (JObj l, s3)
               end
        else if Ascii.eqb c "[" then
          if maxNestingDepth <? depth + 1 then None
          else match next "]" (skip_ws s1) with
               | Some s2 => Some (JArr [], s2)
               | None => '(l, s3) ← parse_elems fuel (depth + 1) s1; Some (JArr l, s3)
               end
        else if Ascii.eqb c "n" then s2 ← strip (ascii_runes "ull") s1; Some (JNull, s2)
        else if Ascii.eqb c "t" then s2 ← strip (ascii_runes "rue") s1; Some (JBool true, s2)
        else if Ascii.eqb c "f" then s2 ← strip (ascii_runes "alse") s1; Some (JBool false, s2)
        else let '(lit, s2) := span_num (RByte c :: s1) in
             if valid_number lit then Some (JNum lit, s2) else None
    | _ => None
    end
  end
with parse_elems (fuel : nat) (depth : Z) (s : list rune) {struct fuel}
    : option (list json * list rune) :=
  match fuel with
  | O => None
  | S fuel =>
      '(v, s1) ← parse_value fuel depth s;
      match next "," (skip_ws s1) with
      | Some s2 => '(vs, s3) ← parse_elems fuel depth s2; Some (v :: vs, s3)
      | None => s2 ← next "]" (skip_ws s1); Some ([v], s2)
      end
  end
with parse_members (fuel : nat) (depth : Z) (s : list rune) {struct fuel}
    : option (list (string * json) * list rune) :=
  match fuel with
  | O => None
  | S fuel =>
      s1 ← next dquote (skip_ws s);
      '(k, s2) ← parse_str s1;
      s3 ← next ":" (skip_ws s2);
      '(v, s4) ← parse_value fuel depth s3;
      match next "," (skip_ws s4) with
      | Some s5 => '(kvs, s6) ← parse_members fuel depth s5; Some ((flatten k, v) :: kvs, s6)
      | None => s5 ← next "}" (skip_ws s4); Some ([(flatten k, v)], s5)
      end
  end.

Definition parse_json (s : string) : option json :=
  let rs := runes s in
  '(v, rest) ← parse_value (S (length rs)) 0 rs;
  match skip_ws rest with [] => Some v | _ => None end.

(** *** Parsing what was printed *)

(** Documents [Marshal] can print faithfully: strings are UTF-8, number
    literals are in the grammar. *)
Fixpoint json_ok (v : json) : bool :=
  match v with
  | JNull | JBool _ => true
  | JNum lit => valid_number lit
  | JStr s => valid_utf8 s
  | JArr l => forallb json_ok l
  | JObj l => forallb (fun '(k, v) => valid_utf8 k && json_ok v) l
  end.

(** What is read back: invalid UTF-8 is written as the replacement character. *)
Definition clean_rune (r : rune) : rune := match r with RBad => replacement | _ => r end.
Definition clean_str (s : string) : string := flatten (map clean_rune (runes s)).

Fixpoint clean (v : json) : json :=
  match v with
  | JStr s => JStr (clean_str s)
  | JArr l => JArr (map clean l)
  | JObj l => JObj (map (fun '(k, v) => (clean_str k, clean v)) l)
  | _ => v
  end.

(** Documents [Marshal] can print at all: their numbers are in the grammar. *)
Fixpoint printable_json (v : json) : bool :=
  match v with
  | JNum lit => valid_number lit
  | JArr l => forallb printable_json l
  | JObj l => forallb (fun '(_, v) => printable_json v) l
  | _ => true
  end.

(** The nesting depth of arrays and objects. *)
Fixpoint height (v : json) : Z :=
  match v with
  | JArr l => 1 + fold_right (fun v h => Z.max (height v) h) 0 l
  | JObj l => 1 + fold_right (fun kv h => Z.max (height (snd kv)) h) 0 l
  | _ => 0
  end.

Lemma hex_val_digit z : 0 <= z < 16 -> hex_val (RByte (hex_digit z)) = Some z.
Proof.
  intros H. assert (z = 0 \/ z = 1 \/ z = 2 \/ z = 3 \/ z = 4 \/ z = 5 \/ z = 6 \/ z = 7
    \/ z = 8 \/ z = 9 \/ z = 10 \/ z = 11 \/ z = 12 \/ z = 13 \/ z = 14 \/ z = 15) as Hz by lia.
  by repeat destruct Hz as [->|Hz]; [..|subst z].
Qed.

Lemma hex4_val_digits z :
  0 <= z < 65536 ->
  hex4_val (RByte (hex_digit (z / 4096 mod 16))) (RByte (hex_digit (z / 256 mod 16)))
    (RByte (hex_digit (z / 16 mod 16))) (RByte (hex_digit (z mod 16))) = Some z.
Proof.
  intros Hz. unfold hex4_val.
  rewrite !hex_val_digit by (apply Z.mod_pos_bound; lia). cbn [mbind option_bind].
  f_equal. Z.to_euclidean_division_equations; lia.
Qed.

Lemma parse_str_unicode z tail :
  0 <= z < 65536 -> is_high z = false ->
  parse_str (unicode_escape z ++ tail) = cons_rune (rune_of_cp z) (parse_str tail).
Proof.
  intros Hz Hh. unfold unicode_escape, hex4, ascii_runes.
  rewrite !append_cons, append_nil_l. cbn [list_ascii_of_string map app parse_str].
  change (Ascii.eqb "\" dquote) with false. change (byte_of "\" <? 32) with false.
  change (Ascii.eqb "\" "\") with true. change (Ascii.eqb "u" "u") with true.
  cbn [negb]. rewrite hex4_val_digits by done. cbn [mbind option_bind].
  rewrite Hh. cbn [andb]. repeat (case_match; try reflexivity).
Qed.

Lemma rune_of_cp_ascii c : byte_of c < 128 -> rune_of_cp (byte_of c) = RByte c.
Proof.
  intros H. pose proof (byte_of_range c). unfold rune_of_cp.
  destruct (_ || _) eqn:E.
  { rewrite !orb_true_iff, andb_true_iff, !Z.ltb_lt, !Z.leb_le in E. lia. }
  destruct (Z.ltb_spec (byte_of c) 128); [|lia]. by rewrite chr_byte_of.
Qed.

(** An ASCII byte that is not escaped. *)
Lemma parse_str_plain c tail :
  byte_of c <> 34 -> byte_of c <> 92 -> 32 <= byte_of c ->
  parse_str (RByte c :: tail) = cons_rune (RByte c) (parse_str tail).
Proof.
  intros H1 H2 H3. cbn [parse_str].
  destruct (Ascii.eqb_spec c dquote) as [->|]; [done|].
  destruct (Z.ltb_spec (byte_of c) 32); [lia|].
  by destruct (Ascii.eqb_spec c "\") as [->|].
Qed.

Lemma parse_str_escape_byte c tail :
  byte_of c < 128 ->
  parse_str (escape (RByte c) ++ tail) = cons_rune (RByte c) (parse_str tail).
Proof.
  intros Hc. unfold escape. pose proof (byte_of_range c).
  assert (Hsub : forall n, byte_of c = n -> c = chr n) by (intros n <-; by rewrite chr_byte_of).
  destruct (_ || _) eqn:E0.
  { apply orb_true_iff in E0 as [E%Z.eqb_eq|E%Z.eqb_eq]; by rewrite (Hsub _ E). }
  apply orb_false_iff in E0 as [E1%Z.eqb_neq E2%Z.eqb_neq].
  destruct (Z.eqb_spec (byte_of c) 8) as [E|]; [by rewrite (Hsub _ E)|].
  destruct (Z.eqb_spec (byte_of c) 12) as [E|]; [by rewrite (Hsub _ E)|].
  destruct (Z.eqb_spec (byte_of c) 10) as [E|]; [by rewrite (Hsub _ E)|].
  destruct (Z.eqb_spec (byte_of c) 13) as [E|]; [by rewrite (Hsub _ E)|].
  destruct (Z.eqb_spec (byte_of c) 9) as [E|]; [by rewrite (Hsub _ E)|].
  destruct (_ || _) eqn:E0.
  - rewrite parse_str_unicode by (unfold is_high; lia). by rewrite rune_of_cp_ascii.
  - apply parse_str_plain; [done|done|].
    rewrite !orb_false_iff, Z.ltb_ge in E0. lia.
Qed.

(** The two line separators are the only multi-byte runes escaped; their code
    point determines their bytes. *)
Lemma good_multi_2028 b cp :
  good_rune (RMulti b cp) -> cp = 8232 \/ cp = 8233 -> rune_of_cp cp = RMulti b cp.
Proof.
  intros Hg Hcp. inversion Hg as [|a x r H|a x y r H|a x y t r H]; subst.
  - unfold dec2 in H. case_match eqn:E; [|done]. injection H as <- <-.
    rewrite andb_true_iff, !in_range_spec in E. unfold cont in Hcp. lia.
  - unfold dec3 in H. case_match eqn:E; [|done]. injection H as <- <-.
    rewrite !andb_true_iff, !orb_true_iff, !andb_true_iff, !in_range_spec in E.
    unfold cont in *.
    assert (byte_of a = 226 /\ byte_of x = 128) as [Ha Hx] by lia.
    assert (byte_of y = 168 \/ byte_of y = 169) as Hy by lia.
    apply (f_equal chr) in Ha, Hx. rewrite chr_byte_of in Ha, Hx. subst a x.
    by destruct Hy as [Hy|Hy]; apply (f_equal chr) in Hy; rewrite chr_byte_of in Hy; subst y.
  - unfold dec4 in H. case_match eqn:E; [|done]. injection H as <- <-.
    rewrite !andb_true_iff, !orb_true_iff, !andb_true_iff, !in_range_spec in E.
    unfold cont in Hcp. lia.
Qed.

Lemma runes_good s : Forall (fun r => good_rune r \/ r = RBad) (runes s).
Proof.
  induction s as [|a s H IH|a b r s H IH|a b c r s H IH|a b c d r s H IH|a s H IH] using runes_ind.
  - constructor.
  - rewrite runes_byte by done. constructor; [left; by constructor|done].
  - rewrite (runes_2 _ _ _ _ H). constructor; [left; by eapply good_2|done].
  - rewrite (runes_3 _ _ _ _ _ H). constructor; [left; by eapply good_3|done].
  - rewrite (runes_4 _ _ _ _ _ _ H). constructor; [left; by eapply good_4|done].
  - rewrite H. constructor; [by right|done].
Qed.

Lemma parse_str_escape rs rest :
  Forall (fun r => good_rune r \/ r = RBad) rs ->
  parse_str (flat_map escape rs ++ quote_rune :: rest) = Some (map clean_rune rs, rest).
Proof.
  induction 1 as [|r rs Hr Hrs IH]; [done|].
  cbn [flat_map map]. rewrite <- app_assoc.
  assert (parse_str (escape r ++ flat_map escape rs ++ quote_rune :: rest)
          = cons_rune (clean_rune r) (parse_str (flat_map escape rs ++ quote_rune :: rest))) as ->.
  { destruct Hr as [Hr| ->]; [|by apply parse_str_unicode].
    destruct r as [c|b cp|].
    - apply parse_str_escape_byte. inversion Hr as [? H| | |]; subst; [done|..];
        [apply dec2_bytes in H|apply dec3_bytes in H|apply dec4_bytes in H]; by destruct H.
    - unfold escape. destruct (_ || _) eqn:E; [|done].
      rewrite orb_true_iff, !Z.eqb_eq in E.
      rewrite parse_str_unicode by (unfold is_high; lia).
      by rewrite (good_multi_2028 b cp).
    - inversion Hr as [|? ? ? H|? ? ? ? H|? ? ? ? ? H]; subst;
        [apply dec2_bytes in H|apply dec3_bytes in H|apply dec4_bytes in H]; by destruct H. }
  by rewrite IH.
Qed.

Lemma parse_str_print s rest :
  exists l, parse_str (tail (print_str s) ++ rest) = Some (l, rest) /\ flatten l = clean_str s.
Proof.
  exists (map clean_rune (runes s)). split; [|done].
  unfold print_str. cbn [tail]. rewrite <- app_assoc. apply parse_str_escape, runes_good.
Qed.

Lemma num_step_char st c st' : num_step st c = Some st' -> is_num_char c = true.
Proof.
  unfold num_step, is_num_char, in_range.
  destruct (Ascii.eqb c "-"), (Ascii.eqb c "+"), (Ascii.eqb c "."), (Ascii.eqb c "e"),
    (Ascii.eqb c "E"); rewrite ?orb_true_r; try done.
  all: destruct ((48 <=? byte_of c) && (byte_of c <=? 57)) eqn:E; [done|].
  all: destruct (Z.eqb_spec (byte_of c) 48) as [Hc|]; [by rewrite Hc in E|].
  all: by destruct st.
Qed.

Lemma num_run_chars st s :
  num_run st s = true -> Forall (fun c => is_num_char c = true) (list_ascii_of_string s).
Proof.
  revert st. induction s as [|c s IH]; intros st; cbn; [constructor|].
  destruct (num_step st c) eqn:E; [|done]. intros H.
  constructor; [by eapply num_step_char|by eapply IH].
Qed.

Lemma valid_number_head s :
  valid_number s = true ->
  exists c s', s = String c s' /\ (byte_of c = 45 \/ 48 <= byte_of c <= 57).
Proof.
  unfold valid_number. destruct s as [|c s]; [done|]. cbn [num_run].
  destruct (num_step NStart c) eqn:E; [|done]. intros _. exists c, s. split; [done|].
  unfold num_step in E. destruct (Ascii.eqb_spec c "-") as [->|]; [by left|right].
  destruct (Z.eqb_spec (byte_of c) 48) as [->|]; [lia|].
  destruct (_ && _) eqn:E'; [|done]. rewrite andb_true_iff, !Z.leb_le in E'. lia.
Qed.

(** The input after a value: nothing that could extend a number. *)
Definition follow (rest : list rune) : Prop :=
  match rest with RByte c :: _ => is_num_char c = false | _ => True end.

Lemma span_num_spec s rest :
  Forall (fun c => is_num_char c = true) (list_ascii_of_string s) -> follow rest ->
  span_num (ascii_runes s ++ rest) = (s, rest).
Proof.
  intros Hs Hr. induction s as [|c s IH]; cbn in *.
  - destruct rest as [|[c| |] rest]; [done| |done|done]. cbn in *. by rewrite Hr.
  - inversion Hs as [|? ? Hc Hs']; subst. rewrite Hc. unfold ascii_runes in IH.
    by rewrite IH.
Qed.

(** Every printed value starts with a byte that is neither blank nor a
    closing bracket. *)
Lemma print_start v :
  printable_json v = true ->
  exists c tl, print_runes v = RByte c :: tl /\ is_ws c = false /\ Ascii.eqb c "]" = false.
Proof.
  destruct v as [|[]|lit|s|l|l]; cbn; intros H; [eauto 10..| |eauto 10|eauto 10|eauto 10].
  destruct (valid_number_head _ H) as (c & s' & -> & Hc).
  exists c, (ascii_runes s'). split; [done|]. unfold is_ws.
  destruct (Ascii.eqb_spec c " ") as [->|]; [change (byte_of " ") with 32 in Hc; lia|].
  destruct (Ascii.eqb_spec c "]") as [->|]; [change (byte_of "]") with 93 in Hc; lia|].
  split; [|done]. cbn [orb]. rewrite !orb_false_iff, !Z.eqb_neq. lia.
Qed.

Lemma skip_ws_id c tl : is_ws c = false -> skip_ws (RByte c :: tl) = RByte c :: tl.
Proof. intros H. cbn. by rewrite H. Qed.

Lemma next_eq c tl : next c (RByte c :: tl) = Some tl.
Proof. cbn. by rewrite Ascii.eqb_refl. Qed.

Lemma sep_by_cons2 {A} (sep : A) x y ls :
  sep_by sep (x :: y :: ls) = x ++ sep :: sep_by sep (y :: ls).
Proof. done. Qed.

(** What is proved of each value by induction. *)
Definition parses (v : json) : Prop :=
  forall fuel depth rest,
    (length (print_runes v) <= fuel)%nat -> depth + height v <= maxNestingDepth ->
    follow rest -> parse_value fuel depth (print_runes v ++ rest) = Some (clean v, rest).

Lemma parse_elems_print l fuel depth rest :
  l <> [] -> Forall (fun v => printable_json v = true /\ parses v) l ->
  (S (length (sep_by (RByte ",") (map print_runes l))) <= fuel)%nat ->
  Forall (fun v => depth + height v <= maxNestingDepth) l ->
  parse_elems fuel depth (sep_by (RByte ",") (map print_runes l) ++ RByte "]" :: rest)
  = Some (map clean l, rest).
Proof.
  intros Hn Hl. revert fuel Hn.
  induction Hl as [|v l [Hok Hv] Hl IH]; intros fuel Hn Hf Hd; [done|].
  inversion Hd as [|? ? Hdv Hdl]; subst.
  destruct fuel as [|fuel]; [lia|]. destruct l as [|w l]; cbn [map parse_elems].
  - cbn [map sep_by] in *. rewrite Hv by (done || lia). cbn [mbind option_bind].
    by rewrite skip_ws_id.
  - cbn [map] in *. rewrite sep_by_cons2 in Hf |- *. rewrite length_app in Hf. cbn in Hf.
    rewrite <- app_assoc, <- app_comm_cons.
    rewrite Hv by (done || lia). cbn [mbind option_bind].
    rewrite skip_ws_id, next_eq by done.
    rewrite IH by (done || cbn; lia). done.
Qed.

Definition print_member (kv : string * json) : list rune :=
  print_str (fst kv) ++ RByte ":" :: print_runes (snd kv).

Lemma print_member_map l :
  map (fun '(k, v) => print_str k ++ RByte ":" :: print_runes v) l = map print_member l.
Proof. apply map_ext. by intros []. Qed.

Lemma parse_members_print l fuel depth rest :
  l <> [] ->
  Forall (fun kv => printable_json (snd kv) = true /\ parses (snd kv)) l ->
  (S (length (sep_by (RByte ",") (map print_member l))) <= fuel)%nat ->
  Forall (fun kv => depth + height (snd kv) <= maxNestingDepth) l ->
  parse_members fuel depth (sep_by (RByte ",") (map print_member l) ++ RByte "}" :: rest)
  = Some (map (fun '(k, v) => (clean_str k, clean v)) l, rest).
Proof.
  intros Hn Hl. revert fuel Hn.
  induction Hl as [|[k v] l (Hok & Hv) Hl IH]; intros fuel Hn Hf Hd; [done|].
  cbn [fst snd] in *. inversion Hd as [|? ? Hdv Hdl]; subst. cbn [snd] in Hdv.
  destruct fuel as [|fuel]; [lia|].
  assert (exists tl, print_member (k, v) = RByte dquote :: tl
    /\ (length (print_runes v) < length (print_member (k, v)))%nat
    /\ forall r, exists ks, parse_str (tl ++ r) = Some (ks, RByte ":" :: print_runes v ++ r)
                 /\ flatten ks = clean_str k) as (tl & Htl & Hlen & Hp).
  { unfold print_member. cbn [fst snd].
    exists (tail (print_str k) ++ RByte ":" :: print_runes v). split; [done|]. split.
    - rewrite length_app. cbn. lia.
    - intros r. destruct (parse_str_print k (RByte ":" :: print_runes v ++ r)) as (ks & H & H').
      exists ks. split; [|done]. rewrite <- app_assoc. exact H. }
  destruct l as [|w l]; cbn [map parse_members].
  - cbn [map sep_by] in *. rewrite Htl in *. rewrite <- app_comm_cons.
    rewrite skip_ws_id, next_eq by done. cbn [mbind option_bind].
    destruct (Hp (RByte "}" :: rest)) as (ks & -> & Hks). cbn [mbind option_bind].
    rewrite skip_ws_id, next_eq by done. cbn [mbind option_bind].
    rewrite Hv by (done || cbn in *; lia). cbn [mbind option_bind].
    rewrite skip_ws_id by done. cbn. by rewrite Hks.
  - cbn [map] in *. rewrite sep_by_cons2 in Hf |- *. rewrite length_app in Hf. cbn [length] in Hf.
    rewrite Htl in *. rewrite <- !app_comm_cons, <- app_assoc, <- app_comm_cons.
    rewrite skip_ws_id, next_eq by done. cbn [mbind option_bind].
    match goal with |- context [parse_str (tl ++ ?r)] => destruct (Hp r) as (ks & -> & Hks) end.
    cbn [mbind option_bind]. rewrite skip_ws_id, next_eq by done. cbn [mbind option_bind].
    rewrite Hv by (done || cbn in *; lia). cbn [mbind option_bind].
    rewrite skip_ws_id, next_eq by done.
    rewrite IH by (done || cbn in *; lia). cbn. by rewrite Hks.
Qed.

Lemma height_nonneg v : 0 <= height v.
Proof.
  destruct v as [| | | |l|l]; cbn; try done; induction l; cbn; lia.
Qed.

Lemma fold_max_le {A} (f : A -> Z) l b :
  fold_right (fun v h => Z.max (f v) h) 0 l <= b -> Forall (fun v => f v <= b) l.
Proof. induction l as [|x l IH]; cbn; constructor; [lia|]. apply IH. lia. Qed.

Lemma parses_all v : printable_json v = true -> parses v.
Proof.
  induction v as [|b|lit|s|l IH|l IH] using json_ind; intros Hok fuel depth rest Hf Hd Hr.
  - destruct fuel; [cbn in Hf; lia|]. reflexivity.
  - destruct fuel; [destruct b; cbn in Hf; lia|]. destruct b; reflexivity.
  - cbn [printable_json] in Hok. destruct (valid_number_head _ Hok) as (c & s' & -> & Hc).
    destruct (print_start (JNum (String c s')) Hok) as (c' & tl & [= <- _] & Hws & _).
    destruct fuel; [cbn in Hf; lia|]. cbn [parse_value print_runes].
    pose proof (span_num_spec (String c s') rest (num_run_chars _ _ Hok) Hr) as Hspan.
    change (ascii_runes (String c s') ++ rest) with (RByte c :: ascii_runes s' ++ rest) in *.
    rewrite skip_ws_id, Hspan by done.
    repeat match goal with
      | |- context [Ascii.eqb c ?x] => destruct (Ascii.eqb_spec c x) as [->|];
          [vm_compute in Hc; intuition congruence|] end.
    by rewrite Hok.
  - destruct fuel; [cbn in Hf; lia|].
    destruct (parse_str_print s rest) as (ks & Hp & Hs).
    change (print_runes (JStr s) ++ rest)
      with (RByte dquote :: (tail (print_str s) ++ rest)).
    cbn [parse_value]. rewrite skip_ws_id by done. change (Ascii.eqb dquote dquote) with true.
    cbv iota. rewrite Hp. cbn. by rewrite Hs.
  - destruct fuel as [|fuel]; [cbn in Hf; lia|]. cbn [print_runes height length] in *.
    rewrite length_app in Hf. cbn [length] in Hf.
    cbn [parse_value app]. rewrite skip_ws_id by done. cbn [Ascii.eqb Bool.eqb].
    change (Ascii.eqb "[" dquote) with false. change (Ascii.eqb "[" "{") with false.
    change (Ascii.eqb "[" "[") with true. cbv iota.
    pose proof (height_nonneg (JArr l)) as Hh. cbn [height] in Hh.
    pose proof (fold_max_le height l (maxNestingDepth - (depth + 1)) ltac:(lia)) as Hall.
    assert (0 <= fold_right (fun v h => Z.max (height v) h) 0 l) as Hpos
      by (clear; induction l; cbn; lia).
    destruct (Z.ltb_spec maxNestingDepth (depth + 1)); [lia|].
    destruct l as [|v l]; [reflexivity|].
    cbn [printable_json forallb] in Hok. rewrite <- app_assoc.
    assert (next "]" (skip_ws (sep_by (RByte ",") (map print_runes (v :: l))
              ++ [RByte "]"] ++ rest)) = None) as ->.
    { apply andb_true_iff in Hok as [Hv _]. cbn [map].
      destruct (print_start v Hv) as (c & tl & E & Hws & Hne).
      destruct l as [|w l]; [cbn [map sep_by]|cbn [map]; rewrite sep_by_cons2];
        rewrite E; cbn [app]; rewrite skip_ws_id by done; cbn; by rewrite Hne. }
    change (forallb printable_json (v :: l) = true) in Hok. rewrite forallb_forall in Hok.
    rewrite Forall_forall in IH.
    cbn [app]. rewrite parse_elems_print; [done|done| |lia|].
    + apply Forall_forall. intros x Hx%list_elem_of_In. split; [by apply Hok|].
      apply IH; [by apply list_elem_of_In|by apply Hok].
    + eapply Forall_impl; [exact Hall|]. cbn. lia.
  - destruct fuel as [|fuel]; [cbn in Hf; lia|]. cbn [print_runes height length] in *.
    rewrite print_member_map in *. rewrite length_app in Hf. cbn [length] in Hf.
    cbn [parse_value app]. rewrite skip_ws_id by done.
    change (Ascii.eqb "{" dquote) with false. change (Ascii.eqb "{" "{") with true. cbv iota.
    pose proof (fold_max_le (fun kv => height (snd kv)) l (maxNestingDepth - (depth + 1))) as Hall.
    cbn beta in Hall. specialize (Hall ltac:(lia)).
    assert (0 <= fold_right (fun kv h => Z.max (height (snd kv)) h) 0 l) as Hpos
      by (clear; induction l; cbn; lia).
    destruct (Z.ltb_spec maxNestingDepth (depth + 1)); [lia|].
    destruct l as [|[k v] l]; [reflexivity|].
    rewrite <- app_assoc.
    assert (next "}" (skip_ws (sep_by (RByte ",") (map print_member ((k, v) :: l))
              ++ [RByte "}"] ++ rest)) = None) as -> by (by destruct l).
    cbn [printable_json] in Hok. rewrite forallb_forall in Hok. rewrite Forall_forall in IH.
    cbn [app]. rewrite parse_members_print; [done|done| |lia|].
    + apply Forall_forall. intros [k' x] Hx. pose proof Hx as Hin%list_elem_of_In.
      specialize (Hok _ Hin). cbn in Hok.
      split; [done|]. by apply (IH (k', x)).
    + eapply Forall_impl; [exact Hall|]. cbn. lia.
Qed.

Lemma parse_runes v :
  printable_json v = true -> height v <= maxNestingDepth ->
  forall fuel, (length (print_runes v) <= fuel)%nat ->
  parse_value fuel 0 (print_runes v) = Some (clean v, []).
Proof.
  intros Hok Hh fuel Hf. rewrite <- (app_nil_r (print_runes v)).
  apply parses_all; [done|done|lia|done].
Qed.

Lemma good_ascii_runes s :
  forallb (fun c => byte_of c <? 128) (list_ascii_of_string s) = true ->
  Forall good_rune (ascii_runes s).
Proof.
  unfold ascii_runes. rewrite forallb_forall. intros H. apply Forall_forall.
  intros r Hr%list_elem_of_In. apply in_map_iff in Hr as (c & <- & Hc).
  constructor. by apply Z.ltb_lt, H.
Qed.

Lemma good_hex z : 0 <= z < 16 -> good_rune (RByte (hex_digit z)).
Proof.
  intros H. constructor. unfold hex_digit.
  destruct (Z.ltb_spec z 10); rewrite byte_of_chr by lia; lia.
Qed.

Ltac good_list :=
  repeat first [apply Forall_nil_2 | apply Forall_cons_2]; try (by apply good_byte).

Lemma good_unicode_escape z : Forall good_rune (unicode_escape z).
Proof.
  unfold unicode_escape, hex4, ascii_runes. rewrite !append_cons, append_nil_l.
  cbn [list_ascii_of_string map]. good_list; apply good_hex, Z.mod_pos_bound; lia.
Qed.

Lemma good_escape r : good_rune r \/ r = RBad -> Forall good_rune (escape r).
Proof.
  intros [H| ->]; [|apply good_unicode_escape].
  destruct r as [c|b cp|]; cbn [escape]; [| |apply good_unicode_escape].
  - repeat case_match; first [apply good_unicode_escape|by good_list].
  - case_match; [apply good_unicode_escape|by good_list].
Qed.

Lemma good_print_str s : Forall good_rune (print_str s).
Proof.
  unfold print_str. apply Forall_cons_2; [by apply good_byte|].
  apply Forall_app. split; [|by good_list].
  induction (runes_good s) as [|r l Hr Hl IH]; [constructor|].
  cbn. apply Forall_app. split; [by apply good_escape|done].
Qed.

Lemma good_sep_by sep ls :
  good_rune sep -> Forall (Forall good_rune) ls -> Forall good_rune (sep_by sep ls).
Proof.
  intros Hs. induction 1 as [|l ls Hl Hls IH]; [constructor|].
  destruct ls as [|l' ls]; [done|]. rewrite sep_by_cons2.
  apply Forall_app. split; [done|]. by apply Forall_cons_2.
Qed.

(** Number literals are ASCII, so printing a document gives well-formed text. *)
Lemma is_num_char_ascii c : is_num_char c = true -> byte_of c < 128.
Proof.
  unfold is_num_char. rewrite !orb_true_iff, in_range_spec, !Ascii.eqb_eq.
  by intros [[[[[H| ->]| ->]| ->]| ->]| ->]; [lia|..].
Qed.

Lemma good_print v : printable_json v = true -> Forall good_rune (print_runes v).
Proof.
  induction v as [|b|lit|s|l IH|l IH] using json_ind; cbn [printable_json print_runes]; intros Hok.
  - by apply good_ascii_runes.
  - by apply good_ascii_runes; destruct b.
  - apply good_ascii_runes, forallb_forall. intros c Hc. apply Z.ltb_lt, is_num_char_ascii.
    pose proof (num_run_chars _ _ Hok) as H. rewrite Forall_forall in H.
    by apply H, list_elem_of_In.
  - apply good_print_str.
  - apply Forall_cons_2; [by apply good_byte|]. apply Forall_app. split; [|by good_list].
    apply good_sep_by; [by apply good_byte|].
    induction IH as [|v l Hv Hl IHl]; [constructor|].
    apply andb_true_iff in Hok as [H1 H2]. cbn. constructor; auto.
  - apply Forall_cons_2; [by apply good_byte|]. apply Forall_app. split; [|by good_list].
    apply good_sep_by; [by apply good_byte|].
    induction IH as [|[k v] l Hv Hl IHl]; [constructor|].
    cbn [forallb] in Hok. rewrite !andb_true_iff in Hok. destruct Hok as [H1 H2].
    cbn [map]. constructor; [|auto]. apply Forall_app. split; [apply good_print_str|].
    apply Forall_cons_2; [by apply good_byte|auto].
Qed.

(** [json.Unmarshal] reads what [json.Marshal] wrote, strings made valid. *)
Lemma parse_print_clean v :
  printable_json v = true -> height v <= maxNestingDepth -> parse_json (Marshal v) = Some (clean v).
Proof.
  intros Hok Hh. unfold parse_json, Marshal.
  rewrite runes_flatten by by apply good_print.
  rewrite parse_runes by (done || lia). done.
Qed.

Lemma clean_str_id s : valid_utf8 s = true -> clean_str s = s.
Proof.
  intros H. destruct (valid_utf8_runes s H) as [Hf _]. unfold clean_str.
  rewrite <- Hf at 2. f_equal. unfold valid_utf8 in H. rewrite forallb_forall in H.
  rewrite <- (map_id (runes s)) at 2. apply map_ext_in. intros r Hr. by specialize (H r Hr); destruct r.
Qed.

Lemma clean_id v : json_ok v = true -> printable_json v = true /\ clean v = v.
Proof.
  induction v as [|b|lit|s|l IH|l IH] using json_ind; cbn; intros Hok; try done.
  - by rewrite clean_str_id.
  - assert (forallb printable_json l = true /\ map clean l = l) as [-> ->]; [|done].
    induction IH as [|v l Hv Hl IHl]; [done|]. apply andb_true_iff in Hok as [H1 H2].
    cbn. destruct (Hv H1) as [-> ->], (IHl H2) as [-> ->]. done.
  - assert (forallb (fun '(_, v) => printable_json v) l = true
      /\ map (fun '(k, v) => (clean_str k, clean v)) l = l) as [-> ->]; [|done].
    induction IH as [|[k v] l Hv Hl IHl]; [done|]. cbn in Hok. rewrite !andb_true_iff in Hok.
    destruct Hok as [[Hk H1] H2]. cbn in *. destruct (Hv H1) as [-> ->], (IHl H2) as [-> ->].
    by rewrite clean_str_id.
Qed.

(** [json.Unmarshal] reads back what [json.Marshal] wrote. *)
Lemma parse_print v :
  json_ok v = true -> height v <= maxNestingDepth -> parse_json (Marshal v) = Some v.
Proof. intros Hok Hh. destruct (clean_id v Hok) as [Hp Hc]. by rewrite parse_print_clean, Hc. Qed.
