(* ===== verification/JsonFuel.v ===== *)
(** * The fuel of the JSON parser is enough

    [parse_json] gives its parser as much fuel as the input has runes, plus one.
    Whatever succeeds with some fuel succeeds with this one. *)

From S2P Require Import Prelude GoStrings GoJson.

Lemma cons_rune_some x o l r : cons_rune x o = Some (l, r) -> exists l', o = Some (l', r).
Proof. destruct o as [[l' r']|]; cbn; [|done]. intros [= _ ->]. eauto. Qed.

Lemma parse_str_shorter s l r : parse_str s = Some (l, r) -> (length r < length s)%nat.
Proof.
  remember (length s) as n eqn:En. revert s l r En.
  induction n as [n IH] using lt_wf_ind. intros s l r -> H.
  assert (forall s' x, (length s' < length s)%nat -> cons_rune x (parse_str s') = Some (l, r) ->
    (length r < length s)%nat) as Hc.
  { intros s' x Hl (l' & H')%cons_rune_some. specialize (IH _ Hl s' l' r eq_refl H'). lia. }
  destruct s as [|[c| |] s1]; [done| |by eapply Hc; [|exact H]; cbn; lia..].
  cbn [parse_str] in H. destruct (Ascii.eqb c dquote); [injection H as _ <-; cbn; lia|].
  destruct (_ <? 32); [done|].
  destruct (negb _); [by eapply Hc; [|exact H]; cbn; lia|].
  destruct s1 as [|[e| |] s2]; try done.
  destruct (negb _).
  { destruct (simple_escape e); [|done]. cbn in H. by eapply Hc; [|exact H]; cbn; lia. }
  destruct s2 as [|h1 [|h2 [|h3 [|h4 s3]]]]; try done.
  destruct (hex4_val h1 h2 h3 h4) as [z|]; [|done]. cbn [mbind option_bind] in H.
  revert H. repeat case_match; intros Hend; (eapply Hc; [|exact Hend]); subst; cbn; lia.
Qed.

Lemma skip_ws_length s : (length (skip_ws s) <= length s)%nat.
Proof. induction s as [|[c| |] s IH]; cbn; try lia. destruct (is_ws c); cbn; lia. Qed.

Lemma next_length c s s' : next c s = Some s' -> length s = S (length s').
Proof. destruct s as [|[x| |] s]; cbn; try done. destruct (Ascii.eqb x c); [|done]. by intros [= ->]. Qed.

Lemma next_skip c s s' : next c (skip_ws s) = Some s' -> (length s' < length s)%nat.
Proof. intros H%next_length. pose proof (skip_ws_length s). lia. Qed.

Lemma strip_length p s s' : strip p s = Some s' -> (length s' <= length s)%nat.
Proof.
  revert s. induction p as [|x p IH]; intros s; cbn; [by intros [= ->]|].
  destruct s as [|y s]; [done|]. destruct (decide (x = y)); [|done]. intros H%IH. cbn. lia.
Qed.

Lemma span_num_length s : (length (span_num s).2 <= length s)%nat.
Proof.
  induction s as [|[c| |] s IH]; cbn; try lia. destruct (is_num_char c); [|cbn; lia].
  destruct (span_num s). cbn in *. lia.
Qed.

Lemma strip_rest p s (x : json) v r :
  (s2 ← strip p s; Some (x, s2)) = Some (v, r) -> (length r <= length s)%nat.
Proof. destruct (strip p s) eqn:E; cbn; [|done]. intros [= _ <-]. by eapply strip_length. Qed.

(** A run with some fuel that succeeds consumes input, and succeeds with every
    fuel that is at least what it consumed. *)
Definition enough {A} (p : nat -> list rune -> option (A * list rune)) (s : list rune)
    (x : A) (r : list rune) : Prop :=
  (length r < length s)%nat
  /\ forall f, (length s - length r <= f)%nat -> p f s = Some (x, r).

Section Step.
Variable f : nat.
Hypothesis IHv : forall d s v r, parse_value f d s = Some (v, r) -> enough (fun f => parse_value f d) s v r.
Hypothesis IHe : forall d s l r, parse_elems f d s = Some (l, r) -> enough (fun f => parse_elems f d) s l r.
Hypothesis IHm : forall d s l r, parse_members f d s = Some (l, r) -> enough (fun f => parse_members f d) s l r.

Lemma value_enough d s v r :
  parse_value (S f) d s = Some (v, r) -> enough (fun f => parse_value f d) s v r.
Proof using IHe IHm.
  intros H. cbn [parse_value] in H.
  pose proof (skip_ws_length s) as Hs.
  destruct (skip_ws s) as [|[c| |] s1] eqn:Es; try done. cbn [length] in Hs.
  assert ((length r <= length s1)%nat ->
    (forall f', (length s1 - length r <= f')%nat -> parse_value (S f') d s = Some (v, r)) ->
    enough (fun f => parse_value f d) s v r) as Hmk.
  { intros Hl Hf. split; [lia|]. intros [|f'] Hf'; [lia|]. apply Hf. lia. }
  destruct (Ascii.eqb c dquote) eqn:E1.
  { destruct (parse_str s1) as [[l s2]|] eqn:Ep; [|done]. cbn in H. injection H as <- <-.
    apply parse_str_shorter in Ep as Hl. apply Hmk; [lia|].
    intros f' _. cbn [parse_value]. by rewrite Es, E1, Ep. }
  destruct (Ascii.eqb c "{") eqn:E2.
  { destruct (maxNestingDepth <? d + 1) eqn:Ed; [done|].
    destruct (next "}" (skip_ws s1)) as [s2|] eqn:En.
    { injection H as <- <-. apply next_skip in En as Hl. apply Hmk; [lia|].
      intros f' _. cbn [parse_value]. by rewrite Es, E1, E2, Ed, En. }
    destruct (parse_members f (d + 1) s1) as [[l s3]|] eqn:Em; [|done]. cbn in H. injection H as <- <-.
    apply IHm in Em as [Hl Hf]. apply Hmk; [lia|].
    intros f' Hf'. cbn [parse_value]. rewrite Es, E1, E2, Ed, En. by rewrite (Hf f' Hf'). }
  destruct (Ascii.eqb c "[") eqn:E3.
  { destruct (maxNestingDepth <? d + 1) eqn:Ed; [done|].
    destruct (next "]" (skip_ws s1)) as [s2|] eqn:En.
    { injection H as <- <-. apply next_skip in En as Hl. apply Hmk; [lia|].
      intros f' _. cbn [parse_value]. by rewrite Es, E1, E2, E3, Ed, En. }
    destruct (parse_elems f (d + 1) s1) as [[l s3]|] eqn:Em; [|done]. cbn in H. injection H as <- <-.
    apply IHe in Em as [Hl Hf]. apply Hmk; [lia|].
    intros f' Hf'. cbn [parse_value]. rewrite Es, E1, E2, E3, Ed, En. by rewrite (Hf f' Hf'). }
  apply Hmk; [|intros f' _; cbn [parse_value]; by rewrite Es, E1, E2, E3].
  destruct (Ascii.eqb c "n"); [by eapply strip_rest|].
  destruct (Ascii.eqb c "t"); [by eapply strip_rest|].
  destruct (Ascii.eqb c "f"); [by eapply strip_rest|].
  cbn [span_num] in H. destruct (is_num_char c); [|done].
  pose proof (span_num_length s1) as Hl. destruct (span_num s1) as [lit s2]. cbn in Hl.
  destruct (valid_number _); [|done]. by injection H as _ <-.
Qed.

Lemma elems_enough d s l r :
  parse_elems (S f) d s = Some (l, r) -> enough (fun f => parse_elems f d) s l r.
Proof using IHv IHe.
  intros H. cbn [parse_elems] in H.
  destruct (parse_value f d s) as [[v s1]|] eqn:Ev; [|done]. cbn [mbind option_bind] in H.
  apply IHv in Ev as [Hl1 Hf1].
  destruct (next "," (skip_ws s1)) as [s2|] eqn:En.
  + apply next_skip in En as Hn.
    destruct (parse_elems f d s2) as [[vs s3]|] eqn:Ee; [|done]. cbn in H. injection H as <- <-.
    apply IHe in Ee as [Hl2 Hf2]. split; [lia|]. intros [|f'] Hf'; [lia|]. cbn [parse_elems].
    rewrite Hf1 by lia. cbn [mbind option_bind]. rewrite En, Hf2 by lia. done.
  + destruct (next "]" (skip_ws s1)) as [s2|] eqn:En2; [|done]. cbn in H. injection H as <- <-.
    apply next_skip in En2 as Hn. split; [lia|]. intros [|f'] Hf'; [lia|]. cbn [parse_elems].
    rewrite Hf1 by lia. cbn [mbind option_bind]. by rewrite En, En2.
Qed.

Lemma members_enough d s l r :
  parse_members (S f) d s = Some (l, r) -> enough (fun f => parse_members f d) s l r.
Proof using IHv IHm.
  intros H. cbn [parse_members] in H.
  destruct (next dquote (skip_ws s)) as [s1|] eqn:E1; [|done]. cbn [mbind option_bind] in H.
  apply next_skip in E1 as H1.
  destruct (parse_str s1) as [[k s2]|] eqn:E2; [|done]. cbn [mbind option_bind] in H.
  apply parse_str_shorter in E2 as H2.
  destruct (next ":" (skip_ws s2)) as [s3|] eqn:E3; [|done]. cbn [mbind option_bind] in H.
  apply next_skip in E3 as H3.
  destruct (parse_value f d s3) as [[v s4]|] eqn:Ev; [|done]. cbn [mbind option_bind] in H.
  apply IHv in Ev as [Hl1 Hf1].
  destruct (next "," (skip_ws s4)) as [s5|] eqn:En.
  + apply next_skip in En as Hn.
    destruct (parse_members f d s5) as [[kvs s6]|] eqn:Ee; [|done]. cbn in H. injection H as <- <-.
    apply IHm in Ee as [Hl2 Hf2]. split; [lia|]. intros [|f'] Hf'; [lia|]. cbn [parse_members].
    rewrite E1. cbn [mbind option_bind]. rewrite E2. cbn [mbind option_bind]. rewrite E3.
    cbn [mbind option_bind]. rewrite Hf1 by lia. cbn [mbind option_bind]. rewrite En, Hf2 by lia. done.
  + destruct (next "}" (skip_ws s4)) as [s5|] eqn:En2; [|done]. cbn in H. injection H as <- <-.
    apply next_skip in En2 as Hn. split; [lia|]. intros [|f'] Hf'; [lia|]. cbn [parse_members].
    rewrite E1. cbn [mbind option_bind]. rewrite E2. cbn [mbind option_bind]. rewrite E3.
    cbn [mbind option_bind]. rewrite Hf1 by lia. cbn [mbind option_bind]. by rewrite En, En2.
Qed.
End Step.

Lemma parse_enough f :
  (forall d s v r, parse_value f d s = Some (v, r) -> enough (fun f => parse_value f d) s v r)
  /\ (forall d s l r, parse_elems f d s = Some (l, r) -> enough (fun f => parse_elems f d) s l r)
  /\ (forall d s l r, parse_members f d s = Some (l, r) -> enough (fun f => parse_members f d) s l r).
Proof.
  induction f as [|f (IHv & IHe & IHm)]; [done|]. split_and!.
  - by apply value_enough.
  - by apply elems_enough.
  - by apply members_enough.
Qed.

(** A document that is read with some fuel is read by [parse_json]. *)
Theorem parse_json_fuel f s v rest :
  parse_value f 0 (runes s) = Some (v, rest) -> skip_ws rest = [] -> parse_json s = Some v.
Proof.
  intros H Hr. apply (parse_enough f) in H as [_ H]. unfold parse_json.
  rewrite H by lia. cbn. by rewrite Hr.
Qed.
