(* ===== verification/GoFloat.v ===== *)
(** * float64 and JSON numbers

    [json.Unmarshal] into an [any] turns every number into a float64, and
    [json.Marshal] prints a float64 with the fewest digits that identify it.
    [float64_literal] is the composition on number literals: [ParseFloat]
    (correctly rounded, ties to even) followed by the printing of
    [encoding/json].  A literal it leaves unchanged survives a decode and
    encode; an integer beyond 2^53 need not. *)

From S2P Require Import Prelude GoStrings GoTime GoJson.

(** A literal of the number grammar as sign, mantissa and decimal exponent. *)
Record decimal := mkDecimal { dec_neg : bool; dec_mant : Z; dec_exp : Z }.

Fixpoint read_exp (neg : bool) (acc : Z) (s : string) : Z :=
  match s with
  | EmptyString => if neg then - acc else acc
  | String c s' =>
      match digit_val c with
      | Some d => read_exp neg (10 * acc + d) s'
      | None => read_exp (neg || Ascii.eqb c "-") acc s'
      end
  end.

Fixpoint read_mant (frac : bool) (m e : Z) (s : string) : Z * Z :=
  match s with
  | EmptyString => (m, e)
  | String c s' =>
      match digit_val c with
      | Some d => read_mant frac (10 * m + d) (if frac then e - 1 else e) s'
      | None => if Ascii.eqb c "." then read_mant true m e s'
                else (m, e + read_exp false 0 s')
      end
  end.

Definition read_decimal (lit : string) : decimal :=
  match lit with
  | String "-" s => let '(m, e) := read_mant false 0 0 s in mkDecimal true m e
  | s => let '(m, e) := read_mant false 0 0 s in mkDecimal false m e
  end.

(** Division rounded to the nearest integer, ties to even. *)
Definition round_div (n d : Z) : Z :=
  let q := n / d in
  let r := n mod d in
  if 2 * r <? d then q
  else if d <? 2 * r then q + 1
  else if Z.even q then q else q + 1.

(** [n / (d * 2^e)] rounded. *)
Definition scale_round (n d e : Z) : Z :=
  if 0 <=? e then round_div n (d * 2 ^ e) else round_div (n * 2 ^ (- e)) d.

(** The float64 nearest to the positive rational [n / d], as mantissa and
    binary exponent; [None] on overflow. *)
Definition nearest_float (n d : Z) : option (Z * Z) :=
  let k := Z.log2 n - Z.log2 d in
  let lt2k := if 0 <=? k then n <? d * 2 ^ k else n * 2 ^ (- k) <? d in
  let e := Z.max (-1074) ((if lt2k then k - 1 else k) - 52) in
  let m := scale_round n d e in
  let '(m, e) := if m =? 2 ^ 53 then (2 ^ 52, e + 1) else (m, e) in
  if 971 <? e then None else Some (m, e).

Definition decimal_digits (z : Z) : Z := Z.of_nat (String.length (itoa z)).

Definition ratio (m e : Z) : Z * Z :=
  if 0 <=? e then (m * 10 ^ e, 1) else (m, 10 ^ (- e)).

(** [strconv.ParseFloat] of the absolute value: zero, a float or overflow. *)
Definition parse_float (m e : Z) : option (option (Z * Z)) :=
  if m =? 0 then Some None
  else if 310 <? e + decimal_digits m then None
  else if e + decimal_digits m <? -330 then Some None
  else let '(n, d) := ratio m e in
       match nearest_float n d with
       | None => None
       | Some (0, _) => Some None
       | Some f => Some (Some f)
       end.

(** The decimal of [w] significant digits nearest to the float. *)
Definition decimal_of_float (w m e : Z) : Z * Z :=
  let '(n, d) := if 0 <=? e then (m * 2 ^ e, 1) else (m, 2 ^ (- e)) in
  let k := if d <=? n then decimal_digits (n / d)
           else 1 - decimal_digits ((d + n - 1) / n) in
  let try_ (x : Z) := let '(p, q) := ratio 1 (- x) in round_div (n * p) (d * q) in
  let x := k - w in
  let D := try_ x in
  if D <? 10 ^ (w - 1) then (try_ (x - 1), x - 1)
  else (D, x).

Fixpoint shortest (fuel : nat) (w m e : Z) : Z * Z :=
  let '(D, x) := decimal_of_float w m e in
  match fuel with
  | O => (D, x)
  | S fuel' =>
      match parse_float D x with
      | Some (Some f) => if bool_decide (f = (m, e)) then (D, x) else shortest fuel' (w + 1) m e
      | _ => shortest fuel' (w + 1) m e
      end
  end.

Fixpoint trim_zeros (fuel : nat) (D x : Z) : Z * Z :=
  match fuel with
  | O => (D, x)
  | S fuel' => if (D mod 10 =? 0) && negb (D =? 0) then trim_zeros fuel' (D / 10) (x + 1) else (D, x)
  end.

Fixpoint zeros (n : nat) : string := match n with O => "" | S n' => String "0" (zeros n') end.

(** The layout of [encoding/json]: plain digits, or an exponent outside
    1e-6 .. 1e21. *)
Definition print_decimal (D x : Z) : string :=
  let ds := itoa D in
  let n := Z.of_nat (String.length ds) in
  let point := n + x in
  if (point <? -5) || (21 <? point) then
    let ex := point - 1 in
    String.substring 0 1 ds
    +:+ (if n =? 1 then "" else "." +:+ String.substring 1 (String.length ds) ds)
    +:+ "e" +:+ (if ex <? 0 then "-" else "+") +:+ itoa (Z.abs ex)
  else if 0 <=? x then ds +:+ zeros (Z.to_nat x)
  else if 0 <? point then
    String.substring 0 (Z.to_nat point) ds +:+ "."
    +:+ String.substring (Z.to_nat point) (String.length ds) ds
  else "0." +:+ zeros (Z.to_nat (- point)) +:+ ds.

Definition float64_literal (lit : string) : option string :=
  let d := read_decimal lit in
  let sign s := if dec_neg d then String "-" s else s in
  match parse_float (dec_mant d) (dec_exp d) with
  | None => None
  | Some None => Some (sign "0"%string)
  | Some (Some (m, e)) =>
      let '(D, x) := shortest 17 1 m e in
      let '(D, x) := trim_zeros 20 D x in
      Some (sign (print_decimal D x))
  end.

Example float_ex :
  map float64_literal
    ["0"; "3"; "-0"; "100"; "1.50"; "9007199254740993"; "1e21"; "123456789012345680000";
     "0.000001"; "1e-7"; "0.1"; "2147483647"; "1e400"; "1.7976931348623157e308"; "5e-324";
     "9223372036854775807"]%string
  = [Some "0"; Some "3"; Some "-0"; Some "100"; Some "1.5"; Some "9007199254740992";
     Some "1e+21"; Some "123456789012345680000"; Some "0.000001"; Some "1e-7"; Some "0.1";
     Some "2147483647"; None; Some "1.7976931348623157e+308"; Some "5e-324";
     Some "9223372036854776000"]%string.
Proof. vm_compute. reflexivity. Qed.
