(* ===== verification/GoAny.v ===== *)
(** * Go maps and encoding/json

    A Go [map[string]T] is a [gmap string T]; [json.Marshal] prints it with its
    keys sorted ([map_obj]) and [json.Unmarshal] builds it from the members of
    an object, the last one of a repeated key winning ([obj_map]).  [any] holds
    decoded documents: objects canonical, numbers passed through float64. *)

From S2P Require Import Prelude GoStrings GoJson GoFloat.

(** ** Objects and maps *)

Definition key_le {A} (x y : string * A) : Prop := String.le (fst x) (fst y).

#[export] Instance key_le_dec {A} : RelDecision (@key_le A).
Proof. intros x y. unfold key_le. apply _. Defined.

#[export] Instance key_le_total {A} : Total (@key_le A).
Proof. intros x y. apply (total String.le). Qed.

#[export] Instance key_le_trans {A} : Transitive (@key_le A).
Proof. intros x y z. unfold key_le. apply transitivity. Qed.

(** The members of a map in key order. *)
Definition map_obj {A} (m : gmap string A) : list (string * A) :=
  merge_sort key_le (map_to_list m).

(** The map of a list of members, in which a later member replaces an earlier
    one of the same key. *)
Definition obj_map {A} (l : list (string * A)) : gmap string A :=
  list_to_map (reverse l).

Lemma map_obj_perm {A} (m : gmap string A) : map_obj m ≡ₚ map_to_list m.
Proof. apply merge_sort_Permutation. Qed.

Lemma obj_map_map_obj {A} (m : gmap string A) : obj_map (map_obj m) = m.
Proof.
  unfold obj_map. rewrite <- (list_to_map_to_list m) at 2.
  apply list_to_map_proper.
  - rewrite reverse_Permutation, map_obj_perm. apply NoDup_fst_map_to_list.
  - by rewrite reverse_Permutation, map_obj_perm.
Qed.

Lemma elem_of_map_obj {A} (m : gmap string A) k v : (k, v) ∈ map_obj m <-> m !! k = Some v.
Proof. rewrite map_obj_perm. apply elem_of_map_to_list. Qed.

Lemma map_obj_nil {A} (m : gmap string A) : map_obj m = [] <-> m = ∅.
Proof.
  split; [|by intros ->]. intros H. apply map_to_list_empty_iff, Permutation_nil_r.
  by rewrite <- map_obj_perm, H.
Qed.

(** ** Canonical documents: what an [any] holds *)

Fixpoint canon (v : json) : json :=
  match v with
  | JArr l => JArr (map canon l)
  | JObj l => JObj (map_obj (obj_map (map (fun kv => (fst kv, canon (snd kv))) l)))
  | _ => v
  end.

(** Decoding numbers to float64; [None] when one is out of range. *)
Fixpoint to_float64 (v : json) : option json :=
  match v with
  | JNum lit => JNum <$> float64_literal lit
  | JArr l =>
      JArr <$> (fix go (l : list json) : option (list json) :=
        match l with
        | [] => Some []
        | x :: l' => y ← to_float64 x; ys ← go l'; Some (y :: ys)
        end) l
  | JObj l =>
      JObj <$> (fix go (l : list (string * json)) : option (list (string * json)) :=
        match l with
        | [] => Some []
        | (k, x) :: l' => y ← to_float64 x; ys ← go l'; Some ((k, y) :: ys)
        end) l
  | _ => Some v
  end.

Definition errSyntax : error := errorf "invalid character in JSON input".
Definition errType : error := errorf "json: cannot unmarshal value into Go value".

(** [json.Unmarshal(data, &v)] with [var v any]; the error texts are
    abbreviated. *)
Definition UnmarshalAny (data : string) : result json :=
  match parse_json data with
  | None => Err errSyntax
  | Some v => match to_float64 (canon v) with
              | Some v' => Ok v'
              | None => Err errType
              end
  end.

(** [json.Unmarshal(data, &m)] with [var m map[string]any]: [null] leaves the
    nil map, which reads as the empty one. *)
Definition UnmarshalMap (data : string) : result (gmap string json) :=
  match UnmarshalAny data with
  | Ok (JObj l) => Ok (obj_map l)
  | Ok JNull => Ok ∅
  | Ok _ => Err errType
  | Err e => Err e
  end.

(** [json.Marshal(m)] for a [map[string]any]. *)
Definition MarshalMap (m : gmap string json) : string := Marshal (JObj (map_obj m)).

(** ** Values that survive the codec *)

(** The printed form of every number is its float64 form. *)
Fixpoint float_stable (v : json) : bool :=
  match v with
  | JNum lit => bool_decide (float64_literal lit = Some lit)
  | JArr l => forallb float_stable l
  | JObj l => forallb (fun kv => float_stable (snd kv)) l
  | _ => true
  end.

Fixpoint canonical (v : json) : bool :=
  match v with
  | JArr l => forallb canonical l
  | JObj l => bool_decide (l = map_obj (obj_map l)) && forallb (fun kv => canonical (snd kv)) l
  | _ => true
  end.

(** A value an [any] can hold and the codec keeps: UTF-8 strings, numbers of
    the grammar that are float64, canonical objects, bounded nesting. *)
Definition any_ok (v : json) : bool :=
  json_ok v && canonical v && float_stable v && (height v <=? maxNestingDepth).

Lemma canonical_canon v : canonical v = true -> canon v = v.
Proof.
  induction v as [|b|lit|s|l IH|l IH] using json_ind; cbn [canonical canon]; try done.
  - rewrite forallb_forall. intros Hl. f_equal. rewrite <- (map_id l) at 2.
    apply map_ext_in. intros x Hx. rewrite Forall_forall in IH.
    apply IH; [by apply list_elem_of_In|by apply Hl].
  - rewrite andb_true_iff, bool_decide_eq_true, forallb_forall. intros [Hl Hc]. f_equal.
    rewrite Forall_forall in IH.
    rewrite (map_ext_in _ id), map_id by
      (intros [k x] Hx; cbn; f_equal; apply (IH (k, x)), (Hc (k, x) Hx); by apply list_elem_of_In).
    done.
Qed.

Lemma to_float64_stable v : float_stable v = true -> to_float64 v = Some v.
Proof.
  induction v as [|b|lit|s|l IH|l IH] using json_ind; cbn [float_stable to_float64]; try done.
  - rewrite bool_decide_eq_true. by intros ->.
  - induction IH as [|x l Hx Hl IHl]; [done|]. cbn [forallb]. rewrite andb_true_iff.
    intros [H1 H2]. rewrite (Hx H1). specialize (IHl H2).
    match type of IHl with (_ <$> ?o = _) => destruct o; [|done] end.
    cbn in *. by injection IHl as ->.
  - induction IH as [|[k x] l Hx Hl IHl]; [done|]. cbn [forallb snd] in *. rewrite andb_true_iff.
    intros [H1 H2]. rewrite (Hx H1). specialize (IHl H2).
    match type of IHl with (_ <$> ?o = _) => destruct o; [|done] end.
    cbn in *. by injection IHl as ->.
Qed.

Lemma UnmarshalAny_Marshal v : any_ok v = true -> UnmarshalAny (Marshal v) = Ok v.
Proof.
  unfold any_ok, UnmarshalAny. rewrite !andb_true_iff, Z.leb_le. intros [[[Hok Hc] Hf] Hh].
  rewrite parse_print by done. by rewrite canonical_canon, to_float64_stable.
Qed.

(** Encoding a map and decoding it gives the map back. *)
Lemma UnmarshalMap_MarshalMap m :
  any_ok (JObj (map_obj m)) = true -> UnmarshalMap (MarshalMap m) = Ok m.
Proof.
  intros H. unfold UnmarshalMap, MarshalMap. rewrite UnmarshalAny_Marshal by done.
  by rewrite obj_map_map_obj.
Qed.
