(* ===== verification/Api.v ===== *)
(** * The v1alpha1 API

    The custom resources of api/v1alpha1: [SleepInfo] with its schedules, its
    resource filters and its patches ([sleepinfo_types.go],
    [defaultpatches.go]) and [SleepInfoExecution]
    ([sleepinfoexecution_types.go]).  The admission checks of
    [SleepInfo.Validate] are in Webhook.v. *)

From S2P Require Import Prelude GoStrings GoTime.

(** ** Metadata (the fields kube-green reads or writes) *)

Record OwnerReference := mkOwnerReference {
  or_APIVersion : string;
  or_Kind : string;
  or_Name : string;
  or_UID : string
}.

#[export] Instance OwnerReference_eq_dec : EqDecision OwnerReference.
Proof. solve_decision. Defined.

Record ObjectMeta := mkObjectMeta {
  om_Name : string;
  om_Namespace : string;
  om_UID : string;
  om_ResourceVersion : string;
  om_Labels : gmap string string;
  om_OwnerReferences : list OwnerReference
}.

Definition GroupVersion_Group : string := "kube-green.com".
Definition GroupVersion_Version : string := "v1alpha1".
Definition GroupVersion : string := GroupVersion_Group +:+ "/" +:+ GroupVersion_Version.

(** ** SleepInfo *)

Record FilterRef := mkFilterRef {
  fr_APIVersion : string;
  fr_Kind : string;
  fr_Name : string;
  fr_MatchLabels : gmap string string
}.

Record PatchTarget := mkPatchTarget { pt_Group : string; pt_Kind : string }.

#[export] Instance PatchTarget_eq_dec : EqDecision PatchTarget.
Proof. solve_decision. Defined.

#[export] Instance PatchTarget_countable : Countable PatchTarget.
Proof.
  refine (inj_countable' (fun t => (pt_Group t, pt_Kind t))
                         (fun p => mkPatchTarget (fst p) (snd p)) _).
  by intros [].
Defined.

Record Patch := mkPatch { p_Target : PatchTarget; p_Patch : string }.

Record GroupKind := mkGroupKind { gk_Group : string; gk_Kind : string }.

#[export] Instance GroupKind_eq_dec : EqDecision GroupKind.
Proof. solve_decision. Defined.

(** [PatchTarget.String]: "Kind.Group". *)
Definition target_String (t : PatchTarget) : string := pt_Kind t +:+ "." +:+ pt_Group t.

(** [PatchTarget.GroupKind]. *)
Definition target_GroupKind (t : PatchTarget) : GroupKind := mkGroupKind (pt_Group t) (pt_Kind t).

Record SleepInfoSpec := mkSleepInfoSpec {
  Weekdays : string;
  SleepTime : string;
  WakeUpTime : string;
  TimeZone : string;
  ExcludeRef : list FilterRef;
  IncludeRef : list FilterRef;
  SuspendCronjobs : bool;
  SuspendDeployments : option bool;
  SuspendStatefulSets : option bool;
  Patches : list Patch
}.

Record SleepInfoStatus := mkSleepInfoStatus {
  LastScheduleTime : Time;
  OperationType : string
}.

Record SleepInfo := mkSleepInfo {
  si_Meta : ObjectMeta;
  si_Spec : SleepInfoSpec;
  si_Status : SleepInfoStatus
}.

Definition si_Name (s : SleepInfo) : string := om_Name (si_Meta s).

(** *** Schedules *)

Definition getScheduleFromWeekdayAndTime (s : SleepInfo) (hourAndMinute : string)
    : result string :=
  let weekday := Weekdays (si_Spec s) in
  if String.eqb weekday "" then Err (errorf "empty weekdays from SleepInfo configuration")
  else match split_on ":" hourAndMinute with
       | [h; m] =>
           let schedule := m +:+ " " +:+ h +:+ " * * " +:+ weekday in
           if String.eqb (TimeZone (si_Spec s)) "" then Ok schedule
           else Ok ("CRON_TZ=" +:+ TimeZone (si_Spec s) +:+ " " +:+ schedule)
       | _ => Err (errorf ("time should be of format HH:mm, actual: " +:+ hourAndMinute))
       end.

Definition GetSleepSchedule (s : SleepInfo) : result string :=
  getScheduleFromWeekdayAndTime s (SleepTime (si_Spec s)).

(** The empty schedule stands for "no wake up". *)
Definition GetWakeUpSchedule (s : SleepInfo) : result string :=
  if String.eqb (WakeUpTime (si_Spec s)) "" then Ok ""%string
  else getScheduleFromWeekdayAndTime s (WakeUpTime (si_Spec s)).

Definition GetIncludeRef (s : SleepInfo) : list FilterRef := IncludeRef (si_Spec s).
Definition GetExcludeRef (s : SleepInfo) : list FilterRef := ExcludeRef (si_Spec s).

(** *** Patches *)

Definition IsCronjobsToSuspend (s : SleepInfo) : bool := SuspendCronjobs (si_Spec s).

Definition IsDeploymentsToSuspend (s : SleepInfo) : bool :=
  match SuspendDeployments (si_Spec s) with None => true | Some b => b end.

Definition IsStatefulSetsToSuspend (s : SleepInfo) : bool :=
  match SuspendStatefulSets (si_Spec s) with None => true | Some b => b end.

Definition DeploymentTarget : PatchTarget := mkPatchTarget "apps" "Deployment".
Definition StatefulSetTarget : PatchTarget := mkPatchTarget "apps" "StatefulSet".
Definition CronJobTarget : PatchTarget := mkPatchTarget "batch" "CronJob".

Definition nl : string := String (chr 10) "".

Definition deploymentPatch : Patch := mkPatch DeploymentTarget
  (nl +:+ "- op: add" +:+ nl +:+ "  path: /spec/replicas" +:+ nl +:+ "  value: 0").
Definition statefulSetPatch : Patch := mkPatch StatefulSetTarget
  (nl +:+ "- op: add" +:+ nl +:+ "  path: /spec/replicas" +:+ nl +:+ "  value: 0").
Definition cronjobPatch : Patch := mkPatch CronJobTarget
  (nl +:+ "- op: add" +:+ nl +:+ "  path: /spec/suspend" +:+ nl +:+ "  value: true").

Definition GetPatches (s : SleepInfo) : list Patch :=
  (if IsDeploymentsToSuspend s then [deploymentPatch] else [])
  ++ (if IsStatefulSetsToSuspend s then [statefulSetPatch] else [])
  ++ (if IsCronjobsToSuspend s then [cronjobPatch] else [])
  ++ Patches (si_Spec s).

(** *** The patterns of the custom resource definition

    The API server rejects a SleepInfo whose fields do not match them. *)

Definition all_chars (P : ascii -> bool) (s : string) : bool :=
  forallb P (list_ascii_of_string s).

Definition cron_punct (c : ascii) : bool :=
  Ascii.eqb c "*" || Ascii.eqb c "," || Ascii.eqb c "/" || Ascii.eqb c "-".

Definition digit_upto (hi : Z) (c : ascii) : bool := (48 <=? byte_of c) && (byte_of c <=? hi).

(** [^[0-6*,/-]+$] *)
Definition weekdays_pattern (s : string) : bool :=
  negb (String.eqb s "") && all_chars (fun c => digit_upto 54 c || cron_punct c) s.

Definition cron_word (s : string) : bool :=
  negb (String.eqb s "") && all_chars (fun c => digit_upto 57 c || cron_punct c) s.

(** [^[0-9*,/-]+:[0-9*,/-]+$] *)
Definition time_pattern (s : string) : bool :=
  match split_on ":" s with [h; m] => cron_word h && cron_word m | _ => false end.

(** ** SleepInfoExecution *)

Definition ExecutionOpSleep : string := "SLEEP".
Definition ExecutionOpWake : string := "WAKE_UP".

Definition ExecutionPhasePending : string := "Pending".
Definition ExecutionPhaseSucceeded : string := "Succeeded".
Definition ExecutionPhaseFailed : string := "Failed".
Definition ExecutionPhaseSkipped : string := "Skipped".

Record SleepInfoExecutionSpec := mkSleepInfoExecutionSpec {
  SleepInfoName : string;
  Operation : string
}.

Record SleepInfoExecutionStatus := mkSleepInfoExecutionStatus {
  Phase : string;
  StartTime : option Time;
  CompletionTime : option Time;
  Message : string
}.

Record SleepInfoExecution := mkSleepInfoExecution {
  se_Meta : ObjectMeta;
  se_Spec : SleepInfoExecutionSpec;
  se_Status : SleepInfoExecutionStatus
}.

Definition IsProcessed (e : SleepInfoExecution) : bool :=
  let p := Phase (se_Status e) in
  String.eqb p ExecutionPhaseSucceeded || String.eqb p ExecutionPhaseFailed
  || String.eqb p ExecutionPhaseSkipped.

(** ** Theorems *)

Lemma all_chars_count P c s :
  all_chars P s = true -> P c = false -> count c s = 0%nat.
Proof.
  unfold all_chars. intros H Hc. induction s as [|x s IH]; [done|].
  cbn in *. apply andb_true_iff in H as [Hx Hs].
  destruct (Ascii.eqb_spec x c) as [->|]; [congruence|]. by rewrite IH.
Qed.

Lemma cron_word_no_space s : cron_word s = true -> count " " s = 0%nat.
Proof. unfold cron_word. rewrite andb_true_iff. intros [_ H]. by eapply all_chars_count. Qed.

Lemma weekdays_no_space s : weekdays_pattern s = true -> count " " s = 0%nat.
Proof. unfold weekdays_pattern. rewrite andb_true_iff. intros [_ H]. by eapply all_chars_count. Qed.

Lemma schedule_split s hm h m :
  Weekdays (si_Spec s) <> ""%string -> split_on ":" hm = [h; m] ->
  getScheduleFromWeekdayAndTime s hm
  = Ok ((if String.eqb (TimeZone (si_Spec s)) "" then ""%string
         else "CRON_TZ=" +:+ TimeZone (si_Spec s) +:+ " ")
        +:+ m +:+ " " +:+ h +:+ " * * " +:+ Weekdays (si_Spec s)).
Proof.
  intros Hw Hs. unfold getScheduleFromWeekdayAndTime. rewrite Hs.
  destruct (String.eqb_spec (Weekdays (si_Spec s)) ""); [done|].
  destruct (String.eqb _ ""); [done|]. by autorewrite with go_str.
Qed.

(** A schedule is built exactly when the weekdays are not empty and the
    time has one colon: both error branches of the code and nothing else
    refuse. *)
Lemma schedule_accepts s hm :
  is_ok (getScheduleFromWeekdayAndTime s hm)
  = negb (String.eqb (Weekdays (si_Spec s)) "") && (count ":" hm =? 1)%nat.
Proof.
  unfold getScheduleFromWeekdayAndTime.
  pose proof (split_on_length ":" hm) as Hl.
  destruct (String.eqb (Weekdays (si_Spec s)) ""); [done|]. cbn [negb andb].
  destruct (split_on ":" hm) as [|h [|m [|x l]]] eqn:E; cbn [length] in Hl.
  - done.
  - by destruct (count ":" hm) as [|[]].
  - destruct (count ":" hm) as [|[|]]; [lia| |lia]. by destruct (String.eqb _ "").
  - destruct (count ":" hm) as [|[|]]; [lia|lia|done].
Qed.

Lemma split_on_last_two (a b : string) :
  count " " a = 0%nat -> split_on " " (a +:+ " * * " +:+ b) = a :: "*"%string :: "*"%string :: split_on " " b.
Proof.
  intros Ha. change (" * * " +:+ b) with (String " " ("*" +:+ String " " ("*" +:+ String " " b))).
  by rewrite !split_on_app.
Qed.

(** [C28] For a SleepInfo the custom resource definition accepts, the sleep
    schedule exists and is the cron expression "minute hour * * weekdays":
    exactly these five fields, after a CRON_TZ field when a time zone is set. *)
Theorem sleep_schedule_fields s :
  weekdays_pattern (Weekdays (si_Spec s)) = true ->
  time_pattern (SleepTime (si_Spec s)) = true ->
  count " " (TimeZone (si_Spec s)) = 0%nat ->
  exists h m sched,
    split_on ":" (SleepTime (si_Spec s)) = [h; m]
    /\ GetSleepSchedule s = Ok sched
    /\ split_on " " sched
       = (if String.eqb (TimeZone (si_Spec s)) "" then []
          else ["CRON_TZ=" +:+ TimeZone (si_Spec s)])
         ++ [m; h; "*"%string; "*"%string; Weekdays (si_Spec s)].
Proof.
  intros Hw Ht Htz. unfold time_pattern in Ht.
  destruct (split_on ":" (SleepTime (si_Spec s))) as [|h [|m []]] eqn:E; try done.
  apply andb_true_iff in Ht as [Hh Hm].
  pose proof (weekdays_no_space _ Hw) as Hwc.
  apply cron_word_no_space in Hh, Hm.
  assert (Weekdays (si_Spec s) <> ""%string) as Hne.
  { intros Hn. by rewrite Hn in Hw. }
  exists h, m. eexists. split; [done|].
  split; [by apply schedule_split|].
  assert (split_on " " (m +:+ " " +:+ h +:+ " * * " +:+ Weekdays (si_Spec s))
          = [m; h; "*"%string; "*"%string; Weekdays (si_Spec s)]) as Hs.
  { change (" " +:+ h +:+ ?x) with (String " " (h +:+ x)).
    by rewrite split_on_app, split_on_last_two, split_on_id by done. }
  destruct (String.eqb _ ""); [by rewrite append_nil_l|].
  rewrite !append_assoc.
  change (" " +:+ m +:+ ?x) with (String " " (m +:+ x)).
  rewrite <- append_assoc, split_on_app by (rewrite count_append; cbn; lia).
  by rewrite Hs.
Qed.

Lemma target_String_eq t t' :
  count "." (pt_Kind t) = 0%nat -> count "." (pt_Kind t') = 0%nat ->
  target_String t = target_String t' -> t = t'.
Proof.
  destruct t as [g k], t' as [g' k']. unfold target_String. cbn. intros Hk Hk' H.
  apply (f_equal (split_on ".")) in H.
  change ("." +:+ ?x) with (String "." x) in H.
  rewrite !split_on_app in H by done. injection H as -> Hg.
  apply (f_equal (join ".")) in Hg.
  change "."%string with (String "." "") in Hg. rewrite !join_split_on in Hg. by subst.
Qed.
