(* ===== verification/Libs.v ===== *)
(** * Third-party libraries

    The code kube-green links but does not contain, as parameters: one class of
    operations per library, with what the code relies on as a class of laws.
    The laws state documented behaviour only; Reference.v gives concrete
    functions that satisfy them. *)

From S2P Require Import Prelude GoStrings GoTime GoJson GoAny Api.

(** ** github.com/robfig/cron/v3 *)

Class CronLib := {
  Schedule : Type;
  ParseStandard : string -> result Schedule;
  Next : Schedule -> Time -> Time
}.

(** "Next returns the next time this schedule is activated, greater than the
    given time.  If no time can be found to satisfy the schedule, return the
    zero time"; the search covers five years. *)
Definition fiveYears : Z := 5 * 365 * 86400 * Second.

Class CronLaws `{CronLib} := {
  fires : Schedule -> Z -> Prop;
  next_fires s t : IsZero (Next s t) = false ->
    instant t < instant (Next s t) /\ fires s (instant (Next s t));
  next_least s t x : IsZero (Next s t) = false ->
    instant t < x < instant (Next s t) -> ~ fires s x;
  next_none s t x : IsZero (Next s t) = true ->
    instant t < x <= instant t + fiveYears -> ~ fires s x
}.

(** ** sigs.k8s.io/yaml and github.com/evanphx/json-patch/v5 *)

Record ApplyOptions := mkApplyOptions {
  EnsurePathExistsOnAdd : bool;
  AllowMissingPathOnRemove : bool
}.

Class PatchLib := {
  YAMLToJSON : string -> result string;
  Patch6902 : Type;
  DecodePatch : string -> result Patch6902;
  ApplyWithOptions : Patch6902 -> string -> ApplyOptions -> result string;
  CreateMergePatch : string -> string -> result string;
  MergePatch : string -> string -> result string;
  JsonEqual : string -> string -> bool
}.

Definition is_null (v : json) : bool := match v with JNull => true | _ => false end.

(** RFC 7396, section 2: the MergePatch algorithm.  Objects are maps here, so
    the members of a patch are taken in key order. *)
Fixpoint rfc7396 (target patch : json) {struct patch} : json :=
  match patch with
  | JObj ps =>
      let base := match target with JObj ts => obj_map ts | _ => ∅ end in
      JObj (map_obj (fold_left (fun (m : gmap string json) kv =>
        if is_null (snd kv) then delete (fst kv) m
        else <[fst kv := rfc7396 (default JNull (m !! fst kv)) (snd kv)]> m) ps base))
  | v => v
  end.

(** The member of an object; other values have none. *)
Definition member (k : string) (v : json) : option json :=
  match v with JObj l => obj_map l !! k | _ => None end.

(** A document without nulls. *)
Fixpoint null_free (v : json) : bool :=
  match v with
  | JObj l => forallb (fun kv => negb (is_null (snd kv)) && null_free (snd kv)) l
  | JArr l => forallb (fun v => negb (is_null v) && null_free v) l
  | _ => true
  end.

(** A merge patch can lead from [a] to [b]: it cannot store a null, so what it has
    to store holds none.  Members that are equal on both sides may be null or hold
    nulls: the patch does not mention them. *)
Fixpoint mergeable (a b : json) {struct b} : bool :=
  match b with
  | JObj lb =>
      forallb (fun kv => bool_decide (member (fst kv) a = Some (snd kv))
        || negb (is_null (snd kv)) && mergeable (default JNull (member (fst kv) a)) (snd kv)) lb
  | v => null_free v
  end.

(** The meaning of a JSON text. *)
Definition doc (s : string) : option json := canon <$> parse_json s.

Class PatchLaws `{PatchLib} := {
  (** MergePatch merges by RFC 7396. *)
  MergePatch_spec a p c da dp :
    doc a = Some da -> doc p = Some dp -> MergePatch a p = Ok c ->
    doc c = Some (rfc7396 da dp);
  (** Merging an object into an object succeeds when the result is a document
      that can be printed. *)
  MergePatch_total a p la lp :
    doc a = Some (JObj la) -> doc p = Some (JObj lp) ->
    any_ok (rfc7396 (JObj la) (JObj lp)) = true -> is_ok (MergePatch a p) = true;
  (** "CreateMergePatch will return a merge patch document capable of
      converting the original document to the modified document". *)
  CreateMergePatch_spec a b p la lb :
    doc a = Some (JObj la) -> doc b = Some (JObj lb) -> mergeable (JObj la) (JObj lb) = true ->
    CreateMergePatch a b = Ok p ->
    exists lp, doc p = Some (JObj lp) /\ rfc7396 (JObj la) (JObj lp) = JObj lb;
  (** Documents without a difference give the empty patch. *)
  CreateMergePatch_same a b da :
    doc a = Some da -> doc b = Some da -> (exists l, da = JObj l) ->
    CreateMergePatch a b = Ok "{}"%string;
  (** "Equal indicates if 2 JSON documents have the same structural equality". *)
  JsonEqual_spec a b da db :
    doc a = Some da -> doc b = Some db -> (JsonEqual a b = true <-> da = db)
}.

(** ** k8s.io/apimachinery: unstructured objects *)

Record Unstructured := mkUnstructured { Object : gmap string json }.

Record GroupVersionKind := mkGVK { gvk_Group : string; gvk_Version : string; gvk_Kind : string }.

#[export] Instance GVK_eq_dec : EqDecision GroupVersionKind.
Proof. solve_decision. Defined.

Class UnstructuredLib := {
  GetName : Unstructured -> string;
  GetNamespace : Unstructured -> string;
  GetKind : Unstructured -> string;
  GetGroupVersionKind : Unstructured -> GroupVersionKind;
  SetName : string -> Unstructured -> Unstructured;
  SetNamespace : string -> Unstructured -> Unstructured;
  SetGroupVersionKind : GroupVersionKind -> Unstructured -> Unstructured;
  ClearManagedFields : Unstructured -> Unstructured;
  SetResourceVersion : string -> Unstructured -> Unstructured;
  (** [SetNestedField(obj, value, key)] with one field. *)
  SetNestedField : string -> json -> Unstructured -> result Unstructured;
  (** [metav1.GetControllerOfNoCopy(&obj) != nil]. *)
  HasController : Unstructured -> bool
}.

(** An object whose metadata is absent or a map: the setters of metadata do
    nothing on others. *)
Definition meta_ok (u : Unstructured) : bool :=
  match Object u !! "metadata"%string with
  | None | Some (JObj _) => true
  | _ => false
  end.

Definition meta_map (u : Unstructured) : gmap string json :=
  match Object u !! "metadata"%string with Some (JObj l) => obj_map l | _ => ∅ end.

(** A text of the metadata: an empty one is read from a missing field, and writing
    it removes the field. *)
Definition meta_string (k : string) (u : Unstructured) : string :=
  match meta_map u !! k with Some (JStr s) => s | _ => "" end.

Definition set_string (k v : string) (m : gmap string json) : gmap string json :=
  if String.eqb v "" then delete k m else <[k := JStr v]> m.

(** A setter changes the field it is named after and nothing else, and its getter
    reads that field. *)
Class UnstructuredLaws `{UnstructuredLib} := {
  SetNestedField_spec k v u :
    SetNestedField k v u = Ok (mkUnstructured (<[k := v]> (Object u)));
  SetGVK_frame g u k : k <> "apiVersion"%string -> k <> "kind"%string ->
    Object (SetGroupVersionKind g u) !! k = Object u !! k;
  GVK_reads u u' :
    Object u' !! "apiVersion"%string = Object u !! "apiVersion"%string ->
    Object u' !! "kind"%string = Object u !! "kind"%string ->
    GetGroupVersionKind u' = GetGroupVersionKind u;
  GetGVK_SetGVK g u : count "/" (gvk_Group g) = 0%nat -> count "/" (gvk_Version g) = 0%nat ->
    gvk_Version g <> ""%string -> GetGroupVersionKind (SetGroupVersionKind g u) = g;
  GetName_reads u : GetName u = meta_string "name" u;
  GetNamespace_reads u : GetNamespace u = meta_string "namespace" u;
  SetName_frame n u k : k <> "metadata"%string -> Object (SetName n u) !! k = Object u !! k;
  SetName_meta n u : meta_ok u = true ->
    meta_ok (SetName n u) = true /\ meta_map (SetName n u) = set_string "name" n (meta_map u);
  SetNamespace_frame n u k : k <> "metadata"%string ->
    Object (SetNamespace n u) !! k = Object u !! k;
  SetNamespace_meta n u : meta_ok u = true ->
    meta_ok (SetNamespace n u) = true
    /\ meta_map (SetNamespace n u) = set_string "namespace" n (meta_map u);
  ClearManagedFields_frame u k : k <> "metadata"%string ->
    Object (ClearManagedFields u) !! k = Object u !! k;
  ClearManagedFields_meta u : meta_ok u = true ->
    meta_ok (ClearManagedFields u) = true
    /\ meta_map (ClearManagedFields u) = delete "managedFields"%string (meta_map u);
  SetResourceVersion_frame v u k : k <> "metadata"%string ->
    Object (SetResourceVersion v u) !! k = Object u !! k;
  SetResourceVersion_meta v u : meta_ok u = true ->
    meta_ok (SetResourceVersion v u) = true
    /\ meta_map (SetResourceVersion v u) = set_string "resourceVersion" v (meta_map u)
}.

(** ** k8s.io/apimachinery: selectors *)

Class SelectorLib := {
  FieldSelector : Type;
  LabelSelector : Type;
  ParseFieldSelector : string -> result FieldSelector;
  ParseLabelSelector : string -> result LabelSelector;
  (** [selector.Matches] on the fields, here the field metadata.name, and on
      the labels of an object. *)
  FieldMatches : FieldSelector -> gmap string string -> bool;
  LabelMatches : LabelSelector -> gmap string string -> bool
}.

(** A requirement of a selector and its meaning: "the objects whose key has the
    value", "the objects whose key does not have the value, and those without
    the key". *)
Inductive requirement := ReqEq (k v : string) | ReqNe (k v : string).

Definition req_String (r : requirement) : string :=
  match r with ReqEq k v => k +:+ "==" +:+ v | ReqNe k v => k +:+ "!=" +:+ v end.

Definition req_holds (set : gmap string string) (r : requirement) : bool :=
  match r with
  | ReqEq k v => bool_decide (set !! k = Some v)
  | ReqNe k v => negb (bool_decide (set !! k = Some v))
  end.

(** The characters of Kubernetes names, label keys and label values. *)
Definition name_char (c : ascii) : bool :=
  ((48 <=? byte_of c) && (byte_of c <=? 57)) || ((65 <=? byte_of c) && (byte_of c <=? 90))
  || ((97 <=? byte_of c) && (byte_of c <=? 122))
  || Ascii.eqb c "-" || Ascii.eqb c "." || Ascii.eqb c "_" || Ascii.eqb c "/".

Definition plain (s : string) : bool := negb (String.eqb s "") && all_chars name_char s.

Definition req_plain (r : requirement) : bool :=
  match r with ReqEq k v | ReqNe k v => plain k && plain v end.

(** Comma-separated requirements are parsed and hold together. *)
Class SelectorLaws `{SelectorLib} := {
  ParseFieldSelector_spec rs :
    rs <> [] -> forallb req_plain rs = true ->
    exists sel, ParseFieldSelector (join "," (map req_String rs)) = Ok sel
      /\ forall set, (forall r, In r rs -> exists v, set !! (match r with ReqEq k _ | ReqNe k _ => k end) = Some v) ->
         FieldMatches sel set = forallb (req_holds set) rs;
  ParseLabelSelector_spec rs :
    rs <> [] -> forallb req_plain rs = true ->
    exists sel, ParseLabelSelector (join "," (map req_String rs)) = Ok sel
      /\ forall set, LabelMatches sel set = forallb (req_holds set) rs
}.

(** ** Go's map iteration

    The order of a [range] over a map is unspecified: a function of the map and
    of a counter that moves at every loop, of which only the elements are
    known. *)
Class MapRange := {
  range : forall {K A} `{Countable K}, nat -> gmap K A -> list (K * A);
  range_perm {K A} `{Countable K} n (m : gmap K A) : range n m ≡ₚ map_to_list m
}.

Section Range.
Context {K A : Type} `{Countable K} {MR : MapRange}.

Lemma range_NoDup_keys n (m : gmap K A) : NoDup (range n m).*1.
Proof. rewrite range_perm. apply NoDup_fst_map_to_list. Qed.

Lemma list_to_map_range n (m : gmap K A) : list_to_map (range n m) = m.
Proof.
  rewrite <- (list_to_map_to_list m) at 2.
  apply list_to_map_proper; [apply range_NoDup_keys|apply range_perm].
Qed.
End Range.
