(* ===== verification/Merge.v ===== *)
(** * Merge patches

    Facts on the RFC 7396 algorithm of Libs.v: a merge acts on each path of a
    document on its own.  The theorems on wake up (ManagedResourcesSpec.v) rest
    on them. *)

From S2P Require Import Prelude GoStrings GoJson GoFloat GoAny Libs.

(** A document without nulls can be reached from any other. *)
Lemma null_free_mergeable a b : null_free b = true -> mergeable a b = true.
Proof.
  revert a. induction b as [|b0|n0|s0|l IH|l IH] using json_ind; intros a Hn; try done.
  cbn [null_free mergeable] in *. rewrite forallb_forall in *. intros [k y] Hin.
  specialize (Hn _ Hin). apply andb_true_iff in Hn as [H1 H2]. cbn [fst snd] in *.
  rewrite H1. apply orb_true_iff. right. rewrite Forall_forall in IH.
  apply (IH (k, y)); [by apply list_elem_of_In|done].
Qed.

(** The value at a path of member names. *)
Fixpoint at_path (path : list string) (v : json) : option json :=
  match path with
  | [] => Some v
  | k :: path' => x ← member k v; at_path path' x
  end.

Lemma obj_map_lookup_nodup {A} (l : list (string * A)) k v :
  NoDup l.*1 -> obj_map l !! k = Some v <-> (k, v) ∈ l.
Proof.
  intros Hl. unfold obj_map. rewrite <- elem_of_list_to_map, elem_of_reverse; [done|].
  rewrite fmap_reverse. by rewrite reverse_Permutation.
Qed.

Lemma map_obj_nodup {A} (m : gmap string A) : NoDup (map_obj m).*1.
Proof. rewrite map_obj_perm. apply NoDup_fst_map_to_list. Qed.

(** The members of a merge, one at a time. *)
Definition merge_member (old : option json) (p : json) : option json :=
  if is_null p then None else Some (rfc7396 (default JNull old) p).

Lemma merge_fold_lookup ps (m : gmap string json) k :
  NoDup ps.*1 ->
  fold_left (fun (m : gmap string json) kv =>
    if is_null (snd kv) then delete (fst kv) m
    else <[fst kv := rfc7396 (default JNull (m !! fst kv)) (snd kv)]> m) ps m !! k
  = match obj_map ps !! k with None => m !! k | Some p => merge_member (m !! k) p end.
Proof.
  revert m. induction ps as [|[k' p] ps IH]; intros m Hd; [done|].
  cbn [fmap list_fmap fst] in Hd. apply NoDup_cons in Hd as [Hk Hd].
  cbn [fold_left fst snd]. rewrite IH by done.
  assert (obj_map ((k', p) :: ps) = <[k' := p]> (obj_map ps)) as ->.
  { unfold obj_map. rewrite reverse_cons, list_to_map_app.
    apply map_eq. intros i. rewrite lookup_union.
    destruct (decide (i = k')) as [->|Hi].
    - assert (list_to_map (M := gmap string json) (reverse ps) !! k' = None) as ->.
      { apply not_elem_of_list_to_map. by rewrite fmap_reverse, elem_of_reverse. }
      cbn. by rewrite !lookup_insert_eq.
    - cbn. rewrite !lookup_insert_ne, lookup_empty by done. by destruct (_ !! i). }
  destruct (decide (k = k')) as [->|Hne].
  - assert (obj_map ps !! k' = None) as ->.
    { unfold obj_map. apply not_elem_of_list_to_map. by rewrite fmap_reverse, elem_of_reverse. }
    rewrite lookup_insert_eq. unfold merge_member.
    destruct (is_null p); [by rewrite lookup_delete_eq|by rewrite lookup_insert_eq].
  - rewrite lookup_insert_ne by done.
    assert ((if is_null p then delete k' m else <[k' := rfc7396 (default JNull (m !! k')) p]> m) !! k
            = m !! k) as ->; [|done].
    destruct (is_null p); [by rewrite lookup_delete_ne|by rewrite lookup_insert_ne].
Qed.

Lemma member_merge t ps k :
  NoDup ps.*1 ->
  member k (rfc7396 t (JObj ps))
  = match obj_map ps !! k with None => member k t | Some p => merge_member (member k t) p end.
Proof.
  intros Hd. cbn [rfc7396 member]. rewrite obj_map_map_obj, merge_fold_lookup by done.
  assert (match t with JObj ts => obj_map ts | _ => ∅ end !! k = member k t) as ->; [|done].
  by destruct t.
Qed.

(** The objects of a canonical document have each member once. *)
Lemma canonical_nodup l : canonical (JObj l) = true -> NoDup l.*1.
Proof.
  cbn. rewrite andb_true_iff, bool_decide_eq_true. intros [-> _]. apply map_obj_nodup.
Qed.

Lemma canonical_member k v x : canonical v = true -> member k v = Some x -> canonical x = true.
Proof.
  destruct v as [| | | | |l]; try done. cbn [member]. intros Hc.
  rewrite obj_map_lookup_nodup by (by apply canonical_nodup).
  cbn in Hc. apply andb_true_iff in Hc as [_ Hc]. rewrite forallb_forall in Hc.
  intros Hin%list_elem_of_In. by apply (Hc (k, x)).
Qed.

Lemma canonical_canon_idem v : canonical (canon v) = true.
Proof.
  induction v as [|b|lit|s|l IH|l IH] using json_ind; cbn [canonical canon]; try done.
  - apply forallb_forall. intros x (y & <- & Hy)%in_map_iff.
    rewrite Forall_forall in IH. apply IH. by apply list_elem_of_In.
  - rewrite obj_map_map_obj, bool_decide_true by done. cbn.
    apply forallb_forall. intros [k x] Hin%list_elem_of_In. rewrite elem_of_map_obj in Hin.
    unfold obj_map in Hin. apply elem_of_list_to_map_2 in Hin. rewrite elem_of_reverse in Hin.
    apply list_elem_of_In, in_map_iff in Hin as ([k' y] & [= <- <-] & Hy). cbn.
    rewrite Forall_forall in IH. apply (IH (k', y)). by apply list_elem_of_In.
Qed.

Lemma doc_canonical s v : doc s = Some v -> canonical v = true.
Proof.
  unfold doc. destruct (parse_json s); [|done]. intros [= <-]. apply canonical_canon_idem.
Qed.

(** A merge patch acts path by path: where two documents hold the same value,
    merging the same patch into them gives the same value. *)
Lemma merge_local p t u path :
  canonical p = true -> at_path path t = at_path path u ->
  at_path path (rfc7396 t p) = at_path path (rfc7396 u p).
Proof.
  revert p t u. induction path as [|k path IH]; intros p t u Hc H.
  - cbn in *. by injection H as ->.
  - destruct p as [| | | | |ps]; try done.
    cbn [at_path]. rewrite !member_merge by (by apply canonical_nodup).
    destruct (obj_map ps !! k) as [p|] eqn:E; [|exact H].
    unfold merge_member. destruct (is_null p); [done|]. cbn.
    assert (canonical p = true) as Hp by (by eapply (canonical_member k (JObj ps))).
    destruct path as [|k' path].
    + assert (default JNull (member k t) = default JNull (member k u)) as ->; [|done].
      cbn in H. by destruct (member k t), (member k u); cbn in *; congruence.
    + apply IH; [done|]. cbn [at_path] in *.
      by destruct (member k t), (member k u); cbn in *.
Qed.

(** ** Numbers along a path *)

Lemma to_float64_obj l v :
  to_float64 (JObj l) = Some v ->
  exists l', v = JObj l' /\ Forall2 (fun x y => fst x = fst y /\ to_float64 (snd x) = Some (snd y)) l l'.
Proof.
  cbn [to_float64]. intros H. apply fmap_Some in H as (l' & Hl & ->). exists l'. split; [done|].
  revert l' Hl. induction l as [|[k x] l IH]; intros l' Hl.
  - injection Hl as <-. constructor.
  - destruct (to_float64 x) as [y|] eqn:Ex; [|done]. cbn in Hl.
    match type of Hl with (mbind _ ?o = _) => destruct o as [ys|]; [|done] end.
    cbn in Hl. injection Hl as <-. constructor; [done|]. by apply IH.
Qed.

Lemma obj_map_forall2 (l l' : list (string * json)) k :
  Forall2 (fun x y => fst x = fst y /\ to_float64 (snd x) = Some (snd y)) l l' ->
  NoDup l.*1 -> obj_map l' !! k = obj_map l !! k ≫= to_float64.
Proof.
  intros H Hd.
  assert (l'.*1 = l.*1) as Hf.
  { clear Hd. induction H as [|[] [] l l' [Hx _] _ IH]; [done|]. cbn in *. congruence. }
  destruct (obj_map l !! k) as [x|] eqn:Hk.
  - apply obj_map_lookup_nodup in Hk; [|done]. apply list_elem_of_lookup_1 in Hk as (i & Hi).
    apply (Forall2_lookup_l _ _ _ _ _ H) in Hi as ([k' y] & Hy & Hkk & Hf64). cbn in *. subst k'.
    rewrite Hf64. apply obj_map_lookup_nodup; [by rewrite Hf|]. by eapply list_elem_of_lookup_2.
  - unfold obj_map in *. apply not_elem_of_list_to_map in Hk. cbn.
    apply not_elem_of_list_to_map. by rewrite fmap_reverse, Hf, <- fmap_reverse.
Qed.

Lemma at_path_float path v v' :
  canonical v = true -> to_float64 v = Some v' -> at_path path v' = at_path path v ≫= to_float64.
Proof.
  revert v v'. induction path as [|k path IH]; intros v v' Hc Hf; [done|].
  cbn [at_path].
  assert (member k v' = member k v ≫= to_float64) as ->.
  { destruct v as [| |lit| |l|l]; try by injection Hf as <-.
    - cbn in Hf. apply fmap_Some in Hf as (? & _ & ->). done.
    - cbn in Hf. apply fmap_Some in Hf as (? & _ & ->). done.
    - apply to_float64_obj in Hf as (l' & -> & Hl). cbn [member].
      apply obj_map_forall2; [done|]. by apply canonical_nodup. }
  destruct (member k v) as [z|] eqn:Ez; [|done]. cbn.
  pose proof (canonical_member k v z Hc Ez) as Hz.
  destruct (to_float64 z) as [z'|] eqn:Ef; [by apply IH|]. cbn.
  exfalso. destruct v as [| | | | |l]; try done. apply to_float64_obj in Hf as (l' & -> & Hl).
  pose proof (obj_map_forall2 l l' k Hl) as Hk. cbn [member] in Ez.
  apply obj_map_lookup_nodup in Ez; [|by apply canonical_nodup].
  apply list_elem_of_lookup_1 in Ez as (i & Hi).
  apply (Forall2_lookup_l _ _ _ _ _ Hl) in Hi as (y & _ & _ & Hy). cbn in Hy. congruence.
Qed.

Lemma float_stable_member k v x :
  canonical v = true -> float_stable v = true -> member k v = Some x -> float_stable x = true.
Proof.
  destruct v as [| | | | |l]; try done. cbn [member]. intros Hc.
  rewrite obj_map_lookup_nodup by (by apply canonical_nodup).
  cbn [float_stable]. rewrite forallb_forall. intros Hf Hin%list_elem_of_In. by apply (Hf (k, x)).
Qed.

Lemma float_stable_path path v x :
  canonical v = true -> float_stable v = true -> at_path path v = Some x ->
  float_stable x = true.
Proof.
  revert v. induction path as [|k path IH]; intros v Hc Hf H; [by injection H as <-|].
  cbn [at_path] in H. destruct (member k v) as [z|] eqn:Ez; [|done].
  eapply (IH z); [by eapply canonical_member|by eapply float_stable_member|done].
Qed.
