(* ===== verification/GoHeap.v ===== *)
(** * Go memory

    Values with references: pointers, slices and maps point into a heap of
    typed cells, each the backing array of values of one type ([new(T)] is an
    array of one).  Code that allocates and writes is a computation of [M Heap];
    its errors are the run time panics (nil dereference, index out of range).

    A [view] reads a structure with references as a plain value, together with
    the locations it reaches.  A [copier] returns a structure with an equal
    value that reaches new memory only, and leaves the old memory alone. *)

From S2P Require Import Prelude GoTime Api Libs.

Abbreviation loc := positive (only parsing).

Record ptr := mkPtr { p_arr : loc; p_idx : nat }.

(** A slice that is not nil: a window on an array. *)
Record slice := mkSlice { sl_arr : loc; sl_off : nat; sl_len : nat; sl_cap : nat }.

Definition panic (what : string) : error := errorf ("panic: " +:+ what).
Definition errIndex : error := panic "index out of range".
Definition errNil : error := panic "invalid memory address or nil pointer dereference".

(** The types whose arrays a cell can hold, with their zero value. *)
Class Stored (cell T : Type) := {
  to_cell : list T -> cell;
  of_cell : cell -> option (list T);
  zero : T;
  of_to_cell : forall l, of_cell (to_cell l) = Some l
}.

Abbreviation Heap cell := (gmap loc cell).

Section Memory.
Context {cell : Type}.

Definition Mem (A : Type) : Type := M (Heap cell) A.

Section Arrays.
Context {T : Type} {ST : Stored cell T}.

Definition array_at (h : Heap cell) (x : loc) : option (list T) := h !! x ≫= of_cell.

Definition alloc (l : list T) : Mem loc :=
  fun h => let x := fresh (dom h) in (Ok x, <[x := to_cell l]> h).

Definition load_at (x : loc) (i : nat) : Mem T :=
  fun h => match array_at h x with
           | Some l => match l !! i with Some v => (Ok v, h) | None => (Err errIndex, h) end
           | None => (Err errNil, h)
           end.

Definition store_at (x : loc) (i : nat) (v : T) : Mem unit :=
  fun h => match array_at h x with
           | Some l => if decide (i < length l)%nat then (Ok tt, <[x := to_cell (<[i := v]> l)]> h)
                       else (Err errIndex, h)
           | None => (Err errNil, h)
           end.

(** [new(T)], [*p] and [*p = v]. *)
Definition new_ptr : Mem ptr := x <~ alloc [zero];; gret (mkPtr x 0).
Definition load (p : ptr) : Mem T := load_at (p_arr p) (p_idx p).
Definition store (p : ptr) (v : T) : Mem unit := store_at (p_arr p) (p_idx p) v.

(** [make([]T, n)], [s[i]] and [s[i] = v]. *)
Definition make_slice (n : nat) : Mem slice :=
  x <~ alloc (replicate n zero);; gret (mkSlice x 0 n n).
Definition index (s : slice) (i : nat) : Mem T :=
  if decide (i < sl_len s)%nat then load_at (sl_arr s) (sl_off s + i) else gfail errIndex.
Definition set_index (s : slice) (i : nat) (v : T) : Mem unit :=
  if decide (i < sl_len s)%nat then store_at (sl_arr s) (sl_off s + i) v else gfail errIndex.

(** The elements of a slice, when its window is inside its array. *)
Definition elements_of (h : Heap cell) (s : slice) : option (list T) :=
  l ← array_at h (sl_arr s);
  let w := take (sl_len s) (drop (sl_off s) l) in
  if decide (length w = sl_len s) then Some w else None.

(** [append(s, v)]: in place when the capacity allows it, whoever else holds the
    array; else into a new array whose capacity [grow oldCap newLen] the run
    time chooses. *)
Definition append_one (grow : nat -> nat -> nat) (s : option slice) (v : T) : Mem slice :=
  match s with
  | Some s =>
      if decide (sl_len s < sl_cap s)%nat then
        store_at (sl_arr s) (sl_off s + sl_len s) v;;~
        gret (mkSlice (sl_arr s) (sl_off s) (S (sl_len s)) (sl_cap s))
      else fun h =>
        match elements_of h s with
        | Some l =>
            let n := grow (sl_cap s) (S (sl_len s)) in
            (x <~ alloc (l ++ [v] ++ replicate (n - S (sl_len s)) zero);;
             gret (mkSlice x 0 (S (sl_len s)) n)) h
        | None => (Err errIndex, h)
        end
  | None =>
      let n := grow 0%nat 1%nat in
      x <~ alloc ([v] ++ replicate (n - 1) zero);; gret (mkSlice x 0 1 n)
  end.
End Arrays.
End Memory.

Arguments Mem cell A : clear implicits.

(** ** Allocation *)

Section AllocSpec.
Context {cell T : Type} {ST : Stored cell T}.

Lemma array_at_insert (h : Heap cell) x (l : list T) : array_at (<[x := to_cell l]> h) x = Some l.
Proof. unfold array_at. rewrite lookup_insert_eq. cbn. apply of_to_cell. Qed.

Lemma alloc_spec (l : list T) (h : Heap cell) :
  exists x, alloc l h = (Ok x, <[x := to_cell l]> h) /\ h !! x = None.
Proof. eexists. split; [done|]. apply not_elem_of_dom, is_fresh. Qed.

Lemma load_at_ok x i (h : Heap cell) l (v : T) :
  array_at h x = Some l -> l !! i = Some v -> load_at x i h = (Ok v, h).
Proof. unfold load_at. by intros -> ->. Qed.

Lemma store_at_ok x i (v : T) (h : Heap cell) l :
  array_at h x = Some l -> (i < length l)%nat ->
  store_at x i v h = (Ok tt, <[x := to_cell (<[i := v]> l)]> h).
Proof. unfold store_at. intros -> H. by rewrite decide_True. Qed.

Lemma array_at_mono (h h' : Heap cell) x (l : list T) :
  h ⊆ h' -> array_at h x = Some l -> array_at h' x = Some l.
Proof.
  intros Hs. unfold array_at. destruct (h !! x) as [c|] eqn:E; [|done].
  by rewrite (lookup_weaken _ _ _ _ E Hs).
Qed.

Lemma array_at_local (h h' : Heap cell) x :
  h' !! x = h !! x -> array_at (T:=T) h' x = array_at h x.
Proof. unfold array_at. by intros ->. Qed.

Lemma array_at_dom (h : Heap cell) x (l : list T) : array_at h x = Some l -> x ∈ dom h.
Proof.
  unfold array_at. destruct (h !! x) eqn:E; [|done]. intros _. by apply elem_of_dom_2 in E.
Qed.
End AllocSpec.

(** ** Views *)

Section Views.
Context {cell : Type}.

(** Reads a structure: its value and the locations it reaches; [None] when it
    reaches memory that is not there or is of another type. *)
Definition view (T D : Type) : Type := Heap cell -> T -> option (D * gset loc).

(** A view depends on the locations it reaches, which are allocated. *)
Class Viewable {T D} (rep : view T D) : Prop := {
  view_local h h' v d L :
    rep h v = Some (d, L) -> (forall l, l ∈ L -> h' !! l = h !! l) -> rep h' v = Some (d, L);
  view_dom h v d L : rep h v = Some (d, L) -> L ⊆ dom h
}.

Definition view_plain {T} : view T T := fun _ v => Some (v, ∅).

Definition view_option {T D} (rep : view T D) : view (option T) (option D) :=
  fun h v => match v with
             | None => Some (None, ∅)
             | Some v => '(d, L) ← rep h v; Some (Some d, L)
             end.

Definition view_pair {T D U E} (rep : view T D) (rep' : view U E) : view (T * U) (D * E) :=
  fun h v => '(d, L) ← rep h v.1; '(e, L') ← rep' h v.2; Some ((d, e), L ∪ L').

(** A structure seen through the part that has references. *)
Definition view_with {S T D E} (f : S -> T) (g : S -> D -> E) (rep : view T D) : view S E :=
  fun h v => '(d, L) ← rep h (f v); Some (g v d, L).

Fixpoint view_list {T D} (rep : view T D) (h : Heap cell) (vs : list T) : option (list D * gset loc) :=
  match vs with
  | [] => Some ([], ∅)
  | v :: vs => '(d, L) ← rep h v; '(ds, L') ← view_list rep h vs; Some (d :: ds, L ∪ L')
  end.

Definition view_ptr {T D} `{Stored cell T} (rep : view T D) : view ptr D :=
  fun h p => l ← array_at h (p_arr p); v ← l !! p_idx p; '(d, L) ← rep h v; Some (d, {[p_arr p]} ∪ L).

Definition view_slice {T D} `{Stored cell T} (rep : view T D) : view slice (list D) :=
  fun h s => l ← elements_of h s; '(ds, L) ← view_list rep h l; Some (ds, {[sl_arr s]} ∪ L).

(** A map is a reference to its contents. *)
Definition view_map `{Stored cell (gmap string string)} : view loc (gmap string string) :=
  fun h x => l ← array_at h x; m ← l !! 0%nat; Some (m, {[x]}).

Lemma view_mono {T D} (rep : view T D) `{!Viewable rep} h h' v x :
  h ⊆ h' -> rep h v = Some x -> rep h' v = Some x.
Proof.
  destruct x as [d L]. intros Hs Hv. eapply view_local; [exact Hv|]. intros l Hl.
  apply (view_dom _ _ _ _ Hv), elem_of_dom in Hl as [c Hc].
  rewrite Hc. by eapply lookup_weaken.
Qed.

(** Splits the bound options of a hypothesis. *)
Ltac view_inv :=
  repeat match goal with
  | H : (_ ≫= _) = Some _ |- _ => apply bind_Some in H as (? & ? & ?)
  | H : (let '(_, _) := ?p in _) = Some _ |- _ => destruct p
  end; simplify_eq.

Ltac view_keep :=
  repeat match goal with
  | E : ?rep ?h ?v = Some (?d, ?L) |- context [?rep ?h' ?v] =>
      rewrite (view_local h h' v d L E) by set_solver; cbn
  end.

Ltac view_reach :=
  match goal with E : _ = Some (_, ?L) |- ?L ⊆ _ => exact (view_dom _ _ _ _ E) end.

#[global] Instance view_plain_ok {T} : Viewable (@view_plain T).
Proof. split; intros * [= <- <-]; set_solver. Qed.

#[global] Instance view_option_ok {T D} (rep : view T D) : Viewable rep -> Viewable (view_option rep).
Proof.
  intros Hr. split; intros * H; destruct v as [v|]; unfold view_option in *; view_inv.
  - intros Hl. by view_keep.
  - done.
  - view_reach.
  - set_solver.
Qed.

#[global] Instance view_pair_ok {T D U E} (rep : view T D) (rep' : view U E) :
  Viewable rep -> Viewable rep' -> Viewable (view_pair rep rep').
Proof.
  intros Hr Hr'. split; intros * H; unfold view_pair in *; view_inv.
  - intros Hl. by view_keep.
  - apply union_subseteq. split; view_reach.
Qed.

#[global] Instance view_with_ok {S T D E} (f : S -> T) (g : S -> D -> E) rep :
  Viewable rep -> Viewable (view_with f g rep).
Proof.
  intros Hr. split; intros * H; unfold view_with in *; view_inv.
  - intros Hl. by view_keep.
  - view_reach.
Qed.

#[global] Instance view_list_ok {T D} (rep : view T D) : Viewable rep -> Viewable (view_list rep).
Proof.
  intros Hr. split; intros h *; revert d L.
  - induction v as [|v vs IH]; cbn; intros * H; [by simplify_eq|]. view_inv. intros Hl.
    view_keep. by rewrite (IH _ _ ltac:(eassumption)) by set_solver.
  - induction v as [|v vs IH]; cbn; intros * H; [simplify_eq; set_solver|]. view_inv.
    apply union_subseteq. split; [view_reach|eauto].
Qed.

#[global] Instance view_ptr_ok {T D} `{Stored cell T} (rep : view T D) :
  Viewable rep -> Viewable (view_ptr rep).
Proof.
  intros Hr. split; intros * Hv; unfold view_ptr in *; view_inv.
  - intros Hl. rewrite (array_at_local h) by set_solver.
    match goal with E : array_at h _ = Some _ |- _ => rewrite E; cbn end.
    match goal with E : _ !! _ = Some _ |- _ => rewrite E; cbn end.
    by view_keep.
  - apply union_subseteq. split; [|view_reach].
    apply singleton_subseteq_l. by eapply array_at_dom.
Qed.

Lemma elements_of_local {T} `{Stored cell T} (h h' : Heap cell) s :
  h' !! sl_arr s = h !! sl_arr s -> elements_of (T:=T) h' s = elements_of h s.
Proof. intros E. unfold elements_of. by rewrite (array_at_local h h'). Qed.

#[global] Instance view_slice_ok {T D} `{Stored cell T} (rep : view T D) :
  Viewable rep -> Viewable (view_slice rep).
Proof.
  intros Hr. split; intros * Hv; unfold view_slice in *; view_inv.
  - intros Hl. rewrite (elements_of_local h) by set_solver.
    match goal with E : elements_of h _ = Some _ |- _ => rewrite E; cbn end.
    by view_keep.
  - apply union_subseteq. split; [|view_reach].
    apply singleton_subseteq_l. unfold elements_of in *. view_inv. by eapply array_at_dom.
Qed.

#[global] Instance view_map_ok `{Stored cell (gmap string string)} : Viewable view_map.
Proof.
  split; intros * Hv; unfold view_map in *; view_inv.
  - intros Hl. rewrite (array_at_local h) by set_solver.
    match goal with E : array_at h _ = Some _ |- _ => rewrite E; cbn end.
    match goal with E : _ !! _ = Some _ |- _ => by rewrite E end.
  - apply singleton_subseteq_l. by eapply array_at_dom.
Qed.
End Views.

(** ** Copiers *)

Section Copiers.
Context {cell : Type}.

(** The copy of a readable structure succeeds, has the same value, reaches only
    new locations, and the old memory is untouched. *)
Definition copies {T D} (rep : view T D) (c : T -> Mem cell T) : Prop :=
  forall h v d L, rep h v = Some (d, L) ->
  exists v' h' L', c v h = (Ok v', h') /\ h ⊆ h' /\ rep h' v' = Some (d, L') /\ L' ## dom h.

(** [if in.F != nil { ... }]: a nil reference is copied as such. *)
Definition copy_option {T} (c : T -> Mem cell T) (v : option T) : Mem cell (option T) :=
  match v with
  | None => gret None
  | Some v => v' <~ c v;; gret (Some v')
  end.

(** [out := new(T); in.DeepCopyInto(out)], [*out = new(T); **out = **in]. *)
Definition copy_ptr {T} `{Stored cell T} (c : T -> Mem cell T) (p : ptr) : Mem cell ptr :=
  out <~ new_ptr;;
  v <~ load p;;
  v' <~ c v;;
  store out v';;~
  gret out.

(** [for i := range in { in[i].DeepCopyInto(&out[i]) }], through the two pointers *)
Fixpoint copy_elements {T} `{Stored cell T} (c : T -> Mem cell T) (s out : slice) (i n : nat)
    : Mem cell unit :=
  match n with
  | O => gret tt
  | S n =>
      v <~ index s i;;
      v' <~ c v;;
      set_index out i v';;~
      copy_elements c s out (S i) n
  end.

(** [out = make([]T, len(in))] and the loop *)
Definition copy_slice {T} `{Stored cell T} (c : T -> Mem cell T) (s : slice) : Mem cell slice :=
  out <~ make_slice (sl_len s);;
  copy_elements c s out 0 (sl_len s);;~
  gret out.

(** [for key, val := range in { out[key] = val }], through the two pointers *)
Fixpoint copy_entries `{Stored cell (gmap string string)} (kvs : list (string * string)) (out : loc)
    : Mem cell unit :=
  match kvs with
  | [] => gret tt
  | (key, val) :: kvs =>
      m <~ load_at out 0;;
      store_at out 0 (<[key := val]> m);;~
      copy_entries kvs out
  end.

(** [out = make(map[string]string, len(in))] and the loop, in the order of
    iteration the run time picks for this loop. *)
Definition copy_map `{Stored cell (gmap string string)} `{MapRange} (x : loc) : Mem cell loc :=
  out <~ alloc [∅ : gmap string string];;
  m <~ load_at x 0;;
  (fun h => copy_entries (range (size h) m) out h);;~
  gret out.

Lemma copies_plain {T} : copies (@view_plain cell T) (fun v => gret v).
Proof. intros h v d L [= <- <-]. eexists _, _, _. split_and!; done. Qed.

Lemma copies_option {T D} (rep : view T D) c :
  copies rep c -> copies (view_option rep) (copy_option c).
Proof.
  intros Hc h v d L Hv. destruct v as [v|]; unfold view_option in Hv.
  - apply bind_Some in Hv as ((d0 & L0) & Hv & Hd). simplify_eq.
    destruct (Hc _ _ _ _ Hv) as (v' & h' & L' & E & Hs & Hr & Hd).
    exists (Some v'), h', L'. unfold copy_option, gbind. rewrite E. cbn. rewrite Hr. done.
  - simplify_eq. eexists _, _, _. split_and!; done.
Qed.

Lemma copies_pair {T D U E} (rep : view T D) (rep' : view U E) c c' `{!Viewable rep, !Viewable rep'} :
  copies rep c -> copies rep' c' ->
  copies (view_pair rep rep') (fun v => x <~ c v.1;; y <~ c' v.2;; gret (x, y)).
Proof.
  intros Hc Hc' h [v u] d L Hv. unfold view_pair in Hv. cbn in Hv.
  apply bind_Some in Hv as ((d1 & L1) & H1 & Hv). apply bind_Some in Hv as ((d2 & L2) & H2 & Hv).
  simplify_eq.
  destruct (Hc _ _ _ _ H1) as (v' & h1 & L1' & E1 & S1 & R1 & D1).
  destruct (Hc' h1 u d2 L2) as (u' & h2 & L2' & E2 & S2 & R2 & D2); [by eapply view_mono|].
  exists (v', u'), h2, (L1' ∪ L2'). unfold gbind. cbn. rewrite E1, E2. split_and!.
  - done.
  - by etrans.
  - unfold view_pair. cbn. by rewrite (view_mono rep _ _ _ _ S2 R1), R2.
  - apply subseteq_dom in S1. set_solver.
Qed.

(** A structure copied through the part that has references; [build] puts the
    copied part back. *)
Lemma copies_with {S T D E} (f : S -> T) (g : S -> D -> E) (build : S -> T -> S) rep ct c :
  (forall v h, c v h = (t <~ ct (f v);; gret (build v t)) h) ->
  (forall v t, f (build v t) = t) -> (forall v t d, g (build v t) d = g v d) ->
  copies rep ct -> copies (view_with f g rep) c.
Proof.
  intros Hc Hf Hg Ht h v d L Hv. unfold view_with in Hv.
  apply bind_Some in Hv as ((d0 & L0) & Hv & Hd). simplify_eq.
  destruct (Ht _ _ _ _ Hv) as (t & h' & L' & E1 & S1 & R1 & D1).
  exists (build v t), h', L'. rewrite Hc. unfold gbind. rewrite E1. split_and!; try done.
  unfold view_with. rewrite Hf, R1. cbn. by rewrite Hg.
Qed.

Lemma fresh_subseteq (h : Heap cell) x c : h !! x = None -> h ⊆ <[x := c]> h.
Proof. by apply insert_subseteq. Qed.

(** Writing an array allocated after [h]. *)
Lemma write_fresh (h h' : Heap cell) x c : h ⊆ h' -> h !! x = None -> h ⊆ <[x := c]> h'.
Proof. intros Hs Hx. by apply insert_subseteq_r. Qed.

Lemma view_write {T D} (rep : view T D) `{!Viewable rep} (h : Heap cell) x c v d L :
  rep h v = Some (d, L) -> x ∉ L -> rep (<[x := c]> h) v = Some (d, L).
Proof.
  intros Hv Hx. eapply view_local; [exact Hv|]. intros l Hl. apply lookup_insert_ne. by intros ->.
Qed.

(** The pointer a copy returns: new, and not reached by what it points to. *)
Lemma copy_ptr_spec {T D} `{Stored cell T} (rep : view T D) c `{!Viewable rep} (h : Heap cell) p d L :
  copies rep c -> view_ptr rep h p = Some (d, L) ->
  exists q h' v' L',
    copy_ptr c p h = (Ok q, h') /\ h ⊆ h' /\ h !! p_arr q = None
    /\ load q h' = (Ok v', h') /\ rep h' v' = Some (d, L')
    /\ L' ## dom h /\ (p_arr q ∉ L') /\ view_ptr rep h' q = Some (d, {[p_arr q]} ∪ L').
Proof.
  intros Hc Hv. unfold view_ptr in Hv.
  apply bind_Some in Hv as (l & Hl & Hv). apply bind_Some in Hv as (v & Hi & Hv).
  apply bind_Some in Hv as ((d0 & L0) & Hv & Hd). simplify_eq.
  destruct (alloc_spec [zero (T:=T)] h) as (x & Ex & Hx).
  set (h1 := <[x := to_cell [zero]]> h) in *.
  assert (h ⊆ h1) as S1 by by apply fresh_subseteq.
  destruct (Hc h1 v d L0) as (v' & h2 & L' & E2 & S2 & R2 & D2); [by eapply view_mono|].
  assert (array_at h2 x = Some [zero]) as Ha.
  { eapply array_at_mono; [exact S2|]. apply array_at_insert. }
  assert (x ∉ L') as Hn.
  { intros Hin. apply (D2 x Hin), elem_of_dom. unfold h1. rewrite lookup_insert_eq. eauto. }
  pose proof (view_write rep _ x (to_cell [v']) _ _ _ R2 Hn) as R3.
  exists (mkPtr x 0), (<[x := to_cell [v']]> h2), v', L'.
  unfold copy_ptr, new_ptr, gbind. rewrite Ex. cbn.
  unfold load. rewrite (load_at_ok _ _ _ l v) by (try done; by eapply array_at_mono).
  rewrite E2. unfold store. rewrite (store_at_ok _ _ _ _ [zero]) by (try done; cbn; lia).
  split_and!; try done.
  - apply write_fresh; [by etrans|done].
  - eapply load_at_ok; [apply array_at_insert|done].
  - apply subseteq_dom in S1. set_solver.
  - unfold view_ptr. cbn. rewrite array_at_insert. cbn. by rewrite R3.
Qed.

Lemma copies_ptr {T D} `{Stored cell T} (rep : view T D) c `{!Viewable rep} :
  copies rep c -> copies (view_ptr rep) (copy_ptr c).
Proof.
  intros Hc h p d L Hv.
  destruct (copy_ptr_spec rep c h p d L Hc Hv) as (q & h' & v' & L' & E & Hs & Hq & _ & _ & Hd & _ & Hr).
  exists q, h', ({[p_arr q]} ∪ L'). split_and!; try done. apply not_elem_of_dom in Hq. set_solver.
Qed.

(** *** Maps *)

Lemma copy_entries_spec `{Stored cell (gmap string string)} kvs out m (h : Heap cell) :
  NoDup kvs.*1 -> array_at h out = Some [m] ->
  copy_entries kvs out h = (Ok tt, match kvs with [] => h | _ => <[out := to_cell [list_to_map kvs ∪ m]]> h end).
Proof.
  revert m h. induction kvs as [|[k v] kvs IH]; intros m h Hd Ha; [done|].
  cbn [fmap list_fmap fst] in Hd. apply NoDup_cons in Hd as [Hk Hd].
  cbn [copy_entries]. unfold gbind. rewrite (load_at_ok _ _ _ [m] m) by done.
  rewrite (store_at_ok _ _ _ _ [m]) by (try done; cbn; lia). cbn [list_insert].
  rewrite (IH (<[k := v]> m)) by (try done; apply array_at_insert).
  change (<[0%nat := <[k := v]> m]> [m]) with [<[k := v]> m].
  assert (list_to_map ((k, v) :: kvs) ∪ m = list_to_map kvs ∪ <[k := v]> m :> gmap string string) as ->.
  { cbn [list_to_map foldr]. rewrite <- insert_union_r by (by apply not_elem_of_list_to_map).
    by rewrite insert_union_l. }
  destruct kvs; [cbn [list_to_map foldr]; by rewrite (left_id_L ∅ (∪))|]. by rewrite insert_insert_eq.
Qed.

Lemma copies_map `{Stored cell (gmap string string)} `{MapRange} : copies view_map copy_map.
Proof.
  intros h x m L Hv. unfold view_map in Hv.
  apply bind_Some in Hv as (l & Hl & Hv). apply bind_Some in Hv as (m0 & Hi & Hv). simplify_eq.
  destruct (alloc_spec [∅ : gmap string string] h) as (o & Eo & Ho).
  set (h1 := <[o := to_cell [∅]]> h) in *.
  assert (h ⊆ h1) as S1 by by apply fresh_subseteq.
  exists o, (<[o := to_cell [m]]> h), {[o]}. unfold copy_map, gbind. rewrite Eo.
  rewrite (load_at_ok _ _ _ l m) by (try done; by eapply array_at_mono).
  rewrite (copy_entries_spec _ _ ∅) by (apply range_NoDup_keys || apply array_at_insert).
  rewrite (right_id_L ∅ (∪)), list_to_map_range. unfold gret. split_and!.
  - f_equal. pose proof (list_to_map_range (size h1) m) as Hm.
    destruct (range _ m); [by rewrite <- Hm|]. apply insert_insert_eq.
  - by apply fresh_subseteq.
  - unfold view_map. by rewrite array_at_insert.
  - apply not_elem_of_dom in Ho. set_solver.
Qed.

(** *** Slices *)

Lemma view_list_lookup {T D} (rep : view T D) (h : Heap cell) vs ds L i v :
  view_list rep h vs = Some (ds, L) -> vs !! i = Some v ->
  exists d L', rep h v = Some (d, L') /\ ds !! i = Some d.
Proof.
  revert ds L i. induction vs as [|v0 vs IH]; intros ds L i Hv Hi; [done|].
  cbn in Hv. apply bind_Some in Hv as ((d & L1) & H1 & Hv).
  apply bind_Some in Hv as ((ds' & L2) & H2 & Hv). simplify_eq.
  destruct i; cbn in Hi; simplify_eq; [by exists d, L1|].
  exact (IH _ _ _ H2 Hi).
Qed.

Lemma view_list_length {T D} (rep : view T D) (h : Heap cell) vs ds L :
  view_list rep h vs = Some (ds, L) -> length ds = length vs.
Proof.
  revert ds L. induction vs as [|v vs IH]; intros ds L Hv; cbn in Hv; [by simplify_eq|].
  apply bind_Some in Hv as ((d & L1) & H1 & Hv). apply bind_Some in Hv as ((ds' & L2) & H2 & Hv).
  simplify_eq. cbn. by rewrite (IH _ _ H2).
Qed.

(** Elements copied so far: equal values in memory outside [N]. *)
Definition copied {T D} (rep : view T D) (N : gset loc) (h : Heap cell) (v : T) (d : D) : Prop :=
  exists L, rep h v = Some (d, L) /\ L ## N.

Lemma view_list_copied {T D} (rep : view T D) N (h : Heap cell) vs ds :
  Forall2 (copied rep N h) vs ds -> exists L, view_list rep h vs = Some (ds, L) /\ L ## N.
Proof.
  induction 1 as [|v d vs ds (L & Hv & HL) _ (L' & Hl & HL')]; [by exists ∅|].
  exists (L ∪ L'). cbn. rewrite Hv. cbn. rewrite Hl. split; [done|]. set_solver.
Qed.

Section SliceCopy.
Context {T D : Type} {ST : Stored cell T} (rep : @view cell T D) {VR : Viewable rep}.
Variables (c : T -> Mem cell T) (h : Heap cell) (s : slice) (o : loc) (vs : list T) (ds : list D).
Variable (L : gset loc).
Hypothesis Hc : copies rep c.
Hypothesis Hs : elements_of h s = Some vs.
Hypothesis Hvs : view_list rep h vs = Some (ds, L).
Hypothesis Ho : h !! o = None.

Lemma elements_of_length (h' : Heap cell) (s' : slice) (l : list T) :
  elements_of h' s' = Some l -> length l = sl_len s'.
Proof.
  unfold elements_of. intros (l0 & _ & H)%bind_Some. cbv zeta in H. by case_decide; simplify_eq.
Qed.

(** Element [i] of the source, read while the copy is in progress. *)
Lemma index_source hi i v : h ⊆ hi -> vs !! i = Some v -> index s i hi = (Ok v, hi).
Proof.
  intros Hsub Hi. pose proof (elements_of_length _ _ _ Hs) as Hlen.
  pose proof (lookup_lt_Some _ _ _ Hi) as Hlt. unfold index. rewrite decide_True by lia.
  unfold elements_of in Hs. apply bind_Some in Hs as (l & Hl & H). cbv zeta in H.
  case_decide; [|done]. simplify_eq.
  apply (load_at_ok _ _ _ l); [by eapply array_at_mono|].
  rewrite lookup_take_lt in Hi by lia. by rewrite lookup_drop in Hi.
Qed.

Lemma copied_write N hi x cl v d :
  x ∈ N -> copied rep N hi v d -> copied rep N (<[x := cl]> hi) v d.
Proof.
  intros Hx (L0 & Hv & HL). exists L0. split; [|done]. apply (view_write rep); [done|set_solver].
Qed.

Lemma copied_mono N hi hj v d : hi ⊆ hj -> copied rep N hi v d -> copied rep N hj v d.
Proof. intros Hij (L0 & Hv & HL). exists L0. split; [by eapply view_mono|done]. Qed.

(** The loop with the first [i] elements copied. *)
Lemma copy_elements_spec n i done hi :
  h ⊆ hi -> array_at hi o = Some (done ++ replicate n zero) ->
  length done = i -> (i + n)%nat = length vs ->
  Forall2 (copied rep (dom h ∪ {[o]}) hi) done (take i ds) ->
  exists h' done',
    copy_elements c s (mkSlice o 0 (sl_len s) (sl_len s)) i n hi = (Ok tt, h')
    /\ h ⊆ h' /\ array_at h' o = Some done' /\ Forall2 (copied rep (dom h ∪ {[o]}) h') done' ds.
Proof.
  pose proof (elements_of_length _ _ _ Hs) as Hlen. pose proof (view_list_length _ _ _ _ _ Hvs) as Hds.
  revert i done hi. induction n as [|n IH]; intros i done hi Hsub Ha Hi Hn Hf.
  { exists hi, done. rewrite app_nil_r in Ha. rewrite take_ge in Hf by lia. done. }
  destruct (lookup_lt_is_Some_2 vs i) as [v Hv]; [lia|].
  destruct (view_list_lookup _ _ _ _ _ _ _ Hvs Hv) as (d & Ld & Hr & Hd).
  destruct (Hc hi v d Ld) as (v' & h1 & L1 & E1 & S1 & R1 & D1); [by eapply view_mono|].
  cbn [copy_elements]. rewrite (bind_run _ _ _ _ _ (index_source _ _ _ Hsub Hv)).
  rewrite (bind_run _ _ _ _ _ E1).
  assert (array_at h1 o = Some (done ++ replicate (S n) zero)) as Ha1 by (by eapply array_at_mono).
  assert (<[i := v']> (done ++ replicate (S n) zero) = (done ++ [v']) ++ replicate n zero) as Eins.
  { rewrite <- Hi, <- (Nat.add_0_r (length done)), insert_app_r. cbn. by rewrite <- app_assoc. }
  unfold set_index. cbn [sl_len sl_arr sl_off Nat.add]. rewrite decide_True by lia.
  rewrite (bind_run _ _ _ _ _ (store_at_ok o i v' h1 _ Ha1 ltac:(rewrite length_app, length_replicate; lia))).
  rewrite Eins. apply (IH (S i) (done ++ [v'])).
  - apply write_fresh; [by etrans|done].
  - apply array_at_insert.
  - rewrite length_app. cbn. lia.
  - lia.
  - rewrite (take_S_r _ _ _ Hd). apply Forall2_app.
    + eapply Forall2_impl; [exact Hf|]. intros x y Hxy. apply copied_write; [set_solver|].
      by eapply copied_mono.
    + constructor; [|constructor]. apply copied_write; [set_solver|]. exists L1. split; [done|].
      apply subseteq_dom in Hsub. apply array_at_dom in Ha. set_solver.
Qed.
End SliceCopy.

Lemma copies_slice {T D} `{Stored cell T} (rep : view T D) c `{!Viewable rep} :
  copies rep c -> copies (view_slice rep) (copy_slice c).
Proof.
  intros Hc h s ds L Hv. unfold view_slice in Hv.
  apply bind_Some in Hv as (vs & Hs & Hv). apply bind_Some in Hv as ((ds' & L0) & Hl & Hv). simplify_eq.
  pose proof (elements_of_length _ _ _ Hs) as Hlen.
  destruct (alloc_spec (replicate (sl_len s) (zero (T:=T))) h) as (o & Eo & Ho).
  set (h1 := <[o := _]> h) in *.
  destruct (copy_elements_spec rep c h s o vs ds L0 Hc Hs Hl Ho (sl_len s) 0 [] h1)
    as (h' & out & E' & S' & Ha & Hf).
  { by apply fresh_subseteq. } { apply array_at_insert. } { done. } { cbn. lia. } { constructor. }
  destruct (view_list_copied _ _ _ _ _ Hf) as (L' & Hl' & HL').
  exists (mkSlice o 0 (sl_len s) (sl_len s)), h', ({[o]} ∪ L').
  assert (length out = sl_len s) as Hout.
  { apply Forall2_length in Hf. rewrite Hf, <- Hlen. by eapply view_list_length. }
  unfold copy_slice, make_slice. split_and!; try done.
  - unfold gbind. rewrite Eo. cbn [gret]. unfold gret. by rewrite E'.
  - unfold view_slice, elements_of. cbn [sl_arr sl_off sl_len]. rewrite Ha. cbn [mbind option_bind].
    rewrite drop_0, take_ge by lia. rewrite decide_True by done. cbn. by rewrite Hl'.
  - apply not_elem_of_dom in Ho. set_solver.
Qed.
End Copiers.
