(* ===== verification/CommandLine.v ===== *)
(** * The command line of the manager: cmd/main.go

    The flags of [main] with their defaults, as [flag] reads them: an int has the
    width of the platform, 64 bits or 32 (linux/arm/v7, Makefile and
    .goreleaser.yaml).  The flags of the libraries (the logger binds some of its
    own) are a parameter. *)

From S2P Require Import Prelude GoStrings GoTime GoFlag.

Record Flags := mkFlags {
  webhookHost : string;
  webhookPort : Z;
  metricsAddr : string;
  probeAddr : string;
  sleepDelta : Z;
  enableLeaderElection : bool;
  secureMetrics : bool;
  webhookCertPath : string;
  webhookCertName : string;
  webhookCertKey : string;
  metricsCertPath : string;
  metricsCertName : string;
  metricsCertKey : string;
  enableHTTP2 : bool;
  maxConcurrentReconciles : Z
}.

Definition defaultFlags : Flags :=
  mkFlags "" 9443 "0" ":8081" 60 false true "" "tls.crt" "tls.key" "" "tls.crt" "tls.key" false 20.

(** The platforms the program is built for, and [strconv.IntSize] on them. *)
Inductive platform := Platform32 | Platform64.

Definition IntSize (pf : platform) : Z := match pf with Platform32 => 32 | Platform64 => 64 end.

(** [flag.StringVar], [flag.IntVar], [flag.Int64Var] and [flag.BoolVar]: flags that
    set a field. *)
Definition StringVar (set : string -> Flags -> Flags) : Flag Flags := mkFlag false (fun v f => Ok (set v f)).
Definition IntVar (pf : platform) (set : Z -> Flags -> Flags) : Flag Flags :=
  mkFlag false (fun v f => let? n := ParseInt0 (IntSize pf) v in Ok (set n f)).
Definition Int64Var (set : Z -> Flags -> Flags) : Flag Flags :=
  mkFlag false (fun v f => let? n := ParseInt0 64 v in Ok (set n f)).
Definition BoolVar (set : bool -> Flags -> Flags) : Flag Flags :=
  mkFlag true (fun v f => let? b := ParseBool v in Ok (set b f)).

Definition flagVars (pf : platform) : list (string * Flag Flags) :=
  [("webhook-host", StringVar (fun v '(mkFlags _ b c d e f g h i j k l m n o) => mkFlags v b c d e f g h i j k l m n o));
   ("webhook-server-port", IntVar pf (fun v '(mkFlags a _ c d e f g h i j k l m n o) => mkFlags a v c d e f g h i j k l m n o));
   ("metrics-bind-address", StringVar (fun v '(mkFlags a b _ d e f g h i j k l m n o) => mkFlags a b v d e f g h i j k l m n o));
   ("health-probe-bind-address", StringVar (fun v '(mkFlags a b c _ e f g h i j k l m n o) => mkFlags a b c v e f g h i j k l m n o));
   ("sleep-delta", Int64Var (fun v '(mkFlags a b c d _ f g h i j k l m n o) => mkFlags a b c d v f g h i j k l m n o));
   ("leader-elect", BoolVar (fun v '(mkFlags a b c d e _ g h i j k l m n o) => mkFlags a b c d e v g h i j k l m n o));
   ("metrics-secure", BoolVar (fun v '(mkFlags a b c d e f _ h i j k l m n o) => mkFlags a b c d e f v h i j k l m n o));
   ("webhook-cert-path", StringVar (fun v '(mkFlags a b c d e f g _ i j k l m n o) => mkFlags a b c d e f g v i j k l m n o));
   ("webhook-cert-name", StringVar (fun v '(mkFlags a b c d e f g h _ j k l m n o) => mkFlags a b c d e f g h v j k l m n o));
   ("webhook-cert-key", StringVar (fun v '(mkFlags a b c d e f g h i _ k l m n o) => mkFlags a b c d e f g h i v k l m n o));
   ("metrics-cert-path", StringVar (fun v '(mkFlags a b c d e f g h i j _ l m n o) => mkFlags a b c d e f g h i j v l m n o));
   ("metrics-cert-name", StringVar (fun v '(mkFlags a b c d e f g h i j k _ m n o) => mkFlags a b c d e f g h i j k v m n o));
   ("metrics-cert-key", StringVar (fun v '(mkFlags a b c d e f g h i j k l _ n o) => mkFlags a b c d e f g h i j k l v n o));
   ("enable-http2", BoolVar (fun v '(mkFlags a b c d e f g h i j k l m _ o) => mkFlags a b c d e f g h i j k l m v o));
   ("max-concurrent-reconciles", IntVar pf (fun v '(mkFlags a b c d e f g h i j k l m n _) => mkFlags a b c d e f g h i j k l m n v))]%string.

Fixpoint lookup_flag {S} (name : string) (l : list (string * Flag S)) : option (Flag S) :=
  match l with
  | [] => None
  | (n, fl) :: l => if String.eqb n name then Some fl else lookup_flag name l
  end.

Section CommandLine.
Variable pf : platform.
(** The flags of the libraries; what they set is not part of [Flags]. *)
Variable extra : string -> option (Flag unit).

Definition commandLine (name : string) : option (Flag Flags) :=
  match lookup_flag name (flagVars pf) with
  | Some fl => Some fl
  | None =>
      fl ← extra name;
      Some (mkFlag (isBoolFlag fl) (fun v f => let? _ := set_flag fl v tt in Ok f))
  end.

(** [flag.Parse()] on the arguments of the process. *)
Definition parseFlags (args : list string) : result Flags :=
  let? r := Parse commandLine args defaultFlags in Ok (fst r).
End CommandLine.

(** ** Theorems *)

(** The settings that describe a configuration. *)
Definition settings (f : Flags) : list (string * string) :=
  [("webhook-host", webhookHost f); ("webhook-server-port", itoa (webhookPort f));
   ("metrics-bind-address", metricsAddr f); ("health-probe-bind-address", probeAddr f);
   ("sleep-delta", itoa (sleepDelta f)); ("leader-elect", fmt_bool (enableLeaderElection f));
   ("metrics-secure", fmt_bool (secureMetrics f)); ("webhook-cert-path", webhookCertPath f);
   ("webhook-cert-name", webhookCertName f); ("webhook-cert-key", webhookCertKey f);
   ("metrics-cert-path", metricsCertPath f); ("metrics-cert-name", metricsCertName f);
   ("metrics-cert-key", metricsCertKey f); ("enable-http2", fmt_bool (enableHTTP2 f));
   ("max-concurrent-reconciles", itoa (maxConcurrentReconciles f))]%string.

(** The numbers of a configuration are integers of their types. *)
Definition ints_fit (pf : platform) (f : Flags) : Prop :=
  in_int (IntSize pf) (webhookPort f) /\ in_int 64 (sleepDelta f)
  /\ in_int (IntSize pf) (maxConcurrentReconciles f).

Section Spec.
Variable pf : platform.
Variable extra : string -> option (Flag unit).

(** A full list of settings that leads from one configuration to another; those
    that satisfy [idle] change nothing where they stand. *)
Inductive chain (idle : string * string -> Prop) : list (string * string) -> Flags -> Flags -> Prop :=
| chain_nil st : chain idle [] st st
| chain_cons name v rest st st1 st2 fl :
    commandLine pf extra name = Some fl -> set_flag fl v st = Ok st1 -> (idle (name, v) -> st1 = st) ->
    chain idle rest st1 st2 -> chain idle ((name, v) :: rest) st st2.

(** The idle settings can be left out. *)
Lemma chain_sublist idle full l st st' :
  chain idle full st st' -> NoDup full.*1 -> l `sublist_of` full ->
  (forall nv, nv ∈ full -> nv ∉ l -> idle nv) ->
  set_all (commandLine pf extra) l st = Some st'.
Proof.
  intros Hc. revert l. induction Hc as [st|name v rest st st1 st2 fl Hf Hs Hi Hc IH]; intros l Hd Hl Hidle.
  - apply sublist_nil_r in Hl as ->. done.
  - cbn in Hd. apply NoDup_cons in Hd as [Hname Hd].
    assert ((name, v) ∉ rest) as Hnv.
    { intros Hin. apply Hname, list_elem_of_fmap. by exists (name, v). }
    apply sublist_cons_r in Hl as [Hl|(l' & -> & Hl)].
    + rewrite <- Hi; [|apply Hidle; [by left|intros Hin; apply Hnv; by eapply elem_of_sublist]].
      apply IH; [done|done|]. intros nv Hin. apply Hidle. by right.
    + cbn. rewrite Hf. cbn. rewrite Hs. apply IH; [done|done|].
      intros nv Hin Hni. apply Hidle; [by right|]. by intros [->|H]%elem_of_cons.
Qed.

Lemma IntSize_pos : 0 < IntSize pf.
Proof. by destruct pf. Qed.

Lemma itoa_inj m n : itoa m = itoa n -> m = n.
Proof. intros H. apply (f_equal parse_int) in H. rewrite !parse_int_itoa in H. congruence. Qed.

Lemma fmt_bool_inj a b : fmt_bool a = fmt_bool b -> a = b.
Proof. by destruct a, b. Qed.


(** A setting of the default configuration, field by field. *)
Ltac default_setting H :=
  repeat (apply elem_of_cons in H as [H|H]; [try discriminate H; injection H as H|]);
  try by apply elem_of_nil in H.

Lemma settings_chain f :
  ints_fit pf f -> chain (fun nv => nv ∈ settings defaultFlags) (settings f) defaultFlags f.
Proof.
  destruct f as [a b c d e f g h i j k l m n o]. intros (H1 & H2 & H3). cbn in H1, H2, H3.
  unfold settings at 2, defaultFlags at 2.
  cbn [webhookHost webhookPort metricsAddr probeAddr sleepDelta enableLeaderElection secureMetrics
    webhookCertPath webhookCertName webhookCertKey metricsCertPath metricsCertName metricsCertKey
    enableHTTP2 maxConcurrentReconciles].
  repeat (eapply chain_cons;
    [reflexivity
    |cbn [set_flag StringVar IntVar Int64Var BoolVar];
     rewrite ?ParseInt0_itoa, ?ParseBool_fmt by (done || apply IntSize_pos); reflexivity
    |intros Hin; unfold settings in Hin; default_setting Hin;
     try apply itoa_inj in Hin;
     try match type of Hin with fmt_bool ?x = _ => destruct x; try discriminate Hin end; by subst
    |]).
  apply chain_nil.
Qed.

(** [C20] The command line is read as it is written.  On a platform of either
    width, every configuration whose numbers fit their types (an int of the platform
    for the port and the concurrency, an int64 for the delta) is reached by giving
    the flags whose values are not the defaults, and any others, in the forms the
    flag package accepts (one dash or two; the value after an equals sign or as the
    next argument; a boolean without its value), whatever flags the libraries add;
    the arguments that follow, after a double dash or from the first that is no
    flag, are left alone. *)
Theorem command_line_read f given argss rest left :
  ints_fit pf f -> given `sublist_of` settings f ->
  (forall nv, nv ∈ settings f -> nv ∉ given -> nv ∈ settings defaultFlags) ->
  Forall2 (fun nv => renders (commandLine pf extra) nv.1 nv.2) given argss -> stops_at rest left ->
  Parse (commandLine pf extra) (concat argss ++ rest) defaultFlags = Ok (f, left).
Proof.
  intros Hi Hs Hd Hr Hrest. apply Parse_all with (settings := given); try done.
  - assert (Forall (fun nv => GoFlag.name_ok nv.1 = true) (settings f)) as Hall by (by repeat constructor).
    rewrite Forall_forall in *. intros nv Hin. apply Hall. by eapply elem_of_sublist.
  - apply (chain_sublist (fun nv => nv ∈ settings defaultFlags) (settings f)); try done.
    + by apply settings_chain.
    + apply (bool_decide_unpack _). by vm_compute.
Qed.
End Spec.
