(* ===== verification/Client.v ===== *)
(** * The Kubernetes API as the controllers see it

    [client.Client] is a record of operations on an unknown API server state;
    every call can fail with any error.  The world the controllers run in is
    that state together with the clock, the metrics gauge, the counter of map
    iterations and the trace of the calls made, which the theorems on ordering
    talk about. *)

From S2P Require Import Prelude GoStrings GoTime GoJson Api Libs.

(** [v1.Secret]: the maps can be nil, [StringData] is write-only. *)
Record Secret := mkSecret {
  sec_Meta : ObjectMeta;
  sec_Data : option (gmap string string);
  sec_StringData : option (gmap string string)
}.

Record ListOptions `{SelectorLib} := mkListOptions {
  lo_Namespace : string;
  lo_Limit : Z;
  lo_FieldSelector : option FieldSelector;
  lo_LabelSelector : option LabelSelector
}.
Arguments mkListOptions {_} _ _ _ _.
Arguments lo_Namespace {_} _.
Arguments lo_Limit {_} _.
Arguments lo_FieldSelector {_} _.
Arguments lo_LabelSelector {_} _.

(** The operations of the client on the server state.  [api_List] returns the
    items decoded so far also when it fails, as the Go code reads them. *)
Class ClientLib `{SelectorLib} := {
  ApiState : Type;
  api_GetSleepInfo : string -> string -> ApiState -> result SleepInfo * ApiState;
  api_GetSecret : string -> string -> ApiState -> result Secret * ApiState;
  api_GetExecution : string -> string -> ApiState -> result SleepInfoExecution * ApiState;
  api_RESTMapping : GroupKind -> ApiState -> result GroupVersionKind * ApiState;
  api_List : GroupVersionKind -> ListOptions -> ApiState ->
    (list Unstructured * option error) * ApiState;
  api_Apply : Unstructured -> string -> bool -> ApiState -> result unit * ApiState;
  api_Patch : Unstructured -> Unstructured -> ApiState -> result unit * ApiState;
  api_CreateSecret : Secret -> ApiState -> result unit * ApiState;
  api_UpdateSecret : Secret -> ApiState -> result unit * ApiState;
  api_StatusUpdateSleepInfo : SleepInfo -> ApiState -> result unit * ApiState;
  api_UpdateExecution : SleepInfoExecution -> ApiState -> result SleepInfoExecution * ApiState;
  api_StatusUpdateExecution : SleepInfoExecution -> ApiState -> result unit * ApiState;
  (** [controllerutil.SetOwnerReference(owner, object, scheme)]. *)
  SetOwnerReference : SleepInfo -> SleepInfoExecution -> result SleepInfoExecution
}.

Inductive Call `{SelectorLib} :=
| CGetSleepInfo (ns name : string)
| CGetSecret (ns name : string)
| CGetExecution (ns name : string)
| CRESTMapping (gk : GroupKind)
| CList (gvk : GroupVersionKind) (opts : ListOptions)
| CApply (obj : Unstructured) (owner : string) (force : bool)
| CPatch (old new : Unstructured)
| CCreateSecret (s : Secret)
| CUpdateSecret (s : Secret)
| CStatusSleepInfo (s : SleepInfo)
| CUpdateExecution (e : SleepInfoExecution)
| CStatusExecution (e : SleepInfoExecution).

(** The calls that change the cluster. *)
Definition is_write `{SelectorLib} (c : Call) : bool :=
  match c with
  | CGetSleepInfo _ _ | CGetSecret _ _ | CGetExecution _ _ | CRESTMapping _ | CList _ _ => false
  | _ => true
  end.

(** The calls that change a workload. *)
Definition is_resource_write `{SelectorLib} (c : Call) : bool :=
  match c with CApply _ _ _ | CPatch _ _ => true | _ => false end.

Definition is_secret_write `{SelectorLib} (c : Call) : bool :=
  match c with CCreateSecret _ | CUpdateSecret _ => true | _ => false end.

Record World `{ClientLib} := mkWorld {
  w_api : ApiState;
  w_now : Time;
  w_gauge : gmap (string * string) Z;
  w_tick : nat;
  w_trace : list Call
}.
Arguments mkWorld {_ _} _ _ _ _ _.
Arguments w_api {_ _} _.
Arguments w_now {_ _} _.
Arguments w_gauge {_ _} _.
Arguments w_tick {_ _} _.
Arguments w_trace {_ _} _.

Section Calls.
Context {SL : SelectorLib} {CL : ClientLib}.

(** One client call: it is recorded, whatever it returns. *)
Definition call {A} (c : Call) (f : ApiState -> result A * ApiState) : M World A :=
  fun w => let '(r, s) := f (w_api w) in
           (r, mkWorld s (w_now w) (w_gauge w) (w_tick w) (w_trace w ++ [c])).

Definition GetSleepInfo ns name := call (CGetSleepInfo ns name) (api_GetSleepInfo ns name).
Definition GetSecret ns name := call (CGetSecret ns name) (api_GetSecret ns name).
Definition GetExecution ns name := call (CGetExecution ns name) (api_GetExecution ns name).
Definition RESTMapping gk := call (CRESTMapping gk) (api_RESTMapping gk).
Definition ListObjects gvk opts : M World (list Unstructured * option error) :=
  call (CList gvk opts) (fun s => let '(r, s') := api_List gvk opts s in (Ok r, s')).
Definition ApplyObject obj owner force := call (CApply obj owner force) (api_Apply obj owner force).
Definition PatchObject old new := call (CPatch old new) (api_Patch old new).
Definition CreateSecret s := call (CCreateSecret s) (api_CreateSecret s).
Definition UpdateSecret s := call (CUpdateSecret s) (api_UpdateSecret s).
Definition StatusUpdateSleepInfo s := call (CStatusSleepInfo s) (api_StatusUpdateSleepInfo s).
Definition UpdateExecution e := call (CUpdateExecution e) (api_UpdateExecution e).
Definition StatusUpdateExecution e := call (CStatusExecution e) (api_StatusUpdateExecution e).

(** [r.Now()]. *)
Definition Now : M World Time := fun w => (Ok (w_now w), w).

(** [for k, v := range m]: the order of this iteration, and the counter
    moves on. *)
Definition range_map `{MapRange} {K A} `{Countable K} (m : gmap K A) : M World (list (K * A)) :=
  fun w => (Ok (range (w_tick w) m),
            mkWorld (w_api w) (w_now w) (w_gauge w) (S (w_tick w)) (w_trace w)).

(** The counter alone, for the iterations inside a pure function. *)
Definition tick : M World nat :=
  fun w => (Ok (w_tick w),
            mkWorld (w_api w) (w_now w) (w_gauge w) (S (w_tick w)) (w_trace w)).

(** ** Metrics: the [current_sleepinfo] gauge *)

Definition gauge_Set (name ns : string) (v : Z) : M World unit :=
  fun w => (Ok tt, mkWorld (w_api w) (w_now w) (<[(name, ns) := v]> (w_gauge w))
                     (w_tick w) (w_trace w)).
Definition gauge_Delete (name ns : string) : M World unit :=
  fun w => (Ok tt, mkWorld (w_api w) (w_now w) (delete (name, ns) (w_gauge w))
                     (w_tick w) (w_trace w)).
End Calls.

(** [client.IgnoreNotFound]. *)
Definition IsNotFound (e : error) : bool := bool_decide (err_class e = ENotFound).

Definition IgnoreNotFound (e : option error) : option error :=
  match e with
  | Some e' => if IsNotFound e' then None else e
  | None => None
  end.

(** ** Traces

    The trace only grows; [emits P c] says that every call [c] adds satisfies
    [P]. *)
Section Traces.
Context {SL : SelectorLib} {CL : ClientLib}.

Definition emits {A} (P : Call -> Prop) (c : M World A) : Prop :=
  forall w, exists new, w_trace (c w).2 = w_trace w ++ new /\ Forall P new.

Lemma emits_ret {A} P (a : A) : emits P (gret a).
Proof. intros w. exists []. by rewrite app_nil_r. Qed.

Lemma emits_fail {A} P e : emits P (@gfail World A e).
Proof. intros w. exists []. by rewrite app_nil_r. Qed.

Lemma emits_lift {A} P (r : result A) : emits P (glift r).
Proof. intros w. exists []. by rewrite app_nil_r. Qed.

Lemma emits_bind {A B} P (c : M World A) (k : A -> M World B) :
  emits P c -> (forall a, emits P (k a)) -> emits P (gbind c k).
Proof.
  intros Hc Hk w. destruct (Hc w) as (n1 & E1 & H1). unfold gbind.
  destruct (c w) as [[a|e] w'] eqn:E; cbn in *; [|by exists n1].
  destruct (Hk a w') as (n2 & E2 & H2). exists (n1 ++ n2). split.
  - by rewrite E2, E1, app_assoc.
  - by apply Forall_app.
Qed.

Lemma emits_try {A} P (c : M World A) : emits P c -> emits P (gtry c).
Proof.
  intros Hc w. destruct (Hc w) as (n & E & H). exists n.
  unfold gtry. by destruct (c w).
Qed.

Lemma emits_call {A} (P : Call -> Prop) c (f : ApiState -> result A * ApiState) :
  P c -> emits P (call c f).
Proof.
  intros H w. unfold call. destruct (f (w_api w)) as [r s]. exists [c].
  split; [done|by constructor].
Qed.

Lemma emits_now P : emits P Now.
Proof. intros w. exists []. by rewrite app_nil_r. Qed.

Lemma emits_tick P : emits P tick.
Proof. intros w. exists []. by rewrite app_nil_r. Qed.

Lemma emits_range `{MapRange} {K A} `{Countable K} P (m : gmap K A) : emits P (range_map m).
Proof. intros w. exists []. by rewrite app_nil_r. Qed.

Lemma emits_gauge_Set P n ns v : emits P (gauge_Set n ns v).
Proof. intros w. exists []. by rewrite app_nil_r. Qed.

Lemma emits_gauge_Delete P n ns : emits P (gauge_Delete n ns).
Proof. intros w. exists []. by rewrite app_nil_r. Qed.

Lemma emits_weaken {A} (P Q : Call -> Prop) (c : M World A) :
  emits P c -> (forall x, P x -> Q x) -> emits Q c.
Proof.
  intros Hc HPQ w. destruct (Hc w) as (n & E & H). exists n. split; [done|].
  by eapply Forall_impl.
Qed.
End Traces.

#[export] Hint Resolve emits_ret emits_fail emits_lift emits_try emits_now emits_tick
  emits_range emits_gauge_Set emits_gauge_Delete : go.

Ltac emits_tac :=
  repeat first [ apply emits_bind; [|intros] | apply emits_call; done | go_case
               | progress auto with go ].
