(* ===== verification/RestoreData.v ===== *)
(** * Saved restore data

    What the secret of a SleepInfo stores about the resources put to sleep: the
    merge patches that restore them, by target and resource name
    ([jsonpatch.GetOriginalInfoToSave] and [GetOriginalInfoToRestore]), and the
    formats of older releases ([deployments.GetOriginalInfoToRestore],
    [cronjobs.GetOriginalInfoToRestore]). *)

From S2P Require Import Prelude GoStrings GoTime GoJson GoAny Api.

(** The type [RestorePatches map[string]string]: resource name to merge patch. *)
Abbreviation RestorePatches := (gmap string string).

(** The restore patches by target.  A map read from JSON can be nil: a null in its
    place leaves it so.  A nil map reads as an empty one, and a write to it
    panics. *)
Abbreviation SavedPatches := (gmap string (option RestorePatches)).

(** The restore patches of a target, none when there is no map. *)
Definition patches_for (m : SavedPatches) (target : string) : RestorePatches :=
  match m !! target with Some (Some rp) => rp | _ => ∅ end.

Lemma patches_for_some (m : gmap string RestorePatches) target :
  patches_for (Some <$> m) target = default ∅ (m !! target).
Proof. unfold patches_for. rewrite lookup_fmap. by destruct (m !! target). Qed.

(** ** Typed decoding *)

Definition decode_string (v : json) : option string :=
  match v with JStr s => Some s | JNull => Some ""%string | _ => None end.

(** The members of an object decoded one by one. *)
Definition decode_members {A} (g : json -> option A) (l : list (string * json))
    : option (list (string * A)) :=
  mapM (fun kv => x ← g (snd kv); Some (fst kv, x)) l.

Definition decode_map {A} (g : json -> option A) (v : json) : option (gmap string A) :=
  match v with
  | JNull => Some ∅
  | JObj l => obj_map <$> decode_members g l
  | _ => None
  end.

(** A map that stays nil when the value is null. *)
Definition decode_nilable {A} (g : json -> option A) (v : json) : option (option (gmap string A)) :=
  match v with
  | JNull => Some None
  | v => Some <$> decode_map g v
  end.

Module Jsonpatch.
(** [jsonpatch.GetOriginalInfoToRestore]: [None] is the nil map. *)
Definition GetOriginalInfoToRestore (data : option string)
    : result (option SavedPatches) :=
  match data with
  | None => Ok None
  | Some d =>
      match parse_json d with
      | None => Err errSyntax
      | Some JNull => Ok None
      | Some v => match decode_map (decode_nilable decode_string) v with
                  | Some m => Ok (Some m)
                  | None => Err errType
                  end
      end
  end.

(** [json.Marshal(dataToSave)]. *)
Definition restore_json (m : gmap string RestorePatches) : json :=
  JObj (map_obj ((fun rp : RestorePatches => JObj (map_obj (JStr <$> rp))) <$> m)).

Definition marshal_restore (m : gmap string RestorePatches) : string :=
  Marshal (restore_json m).
End Jsonpatch.

(** ** Older formats

    A list of structs; a field is matched exactly or, failing that, without
    regard to case. *)

Definition fold_rune (r : rune) : rune :=
  match r with
  | RByte c => if (97 <=? byte_of c) && (byte_of c <=? 122) then RByte (chr (byte_of c - 32)) else r
  | RMulti _ 383 => RByte "S"
  | RMulti _ 8490 => RByte "K"
  | _ => r
  end.

Definition fold_name (s : string) : list rune := map fold_rune (runes s).

Definition field_matches (field key : string) : bool :=
  String.eqb key field || bool_decide (fold_name key = fold_name field).

Definition int32_of (v : json) : option Z :=
  match v with
  | JNum lit => z ← parse_int lit; if (- 2 ^ 31 <=? z) && (z <? 2 ^ 31) then Some z else None
  | _ => None
  end.

Module Deployments.
Record OriginalReplicas := mkOriginalReplicas { Name : string; Replicas : Z }.

Definition decode_field (o : option OriginalReplicas) (kv : string * json)
    : option OriginalReplicas :=
  r ← o;
  if field_matches "name" (fst kv) then
    match snd kv with
    | JNull => Some r
    | JStr s => Some (mkOriginalReplicas s (Replicas r))
    | _ => None
    end
  else if field_matches "replicas" (fst kv) then
    match snd kv with
    | JNull => Some r
    | v => z ← int32_of v; Some (mkOriginalReplicas (Name r) z)
    end
  else Some r.

Definition decode_replicas (v : json) : option OriginalReplicas :=
  match v with
  | JNull => Some (mkOriginalReplicas "" 0)
  | JObj l => fold_left decode_field l (Some (mkOriginalReplicas "" 0))
  | _ => None
  end.

(** [json.Unmarshal(data, &originalDeploymentsReplicas)]. *)
Definition decode (data : string) : result (list OriginalReplicas) :=
  match parse_json data with
  | None => Err errSyntax
  | Some JNull => Ok []
  | Some (JArr l) => match mapM decode_replicas l with Some rs => Ok rs | None => Err errType end
  | Some _ => Err errType
  end.

Definition quoted (s : string) : string := String dquote s +:+ String dquote "".

Definition restore_patch (r : OriginalReplicas) : string :=
  "{" +:+ quoted "spec" +:+ ":{" +:+ quoted "replicas" +:+ ":" +:+ itoa (Replicas r) +:+ "}}".

Definition GetOriginalInfoToRestore (data : option string) : result RestorePatches :=
  match data with
  | None => Ok ∅
  | Some d =>
      let? rs := decode d in
      Ok (fold_left (fun (m : RestorePatches) r =>
            if String.eqb (Name r) "" then m else <[Name r := restore_patch r]> m) rs ∅)
  end.
End Deployments.

Module Cronjobs.
Record OriginalCronJobStatus := mkOriginalCronJobStatus { Name : string; Suspend : bool }.

Definition decode_field (o : option OriginalCronJobStatus) (kv : string * json)
    : option OriginalCronJobStatus :=
  r ← o;
  if field_matches "name" (fst kv) then
    match snd kv with
    | JNull => Some r
    | JStr s => Some (mkOriginalCronJobStatus s (Suspend r))
    | _ => None
    end
  else if field_matches "suspend" (fst kv) then
    match snd kv with
    | JNull => Some r
    | JBool b => Some (mkOriginalCronJobStatus (Name r) b)
    | _ => None
    end
  else Some r.

Definition decode_status (v : json) : option OriginalCronJobStatus :=
  match v with
  | JNull => Some (mkOriginalCronJobStatus "" false)
  | JObj l => fold_left decode_field l (Some (mkOriginalCronJobStatus "" false))
  | _ => None
  end.

Definition decode (data : string) : result (list OriginalCronJobStatus) :=
  match parse_json data with
  | None => Err errSyntax
  | Some JNull => Ok []
  | Some (JArr l) => match mapM decode_status l with Some rs => Ok rs | None => Err errType end
  | Some _ => Err errType
  end.

Definition restore_patch (r : OriginalCronJobStatus) : string :=
  "{" +:+ Deployments.quoted "spec" +:+ ":{" +:+ Deployments.quoted "suspend" +:+ ":"
  +:+ fmt_bool (Suspend r) +:+ "}}".

Definition GetOriginalInfoToRestore (savedData : option string) : result RestorePatches :=
  match savedData with
  | None => Ok ∅
  | Some d =>
      let? rs := decode d in
      Ok (fold_left (fun (m : RestorePatches) r =>
            if String.eqb (Name r) "" then m else <[Name r := restore_patch r]> m) rs ∅)
  end.
End Cronjobs.

(** ** Theorems *)

Lemma decode_members_map {A} (f : A -> json) (g : json -> option A) (m : gmap string A) :
  (forall k x, m !! k = Some x -> g (f x) = Some x) ->
  obj_map <$> decode_members g (map_obj (f <$> m)) = Some m.
Proof.
  intros Hg.
  assert (forall l, (forall k v, (k, v) ∈ l -> exists x, m !! k = Some x /\ v = f x) ->
    exists l', decode_members g l = Some l' /\ l = prod_map id f <$> l'
               /\ forall k x, (k, x) ∈ l' -> m !! k = Some x) as Hdec.
  { induction l as [|[k v] l IH]; intros Hl; [by exists []; repeat split; set_solver|].
    destruct (Hl k v) as (x & Hx & ->); [by left|].
    destruct IH as (l' & Hl' & -> & Hin); [set_solver|].
    exists ((k, x) :: l'). unfold decode_members in *. cbn [mapM fst snd].
    rewrite (Hg k x Hx). cbn. rewrite Hl'. repeat split. intros k' x' Hkx.
    apply elem_of_cons in Hkx as [[= -> ->]|]; [done|by apply Hin]. }
  destruct (Hdec (map_obj (f <$> m))) as (l' & -> & Hl & Hin).
  { intros k v. rewrite elem_of_map_obj, lookup_fmap_Some. intros (x & <- & Hx). eauto. }
  cbn. f_equal.
  assert (obj_map (prod_map id f <$> l') = f <$> obj_map l') as Hmap.
  { unfold obj_map. rewrite <- fmap_reverse. apply list_to_map_fmap. }
  rewrite <- Hl, obj_map_map_obj in Hmap.
  apply map_eq. intros k. destruct (obj_map l' !! k) as [x|] eqn:E.
  - unfold obj_map in E. apply elem_of_list_to_map_2 in E.
    rewrite elem_of_reverse in E. symmetry. by apply Hin.
  - apply (f_equal (lookup k)) in Hmap. rewrite !lookup_fmap, E in Hmap.
    by destruct (m !! k).
Qed.

Lemma forallb_map_obj {A} (P : string * A -> bool) (m : gmap string A) :
  (forall k v, m !! k = Some v -> P (k, v) = true) -> forallb P (map_obj m) = true.
Proof.
  intros H. apply forallb_forall. intros [k v] Hin%list_elem_of_In.
  by apply H, elem_of_map_obj.
Qed.

(** Restore data whose strings are valid UTF-8 (Kubernetes names are ASCII and
    the patches come from [json.Marshal]). *)
Definition restore_utf8 (m : gmap string RestorePatches) : Prop :=
  map_Forall (fun k (rp : RestorePatches) => valid_utf8 k = true
    /\ map_Forall (fun n p => valid_utf8 n = true /\ valid_utf8 p = true) rp) m.

Lemma restore_json_ok m : restore_utf8 m -> json_ok (Jsonpatch.restore_json m) = true.
Proof.
  intros Hm. cbn [Jsonpatch.restore_json json_ok]. apply forallb_map_obj.
  intros k v. rewrite lookup_fmap_Some. intros (rp & <- & Hrp).
  destruct (Hm k rp Hrp) as [-> Hin]. cbn [andb json_ok].
  apply forallb_map_obj. intros n v. rewrite lookup_fmap_Some. intros (p & <- & Hp).
  destruct (Hin n p Hp) as [-> Hv]. exact Hv.
Qed.

Lemma fold_max_bound {A} (f : A -> Z) l b :
  0 <= b -> (forall x, In x l -> f x <= b) -> fold_right (fun v h => Z.max (f v) h) 0 l <= b.
Proof.
  intros Hb. induction l as [|x l IH]; cbn; intros H; [done|].
  apply Z.max_lub; [by apply H; left|]. apply IH. intros y Hy. apply H. by right.
Qed.

Lemma restore_json_height m : height (Jsonpatch.restore_json m) <= maxNestingDepth.
Proof.
  cbn [Jsonpatch.restore_json height].
  assert (fold_right (fun kv h => Z.max (height (snd kv)) h) 0
    (map_obj ((fun rp : RestorePatches => JObj (map_obj (JStr <$> rp))) <$> m)) <= 1); [|unfold maxNestingDepth; lia].
  apply (fold_max_bound (fun kv => height (snd kv))); [lia|].
  intros [k v] Hin%list_elem_of_In. rewrite elem_of_map_obj, lookup_fmap_Some in Hin.
  destruct Hin as (rp & <- & _). cbn [snd height].
  assert (fold_right (fun kv h => Z.max (height (snd kv)) h) 0 (map_obj (JStr <$> rp)) <= 0); [|lia].
  apply (fold_max_bound (fun kv => height (snd kv))); [lia|].
  intros [n w] Hin%list_elem_of_In. rewrite elem_of_map_obj, lookup_fmap_Some in Hin.
  by destruct Hin as (p & <- & _).
Qed.

Lemma restore_roundtrip m :
  restore_utf8 m ->
  Jsonpatch.GetOriginalInfoToRestore (Some (Jsonpatch.marshal_restore m)) = Ok (Some (Some <$> m)).
Proof.
  intros Hm. unfold Jsonpatch.GetOriginalInfoToRestore, Jsonpatch.marshal_restore.
  rewrite parse_print by (by apply restore_json_ok || apply restore_json_height).
  unfold Jsonpatch.restore_json at 1.
  assert (decode_map (decode_nilable decode_string) (Jsonpatch.restore_json m) = Some (Some <$> m)) as ->; [|done].
  unfold Jsonpatch.restore_json, decode_map at 1.
  assert ((fun rp : RestorePatches => JObj (map_obj (JStr <$> rp))) <$> m
    = (fun o : option RestorePatches => JObj (map_obj (JStr <$> default ∅ o))) <$> (Some <$> m)) as ->
    by (by rewrite <- map_fmap_compose).
  apply decode_members_map. intros k o. rewrite lookup_fmap_Some. intros (rp & <- & _).
  unfold decode_nilable, decode_map. cbn [default].
  by rewrite (decode_members_map JStr decode_string).
Qed.

(** Saved restore data can always be read, also when names or patches are not
    valid UTF-8 (they then come back with replacement characters). *)
Lemma decode_members_total {A} (g : json -> option A) (l : list (string * json)) :
  Forall (fun kv => is_Some (g (snd kv))) l -> is_Some (decode_members g l).
Proof.
  unfold decode_members. intros H. apply mapM_is_Some_2. eapply Forall_impl; [exact H|].
  intros [k v] [x Hx]. cbn in *. rewrite Hx. by eexists.
Qed.

Lemma restore_readable m :
  exists original,
    Jsonpatch.GetOriginalInfoToRestore (Some (Jsonpatch.marshal_restore m)) = Ok (Some original).
Proof.
  unfold Jsonpatch.GetOriginalInfoToRestore, Jsonpatch.marshal_restore.
  assert (printable_json (Jsonpatch.restore_json m) = true) as Hp.
  { cbn [Jsonpatch.restore_json printable_json]. apply forallb_map_obj.
    intros k v. rewrite lookup_fmap_Some. intros (rp & <- & _). cbn [printable_json].
    apply forallb_map_obj. intros n v. rewrite lookup_fmap_Some. by intros (p & <- & _). }
  rewrite parse_print_clean by (done || apply restore_json_height).
  assert (is_Some (decode_map (decode_nilable decode_string) (clean (Jsonpatch.restore_json m)))) as [x Hx].
  { cbn [Jsonpatch.restore_json clean decode_map]. apply fmap_is_Some, decode_members_total.
    apply Forall_forall. intros kv ([k v] & -> & Hin)%list_elem_of_fmap.
    rewrite elem_of_map_obj, lookup_fmap_Some in Hin. destruct Hin as (rp & <- & _).
    cbn [snd clean decode_nilable decode_map]. apply fmap_is_Some, fmap_is_Some, decode_members_total.
    apply Forall_forall. intros kv ([n w] & -> & Hin)%list_elem_of_fmap.
    rewrite elem_of_map_obj, lookup_fmap_Some in Hin. destruct Hin as (p & <- & _).
    by eexists. }
  cbn [Jsonpatch.restore_json clean] in *. rewrite Hx. by eexists.
Qed.
