(* ===== verification/SleepInfoData.v ===== *)
(** * The state of a SleepInfo between reconciliations

    [sleepinfodata.go]: the record the controllers work with, read from the
    SleepInfo and from its secret, and the override of an on-demand
    execution. *)

From S2P Require Import Prelude GoStrings GoTime GoJson Api Libs Client RestoreData.

Definition lastScheduleKey : string := "scheduled-at".
Definition lastOperationKey : string := "operation-type".
Definition originalJSONPatchDataKey : string := "original-resource-info".
Definition replicasBeforeSleepKey : string := "deployment-replicas".
Definition originalCronjobStatusKey : string := "cronjobs-info".
Definition sleepOperation : string := "SLEEP".
Definition wakeUpOperation : string := "WAKE_UP".

Record SleepInfoData := mkSleepInfoData {
  LastSchedule : Time;
  CurrentOperationType : string;
  CurrentOperationSchedule : string;
  NextOperationSchedule : string;
  OriginalGenericResourceInfo : option SavedPatches
}.

Definition IsWakeUpOperation (d : SleepInfoData) : bool :=
  String.eqb (CurrentOperationType d) wakeUpOperation.

Definition IsSleepOperation (d : SleepInfoData) : bool :=
  String.eqb (CurrentOperationType d) sleepOperation.

(** [string(data[key])]: a missing entry reads as the empty string. *)
Definition data_string (data : gmap string string) (key : string) : string :=
  default ""%string (data !! key).

Definition convertOldSecretDataToNewFormat (original : option SavedPatches)
    (secretData : gmap string string) : result SavedPatches :=
  let original := default ∅ original in
  let? original :=
    match secretData !! replicasBeforeSleepKey with
    | Some replicas =>
        match Deployments.GetOriginalInfoToRestore (Some replicas) with
        | Ok data => Ok (<[target_String DeploymentTarget := Some data]> original)
        | Err e => Err (errorf ("fails to set original deployment replicas info to restore: "
                                +:+ err_msg e))
        end
    | None => Ok original
    end in
  match secretData !! originalCronjobStatusKey with
  | Some cronjobStatus =>
      match Cronjobs.GetOriginalInfoToRestore (Some cronjobStatus) with
      | Ok data => Ok (<[target_String CronJobTarget := Some data]> original)
      | Err e => Err (errorf ("fails to set original cronjob status info to restore: "
                              +:+ err_msg e))
      end
  | None => Ok original
  end.

Definition getSleepInfoData (secret : option Secret) (sleepInfo : SleepInfo)
    : result SleepInfoData :=
  let? sleepSchedule := GetSleepSchedule sleepInfo in
  let? wakeUpSchedule := GetWakeUpSchedule sleepInfo in
  let next := if String.eqb wakeUpSchedule "" then sleepSchedule else wakeUpSchedule in
  match secret with
  | None => Ok (mkSleepInfoData zeroTime sleepOperation sleepSchedule next None)
  | Some sec =>
    match sec_Data sec with
    | None => Ok (mkSleepInfoData zeroTime sleepOperation sleepSchedule next None)
    | Some data =>
      let? original :=
        match Jsonpatch.GetOriginalInfoToRestore (data !! originalJSONPatchDataKey) with
        | Ok m => Ok m
        | Err e => Err (errorf ("fails to set original resource info to restore in SleepInfo "
                                +:+ si_Name sleepInfo +:+ ": " +:+ err_msg e))
        end in
      let? original := convertOldSecretDataToNewFormat original data in
      let? lastSchedule :=
        match ParseRFC3339 (data_string data lastScheduleKey) with
        | Ok t => Ok t
        | Err e => Err (errorf ("fails to parse " +:+ lastScheduleKey +:+ ": " +:+ err_msg e))
        end in
      let lastOperation := data_string data lastOperationKey in
      if String.eqb lastOperation sleepOperation && negb (String.eqb wakeUpSchedule "")
      then Ok (mkSleepInfoData lastSchedule wakeUpOperation wakeUpSchedule sleepSchedule
                 (Some original))
      else Ok (mkSleepInfoData lastSchedule sleepOperation sleepSchedule next (Some original))
    end
  end.

(** An on-demand execution replaces the operation and its schedules and keeps
    the rest. *)
Definition applyExecutionOverride (data : SleepInfoData) (op : string) (sleepInfo : SleepInfo)
    : result SleepInfoData :=
  let? sleepSchedule := GetSleepSchedule sleepInfo in
  let? wakeSchedule := GetWakeUpSchedule sleepInfo in
  if String.eqb op ExecutionOpSleep then
    Ok (mkSleepInfoData (LastSchedule data) sleepOperation sleepSchedule
          (if String.eqb wakeSchedule "" then sleepSchedule else wakeSchedule)
          (OriginalGenericResourceInfo data))
  else if String.eqb op ExecutionOpWake then
    if String.eqb wakeSchedule ""
    then Err (errorf ("SleepInfo " +:+ go_quote (si_Name sleepInfo)
                      +:+ " has no wakeUpAt; WAKE_UP is not supported"))
    else Ok (mkSleepInfoData (LastSchedule data) wakeUpOperation wakeSchedule sleepSchedule
               (OriginalGenericResourceInfo data))
  else Err (errorf ("unknown execution operation " +:+ go_quote op)).

(** ** Theorems *)

(** Inverts a chain of [rbind]s that returned a value. *)
Ltac rbind_inv H :=
  repeat match type of H with
  | rbind ?r _ = Ok _ => let E := fresh "E" in destruct r eqn:E; [cbn [rbind] in H|discriminate H]
  end.

(** The schedules the data of a SleepInfo can name. *)
Definition schedules_of (s : SleepInfo) (sleep wake : string) : Prop :=
  GetSleepSchedule s = Ok sleep /\ GetWakeUpSchedule s = Ok wake.

Lemma operation_of secret s d :
  getSleepInfoData secret s = Ok d ->
  exists sleep wake,
    schedules_of s sleep wake
    /\ let asleep := match secret with
         | Some sec => match sec_Data sec with
                       | Some data => String.eqb (data_string data lastOperationKey) sleepOperation
                       | None => false
                       end
         | None => false
         end in
       if asleep && negb (String.eqb wake "")
       then CurrentOperationType d = wakeUpOperation
            /\ CurrentOperationSchedule d = wake /\ NextOperationSchedule d = sleep
       else CurrentOperationType d = sleepOperation
            /\ CurrentOperationSchedule d = sleep
            /\ NextOperationSchedule d = (if String.eqb wake "" then sleep else wake).
Proof.
  unfold getSleepInfoData, schedules_of. intros H. rbind_inv H. exists a, a0.
  split; [done|].
  destruct secret as [sec|]; [|by injection H as <-].
  destruct (sec_Data sec) as [data|]; [|by injection H as <-].
  rbind_inv H.
  by destruct (String.eqb (data_string data lastOperationKey) sleepOperation && _);
    injection H as <-.
Qed.

(** Which operation is next, and on which schedules.  The data of a
    SleepInfo is a wake up exactly when the secret says that the last operation
    was a sleep and a wake up time is configured; otherwise it is a sleep.  The
    current schedule is that of the operation, and the next one is that of the
    opposite operation, or the sleep schedule when there is no wake up. *)
Lemma operation_selection secret s d :
  getSleepInfoData secret s = Ok d ->
  exists sleep wake,
    schedules_of s sleep wake
    /\ let asleep := match secret with
         | Some sec => match sec_Data sec with
                       | Some data => String.eqb (data_string data lastOperationKey) sleepOperation
                       | None => false
                       end
         | None => false
         end in
       if asleep && negb (String.eqb wake "")
       then CurrentOperationType d = wakeUpOperation
            /\ CurrentOperationSchedule d = wake /\ NextOperationSchedule d = sleep
       else CurrentOperationType d = sleepOperation
            /\ CurrentOperationSchedule d = sleep
            /\ NextOperationSchedule d = (if String.eqb wake "" then sleep else wake).
Proof. apply operation_of. Qed.

(** An on-demand execution overrides the operation and its schedules and
    nothing else: it succeeds exactly for a sleep, or for a wake up of a
    SleepInfo that has one; the time of the last run and the restore data stay,
    the current schedule is that of the requested operation and the next one
    that of the opposite operation, or the sleep schedule when there is no wake
    up. *)
Lemma override_spec data op s sleep wake :
  schedules_of s sleep wake ->
  match applyExecutionOverride data op s with
  | Ok d =>
      LastSchedule d = LastSchedule data
      /\ OriginalGenericResourceInfo d = OriginalGenericResourceInfo data
      /\ CurrentOperationType d = op
      /\ (op = sleepOperation /\ CurrentOperationSchedule d = sleep
            /\ NextOperationSchedule d = (if String.eqb wake "" then sleep else wake)
          \/ op = wakeUpOperation /\ wake <> ""%string /\ CurrentOperationSchedule d = wake
            /\ NextOperationSchedule d = sleep)
  | Err _ => op <> sleepOperation /\ (op = wakeUpOperation -> wake = ""%string)
  end.
Proof.
  intros [Hs Hw]. unfold applyExecutionOverride. rewrite Hs, Hw. cbn [rbind].
  destruct (String.eqb_spec op ExecutionOpSleep) as [->|Hne]; [by auto 10|].
  destruct (String.eqb_spec op ExecutionOpWake) as [->|Hne']; [|by split].
  destruct (String.eqb_spec wake "") as [->|Hwake]; [by split|]. by auto 10.
Qed.
