(* ===== verification/Legacy.v ===== *)
(** * Secrets of older releases

    Older releases saved the replicas of Deployments and the state of CronJobs
    as JSON lists under keys of their own; [convertOldSecretDataToNewFormat]
    turns them into merge patches.  A namespace put to sleep before an upgrade
    wakes up after it with its original values. *)

From Stdlib Require Import DecimalPos DecimalString DecimalZ.
From S2P Require Import Prelude GoStrings GoTime GoJson GoAny Api Libs Client RestoreData.
From S2P Require Import SleepInfoData.

(** ** Integers are JSON numbers *)

Lemma num_run_int u : num_run NInt (NilEmpty.string_of_uint u) = true.
Proof. induction u; cbn; done. Qed.

Lemma valid_number_itoa z : valid_number (itoa z) = true.
Proof.
  unfold valid_number, itoa. destruct z as [|p|p]; [done|..]; cbn [Z.to_int];
    pose proof (DecimalPos.Unsigned.to_uint_nonnil p) as Hne; pose proof (to_uint_head p) as H0;
    destruct (Pos.to_uint p) as [|u|u|u|u|u|u|u|u|u|u]; try done; try (by destruct (H0 u));
    cbn; apply num_run_int.
Qed.

Lemma flatten_ascii s : flatten (ascii_runes s) = s.
Proof. induction s as [|c s IH]; [done|]. cbn. by rewrite <- IH at 2. Qed.

Lemma canon_one k v : canon (JObj [(k, v)]) = JObj [(k, canon v)].
Proof.
  cbn [canon map fst snd]. f_equal. unfold map_obj, obj_map. cbn.
  rewrite insert_empty, map_to_list_singleton. done.
Qed.

(** ** What older releases wrote *)

Definition encode_replicas (r : Deployments.OriginalReplicas) : json :=
  JObj [("name"%string, JStr (Deployments.Name r));
        ("replicas"%string, JNum (itoa (Deployments.Replicas r)))].

Definition encode_status (c : Cronjobs.OriginalCronJobStatus) : json :=
  JObj [("name"%string, JStr (Cronjobs.Name c)); ("suspend"%string, JBool (Cronjobs.Suspend c))].

Definition name_ok (n : string) : Prop := n <> ""%string /\ valid_utf8 n = true.
Definition int32 (z : Z) : Prop := - 2 ^ 31 <= z < 2 ^ 31.

Lemma decode_encode_replicas r :
  int32 (Deployments.Replicas r) -> Deployments.decode_replicas (encode_replicas r) = Some r.
Proof.
  intros H. unfold encode_replicas, Deployments.decode_replicas. cbn [fold_left].
  unfold Deployments.decode_field. cbn [fst snd mbind option_bind].
  change (field_matches "name" "name") with true. change (field_matches "name" "replicas") with false.
  change (field_matches "replicas" "replicas") with true. cbv iota beta. cbn [mbind option_bind].
  unfold int32_of. rewrite parse_int_itoa. cbn [mbind option_bind].
  rewrite (proj2 (Z.leb_le _ _)), (proj2 (Z.ltb_lt _ _)) by (unfold int32 in H; cbn in *; lia).
  by destruct r.
Qed.

Lemma decode_encode_status c : Cronjobs.decode_status (encode_status c) = Some c.
Proof. by destruct c. Qed.

Lemma mapM_map {A} (enc : A -> json) (dec : json -> option A) l :
  Forall (fun x => dec (enc x) = Some x) l -> mapM dec (map enc l) = Some l.
Proof. induction 1 as [|x l Hx _ IH]; [done|]. cbn. by rewrite Hx, IH. Qed.

(** A list of flat objects is printed and parsed. *)
Lemma parse_flat_list {A} (enc : A -> json) l :
  Forall (fun x => json_ok (enc x) = true /\ height (enc x) <= 1) l ->
  parse_json (Marshal (JArr (map enc l))) = Some (JArr (map enc l)).
Proof.
  intros Hl. apply parse_print.
  - cbn [json_ok]. induction Hl as [|x l [Hx _] _ IH]; [done|]. cbn. by rewrite Hx, IH.
  - cbn [height]. assert (fold_right (fun v h => Z.max (height v) h) 0 (map enc l) <= 1).
    { induction Hl as [|x l [_ Hx] _ IH]; cbn; lia. }
    unfold maxNestingDepth. lia.
Qed.

Lemma encode_replicas_ok r :
  name_ok (Deployments.Name r) ->
  json_ok (encode_replicas r) = true /\ height (encode_replicas r) <= 1.
Proof.
  intros [_ H]. unfold encode_replicas. cbn [json_ok forallb height fold_right snd].
  rewrite H, valid_number_itoa. split; [done|lia].
Qed.

Lemma encode_status_ok c :
  name_ok (Cronjobs.Name c) -> json_ok (encode_status c) = true /\ height (encode_status c) <= 1.
Proof.
  intros [_ H]. unfold encode_status. cbn [json_ok forallb height fold_right snd].
  rewrite H. split; [done|lia].
Qed.

(** The map built from a list of named values. *)
Lemma named_lookup {A} (name : A -> string) (f : A -> string) l x :
  Forall (fun x => name x <> ""%string) l -> NoDup (name <$> l) -> x ∈ l ->
  fold_left (fun (m : RestorePatches) r =>
    if String.eqb (name r) "" then m else <[name r := f r]> m) l ∅ !! name x = Some (f x).
Proof.
  generalize (∅ : RestorePatches). induction l as [|y l IH]; intros m Hn Hd Hx;
    [by apply elem_of_nil in Hx|].
  apply Forall_cons in Hn as [Hy Hn]. cbn in Hd. apply NoDup_cons in Hd as [Hnot Hd].
  cbn [fold_left]. destruct (String.eqb_spec (name y) ""); [done|].
  apply elem_of_cons in Hx as [->|Hx]; [|by apply IH].
  assert (forall l (m : RestorePatches), name y ∉ name <$> l ->
    fold_left (fun (m : RestorePatches) r =>
      if String.eqb (name r) "" then m else <[name r := f r]> m) l m !! name y = m !! name y) as Hout.
  { clear. induction l as [|z l IH]; intros m Hz; [done|]. cbn in Hz.
    apply not_elem_of_cons in Hz as [Hne Hz]. cbn [fold_left]. rewrite IH by done.
    destruct (String.eqb (name z) ""); [done|]. by rewrite lookup_insert_ne. }
  rewrite Hout by done. apply lookup_insert_eq.
Qed.

(** The patches the conversion makes. *)
Definition spec_patch (field : string) (v : json) : json :=
  JObj [("spec"%string, JObj [(field, v)])].

Lemma replicas_patch_doc r :
  doc (Deployments.restore_patch r) = Some (spec_patch "replicas" (JNum (itoa (Deployments.Replicas r)))).
Proof.
  assert (Deployments.restore_patch r
    = Marshal (spec_patch "replicas" (JNum (itoa (Deployments.Replicas r))))) as ->.
  { unfold Deployments.restore_patch, Marshal, spec_patch. cbn [print_runes map sep_by].
    change (print_str "spec") with (ascii_runes (Deployments.quoted "spec")).
    change (print_str "replicas") with (ascii_runes (Deployments.quoted "replicas")).
    repeat rewrite ?flatten_cons, ?flatten_app, ?flatten_ascii. cbn [rune_bytes].
    by autorewrite with go_str. }
  unfold doc. rewrite parse_print.
  - cbn [fmap option_fmap option_map]. unfold spec_patch. by rewrite !canon_one.
  - unfold spec_patch. cbn [json_ok forallb]. by rewrite valid_number_itoa.
  - unfold spec_patch, maxNestingDepth. cbn [height fold_right snd]. lia.
Qed.

Lemma suspend_patch_doc c :
  doc (Cronjobs.restore_patch c) = Some (spec_patch "suspend" (JBool (Cronjobs.Suspend c))).
Proof. destruct c as [n []]; vm_compute; done. Qed.

(** [C25] Upgrades lose nothing: from the lists older releases saved for
    Deployments and CronJobs (named values, no name twice), the conversion
    succeeds and gives each of these resources, under its target, the merge
    patch that sets its replicas or its suspension back to the saved value; the
    restore patches of other targets are kept. *)
Theorem legacy_data_converted original data ds cs :
  Forall (fun r => name_ok (Deployments.Name r) /\ int32 (Deployments.Replicas r)) ds ->
  Forall (fun c => name_ok (Cronjobs.Name c)) cs ->
  NoDup (Deployments.Name <$> ds) -> NoDup (Cronjobs.Name <$> cs) ->
  data !! replicasBeforeSleepKey = Some (Marshal (JArr (map encode_replicas ds))) ->
  data !! originalCronjobStatusKey = Some (Marshal (JArr (map encode_status cs))) ->
  exists m md mc,
    convertOldSecretDataToNewFormat original data = Ok m
    /\ m !! target_String DeploymentTarget = Some (Some md)
    /\ m !! target_String CronJobTarget = Some (Some mc)
    /\ (forall k, k <> target_String DeploymentTarget -> k <> target_String CronJobTarget ->
          m !! k = default ∅ original !! k)
    /\ (forall r, r ∈ ds -> exists p, md !! Deployments.Name r = Some p
          /\ doc p = Some (spec_patch "replicas" (JNum (itoa (Deployments.Replicas r)))))
    /\ (forall c, c ∈ cs -> exists p, mc !! Cronjobs.Name c = Some p
          /\ doc p = Some (spec_patch "suspend" (JBool (Cronjobs.Suspend c)))).
Proof.
  intros Hds Hcs Dd Dc Ed Ec. unfold convertOldSecretDataToNewFormat. rewrite Ed, Ec.
  unfold Deployments.GetOriginalInfoToRestore, Deployments.decode.
  rewrite parse_flat_list by (eapply Forall_impl; [exact Hds|intros r [H _]; by apply encode_replicas_ok]).
  rewrite mapM_map by (eapply Forall_impl; [exact Hds|intros r [_ H]; by apply decode_encode_replicas]).
  cbn [rbind]. unfold Cronjobs.GetOriginalInfoToRestore, Cronjobs.decode.
  rewrite parse_flat_list by (eapply Forall_impl; [exact Hcs|apply encode_status_ok]).
  rewrite mapM_map by (eapply Forall_impl; [exact Hcs|intros c _; apply decode_encode_status]).
  cbn [rbind]. eexists _, _, _. split; [done|].
  split; [by rewrite lookup_insert_ne, lookup_insert_eq|]. split; [by rewrite lookup_insert_eq|].
  split; [intros k H1 H2; by rewrite !lookup_insert_ne|]. split.
  - intros r Hr. eexists. split; [|apply replicas_patch_doc].
    apply (named_lookup Deployments.Name Deployments.restore_patch); [|done|done].
    eapply Forall_impl; [exact Hds|]. by intros x [[H _] _].
  - intros c Hc. eexists. split; [|apply suspend_patch_doc].
    apply (named_lookup Cronjobs.Name Cronjobs.restore_patch); [|done|done].
    eapply Forall_impl; [exact Hcs|]. by intros x [H _].
Qed.
