(* ===== verification/Schedule.v ===== *)
(** * When to run: schedule.go

    [getNextSchedule] decides, from the schedule of the current operation, the
    last run and the clock, whether the operation is due, and when to look
    again.  The theorems are proved for every scheduler that satisfies
    [CronLaws]. *)

From S2P Require Import Prelude GoStrings GoTime GoJson Api Libs Client RestoreData.
From S2P Require Import SleepInfoData.

Section Schedule.
Context {CR : CronLib}.

Definition getRequeueAfter (schedule now : Time) : Duration := SubT schedule now.

Definition getCronParsed (schedule : string) : result Schedule := ParseStandard schedule.

Definition isTimeInDelta (t1 t2 : Time) (delta : Duration) : bool :=
  let diffInMs :=
    if Before t1 t2 then Milliseconds (SubT t2 t1) else Milliseconds (SubT t1 t2) in
  diffInMs <=? Milliseconds delta.

(** [SleepDelta] is the field of the reconciler, in seconds. *)
Definition getNextSchedule (SleepDelta : Z) (data : SleepInfoData) (now : Time)
    : result (bool * Time * Duration) :=
  let scheduleDelta := dmul SleepDelta Second in
  match getCronParsed (CurrentOperationSchedule data) with
  | Err e => Err (errorf ("current schedule not valid: " +:+ err_msg e))
  | Ok sched =>
      let lastSchedule := LastSchedule data in
      let earliestTime :=
        if negb (IsZero lastSchedule) then lastSchedule else AddT now (dneg scheduleDelta) in
      let nextSchedule := Next sched earliestTime in
      let nextSchedule :=
        if TimeEqual earliestTime lastSchedule && Before nextSchedule now
           && negb (isTimeInDelta nextSchedule now scheduleDelta)
        then Next sched (AddT now (dneg scheduleDelta)) else nextSchedule in
      let isToExecute := isTimeInDelta now nextSchedule scheduleDelta in
      if isToExecute then
        match getCronParsed (NextOperationSchedule data) with
        | Err e => Err (errorf ("next op schedule not valid: " +:+ err_msg e))
        | Ok nextOpSched =>
            let nextSchedule := Next nextOpSched (AddT now scheduleDelta) in
            Ok (true, nextSchedule, getRequeueAfter nextSchedule now)
        end
      else Ok (false, nextSchedule, getRequeueAfter nextSchedule now)
  end.

(** ** The window around an instant *)

(** The deltas for which the code computes what it means: not negative and
    small enough for int64 nanoseconds (nine hundred million seconds). *)
Definition delta_ok (SleepDelta : Z) : Prop := 0 <= SleepDelta <= 900000000.

Lemma delta_exact d : delta_ok d ->
  dmul d Second = d * Second /\ dneg (dmul d Second) = - (d * Second).
Proof.
  unfold delta_ok, dmul, dneg. intros H.
  rewrite !wrap64_id; [done|..];
    unfold in_int64, minDuration, maxDuration, Second; try lia.
Qed.

(** Two instants are within delta when they differ by less than delta plus a
    millisecond: the comparison is made on truncated milliseconds. *)
Lemma isTimeInDelta_spec t1 t2 d :
  delta_ok d ->
  isTimeInDelta t1 t2 (dmul d Second) = true
  <-> Z.abs (instant t1 - instant t2) < d * Second + Millisecond.
Proof.
  intros Hd. destruct (delta_exact d Hd) as [-> _].
  unfold isTimeInDelta, Before, SubT, Milliseconds, saturate64, minDuration, maxDuration,
    Millisecond, Second, delta_ok in *.
  rewrite Z.leb_le.
  destruct (Z.ltb_spec (instant t1) (instant t2)); rewrite !Z.quot_div_nonneg by lia;
    Z.to_euclidean_division_equations; lia.
Qed.

(** The window test does not depend on the order of its arguments. *)
Lemma isTimeInDelta_sym t1 t2 delta : isTimeInDelta t1 t2 delta = isTimeInDelta t2 t1 delta.
Proof.
  unfold isTimeInDelta, Before.
  destruct (Z.ltb_spec (instant t1) (instant t2)), (Z.ltb_spec (instant t2) (instant t1));
    try done; [lia|]. unfold SubT. by replace (instant t1) with (instant t2) by lia.
Qed.
End Schedule.

Section ScheduleTheorems.
Context {CR : CronLib} {CL : CronLaws}.

(** The firing [getNextSchedule] compares with the clock. *)
Definition candidate (d : Z) (sched : Schedule) (last now : Time) : Time :=
  let delta := dmul d Second in
  let earliest := if negb (IsZero last) then last else AddT now (dneg delta) in
  let n := Next sched earliest in
  if TimeEqual earliest last && Before n now && negb (isTimeInDelta n now delta)
  then Next sched (AddT now (dneg delta)) else n.

Lemma getNextSchedule_unfold d data now sched :
  ParseStandard (CurrentOperationSchedule data) = Ok sched ->
  getNextSchedule d data now
  = let n := candidate d sched (LastSchedule data) now in
    if isTimeInDelta now n (dmul d Second) then
      match ParseStandard (NextOperationSchedule data) with
      | Err e => Err (errorf ("next op schedule not valid: " +:+ err_msg e))
      | Ok nextOp =>
          let n' := Next nextOp (AddT now (dmul d Second)) in Ok (true, n', SubT n' now)
      end
    else Ok (false, n, SubT n now).
Proof. intros H. unfold getNextSchedule, getCronParsed. by rewrite H. Qed.

(** A schedule that always fires again (every weekly schedule does), from the
    zero time on. *)
Definition recurring (s : Schedule) : Prop :=
  forall t, 0 <= instant t -> IsZero (Next s t) = false.

(** No firing between [lo] and [hi]. *)
Definition quiet (s : Schedule) (lo hi : Z) : Prop := forall x, lo < x < hi -> ~ fires s x.

Lemma recurring_next s t :
  recurring s -> 0 <= instant t ->
  instant t < instant (Next s t) /\ fires s (instant (Next s t))
  /\ quiet s (instant t) (instant (Next s t)).
Proof.
  intros Hr Ht. destruct (next_fires s t (Hr t Ht)) as [H1 H2]. split; [done|]. split; [done|].
  intros x Hx. by apply (next_least s t x (Hr t Ht)).
Qed.

(** The candidate is a firing after the last run; it is in the window or
    beyond it, never before, and no firing is passed over. *)
Lemma candidate_spec d sched last now :
  delta_ok d -> recurring sched -> d * Second <= instant now -> 0 <= instant last ->
  let n := instant (candidate d sched last now) in
  let delta := d * Second in
  fires sched n
  /\ (IsZero last = true \/ instant last < n)
  /\ (Z.abs (instant now - n) < delta + Millisecond \/ instant now + delta < n)
  /\ quiet sched (if IsZero last then instant now - delta
                  else Z.max (instant now - delta) (instant last)) n.
Proof.
  intros Hd Hr Hnow Hlast n delta. unfold n, candidate. clear n.
  destruct (delta_exact d Hd) as [Ed En]. rewrite En.
  destruct (recurring_next sched (AddT now (- delta)) Hr) as (F1 & F2 & F3);
    [cbn [AddT instant]; lia|].
  fold delta. cbn [AddT instant] in *.
  pose proof (isTimeInDelta_spec (Next sched last) now d Hd) as W.
  change (d * Second) with delta in W.
  pose proof (recurring_next sched last Hr Hlast) as (L1 & L2 & L3).
  assert (0 <= delta /\ 0 < Millisecond) as [Hp Hm] by (unfold delta, Second, Millisecond; unfold delta_ok in Hd; lia).
  destruct (IsZero last) eqn:Z0; cbn [negb].
  - assert (forall b (x y : Time), x = y -> (if b : bool then x else y) = y) as Hif
      by (by intros [] ? ? ->).
    rewrite Hif by done. repeat split; [done|by left|lia|].
    intros x Hx. apply F3. cbn [AddT instant]. lia.
  - unfold TimeEqual, Before. rewrite Z.eqb_refl. cbn [andb].
    destruct (Z.ltb_spec (instant (Next sched last)) (instant now)) as [Hb|Hb]; cbn [andb].
    + destruct (isTimeInDelta _ now _) eqn:Ew; cbn [negb].
      * repeat split; [done|by right|left; pose proof (proj1 W eq_refl); lia|].
        intros x Hx. apply L3. lia.
      * assert (~ (Z.abs (instant (Next sched last) - instant now) < delta + Millisecond)) as Hn.
        { intros Hc. apply W in Hc. congruence. }
        repeat split; [done|right; lia|lia|].
        intros x Hx. apply F3. cbn [AddT instant]. lia.
    + repeat split; [done|by right|lia|]. intros x Hx. apply L3. lia.
Qed.

Section Decision.
Variables (d : Z) (data : SleepInfoData) (now : Time) (sched : Schedule).
Hypothesis Hd : delta_ok d.
Hypothesis Hparse : ParseStandard (CurrentOperationSchedule data) = Ok sched.
Hypothesis Hrec : recurring sched.
Hypothesis Hnow : d * Second <= instant now.
Hypothesis Hlast0 : 0 <= instant (LastSchedule data).

(** The firing a due operation answers. *)
Lemma due_firing next rq :
  getNextSchedule d data now = Ok (true, next, rq) ->
  exists f, fires sched f
    /\ Z.abs (instant now - f) < d * Second + Millisecond
    /\ (IsZero (LastSchedule data) = true \/ instant (LastSchedule data) < f).
Proof using CL Hd Hparse Hrec Hnow Hlast0.
  rewrite (getNextSchedule_unfold d data now sched Hparse). cbv zeta.
  destruct (isTimeInDelta now _ _) eqn:Ew; [intros _|done].
  apply (isTimeInDelta_spec _ _ _ Hd) in Ew.
  pose proof (candidate_spec d sched (LastSchedule data) now Hd Hrec Hnow Hlast0) as (F & L & _).
  eexists. split; [exact F|]. split; [lia|done].
Qed.

(** The firing a run that is not due waits for is after the last run. *)
Lemma not_due_after_last next rq :
  getNextSchedule d data now = Ok (false, next, rq) ->
  IsZero (LastSchedule data) = true \/ instant (LastSchedule data) < instant next.
Proof using CL Hd Hparse Hrec Hnow Hlast0.
  rewrite (getNextSchedule_unfold d data now sched Hparse). cbv zeta.
  pose proof (candidate_spec d sched (LastSchedule data) now Hd Hrec Hnow Hlast0) as (_ & L & _).
  destruct (isTimeInDelta now _ _); [|by intros [= <- <-]].
  by destruct (ParseStandard (NextOperationSchedule data)).
Qed.

(** The delay until an instant beyond the window. *)
Lemma delay_beyond (n : Time) :
  instant now + d * Second < instant n ->
  0 < SubT n now <= maxDuration
  /\ (in_int64 (instant n - instant now) -> SubT n now = instant n - instant now).
Proof using Hd.
  intros Hn. unfold SubT. pose proof (saturate64_range (instant n - instant now)) as Hr.
  unfold in_int64 in Hr. split; [|apply saturate64_id].
  split; [|lia]. apply saturate64_pos. unfold delta_ok, Second in *. lia.
Qed.

(** The next run lies beyond the window, on a firing of its schedule. *)
Lemma next_run b next rq nextOp :
  ParseStandard (NextOperationSchedule data) = Ok nextOp -> recurring nextOp ->
  getNextSchedule d data now = Ok (b, next, rq) ->
  rq = SubT next now /\ instant now + d * Second < instant next
  /\ fires (if b then nextOp else sched) (instant next)
  /\ quiet (if b then nextOp else sched)
       (if b then instant now + d * Second
        else Z.max (instant now + d * Second) (instant (LastSchedule data))) (instant next).
Proof using CL Hd Hparse Hrec Hnow Hlast0.
  intros Hop Hropn H.
  rewrite (getNextSchedule_unfold d data now sched Hparse), Hop in H. cbv zeta in H.
  pose proof (candidate_spec d sched (LastSchedule data) now Hd Hrec Hnow Hlast0) as (F & _ & W & Q).
  destruct (isTimeInDelta now _ _) eqn:Ew; injection H as <- <- <-.
  - destruct (delta_exact d Hd) as [-> _].
    destruct (recurring_next nextOp (AddT now (d * Second)) Hropn) as (N1 & N2 & N3);
      [cbn [AddT instant]; unfold delta_ok, Second in *; lia|]. by cbn [AddT instant] in *.
  - assert (instant now + d * Second < instant (candidate d sched (LastSchedule data) now)) as Hn.
    { destruct W as [W|W]; [|done]. apply (isTimeInDelta_spec _ _ _ Hd) in W. congruence. }
    split_and!; [done|done|done|]. intros x Hx. apply Q.
    unfold delta_ok, Second in *. destruct (IsZero _); lia.
Qed.

(** [C7] An operation is executed only when it is due: some firing of its
    schedule lies within delta of the clock (up to the millisecond the
    comparison truncates) and after the last run, so that a firing at or
    before the last run is never executed again. *)
Theorem runs_only_when_due next rq :
  getNextSchedule d data now = Ok (true, next, rq) ->
  exists f, fires sched f
    /\ Z.abs (instant now - f) < d * Second + Millisecond
    /\ (IsZero (LastSchedule data) = true \/ instant (LastSchedule data) < f).
Proof using CL Hd Hparse Hrec Hnow Hlast0. apply due_firing. Qed.

(** A firing in the window makes the operation due. *)
Lemma firing_due f :
  is_ok (ParseStandard (NextOperationSchedule data)) = true ->
  fires sched f ->
  instant now - d * Second < f <= instant now + d * Second ->
  IsZero (LastSchedule data) = true \/ instant (LastSchedule data) < f ->
  exists next rq, getNextSchedule d data now = Ok (true, next, rq).
Proof using CL Hd Hparse Hrec Hnow Hlast0.
  intros Hok Hf Hw Hl. rewrite (getNextSchedule_unfold d data now sched Hparse). cbv zeta.
  pose proof (candidate_spec d sched (LastSchedule data) now Hd Hrec Hnow Hlast0) as (_ & _ & W & Q).
  assert (instant (candidate d sched (LastSchedule data) now) <= f) as Hle.
  { destruct (Z.le_gt_cases (instant (candidate d sched (LastSchedule data) now)) f); [done|].
    exfalso. apply (Q f); [|done].
    destruct (IsZero (LastSchedule data)); [lia|]. destruct Hl; [done|lia]. }
  assert (isTimeInDelta now (candidate d sched (LastSchedule data) now) (dmul d Second) = true)
    as ->.
  { apply (isTimeInDelta_spec _ _ _ Hd). unfold Millisecond in *. lia. }
  destruct (ParseStandard (NextOperationSchedule data)); [eauto|done].
Qed.

(** A due operation is never missed: when the schedule fires at an
    instant of the window that is after the last run, the operation is
    executed, however many earlier firings were skipped. *)
Lemma runs_when_due f :
  is_ok (ParseStandard (NextOperationSchedule data)) = true ->
  fires sched f ->
  instant now - d * Second < f <= instant now + d * Second ->
  IsZero (LastSchedule data) = true \/ instant (LastSchedule data) < f ->
  exists next rq, getNextSchedule d data now = Ok (true, next, rq).
Proof using CL Hd Hparse Hrec Hnow Hlast0. apply firing_due. Qed.

(** [C24] The reconciler always comes back, and at the right time.  The next
    run is scheduled strictly after the window, so the requeue delay is
    positive; after an execution it is the first firing of the next
    operation beyond the window, and otherwise no firing of the current
    operation lies between the window and the next run. *)
Theorem requeue_at_next_firing b next rq nextOp :
  ParseStandard (NextOperationSchedule data) = Ok nextOp -> recurring nextOp ->
  instant (LastSchedule data) <= instant now + d * Second ->
  getNextSchedule d data now = Ok (b, next, rq) ->
  let w := instant now + d * Second in
  w < instant next
  /\ 0 < rq <= maxDuration
  /\ (in_int64 (instant next - instant now) -> rq = instant next - instant now)
  /\ fires (if b then nextOp else sched) (instant next)
  /\ quiet (if b then nextOp else sched) w (instant next).
Proof using CL Hd Hparse Hrec Hnow Hlast0.
  intros Hop Hropn Hlast H w. subst w.
  destruct (next_run b next rq nextOp Hop Hropn H) as (-> & Hn & F & Q).
  rewrite Z.max_l in Q by lia. pose proof (delay_beyond next Hn). destruct b; tauto.
Qed.
End Decision.
End ScheduleTheorems.
