(* ===== verification/Patcher.v ===== *)
(** * internal/patcher: JSON 6902 patches

    [New] decodes a patch written in YAML, [Exec] applies it with the options
    the project chose, [IsResourceChanged] tells whether applying it would
    change a resource. *)

From S2P Require Import Prelude GoStrings GoTime GoJson GoAny Api Libs.

Section Patcher.
Context {PL : PatchLib}.

Record Patcher := mkPatcher { patch : Patch6902 }.

Definition Exec (p : Patcher) (original : string) : result string :=
  ApplyWithOptions (patch p) original
    (mkApplyOptions (* EnsurePathExistsOnAdd *) true (* AllowMissingPathOnRemove *) true).

Definition IsResourceChanged (p : Patcher) (original : string) : result bool :=
  let? modified := Exec p original in
  Ok (negb (JsonEqual original modified)).

Definition New (patchToApply : string) : result Patcher :=
  let? jsonPatchToApply := YAMLToJSON patchToApply in
  let? patch := DecodePatch jsonPatchToApply in
  Ok (mkPatcher patch).

(** A resource counts as changed exactly when the patch gives a different
    document. *)
Lemma IsResourceChanged_spec {LL : PatchLaws} p original modified d d' :
  doc original = Some d -> Exec p original = Ok modified -> doc modified = Some d' ->
  IsResourceChanged p original = Ok (negb (bool_decide (d = d'))).
Proof.
  intros Hd He Hd'. unfold IsResourceChanged. rewrite He. cbn. do 2 f_equal.
  pose proof (JsonEqual_spec original modified d d' Hd Hd') as H.
  case_bool_decide as E.
  - by apply H in E as ->.
  - destruct (JsonEqual original modified); [|done]. tauto.
Qed.
End Patcher.
