(* ===== verification/Webhook.v ===== *)
(** * Admission: SleepInfo.Validate and the webhook

    [SleepInfo.Validate] (api/v1alpha1/sleepinfo_types.go) and the validator
    the webhook registers (internal/webhook/v1alpha1/sleepinfo_webhook.go). *)

From S2P Require Import Prelude GoStrings GoTime GoJson GoAny Api Libs Client RestoreData.
From S2P Require Import SleepInfoData Schedule Patcher.

Section Webhook.
Context {CR : CronLib} {PL : PatchLib} {SL : SelectorLib} {CL : ClientLib}.

(** The loop of [validatePatches]: an unknown target is a warning, an
    undecodable patch an error that wraps its cause. *)
Fixpoint validatePatches_loop (patches : list Patch) (warnings : list string)
    : M World (list string) :=
  match patches with
  | [] => gret warnings
  | p :: rest =>
      m <~ gtry (RESTMapping (target_GroupKind (p_Target p)));;
      let warnings :=
        match m with
        | Ok _ => warnings
        | Err e => warnings ++ ["SleepInfo patch target is invalid: " +:+ err_msg e]
        end in
      match New (p_Patch p) with
      | Err e => gfail (mkError (err_class e)
                   ("patch is invalid for target " +:+ target_String (p_Target p)
                    +:+ ": " +:+ err_msg e))
      | Ok _ => validatePatches_loop rest warnings
      end
  end.

Definition validatePatches (s : SleepInfo) : M World (list string) :=
  validatePatches_loop (GetPatches s) [].

Definition Validate (s : SleepInfo) : M World (list string) :=
  schedule <~ glift (GetSleepSchedule s);;
  glift (ParseStandard schedule);;~
  schedule <~ glift (GetWakeUpSchedule s);;
  (if String.eqb schedule "" then gret tt
   else glift (ParseStandard schedule);;~ gret tt);;~
  validatePatches s.

(** [runtime.Object]: what the webhook decodes. *)
Inductive RuntimeObject :=
| ObjSleepInfo (s : SleepInfo)
| ObjOther.

Definition errDecode : error := errorf "fails to decode SleepInfo".

Definition ValidateCreate (obj : RuntimeObject) : M World (list string) :=
  match obj with ObjSleepInfo s => Validate s | ObjOther => gfail errDecode end.

Definition ValidateUpdate (old new : RuntimeObject) : M World (list string) :=
  match new with ObjSleepInfo s => Validate s | ObjOther => gfail errDecode end.

Definition ValidateDelete (obj : RuntimeObject) : M World (list string) :=
  match obj with ObjSleepInfo s => gret [] | ObjOther => gfail errDecode end.

(** ** Theorems *)

Lemma validatePatches_loop_ok ps ws w r w' :
  validatePatches_loop ps ws w = (Ok r, w') ->
  Forall (fun p => is_ok (New (p_Patch p)) = true) ps.
Proof.
  revert ws w. induction ps as [|p ps IH]; intros ws w H; [constructor|].
  cbn in H. apply gbind_ok in H as (m & w1 & _ & H).
  destruct (New (p_Patch p)) eqn:E; [|done]. constructor; [by rewrite E|by eapply IH].
Qed.

(** What an admitted SleepInfo guarantees to the controllers. *)
Lemma Validate_ok s w ws w' :
  Validate s w = (Ok ws, w') ->
  exists sleep wake,
    schedules_of s sleep wake
    /\ is_ok (ParseStandard sleep) = true
    /\ (wake <> ""%string -> is_ok (ParseStandard wake) = true)
    /\ Forall (fun p => is_ok (New (p_Patch p)) = true) (GetPatches s).
Proof.
  unfold Validate, schedules_of. intros H.
  apply gbind_ok in H as (sleep & w1 & [H1 ->]%glift_ok & H).
  apply gbind_ok in H as (c1 & w2 & [H2 ->]%glift_ok & H).
  apply gbind_ok in H as (wake & w3 & [H3 ->]%glift_ok & H).
  apply gbind_ok in H as (u & w4 & H4 & H).
  exists sleep, wake. split; [done|]. split; [by rewrite H2|]. split.
  - intros Hne. destruct (String.eqb_spec wake ""); [done|].
    apply gbind_ok in H4 as (c2 & w5 & [H5 _]%glift_ok & _). by rewrite H5.
  - by eapply validatePatches_loop_ok.
Qed.

(** [C26] Admission is sound for the scheduler: once the webhook has admitted a
    SleepInfo, whatever its secret holds and whenever it is reconciled, reading
    its state never fails on a schedule and [getNextSchedule] returns a
    decision; the cron errors of the reconciler are unreachable. *)
Theorem admitted_schedules_parse s w ws w' secret data d now :
  ValidateCreate (ObjSleepInfo s) w = (Ok ws, w') ->
  getSleepInfoData secret s = Ok data ->
  is_ok (getNextSchedule d data now) = true.
Proof.
  intros HV Hd. apply Validate_ok in HV as (sleep & wake & [Hs Hw] & P1 & P2 & _).
  assert (is_ok (ParseStandard (CurrentOperationSchedule data)) = true
          /\ is_ok (ParseStandard (NextOperationSchedule data)) = true) as [Q1 Q2].
  { unfold getSleepInfoData in Hd. rewrite Hs, Hw in Hd. cbn [rbind] in Hd.
    assert (is_ok (ParseStandard (if String.eqb wake "" then sleep else wake)) = true) as Hnext
      by (destruct (String.eqb_spec wake ""); auto).
    destruct secret as [sec|]; [|by injection Hd as <-].
    destruct (sec_Data sec) as [dm|]; [|by injection Hd as <-].
    rbind_inv Hd. destruct (_ && _) eqn:Eop; injection Hd as <-; [|done].
    apply andb_true_iff in Eop as [_ Eop]. split; [|done].
    apply P2. intros ->. done. }
  unfold getNextSchedule, getCronParsed.
  destruct (ParseStandard (CurrentOperationSchedule data)); [|done].
  destruct (isTimeInDelta now _ _); [|done].
  by destruct (ParseStandard (NextOperationSchedule data)).
Qed.

(** Validation only reads: the webhook makes no call but the lookup of the
    patch targets, on every branch. *)
Lemma validation_reads_only obj old :
  emits (fun c => is_write c = false) (ValidateCreate obj)
  /\ emits (fun c => is_write c = false) (ValidateUpdate old obj)
  /\ emits (fun c => is_write c = false) (ValidateDelete obj).
Proof.
  assert (forall s, emits (fun c => is_write c = false) (Validate s)) as HV.
  { intros s. unfold Validate, validatePatches.
    assert (forall ps ws, emits (fun c => is_write c = false) (validatePatches_loop ps ws)) as HL.
    { induction ps as [|p ps IH]; intros ws; cbn; [auto with go|].
      apply emits_bind; [apply emits_try, emits_call; done|].
      intros m. destruct (New (p_Patch p)); auto with go. }
    emits_tac. }
  repeat split; destruct obj; cbn; auto with go.
Qed.
End Webhook.
