(* ===== verification/Resource.v ===== *)
(** * The resource client and the listing of target resources

    [resource/resource.go]: the wrapper that writes resources;
    [jsonpatch/genericresources.go]: how the resources of a target are listed
    under the include and exclude filters of a SleepInfo. *)

From S2P Require Import Prelude GoStrings GoTime GoJson GoAny Api Libs Client RestoreData.

Section Resource.
Context {UL : UnstructuredLib} {SL : SelectorLib} {CL : ClientLib} {MR : MapRange}.

(** ** ResourceClient *)

(** [rc_Client] tells whether the client is set. *)
Record ResourceClient := mkResourceClient {
  rc_Client : bool;
  rc_SleepInfo : option SleepInfo;
  rc_FieldManagerName : string
}.

Definition errClientEmpty : string := "client is empty".
Definition errSleepInfoEmpty : string := "sleepInfo is nil".

Definition IsClientValid (r : ResourceClient) : option error :=
  match rc_Client r, rc_SleepInfo r with
  | true, Some _ => None
  | c, s =>
      Some (wrapf EInvalidClient "invalid client"
        (join " and " ((if c then [] else [errClientEmpty])
                       ++ match s with None => [errSleepInfoEmpty] | Some _ => [] end)))
  end.

(** An error of a write is dropped when the object is gone. *)
Definition ignoring_not_found (c : M World unit) : M World unit :=
  r <~ gtry c;;
  match r with
  | Ok _ => gret tt
  | Err e => match IgnoreNotFound (Some e) with None => gret tt | Some e => gfail e end
  end.

Definition PatchResource (r : ResourceClient) (oldObj newObj : Unstructured) : M World unit :=
  match IsClientValid r with
  | Some e => gfail e
  | None => ignoring_not_found (PatchObject oldObj newObj)
  end.

(** Server-side apply, forcing the ownership of the applied fields. *)
Definition SSAPatch (r : ResourceClient) (newObj : Unstructured) : M World unit :=
  match IsClientValid r with
  | Some e => gfail e
  | None =>
      let newObj := SetResourceVersion "" (ClearManagedFields newObj) in
      ignoring_not_found (ApplyObject newObj (rc_FieldManagerName r) (* ForceOwnership *) true)
  end.

(** ** Filters *)

Definition matchPatchTargetAndFilterRef (target : PatchTarget) (filterRef : FilterRef) : bool :=
  has_prefix (fr_APIVersion filterRef) (pt_Group target +:+ "/")
  && String.eqb (fr_Kind filterRef) (pt_Kind target).

(** The names a list of references gives for a target. *)
Definition names_for (target : PatchTarget) (refs : list FilterRef) : list string :=
  map fr_Name
    (List.filter (fun r => matchPatchTargetAndFilterRef target r
                           && negb (String.eqb (fr_Name r) "")) refs).

Definition getFieldToExclude (excludeRef : list FilterRef) (target : PatchTarget) : list string :=
  map (fun name => "metadata.name!=" +:+ name) (names_for target excludeRef).

Definition getFieldToInclude (includeRef : list FilterRef) (target : PatchTarget)
    : list string * gset string :=
  match names_for target includeRef with
  | [] => ([], ∅)
  | [name] => (["metadata.name==" +:+ name], ∅)
  | names => ([], list_to_set names)
  end.

(** [n] numbers the iterations over the label maps. *)
Definition getLabelsToExclude (n : nat) (excludeRef : list FilterRef) : list string :=
  concat (imap (fun i exclude =>
    map (fun kv => fst kv +:+ "!=" +:+ snd kv) (range (n + i)%nat (fr_MatchLabels exclude)))
    excludeRef).

Definition getLabelsToInclude (n : nat) (includeRef : list FilterRef) : list string :=
  concat (imap (fun i include_ =>
    map (fun kv => fst kv +:+ "==" +:+ snd kv) (range (n + i)%nat (fr_MatchLabels include_)))
    includeRef).

(** A selector is parsed only when there is something to select. *)
Definition parse_selector {A} (parse : string -> result A) (sels : list string) : result (option A) :=
  if (0 <? Z.of_nat (length sels)) then rmap Some (parse (join "," sels)) else Ok None.

Definition getListOptions (n : nat) (s : SleepInfo) (namespace : string) (target : PatchTarget)
    : result (ListOptions * gset string) :=
  let includeRef := GetIncludeRef s in
  let excludeRef := GetExcludeRef s in
  let '(fieldsToInclude, namesToInclude) := getFieldToInclude includeRef target in
  let labelsToInclude := getLabelsToInclude n includeRef in
  let fieldsToExclude := getFieldToExclude excludeRef target in
  let labelsToExclude := getLabelsToExclude (n + length includeRef)%nat excludeRef in
  let? fieldSelector := parse_selector ParseFieldSelector (fieldsToInclude ++ fieldsToExclude) in
  let? labelSelector := parse_selector ParseLabelSelector (labelsToInclude ++ labelsToExclude) in
  Ok (mkListOptions namespace 500 fieldSelector labelSelector, namesToInclude).

Definition filterByName (items : list Unstructured) (namesToInclude : gset string)
    : list Unstructured :=
  if (size namesToInclude =? 0)%nat then items
  else List.filter (fun item => bool_decide (GetName item ∈ namesToInclude)) items.

(** A missing kind is an empty list; so is a list the server does not find. *)
Definition getListByNamespace (s : SleepInfo) (namespace : string) (target : PatchTarget)
    : M World (list Unstructured) :=
  m <~ gtry (RESTMapping (target_GroupKind target));;
  match m with
  | Err e => if bool_decide (err_class e = ENoMatch) then gret [] else gfail e
  | Ok gvk =>
      n <~ tick;;
      let! (listOptions, namesToInclude) := glift (getListOptions n s namespace target) in
      let! (items, err) := ListObjects gvk listOptions in
      match err with
      | Some e => match IgnoreNotFound (Some e) with None => gret items | Some e => gfail e end
      | None => gret (filterByName items namesToInclude)
      end
  end.
End Resource.

(** ** Theorems: which resources are selected *)

Section Filters.
Context {UL : UnstructuredLib} {SL : SelectorLib} {SW : SelectorLaws} {CL : ClientLib} {MR : MapRange}.





























(** [C33] A target of the core group (Pods, ConfigMaps: the empty group) cannot
    be included or excluded by name: its references carry an apiVersion such as
    "v1", which never starts with the "/" the matching asks for, so they give
    no name and no field selector. *)
Theorem core_group_names_ignored target refs :
  pt_Group target = ""%string ->
  Forall (fun r => has_prefix (fr_APIVersion r) "/" = false) refs ->
  getFieldToExclude refs target = [] /\ getFieldToInclude refs target = ([], ∅).
Proof.
  intros Hg Hr. assert (names_for target refs = []) as Hn.
  { unfold names_for. induction Hr as [|r refs Hr _ IH]; [done|]. cbn [List.filter].
    unfold matchPatchTargetAndFilterRef at 1. rewrite Hg.
    change ("" +:+ "/") with "/"%string. rewrite Hr. exact IH. }
  unfold getFieldToExclude, getFieldToInclude. by rewrite Hn.
Qed.
End Filters.

(** ** Theorems: writing a resource *)

Section Writing.
Context {UL : UnstructuredLib} {SL : SelectorLib} {CL : ClientLib}.

(** What a write returns, given what the server answered. *)
Definition write_result (r : result unit) : result unit :=
  match r with
  | Ok _ => Ok tt
  | Err e => if IsNotFound e then Ok tt else Err e
  end.

Lemma ignoring_not_found_result c w : (ignoring_not_found c w).1 = write_result (c w).1.
Proof.
  unfold ignoring_not_found, gtry, gbind. destruct (c w) as [[[]|e] w1]; [done|].
  unfold IgnoreNotFound, write_result. cbn. by destruct (IsNotFound e).
Qed.

Lemma ignoring_not_found_trace c w : w_trace (ignoring_not_found c w).2 = w_trace (c w).2.
Proof.
  unfold ignoring_not_found, gtry, gbind. destruct (c w) as [[|e] w1]; [done|].
  by destruct (IgnoreNotFound (Some e)).
Qed.

(** Writing a resource, on every branch.  Without a client or a SleepInfo
    both writes fail with the invalid-client error and make no call; otherwise
    each makes one call, a resource that is gone counts as written, and every
    other error of the server is returned as it is. *)
Lemma resource_writes r old new w :
  match IsClientValid r with
  | Some e =>
      err_class e = EInvalidClient /\ (rc_Client r = false \/ rc_SleepInfo r = None)
      /\ PatchResource r old new w = (Err e, w) /\ SSAPatch r new w = (Err e, w)
  | None =>
      rc_Client r = true /\ rc_SleepInfo r <> None
      /\ (PatchResource r old new w).1 = write_result (api_Patch old new (w_api w)).1
      /\ w_trace (PatchResource r old new w).2 = w_trace w ++ [CPatch old new]
      /\ let obj := SetResourceVersion "" (ClearManagedFields new) in
         (SSAPatch r new w).1
         = write_result (api_Apply obj (rc_FieldManagerName r) true (w_api w)).1
         /\ w_trace (SSAPatch r new w).2 = w_trace w ++ [CApply obj (rc_FieldManagerName r) true]
  end.
Proof.
  unfold PatchResource, SSAPatch, PatchObject, ApplyObject.
  assert (forall A (c : Call) (f : ApiState -> result A * ApiState),
    (call c f w).1 = (f (w_api w)).1 /\ w_trace (call c f w).2 = w_trace w ++ [c]) as Hcall.
  { intros A c f. unfold call. by destruct (f (w_api w)). }
  destruct (IsClientValid r) as [e|] eqn:E; unfold IsClientValid in E;
    destruct (rc_Client r), (rc_SleepInfo r); try done.
  1-3: injection E as <-; by auto 10.
  cbv zeta. rewrite !ignoring_not_found_result, !ignoring_not_found_trace.
  by rewrite !(proj1 (Hcall _ _ _)), !(proj2 (Hcall _ _ _)).
Qed.
End Writing.
