(* ===== verification/ManagedResources.v ===== *)
(** * Sleep and wake up: jsonpatch/jsonpatch.go

    [managedResources] holds, per target, the listed resources, the patch to
    apply and the restore patches.  [Sleep] applies the patches and records how
    to undo them; [WakeUp] undoes them; [GetOriginalInfoToSave] serialises the
    restore patches for the secret.  The Go values are pointers shared through
    the map [resMapping]: the operations return the updated map. *)

From S2P Require Import Prelude GoStrings GoTime GoJson GoAny Api Libs Client RestoreData.
From S2P Require Import Patcher Resource.

Definition ErrJSONPatch (msg : string) : error := wrapf EJSONPatch "jsonpatch error" msg.
Definition ErrListResources (msg : string) : error := wrapf EListResources "list resources error" msg.

Section ManagedResources.
Context {PL : PatchLib} {UL : UnstructuredLib} {SL : SelectorLib} {CL : ClientLib} {MR : MapRange}.

Record genericResource := mkGenericResource {
  gr_client : ResourceClient;
  gr_patchData : Patch;
  (** [restorePatches], which may be the nil map. *)
  gr_restoreMap : option RestorePatches;
  gr_data : list Unstructured;
  gr_isCacheInvalid : bool
}.

(** What is read from [restorePatches]. *)
Definition gr_restorePatches (gr : genericResource) : RestorePatches := default ∅ (gr_restoreMap gr).

Record managedResources := mkManagedResources {
  resMapping : gmap PatchTarget genericResource;
  namespace : string
}.

Definition newGenericResource (res : ResourceClient) (patchData : Patch)
    (restorePatches : option RestorePatches) : genericResource :=
  mkGenericResource res patchData restorePatches [] false.

Definition with_data (gr : genericResource) (data : list Unstructured) : genericResource :=
  mkGenericResource (gr_client gr) (gr_patchData gr) (gr_restoreMap gr) data
    (gr_isCacheInvalid gr).

Definition with_restore (gr : genericResource) (rp : RestorePatches) : genericResource :=
  mkGenericResource (gr_client gr) (gr_patchData gr) (Some rp) (gr_data gr) (gr_isCacheInvalid gr).

Definition with_cache_invalid (gr : genericResource) : genericResource :=
  mkGenericResource (gr_client gr) (gr_patchData gr) (gr_restoreMap gr) (gr_data gr) true.

(** ** NewResources *)

(** The loop over the patches: a target whose list fails or is empty is left
    out; a later patch of the same target replaces an earlier one. *)
Fixpoint NewResources_loop (res : ResourceClient) (s : SleepInfo) (ns : string)
    (restorePatches : SavedPatches) (patches : list Patch)
    (mapping : gmap PatchTarget genericResource) : M World (gmap PatchTarget genericResource) :=
  match patches with
  | [] => gret mapping
  | patchData :: rest =>
      let restorePatch := default (Some ∅) (restorePatches !! target_String (p_Target patchData)) in
      let generic := newGenericResource res patchData restorePatch in
      l <~ gtry (getListByNamespace s ns (p_Target patchData));;
      match l with
      | Err _ => NewResources_loop res s ns restorePatches rest mapping
      | Ok [] => NewResources_loop res s ns restorePatches rest mapping
      | Ok data =>
          NewResources_loop res s ns restorePatches rest
            (<[p_Target patchData := with_data generic data]> mapping)
      end
  end.

Definition NewResources (res : ResourceClient) (ns : string)
    (restorePatches : option SavedPatches) : M World managedResources :=
  match rc_SleepInfo res with
  | None => gfail (ErrJSONPatch "sleepInfo is not provided")
  | Some s =>
      mapping <~ NewResources_loop res s ns (default ∅ restorePatches) (GetPatches s) ∅;;
      gret (mkManagedResources mapping ns)
  end.

Definition HasResource (g : managedResources) : bool :=
  existsb (fun kv => (0 <? Z.of_nat (length (gr_data (snd kv))))) (map_to_list (resMapping g)).

(** ** The object to apply *)

Fixpoint set_fields (fields : list (string * json)) (u : Unstructured) : result Unstructured :=
  match fields with
  | [] => Ok u
  | (key, value) :: rest => let? u' := SetNestedField key value u in set_fields rest u'
  end.

(** The changed fields and the identifiers of the resource, nothing else. *)
Definition buildSparseApplyObject (resource : Unstructured) (mergePatch : string)
    : M World Unstructured :=
  patchMap <~ glift (UnmarshalMap mergePatch);;
  fields <~ range_map patchMap;;
  sparse <~ glift (set_fields fields (mkUnstructured ∅));;
  gret (SetNamespace (GetNamespace resource)
         (SetName (GetName resource)
           (SetGroupVersionKind (GetGroupVersionKind resource) sparse))).

(** Replaces an error by [%w: %s]. *)
Definition wrap_err {A} (wrap : string -> error) (c : M World A) : M World A :=
  r <~ gtry c;;
  match r with Ok a => gret a | Err e => gfail (wrap (err_msg e)) end.

(** ** Sleep *)

(** [resourceWrapper.restorePatches[name] = patch]: a write to a nil map panics.
    The controller recovers the panic of a reconciler and treats it as the error
    of the run; the code below the write is not reached. *)
Definition errNilMap : error := errorf "panic: assignment to entry in nil map".

Definition assign_restore (gr : genericResource) (name patch : string) : M World genericResource :=
  match gr_restoreMap gr with
  | None => gfail errNilMap
  | Some m => gret (with_restore gr (<[name := patch]> m))
  end.

(** One resource of the inner loop. *)
Definition sleep_resource (patcherFn : Patcher) (gr : genericResource) (resource : Unstructured)
    : M World genericResource :=
  if HasController resource then gret gr
  else
    let original := MarshalMap (Object resource) in
    match Exec patcherFn original with
    | Err _ => gret gr
    | Ok modified =>
        restorePatch <~ wrap_err ErrJSONPatch (glift (CreateMergePatch modified original));;
        if String.eqb restorePatch "{}" then gret gr
        else
          gr <~ assign_restore gr (GetName resource) restorePatch;;
          forwardPatch <~ wrap_err ErrJSONPatch (glift (CreateMergePatch original modified));;
          sparseObj <~ wrap_err ErrJSONPatch (buildSparseApplyObject resource forwardPatch);;
          wrap_err ErrJSONPatch (SSAPatch (gr_client gr) sparseObj);;~
          gret (with_cache_invalid gr)
    end.

Fixpoint sleep_resources (patcherFn : Patcher) (gr : genericResource) (l : list Unstructured)
    : M World genericResource :=
  match l with
  | [] => gret gr
  | resource :: rest =>
      gr' <~ sleep_resource patcherFn gr resource;; sleep_resources patcherFn gr' rest
  end.

(** The list is fetched again when the resources were changed since.  The
    SleepInfo is there: [NewResources] refuses a client without one. *)
Definition refresh (ns : string) (gr : genericResource) : M World genericResource :=
  if gr_isCacheInvalid gr then
    match rc_SleepInfo (gr_client gr) with
    | Some s =>
        data <~ wrap_err ErrListResources
                  (getListByNamespace s ns (p_Target (gr_patchData gr)));;
        gret (with_data gr data)
    | None => gfail (ErrListResources "sleepInfo is nil")
    end
  else gret gr.

Definition sleep_target (ns : string) (gr : genericResource) : M World genericResource :=
  if String.eqb (p_Patch (gr_patchData gr)) "" then gfail (ErrJSONPatch "invalid empty patch")
  else
    patcherFn <~ wrap_err ErrJSONPatch (glift (New (p_Patch (gr_patchData gr))));;
    gr <~ refresh ns gr;;
    sleep_resources patcherFn gr (gr_data gr).

(** The outer loop: each target of the map once, in the order of the
    iteration; the pointed-to resource is updated in place. *)
Fixpoint for_targets (step : genericResource -> M World genericResource)
    (order : list (PatchTarget * genericResource)) (mapping : gmap PatchTarget genericResource)
    : M World (gmap PatchTarget genericResource) :=
  match order with
  | [] => gret mapping
  | (t, gr) :: rest =>
      gr' <~ step gr;; for_targets step rest (<[t := gr']> mapping)
  end.

Definition Sleep (g : managedResources) : M World managedResources :=
  order <~ range_map (resMapping g);;
  mapping <~ for_targets (sleep_target (namespace g)) order (resMapping g);;
  gret (mkManagedResources mapping (namespace g)).

(** ** WakeUp *)

Definition wake_resource (patcherFn : Patcher) (gr : genericResource) (resource : Unstructured)
    : M World genericResource :=
  match gr_restorePatches gr !! GetName resource with
  | None => gret gr
  | Some rawPatch =>
      let current := MarshalMap (Object resource) in
      match IsResourceChanged patcherFn current with
      | Err _ => gret gr
      | Ok true => gret gr
      | Ok false =>
          restored <~ wrap_err ErrJSONPatch (glift (MergePatch current rawPatch));;
          obj <~ wrap_err ErrJSONPatch (glift (UnmarshalMap restored));;
          wrap_err ErrJSONPatch (PatchResource (gr_client gr) resource (mkUnstructured obj));;~
          gret (with_cache_invalid gr)
      end
  end.

Fixpoint wake_resources (patcherFn : Patcher) (gr : genericResource) (l : list Unstructured)
    : M World genericResource :=
  match l with
  | [] => gret gr
  | resource :: rest =>
      gr' <~ wake_resource patcherFn gr resource;; wake_resources patcherFn gr' rest
  end.

Definition wake_target (ns : string) (gr : genericResource) : M World genericResource :=
  gr <~ refresh ns gr;;
  patcherFn <~ wrap_err ErrJSONPatch (glift (New (p_Patch (gr_patchData gr))));;
  wake_resources patcherFn gr (gr_data gr).

Definition WakeUp (g : managedResources) : M World managedResources :=
  order <~ range_map (resMapping g);;
  mapping <~ for_targets (wake_target (namespace g)) order (resMapping g);;
  gret (mkManagedResources mapping (namespace g)).

(** ** GetOriginalInfoToSave *)

(** The restore patches by target name, targets without any left out. *)
Definition dataToSave (order : list (PatchTarget * genericResource)) : gmap string RestorePatches :=
  fold_left (fun (m : gmap string RestorePatches) kv =>
    if (size (gr_restorePatches (snd kv)) =? 0)%nat then m
    else <[target_String (fst kv) := gr_restorePatches (snd kv)]> m) order ∅.

Definition GetOriginalInfoToSave (g : managedResources) : M World (option string) :=
  if (size (resMapping g) =? 0)%nat then gret None
  else
    order <~ range_map (resMapping g);;
    gret (Some (Jsonpatch.marshal_restore (dataToSave order))).
End ManagedResources.
