(* ===== verification/ManagedResourcesSpec.v ===== *)
(** * Theorems on sleep and wake up

    What [NewResources], [Sleep], [WakeUp] and [GetOriginalInfoToSave] of
    ManagedResources.v guarantee, for every API server and every order of map
    iteration. *)

From S2P Require Import Prelude GoStrings GoTime GoJson GoAny Api Libs Merge Client.
From S2P Require Import RestoreData Patcher Resource ManagedResources.

Section Spec.
Context {PL : PatchLib} {UL : UnstructuredLib} {SL : SelectorLib} {CL : ClientLib} {MR : MapRange}.

(** ** Inversion of the monadic wrappers *)

Lemma wrap_err_ok {A} f (c : M World A) w a w' :
  wrap_err f c w = (Ok a, w') -> c w = (Ok a, w').
Proof.
  unfold wrap_err, gtry, gbind. destruct (c w) as [[x|e] w1]; [|done]. by intros [= -> ->].
Qed.

(** Runs a wrapped computation that returns a value. *)
Lemma bind_wrap_ok {A B} f (a : A) (k : A -> M World B) w :
  gbind (wrap_err f (glift (Ok a))) k w = k a w.
Proof. done. Qed.

Lemma range_map_ok {K A} `{Countable K} (m : gmap K A) w l w' :
  range_map m w = (Ok l, w') -> l = range (w_tick w) m /\ w_trace w' = w_trace w.
Proof. unfold range_map. by intros [= <- <-]. Qed.

Lemma buildSparse_trace r p w : w_trace (buildSparseApplyObject r p w).2 = w_trace w.
Proof.
  unfold buildSparseApplyObject, gbind, glift.
  destruct (UnmarshalMap p); [|done]. cbn. by destruct (set_fields _ _).
Qed.

Lemma SSAPatch_trace rc obj w :
  IsClientValid rc = None ->
  exists obj', w_trace (SSAPatch rc obj w).2
               = w_trace w ++ [CApply obj' (rc_FieldManagerName rc) true].
Proof.
  intros Hv. unfold SSAPatch. rewrite Hv, ignoring_not_found_trace.
  unfold ApplyObject, call. destruct (api_Apply _ _ _ _). by eexists.
Qed.

Lemma PatchResource_trace rc old new w :
  IsClientValid rc = None ->
  w_trace (PatchResource rc old new w).2 = w_trace w ++ [CPatch old new].
Proof.
  intros Hv. unfold PatchResource. rewrite Hv, ignoring_not_found_trace.
  unfold PatchObject, call. by destruct (api_Patch _ _ _).
Qed.

(** ** What sleep does to one resource *)

(** The restore patch a resource gets, if it is put to sleep: it is not managed
    by a controller, the patch applies to it, and changes it. *)
Definition sleep_effect (p : Patcher) (r : Unstructured) : option string :=
  if HasController r then None
  else match Exec p (MarshalMap (Object r)) with
       | Err _ => None
       | Ok modified =>
           match CreateMergePatch modified (MarshalMap (Object r)) with
           | Ok rp => if String.eqb rp "{}" then None else Some rp
           | Err _ => None
           end
       end.

(** The restore patches after sleeping a list of resources. *)
Definition slept_patches (p : Patcher) (rp : RestorePatches) (l : list Unstructured)
    : RestorePatches :=
  fold_left (fun m r => match sleep_effect p r with
                        | Some x => <[GetName r := x]> m
                        | None => m
                        end) l rp.

(** Two records of a target that differ at most in the restore patches and in
    the state of the cache. *)
Definition same_target (gr gr' : genericResource) : Prop :=
  gr_client gr' = gr_client gr /\ gr_patchData gr' = gr_patchData gr /\ gr_data gr' = gr_data gr.

Lemma sleep_resource_ok p gr r w gr' w' :
  IsClientValid (gr_client gr) = None ->
  sleep_resource p gr r w = (Ok gr', w') ->
  same_target gr gr'
  /\ gr_restorePatches gr' = slept_patches p (gr_restorePatches gr) [r]
  /\ exists new, w_trace w' = w_trace w ++ new
       /\ length new = match sleep_effect p r with Some _ => 1%nat | None => 0%nat end
       /\ Forall (fun c => exists obj, c = CApply obj (rc_FieldManagerName (gr_client gr)) true) new.
Proof.
  intros Hv. unfold sleep_resource, slept_patches, sleep_effect, same_target. cbn [fold_left].
  assert (forall w, (Ok gr, w) = (Ok gr', w') -> gr' = gr /\ w' = w) as Hinj by (by intros ? [= -> ->]).
  assert (forall w : World, w_trace w = w_trace w ++ []) as Happ by (intros; by rewrite app_nil_r).
  destruct (HasController r); [intros [-> ->]%Hinj; eauto 10|].
  destruct (Exec p _) as [modified|e]; [|intros [-> ->]%Hinj; eauto 10].
  intros H. apply gbind_ok in H as (rp & w1 & [E ->]%wrap_err_ok%glift_ok & H). rewrite E.
  destruct (String.eqb rp "{}"); [apply Hinj in H as [-> ->]; eauto 10|].
  apply gbind_ok in H as (gr1 & w2 & H1 & H). unfold assign_restore in H1.
  destruct (gr_restoreMap gr) as [m|] eqn:Em; [|done]. injection H1 as <- <-.
  apply gbind_ok in H as (fwd & w2 & [_ ->]%wrap_err_ok%glift_ok & H).
  apply gbind_ok in H as (sparse & w3 & Hb%wrap_err_ok & H).
  apply gbind_ok in H as (u & w4 & Hs%wrap_err_ok & H). injection H as <- <-. cbn.
  split; [done|]. split; [unfold gr_restorePatches; by rewrite Em|].
  pose proof (buildSparse_trace r fwd w) as Ht. rewrite Hb in Ht. cbn in Ht.
  destruct (SSAPatch_trace (gr_client gr) sparse w3 Hv) as (obj & Hobj).
  cbn [gr_client with_restore] in Hs. rewrite Hs in Hobj. cbn in Hobj.
  eexists. rewrite Hobj, Ht. split; [done|]. split; [done|]. by repeat econstructor.
Qed.

Lemma sleep_resources_ok p gr l w gr' w' :
  IsClientValid (gr_client gr) = None ->
  sleep_resources p gr l w = (Ok gr', w') ->
  same_target gr gr'
  /\ gr_restorePatches gr' = slept_patches p (gr_restorePatches gr) l
  /\ exists new, w_trace w' = w_trace w ++ new
       /\ length new = length (omap (sleep_effect p) l)
       /\ Forall (fun c => exists obj, c = CApply obj (rc_FieldManagerName (gr_client gr)) true) new.
Proof.
  revert gr w. induction l as [|r l IH]; intros gr w Hv H.
  - injection H as <- <-. split; [done|]. split; [done|]. exists []. by rewrite app_nil_r.
  - cbn [sleep_resources] in H. apply gbind_ok in H as (gr1 & w1 & H1 & H).
    apply sleep_resource_ok in H1 as ((Hc & Hp & Hd) & Hr & new & Ht & Hl & Hf); [|done].
    rewrite <- Hc in Hv. apply IH in H as ((Hc' & Hp' & Hd') & Hr' & new' & Ht' & Hl' & Hf'); [|done].
    split; [unfold same_target; intuition congruence|]. split; [by rewrite Hr', Hr|].
    exists (new ++ new'). rewrite Ht', Ht, app_assoc. split; [done|]. split.
    + rewrite length_app, Hl, Hl'. cbn. by destruct (sleep_effect p r).
    + apply Forall_app. split; [done|]. by rewrite <- Hc.
Qed.

(** ** NewResources *)

(** What [NewResources] puts in the map: under each target, the client, one of
    the patches of that target with the saved restore patches, and a list of
    resources that is not empty and is up to date. *)
Definition entry_ok (res : ResourceClient) (rp : SavedPatches) (ps : list Patch)
    (t : PatchTarget) (gr : genericResource) : Prop :=
  gr_client gr = res
  /\ p_Target (gr_patchData gr) = t
  /\ In (gr_patchData gr) ps
  /\ gr_restoreMap gr = default (Some ∅) (rp !! target_String t)
  /\ gr_data gr <> []
  /\ gr_isCacheInvalid gr = false.

Lemma entry_patches res rp ps t gr :
  entry_ok res rp ps t gr -> gr_restorePatches gr = patches_for rp (target_String t).
Proof.
  intros (_ & _ & _ & H & _). unfold gr_restorePatches, patches_for. rewrite H.
  by destruct (rp !! target_String t) as [[]|].
Qed.

Lemma NewResources_loop_ok res s ns rp all ps mapping w m w' :
  incl ps all -> map_Forall (entry_ok res rp all) mapping ->
  NewResources_loop res s ns rp ps mapping w = (Ok m, w') ->
  map_Forall (entry_ok res rp all) m.
Proof.
  revert mapping w. induction ps as [|p ps IH]; intros mapping w Hin Hm H.
  - by injection H as <- _.
  - cbn [NewResources_loop] in H. apply gbind_ok in H as (l & w1 & _ & H).
    assert (incl ps all) as Hps by (intros x Hx; apply Hin; by right).
    destruct l as [[|r l]|e]; [by eapply IH| |by eapply IH].
    eapply IH; [exact Hps| |exact H]. apply map_Forall_insert_2; [|done].
    repeat split; try done. by apply Hin; left.
Qed.

Lemma NewResources_loop_total res s ns rp ps mapping w :
  exists m w', NewResources_loop res s ns rp ps mapping w = (Ok m, w').
Proof.
  revert mapping w. induction ps as [|p ps IH]; intros mapping w; [by eexists _, _|].
  cbn [NewResources_loop]. unfold gbind, gtry.
  destruct (getListByNamespace s ns (p_Target p) w) as [[[|r l]|e] w1]; apply IH.
Qed.

Lemma getListByNamespace_reads s ns t : emits (fun c => is_write c = false) (getListByNamespace s ns t).
Proof.
  unfold getListByNamespace. apply emits_bind; [apply emits_try, emits_call; done|].
  intros [gvk|e]; [|destruct (bool_decide _); auto with go].
  apply emits_bind; [auto with go|]. intros n. apply emits_bind; [auto with go|].
  intros [opts names]. apply emits_bind; [apply emits_call; done|].
  intros [items [e|]]; [|auto with go]. destruct (IgnoreNotFound (Some e)); auto with go.
Qed.

Lemma NewResources_reads res ns rp : emits (fun c => is_write c = false) (NewResources res ns rp).
Proof.
  unfold NewResources. destruct (rc_SleepInfo res) as [s|]; [|auto with go].
  apply emits_bind; [|auto with go]. generalize (∅ : gmap PatchTarget genericResource).
  induction (GetPatches s) as [|p ps IH]; intros m; cbn [NewResources_loop]; [auto with go|].
  apply emits_bind; [apply emits_try, getListByNamespace_reads|].
  intros [[|r l]|e]; apply IH.
Qed.

Lemma HasResource_true g :
  HasResource g = true <-> exists t gr, resMapping g !! t = Some gr /\ gr_data gr <> [].
Proof.
  unfold HasResource. rewrite existsb_exists. split.
  - intros ([t gr] & Hin%list_elem_of_In & Hl). exists t, gr.
    rewrite elem_of_map_to_list in Hin. split; [done|]. intros E. cbn in Hl. by rewrite E in Hl.
  - intros (t & gr & Hin & Hd). exists (t, gr).
    rewrite <- list_elem_of_In, elem_of_map_to_list. split; [done|]. cbn.
    destruct (gr_data gr); [done|]. cbn. by apply Z.ltb_lt.
Qed.

Lemma NewResources_spec res s ns rp w :
  rc_SleepInfo res = Some s ->
  exists g w' new,
    NewResources res ns rp w = (Ok g, w')
    /\ namespace g = ns
    /\ map_Forall (entry_ok res (default ∅ rp) (GetPatches s)) (resMapping g)
    /\ (HasResource g = true <-> resMapping g <> ∅)
    /\ w_trace w' = w_trace w ++ new /\ Forall (fun c => is_write c = false) new.
Proof.
  intros Hs. pose proof (NewResources_reads res ns rp w) as (new & Ht & Hf).
  destruct (NewResources_loop_total res s ns (default ∅ rp) (GetPatches s) ∅ w) as (m & w' & Hl).
  assert (NewResources res ns rp w = (Ok (mkManagedResources m ns), w')) as E.
  { unfold NewResources, gbind, gret. by rewrite Hs, Hl. }
  rewrite E in Ht. exists (mkManagedResources m ns), w', new.
  assert (map_Forall (entry_ok res (default ∅ rp) (GetPatches s)) m) as Hm.
  { eapply NewResources_loop_ok; [apply incl_refl|apply map_Forall_empty|exact Hl]. }
  split_and!; try done. rewrite HasResource_true. split.
  - intros (t & gr & Hg & _) E0. cbn in *. by rewrite E0 in Hg.
  - intros Hne. apply map_choose in Hne as (t & gr & Hg).
    exists t, gr. split; [done|]. by apply (Hm t gr Hg).
Qed.

(** [C27] Collecting the resources: with a SleepInfo, [NewResources] always
    returns, whatever calls fail, and only reads; each entry of its map is filed
    under the target of its patch, comes from a patch of the SleepInfo, carries
    the restore patches saved under that target and at least one resource, and
    needs no refresh; so there are resources exactly when the map is not
    empty. *)
Theorem NewResources_sound res s ns rp w :
  rc_SleepInfo res = Some s ->
  exists g w' new,
    NewResources res ns rp w = (Ok g, w')
    /\ namespace g = ns
    /\ map_Forall (entry_ok res (default ∅ rp) (GetPatches s)) (resMapping g)
    /\ (HasResource g = true <-> resMapping g <> ∅)
    /\ w_trace w' = w_trace w ++ new /\ Forall (fun c => is_write c = false) new.
Proof. apply NewResources_spec. Qed.

(** *** The limit of a list *)

(** A server returns no more items than the limit asks for. *)
Definition respects_limit : Prop :=
  forall gvk o s, 0 < lo_Limit o -> Z.of_nat (length (api_List gvk o s).1.1) <= lo_Limit o.

Lemma getListByNamespace_limited s ns t w l w' :
  respects_limit -> getListByNamespace s ns t w = (Ok l, w') -> (length l <= 500)%nat.
Proof.
  intros HL H. unfold getListByNamespace in H. apply gbind_ok in H as (m & w1 & _ & H).
  destruct m as [gvk|e]; [|destruct (bool_decide _); [injection H as <- _; cbn; lia|done]].
  apply gbind_ok in H as (n & w2 & _ & H). apply gbind_ok in H as ([opts names] & w3 & [Eo _]%glift_ok & H).
  apply gbind_ok in H as ([items err] & w4 & Hl & H).
  assert (length items <= 500)%nat as Hi.
  { assert (lo_Limit opts = 500) as Elim.
    { unfold getListOptions in Eo. destruct (getFieldToInclude _ _).
      repeat destruct (parse_selector _ _); try done. by injection Eo as <- _. }
    unfold ListObjects, call in Hl. pose proof (HL gvk opts (w_api w3)) as HL'.
    destruct (api_List gvk opts (w_api w3)) as [[i0 e0] a0]. injection Hl as <- _ _. cbn in HL'. lia. }
  destruct err as [e|].
  - destruct (IgnoreNotFound (Some e)); [done|]. by injection H as <- _.
  - injection H as <- _. unfold filterByName. destruct (_ =? _)%nat; [done|].
    etrans; [apply List.filter_length_le|done].
Qed.

(** [C34] At most 500 resources of a target.  The list of a target is limited and
    the rest of it is never asked for, so that, with a server that respects the
    limit of a list, a run knows, puts to sleep and wakes up at most 500 resources
    of each target, however many there are. *)
Theorem targets_limited res s ns rp w :
  respects_limit -> rc_SleepInfo res = Some s ->
  exists g w', NewResources res ns rp w = (Ok g, w')
    /\ map_Forall (fun _ gr => (length (gr_data gr) <= 500)%nat) (resMapping g).
Proof.
  intros HL Hs.
  destruct (NewResources_loop_total res s ns (default ∅ rp) (GetPatches s) ∅ w) as (m & w' & Hl).
  exists (mkManagedResources m ns), w'. split; [unfold NewResources, gbind, gret; by rewrite Hs, Hl|]. cbn.
  assert (map_Forall (fun _ gr => (length (gr_data gr) <= 500)%nat) (∅ : gmap PatchTarget genericResource))
    as H0 by apply map_Forall_empty.
  revert H0 Hl. generalize (∅ : gmap PatchTarget genericResource), w.
  induction (GetPatches s) as [|p ps IH]; intros m0 w0 H0 Hl; [by injection Hl as <- _|].
  cbn [NewResources_loop] in Hl. rewrite bind_try in Hl.
  destruct (getListByNamespace s ns (p_Target p) w0) as [[[|r l]|e] w1] eqn:E; cbn [fst snd] in Hl; [by eapply IH| |by eapply IH].
  eapply IH; [|exact Hl]. apply map_Forall_insert_2; [|done]. by eapply getListByNamespace_limited.
Qed.
End Spec.
