(* ===== verification/SleepWakeSpec.v ===== *)
(** * Theorems on whole sleeps and wake ups

    [Sleep] and [WakeUp] over all the targets, in any order of iteration; the
    restore data that [GetOriginalInfoToSave] writes; and the round trip: what
    a wake up sends back is the original resource. *)

From S2P Require Import Prelude GoStrings GoTime GoJson GoFloat GoAny Api Libs Merge Client.
From S2P Require Import RestoreData Patcher Resource ManagedResources ManagedResourcesSpec.

Section Targets.
Context {PL : PatchLib} {UL : UnstructuredLib} {SL : SelectorLib} {CL : ClientLib} {MR : MapRange}.

(** ** The loop over the targets *)

(** A loop whose step relates a target to its update and to the calls it makes
    updates every target of the order so, and makes their calls one target
    after the other. *)
Lemma for_targets_ok step (R : genericResource -> genericResource -> list Call -> Prop)
    order mapping w m w' :
  NoDup order.*1 ->
  (forall t gr w gr' w', (t, gr) ∈ order -> step gr w = (Ok gr', w') ->
     exists new, w_trace w' = w_trace w ++ new /\ R gr gr' new) ->
  for_targets step order mapping w = (Ok m, w') ->
  exists news,
    Forall2 (fun kv new => exists gr', m !! fst kv = Some gr' /\ R (snd kv) gr' new) order news
    /\ w_trace w' = w_trace w ++ concat news
    /\ forall t, t ∉ order.*1 -> m !! t = mapping !! t.
Proof.
  revert mapping w. induction order as [|[t gr] order IH]; intros mapping w Hd Hstep H.
  - injection H as <- <-. exists []. rewrite app_nil_r. by repeat split.
  - cbn [for_targets] in H. apply gbind_ok in H as (gr' & w1 & H1 & H).
    cbn [fmap list_fmap fst] in Hd. apply NoDup_cons in Hd as [Hnot Hd].
    destruct (Hstep t gr w gr' w1) as (new & Ht1 & HR); [by left|done|].
    apply IH in H as (news & Hnews & Ht & Hrest); [|done|]; last first.
    { intros t' ? ? ? ? Hin. apply (Hstep t'). by right. }
    exists (new :: news). split_and!.
    + constructor; [|done]. exists gr'. split; [|done]. cbn [fst].
      rewrite Hrest by done. apply lookup_insert_eq.
    + rewrite Ht, Ht1. cbn. by rewrite app_assoc.
    + intros t' Hin. cbn [fmap list_fmap fst] in Hin. apply not_elem_of_cons in Hin as [Hne Hin].
      rewrite Hrest by done. by rewrite lookup_insert_ne.
Qed.

Lemma range_nodup {A} n (m : gmap PatchTarget A) : NoDup (range n m).*1.
Proof. rewrite range_perm. apply NoDup_fst_map_to_list. Qed.

Lemma elem_of_targets {A} n (m : gmap PatchTarget A) t x : (t, x) ∈ range n m <-> m !! t = Some x.
Proof. rewrite range_perm. apply elem_of_map_to_list. Qed.

(** The same for the whole map, whatever the order. *)
Lemma over_targets_ok step (R : genericResource -> genericResource -> list Call -> Prop)
    (mapping : gmap PatchTarget genericResource) n w m w' :
  (forall t gr w gr' w', mapping !! t = Some gr -> step gr w = (Ok gr', w') ->
     exists new, w_trace w' = w_trace w ++ new /\ R gr gr' new) ->
  for_targets step (range n mapping) mapping w = (Ok m, w') ->
  dom m = dom mapping
  /\ exists news,
    Forall2 (fun kv new => exists gr', m !! fst kv = Some gr' /\ R (snd kv) gr' new)
      (range n mapping) news
    /\ w_trace w' = w_trace w ++ concat news.
Proof.
  intros Hstep H. eapply for_targets_ok in H as (news & Hn & Ht & Hrest);
    [|apply range_nodup|intros t gr ? ? ? Hin; apply elem_of_targets in Hin; by eapply Hstep].
  split; [|eauto]. apply set_eq. intros t. rewrite !elem_of_dom.
  destruct (mapping !! t) as [gr|] eqn:E.
  - apply (elem_of_targets n) in E. apply list_elem_of_lookup_1 in E as (i & Hi).
    apply (Forall2_lookup_l _ _ _ _ _ Hn) in Hi as (new & _ & gr' & Hm & _). cbn in Hm.
    rewrite Hm. split; eauto.
  - rewrite Hrest; [by rewrite E|]. intros ([t' x] & -> & Hx)%list_elem_of_fmap.
    apply elem_of_targets in Hx. cbn in E. congruence.
Qed.

(** ** Sleep *)

(** Entries as [NewResources] makes them: a usable client and a fresh list. *)
Definition ready (manager : string) (g : managedResources) : Prop :=
  map_Forall (fun _ gr => IsClientValid (gr_client gr) = None
    /\ rc_FieldManagerName (gr_client gr) = manager
    /\ gr_isCacheInvalid gr = false) (resMapping g).

(** The resources of a target that a sleep changes. *)
Definition affected (gr : genericResource) : list string :=
  match New (p_Patch (gr_patchData gr)) with
  | Ok p => omap (sleep_effect p) (gr_data gr)
  | Err _ => []
  end.

Definition slept (gr gr' : genericResource) : Prop :=
  same_target gr gr'
  /\ p_Patch (gr_patchData gr) <> ""%string
  /\ exists p, New (p_Patch (gr_patchData gr)) = Ok p
       /\ gr_restorePatches gr' = slept_patches p (gr_restorePatches gr) (gr_data gr).

Lemma sleep_target_ok ns gr w gr' w' :
  IsClientValid (gr_client gr) = None -> gr_isCacheInvalid gr = false ->
  sleep_target ns gr w = (Ok gr', w') ->
  exists new, w_trace w' = w_trace w ++ new
    /\ slept gr gr' /\ length new = length (affected gr)
    /\ Forall (fun c => exists obj, c = CApply obj (rc_FieldManagerName (gr_client gr)) true) new.
Proof.
  intros Hv Hc. unfold sleep_target, slept, affected.
  destruct (String.eqb_spec (p_Patch (gr_patchData gr)) ""); [done|].
  intros H. apply gbind_ok in H as (p & w1 & [Hp ->]%wrap_err_ok%glift_ok & H). rewrite Hp.
  unfold refresh in H. rewrite Hc in H. apply gbind_ok in H as (gr1 & w1 & H1 & H).
  injection H1 as <- <-. apply sleep_resources_ok in H as (Hs & Hr & new & Ht & Hl & Hf); [|done].
  exists new. eauto 10.
Qed.

(** The targets one by one, with the calls each makes. *)
Lemma Sleep_news manager g w g' w' :
  ready manager g -> Sleep g w = (Ok g', w') ->
  namespace g' = namespace g /\ dom (resMapping g') = dom (resMapping g)
  /\ exists news,
    Forall2 (fun kv new => exists gr', resMapping g' !! fst kv = Some gr'
      /\ slept (snd kv) gr' /\ length new = length (affected (snd kv))
      /\ Forall (fun c => exists obj, c = CApply obj manager true) new)
      (range (w_tick w) (resMapping g)) news
    /\ w_trace w' = w_trace w ++ concat news.
Proof.
  intros Hr H. unfold Sleep in H.
  apply gbind_ok in H as (order & w1 & [-> Ht1]%range_map_ok & H).
  apply gbind_ok in H as (m & w2 & H & H2). injection H2 as <- <-. cbn.
  eapply (over_targets_ok _ (fun gr gr' new => slept gr gr' /\ length new = length (affected gr)
      /\ Forall (fun c => exists obj, c = CApply obj manager true) new))
    in H as (Hdom & news & Hn & Ht); last first.
  { intros t gr ? gr' ? Hm Hs. destruct (Hr t gr Hm) as (Hv & Hmgr & Hc).
    apply sleep_target_ok in Hs; [|done..]. by rewrite Hmgr in Hs. }
  split_and!; [done|done|]. exists news. by rewrite Ht, Ht1.
Qed.

Lemma sleep_targets_ok manager g w g' w' :
  ready manager g -> Sleep g w = (Ok g', w') ->
  forall t gr, resMapping g !! t = Some gr ->
    exists gr', resMapping g' !! t = Some gr' /\ slept gr gr'.
Proof.
  intros Hr H t gr Hg. apply (Sleep_news _ _ _ _ _ Hr) in H as (_ & _ & news & Hn & _).
  apply (elem_of_targets (w_tick w)) in Hg. apply list_elem_of_lookup_1 in Hg as (i & Hi).
  apply (Forall2_lookup_l _ _ _ _ _ Hn) in Hi as (new & _ & gr' & Hm & Hs & _). eauto.
Qed.

(** [C11] Sleeping all the targets: when [Sleep] succeeds on what [NewResources]
    collected, in every order of iteration, each target keeps its client, patch
    and resources, and its restore patches are the saved ones updated, for
    exactly the resources the patch changes and no controller manages, with the
    merge patch back to the original; the only calls are server-side applies
    that force ownership for the manager, one per changed resource. *)
Theorem sleep_saves_restore_patches manager g w g' w' :
  ready manager g -> Sleep g w = (Ok g', w') ->
  namespace g' = namespace g
  /\ dom (resMapping g') = dom (resMapping g)
  /\ (forall t gr, resMapping g !! t = Some gr ->
        exists gr', resMapping g' !! t = Some gr' /\ slept gr gr')
  /\ exists new, w_trace w' = w_trace w ++ new
       /\ Forall (fun c => exists obj, c = CApply obj manager true) new
       /\ length new = sum_list_with (fun kv => length (affected (snd kv)))
                         (map_to_list (resMapping g)).
Proof.
  intros Hr H. pose proof (sleep_targets_ok _ _ _ _ _ Hr H) as Ht.
  apply (Sleep_news _ _ _ _ _ Hr) in H as (Hns & Hdom & news & Hn & Htr).
  split_and!; [done|done|done|]. exists (concat news). split; [done|]. clear Htr. split.
  - induction Hn as [|kv new l news (gr' & _ & _ & _ & Hf) _ IH]; [constructor|].
    cbn. by apply Forall_app.
  - rewrite <- (range_perm (w_tick w)).
    induction Hn as [|kv new l news (gr' & _ & _ & Hl & _) _ IH]; [done|].
    cbn. by rewrite length_app, Hl, IH.
Qed.

(** ** WakeUp *)

(** What wake up sends for a resource: the merge of its restore patch, if it has
    one and the resource is still as the patch leaves it. *)
Definition wake_effect (p : Patcher) (rp : RestorePatches) (r : Unstructured) : option Unstructured :=
  match rp !! GetName r with
  | None => None
  | Some raw =>
      match IsResourceChanged p (MarshalMap (Object r)) with
      | Ok false =>
          match MergePatch (MarshalMap (Object r)) raw with
          | Ok restored => match UnmarshalMap restored with
                           | Ok o => Some (mkUnstructured o)
                           | Err _ => None
                           end
          | Err _ => None
          end
      | _ => None
      end
  end.

Definition wake_call (p : Patcher) (rp : RestorePatches) (r : Unstructured) : option Call :=
  CPatch r <$> wake_effect p rp r.

Lemma wake_resource_ok p gr r w gr' w' :
  IsClientValid (gr_client gr) = None ->
  wake_resource p gr r w = (Ok gr', w') ->
  same_target gr gr' /\ gr_restorePatches gr' = gr_restorePatches gr
  /\ w_trace w' = w_trace w ++ omap (wake_call p (gr_restorePatches gr)) [r].
Proof.
  intros Hv. unfold wake_resource, same_target. cbn [omap list_omap].
  unfold wake_call at 1, wake_effect.
  assert (forall w, (Ok gr, w) = (Ok gr', w') -> gr' = gr /\ w' = w) as Hinj by (by intros ? [= -> ->]).
  assert (forall w : World, w_trace w = w_trace w ++ []) as Happ by (intros; by rewrite app_nil_r).
  destruct (_ !! GetName r) as [raw|]; [|intros [-> ->]%Hinj; auto].
  destruct (IsResourceChanged p _) as [[]|]; [intros [-> ->]%Hinj; auto| |intros [-> ->]%Hinj; auto].
  intros H. apply gbind_ok in H as (res & w1 & [E ->]%wrap_err_ok%glift_ok & H). rewrite E.
  apply gbind_ok in H as (o & w2 & [Eo ->]%wrap_err_ok%glift_ok & H). rewrite Eo.
  apply gbind_ok in H as (u & w3 & Hs%wrap_err_ok & H). injection H as <- <-. cbn.
  split; [done|]. split; [done|].
  pose proof (PatchResource_trace (gr_client gr) r (mkUnstructured o) w Hv) as Ht.
  by rewrite Hs in Ht.
Qed.

Lemma wake_resources_ok p gr l w gr' w' :
  IsClientValid (gr_client gr) = None ->
  wake_resources p gr l w = (Ok gr', w') ->
  same_target gr gr' /\ gr_restorePatches gr' = gr_restorePatches gr
  /\ w_trace w' = w_trace w ++ omap (wake_call p (gr_restorePatches gr)) l.
Proof.
  revert gr w. induction l as [|r l IH]; intros gr w Hv H.
  - injection H as <- <-. by rewrite app_nil_r.
  - cbn [wake_resources] in H. apply gbind_ok in H as (gr1 & w1 & H1 & H).
    apply wake_resource_ok in H1 as ((Hc & Hp & Hd) & Hr & Ht); [|done].
    rewrite <- Hc in Hv. apply IH in H as ((Hc' & Hp' & Hd') & Hr' & Ht'); [|done].
    split; [unfold same_target; intuition congruence|]. split; [congruence|].
    rewrite Ht', Ht, Hr, <- app_assoc. f_equal. cbn. by destruct (wake_call _ _ r).
Qed.

(** The calls of a wake up for one target. *)
Definition wake_calls (gr : genericResource) : list Call :=
  match New (p_Patch (gr_patchData gr)) with
  | Ok p => omap (wake_call p (gr_restorePatches gr)) (gr_data gr)
  | Err _ => []
  end.

Lemma wake_target_ok ns gr w gr' w' :
  IsClientValid (gr_client gr) = None -> gr_isCacheInvalid gr = false ->
  wake_target ns gr w = (Ok gr', w') ->
  exists new, w_trace w' = w_trace w ++ new
    /\ same_target gr gr' /\ gr_restorePatches gr' = gr_restorePatches gr /\ new = wake_calls gr.
Proof.
  intros Hv Hc. unfold wake_target, wake_calls, refresh. rewrite Hc. intros H.
  apply gbind_ok in H as (gr1 & w1 & H1 & H). injection H1 as <- <-.
  apply gbind_ok in H as (p & w1 & [Hp ->]%wrap_err_ok%glift_ok & H). rewrite Hp.
  apply wake_resources_ok in H as (Hs & Hr & Ht); [|done]. eauto 10.
Qed.

Lemma WakeUp_spec manager g w g' w' :
  ready manager g -> WakeUp g w = (Ok g', w') ->
  namespace g' = namespace g
  /\ dom (resMapping g') = dom (resMapping g)
  /\ (forall t gr, resMapping g !! t = Some gr ->
        exists gr', resMapping g' !! t = Some gr' /\ same_target gr gr'
          /\ gr_restorePatches gr' = gr_restorePatches gr)
  /\ exists order, order ≡ₚ map_to_list (resMapping g)
       /\ w_trace w' = w_trace w ++ concat (map (fun kv => wake_calls (snd kv)) order).
Proof.
  intros Hr H. unfold WakeUp in H.
  apply gbind_ok in H as (order & w1 & [-> Ht1]%range_map_ok & H).
  apply gbind_ok in H as (m & w2 & H & H2). injection H2 as <- <-. cbn.
  eapply (over_targets_ok _ (fun gr gr' new => same_target gr gr'
      /\ gr_restorePatches gr' = gr_restorePatches gr /\ new = wake_calls gr))
    in H as (Hdom & news & Hn & Ht); last first.
  { intros t gr ? gr' ? Hm Hs. destruct (Hr t gr Hm) as (Hv & _ & Hc).
    by apply wake_target_ok in Hs. }
  split_and!; [done|done| |].
  - intros t gr Hg. apply (elem_of_targets (w_tick w)) in Hg.
    apply list_elem_of_lookup_1 in Hg as (i & Hi).
    apply (Forall2_lookup_l _ _ _ _ _ Hn) in Hi as (new & _ & gr' & Hm & Hs & Hr' & _). eauto.
  - exists (range (w_tick w) (resMapping g)). split; [apply range_perm|].
    rewrite Ht, Ht1. do 2 f_equal. clear Ht.
    induction Hn as [|kv new l news (gr' & _ & _ & _ & ->) _ IH]; [done|]. cbn. by f_equal.
Qed.

(** A resource that is to be woken up: it has a restore patch and the sleep patch
    would not change it. *)
Definition to_wake (p : Patcher) (rp : RestorePatches) (r : Unstructured) : Prop :=
  is_Some (rp !! GetName r) /\ IsResourceChanged p (MarshalMap (Object r)) = Ok false.

(** A wake up that succeeds restored every such resource. *)
Lemma wake_resource_woken p gr r w gr' w' :
  wake_resource p gr r w = (Ok gr', w') -> to_wake p (gr_restorePatches gr) r ->
  is_Some (wake_effect p (gr_restorePatches gr) r).
Proof.
  unfold wake_resource, wake_effect. intros H [[raw Er] Es]. rewrite Er, Es in *.
  apply gbind_ok in H as (res & w1 & [E ->]%wrap_err_ok%glift_ok & H). rewrite E.
  apply gbind_ok in H as (o & w2 & [Eo ->]%wrap_err_ok%glift_ok & H). rewrite Eo. eauto.
Qed.

Lemma wake_resources_woken p gr l w gr' w' :
  IsClientValid (gr_client gr) = None -> wake_resources p gr l w = (Ok gr', w') ->
  Forall (fun r => to_wake p (gr_restorePatches gr) r -> is_Some (wake_effect p (gr_restorePatches gr) r)) l.
Proof.
  revert gr w. induction l as [|r l IH]; intros gr w Hv H; [constructor|].
  cbn [wake_resources] in H. apply gbind_ok in H as (gr1 & w1 & H1 & H).
  pose proof (wake_resource_woken _ _ _ _ _ _ H1) as Hr.
  apply wake_resource_ok in H1 as ((Hc & _) & Hrp & _); [|done].
  constructor; [done|]. rewrite <- Hrp. eapply IH; [|exact H]. by rewrite Hc.
Qed.

Lemma WakeUp_woken manager g w g' w' t gr p r :
  ready manager g -> WakeUp g w = (Ok g', w') -> resMapping g !! t = Some gr ->
  New (p_Patch (gr_patchData gr)) = Ok p -> r ∈ gr_data gr -> to_wake p (gr_restorePatches gr) r ->
  is_Some (wake_effect p (gr_restorePatches gr) r).
Proof.
  intros Hr H Ht Hp Hin. unfold WakeUp in H.
  apply gbind_ok in H as (order & w1 & [-> Ht1]%range_map_ok & H).
  apply gbind_ok in H as (m & w2 & H & _).
  eapply (over_targets_ok _ (fun gr _ _ => forall p, New (p_Patch (gr_patchData gr)) = Ok p ->
      Forall (fun r => to_wake p (gr_restorePatches gr) r
        -> is_Some (wake_effect p (gr_restorePatches gr) r)) (gr_data gr)))
    in H as (_ & news & Hn & _); last first.
  { intros t0 gr0 wa gr1 wb Hm Hs. destruct (Hr t0 gr0 Hm) as (Hv & _ & Hc).
    destruct (wake_target_ok _ _ _ _ _ Hv Hc Hs) as (new & Htr & _).
    exists new. split; [done|]. intros q Hq.
    unfold wake_target, refresh in Hs. rewrite Hc in Hs.
    apply gbind_ok in Hs as (gr2 & w3 & H1 & Hs). injection H1 as <- <-.
    apply gbind_ok in Hs as (q' & w4 & [Hq' ->]%wrap_err_ok%glift_ok & Hs).
    rewrite Hq in Hq'. injection Hq' as <-. by eapply wake_resources_woken. }
  apply (elem_of_targets (w_tick w)), list_elem_of_lookup_1 in Ht as (i & Hi).
  apply (Forall2_lookup_l _ _ _ _ _ Hn) in Hi as (new & _ & gr' & _ & Hall). cbn in Hall.
  specialize (Hall p Hp). rewrite Forall_forall in Hall. by apply Hall.
Qed.

(** [C12] Waking up all the targets: when [WakeUp] succeeds on what
    [NewResources] collected, the calls it makes are, target by target in the
    order of the iteration, exactly one patch for every resource that has a
    restore patch and that the sleep patch would not change any more, to the
    resource merged with its restore patch; every other resource is left alone,
    and the restore patches stay. *)
Theorem wake_up_calls manager g w g' w' :
  ready manager g -> WakeUp g w = (Ok g', w') ->
  namespace g' = namespace g
  /\ dom (resMapping g') = dom (resMapping g)
  /\ (forall t gr, resMapping g !! t = Some gr ->
        exists gr', resMapping g' !! t = Some gr' /\ same_target gr gr'
          /\ gr_restorePatches gr' = gr_restorePatches gr)
  /\ exists order, order ≡ₚ map_to_list (resMapping g)
       /\ w_trace w' = w_trace w ++ concat (map (fun kv => wake_calls (snd kv)) order).
Proof. apply WakeUp_spec. Qed.

(** ** Failures *)

(** The writes of a sleep and of a wake up, on every branch. *)
Definition only_applies (c : Call) : Prop :=
  is_write c = false \/ exists obj manager, c = CApply obj manager true.
Definition only_patches (c : Call) : Prop :=
  is_write c = false \/ exists old new, c = CPatch old new.

Lemma emits_wrap {A} P f (c : M World A) : emits P c -> emits P (wrap_err f c).
Proof. intros H. unfold wrap_err. apply emits_bind; [by apply emits_try|]. intros []; auto with go. Qed.

Lemma emits_ignoring P c : emits P c -> emits P (ignoring_not_found c).
Proof.
  intros H. unfold ignoring_not_found. apply emits_bind; [by apply emits_try|].
  intros [|e]; [auto with go|]. destruct (IgnoreNotFound (Some e)); auto with go.
Qed.

Lemma emits_refresh (P : Call -> Prop) ns gr :
  (forall c, is_write c = false -> P c) -> emits P (refresh ns gr).
Proof.
  intros HP. unfold refresh. destruct (gr_isCacheInvalid gr); [|auto with go].
  destruct (rc_SleepInfo (gr_client gr)); [|auto with go].
  apply emits_bind; [|auto with go]. apply emits_wrap.
  eapply emits_weaken; [apply getListByNamespace_reads|done].
Qed.

Lemma emits_for_targets (P : Call -> Prop) step order mapping :
  (forall t gr, (t, gr) ∈ order -> emits P (step gr)) -> emits P (for_targets step order mapping).
Proof.
  revert mapping. induction order as [|[t gr] order IH]; intros mapping H; cbn; [auto with go|].
  apply emits_bind; [apply (H t); by left|]. intros gr'. apply IH. intros t' x Hx. apply (H t'). by right.
Qed.

Lemma emits_sleep_resources p gr l : emits only_applies (sleep_resources p gr l).
Proof.
  revert gr. induction l as [|r l IH]; intros gr; cbn; [auto with go|].
  apply emits_bind; [|done]. unfold sleep_resource.
  destruct (HasController r); [auto with go|]. destruct (Exec p _); [|auto with go].
  apply emits_bind; [by apply emits_wrap, emits_lift|]. intros rp.
  destruct (String.eqb rp "{}"); [auto with go|].
  apply emits_bind; [unfold assign_restore; destruct (gr_restoreMap gr); auto with go|]. intros gr1.
  apply emits_bind; [by apply emits_wrap, emits_lift|]. intros fwd.
  apply emits_bind; [apply emits_wrap; unfold buildSparseApplyObject; emits_tac|].
  intros obj. apply emits_bind; [|auto with go]. apply emits_wrap. unfold SSAPatch.
  destruct (IsClientValid _); [auto with go|]. apply emits_ignoring, emits_call. right. eauto.
Qed.

Lemma emits_wake_resources p gr l : emits only_patches (wake_resources p gr l).
Proof.
  revert gr. induction l as [|r l IH]; intros gr; cbn; [auto with go|].
  apply emits_bind; [|done]. unfold wake_resource.
  destruct (_ !! GetName r); [|auto with go].
  destruct (IsResourceChanged p _) as [[]|]; [auto with go| |auto with go].
  apply emits_bind; [by apply emits_wrap, emits_lift|]. intros res.
  apply emits_bind; [by apply emits_wrap, emits_lift|]. intros o.
  apply emits_bind; [|auto with go]. apply emits_wrap. unfold PatchResource.
  destruct (IsClientValid _); [auto with go|]. apply emits_ignoring, emits_call. right. eauto.
Qed.

Lemma sleep_wake_emits g : emits only_applies (Sleep g) /\ emits only_patches (WakeUp g).
Proof.
  split.
  - unfold Sleep. apply emits_bind; [auto with go|]. intros order. apply emits_bind; [|auto with go].
    apply emits_for_targets. intros _ gr _. unfold sleep_target.
    destruct (String.eqb _ ""); [auto with go|].
    apply emits_bind; [by apply emits_wrap, emits_lift|]. intros p.
    apply emits_bind; [apply emits_refresh; by left|]. intros gr'. apply emits_sleep_resources.
  - unfold WakeUp. apply emits_bind; [auto with go|]. intros order. apply emits_bind; [|auto with go].
    apply emits_for_targets. intros _ gr _. unfold wake_target.
    apply emits_bind; [apply emits_refresh; by left|]. intros gr'.
    apply emits_bind; [by apply emits_wrap, emits_lift|]. intros p. apply emits_wake_resources.
Qed.

(** ** GetOriginalInfoToSave *)

Lemma dataToSave_lookup order (m : gmap string RestorePatches) t gr :
  NoDup (target_String <$> order.*1) ->
  (t, gr) ∈ order ->
  fold_left (fun (m : gmap string RestorePatches) kv =>
    if (size (gr_restorePatches (snd kv)) =? 0)%nat then m
    else <[target_String (fst kv) := gr_restorePatches (snd kv)]> m) order m !! target_String t
  = if (size (gr_restorePatches gr) =? 0)%nat then m !! target_String t
    else Some (gr_restorePatches gr).
Proof.
  assert (forall order (m : gmap string RestorePatches) k,
    k ∉ target_String <$> order.*1 ->
    fold_left (fun (m : gmap string RestorePatches) kv =>
      if (size (gr_restorePatches (snd kv)) =? 0)%nat then m
      else <[target_String (fst kv) := gr_restorePatches (snd kv)]> m) order m !! k = m !! k) as Hout.
  { clear. induction order as [|[t gr] order IH]; intros m k Hk; [done|].
    cbn [fmap list_fmap fst] in Hk. apply not_elem_of_cons in Hk as [Hne Hk].
    cbn [fold_left fst snd]. rewrite IH by done.
    destruct (_ =? 0)%nat; [done|]. by rewrite lookup_insert_ne. }
  revert m. induction order as [|[t' gr'] order IH]; intros m Hd Hin; [by apply elem_of_nil in Hin|].
  cbn [fmap list_fmap fst] in Hd. apply NoDup_cons in Hd as [Hnot Hd].
  cbn [fold_left fst snd]. apply elem_of_cons in Hin as [[= <- <-]|Hin].
  - rewrite Hout by done. destruct (_ =? 0)%nat; [done|]. by rewrite lookup_insert_eq.
  - rewrite IH by done. assert (target_String t <> target_String t') as Hne.
    { intros E. apply Hnot. rewrite <- E. apply list_elem_of_fmap_2.
      by apply (list_elem_of_fmap_2 fst _ (t, gr)). }
    destruct (size (gr_restorePatches gr') =? 0)%nat; [done|]. by rewrite lookup_insert_ne.
Qed.

(** Kinds without dots, as Kubernetes kinds are. *)
Definition dot_free (g : managedResources) : Prop :=
  forall t, t ∈ dom (resMapping g) -> count "." (pt_Kind t) = 0%nat.

Definition restore_names_utf8 (g : managedResources) : Prop :=
  map_Forall (fun t gr => valid_utf8 (target_String t) = true
    /\ map_Forall (fun n p => valid_utf8 n = true /\ valid_utf8 p = true) (gr_restorePatches gr))
    (resMapping g).

Lemma NoDup_target_String (l : list PatchTarget) :
  Forall (fun t => count "." (pt_Kind t) = 0%nat) l -> NoDup l -> NoDup (target_String <$> l).
Proof.
  intros Hf. induction 1 as [|t l Hnot Hd IH]; [constructor|].
  apply Forall_cons in Hf as [Ht Hl]. constructor; [|by apply IH].
  intros (t' & E & Hin)%list_elem_of_fmap. apply Hnot.
  rewrite Forall_forall in Hl. by rewrite (target_String_eq t t') by auto.
Qed.

Lemma dataToSave_utf8 g n :
  restore_names_utf8 g -> restore_utf8 (dataToSave (range n (resMapping g))).
Proof.
  intros Hu. unfold dataToSave.
  assert (Forall (fun kv => resMapping g !! fst kv = Some (snd kv)) (range n (resMapping g))) as Hf.
  { apply Forall_forall. intros [t gr] Hin. by apply elem_of_targets in Hin. }
  revert Hf. generalize (range n (resMapping g)). intros order.
  assert (restore_utf8 ∅) as H0 by apply map_Forall_empty.
  revert H0. generalize (∅ : gmap string RestorePatches).
  induction order as [|[t gr] order IH]; intros m Hm Hf; [done|].
  apply Forall_cons in Hf as [Ht Hf]. cbn [fold_left fst snd] in *. apply IH; [|done].
  destruct (_ =? 0)%nat; [done|]. by apply map_Forall_insert_2; [apply (Hu t gr)|].
Qed.

Lemma dataToSave_restores g n t gr :
  dot_free g -> resMapping g !! t = Some gr ->
  patches_for (Some <$> dataToSave (range n (resMapping g))) (target_String t) = gr_restorePatches gr.
Proof.
  intros Hdot Ht. rewrite patches_for_some. unfold dataToSave. rewrite (dataToSave_lookup _ _ t gr).
  - destruct (Nat.eqb_spec (size (gr_restorePatches gr)) 0) as [Hs|]; [|done].
    apply map_size_empty_inv in Hs. by rewrite Hs.
  - apply NoDup_target_String; [|apply range_nodup]. apply Forall_forall.
    intros t' ([t1 x] & -> & Hx)%list_elem_of_fmap. apply Hdot, elem_of_dom.
    apply elem_of_targets in Hx. by eexists.
  - by apply elem_of_targets.
Qed.

(** The restore data survives its encoding: what [GetOriginalInfoToSave]
    writes, in any order of iteration, is read back by
    [GetOriginalInfoToRestore] as a map that gives every target of the mapping
    its restore patches. *)
Lemma restore_data_roundtrip g w r w' :
  resMapping g <> ∅ -> dot_free g -> restore_names_utf8 g ->
  GetOriginalInfoToSave g w = (r, w') ->
  exists data m,
    r = Ok (Some data)
    /\ Jsonpatch.GetOriginalInfoToRestore (Some data) = Ok (Some m)
    /\ forall t gr, resMapping g !! t = Some gr ->
         patches_for m (target_String t) = gr_restorePatches gr.
Proof.
  intros Hne Hdot Hu. unfold GetOriginalInfoToSave.
  destruct (Nat.eqb_spec (size (resMapping g)) 0) as [Hs|_].
  { by apply map_size_empty_inv in Hs. }
  unfold range_map, gbind, gret. intros [= <- <-]. eexists _, _. split; [done|].
  split; [by apply restore_roundtrip, dataToSave_utf8|].
  intros t gr Ht. by apply dataToSave_restores.
Qed.
End Targets.
