(* ===== verification/RoundTrip.v ===== *)
(** * Sleep and wake up are inverse

    The theorems that need the laws of the patch library and of the object
    accessors: a sleep applies only the changed fields to the resource it names;
    sleeping twice does nothing; a wake up after a sleep restores every path that
    still holds the value the sleep gave it, and so sends the original resource
    back when nothing changed in between. *)

From S2P Require Import Prelude GoStrings GoTime GoJson GoFloat GoAny Api Libs Merge Client.
From S2P Require Import RestoreData Patcher Resource ManagedResources ManagedResourcesSpec.
From S2P Require Import SleepWakeSpec.

(** ** Documents of objects *)

Lemma doc_MarshalMap m :
  any_ok (JObj (map_obj m)) = true -> doc (MarshalMap m) = Some (JObj (map_obj m)).
Proof.
  unfold any_ok, doc, MarshalMap. rewrite !andb_true_iff, Z.leb_le. intros [[[Hok Hc] _] Hh].
  rewrite parse_print by done. cbn [fmap option_fmap option_map]. by rewrite canonical_canon.
Qed.

Lemma any_ok_parts v :
  any_ok v = true -> canonical v = true /\ float_stable v = true.
Proof. unfold any_ok. rewrite !andb_true_iff. tauto. Qed.

(** Decoding goes through the document. *)
Lemma UnmarshalMap_doc c v :
  doc c = Some v ->
  UnmarshalMap c = match to_float64 v with
                   | Some (JObj l) => Ok (obj_map l)
                   | Some JNull => Ok ∅
                   | _ => Err errType
                   end.
Proof.
  unfold doc, UnmarshalMap, UnmarshalAny. destruct (parse_json c) as [x|]; [|done].
  intros [= <-]. destruct (to_float64 (canon x)) as [[]|]; done.
Qed.

Section RoundTrip.
Context {PL : PatchLib} {LL : PatchLaws} {UL : UnstructuredLib} {SL : SelectorLib} {CL : ClientLib}
  {MR : MapRange}.

(** ** Sleeping again *)

(** A resource the patch leaves as it is. *)
Definition quiescent (p : Patcher) (r : Unstructured) : Prop :=
  exists modified l, Exec p (MarshalMap (Object r)) = Ok modified
    /\ doc modified = Some (JObj l) /\ doc (MarshalMap (Object r)) = Some (JObj l).

Lemma sleep_resource_quiescent p gr r w :
  HasController r = true \/ quiescent p r -> sleep_resource p gr r w = (Ok gr, w).
Proof.
  unfold sleep_resource. destruct (HasController r); [done|].
  intros [?|(m & l & He & Hm & Hr)]; [done|]. rewrite He.
  unfold wrap_err, gbind, gtry, glift, gret.
  rewrite (CreateMergePatch_same m _ (JObj l)) by eauto. done.
Qed.

Lemma sleep_resources_quiescent p gr l w :
  Forall (fun r => HasController r = true \/ quiescent p r) l ->
  sleep_resources p gr l w = (Ok gr, w).
Proof.
  induction 1 as [|r l Hr _ IH]; [done|]. cbn [sleep_resources]. unfold gbind.
  by rewrite sleep_resource_quiescent.
Qed.

Lemma for_targets_id step order (mapping : gmap PatchTarget genericResource) w :
  Forall (fun kv => mapping !! fst kv = Some (snd kv) /\ forall w, step (snd kv) w = (Ok (snd kv), w)) order ->
  for_targets step order mapping w = (Ok mapping, w).
Proof.
  induction 1 as [|[t gr] order [Ht Hs] _ IH]; [done|]. cbn [for_targets fst snd] in *.
  unfold gbind. by rewrite Hs, insert_id.
Qed.

(** [C23] A sleep of resources that are already asleep does nothing: when the
    patch of every target leaves each of its resources unchanged, or a
    controller manages them, [Sleep] succeeds without a call and keeps the
    restore patches as they are. *)
Theorem resleep_noop manager g w :
  ready manager g ->
  map_Forall (fun _ gr => p_Patch (gr_patchData gr) <> ""%string
    /\ exists p, New (p_Patch (gr_patchData gr)) = Ok p
         /\ Forall (fun r => HasController r = true \/ quiescent p r) (gr_data gr)) (resMapping g) ->
  exists w', Sleep g w = (Ok g, w') /\ w_trace w' = w_trace w /\ w_api w' = w_api w.
Proof.
  intros Hr Hq. unfold Sleep, range_map, gbind, gret. cbv zeta.
  rewrite for_targets_id; [by destruct g; eexists|].
  apply Forall_forall. intros [t gr] Hin%elem_of_targets. split; [done|]. cbn [snd].
  intros w1. destruct (Hq t gr Hin) as (Hne & p & Hp & Hl), (Hr t gr Hin) as (_ & _ & Hc).
  unfold sleep_target, wrap_err, refresh, gbind, gtry, glift, gret.
  destruct (String.eqb_spec (p_Patch (gr_patchData gr)) ""); [done|].
  by rewrite Hp, Hc, sleep_resources_quiescent.
Qed.

(** ** Restoring *)

Lemma slept_patches_lookup p rp l r x :
  NoDup (GetName <$> l) -> r ∈ l -> sleep_effect p r = Some x ->
  slept_patches p rp l !! GetName r = Some x.
Proof.
  unfold slept_patches. revert rp.
  assert (forall l (rp : RestorePatches) n, n ∉ GetName <$> l ->
    fold_left (fun (m : RestorePatches) r => match sleep_effect p r with
      | Some x => <[GetName r := x]> m | None => m end) l rp !! n = rp !! n) as Hout.
  { clear. induction l as [|r l IH]; intros rp n Hn; [done|].
    cbn in Hn. apply not_elem_of_cons in Hn as [Hne Hn]. cbn [fold_left]. rewrite IH by done.
    destruct (sleep_effect p r); [by rewrite lookup_insert_ne|done]. }
  induction l as [|r' l IH]; intros rp Hd Hin Hx; [by apply elem_of_nil in Hin|].
  cbn in Hd. apply NoDup_cons in Hd as [Hnot Hd]. cbn [fold_left].
  apply elem_of_cons in Hin as [<-|Hin]; [|by apply IH].
  rewrite Hout by done. by rewrite Hx, lookup_insert_eq.
Qed.

(** The restore patch of a resource leads back to it. *)
Lemma restore_patch_spec p r rp modified lm :
  any_ok (JObj (map_obj (Object r))) = true -> mergeable (JObj lm) (JObj (map_obj (Object r))) = true ->
  Exec p (MarshalMap (Object r)) = Ok modified -> doc modified = Some (JObj lm) ->
  sleep_effect p r = Some rp ->
  exists lp, doc rp = Some (JObj lp)
    /\ rfc7396 (JObj lm) (JObj lp) = JObj (map_obj (Object r)).
Proof.
  intros Hok Hnf He Hm. unfold sleep_effect. destruct (HasController r); [done|]. rewrite He.
  destruct (CreateMergePatch modified _) as [q|] eqn:Ec; [|done].
  destruct (String.eqb q "{}"); [done|]. intros [= ->].
  eapply CreateMergePatch_spec; [exact Hm|by apply doc_MarshalMap|done|exact Ec].
Qed.

(** [o] has the value of the original [r] at every path that held, in the document
    [l2], the value it had in the document [lm]. *)
Definition restores (r : Unstructured) (lm l2 : list (string * json)) (o : Unstructured) : Prop :=
  forall k path, at_path (k :: path) (JObj l2) = at_path (k :: path) (JObj lm) ->
    at_path (k :: path) (JObj (map_obj (Object o))) = at_path (k :: path) (JObj (map_obj (Object r))).

Lemma restores_all r lm o : restores r lm lm o -> o = r.
Proof.
  intros H. destruct o as [o], r as [r]. f_equal. apply map_eq. intros k.
  specialize (H k [] eq_refl). cbn in H. rewrite !obj_map_map_obj in H.
  by destruct (o !! k), (r !! k).
Qed.

Section Restore.
(** The sleep: [r] is a resource of the target [t], which the patch changes to the
    document [lm].  Its numbers survive float64 and its texts are valid
    ([any_ok]), and what the patch changed or removed of it is free of nulls
    ([mergeable]). *)
Variables (manager : string) (g g1 : managedResources) (w w1 : World).
Variables (t : PatchTarget) (gr gr1 : genericResource) (p : Patcher) (r : Unstructured).
Variables (rp modified : string) (lm : list (string * json)).
Hypothesis Hready : ready manager g.
Hypothesis Hsleep : Sleep g w = (Ok g1, w1).
Hypothesis Hgr : resMapping g !! t = Some gr.
Hypothesis Hgr1 : resMapping g1 !! t = Some gr1.
Hypothesis Hp : New (p_Patch (gr_patchData gr)) = Ok p.
Hypothesis Hnames : NoDup (GetName <$> gr_data gr).
Hypothesis Hr : r ∈ gr_data gr.
Hypothesis Hok : any_ok (JObj (map_obj (Object r))) = true.
Hypothesis Hexec : Exec p (MarshalMap (Object r)) = Ok modified.
Hypothesis Hmod : doc modified = Some (JObj lm).
Hypothesis Hmerge : mergeable (JObj lm) (JObj (map_obj (Object r))) = true.
Hypothesis Heff : sleep_effect p r = Some rp.

(** The wake up: a later entry [gr2] for the target with the restore patches of
    the sleep lists the resource of the same name, [r2], with the document [l2],
    which the patch would not change: it is idempotent, and nothing else changed
    the fields it sets. *)
Variables (gr2 : genericResource) (r2 : Unstructured) (w2 : World) (l2 : list (string * json)).
Hypothesis Hgr2 : gr_restorePatches gr2 = gr_restorePatches gr1.
Hypothesis Hvalid : IsClientValid (gr_client gr2) = None.
Hypothesis Hname : GetName r2 = GetName r.
Hypothesis Hdoc2 : doc (MarshalMap (Object r2)) = Some (JObj l2).
Hypothesis Hsame : IsResourceChanged p (MarshalMap (Object r2)) = Ok false.

Lemma stored_patch : gr_restorePatches gr2 !! GetName r2 = Some rp.
Proof.
  pose proof (sleep_targets_ok manager g w g1 w1 Hready Hsleep t gr Hgr)
    as (gr' & Hgr' & _ & _ & p' & Hp' & Hrp').
  rewrite Hgr1 in Hgr'. injection Hgr' as <-. rewrite Hp in Hp'. injection Hp' as <-.
  rewrite Hgr2, Hrp', Hname. by apply slept_patches_lookup.
Qed.

Lemma wake_merges : exists lp,
  doc rp = Some (JObj lp)
  /\ rfc7396 (JObj lm) (JObj lp) = JObj (map_obj (Object r))
  /\ forall c, MergePatch (MarshalMap (Object r2)) rp = Ok c ->
       doc c = Some (rfc7396 (JObj l2) (JObj lp)).
Proof.
  destruct (restore_patch_spec p r rp modified lm Hok Hmerge Hexec Hmod Heff) as (lp & Hlp & Hback).
  exists lp. split_and!; [done|done|]. intros c Hc. by eapply MergePatch_spec.
Qed.

(** What the wake up makes of the resource as the sleep left it. *)
Lemma restored_document :
  l2 = lm ->
  exists c, MergePatch (MarshalMap (Object r2)) rp = Ok c /\ UnmarshalMap c = Ok (Object r).
Proof.
  intros El. destruct wake_merges as (lp & Hlp & Hback & Hm). rewrite El, Hback in Hm.
  assert (is_ok (MergePatch (MarshalMap (Object r2)) rp) = true) as Hokm.
  { eapply MergePatch_total; [exact Hdoc2|exact Hlp|]. by rewrite El, Hback. }
  destruct (MergePatch (MarshalMap (Object r2)) rp) as [c|] eqn:Ec; [|done].
  exists c. split; [done|]. specialize (Hm c eq_refl). destruct (any_ok_parts _ Hok) as [_ Hf].
  by rewrite (UnmarshalMap_doc c _ Hm), to_float64_stable, obj_map_map_obj by done.
Qed.

(** Restoring after other changes: what the wake up sends back has its original
    value at every path that still held the value the sleep gave it. *)
Lemma wake_effect_restores o :
  wake_effect p (gr_restorePatches gr2) r2 = Some o -> restores r lm l2 o.
Proof.
  intros Hw k path. destruct wake_merges as (lp & Hlp & Hback & Hm).
  unfold wake_effect in Hw. rewrite stored_patch, Hsame in Hw.
  destruct (MergePatch (MarshalMap (Object r2)) rp) as [c|]; [|done].
  specialize (Hm c eq_refl) as Hc. rewrite (UnmarshalMap_doc c _ Hc) in Hw. intros Hagree.
  apply (merge_local (JObj lp)) in Hagree; [|by eapply doc_canonical]. rewrite Hback in Hagree.
  destruct (any_ok_parts _ Hok) as [Hcan Hf].
  destruct (to_float64 (rfc7396 (JObj l2) (JObj lp))) as [v|] eqn:Ef; [|done].
  pose proof (at_path_float (k :: path) _ _ (doc_canonical _ _ Hc) Ef) as Hv.
  assert (exists l, v = JObj l) as (l & ->).
  { cbn [rfc7396] in Ef. apply to_float64_obj in Ef as (l & -> & _). eauto. }
  injection Hw as <-. rewrite Hagree in Hv. cbn [Object].
  transitivity (at_path (k :: path) (JObj l)).
  - cbn [at_path member]. by rewrite obj_map_map_obj.
  - rewrite Hv. destruct (at_path (k :: path) (JObj (map_obj (Object r)))) as [x|] eqn:Ex; [|done].
    cbn. apply to_float64_stable. by eapply float_stable_path.
Qed.

(** [C2] Wake up undoes sleep.  A resource that [Sleep] changed and that, at wake
    up, the sleep patch would not change (the patch is idempotent and nobody
    changed the fields it sets) is sent back by one patch call, whatever the API
    server answers.  What is sent has the original value at every path that still
    holds the value the sleep gave it, whatever changed elsewhere in between
    (resource version, managed fields, status): it is the original when nothing
    did.  The alternative is an error without a call, when the merged document
    cannot be encoded; it does not happen when nothing changed in between.  The
    original is a document whose numbers survive float64 and in which what the
    patch changed is free of nulls. *)
Theorem sleep_then_wake_restores :
  (exists o, w_trace (wake_resource p gr2 r2 w2).2 = w_trace w2 ++ [CPatch r2 o] /\ restores r lm l2 o)
  \/ (l2 <> lm /\ exists e, wake_resource p gr2 r2 w2 = (Err e, w2)).
Proof.
  pose proof wake_effect_restores as Hback. unfold wake_effect in Hback. unfold wake_resource.
  rewrite stored_patch, Hsame in *.
  destruct (MergePatch (MarshalMap (Object r2)) rp) as [c|e] eqn:Ec.
  2: { right. split; [|by eexists]. intros El. destruct (restored_document El) as (c & Ec' & _). congruence. }
  rewrite bind_wrap_ok. destruct (UnmarshalMap c) as [o|e] eqn:Eo.
  2: { right. split; [|by eexists]. intros El. destruct (restored_document El) as (c' & Ec' & Eo'). congruence. }
  left. exists (mkUnstructured o). split; [|by apply Hback]. rewrite bind_wrap_ok.
  rewrite <- (PatchResource_trace (gr_client gr2) r2 _ w2 Hvalid).
  unfold gbind, wrap_err, gtry, gret, gfail, gbind.
  by destruct (PatchResource _ _ _ w2) as [[u|e] w3].
Qed.
End Restore.
End RoundTrip.

(** ** The applied object *)

Section Sparse.
Context {UL : UnstructuredLib} {UW : UnstructuredLaws} {SL : SelectorLib} {CL : ClientLib}
  {MR : MapRange}.

Lemma set_fields_spec fields u :
  NoDup fields.*1 -> set_fields fields u = Ok (mkUnstructured (list_to_map fields ∪ Object u)).
Proof.
  revert u. induction fields as [|[k v] fields IH]; intros u Hd.
  - cbn. rewrite (left_id_L ∅ (∪)). by destruct u.
  - cbn [fmap list_fmap fst] in Hd. apply NoDup_cons in Hd as [Hk Hd].
    cbn [set_fields]. rewrite SetNestedField_spec. cbn [rbind]. rewrite IH by done. cbn [Object].
    rewrite <- insert_union_r by (by apply not_elem_of_list_to_map).
    by rewrite insert_union_l.
Qed.

(** The identifiers of a resource as the API server gives them. *)
Definition gvk_ok (g : GroupVersionKind) : Prop :=
  count "/" (gvk_Group g) = 0%nat /\ count "/" (gvk_Version g) = 0%nat
  /\ gvk_Version g <> ""%string.

(** The object server-side apply gets. *)
Definition applied (u : Unstructured) : Unstructured :=
  SetResourceVersion "" (ClearManagedFields u).

(** The metadata server-side apply gets for a merge patch with the metadata [m]:
    the identifiers of the resource and the changed fields. *)
Definition sparse_metadata (name namespace : string) (m : gmap string json) : gmap string json :=
  delete "resourceVersion"%string (delete "managedFields"%string
    (set_string "namespace" namespace (set_string "name" name m))).

(** [C22] A sleep claims only what it changes.  In every order of iteration over a
    merge patch whose metadata, if any, is an object, the object sent to
    server-side apply has the group, version and kind of the resource; its
    metadata is exactly the name and the namespace of the resource and the
    metadata members of the merge patch, without resource version and managed
    fields; its other members are exactly those of the merge patch.  Nothing else
    of the resource is copied: no label, no annotation, no owner. *)
Theorem sparse_object_spec r mergePatch patchMap w :
  UnmarshalMap mergePatch = Ok patchMap ->
  meta_ok (mkUnstructured patchMap) = true -> gvk_ok (GetGroupVersionKind r) ->
  exists sparse w',
    buildSparseApplyObject r mergePatch w = (Ok sparse, w')
    /\ GetGroupVersionKind (applied sparse) = GetGroupVersionKind r
    /\ GetName (applied sparse) = GetName r
    /\ GetNamespace (applied sparse) = GetNamespace r
    /\ meta_map (applied sparse)
       = sparse_metadata (GetName r) (GetNamespace r) (meta_map (mkUnstructured patchMap))
    /\ forall k, k <> "apiVersion"%string -> k <> "kind"%string -> k <> "metadata"%string ->
         Object (applied sparse) !! k = patchMap !! k.
Proof.
  intros Hu Hm (Hg1 & Hg2 & Hg3). unfold buildSparseApplyObject, gbind, glift, range_map, gret.
  rewrite Hu, set_fields_spec by (rewrite range_perm; apply NoDup_fst_map_to_list).
  cbn [Object]. rewrite (right_id_L ∅ (∪)), list_to_map_range. eexists _, _. split; [done|].
  set (u0 := SetGroupVersionKind _ (mkUnstructured patchMap)).
  assert (meta_ok u0 = true /\ meta_map u0 = meta_map (mkUnstructured patchMap)) as [Hm0 E0].
  { unfold meta_ok, meta_map, u0 in *. by rewrite SetGVK_frame. }
  destruct (SetName_meta (GetName r) u0 Hm0) as [Hm1 E1].
  destruct (SetNamespace_meta (GetNamespace r) _ Hm1) as [Hm2 E2].
  destruct (ClearManagedFields_meta _ Hm2) as [Hm3 E3].
  destruct (SetResourceVersion_meta "" _ Hm3) as [Hm4 E4].
  assert (meta_map (applied (SetNamespace (GetNamespace r) (SetName (GetName r) u0)))
    = sparse_metadata (GetName r) (GetNamespace r) (meta_map (mkUnstructured patchMap))) as Emeta.
  { unfold applied, sparse_metadata. by rewrite E4, E3, E2, E1, E0. }
  assert (forall k, k <> "metadata"%string ->
    Object (applied (SetNamespace (GetNamespace r) (SetName (GetName r) u0))) !! k = Object u0 !! k) as Hframe.
  { intros k Hk. unfold applied. by rewrite SetResourceVersion_frame, ClearManagedFields_frame,
      SetNamespace_frame, SetName_frame. }
  split_and!; [| | |done|].
  - rewrite (GVK_reads u0) by (by apply Hframe). by apply GetGVK_SetGVK.
  - rewrite GetName_reads. unfold meta_string at 1. rewrite Emeta. unfold sparse_metadata, set_string.
    destruct (String.eqb_spec (GetNamespace r) ""), (String.eqb_spec (GetName r) "") as [->|];
      repeat first [rewrite lookup_delete_ne by done | rewrite lookup_insert_ne by done];
      by rewrite ?lookup_delete_eq, ?lookup_insert_eq.
  - rewrite GetNamespace_reads. unfold meta_string at 1. rewrite Emeta. unfold sparse_metadata, set_string.
    destruct (String.eqb_spec (GetNamespace r) "") as [->|];
      repeat first [rewrite lookup_delete_ne by done | rewrite lookup_insert_ne by done];
      by rewrite ?lookup_delete_eq, ?lookup_insert_eq.
  - intros k Ha Hk Hmeta. rewrite Hframe by done. by apply SetGVK_frame.
Qed.
End Sparse.
