(* ===== verification/Secrets.v ===== *)
(** * The secret of a SleepInfo: secrets.go

    One secret per SleepInfo keeps, between reconciliations, the time of the
    last operation, its type and the restore data.  [upsertSecret] writes it
    whole; [getSleepInfoData] (SleepInfoData.v) reads it. *)

From S2P Require Import Prelude GoStrings GoTime GoJson GoAny Api Libs Client RestoreData.
From S2P Require Import SleepInfoData Patcher Resource ManagedResources ManagedResourcesSpec.
From S2P Require Import SleepWakeSpec.

Section Secrets.
Context {PL : PatchLib} {UL : UnstructuredLib} {SL : SelectorLib} {CL : ClientLib} {MR : MapRange}.

(** The configuration of the reconcilers. *)
Record SleepInfoReconciler := mkSleepInfoReconciler {
  SleepDelta : Z;
  ManagerName : string
}.

Definition getSecretName (name : string) : string := "sleepinfo-" +:+ name.

Definition getSecret (secretName namespaceName : string) : M World Secret :=
  GetSecret namespaceName secretName.

(** The secret with its metadata and the entries every operation writes. *)
Definition newSecret (r : SleepInfoReconciler) (now : Time) (secretName namespace : string)
    (sleepInfo : SleepInfo) (data : SleepInfoData) (hasResource : bool)
    (Data : gmap string string) : Secret :=
  mkSecret
    (mkObjectMeta secretName namespace "" ""
      {["app.kubernetes.io/managed-by"%string := ManagerName r]}
      [mkOwnerReference GroupVersion "SleepInfo" (si_Name sleepInfo) (om_UID (si_Meta sleepInfo))])
    (Some Data)
    (Some (let m := {[lastScheduleKey := FormatRFC3339 now]} in
           if hasResource then <[lastOperationKey := CurrentOperationType data]> m else m)).

Definition upsertSecret (r : SleepInfoReconciler) (now : Time) (secretName namespace : string)
    (sleepInfo : SleepInfo) (secret : option Secret) (data : SleepInfoData)
    (resources : managedResources) : M World unit :=
  let hasResource := HasResource resources in
  Data <~ (if hasResource && IsSleepOperation data then
             info <~ GetOriginalInfoToSave resources;;
             gret {[originalJSONPatchDataKey := default ""%string info]}
           else gret ∅);;
  let new := newSecret r now secretName namespace sleepInfo data hasResource Data in
  match secret with
  | None => CreateSecret new
  | Some _ => UpdateSecret new
  end.
End Secrets.

(** What the API server stores: [StringData] is merged into [Data], "overwriting
    any existing values", and never returned. *)
Definition convertSecretStringData (s : Secret) : Secret :=
  mkSecret (sec_Meta s)
    (match sec_StringData s with
     | Some sd => Some (sd ∪ default ∅ (sec_Data s))
     | None => sec_Data s
     end) None.

(** ** Theorems: what is read back *)

Section Spec.
Context {PL : PatchLib} {UL : UnstructuredLib} {SL : SelectorLib} {CL : ClientLib} {MR : MapRange}.

(** [getSleepInfoData] on a secret that the current release wrote. *)
Lemma getSleepInfoData_stored s sec data sleep wake original last :
  schedules_of s sleep wake ->
  sec_Data sec = Some data ->
  data !! replicasBeforeSleepKey = None -> data !! originalCronjobStatusKey = None ->
  Jsonpatch.GetOriginalInfoToRestore (data !! originalJSONPatchDataKey) = Ok original ->
  ParseRFC3339 (data_string data lastScheduleKey) = Ok last ->
  getSleepInfoData (Some sec) s
  = if String.eqb (data_string data lastOperationKey) sleepOperation && negb (String.eqb wake "")
    then Ok (mkSleepInfoData last wakeUpOperation wake sleep (Some (default ∅ original)))
    else Ok (mkSleepInfoData last sleepOperation sleep
               (if String.eqb wake "" then sleep else wake) (Some (default ∅ original))).
Proof.
  intros [Hs Hw] Hd Hr Hc Ho Hl. unfold getSleepInfoData. rewrite Hs, Hw. cbn [rbind].
  rewrite Hd, Ho. cbn [rbind]. unfold convertOldSecretDataToNewFormat. rewrite Hr, Hc. cbn [rbind].
  by rewrite Hl.
Qed.

(** The saved clock. *)
Definition to_second (t : Time) : Time := mkTime (instant t / Second * Second) (zone t).

(** The entries of a secret as the API server stores it. *)
Definition stored_data (now : Time) (op : option string) (info : option string)
    : gmap string string :=
  (match op with
   | Some o => <[lastOperationKey := o]> {[lastScheduleKey := FormatRFC3339 now]}
   | None => {[lastScheduleKey := FormatRFC3339 now]}
   end) ∪ match info with Some i => {[originalJSONPatchDataKey := i]} | None => ∅ end.

Lemma stored_data_lookup now op info :
  let d := stored_data now op info in
  data_string d lastScheduleKey = FormatRFC3339 now
  /\ data_string d lastOperationKey = default ""%string op
  /\ d !! originalJSONPatchDataKey = info
  /\ d !! replicasBeforeSleepKey = None /\ d !! originalCronjobStatusKey = None.
Proof.
  cbv zeta. unfold stored_data, data_string.
  destruct op as [o|], info as [i|]; split_and!;
    rewrite ?lookup_union; by simplify_map_eq.
Qed.

(** The state the next reconciliation finds after an operation at [now] that
    saved [info]. *)
Lemma reads_back s sec now op info original sleep wake :
  schedules_of s sleep wake -> printable now = true ->
  sec_Data sec = Some (stored_data now op info) ->
  Jsonpatch.GetOriginalInfoToRestore info = Ok original ->
  getSleepInfoData (Some sec) s
  = if String.eqb (default ""%string op) sleepOperation && negb (String.eqb wake "")
    then Ok (mkSleepInfoData (to_second now) wakeUpOperation wake sleep (Some (default ∅ original)))
    else Ok (mkSleepInfoData (to_second now) sleepOperation sleep
               (if String.eqb wake "" then sleep else wake) (Some (default ∅ original))).
Proof.
  intros Hs Hp Hd Ho. destruct (stored_data_lookup now op info) as (L1 & L2 & L3 & L4 & L5).
  rewrite (getSleepInfoData_stored s sec _ sleep wake original (to_second now) Hs Hd L4 L5).
  - by rewrite L2.
  - by rewrite L3.
  - rewrite L1. unfold ParseRFC3339. by rewrite parse_format_rfc3339.
Qed.

(** The restore data an operation saves: only a sleep of some resource does. *)
Definition saved_info (n : nat) (data : SleepInfoData) (g : managedResources) : option string :=
  if HasResource g && IsSleepOperation data
  then Some (Jsonpatch.marshal_restore (dataToSave (range n (resMapping g)))) else None.

Definition saved_operation (data : SleepInfoData) (g : managedResources) : option string :=
  if HasResource g then Some (CurrentOperationType data) else None.

Lemma HasResource_size g : HasResource g = true -> (size (resMapping g) =? 0)%nat = false.
Proof.
  rewrite HasResource_true. intros (t & gr & Ht & _). apply Nat.eqb_neq.
  intros E%map_size_empty_inv. by rewrite E in Ht.
Qed.

(** [upsertSecret] is one call, with a secret the server then stores as the
    data of the operation. *)
Lemma upsertSecret_call r now name ns s secret data g w :
  exists sec w1,
    upsertSecret r now name ns s secret data g w
    = match secret with None => CreateSecret sec w1 | Some _ => UpdateSecret sec w1 end
    /\ w_trace w1 = w_trace w /\ w_api w1 = w_api w
    /\ om_Name (sec_Meta sec) = name /\ om_Namespace (sec_Meta sec) = ns
    /\ sec_Data (convertSecretStringData sec)
       = Some (stored_data now (saved_operation data g) (saved_info (w_tick w) data g)).
Proof.
  set (sec := newSecret r now name ns s data (HasResource g)
    match saved_info (w_tick w) data g with
    | Some i => {[originalJSONPatchDataKey := i]} | None => ∅ end).
  exists sec.
  assert (exists w1,
    upsertSecret r now name ns s secret data g w
    = match secret with None => CreateSecret sec w1 | Some _ => UpdateSecret sec w1 end
    /\ w_trace w1 = w_trace w /\ w_api w1 = w_api w) as (w1 & E & Ht & Ha).
  { unfold upsertSecret, sec, saved_info. pose proof (HasResource_size g) as Hs.
    destruct (HasResource g), (IsSleepOperation data); cbn [andb];
      [|exists w; by destruct secret..].
    unfold GetOriginalInfoToSave. rewrite Hs by done. unfold gbind, gret, range_map. cbn [default].
    eexists. split; [by destruct secret|]. done. }
  exists w1. split_and!; try done.
  unfold sec, stored_data, saved_operation. cbn. by destruct (HasResource g), (saved_info _ _ _).
Qed.

Lemma upsertSecret_trace r now name ns s secret data g w :
  exists sec,
    w_trace (upsertSecret r now name ns s secret data g w).2
    = w_trace w ++ [match secret with None => CCreateSecret sec | Some _ => CUpdateSecret sec end]
    /\ om_Name (sec_Meta sec) = name /\ om_Namespace (sec_Meta sec) = ns
    /\ sec_Data (convertSecretStringData sec)
       = Some (stored_data now (saved_operation data g) (saved_info (w_tick w) data g)).
Proof.
  destruct (upsertSecret_call r now name ns s secret data g w) as (sec & w1 & -> & Ht & _ & Hrest).
  exists sec. split; [|done].
  destruct secret; unfold UpdateSecret, CreateSecret, call;
    [destruct (api_UpdateSecret _ _)|destruct (api_CreateSecret _ _)]; cbn; by rewrite Ht.
Qed.

(** [C6] The secret is a faithful memory: it is written by exactly one call,
    whatever the server answers; when the next reconciliation reads what was
    stored, it finds the time of the operation (cut to the second), a wake up
    exactly if this was a sleep of some resource and a wake up time is
    configured, and, after such a sleep, the restore patches of every target,
    after anything else none. *)
Theorem secret_roundtrip r now name ns s secret data g w sleep wake :
  schedules_of s sleep wake -> printable now = true -> dot_free g -> restore_names_utf8 g ->
  exists sec d,
    w_trace (upsertSecret r now name ns s secret data g w).2
    = w_trace w ++ [match secret with None => CCreateSecret sec | Some _ => CUpdateSecret sec end]
    /\ om_Name (sec_Meta sec) = name /\ om_Namespace (sec_Meta sec) = ns
    /\ getSleepInfoData (Some (convertSecretStringData sec)) s = Ok d
    /\ LastSchedule d = to_second now
    /\ CurrentOperationType d
       = (if HasResource g && IsSleepOperation data && negb (String.eqb wake "")
          then wakeUpOperation else sleepOperation)
    /\ exists m, OriginalGenericResourceInfo d = Some m
       /\ if HasResource g && IsSleepOperation data
          then forall t gr, resMapping g !! t = Some gr ->
                 patches_for m (target_String t) = gr_restorePatches gr
          else m = ∅.
Proof.
  intros Hs Hp Hdot Hu.
  destruct (upsertSecret_trace r now name ns s secret data g w) as (sec & Ht & Hn & Hns & Hd).
  exists sec.
  assert (exists original, Jsonpatch.GetOriginalInfoToRestore (saved_info (w_tick w) data g) = Ok original
    /\ if HasResource g && IsSleepOperation data
       then forall t gr, resMapping g !! t = Some gr ->
              patches_for (default ∅ original) (target_String t) = gr_restorePatches gr
       else default ∅ original = ∅) as (original & Ho & Hm).
  { unfold saved_info. destruct (HasResource g && IsSleepOperation data); [|by eexists].
    eexists. split; [by apply restore_roundtrip, dataToSave_utf8|].
    intros t gr Hg. by apply dataToSave_restores. }
  pose proof (reads_back s _ now _ _ original sleep wake Hs Hp Hd Ho) as Hread.
  assert (String.eqb (default ""%string (saved_operation data g)) sleepOperation
          = HasResource g && IsSleepOperation data) as E.
  { unfold saved_operation. by destruct (HasResource g). }
  rewrite E in Hread.
  destruct (HasResource g && IsSleepOperation data && negb (String.eqb wake "")) eqn:Eb;
    eexists; split_and!; eauto.
Qed.
End Spec.
