(* ===== verification/Reconcile.v ===== *)
(** * The SleepInfo reconciler: sleepinfo_controller.go

    [Reconcile] is run for a SleepInfo when its spec changes and when the delay
    it asked for has passed.  It returns the result and the error of the Go
    function side by side: a client call that fails is a value the code
    inspects.  The one panic the code can run into, the write to a nil map of
    restore patches in [Sleep], is recovered by controller-runtime and becomes the
    error of the run: nothing that follows it takes place, and next to an error
    controller-runtime does not look at the result. *)

From S2P Require Import Prelude GoStrings GoTime GoJson GoAny Api Libs Client RestoreData.
From S2P Require Import SleepInfoData Schedule Patcher Resource ManagedResources Secrets.

(** [ctrl.Result] and the pair a reconciler returns. *)
Record Result := mkResult { Requeue : bool; RequeueAfter : Duration }.

Definition Outcome : Type := Result * option error.

Definition noResult : Result := mkResult false 0.
Definition requeueNow : Result := mkResult true 0.
Definition requeueIn (d : Duration) : Result := mkResult false d.

Section Reconcile.
Context {CR : CronLib} {PL : PatchLib} {UL : UnstructuredLib} {SL : SelectorLib} {CL : ClientLib}
  {MR : MapRange}.

Definition getSleepInfo (namespace name : string) : M World SleepInfo := GetSleepInfo namespace name.

Definition skipWakeUpIfSleepNotPerformed (currentOperationCronSchedule : string)
    (nextSchedule now : Time) : result Duration :=
  match getCronParsed currentOperationCronSchedule with
  | Err e => Err (errorf ("fails to parse cron current schedule: " +:+ err_msg e))
  | Ok nextOpSched => Ok (getRequeueAfter (Next nextOpSched nextSchedule) now)
  end.

(** The status of a copy of the SleepInfo. *)
Definition handleSleepInfoStatus (now : Time) (currentSleepInfo : SleepInfo)
    (currentOperationType : string) (resources : managedResources) : M World unit :=
  let OperationType :=
    if negb (HasResource resources) then ""%string else currentOperationType in
  StatusUpdateSleepInfo (mkSleepInfo (si_Meta currentSleepInfo) (si_Spec currentSleepInfo)
                           (mkSleepInfoStatus now OperationType)).

(** The switch on the operation.  [None]: the operation is neither of the two. *)
Definition runOperation (data : SleepInfoData) (resources : managedResources)
    : option (M World managedResources) :=
  if IsSleepOperation data then Some (Sleep resources)
  else if IsWakeUpOperation data then Some (WakeUp resources)
  else None.

(** From [NewResources] on: the operation is due. *)
Definition execute (r : SleepInfoReconciler) (namespace secretName : string)
    (sleepInfo : SleepInfo) (secret : option Secret) (data : SleepInfoData)
    (now nextSchedule : Time) (requeueAfter : Duration) : M World Outcome :=
  res <~ gtry (NewResources (mkResourceClient true (Some sleepInfo) (ManagerName r)) namespace
                 (OriginalGenericResourceInfo data));;
  match res with
  | Err e => gret (noResult, Some e)
  | Ok resources =>
    status <~ gtry (handleSleepInfoStatus now sleepInfo (CurrentOperationType data) resources);;
    match status with
    | Err e => gret (noResult, Some e)
    | Ok _ =>
      if negb (HasResource resources) then
        up <~ gtry (upsertSecret r now secretName namespace sleepInfo secret data resources);;
        match up with
        | Err _ => gret (requeueNow, None)
        | Ok _ =>
            if IsSleepOperation data then
              match skipWakeUpIfSleepNotPerformed (CurrentOperationSchedule data) nextSchedule now with
              | Err _ => gret (noResult, None)
              | Ok requeueAfter => gret (requeueIn requeueAfter, None)
              end
            else gret (requeueIn requeueAfter, None)
        end
      else
        match runOperation data resources with
        | None => gret (noResult, Some (errorf ("operation " +:+ CurrentOperationType data
                                                +:+ " not supported")))
        | Some op =>
            done <~ gtry op;;
            match done with
            | Err e => gret (requeueNow, Some e)
            | Ok resources =>
                up <~ gtry (upsertSecret r now secretName namespace sleepInfo secret data resources);;
                match up with
                | Err _ => gret (requeueNow, None)
                | Ok _ => gret (requeueIn requeueAfter, None)
                end
            end
        end
    end
  end.

(** [if client.IgnoreNotFound(err) != nil]: the secret may be missing. *)
Definition fetchSecret (secretName namespace : string) : M World (result (option Secret)) :=
  secret <~ gtry (getSecret secretName namespace);;
  gret match secret with
       | Ok s => Ok (Some s)
       | Err e => match IgnoreNotFound (Some e) with None => Ok None | Some e => Err e end
       end.

Definition Reconcile (r : SleepInfoReconciler) (namespace name : string) : M World Outcome :=
  si <~ gtry (getSleepInfo namespace name);;
  match si with
  | Err e =>
      (if IsNotFound e then gauge_Delete name namespace else gret tt);;~
      gret (noResult, IgnoreNotFound (Some e))
  | Ok sleepInfo =>
      gauge_Set name namespace 1;;~
      let secretName := getSecretName name in
      sec <~ fetchSecret secretName namespace;;
      match sec with
      | Err e => gret (noResult, Some e)
      | Ok secret =>
          match getSleepInfoData secret sleepInfo with
          | Err e => gret (noResult, Some e)
          | Ok data =>
              now <~ Now;;
              match getNextSchedule (SleepDelta r) data now with
              | Err e => gret (noResult, Some e)
              | Ok (isToExecute, nextSchedule, requeueAfter) =>
                  if negb isToExecute then gret (requeueIn requeueAfter, None)
                  else execute r namespace secretName sleepInfo secret data now nextSchedule
                         requeueAfter
              end
          end
      end
  end.
End Reconcile.
