(* ===== verification/Execution.v ===== *)
(** * On-demand executions: sleepinfoexecution_controller.go

    [Reconcile] runs the operation a SleepInfoExecution asks for, outside the
    schedule, and records the outcome in its status. *)

From S2P Require Import Prelude GoStrings GoTime GoJson GoAny Api Libs Client RestoreData.
From S2P Require Import SleepInfoData Schedule Patcher Resource ManagedResources Secrets.
From S2P Require Import Reconcile.

Module Execution.
Section Execution.
Context {CR : CronLib} {PL : PatchLib} {UL : UnstructuredLib} {SL : SelectorLib} {CL : ClientLib}
  {MR : MapRange}.

(** The execution object with the owner reference, updated on the server when
    the reference is new; the object the code goes on with. *)
Definition setOwnerReference (execution : SleepInfoExecution) (sleepInfo : SleepInfo)
    : M World SleepInfoExecution :=
  let ownerReferencesCount := length (om_OwnerReferences (se_Meta execution)) in
  e <~ glift (SetOwnerReference sleepInfo execution);;
  if (length (om_OwnerReferences (se_Meta e)) =? ownerReferencesCount)%nat then gret e
  else UpdateExecution e.

Definition finished (execution : SleepInfoExecution) (now : Time) (phase message : string)
    : SleepInfoExecution :=
  mkSleepInfoExecution (se_Meta execution) (se_Spec execution)
    (mkSleepInfoExecutionStatus phase
       (match StartTime (se_Status execution) with None => Some now | Some t => Some t end)
       (Some now) message).

(** The status update; its error is the error of the reconciliation. *)
Definition updateExecutionStatus (execution : SleepInfoExecution) (now : Time)
    (phase message : string) : M World Outcome :=
  r <~ gtry (StatusUpdateExecution (finished execution now phase message));;
  gret (noResult, match r with Ok _ => None | Err e => Some e end).

(** [isAsleep]: the operation-type of the secret is SLEEP. *)
Definition secretAsleep (secret : option Secret) : bool :=
  match secret with
  | Some s => String.eqb (data_string (default ∅ (sec_Data s)) lastOperationKey) sleepOperation
  | None => false
  end.

(** From [NewResources] on: the operation is accepted. *)
Definition perform (r : SleepInfoReconciler) (namespace secretName : string)
    (execution : SleepInfoExecution) (sleepInfo : SleepInfo) (secret : option Secret)
    (data : SleepInfoData) (now : Time) : M World Outcome :=
  res <~ gtry (NewResources (mkResourceClient true (Some sleepInfo) (ManagerName r)) namespace
                 (OriginalGenericResourceInfo data));;
  match res with
  | Err e => gret (noResult, Some e)
  | Ok resources =>
    if negb (HasResource resources) then
      updateExecutionStatus execution now ExecutionPhaseSkipped "no resources to handle in namespace"
    else
      done <~ gtry (match runOperation data resources with
                    | Some op => op
                    | None => gret resources
                    end);;
      match done with
      | Err e => gret (noResult, Some e)
      | Ok resources =>
          up <~ gtry (upsertSecret r now secretName namespace sleepInfo secret data resources);;
          match up with
          | Err e => gret (noResult, Some e)
          | Ok _ =>
              status <~ gtry (handleSleepInfoStatus now sleepInfo (CurrentOperationType data)
                                resources);;
              match status with
              | Err e => gret (noResult, Some e)
              | Ok _ =>
                  updateExecutionStatus execution now ExecutionPhaseSucceeded
                    ("operation " +:+ Operation (se_Spec execution) +:+ " executed")
              end
          end
      end
  end.

Definition Reconcile (r : SleepInfoReconciler) (namespace name : string) : M World Outcome :=
  ex <~ gtry (GetExecution namespace name);;
  match ex with
  | Err e => gret (noResult, IgnoreNotFound (Some e))
  | Ok execution =>
    if IsProcessed execution then gret (noResult, None)
    else
      now <~ Now;;
      let sleepInfoName := SleepInfoName (se_Spec execution) in
      si <~ gtry (GetSleepInfo namespace sleepInfoName);;
      match si with
      | Err e =>
          if IsNotFound e then
            updateExecutionStatus execution now ExecutionPhaseFailed
              ("SleepInfo " +:+ go_quote sleepInfoName +:+ " not found in namespace "
               +:+ go_quote namespace)
          else gret (noResult, Some e)
      | Ok sleepInfo =>
          ow <~ gtry (setOwnerReference execution sleepInfo);;
          match ow with
          | Err e => gret (noResult, Some e)
          | Ok execution =>
              let secretName := getSecretName (si_Name sleepInfo) in
              sec <~ fetchSecret secretName namespace;;
              match sec with
              | Err e => gret (noResult, Some e)
              | Ok secret =>
                  let op := Operation (se_Spec execution) in
                  let isAsleep := secretAsleep secret in
                  if String.eqb op ExecutionOpWake && negb isAsleep then
                    updateExecutionStatus execution now ExecutionPhaseSkipped
                      "resources are not asleep, nothing to wake up"
                  else if String.eqb op ExecutionOpSleep && isAsleep then
                    updateExecutionStatus execution now ExecutionPhaseSkipped
                      "resources are already asleep"
                  else
                    match getSleepInfoData secret sleepInfo with
                    | Err e => gret (noResult, Some e)
                    | Ok data =>
                        match applyExecutionOverride data op sleepInfo with
                        | Err e => updateExecutionStatus execution now ExecutionPhaseFailed (err_msg e)
                        | Ok data => perform r namespace secretName execution sleepInfo secret data now
                        end
                    end
              end
          end
      end
  end.
End Execution.
End Execution.
