(* ===== verification/ReconcileSpec.v ===== *)
(** * Theorems on the SleepInfo reconciler

    For every API server, every clock and every order of iteration: what a
    reconciliation writes and in which order, when it does, when it runs again,
    and how the secret moves between awake and asleep. *)

From S2P Require Import Prelude GoStrings GoTime GoJson GoAny Api Libs Client RestoreData.
From S2P Require Import SleepInfoData Schedule Patcher Resource ManagedResources.
From S2P Require Import ManagedResourcesSpec SleepWakeSpec Secrets Reconcile Execution.

Section Helpers.
Context {SL : SelectorLib} {CL : ClientLib}.

Definition read (c : Call) : Prop := is_write c = false.

Lemma call_effect {A} c (f : ApiState -> result A * ApiState) w :
  (call c f w).1 = (f (w_api w)).1
  /\ w_trace (call c f w).2 = w_trace w ++ [c]
  /\ w_now (call c f w).2 = w_now w /\ w_api (call c f w).2 = (f (w_api w)).2.
Proof. unfold call. by destruct (f (w_api w)). Qed.
End Helpers.

Section Reconcile.
Context {CR : CronLib} {PL : PatchLib} {UL : UnstructuredLib} {SL : SelectorLib} {CL : ClientLib}
  {MR : MapRange}.

Lemma pair_eq {A B} (x : A * B) a : x.1 = a -> x = (a, x.2).
Proof. destruct x. by intros <-. Qed.

(** What [fetchSecret] makes of the answer of the server. *)
Definition found_secret (r : result Secret) : result (option Secret) :=
  match r with
  | Ok s => Ok (Some s)
  | Err e => if IsNotFound e then Ok None else Err e
  end.

Lemma fetchSecret_effect name ns w :
  (fetchSecret name ns w).1 = Ok (found_secret (api_GetSecret ns name (w_api w)).1)
  /\ w_trace (fetchSecret name ns w).2 = w_trace w ++ [CGetSecret ns name]
  /\ w_now (fetchSecret name ns w).2 = w_now w.
Proof.
  unfold fetchSecret, getSecret, GetSecret. rewrite bind_try. cbn.
  destruct (call_effect (CGetSecret ns name) (api_GetSecret ns name) w) as (-> & -> & -> & _).
  split; [|done]. f_equal. destruct (api_GetSecret _ _ _).1 as [|e]; [done|].
  unfold found_secret, IgnoreNotFound. by destruct (IsNotFound e).
Qed.

(** The SleepInfo and the secret a reconciliation at [w] reads. *)
Definition reads (ns name : string) (w : World) (s : SleepInfo) (secret : option Secret) : Prop :=
  (api_GetSleepInfo ns name (w_api w)).1 = Ok s
  /\ found_secret (api_GetSecret ns (getSecretName name) (api_GetSleepInfo ns name (w_api w)).2).1
     = Ok secret.

(** How a reconciliation ends before [NewResources]. *)
Inductive stops (r : SleepInfoReconciler) (ns name : string) (w : World) : Outcome -> Prop :=
| stops_get e :
    (api_GetSleepInfo ns name (w_api w)).1 = Err e ->
    stops r ns name w (noResult, IgnoreNotFound (Some e))
| stops_error e : stops r ns name w (noResult, Some e)
| stops_not_due s secret data next rq :
    reads ns name w s secret -> getSleepInfoData secret s = Ok data ->
    getNextSchedule (SleepDelta r) data (w_now w) = Ok (false, next, rq) ->
    stops r ns name w (requeueIn rq, None).

(** A reconciliation stops early after reads only, or gets to [execute] with the
    operation due. *)
Lemma Reconcile_inv r ns name w :
  exists w1 new, w_trace w1 = w_trace w ++ new /\ Forall read new
  /\ ((exists out, Reconcile r ns name w = (Ok out, w1) /\ stops r ns name w out)
      \/ exists s secret data next rq,
           reads ns name w s secret
           /\ getSleepInfoData secret s = Ok data
           /\ getNextSchedule (SleepDelta r) data (w_now w) = Ok (true, next, rq)
           /\ Reconcile r ns name w
              = execute r ns (getSecretName name) s secret data (w_now w) next rq w1).
Proof.
  unfold Reconcile, getSleepInfo, GetSleepInfo. rewrite bind_try.
  destruct (call_effect (CGetSleepInfo ns name) (api_GetSleepInfo ns name) w) as (E1 & T1 & N1 & A1).
  set (w1 := (call (CGetSleepInfo ns name) (api_GetSleepInfo ns name) w).2) in *. rewrite E1.
  destruct (api_GetSleepInfo ns name (w_api w)).1 as [s|e] eqn:Es.
  2: { exists ((if IsNotFound e then gauge_Delete name ns else gret tt) w1).2, [CGetSleepInfo ns name].
       split; [by destruct (IsNotFound e)|]. split; [by repeat constructor|].
       left. eexists. split; [by destruct (IsNotFound e)|]. by constructor. }
  rewrite (bind_run _ _ _ tt (gauge_Set name ns 1 w1).2) by done.
  set (w2 := (gauge_Set name ns 1 w1).2).
  assert (w_trace w2 = w_trace w1 /\ w_now w2 = w_now w1 /\ w_api w2 = w_api w1) as (T2 & N2 & A2) by done.
  clearbody w2. cbv zeta.
  destruct (fetchSecret_effect (getSecretName name) ns w2) as (E3 & T3 & N3).
  rewrite A2, A1 in E3.
  rewrite (bind_run _ _ _ _ _ (pair_eq _ _ E3)). set (w3 := (fetchSecret _ _ _).2) in *.
  rewrite T2, T1, <- app_assoc in T3. rewrite N2, N1 in N3.
  exists w3, [CGetSleepInfo ns name; CGetSecret ns (getSecretName name)].
  split; [done|]. split; [by repeat constructor|].
  destruct (found_secret _) as [secret|e] eqn:Ef; [|left; eexists; split; [done|]; constructor].
  destruct (getSleepInfoData secret s) as [data|e] eqn:Ed; [|left; eexists; split; [done|]; constructor].
  unfold Now, gbind. rewrite N3.
  destruct (getNextSchedule _ data (w_now w)) as [[[due next] rq]|e] eqn:En;
    [|left; eexists; split; [done|]; constructor].
  destruct due; cbn [negb].
  - right. exists s, secret, data, next, rq. by repeat split.
  - left. eexists. split; [done|]. econstructor; [|done|done]. by split.
Qed.

(** ** The operation *)

Definition written (s : SleepInfo) (now : Time) (op : string) : SleepInfo :=
  mkSleepInfo (si_Meta s) (si_Spec s) (mkSleepInfoStatus now op).

(** The calls of a sleep or of a wake up. *)
Definition op_call (c : Call) : Prop := only_applies c \/ only_patches c.

(** The secret write at the end of an operation, for the resources it leaves. *)
Definition secret_write (ns name : string) (secret : option Secret) (now : Time)
    (op : option string) (info : option string) (c : Call) : Prop :=
  exists sec,
    c = match secret with None => CCreateSecret sec | Some _ => CUpdateSecret sec end
    /\ (info = None \/ exists m, info = Some (Jsonpatch.marshal_restore m))
    /\ om_Name (sec_Meta sec) = name /\ om_Namespace (sec_Meta sec) = ns
    /\ sec_Data (convertSecretStringData sec) = Some (stored_data now op info).

Lemma runOperation_calls data g op :
  runOperation data g = Some op -> emits op_call op.
Proof.
  unfold runOperation. destruct (sleep_wake_emits g) as [Hs Hw].
  destruct (IsSleepOperation data); [|destruct (IsWakeUpOperation data)]; intros [= <-].
  - eapply emits_weaken; [exact Hs|]. by left.
  - eapply emits_weaken; [exact Hw|]. by right.
Qed.

(** An operation keeps the resources. *)
Lemma runOperation_keeps m data g op w g' w' :
  ready m g -> HasResource g = true -> runOperation data g = Some op -> op w = (Ok g', w') ->
  HasResource g' = true.
Proof.
  intros Hr Hg Hop H. rewrite HasResource_true in *. destruct Hg as (t & gr & Ht & Hd).
  unfold runOperation in Hop.
  destruct (IsSleepOperation data); [|destruct (IsWakeUpOperation data); [|done]];
    injection Hop as <-.
  - destruct (sleep_targets_ok _ _ _ _ _ Hr H t gr Ht) as (gr' & Ht' & (_ & _ & Hd') & _).
    exists t, gr'. by rewrite Hd'.
  - destruct (WakeUp_spec _ _ _ _ _ Hr H) as (_ & _ & Hall & _).
    destruct (Hall t gr Ht) as (gr' & Ht' & (_ & _ & Hd') & _). exists t, gr'. by rewrite Hd'.
Qed.

Section Ends.
Variables (r : SleepInfoReconciler) (ns sn : string) (s : SleepInfo) (secret : option Secret).
Variables (data : SleepInfoData) (now next : Time) (rq : Duration).

Definition status_call (g : managedResources) : Call :=
  CStatusSleepInfo (written s now (if HasResource g then CurrentOperationType data else "")).

(** The result when there is nothing to do and the secret was written. *)
Definition empty_outcome : Outcome :=
  if IsSleepOperation data then
    match skipWakeUpIfSleepNotPerformed (CurrentOperationSchedule data) next now with
    | Err _ => (noResult, None)
    | Ok d => (requeueIn d, None)
    end
  else (requeueIn rq, None).

(** The ends of a due operation on the resources [g], with the calls made after
    collecting them. *)
Inductive ends (g : managedResources) : Outcome -> list Call -> Prop :=
| ends_status e : ends g (noResult, Some e) [status_call g]
| ends_empty c out :
    HasResource g = false -> secret_write ns sn secret now None None c ->
    out = (requeueNow, None) \/ out = empty_outcome ->
    ends g out [status_call g; c]
| ends_failed ops res e :
    HasResource g = true -> Forall op_call ops -> ends g (res, Some e) (status_call g :: ops)
| ends_done op w2 w3 g' ops n c out :
    HasResource g = true -> runOperation data g = Some op -> op w2 = (Ok g', w3) ->
    w_trace w3 = w_trace w2 ++ ops -> Forall op_call ops ->
    secret_write ns sn secret now (saved_operation data g') (saved_info n data g') c ->
    out = (requeueNow, None) \/ out = (requeueIn rq, None) ->
    ends g out (status_call g :: ops ++ [c]).

Lemma upsert_effect data' g w :
  exists c, secret_write ns sn secret now (saved_operation data' g) (saved_info (w_tick w) data' g) c
    /\ w_trace (upsertSecret r now sn ns s secret data' g w).2 = w_trace w ++ [c].
Proof.
  destruct (upsertSecret_trace r now sn ns s secret data' g w) as (sec & Ht & Hn & Hns & Hd).
  eexists. split; [|exact Ht]. exists sec. split_and!; try done.
  unfold saved_info. destruct (_ && _); eauto.
Qed.

Lemma status_effect g w :
  w_trace (handleSleepInfoStatus now s (CurrentOperationType data) g w).2
  = w_trace w ++ [status_call g].
Proof.
  unfold handleSleepInfoStatus, StatusUpdateSleepInfo, status_call, written.
  match goal with |- context [call ?c ?f w] => destruct (call_effect c f w) as (_ & -> & _) end.
  by destruct (HasResource g).
Qed.

Lemma NewResources_ok m ns' rp w :
  exists g w1 new, NewResources (mkResourceClient true (Some s) m) ns' rp w = (Ok g, w1)
    /\ w_trace w1 = w_trace w ++ new /\ Forall read new
    /\ ready m g /\ map_Forall (fun _ gr => gr_data gr <> []) (resMapping g).
Proof.
  set (res := mkResourceClient true (Some s) m).
  destruct (NewResources_spec res s ns' rp w eq_refl) as (g & w1 & new & E & _ & Hm & _ & Ht & Hf).
  exists g, w1, new. split_and!; try done.
  - intros t gr Hg. destruct (Hm t gr Hg) as (-> & _ & _ & _ & _ & Hc). done.
  - intros t gr Hg. apply (Hm t gr Hg).
Qed.

(** A due operation collects the resources, then ends in one of these ways. *)
Lemma execute_inv w :
  exists g w1 rd out w' new,
    NewResources (mkResourceClient true (Some s) (ManagerName r)) ns
      (OriginalGenericResourceInfo data) w = (Ok g, w1)
    /\ ready (ManagerName r) g
    /\ w_trace w1 = w_trace w ++ rd /\ Forall read rd
    /\ execute r ns sn s secret data now next rq w = (Ok out, w')
    /\ w_trace w' = w_trace w1 ++ new /\ ends g out new.
Proof.
  destruct (NewResources_ok (ManagerName r) ns (OriginalGenericResourceInfo data) w)
    as (g & w1 & rd & EN & Ht & Hrd & Hready & _).
  exists g, w1, rd. unfold execute. rewrite bind_try, EN. cbn [fst snd]. rewrite bind_try.
  pose proof (status_effect g w1) as Hst.
  destruct (handleSleepInfoStatus now s (CurrentOperationType data) g w1) as [st w2]. cbn [fst snd] in *.
  destruct st as [u|e]; [|eexists _, _, _; split_and!; eauto; apply ends_status].
  destruct (HasResource g) eqn:Hg; cbn [negb].
  - destruct (runOperation data g) as [op|] eqn:Eop;
      [|eexists _, _, [status_call g]; split_and!; eauto; by apply ends_failed].
    rewrite bind_try. destruct (runOperation_calls _ _ _ Eop w2) as (ops & Hops & Hf).
    destruct (op w2) as [[g'|e] w3] eqn:E3; cbn [fst snd] in *;
      [|eexists _, _, (status_call g :: ops); split_and!; eauto; [|by apply ends_failed];
        cbn; by rewrite Hops, Hst, <- app_assoc].
    rewrite bind_try. destruct (upsert_effect data g' w3) as (c & Hc & Hct).
    destruct (upsertSecret r now sn ns s secret data g' w3) as [[u'|e] w4]; cbn [fst snd] in *;
      eexists _, _, (status_call g :: ops ++ [c]); split_and!; eauto;
      [|eapply ends_done; eauto| |eapply ends_done; eauto];
      cbn; by rewrite Hct, Hops, Hst, <- !app_assoc.
  - rewrite bind_try. destruct (upsert_effect data g w2) as (c & Hc & Hct).
    assert (saved_operation data g = None /\ saved_info (w_tick w2) data g = None) as [E1 E2].
    { unfold saved_operation, saved_info. by rewrite Hg. }
    rewrite E1, E2 in Hc.
    assert (forall out, out = (requeueNow, None) \/ out = empty_outcome -> ends g out [status_call g; c])
      as He by (intros; by apply ends_empty).
    destruct (upsertSecret r now sn ns s secret data g w2) as [[u'|e] w4]; cbn [fst snd] in *.
    + unfold empty_outcome in He. destruct (IsSleepOperation data);
        [destruct (skipWakeUpIfSleepNotPerformed _ _ _)|];
        eexists _, _, [status_call g; c]; split_and!; eauto; by rewrite Hct, Hst, <- app_assoc.
    + eexists _, _, [status_call g; c]; split_and!; eauto. by rewrite Hct, Hst, <- app_assoc.
Qed.
End Ends.

(** ** Theorems *)

Lemma ends_shape ns sn s secret data now next rq g out new :
  ends ns sn s secret data now next rq g out new ->
  exists ops sec, new = status_call s data now g :: ops ++ sec
    /\ Forall op_call ops /\ (length sec <= 1)%nat
    /\ Forall (fun c => is_secret_write c = true) sec
    /\ (out.2 <> None -> sec = []).
Proof.
  assert (forall op info c, secret_write ns sn secret now op info c ->
    Forall (fun c => is_secret_write c = true) [c]) as Hsec.
  { intros op info c (sec & -> & _). constructor; [by destruct secret|constructor]. }
  destruct 1 as [e|c out Hg Hc Ho|ops res e Hg Hf|op w2 w3 g' ops n c out Hg Hop Hrun Ht Hf Hc Ho].
  - exists [], []. split_and!; try done. cbn. lia.
  - exists [], [c]. split_and!; try done; [by eapply Hsec|].
    unfold empty_outcome in Ho. intros Hne. exfalso. apply Hne.
    destruct Ho as [->| ->]; [done|]. destruct (IsSleepOperation data); [|done].
    by destruct (skipWakeUpIfSleepNotPerformed _ _ _).
  - exists ops, []. rewrite app_nil_r. split_and!; try done. cbn. lia.
  - exists ops, [c]. split_and!; try done; [by eapply Hsec|]. by destruct Ho as [->| ->].
Qed.

(** [C4] The order of the effects.  A reconciliation always returns, and its
    calls are, in this order: reads; then, if the operation is due, one update
    of the status; the calls of the sleep or of the wake up, which write only
    by forced server-side apply or by merge patch; and at most one write of the
    secret, as the last call, which is missing whenever the reconciliation
    returns an error.  So the secret never announces an operation that
    failed. *)
Theorem reconcile_order r ns name w :
  exists out w' rd st ops sec,
    Reconcile r ns name w = (Ok out, w')
    /\ w_trace w' = w_trace w ++ rd ++ st ++ ops ++ sec
    /\ Forall read rd
    /\ ((st = [] /\ ops = [] /\ sec = []) \/ exists s', st = [CStatusSleepInfo s'])
    /\ Forall op_call ops
    /\ (length sec <= 1)%nat /\ Forall (fun c => is_secret_write c = true) sec
    /\ (out.2 <> None -> sec = []).
Proof.
  destruct (Reconcile_inv r ns name w) as (w1 & new & Ht & Hrd & [(out & E & _)|Hex]).
  - exists out, w1, new, [], [], []. rewrite !app_nil_r. split_and!; eauto.
  - destruct Hex as (s & secret & data & next & rq & _ & _ & _ & E).
    destruct (execute_inv r ns (getSecretName name) s secret data (w_now w) next rq w1)
      as (g & w2 & rd & out & w' & new' & _ & Hready & Ht2 & Hrd2 & Ex & Ht3 & Hends).
    destruct (ends_shape _ _ _ _ _ _ _ _ _ _ _ Hends) as (ops & sec & -> & Hops & Hl & Hs & He).
    exists out, w', (new ++ rd), [status_call s data (w_now w) g], ops, sec.
    split_and!; eauto; [congruence| |by apply Forall_app].
    by rewrite Ht3, Ht2, Ht, <- !app_assoc.
Qed.

(** A SleepInfo that is gone: the reconciliation makes one read, removes
    the gauge of the SleepInfo and returns without an error and without asking
    to run again. *)
Lemma reconcile_not_found r ns name w e :
  (api_GetSleepInfo ns name (w_api w)).1 = Err e -> IsNotFound e = true ->
  exists w', Reconcile r ns name w = (Ok (noResult, None), w')
    /\ w_trace w' = w_trace w ++ [CGetSleepInfo ns name]
    /\ w_gauge w' = delete (name, ns) (w_gauge w).
Proof.
  intros He Hn. unfold Reconcile, getSleepInfo, GetSleepInfo, call. rewrite bind_try.
  destruct (api_GetSleepInfo ns name (w_api w)) as [res a]. cbn in *. subst res.
  unfold IgnoreNotFound. rewrite Hn. by eexists.
Qed.

(** A secret write of a reconciliation, with the state it started from. *)
Lemma secret_write_inv r ns name w out w' new c :
  Reconcile r ns name w = (Ok out, w') -> w_trace w' = w_trace w ++ new ->
  In c new -> is_secret_write c = true ->
  exists s secret data next rq op info,
    reads ns name w s secret /\ getSleepInfoData secret s = Ok data
    /\ getNextSchedule (SleepDelta r) data (w_now w) = Ok (true, next, rq)
    /\ secret_write ns (getSecretName name) secret (w_now w) op info c
    /\ (op = None /\ info = None \/ op = Some (CurrentOperationType data))
    /\ In (CStatusSleepInfo (written s (w_now w) (default ""%string op))) new.
Proof.
  intros E Htr Hin Hc.
  assert (forall l, Forall read l -> ~ In c l) as Hnr.
  { intros l Hl Hi%list_elem_of_In. rewrite Forall_forall in Hl. specialize (Hl c Hi).
    unfold read in Hl. by destruct c. }
  destruct (Reconcile_inv r ns name w) as (w1 & new0 & Ht & Hrd & [(out' & E' & _)|Hex]).
  { rewrite E in E'. injection E' as -> <-. rewrite Ht in Htr.
    apply app_inv_head in Htr as <-. exfalso. by apply (Hnr new0). }
  destruct Hex as (s & secret & data & next & rq & Hr & Hd & Hn & E1).
  destruct (execute_inv r ns (getSecretName name) s secret data (w_now w) next rq w1)
    as (g & w2 & rd & out' & w'' & new' & _ & Hready & Ht2 & Hrd2 & Ex & Ht3 & Hends).
  rewrite E1, Ex in E. injection E as -> ->.
  rewrite Ht3, Ht2, Ht, <- !app_assoc in Htr. apply app_inv_head in Htr as <-.
  assert (In c new') as Hin'.
  { rewrite !in_app_iff in Hin. destruct Hin as [Hi|[Hi|Hi]]; [| |done]; exfalso; revert Hi; by apply Hnr. }
  assert (forall ops, Forall op_call ops -> ~ In c ops) as Hno.
  { intros ops Hl Hi%list_elem_of_In. rewrite Forall_forall in Hl.
    destruct (Hl c Hi) as [[Hx|(? & ? & ->)]|[Hx|(? & ? & ->)]]; try done; by destruct c. }
  assert (forall x, In x new' -> In x (new0 ++ rd ++ new')) as Hsub.
  { intros x Hx. rewrite !in_app_iff. auto. }
  exists s, secret, data, next, rq.
  destruct Hends as [e|c' out Hg Hc' Ho|ops res e Hg Hf|op w3 w4 g' ops n c' out Hg Hop Hrun Hto Hf Hc' Ho];
    unfold status_call in *; rewrite ?Hg in *.
  - by destruct Hin' as [<-|[]].
  - destruct Hin' as [<-|[<-|[]]]; [done|]. exists None, None. split_and!; eauto.
    by apply Hsub; left.
  - destruct Hin' as [<-|Hi]; [done|]. exfalso. revert Hi. by apply Hno.
  - destruct Hin' as [<-|Hi]; [done|].
    apply in_app_iff in Hi as [Hi|[<-|[]]]; [exfalso; revert Hi; by apply Hno|].
    exists (saved_operation data g'), (saved_info n data g').
    pose proof (runOperation_keeps _ _ _ _ _ _ _ Hready Hg Hop Hrun) as Hg'.
    split_and!; eauto; unfold saved_operation; rewrite Hg'; [by right|]. by apply Hsub; left.
Qed.

(** ** Awake and asleep

    The operation-type entry of the secret is the state of the namespace. *)

Inductive phase := Awake | Asleep.

Definition phase_of (secret : option Secret) : phase :=
  if Execution.secretAsleep secret then Asleep else Awake.

(** The machine the reconciler implements, where [wake] tells whether a wake up
    is configured: a sleep from awake, or again when nothing ever wakes the
    namespace up; a wake up from asleep; and, without resources, nothing, after
    which the namespace counts as awake. *)
Inductive op_step (wake : bool) : phase -> string -> phase -> Prop :=
| step_sleep ph : ph = Awake \/ wake = false -> op_step wake ph sleepOperation Asleep
| step_wake : wake = true -> op_step wake Asleep wakeUpOperation Awake
| step_nothing ph : op_step wake ph "" Awake.

Lemma phase_stored sec now op info :
  sec_Data (convertSecretStringData sec) = Some (stored_data now op info) ->
  phase_of (Some (convertSecretStringData sec))
  = if String.eqb (default ""%string op) sleepOperation then Asleep else Awake.
Proof.
  intros H. unfold phase_of, Execution.secretAsleep. rewrite H. cbn [default].
  destruct (stored_data_lookup now op info) as (_ & L & _). unfold id. by rewrite L.
Qed.

(** [C5] The reconciler refines the machine of awake and asleep: whenever it
    writes the secret, the state of the secret it read and the state of the
    secret the server then stores are related by one step of the machine, and
    the status update of the same run names the operation of that step.  Hence
    a wake up only ever follows a sleep, and two sleeps in a row happen only
    without a configured wake up. *)
Theorem reconcile_refines_phases r ns name w out w' new c :
  Reconcile r ns name w = (Ok out, w') -> w_trace w' = w_trace w ++ new ->
  In c new -> is_secret_write c = true ->
  exists s secret sec sleep wake op,
    reads ns name w s secret /\ schedules_of s sleep wake
    /\ (c = CCreateSecret sec \/ c = CUpdateSecret sec)
    /\ op_step (negb (String.eqb wake "")) (phase_of secret) op
         (phase_of (Some (convertSecretStringData sec)))
    /\ In (CStatusSleepInfo (written s (w_now w) op)) new.
Proof.
  intros E Ht Hin Hc.
  destruct (secret_write_inv _ _ _ _ _ _ _ _ E Ht Hin Hc)
    as (s & secret & data & next & rq & op & info & Hr & Hd & _ & (sec & Hsec & _ & _ & _ & Hst) & Hop & Hstat).
  destruct (operation_of secret s data Hd) as (sleep & wake & Hsch & Hsel).
  exists s, secret, sec, sleep, wake, (default ""%string op).
  split_and!; [done|done| | |done].
  - destruct secret; auto.
  - rewrite (phase_stored sec _ _ _ Hst). destruct Hop as [[-> ->]| ->]; cbn [default]; [constructor|].
    assert (match secret with
         | Some sec => match sec_Data sec with
                       | Some data => String.eqb (data_string data lastOperationKey) sleepOperation
                       | None => false
                       end
         | None => false
         end = Execution.secretAsleep secret) as Ha.
    { destruct secret as [x|]; [|done]. cbn. by destruct (sec_Data x). }
    cbv zeta in Hsel. rewrite Ha in Hsel. unfold phase_of.
    destruct (Execution.secretAsleep secret), (String.eqb wake ""); cbn [negb andb] in *;
      destruct Hsel as [-> _]; constructor; auto.
Qed.
End Reconcile.

(** ** When the reconciler acts, and when it comes back *)

Section Timing.
Context {CR : CronLib} {CW : CronLaws} {PL : PatchLib} {UL : UnstructuredLib} {SL : SelectorLib}
  {CL : ClientLib} {MR : MapRange}.

(** The assumptions on the clock and on the state read: a sensible delta, a
    present clock, a last run that is not before the zero time, and schedules
    that keep firing. *)
Record timely (d : Z) (now : Time) (data : SleepInfoData) (cur nxt : Schedule) : Prop := {
  timely_delta : delta_ok d;
  timely_now : d * Second <= instant now;
  timely_last : 0 <= instant (LastSchedule data);
  timely_cur : ParseStandard (CurrentOperationSchedule data) = Ok cur;
  timely_nxt : ParseStandard (NextOperationSchedule data) = Ok nxt;
  timely_cur_rec : recurring cur;
  timely_nxt_rec : recurring nxt
}.

Section Run.
Variables (r : SleepInfoReconciler) (ns name : string) (w : World).
Variables (s : SleepInfo) (secret : option Secret) (data : SleepInfoData) (cur nxt : Schedule).
Hypothesis Hreads : reads ns name w s secret.
Hypothesis Hdata : getSleepInfoData secret s = Ok data.
Hypothesis Htime : timely (SleepDelta r) (w_now w) data cur nxt.

Lemma reads_unique s' secret' data' :
  reads ns name w s' secret' -> getSleepInfoData secret' s' = Ok data' -> data' = data.
Proof using Hreads Hdata.
  intros [H1 H2] H3. destruct Hreads as [G1 G2]. congruence.
Qed.

(** [C9] The cluster changes only when an operation is due: if a
    reconciliation makes any write, then the schedule of the current operation
    fires within delta of the clock, after the last run. *)
Theorem reconcile_writes_only_when_due out w' new c :
  Reconcile r ns name w = (Ok out, w') -> w_trace w' = w_trace w ++ new ->
  In c new -> is_write c = true ->
  exists f, fires cur f
    /\ Z.abs (instant (w_now w) - f) < SleepDelta r * Second + Millisecond
    /\ (IsZero (LastSchedule data) = true \/ instant (LastSchedule data) < f).
Proof using CW Hreads Hdata Htime.
  intros E Ht Hin Hc.
  destruct (Reconcile_inv r ns name w) as (w1 & new0 & Ht0 & Hrd & [(out' & E' & _)|Hex]).
  - rewrite E in E'. injection E' as -> <-. rewrite Ht0 in Ht. apply app_inv_head in Ht as <-.
    apply list_elem_of_In in Hin. rewrite Forall_forall in Hrd. specialize (Hrd c Hin).
    unfold read in Hrd. congruence.
  - destruct Hex as (s' & secret' & data' & next & rq & Hr & Hd & Hn & _).
    rewrite (reads_unique _ _ _ Hr Hd) in Hn. destruct Htime. by eapply due_firing.
Qed.

(** [C10] A SleepInfo is never forgotten: every reconciliation of an existing
    SleepInfo with valid schedules returns an error, which makes the manager
    retry, or asks to run again, at once or after a positive delay. *)
Theorem reconcile_comes_back out w' :
  Reconcile r ns name w = (Ok out, w') ->
  out.2 <> None \/ Requeue out.1 = true \/ 0 < RequeueAfter out.1.
Proof using CW Hreads Hdata Htime.
  intros E. destruct Htime as [Hd Hnow Hlast Hcur Hnxt Hrc Hrn].
  assert (forall b next rq, getNextSchedule (SleepDelta r) data (w_now w) = Ok (b, next, rq) ->
    0 < rq /\ instant (w_now w) < instant next) as Hpos.
  { intros b next rq H.
    destruct (next_run _ _ _ _ Hd Hcur Hrc Hnow Hlast _ _ _ _ Hnxt Hrn H) as (-> & Hb & _).
    pose proof (delay_beyond _ _ Hd next Hb) as [[Hp _] _]. split; [done|].
    unfold delta_ok, Second in *. lia. }
  destruct (Reconcile_inv r ns name w) as (w1 & new0 & Ht0 & Hrd & [(out' & E' & Hs)|Hex]).
  - rewrite E in E'. injection E' as <- <-. destruct Hs as [e He|e|s' secret' data' next rq Hr Hd' Hn].
    + destruct Hreads as [Hg _]. congruence.
    + by left.
    + rewrite (reads_unique _ _ _ Hr Hd') in Hn. right. right. by apply (Hpos _ _ _ Hn).
  - destruct Hex as (s' & secret' & data' & next & rq & Hr & Hd' & Hn & E1).
    rewrite (reads_unique _ _ _ Hr Hd') in *. destruct (Hpos _ _ _ Hn) as [Hrq Hnext].
    destruct (execute_inv r ns (getSecretName name) s' secret' data (w_now w) next rq w1)
      as (g & w2 & rd & out' & w'' & new' & _ & _ & _ & _ & Ex & _ & Hends).
    rewrite E1, Ex in E. injection E as -> ->.
    destruct Hends as [e|c out Hg Hc [-> | ->]|ops res e Hg Hf
      |op w3 w4 g' ops n c out Hg Hop Hrun Hto Hf Hc [-> | ->]]; auto; try by left.
    unfold empty_outcome, skipWakeUpIfSleepNotPerformed, getCronParsed. rewrite Hcur.
    right. right. destruct (IsSleepOperation data); [|done]. cbn.
    destruct (recurring_next cur next Hrc) as (N & _); [unfold delta_ok, Second in *; lia|].
    apply saturate64_pos. lia.
Qed.
End Run.
End Timing.
