(* ===== verification/Gauge.v ===== *)
(** * The gauge of SleepInfos

    [current_sleepinfo] has an entry per SleepInfo the reconciler has seen and
    not seen deleted.  Only [gauge_Set] and [gauge_Delete] touch it: every other
    step of a reconciliation, whatever fails, keeps it. *)

From S2P Require Import Prelude GoStrings GoTime GoJson GoAny Api Libs Client RestoreData.
From S2P Require Import SleepInfoData Schedule Patcher Resource ManagedResources Secrets.
From S2P Require Import Reconcile Execution ReconcileSpec.

Section Gauge.
Context {CR : CronLib} {PL : PatchLib} {UL : UnstructuredLib} {SL : SelectorLib} {CL : ClientLib}
  {MR : MapRange}.
Variable G : gmap (string * string) Z.

Definition gauge_is (w : World) : Prop := w_gauge w = G.

Lemma keeps_call {A} c (f : ApiState -> result A * ApiState) : keeps gauge_is (call c f).
Proof. intros w Hw. unfold call. by destruct (f (w_api w)). Qed.

Lemma keeps_now : keeps gauge_is Now.
Proof. by intros w Hw. Qed.

Lemma keeps_tick : keeps gauge_is tick.
Proof. by intros w Hw. Qed.

Lemma keeps_range {K A} `{Countable K} (m : gmap K A) : keeps gauge_is (range_map m).
Proof. by intros w Hw. Qed.
End Gauge.

#[export] Hint Resolve keeps_call keeps_now keeps_tick keeps_range : go.

Section Reconcilers.
Context {CR : CronLib} {PL : PatchLib} {UL : UnstructuredLib} {SL : SelectorLib} {CL : ClientLib}
  {MR : MapRange}.
Variable G : gmap (string * string) Z.

Lemma keeps_wrap {A} f (c : M World A) : keeps (gauge_is G) c -> keeps (gauge_is G) (wrap_err f c).
Proof. intros H. unfold wrap_err. keeps_tac. Qed.

Lemma keeps_ignoring c : keeps (gauge_is G) c -> keeps (gauge_is G) (ignoring_not_found c).
Proof. intros H. unfold ignoring_not_found. keeps_tac. Qed.

Lemma keeps_list s ns t : keeps (gauge_is G) (getListByNamespace s ns t).
Proof. unfold getListByNamespace, RESTMapping, ListObjects. keeps_tac. Qed.

Lemma keeps_refresh ns gr : keeps (gauge_is G) (refresh ns gr).
Proof.
  unfold refresh. destruct (gr_isCacheInvalid gr); [|auto with go].
  destruct (rc_SleepInfo (gr_client gr)); [|auto with go].
  apply keeps_bind; [apply keeps_wrap, keeps_list|auto with go].
Qed.

Lemma keeps_for_targets step order mapping :
  (forall gr, keeps (gauge_is G) (step gr)) -> keeps (gauge_is G) (for_targets step order mapping).
Proof.
  intros H. revert mapping. induction order as [|[t gr] order IH]; intros mapping; cbn; [auto with go|].
  by apply keeps_bind.
Qed.

Lemma keeps_sleep_resources p l gr : keeps (gauge_is G) (sleep_resources p gr l).
Proof.
  revert gr. induction l as [|r l IH]; intros gr; cbn; [auto with go|].
  apply keeps_bind; [|done]. unfold sleep_resource, assign_restore, buildSparseApplyObject, SSAPatch, ApplyObject.
  repeat first [ apply keeps_wrap | apply keeps_ignoring | apply keeps_bind; [|intros]
               | apply keeps_try | go_case | progress auto with go ].
Qed.

Lemma keeps_wake_resources p l gr : keeps (gauge_is G) (wake_resources p gr l).
Proof.
  revert gr. induction l as [|r l IH]; intros gr; cbn; [auto with go|].
  apply keeps_bind; [|done]. unfold wake_resource, PatchResource, PatchObject.
  repeat first [ apply keeps_wrap | apply keeps_ignoring | apply keeps_bind; [|intros]
               | apply keeps_try | go_case | progress auto with go ].
Qed.

Lemma keeps_operation data g op : runOperation data g = Some op -> keeps (gauge_is G) op.
Proof.
  assert (keeps (gauge_is G) (Sleep g) /\ keeps (gauge_is G) (WakeUp g)) as [Hs Hw].
  { split.
    - unfold Sleep. apply keeps_bind; [auto with go|]. intros order. apply keeps_bind; [|auto with go].
      apply keeps_for_targets. intros gr. unfold sleep_target. destruct (String.eqb _ ""); [auto with go|].
      apply keeps_bind; [apply keeps_wrap; auto with go|]. intros p.
      apply keeps_bind; [apply keeps_refresh|]. intros gr'. apply keeps_sleep_resources.
    - unfold WakeUp. apply keeps_bind; [auto with go|]. intros order. apply keeps_bind; [|auto with go].
      apply keeps_for_targets. intros gr. unfold wake_target.
      apply keeps_bind; [apply keeps_refresh|]. intros gr'.
      apply keeps_bind; [apply keeps_wrap; auto with go|]. intros p. apply keeps_wake_resources. }
  unfold runOperation. destruct (IsSleepOperation data); [by intros [= <-]|].
  destruct (IsWakeUpOperation data); [by intros [= <-]|done].
Qed.

Lemma keeps_new_resources res ns rp : keeps (gauge_is G) (NewResources res ns rp).
Proof.
  unfold NewResources. destruct (rc_SleepInfo res) as [s|]; [|auto with go].
  apply keeps_bind; [|auto with go]. generalize (∅ : gmap PatchTarget genericResource).
  induction (GetPatches s) as [|p ps IH]; intros m; cbn [NewResources_loop]; [auto with go|].
  apply keeps_bind; [apply keeps_try, keeps_list|]. intros [[|r l]|e]; apply IH.
Qed.

Lemma keeps_upsert r now name ns s secret data g :
  keeps (gauge_is G) (upsertSecret r now name ns s secret data g).
Proof. unfold upsertSecret, GetOriginalInfoToSave, CreateSecret, UpdateSecret. keeps_tac. Qed.

Lemma keeps_execute r ns sn s secret data now next rq :
  keeps (gauge_is G) (execute r ns sn s secret data now next rq).
Proof.
  unfold execute, handleSleepInfoStatus, StatusUpdateSleepInfo.
  repeat first [ apply keeps_bind; [|intros] | apply keeps_try, keeps_new_resources
               | apply keeps_try, keeps_upsert
               | eapply keeps_try, keeps_operation; eassumption | go_case | progress auto with go ].
Qed.

(** The reconciliation after the SleepInfo was found. *)
Lemma keeps_found r ns name sleepInfo :
  keeps (gauge_is G)
    (sec <~ fetchSecret (getSecretName name) ns;;
     match sec with
     | Err e => gret (noResult, Some e)
     | Ok secret =>
         match getSleepInfoData secret sleepInfo with
         | Err e => gret (noResult, Some e)
         | Ok data =>
             now <~ Now;;
             match getNextSchedule (SleepDelta r) data now with
             | Err e => gret (noResult, Some e)
             | Ok (isToExecute, nextSchedule, requeueAfter) =>
                 if negb isToExecute then gret (requeueIn requeueAfter, None)
                 else execute r ns (getSecretName name) sleepInfo secret data now nextSchedule
                        requeueAfter
             end
         end
     end).
Proof.
  apply keeps_bind.
  { unfold fetchSecret, getSecret, GetSecret. apply keeps_bind; auto with go. }
  intros [secret|e]; [|auto with go]. destruct (getSleepInfoData secret sleepInfo); [|auto with go].
  apply keeps_bind; [auto with go|]. intros now.
  destruct (getNextSchedule _ _ now) as [[[due next] rq]|]; [|auto with go].
  destruct due; cbn [negb]; [apply keeps_execute|auto with go].
Qed.
End Reconcilers.

Section Follows.
Context {CR : CronLib} {PL : PatchLib} {UL : UnstructuredLib} {SL : SelectorLib} {CL : ClientLib}
  {MR : MapRange}.

(** The gauge after a reconciliation, by what the server answered for the
    SleepInfo. *)
Definition gauge_after (name ns : string) (answer : result SleepInfo)
    (gauge : gmap (string * string) Z) : gmap (string * string) Z :=
  match answer with
  | Ok _ => <[(name, ns) := 1]> gauge
  | Err e => if IsNotFound e then delete (name, ns) gauge else gauge
  end.

(** [C29] The gauge follows the SleepInfos: a reconciliation sets the entry of a
    SleepInfo that exists to one, removes that of a SleepInfo that is gone, and
    changes nothing else, whatever fails afterwards. *)
Theorem gauge_follows_sleepinfos r ns name w :
  w_gauge (Reconcile.Reconcile r ns name w).2
  = gauge_after name ns (api_GetSleepInfo ns name (w_api w)).1 (w_gauge w).
Proof.
  unfold Reconcile.Reconcile, getSleepInfo, GetSleepInfo. rewrite bind_try.
  assert (w_gauge (call (CGetSleepInfo ns name) (api_GetSleepInfo ns name) w).2 = w_gauge w) as Hg.
  { unfold call. by destruct (api_GetSleepInfo _ _ _). }
  destruct (call_effect (CGetSleepInfo ns name) (api_GetSleepInfo ns name) w) as (-> & _).
  set (w1 := (call _ _ w).2) in *. clearbody w1.
  destruct (api_GetSleepInfo ns name (w_api w)).1 as [s|e]; cbn [gauge_after].
  - rewrite (bind_run _ _ _ tt (gauge_Set name ns 1 w1).2) by done.
    apply (keeps_found (<[(name, ns) := 1]> (w_gauge w)) r ns name s). unfold gauge_is. cbn. by rewrite Hg.
  - destruct (IsNotFound e); cbn; by rewrite Hg.
Qed.
End Follows.
