(* ===== verification/ExecutionSpec.v ===== *)
(** * Theorems on on-demand executions

    An execution is processed once, ends in a terminal phase unless an error
    makes the manager retry it, and acts only from the phase its operation
    asks for. *)

From S2P Require Import Prelude GoStrings GoTime GoJson GoAny Api Libs Client RestoreData.
From S2P Require Import SleepInfoData Schedule Patcher Resource ManagedResources.
From S2P Require Import ManagedResourcesSpec SleepWakeSpec Secrets Reconcile Execution.
From S2P Require Import ReconcileSpec.
Import Execution.

Section Spec.
Context {CR : CronLib} {PL : PatchLib} {UL : UnstructuredLib} {SL : SelectorLib} {CL : ClientLib}
  {MR : MapRange}.

Lemma read_op c : read c -> op_call c.
Proof. intros H. left. by left. Qed.

Definition terminal (phase : string) : Prop :=
  phase = ExecutionPhaseSucceeded \/ phase = ExecutionPhaseFailed \/ phase = ExecutionPhaseSkipped.

Lemma finished_processed e now phase msg :
  terminal phase -> IsProcessed (finished e now phase msg) = true.
Proof. by intros [->|[->| ->]]. Qed.

(** The status update that ends an execution. *)
Definition final_call (execution : SleepInfoExecution) (now : Time) (c : Call) : Prop :=
  exists phase msg, terminal phase /\ c = CStatusExecution (finished execution now phase msg).

Lemma status_update_effect execution now phase msg w :
  terminal phase ->
  exists out w' c, updateExecutionStatus execution now phase msg w = (Ok out, w')
    /\ w_trace w' = w_trace w ++ [c] /\ final_call execution now c.
Proof.
  intros Hp. unfold updateExecutionStatus, StatusUpdateExecution. rewrite bind_try.
  match goal with |- context [call ?c ?f w] => destruct (call_effect c f w) as (_ & Ht & _) end.
  eexists _, _, _. split; [done|]. split; [exact Ht|]. by eexists _, _.
Qed.

(** The secret write of an accepted operation: it saves what the operation left of
    the resources that the run collected. *)
Definition operation_write (r : SleepInfoReconciler) (ns sn : string) (s : SleepInfo)
    (secret : option Secret) (data : SleepInfoData) (now : Time) (c : Call) : Prop :=
  exists g w0 w1 op g' w2 n,
    NewResources (mkResourceClient true (Some s) (ManagerName r)) ns (OriginalGenericResourceInfo data) w0
    = (Ok g, w1)
    /\ HasResource g = true /\ runOperation data g = Some op /\ op w1 = (Ok g', w2)
    /\ secret_write ns sn secret now (Some (CurrentOperationType data)) (saved_info n data g') c.

(** The calls of an accepted operation: the workload, then the secret, then the
    status of the SleepInfo, then the status of the execution; an error stops
    after any of them. *)
Inductive performed (r : SleepInfoReconciler) (ns sn : string) (execution : SleepInfoExecution)
    (s : SleepInfo) (secret : option Secret) (data : SleepInfoData) (now : Time)
    : Outcome -> list Call -> Prop :=
| performed_failed ops res e :
    Forall op_call ops -> performed r ns sn execution s secret data now (res, Some e) ops
| performed_skipped rd c out :
    Forall read rd -> final_call execution now c ->
    performed r ns sn execution s secret data now out (rd ++ [c])
| performed_secret ops c res e :
    Forall op_call ops -> operation_write r ns sn s secret data now c ->
    performed r ns sn execution s secret data now (res, Some e) (ops ++ [c])
| performed_status ops c st res e :
    Forall op_call ops -> operation_write r ns sn s secret data now c ->
    performed r ns sn execution s secret data now (res, Some e) (ops ++ [c; CStatusSleepInfo st])
| performed_done ops c st x out :
    Forall op_call ops -> operation_write r ns sn s secret data now c ->
    final_call execution now x ->
    performed r ns sn execution s secret data now out (ops ++ [c; CStatusSleepInfo st; x]).

Lemma perform_inv r ns sn execution s secret data now w :
  is_Some (runOperation data (mkManagedResources ∅ ns)) ->
  exists out w' new,
    perform r ns sn execution s secret data now w = (Ok out, w')
    /\ w_trace w' = w_trace w ++ new /\ performed r ns sn execution s secret data now out new.
Proof.
  intros Hsome. unfold perform.
  destruct (NewResources_ok s (ManagerName r) ns (OriginalGenericResourceInfo data) w)
    as (g & w1 & rd & EN & Ht & Hrd & Hready & _).
  rewrite bind_try, EN. cbn [fst snd].
  assert (Forall op_call rd) as Hrd' by (eapply Forall_impl; [exact Hrd|apply read_op]).
  destruct (HasResource g) eqn:Hg; cbn [negb]; last first.
  { destruct (status_update_effect execution now ExecutionPhaseSkipped
      "no resources to handle in namespace" w1) as (out & w' & c & -> & Ht' & Hc); [by right; right|].
    eexists _, _, (rd ++ [c]). split; [done|]. split; [by rewrite Ht', Ht, <- app_assoc|].
    by apply performed_skipped. }
  assert (is_Some (runOperation data g)) as (op & Eop).
  { unfold runOperation in *. destruct (IsSleepOperation data); [done|]. by destruct (IsWakeUpOperation data). }
  rewrite Eop, bind_try. destruct (runOperation_calls _ _ _ Eop w1) as (ops & Hops & Hf).
  rewrite Ht, <- app_assoc in Hops.
  assert (Forall op_call (rd ++ ops)) as Hall by (by apply Forall_app).
  destruct (op w1) as [[g'|e] w2] eqn:E2; cbn [fst snd] in *;
    [|eexists _, _, (rd ++ ops); split_and!; eauto; by constructor].
  pose proof (runOperation_keeps _ _ _ _ _ _ _ Hready Hg Eop E2) as Hg'.
  rewrite bind_try. destruct (upsert_effect r ns sn s secret now data g' w2) as (c & Hc & Hct).
  assert (saved_operation data g' = Some (CurrentOperationType data)) as Eo
    by (unfold saved_operation; by rewrite Hg').
  rewrite Eo in Hc.
  assert (operation_write r ns sn s secret data now c) as Hw.
  { exists g, w, w1, op, g', w2, (w_tick w2). done. }
  destruct (upsertSecret r now sn ns s secret data g' w2) as [[u|e] w3]; cbn [fst snd] in *;
    [|eexists _, _, ((rd ++ ops) ++ [c]); split_and!; eauto;
      [by rewrite Hct, Hops, <- !app_assoc|by eapply performed_secret]].
  rewrite bind_try. pose proof (status_effect s data now g' w3) as Hst.
  destruct (handleSleepInfoStatus now s (CurrentOperationType data) g' w3) as [[u'|e] w4]; cbn [fst snd] in *;
    [|eexists _, _, ((rd ++ ops) ++ [c; _]); split_and!; eauto;
      [by rewrite Hst, Hct, Hops, <- !app_assoc|by eapply performed_status]].
  destruct (status_update_effect execution now ExecutionPhaseSucceeded
    ("operation " +:+ Operation (se_Spec execution) +:+ " executed") w4)
    as (out & w' & x & -> & Ht' & Hx); [by left|].
  eexists _, _, ((rd ++ ops) ++ [c; _; x]). split; [done|].
  split; [by rewrite Ht', Hst, Hct, Hops, <- !app_assoc|]. by eapply performed_done.
Qed.

(** ** The whole run *)

(** Before the operation: reads, and the update that sets the owner. *)
Definition early_call (c : Call) : Prop := read c \/ exists e, c = CUpdateExecution e.

(** The operation is accepted: the guards passed and the override applied. *)
Definition accepted (op : string) (s : SleepInfo) (secret : option Secret) (data : SleepInfoData) : Prop :=
  (exists data0, getSleepInfoData secret s = Ok data0 /\ applyExecutionOverride data0 op s = Ok data)
  /\ (op = ExecutionOpWake -> secretAsleep secret = true)
  /\ (op = ExecutionOpSleep -> secretAsleep secret = false).

(** What a run that gets to the operation has read: the SleepInfo the execution
    names, the execution with its owner set, and the secret. *)
Definition fetched (ns name : string) (w : World) (e execution : SleepInfoExecution)
    (s : SleepInfo) (secret : option Secret) : Prop :=
  let si := api_GetSleepInfo ns (SleepInfoName (se_Spec e)) (api_GetExecution ns name (w_api w)).2 in
  si.1 = Ok s
  /\ exists w2 w3, w_api w2 = si.2 /\ setOwnerReference e s w2 = (Ok execution, w3)
       /\ found_secret (api_GetSecret ns (getSecretName (si_Name s)) (w_api w3)).1 = Ok secret.

(** How a run ends; [F] relates what it has read. *)
Inductive run (F : SleepInfoExecution -> SleepInfo -> option Secret -> Prop) (r : SleepInfoReconciler)
    (ns : string) (now : Time)
    : Outcome -> list Call -> Prop :=
| run_error new res e : Forall early_call new -> run F r ns now (res, Some e) new
| run_final new c execution out :
    Forall early_call new -> final_call execution now c -> run F r ns now out (new ++ [c])
| run_perform new execution s secret data out calls :
    Forall early_call new -> F execution s secret ->
    accepted (Operation (se_Spec execution)) s secret data ->
    performed r ns (getSecretName (si_Name s)) execution s secret data now out calls ->
    run F r ns now out (new ++ calls).

Lemma accepted_runs op s secret data ns :
  accepted op s secret data -> is_Some (runOperation data (mkManagedResources ∅ ns)).
Proof.
  intros ((data0 & _ & H) & _). unfold applyExecutionOverride in H. rbind_inv H.
  destruct (String.eqb op ExecutionOpSleep); [injection H as <-; eexists; done|].
  destruct (String.eqb op ExecutionOpWake); [|done].
  destruct (String.eqb a0 ""); [done|]. injection H as <-. by eexists.
Qed.

Lemma setOwnerReference_effect e s w :
  exists new, w_trace (setOwnerReference e s w).2 = w_trace w ++ new
    /\ Forall early_call new /\ w_now (setOwnerReference e s w).2 = w_now w.
Proof.
  unfold setOwnerReference, gbind, glift.
  destruct (SetOwnerReference s e) as [e0|er];
    [|exists []; rewrite app_nil_r; repeat split; constructor].
  destruct (_ =? _)%nat; [exists []; rewrite app_nil_r; repeat split; constructor|].
  unfold UpdateExecution. exists [CUpdateExecution e0].
  destruct (call_effect (CUpdateExecution e0) (api_UpdateExecution e0) w) as (_ & -> & -> & _).
  split; [done|]. split; [|done]. constructor; [right; eauto|constructor].
Qed.

(** Ends a branch that writes the final status. *)
Lemma final_run F r ns now execution phase msg w w0 new :
  terminal phase -> w_trace w = w_trace w0 ++ new -> Forall early_call new ->
  exists out w' new',
    updateExecutionStatus execution now phase msg w = (Ok out, w')
    /\ w_trace w' = w_trace w0 ++ new' /\ run F r ns now out new'.
Proof.
  intros Hp Ht Hn. destruct (status_update_effect execution now phase msg w Hp)
    as (out & w' & c & E & Ht' & Hc).
  exists out, w', (new ++ [c]). split_and!; [done|by rewrite Ht', Ht, <- app_assoc|].
  by eapply run_final.
Qed.

Lemma error_run F r ns now (e : error) (res : Result) w w0 new :
  w_trace w = w_trace w0 ++ new -> Forall early_call new ->
  exists out w' new', (Ok (res, Some e), w) = (Ok out, w')
    /\ w_trace w' = w_trace w0 ++ new' /\ run F r ns now out new'.
Proof. intros Ht Hn. eexists _, _, _. split_and!; eauto. by constructor. Qed.

(** The run after the guards. *)
Lemma guarded_run (F : SleepInfoExecution -> SleepInfo -> option Secret -> Prop)
    r ns e1 s secret now w w0 new :
  F e1 s secret ->
  w_trace w = w_trace w0 ++ new -> Forall early_call new ->
  let op := Operation (se_Spec e1) in
  (op = ExecutionOpWake -> secretAsleep secret = true) ->
  (op = ExecutionOpSleep -> secretAsleep secret = false) ->
  exists out w' new',
    match getSleepInfoData secret s with
    | Err e => gret (noResult, Some e)
    | Ok data =>
        match applyExecutionOverride data op s with
        | Err e => updateExecutionStatus e1 now ExecutionPhaseFailed (err_msg e)
        | Ok data => perform r ns (getSecretName (si_Name s)) e1 s secret data now
        end
    end w = (Ok out, w')
    /\ w_trace w' = w_trace w0 ++ new' /\ run F r ns now out new'.
Proof.
  intros HF Ht Hn op Hw Hs.
  destruct (getSleepInfoData secret s) as [data0|er] eqn:Ed; [|by eapply error_run].
  destruct (applyExecutionOverride data0 op s) as [data|er] eqn:Eo;
    [|eapply final_run; [by right; left|exact Ht|done]].
  assert (accepted op s secret data) as Hacc by (split_and!; eauto).
  destruct (perform_inv r ns (getSecretName (si_Name s)) e1 s secret data now w
    (accepted_runs _ _ _ _ ns Hacc)) as (out & w' & calls & Ex & Ht' & Hperf).
  exists out, w', (new ++ calls). split_and!; [done|by rewrite Ht', Ht, <- app_assoc|].
  by eapply run_perform.
Qed.

Lemma Execution_inv r ns name w e :
  (api_GetExecution ns name (w_api w)).1 = Ok e -> IsProcessed e = false ->
  exists out w' new, Reconcile r ns name w = (Ok out, w')
    /\ w_trace w' = w_trace w ++ new /\ run (fetched ns name w e) r ns (w_now w) out new.
Proof.
  intros He Hp. unfold Reconcile, GetExecution. rewrite bind_try.
  destruct (call_effect (CGetExecution ns name) (api_GetExecution ns name) w) as (E1 & T1 & N1 & A1).
  rewrite E1, He, Hp. set (w1 := (call _ _ w).2) in *. clearbody w1.
  rewrite (bind_run _ _ _ (w_now w1) w1) by done. rewrite N1. cbv zeta.
  unfold GetSleepInfo. rewrite bind_try.
  set (c2 := CGetSleepInfo ns (SleepInfoName (se_Spec e))).
  destruct (call_effect c2 (api_GetSleepInfo ns (SleepInfoName (se_Spec e))) w1) as (E2 & T2 & N2 & A2).
  set (w2 := (call c2 _ w1).2) in *. clearbody w2.
  rewrite T1, <- app_assoc in T2. rewrite N1 in N2.
  assert (Forall early_call ([CGetExecution ns name] ++ [c2])) as F2 by (repeat constructor).
  destruct (call c2 _ w1).1 as [s|er] eqn:Esi; last first.
  { destruct (IsNotFound er); [|by eapply error_run]. eapply final_run; [by right; left|exact T2|done]. }
  rewrite bind_try. destruct (setOwnerReference_effect e s w2) as (own & T3 & F3 & N3).
  destruct (setOwnerReference e s w2) as [[e1|er] w3] eqn:Eown; cbn [fst snd] in *;
    rewrite T2, <- app_assoc in T3;
    assert (Forall early_call (([CGetExecution ns name] ++ [c2]) ++ own)) as F3' by (by apply Forall_app);
    [|by eapply error_run].
  destruct (fetchSecret_effect (getSecretName (si_Name s)) ns w3) as (E4 & T4 & N4).
  rewrite (bind_run _ _ _ _ _ (pair_eq _ _ E4)). set (w4 := (fetchSecret _ _ _).2) in *. clearbody w4.
  rewrite T3, <- app_assoc in T4.
  set (c4 := CGetSecret ns (getSecretName (si_Name s))) in *.
  assert (Forall early_call ((([CGetExecution ns name] ++ [c2]) ++ own) ++ [c4])) as F4
    by (apply Forall_app; split; [done|repeat constructor]).
  destruct (found_secret _) as [secret|er] eqn:Esec; [|by eapply error_run].
  assert (fetched ns name w e e1 s secret) as HF.
  { split; [by rewrite <- A1, <- E2|]. exists w2, w3. by rewrite A2, A1. }
  pose proof (guarded_run (fetched ns name w e) r ns e1 s secret (w_now w) w4 w _ HF T4 F4) as Hrest. cbv zeta in Hrest.
  destruct (String.eqb_spec (Operation (se_Spec e1)) ExecutionOpWake) as [Ew|Ew],
    (secretAsleep secret) eqn:Ea; cbn [andb negb];
    (destruct (String.eqb_spec (Operation (se_Spec e1)) ExecutionOpSleep) as [Es|Es]; cbn [andb];
     try (eapply final_run; [by right; right|exact T4|done]); apply Hrest; intros; congruence).
Qed.

(** ** Theorems *)

(** An execution is processed once: when its phase is terminal, the
    reconciler reads it and does nothing else. *)
Lemma execution_processed_once r ns name w e :
  (api_GetExecution ns name (w_api w)).1 = Ok e -> IsProcessed e = true ->
  exists w', Reconcile r ns name w = (Ok (noResult, None), w')
    /\ w_trace w' = w_trace w ++ [CGetExecution ns name].
Proof.
  intros He Hp. unfold Reconcile, GetExecution. rewrite bind_try.
  destruct (call_effect (CGetExecution ns name) (api_GetExecution ns name) w) as (E1 & T1 & _).
  rewrite E1, He, Hp. by eexists.
Qed.

Definition is_status_execution (c : Call) : bool :=
  match c with CStatusExecution _ => true | _ => false end.

Lemma no_status_early l : Forall early_call l -> Forall (fun c => is_status_execution c = false) l.
Proof.
  intros Hl. eapply Forall_impl; [exact Hl|]. intros c [H|(e & ->)]; [by destruct c|done].
Qed.

Lemma no_status_ops l : Forall op_call l -> Forall (fun c => is_status_execution c = false) l.
Proof.
  intros Hl. eapply Forall_impl; [exact Hl|]. intros c [[H|(? & ? & ->)]|[H|(? & ? & ->)]]; try done; by destruct c.
Qed.

Lemma no_status_secret r ns sn s secret data now c :
  operation_write r ns sn s secret data now c -> is_status_execution c = false.
Proof. intros (? & ? & ? & ? & ? & ? & ? & _ & _ & _ & _ & sec & -> & _). by destruct secret. Qed.

(** Splits off the final status of an operation. *)
Lemma performed_final r ns sn execution s secret data now out new :
  performed r ns sn execution s secret data now out new ->
  exists pre post, new = pre ++ post /\ Forall (fun c => is_status_execution c = false) pre
    /\ ((post = [] /\ out.2 <> None) \/ exists c, post = [c] /\ final_call execution now c).
Proof.
  destruct 1 as [ops res e Hf|rd c out Hf Hc|ops c res e Hf Hc|ops c st res e Hf Hc
                |ops c st x out Hf Hc Hx].
  - exists ops, []. rewrite app_nil_r. split_and!; [done|by apply no_status_ops|by left].
  - exists rd, [c]. split_and!; [done| |eauto].
    apply no_status_ops. eapply Forall_impl; [exact Hf|apply read_op].
  - exists (ops ++ [c]), []. rewrite app_nil_r. split_and!; [done| |by left].
    apply Forall_app. split; [by apply no_status_ops|]. repeat constructor. by eapply no_status_secret.
  - exists (ops ++ [c; CStatusSleepInfo st]), []. rewrite app_nil_r. split_and!; [done| |by left].
    apply Forall_app. split; [by apply no_status_ops|]. repeat constructor. by eapply no_status_secret.
  - exists (ops ++ [c; CStatusSleepInfo st]), [x]. rewrite <- app_assoc. split_and!; [done| |eauto].
    apply Forall_app. split; [by apply no_status_ops|]. repeat constructor. by eapply no_status_secret.
Qed.

(** [C14] An execution ends: a run of an unprocessed execution always returns,
    and either it returns an error, so that the manager retries it and its
    phase is not written, or its last call writes a terminal phase with the
    completion time, after which it is never processed again. *)
Theorem execution_terminates r ns name w e :
  (api_GetExecution ns name (w_api w)).1 = Ok e -> IsProcessed e = false ->
  exists out w' pre post,
    Reconcile r ns name w = (Ok out, w')
    /\ w_trace w' = w_trace w ++ pre ++ post
    /\ Forall (fun c => is_status_execution c = false) pre
    /\ ((post = [] /\ out.2 <> None)
        \/ exists e', post = [CStatusExecution e'] /\ IsProcessed e' = true
              /\ CompletionTime (se_Status e') = Some (w_now w)
              /\ StartTime (se_Status e') <> None).
Proof.
  intros He Hp. destruct (Execution_inv r ns name w e He Hp) as (out & w' & new & E & Ht & Hrun).
  assert (exists pre post, new = pre ++ post /\ Forall (fun c => is_status_execution c = false) pre
    /\ ((post = [] /\ out.2 <> None)
        \/ exists c x, post = [c] /\ final_call x (w_now w) c)) as (pre & post & -> & Hpre & Hpost).
  { destruct Hrun as [new res er Hf|new c x out Hf Hc|new x s secret data out calls Hf _ _ Hperf].
    - exists new, []. rewrite app_nil_r. split_and!; [done|by apply no_status_early|by left].
    - exists new, [c]. split_and!; [done|by apply no_status_early|eauto].
    - apply performed_final in Hperf as (pre & post & -> & Hpre & Hpost).
      exists (new ++ pre), post. rewrite <- app_assoc. split_and!; [done| |].
      + apply Forall_app. split; [by apply no_status_early|done].
      + destruct Hpost as [?|(c & -> & Hc)]; [by left|right; eauto]. }
  exists out, w', pre, post. split_and!; [done|done|done|].
  destruct Hpost as [?|(c & x & -> & phase & msg & Hterm & ->)]; [by left|right].
  eexists. split_and!; [done|by apply finished_processed|done|]. cbn.
  by destruct (StartTime (se_Status x)).
Qed.

Lemma early_no_op c : early_call c -> is_resource_write c = false /\ is_secret_write c = false.
Proof. intros [H|(e & ->)]; [by destruct c|done]. Qed.

Lemma accepted_step op s secret data :
  accepted op s secret data ->
  exists sleep wake, schedules_of s sleep wake
    /\ op_step (negb (String.eqb wake "")) (phase_of secret) op
         (if String.eqb op sleepOperation then Asleep else Awake)
    /\ phase_of secret <> (if String.eqb op sleepOperation then Asleep else Awake)
    /\ CurrentOperationType data = op.
Proof.
  intros ((data0 & _ & H) & Hw & Hs). unfold applyExecutionOverride in H. rbind_inv H.
  exists a, a0. split; [done|]. unfold phase_of.
  destruct (String.eqb_spec op ExecutionOpSleep) as [->|_].
  - injection H as <-. rewrite Hs by done. cbn. split_and!; [constructor; by left|done|done].
  - destruct (String.eqb_spec op ExecutionOpWake) as [->|_]; [|done].
    destruct (String.eqb a0 ""); [done|]. injection H as <-. rewrite Hw by done. cbn.
    split_and!; [by constructor|done|done].
Qed.

(** The writes of an operation are its secret or its workload. *)
Lemma performed_operation_write r ns sn execution s secret data now out new c :
  performed r ns sn execution s secret data now out new -> In c new -> is_secret_write c = true ->
  operation_write r ns sn s secret data now c.
Proof.
  assert (forall l, Forall op_call l -> In c l -> is_secret_write c = true -> False) as Hno.
  { intros l Hl Hi%list_elem_of_In Hc. rewrite Forall_forall in Hl.
    destruct (Hl c Hi) as [[H|(? & ? & ->)]|[H|(? & ? & ->)]]; try done; by destruct c. }
  assert (forall x, final_call execution now c -> x = c -> is_secret_write x = true -> False) as Hfin.
  { intros x (? & ? & _ & ->) -> Hc. done. }
  destruct 1 as [ops res e Hf|rd x out Hf Hx|ops x res e Hf Hx|ops x st res e Hf Hx
                |ops x st y out Hf Hx Hy]; intros Hin Hc;
    try (apply in_app_iff in Hin as [Hin|Hin]).
  - exfalso. by eapply Hno.
  - exfalso. eapply (Hno rd); [eapply Forall_impl; [exact Hf|apply read_op]|done|done].
  - exfalso. destruct Hin as [->|[]]. by eapply Hfin.
  - exfalso. by eapply (Hno ops).
  - destruct Hin as [->|[]]. eauto.
  - exfalso. by eapply (Hno ops).
  - destruct Hin as [->|[<-|[]]]; [eauto|done].
  - exfalso. by eapply (Hno ops).
  - destruct Hin as [->|[<-|[->|[]]]]; [eauto|done|]. exfalso. by eapply Hfin.
Qed.

Lemma performed_secret_write r ns sn execution s secret data now out new c :
  performed r ns sn execution s secret data now out new -> In c new -> is_secret_write c = true ->
  exists info, secret_write ns sn secret now (Some (CurrentOperationType data)) info c.
Proof.
  intros H Hin Hc. destruct (performed_operation_write _ _ _ _ _ _ _ _ _ _ _ H Hin Hc)
    as (? & ? & ? & ? & ? & ? & ? & _ & _ & _ & _ & Hw). eauto.
Qed.

(** [C13] Executions respect the phases: if a run writes a workload or the
    secret, then its operation is a step of the machine of awake and asleep
    that changes the phase of the secret it read (a sleep from awake, or a wake
    up from asleep with a wake up configured), and the secret written moves to
    the other phase.  A sleep while asleep and a wake up while awake touch
    nothing. *)
Theorem execution_guarded r ns name w e out w' new c :
  (api_GetExecution ns name (w_api w)).1 = Ok e -> IsProcessed e = false ->
  Reconcile r ns name w = (Ok out, w') -> w_trace w' = w_trace w ++ new ->
  In c new -> is_resource_write c = true \/ is_secret_write c = true ->
  exists execution s secret sleep wake next,
    fetched ns name w e execution s secret /\ schedules_of s sleep wake
    /\ op_step (negb (String.eqb wake "")) (phase_of secret) (Operation (se_Spec execution)) next
    /\ phase_of secret <> next
    /\ forall sec, c = CCreateSecret sec \/ c = CUpdateSecret sec ->
         phase_of (Some (convertSecretStringData sec)) = next.
Proof.
  intros He Hp E Ht Hin Hc.
  destruct (Execution_inv r ns name w e He Hp) as (out' & w'' & new' & E' & Ht' & Hrun).
  rewrite E in E'. injection E' as <- <-. rewrite Ht in Ht'. apply app_inv_head in Ht' as <-.
  assert (forall l, Forall early_call l -> ~ In c l) as Hearly.
  { intros l Hl Hi%list_elem_of_In. rewrite Forall_forall in Hl.
    destruct (early_no_op c (Hl c Hi)), Hc; congruence. }
  destruct Hrun as [new res er Hf|new x y out Hf Hx|new x s secret data out calls Hf HF Hacc Hperf].
  - exfalso. by eapply Hearly.
  - exfalso. apply in_app_iff in Hin as [Hin|[->|[]]]; [revert Hin; by apply Hearly|].
    destruct Hx as (? & ? & _ & ->). by destruct Hc.
  - apply in_app_iff in Hin as [Hin|Hin]; [exfalso; revert Hin; by apply Hearly|].
    destruct (accepted_step _ _ _ _ Hacc) as (sleep & wake & Hsch & Hstep & Hne & Hcur).
    exists x, s, secret, sleep, wake. eexists. split_and!; [done|done|exact Hstep|done|].
    intros sec Hsec.
    destruct (performed_secret_write _ _ _ _ _ _ _ _ _ _ _ Hperf Hin) as (info & sec' & Heq & _ & _ & _ & Hst).
    { destruct Hsec as [->| ->]; done. }
    assert (sec' = sec) as ->.
    { rewrite Heq in Hsec. destruct secret, Hsec; congruence. }
    rewrite (phase_stored sec _ _ _ Hst). by rewrite Hcur.
Qed.

(** The secret a run of an execution writes, if any, and what it had read. *)
Lemma execution_operation_write r ns name w out w' new c :
  Reconcile r ns name w = (Ok out, w') -> w_trace w' = w_trace w ++ new ->
  In c new -> is_secret_write c = true ->
  exists e execution s secret data,
    (api_GetExecution ns name (w_api w)).1 = Ok e /\ fetched ns name w e execution s secret
    /\ accepted (Operation (se_Spec execution)) s secret data
    /\ operation_write r ns (getSecretName (si_Name s)) s secret data (w_now w) c.
Proof.
  intros E Ht Hin Hc.
  destruct (call_effect (CGetExecution ns name) (api_GetExecution ns name) w) as (E1 & T1 & _).
  assert (forall out0, Reconcile r ns name w
    = (Ok out0, (call (CGetExecution ns name) (api_GetExecution ns name) w).2) -> False) as Hstop.
  { intros out0 E0. rewrite E in E0. injection E0 as -> ->. rewrite T1 in Ht.
    apply app_inv_head in Ht as <-. by destruct Hin as [<-|[]]. }
  destruct (api_GetExecution ns name (w_api w)).1 as [e|er] eqn:He.
  2: { exfalso. eapply Hstop. unfold Reconcile, GetExecution. by rewrite bind_try, E1. }
  destruct (IsProcessed e) eqn:Hp.
  { exfalso. eapply Hstop. unfold Reconcile, GetExecution. by rewrite bind_try, E1, Hp. }
  destruct (Execution_inv r ns name w e He Hp) as (out' & w'' & new' & E' & Ht' & Hrun).
  rewrite E in E'. injection E' as <- <-. rewrite Ht in Ht'. apply app_inv_head in Ht' as <-.
  assert (forall l, Forall early_call l -> ~ In c l) as Hearly.
  { intros l Hl Hi%list_elem_of_In. rewrite Forall_forall in Hl.
    destruct (early_no_op c (Hl c Hi)). congruence. }
  destruct Hrun as [new res er Hf|new x y out Hf Hx|new x s secret data out calls Hf HF Hacc Hperf].
  - exfalso. by eapply Hearly.
  - exfalso. apply in_app_iff in Hin as [Hin|[->|[]]]; [revert Hin; by apply Hearly|].
    by destruct Hx as (? & ? & _ & ->).
  - apply in_app_iff in Hin as [Hin|Hin]; [exfalso; revert Hin; by apply Hearly|].
    exists e, x, s, secret, data. split_and!; try done. by eapply performed_operation_write.
Qed.

Lemma execution_secret_write r ns name w out w' new c :
  Reconcile r ns name w = (Ok out, w') -> w_trace w' = w_trace w ++ new ->
  In c new -> is_secret_write c = true ->
  exists sn secret op info, secret_write ns sn secret (w_now w) (Some op) info c.
Proof.
  intros E Ht Hin Hc. destruct (execution_operation_write _ _ _ _ _ _ _ _ E Ht Hin Hc)
    as (? & ? & s & secret & data & _ & _ & _ & ? & ? & ? & ? & ? & ? & ? & _ & _ & _ & _ & Hw). eauto.
Qed.
End Spec.
