(* ===== verification/Store.v ===== *)
(** * The API server as a store

    The reconcilers are proved for any API server.  Here is what a server that
    keeps its objects adds: [after] is the effect of a call on its state, and
    the state after a run is the effect of the calls of its trace, one after the
    other ([replays]).  [StoreLaws] states how the secrets move, also when a
    write returns an error (a request that timed out may have been carried
    out). *)

From S2P Require Import Prelude GoStrings GoTime GoJson GoAny Api Libs Client RestoreData.
From S2P Require Import SleepInfoData Schedule Patcher Resource ManagedResources.
From S2P Require Import ManagedResourcesSpec SleepWakeSpec Secrets Reconcile Execution.

Section After.
Context {SL : SelectorLib} {CL : ClientLib}.

Definition after (c : Call) (s : ApiState) : ApiState :=
  match c with
  | CGetSleepInfo ns name => (api_GetSleepInfo ns name s).2
  | CGetSecret ns name => (api_GetSecret ns name s).2
  | CGetExecution ns name => (api_GetExecution ns name s).2
  | CRESTMapping gk => (api_RESTMapping gk s).2
  | CList gvk opts => (api_List gvk opts s).2
  | CApply obj owner force => (api_Apply obj owner force s).2
  | CPatch old new => (api_Patch old new s).2
  | CCreateSecret x => (api_CreateSecret x s).2
  | CUpdateSecret x => (api_UpdateSecret x s).2
  | CStatusSleepInfo i => (api_StatusUpdateSleepInfo i s).2
  | CUpdateExecution e => (api_UpdateExecution e s).2
  | CStatusExecution e => (api_StatusUpdateExecution e s).2
  end.

Definition replay (cs : list Call) (s : ApiState) : ApiState := fold_left (fun s c => after c s) cs s.

Lemma replay_app l1 l2 s : replay (l1 ++ l2) s = replay l2 (replay l1 s).
Proof. unfold replay. apply fold_left_app. Qed.

(** The state after a run is the effect of the calls it adds to the trace; the
    clock does not move. *)
Definition replays {A} (c : M World A) : Prop :=
  forall w, exists new, w_trace (c w).2 = w_trace w ++ new
    /\ w_api (c w).2 = replay new (w_api w) /\ w_now (c w).2 = w_now w.

Lemma replays_none {A} (c : M World A) :
  (forall w, w_trace (c w).2 = w_trace w /\ w_api (c w).2 = w_api w /\ w_now (c w).2 = w_now w) -> replays c.
Proof. intros H w. exists []. destruct (H w) as (-> & -> & ->). by rewrite app_nil_r. Qed.

Lemma replays_bind {A B} (c : M World A) (k : A -> M World B) :
  replays c -> (forall a, replays (k a)) -> replays (gbind c k).
Proof.
  intros Hc Hk w. destruct (Hc w) as (n1 & T1 & A1 & N1). unfold gbind.
  destruct (c w) as [[a|e] w']; cbn in *; [|eauto].
  destruct (Hk a w') as (n2 & T2 & A2 & N2). exists (n1 ++ n2).
  by rewrite T2, T1, A2, A1, N2, N1, replay_app, app_assoc.
Qed.

Lemma replays_try {A} (c : M World A) : replays c -> replays (gtry c).
Proof. intros Hc w. destruct (Hc w) as (n & H). exists n. unfold gtry. by destruct (c w). Qed.

Lemma replays_call {A} c (f : ApiState -> result A * ApiState) :
  (forall s, (f s).2 = after c s) -> replays (call c f).
Proof.
  intros Hf w. exists [c]. unfold call. specialize (Hf (w_api w)). by destruct (f (w_api w)).
Qed.

Lemma replays_list gvk opts : replays (ListObjects gvk opts).
Proof. apply replays_call. intros s. cbn. by destruct (api_List gvk opts s). Qed.
End After.

Create HintDb replay.

(** Discharges the primitive computations. *)
Ltac replays_prim :=
  solve [ apply replays_list
        | apply replays_call; reflexivity
        | apply replays_none; intros; done ].

Ltac replays_tac :=
  repeat first
    [ solve [eauto 2 with replay]
    | replays_prim
    | apply replays_bind; [|intros]
    | apply replays_try
    | assumption
    | match goal with |- replays (match ?x with _ => _ end) => destruct x eqn:? end
    | match goal with |- replays (let _ := ?x in _) => cbv zeta end ].

Section Programs.
Context {CR : CronLib} {PL : PatchLib} {UL : UnstructuredLib} {SL : SelectorLib} {CL : ClientLib}
  {MR : MapRange}.

Lemma replays_wrap {A} f (c : M World A) : replays c -> replays (wrap_err f c).
Proof. intros H. unfold wrap_err. replays_tac. Qed.

Lemma replays_ignoring c : replays c -> replays (ignoring_not_found c).
Proof. intros H. unfold ignoring_not_found. replays_tac. Qed.
#[local] Hint Resolve replays_wrap replays_ignoring : replay.

Lemma replays_getList s ns t : replays (getListByNamespace s ns t).
Proof. unfold getListByNamespace. replays_tac. Qed.
#[local] Hint Resolve replays_getList : replay.

Lemma replays_NewResources_loop res s ns rp ps m : replays (NewResources_loop res s ns rp ps m).
Proof. revert m. induction ps as [|p ps IH]; intros m; cbn; replays_tac; apply IH. Qed.
#[local] Hint Resolve replays_NewResources_loop : replay.

Lemma replays_NewResources res ns rp : replays (NewResources res ns rp).
Proof. unfold NewResources. replays_tac. Qed.
#[local] Hint Resolve replays_NewResources : replay.

Lemma replays_SSAPatch c u : replays (SSAPatch c u).
Proof. unfold SSAPatch. replays_tac. Qed.

Lemma replays_PatchResource c o n : replays (PatchResource c o n).
Proof. unfold PatchResource. replays_tac. Qed.

Lemma replays_sparse r p : replays (buildSparseApplyObject r p).
Proof. unfold buildSparseApplyObject. replays_tac. Qed.
#[local] Hint Resolve replays_SSAPatch replays_PatchResource replays_sparse : replay.

Ltac replays_wrapped := repeat first [ apply replays_wrap; solve [replays_prim | auto with replay] | progress replays_tac ].

Lemma replays_sleep_resources p gr l : replays (sleep_resources p gr l).
Proof.
  revert gr. induction l as [|r l IH]; intros gr; cbn; [replays_prim|].
  apply replays_bind; [|done]. unfold sleep_resource, assign_restore. replays_wrapped.
Qed.

Lemma replays_wake_resources p gr l : replays (wake_resources p gr l).
Proof.
  revert gr. induction l as [|r l IH]; intros gr; cbn; [replays_prim|].
  apply replays_bind; [|done]. unfold wake_resource. replays_wrapped.
Qed.
#[local] Hint Resolve replays_sleep_resources replays_wake_resources : replay.

Lemma replays_refresh ns gr : replays (refresh ns gr).
Proof. unfold refresh. replays_wrapped. Qed.
#[local] Hint Resolve replays_refresh : replay.

Lemma replays_for_targets step order m :
  (forall gr, replays (step gr)) -> replays (for_targets step order m).
Proof.
  intros Hs. revert m. induction order as [|[t gr] order IH]; intros m; cbn; [replays_prim|].
  apply replays_bind; auto.
Qed.

Lemma replays_Sleep g : replays (Sleep g).
Proof.
  unfold Sleep. replays_tac. apply replays_for_targets. intros gr. unfold sleep_target. replays_wrapped.
Qed.

Lemma replays_WakeUp g : replays (WakeUp g).
Proof.
  unfold WakeUp. replays_tac. apply replays_for_targets. intros gr. unfold wake_target. replays_wrapped.
Qed.
#[local] Hint Resolve replays_Sleep replays_WakeUp : replay.

Lemma replays_saved g : replays (GetOriginalInfoToSave g).
Proof. unfold GetOriginalInfoToSave. replays_tac. Qed.
#[local] Hint Resolve replays_saved : replay.

Lemma replays_upsertSecret r now name ns s secret data g :
  replays (upsertSecret r now name ns s secret data g).
Proof. unfold upsertSecret. replays_tac. Qed.

Lemma replays_runOperation data g op : runOperation data g = Some op -> replays op.
Proof.
  unfold runOperation. destruct (IsSleepOperation data); [|destruct (IsWakeUpOperation data); [|done]];
    intros [= <-]; auto with replay.
Qed.

Lemma replays_status now s op g : replays (handleSleepInfoStatus now s op g).
Proof. unfold handleSleepInfoStatus. replays_prim. Qed.
#[local] Hint Resolve replays_upsertSecret replays_runOperation replays_status : replay.

Lemma replays_fetchSecret name ns : replays (fetchSecret name ns).
Proof. unfold fetchSecret. replays_tac. Qed.
#[local] Hint Resolve replays_fetchSecret : replay.

Lemma replays_execute r ns sn s secret data now next rq :
  replays (execute r ns sn s secret data now next rq).
Proof. unfold execute. replays_tac. Qed.
#[local] Hint Resolve replays_execute : replay.

Lemma replays_Reconcile r ns name : replays (Reconcile r ns name).
Proof. unfold Reconcile. replays_tac. Qed.

Lemma replays_execution_status e now ph msg : replays (Execution.updateExecutionStatus e now ph msg).
Proof. unfold Execution.updateExecutionStatus. replays_tac. Qed.
#[local] Hint Resolve replays_execution_status : replay.

Lemma replays_perform r ns sn e s secret data now :
  replays (Execution.perform r ns sn e s secret data now).
Proof. unfold Execution.perform. replays_tac. Qed.
#[local] Hint Resolve replays_perform : replay.

Lemma replays_execution r ns name : replays (Execution.Reconcile r ns name).
Proof. unfold Execution.Reconcile, Execution.setOwnerReference. replays_tac. Qed.
End Programs.

(** ** Secrets in the store *)

Definition secret_key (x : Secret) : string * string :=
  (om_Namespace (sec_Meta x), om_Name (sec_Meta x)).

(** The secret [y] is stored with the data of [x]; its metadata are the server's. *)
Definition stored_as (x : Secret) (y : option Secret) : Prop :=
  exists sec, y = Some sec /\ sec_Data sec = sec_Data (convertSecretStringData x).

(** The stored secrets, read off the state of the server. *)
Class SecretStore {SL : SelectorLib} {CL : ClientLib} := {
  secret_at : ApiState -> string -> string -> option Secret
}.

Class StoreLaws {SL : SelectorLib} {CL : ClientLib} {SS : SecretStore} : Prop := {
  get_found ns name s x : (api_GetSecret ns name s).1 = Ok x -> secret_at s ns name = Some x;
  get_missing ns name s e :
    (api_GetSecret ns name s).1 = Err e -> IsNotFound e = true -> secret_at s ns name = None;
  others_keep c s ns name :
    is_secret_write c = false -> secret_at (after c s) ns name = secret_at s ns name;
  create_stores x s :
    (api_CreateSecret x s).1 = Ok tt ->
    stored_as x (secret_at (after (CCreateSecret x) s) (secret_key x).1 (secret_key x).2);
  update_stores x s :
    (api_UpdateSecret x s).1 = Ok tt ->
    stored_as x (secret_at (after (CUpdateSecret x) s) (secret_key x).1 (secret_key x).2);
  (** A write touches its own secret, wholly or, on an error, perhaps not at all. *)
  writes_own c x s ns name :
    c = CCreateSecret x \/ c = CUpdateSecret x ->
    secret_at (after c s) ns name = secret_at s ns name
    \/ (ns, name) = secret_key x /\ stored_as x (secret_at (after c s) ns name)
}.

Section Secrets.
Context {SL : SelectorLib} {CL : ClientLib} {SS : SecretStore} {SW : StoreLaws}.

(** After some calls a secret is as before, or as one of them wrote it. *)
Lemma secret_after cs s ns name :
  secret_at (replay cs s) ns name = secret_at s ns name
  \/ exists c x, In c cs /\ (c = CCreateSecret x \/ c = CUpdateSecret x)
       /\ (ns, name) = secret_key x
       /\ stored_as x (secret_at (replay cs s) ns name).
Proof.
  induction cs as [|c cs IH] using rev_ind; [by left|]. rewrite replay_app. cbn.
  assert (forall x, In x cs -> In x (cs ++ [c])) as Hsub by (intros; apply in_app_iff; by left).
  assert (secret_at (after c (replay cs s)) ns name = secret_at (replay cs s) ns name
    \/ exists x, (c = CCreateSecret x \/ c = CUpdateSecret x) /\ (ns, name) = secret_key x
         /\ stored_as x (secret_at (after c (replay cs s)) ns name)) as [E|(x & Hc & Hk & E)].
  { destruct (is_secret_write c) eqn:Ew; [|left; by apply others_keep].
    assert (exists x, c = CCreateSecret x \/ c = CUpdateSecret x) as [x Hx] by (destruct c; try done; eauto).
    destruct (writes_own c x (replay cs s) ns name Hx) as [E|[Hk E]]; [by left|right; eauto]. }
  - rewrite E. destruct IH as [IH|(c' & x & Hin & Hrest)]; [by left|right; eauto 10].
  - right. exists c, x. split_and!; try done. apply in_app_iff. right. by left.
Qed.
End Secrets.
