(* ===== verification/Lifecycle.v ===== *)
(** * The life of a cluster

    Many reconciliations, scheduled and on demand, of any SleepInfos and in any
    order, with anything the rest of the cluster does in between: a transition
    system on the worlds.  Proved over a server that keeps its secrets
    ([StoreLaws]): kube-green can always read what it wrote. *)

From S2P Require Import Prelude GoStrings GoTime GoJson GoAny Api Libs Client RestoreData.
From S2P Require Import SleepInfoData Schedule Patcher Resource ManagedResources.
From S2P Require Import ManagedResourcesSpec SleepWakeSpec Secrets Reconcile Execution.
From S2P Require Import ReconcileSpec ExecutionSpec Store.

Section Lifecycle.
Context {CR : CronLib} {PL : PatchLib} {UL : UnstructuredLib} {SL : SelectorLib} {CL : ClientLib}
  {MR : MapRange} {SS : SecretStore}.


(** The operation is due. *)
Definition due (r : SleepInfoReconciler) (data : SleepInfoData) (now : Time) : Prop :=
  exists next rq, getNextSchedule (SleepDelta r) data now = Ok (true, next, rq).

(** What can happen while a SleepInfo waits for its next operation: runs of other
    SleepInfos, runs of its own that come too early, executions in other
    namespaces, and anything else that leaves its secret alone. *)
Inductive idle (ns name : string) : World -> World -> Prop :=
| idle_other r ns' name' w out w' :
    (ns', name') <> (ns, name) -> Reconcile r ns' name' w = (Ok out, w') -> idle ns name w w'
| idle_early r w out w' :
    (forall s secret data, reads ns name w s secret -> getSleepInfoData secret s = Ok data ->
       ~ due r data (w_now w)) ->
    Reconcile r ns name w = (Ok out, w') -> idle ns name w w'
| idle_execution r ns' name' w out w' :
    ns' <> ns -> Execution.Reconcile r ns' name' w = (Ok out, w') -> idle ns name w w'
| idle_environment w w' :
    secret_at (w_api w') ns (getSecretName name) = secret_at (w_api w) ns (getSecretName name) ->
    idle ns name w w'.





Lemma getSecretName_inj n n' : getSecretName n = getSecretName n' -> n = n'.
Proof. unfold getSecretName. intros H. by repeat injection H as H. Qed.

Context {SW : StoreLaws}.

(** A run that writes no secret of that name. *)
Lemma run_keeps_secret {A} (c : M World A) w ns name :
  replays c ->
  (forall new k x, w_trace (c w).2 = w_trace w ++ new -> In k new ->
     k = CCreateSecret x \/ k = CUpdateSecret x -> secret_key x <> (ns, name)) ->
  secret_at (w_api (c w).2) ns name = secret_at (w_api w) ns name.
Proof.
  intros Hr Hw. destruct (Hr w) as (new & Ht & -> & _).
  destruct (secret_after new (w_api w) ns name) as [E|(k & x & Hin & Hk & Hkey & _)]; [done|].
  by destruct (Hw new k x Ht Hin Hk).
Qed.

Lemma secret_write_key ns name secret now op info k x :
  secret_write ns name secret now op info k -> k = CCreateSecret x \/ k = CUpdateSecret x ->
  secret_key x = (ns, name).
Proof.
  intros (sec & -> & _ & Hn & Hns & _) Hk.
  assert (sec = x) as -> by (destruct secret, Hk; congruence). unfold secret_key. congruence.
Qed.

Lemma idle_keeps_secret ns name w w' :
  idle ns name w w' ->
  secret_at (w_api w') ns (getSecretName name) = secret_at (w_api w) ns (getSecretName name).
Proof.
  destruct 1 as [r ns' name' w out w' Hne E|r w out w' Hnd E|r ns' name' w out w' Hne E|w w' H]; [..|done];
    change w' with (Ok out, w').2; rewrite <- E.
  1, 2: apply run_keeps_secret; [apply replays_Reconcile|]; intros new k x Ht Hin Hk; rewrite E in Ht;
    (destruct (secret_write_inv _ _ _ _ _ _ _ k E Ht Hin)
       as (s & sec & d & nx & rq & op & info & Hr & Hd & Hn & Hw & _); [by destruct Hk as [->| ->]|]).
  - rewrite (secret_write_key _ _ _ _ _ _ _ _ Hw Hk). intros [-> Hs%getSecretName_inj]%pair_equal_spec.
    by rewrite Hs in Hne.
  - exfalso. apply (Hnd s sec d Hr Hd). by exists nx, rq.
  - apply run_keeps_secret; [apply replays_execution|]. intros new k x Ht Hin Hk. rewrite E in Ht.
    destruct (execution_secret_write _ _ _ _ _ _ _ k E Ht Hin) as (sn & sec & op & info & Hw);
      [by destruct Hk as [->| ->]|].
    rewrite (secret_write_key _ _ _ _ _ _ _ _ Hw Hk). by intros [= -> _].
Qed.

Lemma waits_keeps_secret ns name w w' :
  rtc (idle ns name) w w' ->
  secret_at (w_api w') ns (getSecretName name) = secret_at (w_api w) ns (getSecretName name).
Proof. induction 1 as [|w w1 w2 Hi _ IH]; [done|]. by rewrite IH, (idle_keeps_secret _ _ _ _ Hi). Qed.



End Lifecycle.
