(* ===== verification/Night.v ===== *)
(** * One night, end to end

    A scheduled sleep in the evening and the wake up in the morning are two runs
    of the reconciler with nothing in common but what the API server keeps: the
    resources and the secret.  The theorem follows a workload through both: the
    restore patch computed by the first run, stored in the secret, survives its
    encoding and makes the second run send the original workload back. *)

From S2P Require Import Prelude GoStrings GoTime GoJson GoFloat GoAny Api Libs Merge Client.
From S2P Require Import RestoreData SleepInfoData Schedule Patcher Resource ManagedResources.
From S2P Require Import ManagedResourcesSpec SleepWakeSpec RoundTrip Secrets Reconcile Execution.
From S2P Require Import ReconcileSpec Store Lifecycle.

Section Night.
Context {CR : CronLib} {PL : PatchLib} {LL : PatchLaws} {UL : UnstructuredLib} {SL : SelectorLib}
  {CL : ClientLib} {MR : MapRange} {SS : SecretStore} {SW : StoreLaws}.

(** The world in which a reconciliation collects its resources. *)
Definition read_world (ns name : string) (w : World) : World :=
  (fetchSecret (getSecretName name) ns (gauge_Set name ns 1 (GetSleepInfo ns name w).2).2).2.

Lemma read_world_trace ns name w :
  w_trace (read_world ns name w) = w_trace w ++ [CGetSleepInfo ns name; CGetSecret ns (getSecretName name)].
Proof.
  unfold read_world, GetSleepInfo.
  match goal with |- w_trace (fetchSecret ?a ?b ?c).2 = _ => destruct (fetchSecret_effect a b c) as (_ & -> & _) end.
  cbn. destruct (call_effect (CGetSleepInfo ns name) (api_GetSleepInfo ns name) w) as (_ & -> & _).
  by rewrite <- app_assoc.
Qed.

(** The resources a reconciliation collects. *)
Definition collects (r : SleepInfoReconciler) (ns name : string) (w : World) (s : SleepInfo)
    (data : SleepInfoData) (g : managedResources) : Prop :=
  exists w', NewResources (mkResourceClient true (Some s) (ManagerName r)) ns
    (OriginalGenericResourceInfo data) (read_world ns name w) = (Ok g, w').

(** A reconciliation of an existing SleepInfo, once the secret is read. *)
Lemma Reconcile_reads r ns name w s :
  (api_GetSleepInfo ns name (w_api w)).1 = Ok s ->
  Reconcile r ns name w
  = match found_secret (api_GetSecret ns (getSecretName name) (after (CGetSleepInfo ns name) (w_api w))).1 with
    | Err e => (Ok (noResult, Some e), read_world ns name w)
    | Ok secret =>
        match getSleepInfoData secret s with
        | Err e => (Ok (noResult, Some e), read_world ns name w)
        | Ok data =>
            match getNextSchedule (SleepDelta r) data (w_now w) with
            | Err e => (Ok (noResult, Some e), read_world ns name w)
            | Ok (true, next, rq) =>
                execute r ns (getSecretName name) s secret data (w_now w) next rq (read_world ns name w)
            | Ok (false, _, rq) => (Ok (requeueIn rq, None), read_world ns name w)
            end
        end
    end.
Proof.
  intros Es. unfold Reconcile, getSleepInfo, read_world, GetSleepInfo. rewrite bind_try.
  destruct (call_effect (CGetSleepInfo ns name) (api_GetSleepInfo ns name) w) as (E1 & _ & N1 & A1).
  set (w1 := (call _ _ w).2) in *. rewrite E1, Es.
  rewrite (bind_run _ _ _ tt (gauge_Set name ns 1 w1).2) by done. cbv zeta.
  set (w2 := (gauge_Set name ns 1 w1).2).
  assert (w_now w2 = w_now w1 /\ w_api w2 = w_api w1) as (N2 & A2) by done.
  destruct (fetchSecret_effect (getSecretName name) ns w2) as (E3 & _ & N3).
  rewrite A2, A1 in E3. rewrite (bind_run _ _ _ _ _ (pair_eq _ _ E3)).
  set (w3 := (fetchSecret _ _ _).2) in *. cbn [after].
  destruct (found_secret _) as [secret|e]; [|done].
  destruct (getSleepInfoData secret s) as [data|e]; [|done].
  unfold Now, gbind. rewrite N3, N2, N1.
  destruct (getNextSchedule _ data (w_now w)) as [[[[] next] rq]|e]; done.
Qed.

(** What the server holds after the secret was written. *)
Lemma upsertSecret_stores r now name ns s secret data g w w' :
  upsertSecret r now name ns s secret data g w = (Ok tt, w') ->
  exists sec, secret_at (w_api w') ns name = Some sec
    /\ sec_Data sec = Some (stored_data now (saved_operation data g) (saved_info (w_tick w) data g)).
Proof.
  destruct (upsertSecret_call r now name ns s secret data g w) as (sec & w1 & -> & _ & _ & Hn & Hns & Hd).
  intros E. enough (stored_as sec (secret_at (w_api w') ns name)) as (y & Hy & Hyd)
    by (exists y; split; [done|by rewrite Hyd]). rewrite <- Hn, <- Hns.
  destruct secret; unfold UpdateSecret, CreateSecret, call in E.
  - destruct (api_UpdateSecret sec (w_api w1)) as [x a] eqn:Ea. injection E as -> <-. cbn.
    pose proof (update_stores sec (w_api w1)) as H. cbn in H. rewrite Ea in H. by apply H.
  - destruct (api_CreateSecret sec (w_api w1)) as [x a] eqn:Ea. injection E as -> <-. cbn.
    pose proof (create_stores sec (w_api w1)) as H. cbn in H. rewrite Ea in H. by apply H.
Qed.

(** A due sleep that reports success: the resources were put to sleep, and the
    secret is stored. *)
Lemma execute_sleeps r ns sn s secret data now next rq w g w1 out w' :
  execute r ns sn s secret data now next rq w = (Ok out, w') ->
  NewResources (mkResourceClient true (Some s) (ManagerName r)) ns
    (OriginalGenericResourceInfo data) w = (Ok g, w1) ->
  HasResource g = true -> IsSleepOperation data = true ->
  out.2 = None -> Requeue out.1 = false ->
  exists g' w2 w3 sec n, Sleep g w2 = (Ok g', w3)
    /\ secret_at (w_api w') ns sn = Some sec
    /\ sec_Data sec = Some (stored_data now (saved_operation data g') (saved_info n data g')).
Proof.
  intros E EN Hg Hop Hnone Hreq. unfold execute in E. rewrite bind_try, EN in E. cbn [fst snd] in E.
  rewrite bind_try in E.
  destruct (handleSleepInfoStatus now s (CurrentOperationType data) g w1) as [[u|e] w2]; cbn [fst snd] in E;
    [|injection E as <- <-; done].
  rewrite Hg in E. unfold runOperation in E. rewrite Hop in E. cbn [negb] in E. rewrite bind_try in E.
  destruct (Sleep g w2) as [[g'|e] w3] eqn:Es; cbn [fst snd] in E; [|injection E as <- <-; done].
  rewrite bind_try in E.
  destruct (upsertSecret r now sn ns s secret data g' w3) as [[[]|e] w4] eqn:Eu; cbn [fst snd] in E;
    injection E as <- <-; [|done].
  destruct (upsertSecret_stores _ _ _ _ _ _ _ _ _ _ Eu) as (sec & Hs & Hd). exists g', w2, w3, sec, (w_tick w3).
  done.
Qed.

(** ** What the evening leaves for the morning *)

(** The restore data a sleep of [g] will save can be encoded without loss: kinds
    have no dot, names and patches are valid UTF-8. *)
Definition restorable (g : managedResources) : Prop :=
  dot_free g
  /\ map_Forall (fun t gr => valid_utf8 (target_String t) = true
       /\ forall p, New (p_Patch (gr_patchData gr)) = Ok p ->
            map_Forall (fun n x => valid_utf8 n = true /\ valid_utf8 x = true)
              (slept_patches p (gr_restorePatches gr) (gr_data gr))) (resMapping g).

Lemma slept_restorable manager g w g1 w1 :
  ready manager g -> restorable g -> Sleep g w = (Ok g1, w1) ->
  dot_free g1 /\ restore_names_utf8 g1.
Proof.
  intros Hr [Hdot Hu] Hs. destruct (Sleep_news _ _ _ _ _ Hr Hs) as (_ & Hdom & _).
  split; [intros t; rewrite Hdom; apply Hdot|]. intros t gr1 Ht.
  assert (is_Some (resMapping g !! t)) as [gr Hg].
  { apply elem_of_dom. rewrite <- Hdom. apply elem_of_dom. eauto. }
  destruct (sleep_targets_ok _ _ _ _ _ Hr Hs t gr Hg) as (gr' & Ht' & _ & _ & p & Hp & Hrp).
  rewrite Ht in Ht'. injection Ht' as <-. destruct (Hu t gr Hg) as [Htu Hpu].
  split; [done|]. rewrite Hrp. by apply Hpu.
Qed.

(** The data the next reconciliation reads after a sleep that left [g1]. *)
Lemma data_after_sleep sec now n data g1 s sleep wake :
  sec_Data sec = Some (stored_data now (saved_operation data g1) (saved_info n data g1)) ->
  HasResource g1 = true -> IsSleepOperation data = true -> printable now = true ->
  dot_free g1 -> restore_names_utf8 g1 -> schedules_of s sleep wake -> wake <> ""%string ->
  exists m, getSleepInfoData (Some sec) s
      = Ok (mkSleepInfoData (to_second now) wakeUpOperation wake sleep (Some m))
    /\ forall t gr, resMapping g1 !! t = Some gr -> patches_for m (target_String t) = gr_restorePatches gr.
Proof.
  intros Hd Hg Hop Hp Hdot Hu Hs Hw.
  unfold saved_operation, saved_info in Hd. rewrite Hg, Hop in Hd. cbn [andb] in Hd.
  assert (CurrentOperationType data = sleepOperation) as Hcur by (by apply String.eqb_eq).
  rewrite Hcur in Hd. set (m := dataToSave (range n (resMapping g1))) in *.
  exists (Some <$> m). split; [|intros t gr Ht; by apply dataToSave_restores].
  rewrite (reads_back s sec now _ _ (Some (Some <$> m)) sleep wake Hs Hp Hd)
    by (by apply restore_roundtrip, dataToSave_utf8).
  cbn [default]. destruct (String.eqb_spec wake ""); [done|]. done.
Qed.

(** A due wake up that reports no error sent every call of [WakeUp]. *)
Lemma execute_wakes r ns sn s secret data now next rq w g w1 out w' :
  execute r ns sn s secret data now next rq w = (Ok out, w') ->
  NewResources (mkResourceClient true (Some s) (ManagerName r)) ns
    (OriginalGenericResourceInfo data) w = (Ok g, w1) ->
  HasResource g = true -> CurrentOperationType data = wakeUpOperation ->
  out.2 <> None
  \/ exists new, w_trace w' = w_trace w ++ new
       /\ (forall t gr c, resMapping g !! t = Some gr -> In c (wake_calls gr) -> In c new)
       /\ forall t gr p x, resMapping g !! t = Some gr -> New (p_Patch (gr_patchData gr)) = Ok p ->
            x ∈ gr_data gr -> to_wake p (gr_restorePatches gr) x ->
            is_Some (wake_effect p (gr_restorePatches gr) x).
Proof.
  intros E EN Hg Hop.
  destruct (execute_inv r ns sn s secret data now next rq w)
    as (g0 & w2 & rd & out0 & w3 & new & EN' & Hready & Ht2 & _ & E' & Ht3 & Hends).
  rewrite EN in EN'. injection EN' as <- <-. rewrite E in E'. injection E' as <- <-.
  destruct Hends as [e|c out Hg' _ _|ops res e _ _|op wa wb g' ops n c out _ Hrun Eop Hops _ _ _];
    [by left|congruence|by left|right].
  unfold runOperation, IsSleepOperation, IsWakeUpOperation in Hrun. rewrite Hop in Hrun. injection Hrun as <-.
  destruct (WakeUp_spec _ _ _ _ _ Hready Eop) as (_ & _ & _ & order & Hperm & Htr).
  rewrite Hops in Htr. apply app_inv_head in Htr as ->.
  eexists. rewrite Ht3, Ht2, <- app_assoc. split; [done|].
  split; [|intros; by eapply WakeUp_woken].
  intros t gr k Hgr Hk. rewrite in_app_iff. right. right. apply in_app_iff. left.
  apply in_concat. exists (wake_calls gr). split; [|done].
  apply in_map_iff. exists (t, gr). split; [done|]. apply list_elem_of_In. rewrite Hperm.
  by apply elem_of_map_to_list.
Qed.

(** ** The theorem *)

Section EveningAndMorning.
Variables (r : SleepInfoReconciler) (ns name : string).
(** In the evening, in the world [w], the sleep is due and the run succeeds; the
    workload [o] of the target [t] is among the resources, the patch changes it to
    the document [lm], and it is a document that a merge patch can restore: its
    numbers survive float64, and what the patch changed of it is free of nulls. *)
Variables (w w1 : World) (s : SleepInfo) (secret : option Secret) (data : SleepInfoData) (out : Outcome).
Variables (g : managedResources) (t : PatchTarget) (gr : genericResource) (p : Patcher) (o : Unstructured).
Variables (rp modified : string) (lm : list (string * json)).
Hypothesis Hreads : reads ns name w s secret.
Hypothesis Hdata : getSleepInfoData secret s = Ok data.
Hypothesis Hsleep : IsSleepOperation data = true.
Hypothesis Hdue : due r data (w_now w).
Hypothesis Hclock : printable (w_now w) = true.
Hypothesis Hrun : Reconcile r ns name w = (Ok out, w1).
Hypothesis Hout : out.2 = None /\ Requeue out.1 = false.
Hypothesis Hcoll : collects r ns name w s data g.
Hypothesis Hrest : restorable g.
Hypothesis Hgr : resMapping g !! t = Some gr.
Hypothesis Hp : New (p_Patch (gr_patchData gr)) = Ok p.
Hypothesis Hnames : NoDup (GetName <$> gr_data gr).
Hypothesis Ho : o ∈ gr_data gr.
Hypothesis Hok : any_ok (JObj (map_obj (Object o))) = true.
Hypothesis Hexec : Exec p (MarshalMap (Object o)) = Ok modified.
Hypothesis Hmod : doc modified = Some (JObj lm).
Hypothesis Hmerge : mergeable (JObj lm) (JObj (map_obj (Object o))) = true.
Hypothesis Heff : sleep_effect p o = Some rp.
(** In between, the SleepInfo waits: any number of runs of other SleepInfos, of
    early runs of its own, of anything that leaves its secret alone.  In the
    morning, in the world [w2], the SleepInfo (perhaps edited) has a wake up, which
    is due, the target is collected, and the workload is found, as [o2], with any
    document [l2] that the patch would not change. *)
Variables (w2 : World) (s2 : SleepInfo) (sleep wake : string) (data2 : SleepInfoData).
Variables (g2 : managedResources) (gr2 : genericResource) (o2 : Unstructured) (l2 : list (string * json)).
Hypothesis Hwait : rtc (idle ns name) w1 w2.
Hypothesis Hinfo2 : (api_GetSleepInfo ns name (w_api w2)).1 = Ok s2.
Hypothesis Hsched2 : schedules_of s2 sleep wake.
Hypothesis Hwake2 : wake <> ""%string.
Hypothesis Hdata2 : getSleepInfoData (secret_at (w_api w2) ns (getSecretName name)) s2 = Ok data2.
Hypothesis Hdue2 : due r data2 (w_now w2).
Hypothesis Hcoll2 : collects r ns name w2 s2 data2 g2.
Hypothesis Hgr2 : resMapping g2 !! t = Some gr2.
Hypothesis Hp2 : New (p_Patch (gr_patchData gr2)) = Ok p.
Hypothesis Ho2 : o2 ∈ gr_data gr2.
Hypothesis Hname2 : GetName o2 = GetName o.
Hypothesis Hdoc2 : doc (MarshalMap (Object o2)) = Some (JObj l2).
Hypothesis Hsame2 : IsResourceChanged p (MarshalMap (Object o2)) = Ok false.

Lemma entry_has_resource (g0 : managedResources) t0 gr0 x :
  resMapping g0 !! t0 = Some gr0 -> x ∈ gr_data gr0 -> HasResource g0 = true.
Proof.
  intros H Hx. apply HasResource_true. exists t0, gr0. split; [done|].
  intros E. rewrite E in Hx. by apply elem_of_nil in Hx.
Qed.

(** The evening: a sleep whose restore patches the morning reads back. *)
Lemma evening :
  exists g1 gr1 wa wb m,
    ready (ManagerName r) g /\ Sleep g wa = (Ok g1, wb) /\ resMapping g1 !! t = Some gr1
    /\ data2 = mkSleepInfoData (to_second (w_now w)) wakeUpOperation wake sleep (Some m)
    /\ patches_for m (target_String t) = gr_restorePatches gr1
    /\ exists sec, secret_at (w_api w2) ns (getSecretName name) = Some sec.
Proof using SW Hreads Hdata Hsleep Hdue Hclock Hrun Hout Hcoll Hrest Hgr Ho Hwait Hsched2 Hwake2 Hdata2.
  destruct Hreads as [Hs Hsec], Hdue as (next & rq & Hnext), Hcoll as (wn & EN), Hout as [Hnone Hreq].
  pose proof Hrun as E. rewrite (Reconcile_reads _ _ _ _ _ Hs) in E. cbn [after] in E.
  rewrite Hsec, Hdata, Hnext in E.
  pose proof (entry_has_resource _ _ _ _ Hgr Ho) as Hg.
  destruct (NewResources_ok s (ManagerName r) ns (OriginalGenericResourceInfo data) (read_world ns name w))
    as (g0 & w0 & rd & EN0 & _ & _ & Hready & _).
  rewrite EN in EN0. injection EN0 as <- <-.
  destruct (execute_sleeps _ _ _ _ _ _ _ _ _ _ _ _ _ _ E EN Hg Hsleep Hnone Hreq)
    as (g1 & wa & wb & sec & n & Es & Hst & Hd).
  destruct (sleep_targets_ok _ _ _ _ _ Hready Es t gr Hgr) as (gr1 & Hgr1 & _).
  destruct (slept_restorable _ _ _ _ _ Hready Hrest Es) as [Hdot1 Hu1].
  assert (HasResource g1 = true) as Hg1.
  { eapply (runOperation_keeps (ManagerName r) data g (Sleep g)); [done|done| |exact Es].
    unfold runOperation. by rewrite Hsleep. }
  destruct (data_after_sleep _ _ _ _ _ _ _ _ Hd Hg1 Hsleep Hclock Hdot1 Hu1 Hsched2 Hwake2) as (m & Hm & Hrp).
  exists g1, gr1, wa, wb, m. pose proof (waits_keeps_secret _ _ _ _ Hwait) as Hkept.
  pose proof Hdata2 as Hd2. rewrite Hkept, Hst, Hm in Hd2. injection Hd2 as Hd2.
  rewrite Hkept, Hst. split_and!; eauto.
Qed.

(** [C1] One night, end to end.  The evening run put a workload to sleep and
    reported success.  The morning run, if it collects the target, finds the
    workload, and the sleep patch would not change it (the patch is idempotent, and
    nobody changed the fields it sets), sends the workload back by one patch call
    with its original value at every path that still holds the value the sleep gave
    it, or returns an error, upon which it is run again.  Elsewhere the workload
    may have changed (resource version, managed fields, status).  Between the two
    runs there may have been any number of runs of other SleepInfos and of early
    runs of this one, whatever they returned and whatever calls failed. *)
Theorem night_restores_workload out2 w3 :
  Reconcile r ns name w2 = (Ok out2, w3) ->
  out2.2 <> None
  \/ exists new o', w_trace w3 = w_trace w2 ++ new /\ In (CPatch o2 o') new /\ restores o lm l2 o'.
Proof.
  intros E2.
  destruct evening as (g1 & gr1 & wa & wb & m & Hready & Es & Hgr1 & Ed2 & Hm & sec & Hstored).
  rewrite (Reconcile_reads _ _ _ _ _ Hinfo2) in E2.
  pose proof (others_keep (CGetSleepInfo ns name) (w_api w2) ns (getSecretName name) eq_refl) as Hk.
  destruct (api_GetSecret ns (getSecretName name) (after (CGetSleepInfo ns name) (w_api w2))).1
    as [x|e] eqn:Eget; cbn [found_secret] in E2.
  2: { destruct (IsNotFound e) eqn:En; [|left; injection E2 as <- <-; done].
       pose proof (get_missing _ _ _ _ Eget En). congruence. }
  pose proof (get_found _ _ _ _ Eget) as Hx. rewrite Hk, Hstored in Hx. injection Hx as <-.
  pose proof Hdata2 as Hd2. rewrite Hstored in Hd2. rewrite Hd2 in E2.
  destruct Hdue2 as (next & rq & Hnext), Hcoll2 as (wn & EN). rewrite Hnext in E2.
  pose proof (read_world_trace ns name w2) as Htr.
  destruct (execute_wakes _ _ _ _ _ _ _ _ _ _ _ _ _ _ E2 EN (entry_has_resource _ _ _ _ Hgr2 Ho2))
    as [Herr|(new & Ht & Hcalls & Hwoken)]; [by rewrite Ed2|by left|right].
  destruct (NewResources_spec (mkResourceClient true (Some s2) (ManagerName r)) s2 ns
    (OriginalGenericResourceInfo data2) (read_world ns name w2) eq_refl)
    as (g0 & w0 & rd & EN0 & _ & Hentry & _).
  rewrite EN in EN0. injection EN0 as <- <-.
  pose proof (entry_patches _ _ _ _ _ (Hentry t gr2 Hgr2)) as Hrp2.
  rewrite Ed2 in Hrp2. cbn [OriginalGenericResourceInfo from_option id] in Hrp2. rewrite Hm in Hrp2.
  assert (gr_restorePatches gr2 !! GetName o2 = Some rp) as Hstore
    by (by eapply (stored_patch (ManagerName r) g g1 wa wb t gr gr1 p o rp)).
  destruct (Hwoken t gr2 p o2 Hgr2 Hp2 Ho2) as [o' Ho']; [by split; [eexists|]|].
  exists ([CGetSleepInfo ns name; CGetSecret ns (getSecretName name)] ++ new), o'.
  rewrite Ht, Htr, <- app_assoc. split; [done|]. split.
  - apply in_app_iff. right. eapply Hcalls; [exact Hgr2|]. unfold wake_calls. rewrite Hp2.
    apply list_elem_of_In, list_elem_of_omap. exists o2. split; [done|]. unfold wake_call. by rewrite Ho'.
  - by eapply (wake_effect_restores (ManagerName r) g g1 wa wb t gr gr1 p o rp modified lm).
Qed.
End EveningAndMorning.
End Night.
