(* ===== verification/Rhythm.v ===== *)
(** * The rhythm of the reconciler

    The reconciler sees its SleepInfo again only because it asked for it: the
    work queue runs it once the delay it returned has passed.  Proved here, for a
    queue that is late by less than delta: the run that follows a successful one
    finds its operation due, at a firing of the schedule that is then current, and
    between the two runs no firing of it was passed over, but after a sleep that
    found no resources, which passes over the wake up.  When no wake up is
    configured, that exception passes over a sleep. *)

From S2P Require Import Prelude GoStrings GoTime GoJson GoAny Api Libs Client RestoreData.
From S2P Require Import SleepInfoData Schedule Patcher Resource ManagedResources.
From S2P Require Import ManagedResourcesSpec SleepWakeSpec Secrets Reconcile Execution.
From S2P Require Import ReconcileSpec Store Lifecycle Night.

Section Rhythm.
Context {CR : CronLib} {CW : CronLaws} {PL : PatchLib} {UL : UnstructuredLib} {SL : SelectorLib}
  {CL : ClientLib} {MR : MapRange} {SS : SecretStore} {SW : StoreLaws}.

(** ** What a successful run leaves *)

(** The secret stored at the end of a successful operation, and the delay. *)
Lemma execute_stores r ns sn s secret data now next rq w out w' :
  execute r ns sn s secret data now next rq w = (Ok out, w') ->
  out.2 = None -> Requeue out.1 = false ->
  exists g w1 sec op info original,
    NewResources (mkResourceClient true (Some s) (ManagerName r)) ns
      (OriginalGenericResourceInfo data) w = (Ok g, w1)
    /\ secret_at (w_api w') ns sn = Some sec
    /\ sec_Data sec = Some (stored_data now op info)
    /\ Jsonpatch.GetOriginalInfoToRestore info = Ok original
    /\ ((HasResource g = true /\ op = Some (CurrentOperationType data) /\ out = (requeueIn rq, None))
        \/ (HasResource g = false /\ op = None /\ out = empty_outcome data now next rq)).
Proof.
  intros E Hnone Hreq. unfold execute in E.
  destruct (NewResources_ok s (ManagerName r) ns (OriginalGenericResourceInfo data) w)
    as (g & w1 & rd & EN & _ & _ & Hready & _).
  rewrite bind_try, EN in E. cbn [fst snd] in E. rewrite bind_try in E.
  destruct (handleSleepInfoStatus now s (CurrentOperationType data) g w1) as [[u|e] w2]; cbn [fst snd] in E;
    [|by injection E as <- <-].
  assert (forall g' w3 w4, upsertSecret r now sn ns s secret data g' w3 = (Ok tt, w4) ->
    exists sec original, secret_at (w_api w4) ns sn = Some sec
      /\ sec_Data sec = Some (stored_data now (saved_operation data g') (saved_info (w_tick w3) data g'))
      /\ Jsonpatch.GetOriginalInfoToRestore (saved_info (w_tick w3) data g') = Ok original) as Hup.
  { intros g' w3 w4 Eu. destruct (upsertSecret_stores _ _ _ _ _ _ _ _ _ _ Eu) as (sec & Hs & Hd).
    unfold saved_info in *. destruct (HasResource g' && IsSleepOperation data); [|by eexists _, _].
    destruct (restore_readable (dataToSave (range (w_tick w3) (resMapping g')))) as (o & Eo). eauto 10. }
  destruct (HasResource g) eqn:Hg; cbn [negb] in E.
  - destruct (runOperation data g) as [op|] eqn:Eop; [|by injection E as <- <-]. rewrite bind_try in E.
    destruct (op w2) as [[g'|e] w3] eqn:Er; cbn [fst snd] in E; [|by injection E as <- <-].
    rewrite bind_try in E.
    destruct (upsertSecret r now sn ns s secret data g' w3) as [[[]|e] w4] eqn:Eu; cbn [fst snd] in E;
      injection E as <- <-; [|done].
    destruct (Hup _ _ _ Eu) as (sec & original & H1 & H2 & H3).
    unfold saved_operation in H2. rewrite (runOperation_keeps _ _ _ _ _ _ _ Hready Hg Eop Er) in H2.
    exists g, w1, sec, (Some (CurrentOperationType data)). eauto 10.
  - rewrite bind_try in E.
    destruct (upsertSecret r now sn ns s secret data g w2) as [[[]|e] w3] eqn:Eu; cbn [fst snd] in E;
      [|by injection E as <- <-].
    destruct (Hup _ _ _ Eu) as (sec & original & H1 & H2 & H3).
    unfold saved_operation, saved_info in *. rewrite Hg in *. cbn [andb] in *.
    exists g, w1, sec, None, None, original.
    assert (out = empty_outcome data now next rq /\ w' = w3) as [-> ->].
    { unfold empty_outcome. destruct (IsSleepOperation data);
        [destruct (skipWakeUpIfSleepNotPerformed _ _ _)|]; by injection E as <- <-. }
    eauto 10.
Qed.

(** ** What the next run reads *)

Lemma schedules_unique s sleep wake sleep' wake' :
  schedules_of s sleep wake -> schedules_of s sleep' wake' -> sleep' = sleep /\ wake' = wake.
Proof. intros [H1 H2] [H3 H4]. split; congruence. Qed.

(** The data depends on the schedules of the SleepInfo only. *)
Lemma same_data secret s s2 sleep wake data :
  schedules_of s sleep wake -> schedules_of s2 sleep wake ->
  getSleepInfoData secret s = Ok data -> getSleepInfoData secret s2 = Ok data.
Proof.
  intros [H1 H2] [H3 H4]. unfold getSleepInfoData. rewrite H1, H2, H3, H4. cbn [rbind].
  destruct secret as [sec|]; [|done]. destruct (sec_Data sec) as [d|]; [|done].
  by destruct (Jsonpatch.GetOriginalInfoToRestore _).
Qed.

(** The schedules of the current and of the next operation. *)
Definition schedules (data : SleepInfoData) : string * string :=
  (CurrentOperationSchedule data, NextOperationSchedule data).

(** After an operation the two schedules change places; after a sleep without
    resources they stay. *)
Lemma data_after secret s s2 sleep wake data sec now op info original data2 :
  getSleepInfoData secret s = Ok data -> schedules_of s sleep wake -> schedules_of s2 sleep wake ->
  printable now = true -> sec_Data sec = Some (stored_data now op info) ->
  Jsonpatch.GetOriginalInfoToRestore info = Ok original ->
  op = Some (CurrentOperationType data) \/ op = None ->
  getSleepInfoData (Some sec) s2 = Ok data2 ->
  LastSchedule data2 = to_second now
  /\ schedules data2
     = if match op with None => IsSleepOperation data | Some _ => false end then schedules data
       else (NextOperationSchedule data, CurrentOperationSchedule data).
Proof.
  intros Hd Hs Hs2 Hp Hst Ho Hop H2. rewrite (reads_back _ _ _ _ _ _ _ _ Hs2 Hp Hst Ho) in H2.
  destruct (operation_of _ _ _ Hd) as (sleep' & wake' & Hs' & Hsel).
  destruct (schedules_unique _ _ _ _ _ Hs Hs') as [-> ->]. unfold schedules, IsSleepOperation.
  match type of Hsel with let a := ?x in _ => destruct x end; cbv zeta in Hsel;
    destruct (String.eqb_spec wake ""); cbn [andb negb] in *; destruct Hsel as (Ec & Es & En);
    destruct Hop as [->| ->]; rewrite ?Ec in *; cbn in H2; rewrite ?andb_false_r in H2;
    injection H2 as <-; cbn; rewrite Es, En; done.
Qed.

Lemma reads_stored ns name w s secret :
  reads ns name w s secret -> secret_at (w_api w) ns (getSecretName name) = secret.
Proof.
  intros [_ H]. pose proof (others_keep (CGetSleepInfo ns name) (w_api w) ns (getSecretName name) eq_refl) as Hk.
  cbn [after] in Hk. rewrite <- Hk.
  destruct (api_GetSecret _ _ _).1 as [x|e] eqn:E; cbn in H.
  - injection H as <-. by apply (get_found _ _ _ _ E).
  - destruct (IsNotFound e) eqn:En; [|done]. injection H as <-. by eapply get_missing.
Qed.

(** ** The next run *)

(** A delay that did not saturate is exact. *)
Lemma delay_exact (n now : Time) :
  0 < SubT n now < maxDuration -> instant n = instant now + SubT n now.
Proof. unfold SubT, saturate64, minDuration, maxDuration. lia. Qed.

Section NextRun.
Variables (r : SleepInfoReconciler) (ns name : string).
(** A successful run at [w] of a SleepInfo whose schedules keep firing; the delay
    it asks for fits. *)
Variables (w w1 : World) (s : SleepInfo) (secret : option Secret) (data : SleepInfoData) (out : Outcome).
Variables (cur nxt : Schedule) (sleep wake : string).
Hypothesis Hreads : reads ns name w s secret.
Hypothesis Hdata : getSleepInfoData secret s = Ok data.
Hypothesis Htime : timely (SleepDelta r) (w_now w) data cur nxt.
Hypothesis Hclock : printable (w_now w) = true.
Hypothesis Hpast : instant (LastSchedule data) <= instant (w_now w).
Hypothesis Hsched : schedules_of s sleep wake.
Hypothesis Hrun : Reconcile r ns name w = (Ok out, w1).
Hypothesis Hout : out.2 = None /\ Requeue out.1 = false.
Hypothesis Hfits : RequeueAfter out.1 < maxDuration.

(** A due sleep that found no resources. *)
Definition empty_sleep : Prop :=
  IsSleepOperation data = true /\ due r data (w_now w)
  /\ exists g, collects r ns name w s data g /\ HasResource g = false.

(** The instant the run asks for. *)
Definition asked_for : Z := instant (w_now w) + RequeueAfter out.1.

(** The end of the window of the run. *)
Definition window_end : Z := instant (w_now w) + SleepDelta r * Second.

(** A schedule that fires at the instant asked for, with the firings between. *)
Definition served_by (sched : Schedule) : Prop :=
  recurring sched /\ fires sched asked_for /\ window_end < asked_for
  /\ (quiet sched window_end asked_for \/ empty_sleep).

(** What is read from the secret [sec]: the schedule [sched] is current. *)
Definition leads_to (sec : option Secret) (sched : Schedule) : Prop :=
  forall s2 data2, schedules_of s2 sleep wake -> getSleepInfoData sec s2 = Ok data2 ->
  ParseStandard (CurrentOperationSchedule data2) = Ok sched
  /\ is_ok (ParseStandard (NextOperationSchedule data2)) = true
  /\ 0 <= instant (LastSchedule data2)
  /\ (IsZero (LastSchedule data2) = true \/ instant (LastSchedule data2) < asked_for).

(** The run came too early: its secret is left alone. *)
Lemma early_leads next rq :
  getNextSchedule (SleepDelta r) data (w_now w) = Ok (false, next, rq) ->
  secret_at (w_api w1) ns (getSecretName name) = secret /\ served_by cur /\ leads_to secret cur.
Proof using CW SW Hreads Hdata Htime Hpast Hsched Hrun Hout Hfits.
  intros Hn. destruct Htime as [Hd Hnow Hlast Hcur Hnxt Hrc Hrn].
  assert (out = (requeueIn rq, None)) as Eo.
  { pose proof Hrun as E. destruct Hreads as [Hs Hsec]. rewrite (Reconcile_reads _ _ _ _ _ Hs) in E.
    cbn [after] in E. rewrite Hsec, Hdata, Hn in E. by injection E as <- _. }
  destruct (next_run _ _ _ _ Hd Hcur Hrc Hnow Hlast _ _ _ _ Hnxt Hrn Hn) as (-> & Hb & F & Q).
  pose proof (delay_beyond _ _ Hd next Hb) as [[Hp _] _].
  assert (instant next = asked_for) as Ef.
  { unfold asked_for. rewrite Eo. cbn. apply delay_exact. split; [done|].
    pose proof Hfits as Hx. by rewrite Eo in Hx. }
  unfold served_by, window_end. rewrite <- Ef. split_and!; try done.
  - rewrite <- (reads_stored _ _ _ _ _ Hreads). apply idle_keeps_secret. eapply idle_early; [|exact Hrun].
    intros s' secret' data' Hr' Hd' (next' & rq' & Hn').
    rewrite (reads_unique _ _ _ _ _ _ Hreads Hdata _ _ _ Hr' Hd') in Hn'. congruence.
  - left. rewrite Z.max_l in Q by (unfold delta_ok, Second in *; lia). done.
  - intros s2 data2 Hs2 Hd2. rewrite (same_data _ _ _ _ _ _ Hsched Hs2 Hdata) in Hd2. injection Hd2 as <-.
    split_and!; [done|by rewrite Hnxt|done|]. rewrite <- Ef. by eapply not_due_after_last.
Qed.

(** The operation was due: the secret is written, and its outcome is known. *)
Lemma due_outcome next rq :
  getNextSchedule (SleepDelta r) data (w_now w) = Ok (true, next, rq) ->
  exists g sec op info original,
    collects r ns name w s data g
    /\ secret_at (w_api w1) ns (getSecretName name) = Some sec
    /\ sec_Data sec = Some (stored_data (w_now w) op info)
    /\ Jsonpatch.GetOriginalInfoToRestore info = Ok original
    /\ ((HasResource g = true /\ op = Some (CurrentOperationType data) /\ out = (requeueIn rq, None))
        \/ (HasResource g = false /\ op = None /\ out = empty_outcome data (w_now w) next rq)).
Proof using SW Hreads Hdata Hrun Hout.
  intros Hn. pose proof Hrun as E. destruct Hreads as [Hs Hsec], Hout as [Hnone Hreq].
  rewrite (Reconcile_reads _ _ _ _ _ Hs) in E. cbn [after] in E. rewrite Hsec, Hdata, Hn in E.
  destruct (execute_stores _ _ _ _ _ _ _ _ _ _ _ _ E Hnone Hreq)
    as (g & wn & sec & op & info & original & EN & Hrest).
  exists g, sec, op, info, original. split; [by exists wn|done].
Qed.

(** The delay of an empty sleep: until the firing of the sleep that follows the
    next operation. *)
Lemma empty_delay next rq :
  getNextSchedule (SleepDelta r) data (w_now w) = Ok (true, next, rq) ->
  IsSleepOperation data = true -> out = empty_outcome data (w_now w) next rq ->
  instant (Next cur next) = asked_for /\ window_end < instant next
  /\ fires nxt (instant next) /\ instant next < asked_for /\ fires cur asked_for.
Proof using CW Htime Hfits Hpast.
  intros Hn Hop Eo. destruct Htime as [Hd Hnow Hlast Hcur Hnxt Hrc Hrn].
  destruct (next_run _ _ _ _ Hd Hcur Hrc Hnow Hlast _ _ _ _ Hnxt Hrn Hn) as (_ & Hb & F & _).
  assert (0 <= instant next) as H0 by (unfold delta_ok, Second in *; lia).
  destruct (recurring_next cur next Hrc H0) as (N1 & N2 & _).
  assert (instant (Next cur next) = asked_for) as Ef; [|rewrite <- Ef; by split_and!].
  unfold asked_for. pose proof Hfits as Hx. rewrite Eo in Hx |- *.
  unfold empty_outcome, skipWakeUpIfSleepNotPerformed, getCronParsed, getRequeueAfter in Hx |- *.
  rewrite Hop, Hcur in Hx |- *. cbn in Hx |- *. apply delay_exact. split; [|done].
  apply saturate64_pos. unfold delta_ok, Second in *. lia.
Qed.

Lemma due_leads next rq :
  getNextSchedule (SleepDelta r) data (w_now w) = Ok (true, next, rq) ->
  exists sec sched, secret_at (w_api w1) ns (getSecretName name) = Some sec
    /\ served_by sched /\ leads_to (Some sec) sched.
Proof using CW SW Hreads Hdata Htime Hclock Hpast Hsched Hrun Hout Hfits.
  intros Hn. pose proof Htime as [Hd Hnow Hlast Hcur Hnxt Hrc Hrn].
  destruct (due_outcome next rq Hn) as (g & sec & op & info & original & Hcoll & Hsec & Hst & Ho & Hcase).
  destruct (next_run _ _ _ _ Hd Hcur Hrc Hnow Hlast _ _ _ _ Hnxt Hrn Hn) as (Erq & Hb & F & Q).
  pose proof (delay_beyond _ _ Hd next Hb) as [[Hp _] _]. pose proof Hfits as Hx.
  set (stays := match op with None => IsSleepOperation data | Some _ => false end).
  exists sec, (if stays then cur else nxt). split; [done|].
  assert (served_by (if stays then cur else nxt)) as Hserved.
  { destruct stays eqn:Est; unfold stays in Est.
    - destruct op; [done|]. destruct Hcase as [(_ & ? & _)|(Hg & _ & Eo)]; [done|].
      destruct (empty_delay next rq Hn Est Eo) as (_ & H1 & _ & H2 & H3).
      split_and!; [done|done|lia|]. right. split_and!; [done|by exists next, rq|by exists g].
    - assert (instant next = asked_for) as Ef.
      { assert (out = (requeueIn rq, None)) as Eo.
        { destruct Hcase as [(_ & _ & ->)|(_ & -> & ->)]; [done|]. unfold empty_outcome. by rewrite Est. }
        unfold asked_for. rewrite Eo in Hx |- *. cbn in Hx |- *. subst rq. by apply delay_exact. }
      unfold served_by, window_end. rewrite <- Ef. split_and!; try done. by left. }
  split; [done|]. intros s2 data2 Hs2 Hd2.
  assert (op = Some (CurrentOperationType data) \/ op = None) as Hop
    by (destruct Hcase as [(_ & ? & _)|(_ & ? & _)]; auto).
  destruct (data_after _ _ _ _ _ _ _ _ _ _ _ _ Hdata Hsched Hs2 Hclock Hst Ho Hop Hd2) as [-> Hsch].
  fold stays in Hsch. unfold schedules in Hsch.
  assert (instant (to_second (w_now w)) <= instant (w_now w) /\ 0 <= instant (to_second (w_now w))) as [Hle H0].
  { cbn. unfold Second, delta_ok in *. split; [pose proof (Z.mul_div_le (instant (w_now w)) 1000000000); lia|].
    assert (0 <= instant (w_now w) / 1000000000) by (apply Z.div_pos; lia). lia. }
  destruct Hserved as (_ & _ & Hw & _). unfold window_end, delta_ok, Second in Hw, Hd.
  destruct stays; injection Hsch as -> ->; (split_and!; [done|by rewrite ?Hcur, ?Hnxt|done|right; lia]).
Qed.

(** The next run, at [w2]: it reads a SleepInfo with the same schedules, and the
    queue is late by less than delta. *)
Variables (w2 : World) (s2 : SleepInfo) (data2 : SleepInfoData).
Hypothesis Hwait : rtc (idle ns name) w1 w2.
Hypothesis Hsched2 : schedules_of s2 sleep wake.
Hypothesis Hdata2 : getSleepInfoData (secret_at (w_api w2) ns (getSecretName name)) s2 = Ok data2.
Hypothesis Hpunctual : asked_for <= instant (w_now w2) < asked_for + SleepDelta r * Second.

(** [C8] The reconciler keeps its rhythm.  After a run that succeeded, whether its
    operation was due or not, the run that follows the delay it asked for, late by
    less than delta, finds its operation due: it answers a firing, at the instant
    asked for, of the schedule that is then current.  No firing of that schedule
    lies between the window of the first run and that instant, unless the first
    run was a sleep that found no resources. *)
Theorem next_run_is_due :
  due r data2 (w_now w2)
  /\ exists sched, ParseStandard (CurrentOperationSchedule data2) = Ok sched
       /\ fires sched asked_for /\ (quiet sched window_end asked_for \/ empty_sleep).
Proof.
  assert (exists sec sched, secret_at (w_api w1) ns (getSecretName name) = sec
    /\ served_by sched /\ leads_to sec sched) as (sec & sched & Hsec & (Hrec & Hf & Hb & Hq) & Hleads).
  { destruct (getNextSchedule (SleepDelta r) data (w_now w)) as [[[[] next] rq]|e] eqn:Hn.
    - destruct (due_leads next rq Hn) as (sec & sched & H). by exists (Some sec), sched.
    - destruct (early_leads next rq Hn) as (H1 & H2 & H3). by exists secret, cur.
    - exfalso. pose proof Hrun as E. destruct Hreads as [Hs Hg], Hout as [Hnone _].
      rewrite (Reconcile_reads _ _ _ _ _ Hs) in E. cbn [after] in E. rewrite Hg, Hdata, Hn in E.
      injection E as <- _. done. }
  pose proof Hdata2 as Hd2. rewrite (waits_keeps_secret _ _ _ _ Hwait), Hsec in Hd2.
  destruct (Hleads s2 data2 Hsched2 Hd2) as (Hcur2 & Hnxt2 & H0 & Hlast2).
  destruct Htime as [Hd Hnow _ _ _ _ _]. unfold window_end, delta_ok in *.
  split; [|by exists sched].
  apply (firing_due (SleepDelta r) data2 (w_now w2) sched) with (f := asked_for); try done; lia.
Qed.

(** [C32] A sleep without resources skips the night after.  When no wake up is
    configured and a due sleep finds no resources, the run asks to run again only
    after a further firing of the sleep schedule: resources created in between are
    not put to sleep at that firing. *)
Theorem empty_sleep_skips_firing :
  wake = ""%string -> empty_sleep ->
  exists f, fires cur f /\ window_end < f < asked_for.
Proof using CW SW Hreads Hdata Htime Hpast Hsched Hrun Hout Hfits.
  intros Hw (Hop & (next & rq & Hn) & g & (wn & EN) & Hg).
  destruct (due_outcome next rq Hn) as (g' & sec & op & info & original & (wn' & EN') & _ & _ & _ & Hcase).
  rewrite EN in EN'. injection EN' as <- _. destruct Hcase as [(Hg' & _)|(_ & _ & Eo)]; [congruence|].
  destruct (empty_delay next rq Hn Hop Eo) as (_ & H1 & H2 & H3 & _).
  assert (nxt = cur) as En.
  { destruct (operation_of _ _ _ Hdata) as (sleep' & wake' & Hs' & Hsel).
    destruct (schedules_unique _ _ _ _ _ Hsched Hs') as [-> ->]. rewrite Hw in Hsel. cbn in Hsel.
    rewrite andb_false_r in Hsel. destruct Hsel as (_ & Es & Ens). destruct Htime as [_ _ _ Hc Hx _ _].
    congruence. }
  rewrite En in H2. by exists (instant next).
Qed.
End NextRun.
End Rhythm.
