(* ===== verification/Losses.v ===== *)
(** * What a run can lose

    The restore patches of a SleepInfo live in one secret, which every operation
    rewrites from what it has read and collected itself.  The theorems here say, for
    every server, what is lost that way: a status that announces an operation which
    failed, the patches of a target whose list failed at wake up, those of a sleep
    whose secret could not be written, and those that another run has saved in the
    meantime. *)

From S2P Require Import Prelude GoStrings GoTime GoJson GoFloat GoAny Api Libs Merge Client RestoreData.
From S2P Require Import SleepInfoData Schedule Patcher Resource ManagedResources ManagedResourcesSpec.
From S2P Require Import SleepWakeSpec Secrets Reconcile Execution ReconcileSpec ExecutionSpec Store Lifecycle.
From S2P Require Import Night Rhythm.

Section Losses.
Context {CR : CronLib} {PL : PatchLib} {UL : UnstructuredLib} {SL : SelectorLib} {CL : ClientLib}
  {MR : MapRange}.

(** ** The status of a failed operation *)

(** [C38] The status does not tell whether an operation succeeded.  A due run that
    has collected resources and returns an error, whatever failed, has written to
    the status the operation and its time before its first call to a workload, and
    has not written the secret. *)
Theorem failed_run_has_status r ns name w s secret data g out w' :
  reads ns name w s secret -> getSleepInfoData secret s = Ok data -> due r data (w_now w) ->
  collects r ns name w s data g -> HasResource g = true ->
  Reconcile.Reconcile r ns name w = (Ok out, w') -> out.2 <> None ->
  exists rd ops,
    w_trace w' = w_trace w ++ rd
      ++ [CStatusSleepInfo (mkSleepInfo (si_Meta s) (si_Spec s)
            (mkSleepInfoStatus (w_now w) (CurrentOperationType data)))] ++ ops
    /\ Forall (fun c => is_write c = false) rd
    /\ Forall (fun c => is_write c = false \/ is_resource_write c = true) ops.
Proof.
  intros [Hs Hsec] Hd (next & rq & Hn) (wn & EN) Hg E Hout.
  rewrite (Reconcile_reads _ _ _ _ _ Hs) in E. cbn [after] in E. rewrite Hsec, Hd, Hn in E.
  destruct (execute_inv r ns (getSecretName name) s secret data (w_now w) next rq (read_world ns name w))
    as (g0 & w1 & rd & out0 & w0 & new & EN' & _ & Ht & Hrd & E' & Ht' & Hends).
  rewrite EN in EN'. injection EN' as <- <-. rewrite E in E'. injection E' as <- <-.
  destruct (ends_shape _ _ _ _ _ _ _ _ _ _ _ Hends) as (ops & sec & -> & Hops & _ & _ & Hnone).
  rewrite (Hnone Hout), app_nil_r in Ht'. unfold status_call in Ht'. rewrite Hg in Ht'.
  exists ([CGetSleepInfo ns name; CGetSecret ns (getSecretName name)] ++ rd), ops. split_and!.
  - by rewrite Ht', Ht, read_world_trace, <- !app_assoc.
  - by repeat constructor.
  - eapply Forall_impl; [exact Hops|]. intros c [[?|(? & ? & ->)]|[?|(? & ? & ->)]]; by (left + right).
Qed.

(** ** The calls of a wake up *)

Lemma emits_bind_ok {A B} P (c : M World A) (k : A -> M World B) :
  emits P c -> (forall w a w', c w = (Ok a, w') -> emits P (k a)) -> emits P (gbind c k).
Proof.
  intros Hc Hk w. destruct (Hc w) as (n1 & E1 & H1). unfold gbind.
  destruct (c w) as [[a|e] w'] eqn:E; cbn in *; [|by exists n1].
  destruct (Hk w a w' E w') as (n2 & E2 & H2). exists (n1 ++ n2).
  split; [by rewrite E2, E1, app_assoc|by apply Forall_app].
Qed.

(** A wake up of [g] applies nothing and patches only resources of [g] that have a
    restore patch. *)
Definition wakes (g : managedResources) (c : Call) : Prop :=
  match c with
  | CApply _ _ _ => False
  | CPatch u _ => exists t gr, resMapping g !! t = Some gr /\ u ∈ gr_data gr
                    /\ is_Some (gr_restorePatches gr !! GetName u)
  | _ => True
  end.

Lemma wake_resources_wakes g t gr0 p gr l :
  resMapping g !! t = Some gr0 -> IsClientValid (gr_client gr) = None ->
  gr_restorePatches gr = gr_restorePatches gr0 -> Forall (fun u => u ∈ gr_data gr0) l ->
  emits (wakes g) (wake_resources p gr l).
Proof.
  intros Ht. revert gr. induction l as [|u l IH]; intros gr Hv Hrp Hl; cbn; [auto with go|].
  apply Forall_cons in Hl as [Hu Hl]. apply emits_bind_ok.
  - unfold wake_resource. rewrite Hrp.
    destruct (gr_restorePatches gr0 !! GetName u) as [raw|] eqn:Er; [|auto with go].
    destruct (IsResourceChanged p _) as [[]|]; [auto with go| |auto with go].
    apply emits_bind; [by apply emits_wrap, emits_lift|]. intros res.
    apply emits_bind; [by apply emits_wrap, emits_lift|]. intros o.
    apply emits_bind; [|auto with go]. apply emits_wrap. unfold PatchResource.
    destruct (IsClientValid _); [auto with go|]. apply emits_ignoring, emits_call.
    exists t, gr0. by rewrite Er.
  - intros w gr' w' H. apply wake_resource_ok in H as ((Hc & _) & Hr & _); [|done].
    apply IH; [by rewrite Hc|by rewrite Hr|done].
Qed.

Lemma WakeUp_wakes manager g : ready manager g -> emits (wakes g) (WakeUp g).
Proof.
  intros Hr. unfold WakeUp. apply emits_bind_ok; [auto with go|].
  intros w order w' [-> _]%range_map_ok. apply emits_bind; [|auto with go].
  apply emits_for_targets. intros t gr Hin%elem_of_targets. destruct (Hr t gr Hin) as (Hv & _ & Hc).
  unfold wake_target, refresh. rewrite Hc.
  apply emits_bind_ok; [auto with go|]. intros w1 gr' w2 [= <- <-].
  apply emits_bind; [by apply emits_wrap, emits_lift|]. intros p.
  eapply wake_resources_wakes; [exact Hin|done|done|]. by apply Forall_forall.
Qed.

Lemma execute_wakes_only r ns sn s secret data now next rq w g w1 :
  NewResources (mkResourceClient true (Some s) (ManagerName r)) ns
    (OriginalGenericResourceInfo data) w = (Ok g, w1) ->
  IsSleepOperation data = false ->
  exists new, w_trace (execute r ns sn s secret data now next rq w).2 = w_trace w1 ++ new
    /\ Forall (wakes g) new.
Proof.
  intros EN Hop. destruct (NewResources_ok s (ManagerName r) ns (OriginalGenericResourceInfo data) w)
    as (g0 & w0 & rd & EN' & _ & _ & Hready & _). rewrite EN in EN'. injection EN' as <- <-.
  assert (forall g', emits (wakes g) (upsertSecret r now sn ns s secret data g')) as Hup.
  { intros g'. unfold upsertSecret. rewrite Hop, andb_false_r.
    apply emits_bind; [auto with go|]. intros d. destruct secret; (apply emits_call; exact I). }
  unfold execute. rewrite bind_try, EN. cbn [fst snd].
  match goal with |- exists new, w_trace (?c w1).2 = _ /\ _ => enough (emits (wakes g) c) as He by apply He end.
  apply emits_bind; [apply emits_try, emits_call; exact I|]. intros [u|e]; [|auto with go].
  destruct (HasResource g); cbn [negb].
  - unfold runOperation. rewrite Hop. destruct (IsWakeUpOperation data); [|auto with go].
    apply emits_bind; [eapply emits_try, WakeUp_wakes; exact Hready|]. intros [g'|e]; [|auto with go].
    apply emits_bind; [apply emits_try, Hup|]. intros []; auto with go.
  - rewrite Hop. apply emits_bind; [apply emits_try, Hup|]. intros []; auto with go.
Qed.

(** ** What a sleep saves *)

(** The patch would not change the resources named [n]. *)
Definition settled (p : Patcher) (n : string) (l : list Unstructured) : Prop :=
  Forall (fun u => GetName u = n -> sleep_effect p u = None) l.

Lemma slept_patches_none p rp l n :
  rp !! n = None -> settled p n l -> slept_patches p rp l !! n = None.
Proof.
  unfold slept_patches. revert rp. induction l as [|u l IH]; intros rp Hn Hl; [done|].
  apply Forall_cons in Hl as [Hu Hl]. cbn. apply IH; [|done].
  destruct (sleep_effect p u) as [x|] eqn:Ex; [|done].
  destruct (decide (GetName u = n)) as [E|E]; [specialize (Hu E); congruence|by rewrite lookup_insert_ne].
Qed.

(** The restore patches of a run that has read [data] and collected [g]. *)
Definition restore_patches (data : SleepInfoData) (t : PatchTarget) : RestorePatches :=
  patches_for (default ∅ (OriginalGenericResourceInfo data)) (target_String t).

(** What is read back after a sleep that collected [g]: for each target, the restore
    patches the run had read, updated for the resources it changed itself. *)
Lemma sleep_view r ns s data now w0 g w1 wa g1 wb k y s2 sleep wake :
  NewResources (mkResourceClient true (Some s) (ManagerName r)) ns
    (OriginalGenericResourceInfo data) w0 = (Ok g, w1) ->
  HasResource g = true -> IsSleepOperation data = true -> Sleep g wa = (Ok g1, wb) ->
  restorable g -> printable now = true ->
  sec_Data y = Some (stored_data now (saved_operation data g1) (saved_info k data g1)) ->
  schedules_of s2 sleep wake -> wake <> ""%string ->
  exists m, getSleepInfoData (Some y) s2 = Ok (mkSleepInfoData (to_second now) wakeUpOperation wake sleep (Some m))
    /\ forall t gr p, resMapping g !! t = Some gr -> New (p_Patch (gr_patchData gr)) = Ok p ->
         patches_for m (target_String t) = slept_patches p (restore_patches data t) (gr_data gr).
Proof.
  intros EN Hg Hop Hsl Hrest Hp Hd Hs2 Hw.
  destruct (NewResources_spec (mkResourceClient true (Some s) (ManagerName r)) s ns
    (OriginalGenericResourceInfo data) w0 eq_refl) as (g0 & w2 & rd & EN0 & _ & Hentry & _).
  rewrite EN in EN0. injection EN0 as <- <-.
  destruct (NewResources_ok s (ManagerName r) ns (OriginalGenericResourceInfo data) w0)
    as (g0 & w0' & rd' & EN' & _ & _ & Hready & _). rewrite EN in EN'. injection EN' as <- <-.
  destruct (slept_restorable _ _ _ _ _ Hready Hrest Hsl) as [Hdot Hu].
  assert (HasResource g1 = true) as Hg1.
  { eapply (runOperation_keeps (ManagerName r) data g (Sleep g)); [done|done| |exact Hsl].
    unfold runOperation. by rewrite Hop. }
  destruct (data_after_sleep _ _ _ _ _ _ _ _ Hd Hg1 Hop Hp Hdot Hu Hs2 Hw) as (m & Hm & Hrp).
  exists m. split; [done|]. intros t gr p Ht Hnew.
  destruct (sleep_targets_ok _ _ _ _ _ Hready Hsl t gr Ht) as (gr1 & Ht1 & _ & _ & p' & Hp' & Hgr).
  rewrite Hnew in Hp'. injection Hp' as <-. rewrite (Hrp t gr1 Ht1), Hgr.
  unfold restore_patches. by rewrite (entry_patches _ _ _ _ _ (Hentry t gr Ht)).
Qed.


(** ** What the store holds after a successful run *)

Context {SS : SecretStore} {SW : StoreLaws}.

Lemma execute_saves r ns sn s secret data now next rq w g w1 out w' :
  execute r ns sn s secret data now next rq w = (Ok out, w') ->
  NewResources (mkResourceClient true (Some s) (ManagerName r)) ns
    (OriginalGenericResourceInfo data) w = (Ok g, w1) ->
  out.2 = None -> Requeue out.1 = false ->
  exists g' n sec, secret_at (w_api w') ns sn = Some sec
    /\ sec_Data sec = Some (stored_data now (saved_operation data g') (saved_info n data g')).
Proof.
  intros E EN Hnone Hreq. unfold execute in E. rewrite bind_try, EN in E. cbn [fst snd] in E.
  rewrite bind_try in E.
  destruct (handleSleepInfoStatus now s (CurrentOperationType data) g w1) as [[u|e] w2]; cbn [fst snd] in E;
    [|by injection E as <- <-].
  destruct (HasResource g); cbn [negb] in E.
  - destruct (runOperation data g) as [op|]; [|by injection E as <- <-]. rewrite bind_try in E.
    destruct (op w2) as [[g'|e] w3]; cbn [fst snd] in E; [|by injection E as <- <-]. rewrite bind_try in E.
    destruct (upsertSecret r now sn ns s secret data g' w3) as [[[]|e] w4] eqn:Eu; cbn [fst snd] in E;
      injection E as <- <-; [|done].
    destruct (upsertSecret_stores _ _ _ _ _ _ _ _ _ _ Eu) as (sec & Hs & Hd). eauto 10.
  - rewrite bind_try in E.
    destruct (upsertSecret r now sn ns s secret data g w2) as [[[]|e] w3] eqn:Eu; cbn [fst snd] in E;
      [|by injection E as <- <-].
    destruct (upsertSecret_stores _ _ _ _ _ _ _ _ _ _ Eu) as (sec & Hs & Hd).
    assert (w' = w3) as ->; [|eauto 10].
    destruct (IsSleepOperation data); [destruct (skipWakeUpIfSleepNotPerformed _ _ _)|]; by injection E.
Qed.

(** ** A target that is not listed *)

Lemma unlisted_loop res s ns rp ps mapping t w m w' :
  (forall w, is_ok (getListByNamespace s ns t w).1 = false) -> mapping !! t = None ->
  NewResources_loop res s ns rp ps mapping w = (Ok m, w') -> m !! t = None.
Proof.
  intros Hl. revert mapping w. induction ps as [|p ps IH]; intros mapping w Hm H; [by injection H as <- _|].
  cbn [NewResources_loop] in H. rewrite bind_try in H. specialize (Hl w) as Hw.
  destruct (getListByNamespace s ns (p_Target p) w) as [[[|u l]|e] w1] eqn:E; cbn [fst snd] in H;
    [by eapply IH| |by eapply IH].
  eapply IH; [|exact H]. rewrite lookup_insert_ne; [done|]. intros Ep. rewrite Ep in E. by rewrite E in Hw.
Qed.

Lemma unlisted_missed s m ns rp t w g w1 :
  (forall w, is_ok (getListByNamespace s ns t w).1 = false) ->
  NewResources (mkResourceClient true (Some s) m) ns rp w = (Ok g, w1) -> resMapping g !! t = None.
Proof.
  intros Hl H. unfold NewResources in H. cbn [rc_SleepInfo] in H.
  apply gbind_ok in H as (mp & w2 & H & Hg). injection Hg as <- <-. cbn. by eapply unlisted_loop in H.
Qed.

(** [C37] A target whose list fails at wake up is forgotten.  A due wake up which
    reports success although the list of a target fails, whenever it is asked for,
    patches only resources of other targets, and stores a secret without any restore
    patch, whatever the secret held before, from which the next operation is a
    sleep: the resources of the target stay asleep, and nothing is left to restore
    them from. *)
Theorem unlisted_target_forgotten r ns name w s secret data t out w' :
  reads ns name w s secret -> getSleepInfoData secret s = Ok data ->
  CurrentOperationType data = wakeUpOperation -> due r data (w_now w) -> printable (w_now w) = true ->
  (forall w0, is_ok (getListByNamespace s ns t w0).1 = false) ->
  Reconcile.Reconcile r ns name w = (Ok out, w') -> out.2 = None -> Requeue out.1 = false ->
  (exists g new, collects r ns name w s data g /\ w_trace w' = w_trace w ++ new
     /\ forall c, In c new -> is_resource_write c = true ->
          exists t' gr u v, c = CPatch u v /\ t' <> t /\ resMapping g !! t' = Some gr /\ u ∈ gr_data gr)
  /\ exists sec, secret_at (w_api w') ns (getSecretName name) = Some sec
       /\ forall s2 sleep wake, schedules_of s2 sleep wake ->
            exists data2, getSleepInfoData (Some sec) s2 = Ok data2
              /\ IsSleepOperation data2 = true /\ OriginalGenericResourceInfo data2 = Some ∅.
Proof.
  intros [Hs Hsec] Hd Hop (next & rq & Hn) Hp Hl E Hnone Hreq.
  rewrite (Reconcile_reads _ _ _ _ _ Hs) in E. cbn [after] in E. rewrite Hsec, Hd, Hn in E.
  assert (IsSleepOperation data = false) as Hns by (unfold IsSleepOperation; by rewrite Hop).
  destruct (NewResources_ok s (ManagerName r) ns (OriginalGenericResourceInfo data) (read_world ns name w))
    as (g & w1 & rd & EN & Ht1 & Hrd & _ & _).
  pose proof (unlisted_missed _ _ _ _ _ _ _ _ Hl EN) as Hmiss. split.
  - destruct (execute_wakes_only r ns (getSecretName name) s secret data (w_now w) next rq _ g w1 EN Hns)
      as (new & Ht & Hnew). rewrite E in Ht. cbn in Ht.
    exists g, ([CGetSleepInfo ns name; CGetSecret ns (getSecretName name)] ++ rd ++ new).
    split; [by exists w1|]. split; [by rewrite Ht, Ht1, read_world_trace, <- !app_assoc|].
    intros c Hin Hc. rewrite !in_app_iff in Hin. destruct Hin as [[<-|[<-|[]]]|[Hin|Hin]]; [done|done| |].
    + apply list_elem_of_In in Hin. rewrite Forall_forall in Hrd. specialize (Hrd c Hin). by destruct c.
    + apply list_elem_of_In in Hin. rewrite Forall_forall in Hnew. specialize (Hnew c Hin).
      destruct c as [| | | | | |u v| | | | |]; try done. destruct Hnew as (t' & gr & Hgr & Hu & _).
      exists t', gr, u, v. split_and!; try done. congruence.
  - destruct (execute_saves _ _ _ _ _ _ _ _ _ _ _ _ _ _ E EN Hnone Hreq) as (g' & n & sec & Hst & Hdata).
    exists sec. split; [done|]. intros s2 sleep wake Hs2.
    assert (saved_info n data g' = None) as Hi by (unfold saved_info; by rewrite Hns, andb_false_r).
    rewrite Hi in Hdata. rewrite (reads_back s2 sec _ _ None None sleep wake Hs2 Hp Hdata eq_refl).
    unfold saved_operation. destruct (HasResource g'); [rewrite Hop|]; cbn; by eexists.
Qed.

(** ** A sleep whose secret was not written *)

Section Retry.
Variables (r : SleepInfoReconciler) (ns name : string) (t : PatchTarget) (n : string).
(** The first run, in the world [w0], has found no restore patch for the resource
    [n] of the target [t] in the secret; at its end the secret could not be written,
    for which it asks to be run again at once. *)
Variables (w0 w1 : World) (s0 : SleepInfo) (secret0 : option Secret) (data : SleepInfoData) (sleep wake : string).
Hypothesis Hreads0 : reads ns name w0 s0 secret0.
Hypothesis Hsched0 : schedules_of s0 sleep wake.
Hypothesis Hdata0 : getSleepInfoData secret0 s0 = Ok data.
Hypothesis Hsleep : IsSleepOperation data = true.
Hypothesis Hnone0 : restore_patches data t !! n = None.
Hypothesis Hrun0 : Reconcile.Reconcile r ns name w0 = (Ok (requeueNow, None), w1).
Hypothesis Hkept : secret_at (w_api w1) ns (getSecretName name) = secret_at (w_api w0) ns (getSecretName name).
(** The retry, in the world [w2], still on time, finds the resource asleep and
    succeeds. *)
Variables (w2 w3 : World) (s : SleepInfo) (secret : option Secret) (out : Outcome).
Variables (g : managedResources) (gr : genericResource) (p : Patcher).
Hypothesis Hwait0 : rtc (idle ns name) w1 w2.
Hypothesis Hreads : reads ns name w2 s secret.
Hypothesis Hsched : schedules_of s sleep wake.
Hypothesis Hdue : due r data (w_now w2).
Hypothesis Hclock : printable (w_now w2) = true.
Hypothesis Hcoll : collects r ns name w2 s data g.
Hypothesis Hrest : restorable g.
Hypothesis Hgr : resMapping g !! t = Some gr.
Hypothesis Hp : New (p_Patch (gr_patchData gr)) = Ok p.
Hypothesis Hasleep : settled p n (gr_data gr).
Hypothesis Hrun : Reconcile.Reconcile r ns name w2 = (Ok out, w3).
Hypothesis Hout : out.2 = None /\ Requeue out.1 = false.
(** The SleepInfo waits until the morning, when it has a wake up. *)
Variables (w4 : World) (s2 : SleepInfo) (sleep2 wake2 : string) (data2 : SleepInfoData) (g2 : managedResources).
Hypothesis Hwait : rtc (idle ns name) w3 w4.
Hypothesis Hinfo2 : (api_GetSleepInfo ns name (w_api w4)).1 = Ok s2.
Hypothesis Hsched2 : schedules_of s2 sleep2 wake2.
Hypothesis Hwake2 : wake2 <> ""%string.
Hypothesis Hdata2 : getSleepInfoData (secret_at (w_api w4) ns (getSecretName name)) s2 = Ok data2.
Hypothesis Hcoll2 : collects r ns name w4 s2 data2 g2.

(** The retry reads what the first run read. *)
Lemma retry_data : getSleepInfoData secret s = Ok data.
Proof using SW Hreads0 Hsched0 Hdata0 Hkept Hwait0 Hreads Hsched.
  assert (secret = secret0) as ->; [|by apply (same_data secret0 s0 s sleep wake)].
  rewrite <- (reads_stored _ _ _ _ _ Hreads), <- (reads_stored _ _ _ _ _ Hreads0), <- Hkept.
  by apply waits_keeps_secret.
Qed.

Lemma retry_saves :
  exists m, data2 = mkSleepInfoData (to_second (w_now w2)) wakeUpOperation wake2 sleep2 (Some m)
    /\ patches_for m (target_String t) !! n = None
    /\ is_Some (secret_at (w_api w4) ns (getSecretName name)).
Proof using SW Hreads0 Hsched0 Hdata0 Hsleep Hnone0 Hkept Hwait0 Hreads Hsched Hdue Hclock Hcoll Hrest Hgr Hp
  Hasleep Hrun Hout Hwait Hsched2 Hwake2 Hdata2.
  pose proof retry_data as Hd. destruct Hreads as [Hs Hsec], Hdue as (next & rq & Hn), Hcoll as (wn & EN),
    Hout as [Hno Hreq].
  pose proof Hrun as E. rewrite (Reconcile_reads _ _ _ _ _ Hs) in E. cbn [after] in E. rewrite Hsec, Hd, Hn in E.
  assert (HasResource g = true) as Hg.
  { apply HasResource_true. exists t, gr. split; [done|].
    destruct (NewResources_ok s (ManagerName r) ns (OriginalGenericResourceInfo data) (read_world ns name w2))
      as (g0 & wx & rd & EN' & _ & _ & _ & Hne). rewrite EN in EN'. injection EN' as <- <-.
    by apply (Hne t gr). }
  destruct (execute_sleeps _ _ _ _ _ _ _ _ _ _ _ _ _ _ E EN Hg Hsleep Hno Hreq)
    as (g1 & wa & wb & sec & k & Es & Hst & Hdata).
  destruct (sleep_view r ns s data (w_now w2) (read_world ns name w2) g wn wa g1 wb k sec s2 sleep2 wake2) as (m & Hm & Hall); try done.
  exists m. pose proof (waits_keeps_secret _ _ _ _ Hwait) as Hk. pose proof Hdata2 as Hx.
  rewrite Hk, Hst, Hm in Hx. injection Hx as Hx. split; [done|]. split; [|rewrite Hk, Hst; by eexists].
  rewrite (Hall t gr p Hgr Hp). by apply slept_patches_none.
Qed.

(** [C35] A sleep whose secret could not be written loses the restore patches.  The
    run put a resource to sleep, but failed to write the secret, which is as before
    and has no restore patch for the resource.  The retry on time finds the resource
    asleep and succeeds: the secret it stores has no restore patch for the resource
    either, and the next run, the wake up of the morning whenever it comes, sends no
    patch for it, whatever it returns: it patches only other resources. *)
Theorem unsaved_sleep_forgotten out2 w5 :
  Reconcile.Reconcile r ns name w4 = (Ok out2, w5) ->
  exists new, w_trace w5 = w_trace w4 ++ new
    /\ forall c, In c new -> is_resource_write c = true ->
         exists u v t' gr', c = CPatch u v /\ resMapping g2 !! t' = Some gr' /\ u ∈ gr_data gr'
           /\ (t' = t -> GetName u <> n).
Proof using SW Hreads0 Hsched0 Hdata0 Hsleep Hnone0 Hrun0 Hkept Hwait0 Hreads Hsched Hdue Hclock Hcoll Hrest
  Hgr Hp Hasleep Hrun Hout Hwait Hinfo2 Hsched2 Hwake2 Hdata2 Hcoll2.
  intros E. destruct retry_saves as (m & Ed2 & Hm & [sec Hst]).
  rewrite (Reconcile_reads _ _ _ _ _ Hinfo2) in E.
  set (rd0 := [CGetSleepInfo ns name; CGetSecret ns (getSecretName name)]).
  assert (forall o, (Ok o, read_world ns name w4) = (Ok out2, w5) ->
    exists new, w_trace w5 = w_trace w4 ++ new
      /\ forall c, In c new -> is_resource_write c = true ->
           exists u v t' gr', c = CPatch u v /\ resMapping g2 !! t' = Some gr' /\ u ∈ gr_data gr'
             /\ (t' = t -> GetName u <> n)) as Hstop.
  { intros o [= _ <-]. exists rd0. split; [apply read_world_trace|]. by intros c [<-|[<-|[]]]. }
  pose proof (others_keep (CGetSleepInfo ns name) (w_api w4) ns (getSecretName name) eq_refl) as Hk.
  destruct (api_GetSecret ns (getSecretName name) (after (CGetSleepInfo ns name) (w_api w4))).1
    as [x|e] eqn:Eget; cbn [found_secret] in E.
  2: { destruct (IsNotFound e) eqn:En; [|eapply Hstop; exact E].
       pose proof (get_missing _ _ _ _ Eget En). congruence. }
  pose proof (get_found _ _ _ _ Eget) as Hx. rewrite Hk, Hst in Hx. injection Hx as <-.
  pose proof Hdata2 as Hd2. rewrite Hst in Hd2. rewrite Hd2 in E.
  destruct (getNextSchedule (SleepDelta r) data2 (w_now w4)) as [[[[] next] rq]|e]; [|eapply Hstop; exact E..].
  destruct Hcoll2 as (wn & EN).
  destruct (execute_wakes_only r ns (getSecretName name) s2 (Some sec) data2 (w_now w4) next rq _ g2 wn EN)
    as (new & Ht & Hnew); [by rewrite Ed2|]. rewrite E in Ht. cbn in Ht.
  destruct (NewResources_spec (mkResourceClient true (Some s2) (ManagerName r)) s2 ns
    (OriginalGenericResourceInfo data2) (read_world ns name w4) eq_refl)
    as (g0 & w0' & rd & EN0 & _ & Hentry & _ & Htn & Hrd).
  rewrite EN in EN0. injection EN0 as <- <-.
  exists (rd0 ++ rd ++ new). split; [by rewrite Ht, Htn, read_world_trace, <- !app_assoc|].
  intros c Hin Hc. rewrite !in_app_iff in Hin. destruct Hin as [[<-|[<-|[]]]|[Hin|Hin]]; [done|done| |].
  - apply list_elem_of_In in Hin. rewrite Forall_forall in Hrd. specialize (Hrd c Hin). by destruct c.
  - apply list_elem_of_In in Hin. rewrite Forall_forall in Hnew. specialize (Hnew c Hin).
    destruct c as [| | | | | |u v| | | | |]; try done. destruct Hnew as (t' & gr' & Hgr' & Hu & [raw Hraw]).
    exists u, v, t', gr'. split_and!; try done. intros -> Hname.
    rewrite (entry_patches _ _ _ _ _ (Hentry t gr' Hgr')), Hname, Ed2 in Hraw. cbn in Hraw. congruence.
Qed.
End Retry.
End Losses.
