(* ===== verification/FakeClient.v ===== *)
(** * The fake client of the tests: testutil/fakeclient.go

    [PossiblyErroringFakeCtrlRuntimeClient] wraps a [client.Client]: it can be
    told to fail a call before it reaches that client, it merges the string data
    of secrets as a real API server does, and it evaluates field selectors, which
    the in-memory client of controller-runtime does not.

    [CtrlClient] is [client.Client] with the objects its methods are given: a
    write hands the object back as the caller's pointer then shows it.
    [reconciler_client] is the same client as the controllers use it, so that
    every theorem on them holds with the fake client as with any other.  The
    helpers of apimachinery on lists and objects are parameters ([MetaLib]). *)

From S2P Require Import Prelude GoStrings GoTime GoJson GoAny Api Libs Client RestoreData.
From S2P Require Import SleepInfoData Patcher Resource ManagedResources ManagedResourcesSpec.
From S2P Require Import SleepWakeSpec Secrets Store.

(** [client.Object]: the types the program and its tests write. *)
Inductive ClientObject :=
| ObjSecret (s : Secret)
| ObjExecution (e : SleepInfoExecution)
| ObjUnstructured (u : Unstructured).

(** [client.Patch]: [client.MergeFrom] of an object. *)
Inductive ClientPatch := MergeFrom (old : ClientObject).

(** [client.Client].  A write returns the error and the object as it is afterwards. *)
Class CtrlClient {SL : SelectorLib} := {
  CtrlState : Type;
  ctrl_GetSleepInfo : string -> string -> CtrlState -> result SleepInfo * CtrlState;
  ctrl_GetSecret : string -> string -> CtrlState -> result Secret * CtrlState;
  ctrl_GetExecution : string -> string -> CtrlState -> result SleepInfoExecution * CtrlState;
  ctrl_RESTMapping : GroupKind -> CtrlState -> result GroupVersionKind * CtrlState;
  ctrl_List : GroupVersionKind -> ListOptions -> CtrlState ->
    (list Unstructured * option error) * CtrlState;
  ctrl_Create : ClientObject -> CtrlState -> (option error * ClientObject) * CtrlState;
  ctrl_Update : ClientObject -> CtrlState -> (option error * ClientObject) * CtrlState;
  ctrl_Patch : ClientObject -> ClientPatch -> CtrlState -> (option error * ClientObject) * CtrlState;
  ctrl_Apply : Unstructured -> string -> bool -> CtrlState -> option error * CtrlState;
  ctrl_StatusUpdateSleepInfo : SleepInfo -> CtrlState -> result unit * CtrlState;
  ctrl_StatusUpdateExecution : SleepInfoExecution -> CtrlState -> result unit * CtrlState;
  ctrl_SetOwnerReference : SleepInfo -> SleepInfoExecution -> result SleepInfoExecution
}.

Definition of_error (e : option error) : result unit :=
  match e with None => Ok tt | Some e => Err e end.

(** The client as the controllers use it: of the objects written, only that of
    [Update] on an execution is read again. *)
Definition reconciler_client {SL : SelectorLib} (C : CtrlClient) : ClientLib := {|
  ApiState := CtrlState;
  api_GetSleepInfo := ctrl_GetSleepInfo;
  api_GetSecret := ctrl_GetSecret;
  api_GetExecution := ctrl_GetExecution;
  api_RESTMapping := ctrl_RESTMapping;
  api_List := ctrl_List;
  api_Apply u owner force s := let '(err, s') := ctrl_Apply u owner force s in (of_error err, s');
  api_Patch old new s :=
    let '((err, _), s') := ctrl_Patch (ObjUnstructured new) (MergeFrom (ObjUnstructured old)) s in
    (of_error err, s');
  api_CreateSecret x s := let '((err, _), s') := ctrl_Create (ObjSecret x) s in (of_error err, s');
  api_UpdateSecret x s := let '((err, _), s') := ctrl_Update (ObjSecret x) s in (of_error err, s');
  api_StatusUpdateSleepInfo := ctrl_StatusUpdateSleepInfo;
  api_UpdateExecution e s :=
    let '((err, o), s') := ctrl_Update (ObjExecution e) s in
    (match err with
     | Some err => Err err
     | None => Ok (match o with ObjExecution e' => e' | _ => e end)
     end, s');
  api_StatusUpdateExecution := ctrl_StatusUpdateExecution;
  SetOwnerReference := ctrl_SetOwnerReference
|}.

(** [meta.ExtractList], [meta.Accessor] and [meta.SetList] on an
    [UnstructuredList], given by its items, and its objects. *)
Class MetaLib := {
  ExtractList : list Unstructured -> result (list Unstructured);
  Accessor : Unstructured -> result Unstructured;
  SetList : list Unstructured -> list Unstructured -> result (list Unstructured)
}.

(** [Method]: the constants List, Create, Update, Patch and Apply. *)
Inductive Method := MList | MCreate | MUpdate | MPatch | MApply.

(** What [ShouldError] is given: the list or the object of the call, nil for an
    apply. *)
Inductive RuntimeObject :=
| RList (gvk : GroupVersionKind)
| RObject (o : ClientObject)
| RNil.

Section FakeClient.
Context {UL : UnstructuredLib} {SL : SelectorLib} {ML : MetaLib}.

(** [PossiblyErroringFakeCtrlRuntimeClient]: the wrapped client and the function,
    which may be nil. *)
Record FakeClient := mkFakeClient {
  fc_Client : CtrlClient;
  fc_ShouldError : option (Method -> RuntimeObject -> bool)
}.

Variable p : FakeClient.

Definition shouldError (m : Method) (obj : RuntimeObject) : bool :=
  match fc_ShouldError p with
  | Some f => f m obj
  | None => false
  end.

Fixpoint filterObjectsByName (objList : list Unstructured) (fieldSelector : FieldSelector)
    : result (list Unstructured) :=
  match objList with
  | [] => Ok []
  | obj :: rest =>
      let? accessor := Accessor obj in
      let name := GetName accessor in
      let? items := filterObjectsByName rest fieldSelector in
      if FieldMatches fieldSelector {["metadata.name"%string := name]} then Ok (obj :: items) else Ok items
  end.

(** The options without their field selector. *)
Definition unselected (o : ListOptions) : ListOptions :=
  mkListOptions (lo_Namespace o) (lo_Limit o) None (lo_LabelSelector o).

Definition fake_List (gvk : GroupVersionKind) (opts : ListOptions) (s : @CtrlState _ (fc_Client p))
    : (list Unstructured * option error) * @CtrlState _ (fc_Client p) :=
  if shouldError MList (RList gvk) then (([], Some (errorf "error during list")), s)
  else
    let fieldSelector := lo_FieldSelector opts in
    let '((items, err), s') := ctrl_List gvk (unselected opts) s in
    match err with
    | Some e => ((items, Some e), s')
    | None =>
        match fieldSelector with
        | None => ((items, None), s')
        | Some sel =>
            match (let? objList := ExtractList items in
                   let? filteredObjs := filterObjectsByName objList sel in
                   SetList items filteredObjs) with
            | Ok items' => ((items', None), s')
            | Err e => ((items, Some e), s')
            end
        end
    end.

(** [convertSecretStringData(secret)] when the object is a [v1.Secret]: the
    caller's secret changes. *)
Definition converted (obj : ClientObject) : ClientObject :=
  match obj with
  | ObjSecret secret => ObjSecret (convertSecretStringData secret)
  | _ => obj
  end.

Definition fake_Create (obj : ClientObject) (s : @CtrlState _ (fc_Client p))
    : (option error * ClientObject) * @CtrlState _ (fc_Client p) :=
  if shouldError MCreate (RObject obj) then ((Some (errorf "error during create"), obj), s)
  else
    let obj := converted obj in
    ctrl_Create obj s.

Definition fake_Update (obj : ClientObject) (s : @CtrlState _ (fc_Client p))
    : (option error * ClientObject) * @CtrlState _ (fc_Client p) :=
  if shouldError MUpdate (RObject obj) then ((Some (errorf "error during update"), obj), s)
  else
    let obj := converted obj in
    ctrl_Update obj s.

Definition fake_Patch (obj : ClientObject) (patch : ClientPatch) (s : @CtrlState _ (fc_Client p))
    : (option error * ClientObject) * @CtrlState _ (fc_Client p) :=
  if shouldError MPatch (RObject obj) then ((Some (errorf "error during patch"), obj), s)
  else
    let obj := converted obj in
    ctrl_Patch obj patch s.

Definition fake_Apply (obj : Unstructured) (owner : string) (force : bool)
    (s : @CtrlState _ (fc_Client p)) : option error * @CtrlState _ (fc_Client p) :=
  if shouldError MApply RNil then (Some (errorf "error during apply"), s)
  else ctrl_Apply obj owner force s.

(** The client; the methods that are not overridden are those of the wrapped
    one, the status writer and the REST mapper among them. *)
Definition fakeClient : CtrlClient := {|
  CtrlState := @CtrlState _ (fc_Client p);
  ctrl_GetSleepInfo := ctrl_GetSleepInfo;
  ctrl_GetSecret := ctrl_GetSecret;
  ctrl_GetExecution := ctrl_GetExecution;
  ctrl_RESTMapping := ctrl_RESTMapping;
  ctrl_List := fake_List;
  ctrl_Create := fake_Create;
  ctrl_Update := fake_Update;
  ctrl_Patch := fake_Patch;
  ctrl_Apply := fake_Apply;
  ctrl_StatusUpdateSleepInfo := ctrl_StatusUpdateSleepInfo;
  ctrl_StatusUpdateExecution := ctrl_StatusUpdateExecution;
  ctrl_SetOwnerReference := @ctrl_SetOwnerReference _ (fc_Client p)
|}.
End FakeClient.

(** ** What is wrapped *)

(** apimachinery on unstructured lists: the items are objects that carry their
    own metadata. *)
Class MetaLaws {ML : MetaLib} : Prop := {
  ExtractList_items l : ExtractList l = Ok l;
  Accessor_self u : Accessor u = Ok u;
  SetList_items l l' : SetList l l' = Ok l'
}.

(** The in-memory client of controller-runtime keeps the data of a secret that has
    no string data; of one that has, nothing is assumed. *)
Definition kept_as (x : Secret) (y : option Secret) : Prop :=
  exists sec, y = Some sec /\ sec_Data sec = sec_Data x.

Section Memory.
Context {SL : SelectorLib}.

Class MemoryLaws (C : CtrlClient) := {
  kept : @CtrlState _ C -> string -> string -> option Secret;
  kept_found ns name s x : (ctrl_GetSecret ns name s).1 = Ok x -> kept s ns name = Some x;
  kept_missing ns name s e :
    (ctrl_GetSecret ns name s).1 = Err e -> IsNotFound e = true -> kept s ns name = None;
  kept_others c s ns name :
    is_secret_write c = false ->
    kept (@after _ (reconciler_client C) c s) ns name = kept s ns name;
  kept_write (create : bool) x s ns name :
    sec_StringData x = None ->
    let r := (if create then ctrl_Create else ctrl_Update) (ObjSecret x) s in
    (r.1.1 = None -> kept_as x (kept r.2 (secret_key x).1 (secret_key x).2))
    /\ (kept r.2 ns name = kept s ns name
        \/ (ns, name) = secret_key x /\ kept_as x (kept r.2 ns name))
}.
End Memory.

(** ** Theorems *)

Section Spec.
Context {UL : UnstructuredLib} {SL : SelectorLib} {ML : MetaLib} {MW : MetaLaws}.

(** The objects whose name the selector admits. *)
Definition admitted (sel : option FieldSelector) (u : Unstructured) : bool :=
  match sel with
  | Some sel => FieldMatches sel {["metadata.name"%string := GetName u]}
  | None => true
  end.

Lemma filterObjectsByName_spec l sel :
  filterObjectsByName l sel = Ok (List.filter (admitted (Some sel)) l).
Proof.
  induction l as [|u l IH]; [done|]. cbn. rewrite Accessor_self. cbn [rbind]. rewrite IH. cbn [rbind].
  by destruct (FieldMatches _ _).
Qed.

(** The secrets behind the fake client are those of the client it wraps. *)
Definition fake_secrets (p : FakeClient) (L : MemoryLaws (fc_Client p))
    : @SecretStore _ (reconciler_client (fakeClient p)) :=
  {| secret_at := (@kept _ (fc_Client p) L : @ApiState _ (reconciler_client (fakeClient p)) -> _) |}.

Lemma kept_converted x y : kept_as (convertSecretStringData x) y -> stored_as x y.
Proof. intros (sec & -> & Hd). by exists sec. Qed.

Lemma fake_lists (p : FakeClient) gvk o s :
  shouldError p MList (RList gvk) = false ->
  fake_List p gvk o s
  = let '((items, err), s') := @ctrl_List _ (fc_Client p) gvk (unselected o) s in
    ((match err with None => List.filter (admitted (lo_FieldSelector o)) items | Some _ => items end, err), s').
Proof.
  intros Hf. unfold fake_List. rewrite Hf.
  destruct (@ctrl_List _ (fc_Client p) gvk (unselected o) s) as [[items [e|]] s']; [done|].
  destruct (lo_FieldSelector o) as [sel|].
  - rewrite ExtractList_items. cbn [rbind]. rewrite filterObjectsByName_spec. cbn [rbind]. by rewrite SetList_items.
  - assert (List.filter (admitted None) items = items) as ->; [|done].
    by induction items as [|u items IH]; cbn; [|rewrite IH].
Qed.

(** The effect of a call through the fake client is that of a call to the client
    it wraps, or none. *)
Lemma fake_after (p : FakeClient) c s :
  is_secret_write c = false ->
  @after _ (reconciler_client (fakeClient p)) c s = s
  \/ exists c', is_secret_write c' = false
       /\ @after _ (reconciler_client (fakeClient p)) c s = @after _ (reconciler_client (fc_Client p)) c' s.
Proof.
  intros Hc. destruct c as [ns name|ns name|ns name|gk|gvk opts|obj owner force|old new|x|x|i|e|e];
    try discriminate Hc; cbn;
    [right; by exists (CGetSleepInfo ns name)|right; by exists (CGetSecret ns name)
    |right; by exists (CGetExecution ns name)|right; by exists (CRESTMapping gk)| | |
    |right; by exists (CStatusSleepInfo i)| |right; by exists (CStatusExecution e)].
  - unfold fake_List. destruct (shouldError p MList (RList gvk)); [by left|right].
    exists (CList gvk (unselected opts)). split; [done|]. cbn.
    destruct (@ctrl_List _ (fc_Client p) gvk (unselected opts) s) as [[items [e|]] s']; [done|].
    destruct (lo_FieldSelector opts); [|done]. by destruct (rbind _ _).
  - unfold fake_Apply. destruct (shouldError p MApply RNil); [by left|right].
    by exists (CApply obj owner force).
  - unfold fake_Patch. destruct (shouldError p MPatch _); [by left|right]. by exists (CPatch old new).
  - unfold fake_Update. destruct (shouldError p MUpdate _); [by left|right]. by exists (CUpdateExecution e).
Qed.

(** A secret written through the fake client, by [Create] or by [Update]. *)
Lemma fake_write (p : FakeClient) (L : MemoryLaws (fc_Client p)) (create : bool) x s ns name :
  let r := (if create then fake_Create p else fake_Update p) (ObjSecret x) s in
  (r.1.1 = None -> stored_as x (kept r.2 (secret_key x).1 (secret_key x).2))
  /\ (kept r.2 ns name = kept s ns name
      \/ (ns, name) = secret_key x /\ stored_as x (kept r.2 ns name)).
Proof.
  cbv zeta. assert (secret_key (convertSecretStringData x) = secret_key x) as Hk by done.
  destruct (kept_write (C := fc_Client p) create (convertSecretStringData x) s ns name eq_refl)
    as [H1 H2].
  rewrite Hk in H1, H2. destruct create; unfold fake_Create, fake_Update;
    destruct (shouldError p _ _); try (split; [done|by left]); cbn [converted];
    (split; [intros E; by apply kept_converted, H1|]);
    (destruct H2 as [H2|[? H2]]; [by left|right; split; [done|by apply kept_converted]]).
Qed.

(** The laws of a store of secrets. *)
Lemma fake_store (p : FakeClient) (L : MemoryLaws (fc_Client p)) :
  @StoreLaws _ (reconciler_client (fakeClient p)) (fake_secrets p L).
Proof.
  split; cbn.
  - apply (kept_found (C := fc_Client p)).
  - apply (kept_missing (C := fc_Client p)).
  - intros c s ns name Hc. destruct (fake_after p c s Hc) as [-> |(c' & Hc' & ->)]; [done|].
    by apply (kept_others (C := fc_Client p)).
  - intros x s Hx. pose proof (proj1 (fake_write p L true x s "" "")) as H. cbn in *.
    destruct (fake_Create p (ObjSecret x) s) as [[[e|] o] s']; [done|]. by apply H.
  - intros x s Hx. pose proof (proj1 (fake_write p L false x s "" "")) as H. cbn in *.
    destruct (fake_Update p (ObjSecret x) s) as [[[e|] o] s']; [done|]. by apply H.
  - intros c x s ns name Hc.
    pose proof (proj2 (fake_write p L true x s ns name)) as H1.
    pose proof (proj2 (fake_write p L false x s ns name)) as H2. cbn in H1, H2.
    destruct Hc as [-> | ->]; cbn;
      [destruct (fake_Create p (ObjSecret x) s) as [[? ?] ?]
      |destruct (fake_Update p (ObjSecret x) s) as [[? ?] ?]]; done.
Qed.

(** [C30] The fake client serves the controllers as a real API server does, over an
    in-memory client of which it is assumed neither that it merges the string data
    of secrets nor that it evaluates field selectors.  Whatever calls it is told to fail, the laws of a store of
    secrets hold of it, on which the theorems on whole histories rest: a secret
    written through it is stored with its string data merged into its data.  A
    list it is not told to fail asks the wrapped client for the objects without the
    field selector and returns, in their order, those whose name the selector
    admits.  A call it is told to fail returns the error of its method, and leaves
    the state of the wrapped client and the object of the caller as they were. *)
Theorem fake_client_serves (p : FakeClient) (L : MemoryLaws (fc_Client p)) :
  @StoreLaws _ (reconciler_client (fakeClient p)) (fake_secrets p L)
  /\ (forall gvk o s, shouldError p MList (RList gvk) = false ->
        @ctrl_List _ (fakeClient p) gvk o s
        = let '((items, err), s') := @ctrl_List _ (fc_Client p) gvk (unselected o) s in
          ((match err with None => List.filter (admitted (lo_FieldSelector o)) items | Some _ => items end,
            err), s'))
  /\ (forall gvk o s, shouldError p MList (RList gvk) = true ->
        @ctrl_List _ (fakeClient p) gvk o s = (([], Some (errorf "error during list")), s))
  /\ (forall o s, shouldError p MCreate (RObject o) = true ->
        @ctrl_Create _ (fakeClient p) o s = ((Some (errorf "error during create"), o), s))
  /\ (forall o s, shouldError p MUpdate (RObject o) = true ->
        @ctrl_Update _ (fakeClient p) o s = ((Some (errorf "error during update"), o), s))
  /\ (forall o q s, shouldError p MPatch (RObject o) = true ->
        @ctrl_Patch _ (fakeClient p) o q s = ((Some (errorf "error during patch"), o), s))
  /\ (forall u owner force s, shouldError p MApply RNil = true ->
        @ctrl_Apply _ (fakeClient p) u owner force s = (Some (errorf "error during apply"), s)).
Proof.
  split; [apply fake_store|].
  split_and!; cbn; intros *; [apply fake_lists|..]; intros Hf;
    unfold fake_List, fake_Create, fake_Update, fake_Patch, fake_Apply; by rewrite Hf.
Qed.
End Spec.
