(* ===== verification/Mocks.v ===== *)
(** * The builders of test objects: internal/controller/sleepinfo/internal/mocks

    The builders fill structs of the Kubernetes API libraries.  A struct is what
    the composite literal says: the name of its type and the fields that are
    given, the others being zero.  Its conversion to an unstructured object is the
    library's. *)

From S2P Require Import Prelude GoStrings GoJson Api Libs.

(** Go values, as composite literals make them. *)
Unset Elimination Schemes.
Inductive GoValue :=
| GString (s : string)
| GInt (z : Z)
| GBool (b : bool)
| GNil
| GPtr (v : GoValue)
| GInterface (v : GoValue)
| GMap (m : gmap string string)
| GSlice (l : list GoValue)
| GStruct (type : string) (fields : list (string * GoValue)).
Set Elimination Schemes.

(** A pointer or a map that may be nil. *)
Definition ptr_to {A} (f : A -> GoValue) (o : option A) : GoValue :=
  match o with Some a => GPtr (f a) | None => GNil end.
Definition map_of (o : option (gmap string string)) : GoValue :=
  match o with Some m => GMap m | None => GNil end.

(** The value of a field of a struct, behind pointers; nil is a panic, and a field
    that is not given is zero. *)
Fixpoint field (name : string) (v : GoValue) : option GoValue :=
  match v with
  | GPtr v => field name v
  | GStruct _ fields => (fun f => f.2.2) <$> list_find (fun f => f.1 = name) fields
  | _ => None
  end.
Definition path (names : list string) (v : GoValue) : option GoValue :=
  fold_left (fun o name => o ≫= field name) names (Some v).

(** [runtime.DefaultUnstructuredConverter] *)
Class UnstructuredConverter := { ToUnstructured : GoValue -> result (gmap string json) }.

Definition errPanicWith (e : error) : error := errorf ("panic: " +:+ err_msg e).

(** ** resource.go *)

Record ResourceMock := mkResourceMock { resource : GoValue }.

(** A pointer to a copy. *)
Definition Mock_Resource (r : ResourceMock) : GoValue := GPtr (resource r).

Definition to_object `{UnstructuredConverter} (v : GoValue) : result Unstructured :=
  match ToUnstructured (GPtr v) with
  | Err e => Err (errPanicWith e)
  | Ok o => Ok (mkUnstructured o)
  end.

Definition Mock_Unstructured `{UnstructuredConverter} (r : ResourceMock) : result Unstructured :=
  to_object (resource r).

(** ** The workloads: deployment.go, statefulset.go, replicaset.go *)

Definition type_meta (kind apiVersion : string) : GoValue :=
  GStruct "metav1.TypeMeta" [("Kind", GString kind); ("APIVersion", GString apiVersion)]%string.

Definition match_labels (name : string) (MatchLabels : option (gmap string string)) : option (gmap string string) :=
  match MatchLabels with
  | None => Some {["app"%string := name]}
  | Some m => Some m
  end.

Record DeploymentOptions := mkDeploymentOptions {
  do_Namespace : string;
  do_Name : string;
  do_Labels : option (gmap string string);
  do_Replicas : option Z;
  do_ResourceVersion : string;
  do_PodAnnotations : option (gmap string string);
  do_MatchLabels : option (gmap string string)
}.

Definition Deployment (opts : DeploymentOptions) : ResourceMock :=
  let MatchLabels := match_labels (do_Name opts) (do_MatchLabels opts) in
  mkResourceMock (GStruct "appsv1.Deployment"
    [("TypeMeta", type_meta "Deployment" "apps/v1");
     ("ObjectMeta", GStruct "metav1.ObjectMeta"
       [("Name", GString (do_Name opts));
        ("Namespace", GString (do_Namespace opts));
        ("ResourceVersion", GString (do_ResourceVersion opts));
        ("Annotations", map_of (do_PodAnnotations opts));
        ("Labels", map_of (do_Labels opts))]);
     ("Spec", GStruct "appsv1.DeploymentSpec"
       [("Selector", GPtr (GStruct "metav1.LabelSelector" [("MatchLabels", map_of MatchLabels)]));
        ("Template", GStruct "v1.PodTemplateSpec"
          [("ObjectMeta", GStruct "metav1.ObjectMeta" [("Labels", map_of MatchLabels)]);
           ("Spec", GStruct "v1.PodSpec"
             [("Containers", GSlice
               [GStruct "v1.Container"
                 [("Name", GString "container");
                  ("Image", GString "my-image");
                  ("Env", GSlice
                    [GStruct "v1.EnvVar" [("Name", GString "TEST_ENV"); ("Value", GString "test-value")]])]])])]);
        ("Replicas", ptr_to GInt (do_Replicas opts))])]%string).

Record StatefulSetOptions := mkStatefulSetOptions {
  so_Namespace : string;
  so_Name : string;
  so_Labels : option (gmap string string);
  so_Replicas : option Z;
  so_ResourceVersion : string;
  so_PodAnnotations : option (gmap string string);
  so_MatchLabels : option (gmap string string)
}.

Definition StatefulSet (opts : StatefulSetOptions) : ResourceMock :=
  let MatchLabels := match_labels (so_Name opts) (so_MatchLabels opts) in
  mkResourceMock (GStruct "appsv1.StatefulSet"
    [("TypeMeta", type_meta "StatefulSet" "apps/v1");
     ("ObjectMeta", GStruct "metav1.ObjectMeta"
       [("Name", GString (so_Name opts));
        ("Namespace", GString (so_Namespace opts));
        ("ResourceVersion", GString (so_ResourceVersion opts));
        ("Annotations", map_of (so_PodAnnotations opts));
        ("Labels", map_of (so_Labels opts))]);
     ("Spec", GStruct "appsv1.StatefulSetSpec"
       [("Selector", GPtr (GStruct "metav1.LabelSelector" [("MatchLabels", map_of MatchLabels)]));
        ("Template", GStruct "v1.PodTemplateSpec"
          [("ObjectMeta", GStruct "metav1.ObjectMeta" [("Labels", map_of MatchLabels)]);
           ("Spec", GStruct "v1.PodSpec"
             [("Containers", GSlice
               [GStruct "v1.Container" [("Name", GString "container"); ("Image", GString "my-image")]])])]);
        ("Replicas", ptr_to GInt (so_Replicas opts))])]%string).

(** The owners are given as struct values. *)
Record ReplicaSetSetOptions := mkReplicaSetSetOptions {
  ro_Namespace : string;
  ro_Name : string;
  ro_Labels : option (gmap string string);
  ro_Replicas : option Z;
  ro_ResourceVersion : string;
  ro_PodAnnotations : option (gmap string string);
  ro_MatchLabels : option (gmap string string);
  ro_OwnerReferences : option (list GoValue)
}.

Definition ReplicaSet (opts : ReplicaSetSetOptions) : ResourceMock :=
  let MatchLabels := match_labels (ro_Name opts) (ro_MatchLabels opts) in
  mkResourceMock (GStruct "appsv1.ReplicaSet"
    [("TypeMeta", type_meta "ReplicaSet" "apps/v1");
     ("ObjectMeta", GStruct "metav1.ObjectMeta"
       [("Name", GString (ro_Name opts));
        ("Namespace", GString (ro_Namespace opts));
        ("ResourceVersion", GString (ro_ResourceVersion opts));
        ("Annotations", map_of (ro_PodAnnotations opts));
        ("Labels", map_of (ro_Labels opts));
        ("OwnerReferences", match ro_OwnerReferences opts with Some l => GSlice l | None => GNil end)]);
     ("Spec", GStruct "appsv1.ReplicaSetSpec"
       [("Selector", GPtr (GStruct "metav1.LabelSelector" [("MatchLabels", map_of MatchLabels)]));
        ("Template", GStruct "v1.PodTemplateSpec"
          [("ObjectMeta", GStruct "metav1.ObjectMeta" [("Labels", map_of MatchLabels)]);
           ("Spec", GStruct "v1.PodSpec"
             [("Containers", GSlice
               [GStruct "v1.Container" [("Name", GString "container"); ("Image", GString "my-image")]])])]);
        ("Replicas", ptr_to GInt (ro_Replicas opts))])]%string).

(** ** cronjob.go *)

Record CronJobOptions := mkCronJobOptions {
  co_Namespace : string;
  co_Name : string;
  co_Labels : option (gmap string string);
  co_ResourceVersion : string;
  co_Schedule : string;
  co_Suspend : option bool;
  co_Version : string
}.

Definition job_pod : GoValue :=
  GStruct "v1.PodTemplateSpec"
    [("Spec", GStruct "v1.PodSpec"
       [("RestartPolicy", GString "Never");
        ("Containers", GSlice
          [GStruct "v1.Container" [("Name", GString "c1"); ("Image", GString "my-image")]])])]%string.

(** The struct that is converted. *)
Definition cronJob (opts : CronJobOptions) : GoValue :=
  let Schedule := if String.eqb (co_Schedule opts) "" then "0 0 1-5 * *"%string else co_Schedule opts in
  if String.eqb (co_Version opts) "v1beta1" then
    GStruct "batchv1beta1.CronJob"
      [("TypeMeta", type_meta "CronJob" "batch/v1beta1");
       ("ObjectMeta", GStruct "metav1.ObjectMeta"
         [("Name", GString (co_Name opts));
          ("Namespace", GString (co_Namespace opts));
          ("ResourceVersion", GString (co_ResourceVersion opts));
          ("Labels", map_of (co_Labels opts))]);
       ("Spec", GStruct "batchv1beta1.CronJobSpec"
         [("Schedule", GString Schedule);
          ("Suspend", ptr_to GBool (co_Suspend opts));
          ("JobTemplate", GStruct "batchv1beta1.JobTemplateSpec"
            [("ObjectMeta", GStruct "metav1.ObjectMeta"
               [("Name", GString (co_Name opts));
                ("Namespace", GString (co_Namespace opts))]);
             ("Spec", GStruct "batchv1.JobSpec" [("Template", job_pod)])])])]%string
  else
    GStruct "batchv1.CronJob"
      [("TypeMeta", type_meta "CronJob" "batch/v1");
       ("ObjectMeta", GStruct "metav1.ObjectMeta"
         [("Name", GString (co_Name opts));
          ("Namespace", GString (co_Namespace opts));
          ("ResourceVersion", GString (co_ResourceVersion opts));
          ("Labels", map_of (co_Labels opts))]);
       ("Spec", GStruct "batchv1.CronJobSpec"
         [("Schedule", GString Schedule);
          ("Suspend", ptr_to GBool (co_Suspend opts));
          ("JobTemplate", GStruct "batchv1.JobTemplateSpec"
            [("ObjectMeta", GStruct "metav1.ObjectMeta"
               [("Name", GString (co_Name opts));
                ("Namespace", GString (co_Namespace opts));
                ("Labels", map_of (co_Labels opts))]);
             ("Spec", GStruct "batchv1.JobSpec" [("Template", job_pod)])])])]%string.

Definition CronJob `{UnstructuredConverter} (opts : CronJobOptions) : result Unstructured :=
  to_object (GInterface (cronJob opts)).

(** ** Lemmas *)

(** The API server accepts a workload only when its selector is not empty and
    selects the labels of its own pods. *)
Definition selects_own_pods (v : GoValue) : Prop :=
  exists m, path ["Spec"; "Selector"; "MatchLabels"]%string v = Some (GMap m)
    /\ path ["Spec"; "Template"; "ObjectMeta"; "Labels"]%string v = Some (GMap m).

Lemma workloads_select_own_pods :
  (forall o, selects_own_pods (resource (Deployment o)))
  /\ (forall o, selects_own_pods (resource (StatefulSet o)))
  /\ (forall o, selects_own_pods (resource (ReplicaSet o))).
Proof.
  split_and!; intros []; unfold selects_own_pods, Deployment, StatefulSet, ReplicaSet; cbn;
    match goal with |- context [match_labels _ ?m] => destruct m end; eexists; split; reflexivity.
Qed.

(** A CronJob has a schedule, and is of batch/v1 unless v1beta1 is asked for. *)
Lemma cronJob_spec opts :
  exists sched, path ["Spec"; "Schedule"]%string (cronJob opts) = Some (GString sched) /\ sched <> ""%string
    /\ path ["TypeMeta"; "APIVersion"]%string (cronJob opts)
        = Some (GString (if String.eqb (co_Version opts) "v1beta1" then "batch/v1beta1" else "batch/v1")%string).
Proof.
  unfold cronJob. destruct (String.eqb_spec (co_Schedule opts) ""), (String.eqb (co_Version opts) "v1beta1");
    eexists; split_and!; try reflexivity; done.
Qed.
