(* ===== verification/Scheme.v ===== *)
(** * The registration of the API types

    api/v1alpha1 fills a scheme builder from the [init] functions of its files;
    the [init] of cmd/main.go adds the types of client-go and of kube-green to the
    scheme of the manager.  The scheme and its builder are the library's. *)

From S2P Require Import Prelude Api Libs.

(** The Go types that are registered. *)
Inductive GoType := TSleepInfo | TSleepInfoList | TSleepInfoExecution | TSleepInfoExecutionList.

#[export] Instance GoType_eq_dec : EqDecision GoType.
Proof. solve_decision. Defined.

Definition type_name (t : GoType) : string :=
  match t with
  | TSleepInfo => "SleepInfo"
  | TSleepInfoList => "SleepInfoList"
  | TSleepInfoExecution => "SleepInfoExecution"
  | TSleepInfoExecutionList => "SleepInfoExecutionList"
  end.

Lemma type_name_inj t t' : type_name t = type_name t' -> t = t'.
Proof. by destruct t, t'. Qed.

Definition kind_in (gv : string * string) (t : GoType) : GroupVersionKind := mkGVK gv.1 gv.2 (type_name t).

(** [runtime.Scheme] and [scheme.Builder] of controller-runtime.  [knows]: the
    type of kube-green that objects of a kind are decoded into. *)
Class SchemeLib := {
  RuntimeScheme : Type;
  NewScheme : RuntimeScheme;
  knows : RuntimeScheme -> GroupVersionKind -> option GoType;
  clientgo_AddToScheme : RuntimeScheme -> result RuntimeScheme;
  Builder : Type;
  newBuilder : string * string -> Builder;
  Register : list GoType -> Builder -> Builder;
  Builder_AddToScheme : Builder -> RuntimeScheme -> result RuntimeScheme
}.

(** A builder adds what was registered with it, under its group and version and
    the name of the type.  It fails only when a kind is taken by another type. *)
Class SchemeLaws `{SchemeLib} := {
  registered : Builder -> list GoType;
  builder_gv : Builder -> string * string;
  newBuilder_spec gv : registered (newBuilder gv) = [] /\ builder_gv (newBuilder gv) = gv;
  Register_spec l b : registered (Register l b) = registered b ++ l /\ builder_gv (Register l b) = builder_gv b;
  AddToScheme_adds b s s' t :
    Builder_AddToScheme b s = Ok s' -> t ∈ registered b -> knows s' (kind_in (builder_gv b) t) = Some t;
  AddToScheme_ok b s :
    (forall t t', t ∈ registered b -> knows s (kind_in (builder_gv b) t) = Some t' -> t' = t) ->
    is_ok (Builder_AddToScheme b s) = true
}.

Section Scheme.
Context `{SL : SchemeLib}.

(** The variables of api/v1alpha1.  [AddToScheme] is the method of the builder
    behind the pointer: it adds what the builder holds when it is called. *)
Record Package := mkPackage { SchemeBuilder : Builder }.

Definition variables : Package := mkPackage (newBuilder (GroupVersion_Group, GroupVersion_Version)).

Definition AddToScheme (p : Package) : RuntimeScheme -> result RuntimeScheme :=
  Builder_AddToScheme (SchemeBuilder p).

Definition init_sleepinfo (p : Package) : Package :=
  mkPackage (Register [TSleepInfo; TSleepInfoList] (SchemeBuilder p)).

Definition init_sleepinfoexecution (p : Package) : Package :=
  mkPackage (Register [TSleepInfoExecution; TSleepInfoExecutionList] (SchemeBuilder p)).

(** The initialisation of the package: variables, then the files in order. *)
Definition api_package : Package := init_sleepinfoexecution (init_sleepinfo variables).

(** [utilruntime.Must] *)
Definition Must {A} (r : result A) : result A :=
  match r with Ok a => Ok a | Err e => Err (errorf ("panic: " +:+ err_msg e)) end.

Definition main_init (p : Package) : result RuntimeScheme :=
  let? scheme := Must (clientgo_AddToScheme NewScheme) in
  Must (AddToScheme p scheme).

Context {LS : SchemeLaws}.

Lemma api_package_registered t :
  t ∈ registered (SchemeBuilder api_package)
  /\ builder_gv (SchemeBuilder api_package) = (GroupVersion_Group, GroupVersion_Version).
Proof.
  unfold api_package, init_sleepinfoexecution, init_sleepinfo, variables. cbn.
  destruct (newBuilder_spec (GroupVersion_Group, GroupVersion_Version)) as [E G].
  rewrite !(proj1 (Register_spec _ _)), !(proj2 (Register_spec _ _)), E, G.
  split; [|done]. rewrite !elem_of_app, !elem_of_cons. destruct t; tauto.
Qed.

(** When the process has been initialised, the scheme of the manager knows every
    type of the group under its name. *)
Lemma scheme_knows s t :
  main_init api_package = Ok s -> knows s (mkGVK GroupVersion_Group GroupVersion_Version (type_name t)) = Some t.
Proof.
  unfold main_init, AddToScheme. destruct (clientgo_AddToScheme NewScheme) as [s0|e]; [|done]. cbn [rbind Must].
  destruct (Builder_AddToScheme _ s0) as [s1|e] eqn:E; [|done]. intros [= <-].
  destruct (api_package_registered t) as [Hin G]. pose proof (AddToScheme_adds _ _ _ _ E Hin) as H.
  by rewrite G in H.
Qed.

(** The initialisation does not panic when client-go's does not and the group is
    not client-go's. *)
Lemma main_init_ok s0 :
  clientgo_AddToScheme NewScheme = Ok s0 ->
  (forall k, gvk_Group k = GroupVersion_Group -> knows s0 k = None) ->
  exists s, main_init api_package = Ok s.
Proof.
  intros E H. unfold main_init, AddToScheme. rewrite E. cbn [rbind Must].
  pose proof (AddToScheme_ok (SchemeBuilder api_package) s0) as Hok.
  destruct (Builder_AddToScheme _ s0) as [s|e]; [by exists s|]. exfalso.
  discriminate Hok. intros t t' _ Hk. rewrite (proj2 (api_package_registered t)), H in Hk; done.
Qed.
End Scheme.
