(* ===== verification/DeepCopy.v ===== *)
(** * Deep copies: zz_generated.deepcopy.go

    The API types as they are in memory, with their references (slices, maps and
    pointers, nil or not), and the generated functions that copy them.  A record
    is written once, over the type of its references: at locations it is the Go
    struct, at values it is what the struct means.  [DeepCopyInto] takes what
    [*in] holds and returns what it leaves in [*out]: in and out are different
    variables at every call, [out] being new memory.

    The functions copy the value and share nothing with the original, so the
    immutable records of Api.v are a faithful picture of objects the code copies
    before it changes them; [handleSleepInfoStatus] is the case in point. *)

From S2P Require Import Prelude GoStrings GoTime GoJson GoAny Api Libs GoHeap Client.
From S2P Require Import Patcher Resource ManagedResources Reconcile.

(** ** The structs *)

Record TypeMeta := mkTypeMeta { tm_Kind : string; tm_APIVersion : string }.

Record FilterRefR (map : Type) := mkFilterRefR {
  f_APIVersion : string;
  f_Kind : string;
  f_Name : string;
  f_MatchLabels : option map
}.
Arguments mkFilterRefR {map}.
Arguments f_APIVersion {map}.
Arguments f_Kind {map}.
Arguments f_Name {map}.
Arguments f_MatchLabels {map}.

Record SpecR (filters bools patches : Type) := mkSpecR {
  s_Weekdays : string;
  s_SleepTime : string;
  s_WakeUpTime : string;
  s_TimeZone : string;
  s_ExcludeRef : option filters;
  s_IncludeRef : option filters;
  s_SuspendCronjobs : bool;
  s_SuspendDeployments : option bools;
  s_SuspendStatefulSets : option bools;
  s_Patches : option patches
}.
Arguments mkSpecR {filters bools patches}.
Arguments s_Weekdays {filters bools patches}.
Arguments s_SleepTime {filters bools patches}.
Arguments s_WakeUpTime {filters bools patches}.
Arguments s_TimeZone {filters bools patches}.
Arguments s_ExcludeRef {filters bools patches}.
Arguments s_IncludeRef {filters bools patches}.
Arguments s_SuspendCronjobs {filters bools patches}.
Arguments s_SuspendDeployments {filters bools patches}.
Arguments s_SuspendStatefulSets {filters bools patches}.
Arguments s_Patches {filters bools patches}.

(** [metav1.OwnerReference]. *)
Record OwnerR (bools : Type) := mkOwnerR {
  o_APIVersion : string;
  o_Kind : string;
  o_Name : string;
  o_UID : string;
  o_Controller : option bools;
  o_BlockOwnerDeletion : option bools
}.
Arguments mkOwnerR {bools}.
Arguments o_APIVersion {bools}.
Arguments o_Kind {bools}.
Arguments o_Name {bools}.
Arguments o_UID {bools}.
Arguments o_Controller {bools}.
Arguments o_BlockOwnerDeletion {bools}.

(** [metav1.FieldsV1] and [metav1.ManagedFieldsEntry]. *)
Record FieldsR (bytes : Type) := mkFieldsR { fv_Raw : option bytes }.
Arguments mkFieldsR {bytes}.
Arguments fv_Raw {bytes}.

Record ManagedR (times fields : Type) := mkManagedR {
  mf_Manager : string;
  mf_Operation : string;
  mf_APIVersion : string;
  mf_Time : option times;
  mf_FieldsType : string;
  mf_FieldsV1 : option fields;
  mf_Subresource : string
}.
Arguments mkManagedR {times fields}.
Arguments mf_Manager {times fields}.
Arguments mf_Operation {times fields}.
Arguments mf_APIVersion {times fields}.
Arguments mf_Time {times fields}.
Arguments mf_FieldsType {times fields}.
Arguments mf_FieldsV1 {times fields}.
Arguments mf_Subresource {times fields}.

(** [metav1.ObjectMeta] and [metav1.ListMeta]. *)
Record MetaR (times ints map owners strings managed : Type) := mkMetaR {
  m_Name : string;
  m_GenerateName : string;
  m_Namespace : string;
  m_SelfLink : string;
  m_UID : string;
  m_ResourceVersion : string;
  m_Generation : Z;
  m_CreationTimestamp : Time;
  m_DeletionTimestamp : option times;
  m_DeletionGracePeriodSeconds : option ints;
  m_Labels : option map;
  m_Annotations : option map;
  m_OwnerReferences : option owners;
  m_Finalizers : option strings;
  m_ManagedFields : option managed
}.
Arguments mkMetaR {times ints map owners strings managed}.
Arguments m_Name {times ints map owners strings managed}.
Arguments m_GenerateName {times ints map owners strings managed}.
Arguments m_Namespace {times ints map owners strings managed}.
Arguments m_SelfLink {times ints map owners strings managed}.
Arguments m_UID {times ints map owners strings managed}.
Arguments m_ResourceVersion {times ints map owners strings managed}.
Arguments m_Generation {times ints map owners strings managed}.
Arguments m_CreationTimestamp {times ints map owners strings managed}.
Arguments m_DeletionTimestamp {times ints map owners strings managed}.
Arguments m_DeletionGracePeriodSeconds {times ints map owners strings managed}.
Arguments m_Labels {times ints map owners strings managed}.
Arguments m_Annotations {times ints map owners strings managed}.
Arguments m_OwnerReferences {times ints map owners strings managed}.
Arguments m_Finalizers {times ints map owners strings managed}.
Arguments m_ManagedFields {times ints map owners strings managed}.

Record ListMetaR (ints : Type) := mkListMetaR {
  lm_SelfLink : string;
  lm_ResourceVersion : string;
  lm_Continue : string;
  lm_RemainingItemCount : option ints
}.
Arguments mkListMetaR {ints}.
Arguments lm_SelfLink {ints}.
Arguments lm_ResourceVersion {ints}.
Arguments lm_Continue {ints}.
Arguments lm_RemainingItemCount {ints}.

Record InfoR (meta spec : Type) := mkInfoR {
  i_TypeMeta : TypeMeta;
  i_ObjectMeta : meta;
  i_Spec : spec;
  i_Status : SleepInfoStatus
}.
Arguments mkInfoR {meta spec}.
Arguments i_TypeMeta {meta spec}.
Arguments i_ObjectMeta {meta spec}.
Arguments i_Spec {meta spec}.
Arguments i_Status {meta spec}.

Record ExecStatusR (times : Type) := mkExecStatusR {
  es_Phase : string;
  es_StartTime : option times;
  es_CompletionTime : option times;
  es_Message : string
}.
Arguments mkExecStatusR {times}.
Arguments es_Phase {times}.
Arguments es_StartTime {times}.
Arguments es_CompletionTime {times}.
Arguments es_Message {times}.

Record ExecR (meta status : Type) := mkExecR {
  e_TypeMeta : TypeMeta;
  e_ObjectMeta : meta;
  e_Spec : SleepInfoExecutionSpec;
  e_Status : status
}.
Arguments mkExecR {meta status}.
Arguments e_TypeMeta {meta status}.
Arguments e_ObjectMeta {meta status}.
Arguments e_Spec {meta status}.
Arguments e_Status {meta status}.

(** [SleepInfoList] and [SleepInfoExecutionList]. *)
Record ListR (meta items : Type) := mkListR {
  l_TypeMeta : TypeMeta;
  l_ListMeta : meta;
  l_Items : option items
}.
Arguments mkListR {meta items}.
Arguments l_TypeMeta {meta items}.
Arguments l_ListMeta {meta items}.
Arguments l_Items {meta items}.

(** In memory. *)
Abbreviation FilterRefS := (FilterRefR loc).
Abbreviation SpecS := (SpecR slice ptr slice).
Abbreviation OwnerS := (OwnerR ptr).
Abbreviation FieldsS := (FieldsR slice).
Abbreviation ManagedS := (ManagedR ptr ptr).
Abbreviation MetaS := (MetaR ptr ptr loc slice slice slice).
Abbreviation ListMetaS := (ListMetaR ptr).
Abbreviation InfoS := (InfoR MetaS SpecS).
Abbreviation ExecStatusS := (ExecStatusR ptr).
Abbreviation ExecS := (ExecR MetaS ExecStatusS).
Abbreviation ListS := (ListR ListMetaS slice).

(** As values. *)
Abbreviation FilterRefV := (FilterRefR (gmap string string)).
Abbreviation SpecV := (SpecR (list FilterRefV) bool (list Patch)).
Abbreviation OwnerV := (OwnerR bool).
Abbreviation FieldsV := (FieldsR (list ascii)).
Abbreviation ManagedV := (ManagedR Time FieldsV).
Abbreviation MetaV := (MetaR Time Z (gmap string string) (list OwnerV) (list string) (list ManagedV)).
Abbreviation ListMetaV := (ListMetaR Z).
Abbreviation InfoV := (InfoR MetaV SpecV).
Abbreviation ExecStatusV := (ExecStatusR Time).
Abbreviation ExecV := (ExecR MetaV ExecStatusV).

(** ** The heap *)

Inductive cell :=
| CBools (l : list bool)
| CInts (l : list Z)
| CMaps (l : list (gmap string string))
| CTimes (l : list Time)
| CStrings (l : list string)
| CBytes (l : list ascii)
| CFields (l : list FieldsS)
| CManaged (l : list ManagedS)
| COwners (l : list OwnerS)
| CFilterRefs (l : list FilterRefS)
| CTargets (l : list PatchTarget)
| CPatches (l : list Patch)
| CSpecs (l : list SpecS)
| CStatuses (l : list SleepInfoStatus)
| CInfos (l : list InfoS)
| CLists (l : list ListS)
| CExecSpecs (l : list SleepInfoExecutionSpec)
| CExecStatuses (l : list ExecStatusS)
| CExecs (l : list ExecS).

Definition zeroTarget : PatchTarget := mkPatchTarget "" "".
Definition zeroSpec : SpecS := mkSpecR "" "" "" "" None None false None None None.
Definition zeroStatus : SleepInfoStatus := mkSleepInfoStatus zeroTime "".
Definition zeroMeta : MetaS :=
  mkMetaR "" "" "" "" "" "" 0 zeroTime None None None None None None None.
Definition zeroExecStatus : ExecStatusS := mkExecStatusR "" None None "".
Definition zeroExecSpec : SleepInfoExecutionSpec := mkSleepInfoExecutionSpec "" "".
Definition zeroTypeMeta : TypeMeta := mkTypeMeta "" "".

#[export] Instance stored_bool : Stored cell bool := {|
  to_cell := CBools; of_cell c := match c with CBools l => Some l | _ => None end;
  zero := false; of_to_cell _ := eq_refl
|}.
#[export] Instance stored_int : Stored cell Z := {|
  to_cell := CInts; of_cell c := match c with CInts l => Some l | _ => None end;
  zero := 0; of_to_cell _ := eq_refl
|}.
#[export] Instance stored_map : Stored cell (gmap string string) := {|
  to_cell := CMaps; of_cell c := match c with CMaps l => Some l | _ => None end;
  zero := ∅; of_to_cell _ := eq_refl
|}.
#[export] Instance stored_time : Stored cell Time := {|
  to_cell := CTimes; of_cell c := match c with CTimes l => Some l | _ => None end;
  zero := zeroTime; of_to_cell _ := eq_refl
|}.
#[export] Instance stored_string : Stored cell string := {|
  to_cell := CStrings; of_cell c := match c with CStrings l => Some l | _ => None end;
  zero := ""%string; of_to_cell _ := eq_refl
|}.
#[export] Instance stored_byte : Stored cell ascii := {|
  to_cell := CBytes; of_cell c := match c with CBytes l => Some l | _ => None end;
  zero := Ascii.zero; of_to_cell _ := eq_refl
|}.
#[export] Instance stored_fields : Stored cell FieldsS := {|
  to_cell := CFields; of_cell c := match c with CFields l => Some l | _ => None end;
  zero := mkFieldsR None; of_to_cell _ := eq_refl
|}.
#[export] Instance stored_managed : Stored cell ManagedS := {|
  to_cell := CManaged; of_cell c := match c with CManaged l => Some l | _ => None end;
  zero := mkManagedR "" "" "" None "" None ""; of_to_cell _ := eq_refl
|}.
#[export] Instance stored_owner : Stored cell OwnerS := {|
  to_cell := COwners; of_cell c := match c with COwners l => Some l | _ => None end;
  zero := mkOwnerR "" "" "" "" None None; of_to_cell _ := eq_refl
|}.
#[export] Instance stored_filter : Stored cell FilterRefS := {|
  to_cell := CFilterRefs; of_cell c := match c with CFilterRefs l => Some l | _ => None end;
  zero := mkFilterRefR "" "" "" None; of_to_cell _ := eq_refl
|}.
#[export] Instance stored_target : Stored cell PatchTarget := {|
  to_cell := CTargets; of_cell c := match c with CTargets l => Some l | _ => None end;
  zero := zeroTarget; of_to_cell _ := eq_refl
|}.
#[export] Instance stored_patch : Stored cell Patch := {|
  to_cell := CPatches; of_cell c := match c with CPatches l => Some l | _ => None end;
  zero := mkPatch zeroTarget ""; of_to_cell _ := eq_refl
|}.
#[export] Instance stored_spec : Stored cell SpecS := {|
  to_cell := CSpecs; of_cell c := match c with CSpecs l => Some l | _ => None end;
  zero := zeroSpec; of_to_cell _ := eq_refl
|}.
#[export] Instance stored_status : Stored cell SleepInfoStatus := {|
  to_cell := CStatuses; of_cell c := match c with CStatuses l => Some l | _ => None end;
  zero := zeroStatus; of_to_cell _ := eq_refl
|}.
#[export] Instance stored_info : Stored cell InfoS := {|
  to_cell := CInfos; of_cell c := match c with CInfos l => Some l | _ => None end;
  zero := mkInfoR zeroTypeMeta zeroMeta zeroSpec zeroStatus; of_to_cell _ := eq_refl
|}.
#[export] Instance stored_list : Stored cell ListS := {|
  to_cell := CLists; of_cell c := match c with CLists l => Some l | _ => None end;
  zero := mkListR zeroTypeMeta (mkListMetaR "" "" "" None) None; of_to_cell _ := eq_refl
|}.
#[export] Instance stored_exec_spec : Stored cell SleepInfoExecutionSpec := {|
  to_cell := CExecSpecs; of_cell c := match c with CExecSpecs l => Some l | _ => None end;
  zero := zeroExecSpec; of_to_cell _ := eq_refl
|}.
#[export] Instance stored_exec_status : Stored cell ExecStatusS := {|
  to_cell := CExecStatuses; of_cell c := match c with CExecStatuses l => Some l | _ => None end;
  zero := zeroExecStatus; of_to_cell _ := eq_refl
|}.
#[export] Instance stored_exec : Stored cell ExecS := {|
  to_cell := CExecs; of_cell c := match c with CExecs l => Some l | _ => None end;
  zero := mkExecR zeroTypeMeta zeroMeta zeroExecSpec zeroExecStatus; of_to_cell _ := eq_refl
|}.

(** ** The generated functions *)

(** The copies of k8s.io/apimachinery. *)
Class MetaCopy := {
  ObjectMeta_DeepCopyInto : MetaS -> Mem cell MetaS;
  ListMeta_DeepCopyInto : ListMetaS -> Mem cell ListMetaS;
  Time_DeepCopyInto : Time -> Mem cell Time;
  Time_DeepCopy : ptr -> Mem cell ptr
}.

(** A [runtime.Object] of this group: an interface that holds a pointer. *)
Inductive runtimeObject :=
| OSleepInfo (p : ptr)
| OSleepInfoList (p : ptr)
| OSleepInfoExecution (p : ptr)
| OSleepInfoExecutionList (p : ptr).

Section Functions.
Context {MR : MapRange} {MC : MetaCopy}.

Definition FilterRef_DeepCopyInto (in_ : FilterRefS) : Mem cell FilterRefS :=
  MatchLabels <~ copy_option copy_map (f_MatchLabels in_);;
  gret (mkFilterRefR (f_APIVersion in_) (f_Kind in_) (f_Name in_) MatchLabels).

Definition FilterRef_DeepCopy (in_ : option ptr) : Mem cell (option ptr) :=
  copy_option (copy_ptr FilterRef_DeepCopyInto) in_.

Definition PatchTarget_DeepCopyInto (in_ : PatchTarget) : Mem cell PatchTarget := gret in_.

Definition PatchTarget_DeepCopy (in_ : option ptr) : Mem cell (option ptr) :=
  copy_option (copy_ptr PatchTarget_DeepCopyInto) in_.

Definition Patch_DeepCopyInto (in_ : Patch) : Mem cell Patch :=
  let out := in_ in
  gret (mkPatch (p_Target in_) (p_Patch out)).

Definition Patch_DeepCopy (in_ : option ptr) : Mem cell (option ptr) :=
  copy_option (copy_ptr Patch_DeepCopyInto) in_.

(** [copy] of the built-ins assigns element by element. *)
Definition SleepInfoSpec_DeepCopyInto (in_ : SpecS) : Mem cell SpecS :=
  ExcludeRef <~ copy_option (copy_slice FilterRef_DeepCopyInto) (s_ExcludeRef in_);;
  IncludeRef <~ copy_option (copy_slice FilterRef_DeepCopyInto) (s_IncludeRef in_);;
  SuspendDeployments <~ copy_option (copy_ptr (fun b : bool => gret b)) (s_SuspendDeployments in_);;
  SuspendStatefulSets <~ copy_option (copy_ptr (fun b : bool => gret b)) (s_SuspendStatefulSets in_);;
  Patches <~ copy_option (copy_slice (fun p : Patch => gret p)) (s_Patches in_);;
  gret (mkSpecR (s_Weekdays in_) (s_SleepTime in_) (s_WakeUpTime in_) (s_TimeZone in_) ExcludeRef
          IncludeRef (s_SuspendCronjobs in_) SuspendDeployments SuspendStatefulSets Patches).

Definition SleepInfoSpec_DeepCopy (in_ : option ptr) : Mem cell (option ptr) :=
  copy_option (copy_ptr SleepInfoSpec_DeepCopyInto) in_.

Definition SleepInfoStatus_DeepCopyInto (in_ : SleepInfoStatus) : Mem cell SleepInfoStatus :=
  LastScheduleTime <~ Time_DeepCopyInto (LastScheduleTime in_);;
  gret (mkSleepInfoStatus LastScheduleTime (OperationType in_)).

Definition SleepInfoStatus_DeepCopy (in_ : option ptr) : Mem cell (option ptr) :=
  copy_option (copy_ptr SleepInfoStatus_DeepCopyInto) in_.

Definition SleepInfo_DeepCopyInto (in_ : InfoS) : Mem cell InfoS :=
  ObjectMeta <~ ObjectMeta_DeepCopyInto (i_ObjectMeta in_);;
  Spec <~ SleepInfoSpec_DeepCopyInto (i_Spec in_);;
  Status <~ SleepInfoStatus_DeepCopyInto (i_Status in_);;
  gret (mkInfoR (i_TypeMeta in_) ObjectMeta Spec Status).

Definition SleepInfo_DeepCopy (in_ : option ptr) : Mem cell (option ptr) :=
  copy_option (copy_ptr SleepInfo_DeepCopyInto) in_.

Definition SleepInfo_DeepCopyObject (in_ : option ptr) : Mem cell (option runtimeObject) :=
  c <~ SleepInfo_DeepCopy in_;;
  gret match c with Some c => Some (OSleepInfo c) | None => None end.

Definition SleepInfoList_DeepCopyInto (in_ : ListS) : Mem cell ListS :=
  ListMeta <~ ListMeta_DeepCopyInto (l_ListMeta in_);;
  Items <~ copy_option (copy_slice SleepInfo_DeepCopyInto) (l_Items in_);;
  gret (mkListR (l_TypeMeta in_) ListMeta Items).

Definition SleepInfoList_DeepCopy (in_ : option ptr) : Mem cell (option ptr) :=
  copy_option (copy_ptr SleepInfoList_DeepCopyInto) in_.

Definition SleepInfoList_DeepCopyObject (in_ : option ptr) : Mem cell (option runtimeObject) :=
  c <~ SleepInfoList_DeepCopy in_;;
  gret match c with Some c => Some (OSleepInfoList c) | None => None end.

Definition SleepInfoExecutionSpec_DeepCopyInto (in_ : SleepInfoExecutionSpec)
    : Mem cell SleepInfoExecutionSpec := gret in_.

Definition SleepInfoExecutionSpec_DeepCopy (in_ : option ptr) : Mem cell (option ptr) :=
  copy_option (copy_ptr SleepInfoExecutionSpec_DeepCopyInto) in_.

Definition SleepInfoExecutionStatus_DeepCopyInto (in_ : ExecStatusS) : Mem cell ExecStatusS :=
  StartTime <~ copy_option Time_DeepCopy (es_StartTime in_);;
  CompletionTime <~ copy_option Time_DeepCopy (es_CompletionTime in_);;
  gret (mkExecStatusR (es_Phase in_) StartTime CompletionTime (es_Message in_)).

Definition SleepInfoExecutionStatus_DeepCopy (in_ : option ptr) : Mem cell (option ptr) :=
  copy_option (copy_ptr SleepInfoExecutionStatus_DeepCopyInto) in_.

Definition SleepInfoExecution_DeepCopyInto (in_ : ExecS) : Mem cell ExecS :=
  ObjectMeta <~ ObjectMeta_DeepCopyInto (e_ObjectMeta in_);;
  Status <~ SleepInfoExecutionStatus_DeepCopyInto (e_Status in_);;
  gret (mkExecR (e_TypeMeta in_) ObjectMeta (e_Spec in_) Status).

Definition SleepInfoExecution_DeepCopy (in_ : option ptr) : Mem cell (option ptr) :=
  copy_option (copy_ptr SleepInfoExecution_DeepCopyInto) in_.

Definition SleepInfoExecution_DeepCopyObject (in_ : option ptr) : Mem cell (option runtimeObject) :=
  c <~ SleepInfoExecution_DeepCopy in_;;
  gret match c with Some c => Some (OSleepInfoExecution c) | None => None end.

Definition SleepInfoExecutionList_DeepCopyInto (in_ : ListS) : Mem cell ListS :=
  ListMeta <~ ListMeta_DeepCopyInto (l_ListMeta in_);;
  Items <~ copy_option (copy_slice SleepInfoExecution_DeepCopyInto) (l_Items in_);;
  gret (mkListR (l_TypeMeta in_) ListMeta Items).

Definition SleepInfoExecutionList_DeepCopy (in_ : option ptr) : Mem cell (option ptr) :=
  copy_option (copy_ptr SleepInfoExecutionList_DeepCopyInto) in_.

Definition SleepInfoExecutionList_DeepCopyObject (in_ : option ptr) : Mem cell (option runtimeObject) :=
  c <~ SleepInfoExecutionList_DeepCopy in_;;
  gret match c with Some c => Some (OSleepInfoExecutionList c) | None => None end.

(** [handleSleepInfoStatus] with its memory: the pointer it hands to the status
    update. *)
Definition handleSleepInfoStatus_memory (now : Time) (currentSleepInfo : ptr)
    (currentOperationType : string) (hasResource : bool) : Mem cell ptr :=
  sleepInfo <~ SleepInfo_DeepCopy (Some currentSleepInfo);;
  match sleepInfo with
  | None => gfail errNil
  | Some sleepInfo =>
      s <~ load sleepInfo;;
      store sleepInfo (mkInfoR (i_TypeMeta s) (i_ObjectMeta s) (i_Spec s)
        (mkSleepInfoStatus now (OperationType (i_Status s))));;~
      s <~ load sleepInfo;;
      store sleepInfo (mkInfoR (i_TypeMeta s) (i_ObjectMeta s) (i_Spec s)
        (mkSleepInfoStatus (LastScheduleTime (i_Status s)) currentOperationType));;~
      (if negb hasResource then
         s <~ load sleepInfo;;
         store sleepInfo (mkInfoR (i_TypeMeta s) (i_ObjectMeta s) (i_Spec s)
           (mkSleepInfoStatus (LastScheduleTime (i_Status s)) ""))
       else gret tt);;~
      gret sleepInfo
  end.
End Functions.

(** ** What the structs mean *)

Definition view_FilterRef : view FilterRefS FilterRefV :=
  view_with f_MatchLabels (fun s => mkFilterRefR (f_APIVersion s) (f_Kind s) (f_Name s))
    (view_option view_map).

Definition view_Spec : view SpecS SpecV :=
  view_with
    (fun s => (s_ExcludeRef s, (s_IncludeRef s, (s_SuspendDeployments s, (s_SuspendStatefulSets s,
       s_Patches s)))))
    (fun s '(e, (i, (d, (t, p)))) =>
       mkSpecR (s_Weekdays s) (s_SleepTime s) (s_WakeUpTime s) (s_TimeZone s) e i
         (s_SuspendCronjobs s) d t p)
    (view_pair (view_option (view_slice view_FilterRef))
      (view_pair (view_option (view_slice view_FilterRef))
        (view_pair (view_option (view_ptr (view_plain (T:=bool))))
          (view_pair (view_option (view_ptr (view_plain (T:=bool))))
            (view_option (view_slice (view_plain (T:=Patch)))))))).

Definition view_Owner : view OwnerS OwnerV :=
  view_with (fun o => (o_Controller o, o_BlockOwnerDeletion o))
    (fun o '(c, b) => mkOwnerR (o_APIVersion o) (o_Kind o) (o_Name o) (o_UID o) c b)
    (view_pair (view_option (view_ptr (view_plain (T:=bool)))) (view_option (view_ptr (view_plain (T:=bool))))).

Definition view_Fields : view FieldsS FieldsV :=
  view_with fv_Raw (fun _ => mkFieldsR) (view_option (view_slice (view_plain (T:=ascii)))).

Definition view_Managed : view ManagedS ManagedV :=
  view_with (fun m => (mf_Time m, mf_FieldsV1 m))
    (fun m '(t, f) => mkManagedR (mf_Manager m) (mf_Operation m) (mf_APIVersion m) t (mf_FieldsType m) f
       (mf_Subresource m))
    (view_pair (view_option (view_ptr (view_plain (T:=Time)))) (view_option (view_ptr view_Fields))).

Definition view_Meta : view MetaS MetaV :=
  view_with
    (fun m => (m_DeletionTimestamp m, (m_DeletionGracePeriodSeconds m, (m_Labels m, (m_Annotations m,
       (m_OwnerReferences m, (m_Finalizers m, m_ManagedFields m)))))))
    (fun m '(d, (p, (l, (a, (o, (f, e)))))) =>
       mkMetaR (m_Name m) (m_GenerateName m) (m_Namespace m) (m_SelfLink m) (m_UID m) (m_ResourceVersion m)
         (m_Generation m) (m_CreationTimestamp m) d p l a o f e)
    (view_pair (view_option (view_ptr (view_plain (T:=Time))))
      (view_pair (view_option (view_ptr (view_plain (T:=Z))))
        (view_pair (view_option view_map)
          (view_pair (view_option view_map)
            (view_pair (view_option (view_slice view_Owner))
              (view_pair (view_option (view_slice (view_plain (T:=string))))
                (view_option (view_slice view_Managed)))))))).

Definition view_ListMeta : view ListMetaS ListMetaV :=
  view_with lm_RemainingItemCount
    (fun m => mkListMetaR (lm_SelfLink m) (lm_ResourceVersion m) (lm_Continue m))
    (view_option (view_ptr (view_plain (T:=Z)))).

Definition view_Info : view InfoS InfoV :=
  view_with (fun s => (i_ObjectMeta s, (i_Spec s, i_Status s)))
    (fun s '(m, (p, t)) => mkInfoR (i_TypeMeta s) m p t)
    (view_pair view_Meta (view_pair view_Spec view_plain)).

Definition view_ExecStatus : view ExecStatusS ExecStatusV :=
  view_with (fun s => (es_StartTime s, es_CompletionTime s))
    (fun s '(b, e) => mkExecStatusR (es_Phase s) b e (es_Message s))
    (view_pair (view_option (view_ptr (view_plain (T:=Time)))) (view_option (view_ptr (view_plain (T:=Time))))).

Definition view_Exec : view ExecS ExecV :=
  view_with (fun s => (e_ObjectMeta s, e_Status s))
    (fun s '(m, t) => mkExecR (e_TypeMeta s) m (e_Spec s) t)
    (view_pair view_Meta view_ExecStatus).

Definition view_List {S V} `{Stored cell S} (item : view S V) : view ListS (ListR ListMetaV (list V)) :=
  view_with (fun l => (l_ListMeta l, l_Items l))
    (fun l '(m, i) => mkListR (l_TypeMeta l) m i)
    (view_pair view_ListMeta (view_option (view_slice item))).

(** What apimachinery documents: its copies are deep. *)
Class MetaCopyLaws {MC : MetaCopy} : Prop := {
  ObjectMeta_copies : copies view_Meta ObjectMeta_DeepCopyInto;
  ListMeta_copies : copies view_ListMeta ListMeta_DeepCopyInto;
  Time_copies : copies view_plain Time_DeepCopyInto;
  Time_ptr_copies : copies (view_ptr (view_plain (T:=Time))) Time_DeepCopy
}.

(** The plain record of Api.v, which keeps the fields the program reads: a nil
    slice is empty, a nil map has no entry. *)
Definition plain_filter (f : FilterRefV) : FilterRef :=
  mkFilterRef (f_APIVersion f) (f_Kind f) (f_Name f) (default ∅ (f_MatchLabels f)).

Definition plain_spec (s : SpecV) : SleepInfoSpec :=
  mkSleepInfoSpec (s_Weekdays s) (s_SleepTime s) (s_WakeUpTime s) (s_TimeZone s)
    (plain_filter <$> default [] (s_ExcludeRef s)) (plain_filter <$> default [] (s_IncludeRef s))
    (s_SuspendCronjobs s) (s_SuspendDeployments s) (s_SuspendStatefulSets s) (default [] (s_Patches s)).

Definition plain_owner (o : OwnerV) : OwnerReference :=
  mkOwnerReference (o_APIVersion o) (o_Kind o) (o_Name o) (o_UID o).

Definition plain_meta (m : MetaV) : ObjectMeta :=
  mkObjectMeta (m_Name m) (m_Namespace m) (m_UID m) (m_ResourceVersion m) (default ∅ (m_Labels m))
    (plain_owner <$> default [] (m_OwnerReferences m)).

Definition plain_info (i : InfoV) : SleepInfo :=
  mkSleepInfo (plain_meta (i_ObjectMeta i)) (plain_spec (i_Spec i)) (i_Status i).

(** ** Theorems *)

Create HintDb copy.
#[export] Hint Resolve copies_plain copies_option copies_ptr copies_slice copies_map copies_pair : copy.
#[export] Hint Extern 0 (Viewable _) => typeclasses eauto : copy.

#[export] Instance view_FilterRef_ok : Viewable view_FilterRef.
Proof. unfold view_FilterRef. apply _. Qed.
#[export] Instance view_Spec_ok : Viewable view_Spec.
Proof. unfold view_Spec. apply _. Qed.
#[export] Instance view_Owner_ok : Viewable view_Owner.
Proof. unfold view_Owner. apply _. Qed.
#[export] Instance view_Fields_ok : Viewable view_Fields.
Proof. unfold view_Fields. apply _. Qed.
#[export] Instance view_Managed_ok : Viewable view_Managed.
Proof. unfold view_Managed. apply _. Qed.
#[export] Instance view_Meta_ok : Viewable view_Meta.
Proof. unfold view_Meta. apply _. Qed.
#[export] Instance view_ListMeta_ok : Viewable view_ListMeta.
Proof. unfold view_ListMeta. apply _. Qed.
#[export] Instance view_Info_ok : Viewable view_Info.
Proof. unfold view_Info. apply _. Qed.
#[export] Instance view_ExecStatus_ok : Viewable view_ExecStatus.
Proof. unfold view_ExecStatus. apply _. Qed.
#[export] Instance view_Exec_ok : Viewable view_Exec.
Proof. unfold view_Exec. apply _. Qed.
#[export] Instance view_List_ok {S V} `{Stored cell S} (item : view S V) :
  Viewable item -> Viewable (view_List item).
Proof. unfold view_List. apply _. Qed.

(** Compares two sequences of copies that differ in how they are nested. *)
Ltac sequences :=
  intros; unfold gbind, gret; cbn [fst snd];
  repeat match goal with
  | |- context [match ?c ?v ?h with _ => _ end] => destruct (c v h) as [[]]; cbn [fst snd]
  end; try done.

Ltac destruct_and_pairs := repeat match goal with x : _ * _ |- _ => destruct x end.

(** Proves that a record is copied, from the copies of its references. *)
Tactic Notation "copies_record" reference(f) constr(build) :=
  eapply (copies_with _ _ build); [| | |eauto 20 with copy]; [intros; unfold f; sequences|by intros; destruct_and_pairs..].

Section Spec.
Context {MR : MapRange} {MC : MetaCopy} {ML : MetaCopyLaws}.

Lemma FilterRef_copies : copies view_FilterRef FilterRef_DeepCopyInto.
Proof.
  copies_record FilterRef_DeepCopyInto (fun (s : FilterRefS) (t : option loc) =>
    mkFilterRefR (f_APIVersion s) (f_Kind s) (f_Name s) t).
Qed.
#[local] Hint Resolve FilterRef_copies : copy.

Lemma Spec_copies : copies view_Spec SleepInfoSpec_DeepCopyInto.
Proof.
  copies_record SleepInfoSpec_DeepCopyInto (fun (s : SpecS)
    '((e, (i, (d, (t, p)))) : option slice * (option slice * (option ptr * (option ptr * option slice)))) =>
    mkSpecR (s_Weekdays s) (s_SleepTime s) (s_WakeUpTime s) (s_TimeZone s) e i (s_SuspendCronjobs s) d t p).
Qed.
#[local] Hint Resolve Spec_copies : copy.

Lemma Status_copies : copies view_plain SleepInfoStatus_DeepCopyInto.
Proof.
  intros h v d L [= <- <-].
  destruct (Time_copies h (LastScheduleTime v) (LastScheduleTime v) ∅ eq_refl) as (t & h' & L' & E & Hs & [= ->] & _).
  exists v, h', ∅. unfold SleepInfoStatus_DeepCopyInto, gbind. rewrite E. split_and!; try done.
  by destruct v.
Qed.
#[local] Hint Resolve Status_copies ObjectMeta_copies ListMeta_copies Time_ptr_copies : copy.

Lemma Info_copies : copies view_Info SleepInfo_DeepCopyInto.
Proof.
  copies_record SleepInfo_DeepCopyInto
    (fun (s : InfoS) '((m, (p, t)) : MetaS * (SpecS * SleepInfoStatus)) => mkInfoR (i_TypeMeta s) m p t).
Qed.

Lemma ExecStatus_copies : copies view_ExecStatus SleepInfoExecutionStatus_DeepCopyInto.
Proof.
  copies_record SleepInfoExecutionStatus_DeepCopyInto
    (fun (s : ExecStatusS) '((b, e) : option ptr * option ptr) => mkExecStatusR (es_Phase s) b e (es_Message s)).
Qed.
#[local] Hint Resolve Info_copies ExecStatus_copies : copy.

Lemma Exec_copies : copies view_Exec SleepInfoExecution_DeepCopyInto.
Proof.
  copies_record SleepInfoExecution_DeepCopyInto
    (fun (s : ExecS) '((m, t) : MetaS * ExecStatusS) => mkExecR (e_TypeMeta s) m (e_Spec s) t).
Qed.
#[local] Hint Resolve Exec_copies : copy.

Lemma InfoList_copies : copies (view_List view_Info) SleepInfoList_DeepCopyInto.
Proof.
  copies_record SleepInfoList_DeepCopyInto
    (fun (l : ListS) '((m, i) : ListMetaS * option slice) => mkListR (l_TypeMeta l) m i).
Qed.

Lemma ExecList_copies : copies (view_List view_Exec) SleepInfoExecutionList_DeepCopyInto.
Proof.
  copies_record SleepInfoExecutionList_DeepCopyInto
    (fun (l : ListS) '((m, i) : ListMetaS * option slice) => mkListR (l_TypeMeta l) m i).
Qed.
#[local] Hint Resolve InfoList_copies ExecList_copies : copy.

(** *** Objects of the group *)

(** The method of the dynamic type of a [runtime.Object]. *)
Definition DeepCopyObject (o : runtimeObject) : Mem cell (option runtimeObject) :=
  match o with
  | OSleepInfo p => SleepInfo_DeepCopyObject (Some p)
  | OSleepInfoList p => SleepInfoList_DeepCopyObject (Some p)
  | OSleepInfoExecution p => SleepInfoExecution_DeepCopyObject (Some p)
  | OSleepInfoExecutionList p => SleepInfoExecutionList_DeepCopyObject (Some p)
  end.

Inductive objectV :=
| VSleepInfo (v : InfoV)
| VSleepInfoList (v : ListR ListMetaV (list InfoV))
| VSleepInfoExecution (v : ExecV)
| VSleepInfoExecutionList (v : ListR ListMetaV (list ExecV)).

Definition view_object : view runtimeObject objectV := fun h o =>
  match o with
  | OSleepInfo p => '(v, L) ← view_ptr view_Info h p; Some (VSleepInfo v, L)
  | OSleepInfoList p => '(v, L) ← view_ptr (view_List view_Info) h p; Some (VSleepInfoList v, L)
  | OSleepInfoExecution p => '(v, L) ← view_ptr view_Exec h p; Some (VSleepInfoExecution v, L)
  | OSleepInfoExecutionList p => '(v, L) ← view_ptr (view_List view_Exec) h p; Some (VSleepInfoExecutionList v, L)
  end.

#[export] Instance view_object_ok : Viewable view_object.
Proof.
  split; intros h *; destruct v as [p|p|p|p]; cbn [view_object]; intros ((x & L0) & Hv & [= <- <-])%bind_Some;
    try (exact (view_dom _ _ _ _ Hv));
    intros Hl; by rewrite (view_local _ _ _ _ _ Hv Hl).
Qed.

Lemma object_copies :
  copies view_object (fun o => c <~ DeepCopyObject o;; match c with Some c => gret c | None => gfail errNil end).
Proof.
  intros h o v L Hv. destruct o as [p|p|p|p]; cbn [view_object] in Hv;
    apply bind_Some in Hv as ((x & L0) & Hv & [= <- <-]);
    [destruct (copies_ptr _ _ Info_copies _ _ _ _ Hv) as (q & h' & L' & E & Hs & Hr & Hd)
    |destruct (copies_ptr _ _ InfoList_copies _ _ _ _ Hv) as (q & h' & L' & E & Hs & Hr & Hd)
    |destruct (copies_ptr _ _ Exec_copies _ _ _ _ Hv) as (q & h' & L' & E & Hs & Hr & Hd)
    |destruct (copies_ptr _ _ ExecList_copies _ _ _ _ Hv) as (q & h' & L' & E & Hs & Hr & Hd)];
    [exists (OSleepInfo q)|exists (OSleepInfoList q)|exists (OSleepInfoExecution q)
    |exists (OSleepInfoExecutionList q)]; exists h', L'; (split; [|split_and!; try done; cbn [view_object]; by rewrite Hr]);
    unfold gbind, DeepCopyObject, SleepInfo_DeepCopyObject, SleepInfoList_DeepCopyObject,
      SleepInfoExecution_DeepCopyObject, SleepInfoExecutionList_DeepCopyObject, SleepInfo_DeepCopy,
      SleepInfoList_DeepCopy, SleepInfoExecution_DeepCopy, SleepInfoExecutionList_DeepCopy, copy_option, gbind;
    by rewrite E.
Qed.
Lemma DeepCopyObject_spec h o v L :
  view_object h o = Some (v, L) ->
  exists o' h' L', DeepCopyObject o h = (Ok (Some o'), h') /\ h ⊆ h'
    /\ view_object h' o' = Some (v, L') /\ L' ## dom h.
Proof.
  intros Hv. destruct (object_copies _ _ _ _ Hv) as (o' & h' & L' & E & Hrest).
  apply gbind_ok in E as ([c|] & h1 & E & Hc); [|done]. injection Hc as <- <-.
  by exists c, h1, L'.
Qed.

(** [C16] A deep copy of any object of the group is made without a panic and is
    deeply equal to the original: the same fields, the same elements in the same
    order, the same map entries whatever the order of iteration, nil where the
    original is nil; and every object in memory reads as it did before. *)
Theorem deepcopy_equal h o v L :
  view_object h o = Some (v, L) ->
  exists o' h' L', DeepCopyObject o h = (Ok (Some o'), h')
    /\ view_object h' o' = Some (v, L')
    /\ forall o2 x, view_object h o2 = Some x -> view_object h' o2 = Some x.
Proof.
  intros Hv. destruct (DeepCopyObject_spec _ _ _ _ Hv) as (o' & h' & L' & E & Hs & Hr & _).
  exists o', h', L'. split_and!; [done|done|]. intros o2 x. by apply (view_mono view_object _ _ _ _ Hs).
Qed.

(** Memory that agrees outside some locations. *)
Definition same_outside (N : gset loc) (h h' : Heap cell) : Prop :=
  forall l, l ∉ N -> h' !! l = h !! l.

(** [C15] A deep copy is independent: it shares no memory with the original,
    neither slices nor maps nor pointers.  Whatever is written later to the
    memory the copy reaches, the original keeps its value, and the other way
    around. *)
Theorem deepcopy_independent h o v L o' h' :
  view_object h o = Some (v, L) -> DeepCopyObject o h = (Ok (Some o'), h') ->
  exists L', view_object h' o' = Some (v, L') /\ L ## L'
    /\ (forall h2, same_outside L' h' h2 -> view_object h2 o = Some (v, L))
    /\ (forall h2, same_outside L h' h2 -> view_object h2 o' = Some (v, L')).
Proof.
  intros Hv E. destruct (DeepCopyObject_spec _ _ _ _ Hv) as (o2 & h2 & L' & E2 & Hs & Hr & Hd).
  rewrite E in E2. injection E2 as <- <-.
  assert (L ## L') as Hsep. { pose proof (view_dom _ _ _ _ Hv). set_solver. }
  exists L'. split_and!; try done.
  - intros h2 H2. apply (view_mono _ _ _ _ _ Hs) in Hv. eapply view_local; [exact Hv|].
    intros l Hl. apply H2. set_solver.
  - intros h2 H2. eapply view_local; [exact Hr|]. intros l Hl. apply H2. set_solver.
Qed.

(** *** The status update *)

(** Assigning the status of an object nobody else refers to. *)
Lemma store_status (h : Heap cell) p (s : InfoS) v L st :
  load p h = (Ok s, h) -> view_Info h s = Some (v, L) -> p_arr p ∉ L ->
  exists h', store p (mkInfoR (i_TypeMeta s) (i_ObjectMeta s) (i_Spec s) st) h = (Ok tt, h')
    /\ load p h' = (Ok (mkInfoR (i_TypeMeta s) (i_ObjectMeta s) (i_Spec s) st), h')
    /\ view_Info h' (mkInfoR (i_TypeMeta s) (i_ObjectMeta s) (i_Spec s) st)
       = Some (mkInfoR (i_TypeMeta v) (i_ObjectMeta v) (i_Spec v) st, L)
    /\ same_outside {[p_arr p]} h h'.
Proof.
  intros Hld Hv Hn. set (s' := mkInfoR _ _ _ st).
  assert (exists l, array_at h (p_arr p) = Some l /\ l !! p_idx p = Some s) as (l & Ha & Hi).
  { unfold load, load_at in Hld. destruct (array_at h (p_arr p)) as [l|]; [|done].
    destruct (l !! p_idx p) eqn:E; [|done]. injection Hld as ->. eauto. }
  pose proof (lookup_lt_Some _ _ _ Hi) as Hlt.
  eexists. split; [by apply store_at_ok|]. split_and!.
  - eapply load_at_ok; [apply array_at_insert|]. by apply list_lookup_insert_eq.
  - apply (view_write view_Info); [|done]. unfold view_Info, view_with, view_pair in *. cbn in *.
    apply bind_Some in Hv as ((x & L0) & Hx & [= <- <-]).
    apply bind_Some in Hx as ((m & L1) & Hm & Hx). rewrite Hm. cbn.
    apply bind_Some in Hx as ((y & L2) & Hy & [= <- <-]).
    apply bind_Some in Hy as ((sp & L3) & Hsp & [= <- <-]). by rewrite Hsp.
  - intros l' Hl'. apply lookup_insert_ne. set_solver.
Qed.
Lemma same_outside_trans N (h1 h2 h3 : Heap cell) :
  same_outside N h1 h2 -> same_outside N h2 h3 -> same_outside N h1 h3.
Proof. intros H1 H2 l Hl. by rewrite H2, H1. Qed.

Context {PL : PatchLib} {UL : UnstructuredLib} {SL : SelectorLib} {CL : ClientLib}.

(** [C17] The status update works on a copy: [handleSleepInfoStatus], run on the
    memory of an object that may be shared (the cache of the manager holds it),
    leaves that object as it was and hands to the API server a copy that reads
    as the status update of the model says: the same SleepInfo with the time and
    the operation of this run. *)
Theorem status_update_on_copy now cur op g h v L (w : World) :
  view_ptr view_Info h cur = Some (v, L) ->
  exists q h' v' L',
    handleSleepInfoStatus_memory now cur op (HasResource g) h = (Ok q, h')
    /\ view_ptr view_Info h' cur = Some (v, L)
    /\ view_ptr view_Info h' q = Some (v', L')
    /\ handleSleepInfoStatus now (plain_info v) op g w = StatusUpdateSleepInfo (plain_info v') w.
Proof.
  intros Hv.
  destruct (copy_ptr_spec view_Info _ h cur v L Info_copies Hv)
    as (q & h1 & s & L1 & E & Hs & Hq & Hld & Hr & Hd & Hn & _).
  unfold handleSleepInfoStatus_memory, SleepInfo_DeepCopy, copy_option.
  assert (forall k, gbind (gbind (copy_ptr SleepInfo_DeepCopyInto cur) (fun v' => gret (Some v'))) k h
    = k (Some q) h1) as -> by (intros; unfold gbind; by rewrite E).
  rewrite (bind_run _ _ _ _ _ Hld).
  destruct (store_status h1 q s v L1 (mkSleepInfoStatus now (OperationType (i_Status s))) Hld Hr Hn)
    as (h2 & E2 & Hld2 & Hr2 & Ho2).
  rewrite (bind_run _ _ _ _ _ E2), (bind_run _ _ _ _ _ Hld2). cbn [i_TypeMeta i_ObjectMeta i_Spec i_Status].
  destruct (store_status h2 q _ _ L1 (mkSleepInfoStatus now op) Hld2 Hr2 Hn) as (h3 & E3 & Hld3 & Hr3 & Ho3).
  cbn [i_TypeMeta i_ObjectMeta i_Spec LastScheduleTime] in *. rewrite (bind_run _ _ _ _ _ E3).
  pose proof (same_outside_trans _ _ _ _ Ho2 Ho3) as Ho.
  assert (exists h4 st, (if negb (HasResource g) then
      s0 <~ load q;;
      store q (mkInfoR (i_TypeMeta s0) (i_ObjectMeta s0) (i_Spec s0)
        (mkSleepInfoStatus (LastScheduleTime (i_Status s0)) "")) else gret tt) h3 = (Ok tt, h4)
    /\ st = mkSleepInfoStatus now (if negb (HasResource g) then "" else op)
    /\ load q h4 = (Ok (mkInfoR (i_TypeMeta s) (i_ObjectMeta s) (i_Spec s) st), h4)
    /\ view_Info h4 (mkInfoR (i_TypeMeta s) (i_ObjectMeta s) (i_Spec s) st)
       = Some (mkInfoR (i_TypeMeta v) (i_ObjectMeta v) (i_Spec v) st, L1)
    /\ same_outside {[p_arr q]} h1 h4) as (h4 & st & E4 & -> & Hld4 & Hr4 & Ho4).
  { destruct (HasResource g); cbn [negb]; [by exists h3; eexists|].
    destruct (store_status h3 q _ _ L1 (mkSleepInfoStatus now "") Hld3 Hr3 Hn) as (h4 & E4 & H4 & Hr4 & Ho4).
    exists h4. eexists. rewrite (bind_run _ _ _ _ _ Hld3). split_and!; eauto.
    by eapply same_outside_trans. }
  rewrite (bind_run _ _ _ _ _ E4). eexists q, h4, _, _. split_and!; [done| | |].
  - apply (view_mono _ _ _ _ _ Hs) in Hv as Hv1. eapply view_local; [exact Hv1|].
    intros l Hl. apply Ho4. apply (view_dom _ _ _ _ Hv) in Hl. apply not_elem_of_dom in Hq. set_solver.
  - unfold load, load_at in Hld4. unfold view_ptr.
    destruct (array_at h4 (p_arr q)) as [l|]; [|done]. cbn.
    destruct (l !! p_idx q); [|done]. cbn. injection Hld4 as ->. by rewrite Hr4.
  - unfold handleSleepInfoStatus, plain_info. cbn. done.
Qed.
End Spec.
