(* ===== verification/Manager.v ===== *)
(** * The manager process: cmd/main.go

    [main] turns the command line into the options of the manager, the webhook
    server and the metrics server, registers the controllers and starts.  What it
    asks of the platform (certificate watchers, the manager, the controllers) is
    a sequence of steps, each of which can fail; the slices of TLS options live in
    memory, where [append] may write into an array that another slice shares.

    With it: the SetupWithManager functions of the controllers, the registration
    of the webhook and of the metrics. *)

From S2P Require Import Prelude GoStrings GoTime GoPath GoFlag Api Libs GoHeap CommandLine.

(** ** TLS options *)

(** A certificate watcher is known by the files it reads. *)
Record CertWatcher := mkCertWatcher { cw_cert : string; cw_key : string }.

(** The functions of the slices of TLS options. *)
Inductive tlsOpt :=
| NilFunc
| disableHTTP2
| useCertificate (w : CertWatcher).

Record tlsConfig := mkTlsConfig {
  NextProtos : list string;
  GetCertificate : option CertWatcher
}.

Definition apply_opt (c : tlsConfig) (o : tlsOpt) : tlsConfig :=
  match o with
  | NilFunc => c
  | disableHTTP2 => mkTlsConfig ["http/1.1"%string] (GetCertificate c)
  | useCertificate w => mkTlsConfig (NextProtos c) (Some w)
  end.

#[export] Instance stored_opts : Stored (list tlsOpt) tlsOpt := {|
  to_cell l := l; of_cell l := Some l; zero := NilFunc; of_to_cell _ := eq_refl
|}.

(** ** Options and steps *)

Record WebhookOptions := mkWebhookOptions {
  wo_Host : string;
  wo_TLSOpts : option slice;
  wo_Port : Z
}.

Record MetricsOptions := mkMetricsOptions {
  mo_BindAddress : string;
  mo_SecureServing : bool;
  mo_TLSOpts : option slice;
  (** [filters.WithAuthenticationAndAuthorization] is set. *)
  mo_Authentication : bool
}.

Record ManagerOptions := mkManagerOptions {
  mg_Metrics : MetricsOptions;
  mg_WebhookServer : WebhookOptions;
  mg_HealthProbeBindAddress : string;
  mg_LeaderElection : bool;
  mg_LeaderElectionID : string;
  (** The kinds read from the server and not from the cache. *)
  mg_DisableFor : list string
}.

Inductive clock := nilClock | realClock.

(** The fields of the reconcilers; the client and the scheme are the manager's. *)
Record ReconcilerConfig := mkReconcilerConfig {
  rc_Clock : clock;
  rc_SleepDelta : Z;
  rc_ManagerName : string;
  rc_MaxConcurrentReconciles : Z
}.

(** What a controller is built with.  [None]: the default of the library. *)
Record ControllerSpec := mkControllerSpec {
  ct_For : string;
  ct_Named : string;
  ct_MaxConcurrentReconciles : option Z;
  ct_GenerationChanged : bool;
  ct_Reconciler : ReconcilerConfig
}.

(** [prometheus.GaugeOpts] and the label names. *)
Record GaugeOpts := mkGaugeOpts { go_Namespace : string; go_Name : string; go_labels : list string }.

Inductive Step :=
| NewCertWatcher (w : CertWatcher)
| GetConfig
| NewManager (o : ManagerOptions)
| RegisterMetric (g : GaugeOpts)
| CompleteController (c : ControllerSpec)
| CompleteWebhook (for_ : string)
| AddRunnable (w : CertWatcher)
| AddHealthzCheck (name : string)
| AddReadyzCheck (name : string)
| StartManager.

(** The platform: what a step does to it and whether it fails. *)
Class Platform := {
  PlatformState : Type;
  perform_step : Step -> PlatformState -> option error * PlatformState
}.

(** ** The process *)

Section Main.
Context {PF : Platform}.

Record Process := mkProcess {
  pr_heap : Heap (list tlsOpt);
  pr_platform : PlatformState;
  pr_steps : list Step
}.

(** How the process ends before its end. *)
Definition exit1 : error := errorf "exit 1".
Definition panicked : error := errorf "panic: exit 2".

(** A step; [os.Exit(1)] when it fails. *)
Definition step_or (e : error) (s : Step) : M Process unit :=
  fun p =>
    let '(err, st) := perform_step s (pr_platform p) in
    (match err with None => Ok tt | Some _ => Err e end,
     mkProcess (pr_heap p) st (pr_steps p ++ [s])).

Definition step : Step -> M Process unit := step_or exit1.

Definition in_heap {A} (c : Mem (list tlsOpt) A) : M Process A :=
  fun p => let '(r, h) := c (pr_heap p) in (r, mkProcess h (pr_platform p) (pr_steps p)).

Definition managerName : string := "kube-green".

(** [SetupMetricsOrDie(prefix).MustRegister(registry)]: a failed registration
    panics. *)
Definition SetupMetricsOrDie (prefix : string) : GaugeOpts :=
  mkGaugeOpts prefix "current_sleepinfo" ["name"%string; "namespace"%string].

Definition MustRegister (g : GaugeOpts) : M Process unit := step_or panicked (RegisterMetric g).

(** The reconciler with a clock. *)
Definition with_clock (r : ReconcilerConfig) : ReconcilerConfig :=
  mkReconcilerConfig (match rc_Clock r with nilClock => realClock | c => c end)
    (rc_SleepDelta r) (rc_ManagerName r) (rc_MaxConcurrentReconciles r).

(** [SleepInfoReconciler.SetupWithManager] changes the receiver. *)
Definition SleepInfo_SetupWithManager (r : ReconcilerConfig) : M Process ReconcilerConfig :=
  let r := with_clock r in
  step (CompleteController (mkControllerSpec "SleepInfo" "kubegreen-sleepinfo"
    (Some (rc_MaxConcurrentReconciles r)) true r));;~
  gret r.

(** [SleepInfoExecutionReconciler.SetupWithManager]: the receiver embeds a
    pointer to the SleepInfo reconciler. *)
Definition SleepInfoExecution_SetupWithManager (r : ReconcilerConfig) : M Process ReconcilerConfig :=
  let r := with_clock r in
  step (CompleteController (mkControllerSpec "SleepInfoExecution" "kubegreen-sleepinfoexecution"
    None true r));;~
  gret r.

Definition SetupWebhookWithManager : M Process unit := step (CompleteWebhook "SleepInfo").

(** [certwatcher.New(filepath.Join(path, name), filepath.Join(path, key))] *)
Definition newCertWatcher (path name key : string) : M Process CertWatcher :=
  let w := mkCertWatcher (Join path name) (Join path key) in
  step (NewCertWatcher w);;~ gret w.

Variable grow : nat -> nat -> nat.

Definition append_opt (s : option slice) (o : tlsOpt) : M Process (option slice) :=
  in_heap (x <~ append_one grow s o;; gret (Some x)).

(** The watcher and the TLS options of the webhook server. *)
Definition webhookTLS (f : Flags) (tlsOpts : option slice)
    : M Process (option CertWatcher * option slice) :=
  if String.eqb (webhookCertPath f) "" then gret (None, tlsOpts)
  else
    w <~ newCertWatcher (webhookCertPath f) (webhookCertName f) (webhookCertKey f);;
    opts <~ append_opt tlsOpts (useCertificate w);;
    gret (Some w, opts).

(** The watcher and the options of the metrics server. *)
Definition metricsTLS (f : Flags) (tlsOpts : option slice)
    : M Process (option CertWatcher * MetricsOptions) :=
  if negb (secureMetrics f) then
    gret (None, mkMetricsOptions (metricsAddr f) (secureMetrics f) tlsOpts false)
  else if String.eqb (metricsCertPath f) "" then
    gret (None, mkMetricsOptions (metricsAddr f) (secureMetrics f) tlsOpts true)
  else
    w <~ newCertWatcher (metricsCertPath f) (metricsCertName f) (metricsCertKey f);;
    opts <~ append_opt tlsOpts (useCertificate w);;
    gret (Some w, mkMetricsOptions (metricsAddr f) (secureMetrics f) opts true).

Definition addWatcher (w : option CertWatcher) : M Process unit :=
  match w with Some w => step (AddRunnable w) | None => gret tt end.

(** [main] from the parsed flags up to the start. *)
Definition setup (f : Flags) : M Process unit :=
  tlsOpts <~ (if negb (enableHTTP2 f) then append_opt None disableHTTP2 else gret None);;
  let! (webhookCertWatcher, webhookTLSOpts) := webhookTLS f tlsOpts in
  let webhookServer := mkWebhookOptions (webhookHost f) webhookTLSOpts (webhookPort f) in
  let! (metricsCertWatcher, metricsServerOptions) := metricsTLS f tlsOpts in
  step GetConfig;;~
  step (NewManager (mkManagerOptions metricsServerOptions webhookServer (probeAddr f)
    (enableLeaderElection f) "2bd226ed.kube-green.com" ["Secret"%string]));;~
  MustRegister (SetupMetricsOrDie "kube_green");;~
  r <~ SleepInfo_SetupWithManager (mkReconcilerConfig nilClock (sleepDelta f) managerName
         (maxConcurrentReconciles f));;
  SleepInfoExecution_SetupWithManager r;;~
  SetupWebhookWithManager;;~
  addWatcher metricsCertWatcher;;~
  addWatcher webhookCertWatcher;;~
  step (AddHealthzCheck "health");;~
  step (AddReadyzCheck "check").

(** Returns when the manager has stopped. *)
Definition serve (f : Flags) : M Process unit :=
  setup f;;~
  step StartManager.

(** The whole process, from its arguments; [flag.Parse] ends it on an error. *)
Definition main (pf : platform) (extra : string -> option (Flag unit)) (args : list string) : M Process unit :=
  f <~ glift (parseFlags pf extra args);;
  serve f.
End Main.

(** ** What the process is to do *)

Definition webhookWatcher (f : Flags) : option CertWatcher :=
  if String.eqb (webhookCertPath f) "" then None
  else Some (mkCertWatcher (Join (webhookCertPath f) (webhookCertName f))
               (Join (webhookCertPath f) (webhookCertKey f))).

Definition metricsWatcher (f : Flags) : option CertWatcher :=
  if negb (secureMetrics f) || String.eqb (metricsCertPath f) "" then None
  else Some (mkCertWatcher (Join (metricsCertPath f) (metricsCertName f))
               (Join (metricsCertPath f) (metricsCertKey f))).

(** Both reconcilers run with one configuration, taken from the flags. *)
Definition reconcilerConfig (f : Flags) : ReconcilerConfig :=
  mkReconcilerConfig realClock (sleepDelta f) "kube-green" (maxConcurrentReconciles f).

(** The steps before the start, with the options [o] of the manager. *)
Definition setup_plan (f : Flags) (o : ManagerOptions) : list Step :=
  (NewCertWatcher <$> option_list (webhookWatcher f))
  ++ (NewCertWatcher <$> option_list (metricsWatcher f))
  ++ [GetConfig; NewManager o;
      RegisterMetric (mkGaugeOpts "kube_green" "current_sleepinfo" ["name"; "namespace"]%string);
      CompleteController (mkControllerSpec "SleepInfo" "kubegreen-sleepinfo"
        (Some (maxConcurrentReconciles f)) true (reconcilerConfig f));
      CompleteController (mkControllerSpec "SleepInfoExecution" "kubegreen-sleepinfoexecution"
        None true (reconcilerConfig f));
      CompleteWebhook "SleepInfo"]
  ++ (AddRunnable <$> option_list (metricsWatcher f))
  ++ (AddRunnable <$> option_list (webhookWatcher f))
  ++ [AddHealthzCheck "health"; AddReadyzCheck "check"].

Definition plan (f : Flags) (o : ManagerOptions) : list Step := setup_plan f o ++ [StartManager].

(** The options that follow from the flags alone. *)
Definition options_ok (f : Flags) (o : ManagerOptions) : Prop :=
  mo_BindAddress (mg_Metrics o) = metricsAddr f
  /\ mo_SecureServing (mg_Metrics o) = secureMetrics f
  /\ mo_Authentication (mg_Metrics o) = secureMetrics f
  /\ wo_Host (mg_WebhookServer o) = webhookHost f
  /\ wo_Port (mg_WebhookServer o) = webhookPort f
  /\ mg_HealthProbeBindAddress o = probeAddr f
  /\ mg_LeaderElection o = enableLeaderElection f
  /\ mg_DisableFor o = ["Secret"%string].

(** The TLS configuration a server makes from its slice of options, in the memory
    [h] at the time it reads it. *)
Definition served (h : Heap (list tlsOpt)) (s : option slice) : tlsConfig :=
  fold_left apply_opt (default [] (s ≫= elements_of h)) (mkTlsConfig [] None).

Definition expected (f : Flags) (w : option CertWatcher) : tlsConfig :=
  mkTlsConfig (if enableHTTP2 f then [] else ["http/1.1"%string]) w.

Section Spec.
Context {PF : Platform}.

(** Steps in order, up to the first that fails. *)
Fixpoint run_plan (ss : list Step) (st : PlatformState) : list Step * bool * PlatformState :=
  match ss with
  | [] => ([], true, st)
  | s :: ss =>
      match perform_step s st with
      | (None, st) => let '(done, ok, st) := run_plan ss st in (s :: done, ok, st)
      | (Some _, st) => ([s], false, st)
      end
  end.

Lemma run_plan_app s1 s2 st :
  run_plan (s1 ++ s2) st
  = let '(d1, ok1, st1) := run_plan s1 st in
    if ok1 then let '(d2, ok2, st2) := run_plan s2 st1 in (d1 ++ d2, ok2, st2)
    else (d1, false, st1).
Proof.
  revert st. induction s1 as [|s s1 IH]; intros st; cbn.
  - by destruct (run_plan s2 st) as [[? ?] ?].
  - destruct (perform_step s st) as [[e|] st']; [done|]. rewrite IH.
    destruct (run_plan s1 st') as [[d1 []] st1]; [|done]. by destruct (run_plan s2 st1) as [[? ?] ?].
Qed.

(** From the memory [h], the code performs the steps [ss] and, if none fails,
    returns [a] and leaves the memory [h']. *)
Definition runs {A} (c : M Process A) (h : Heap (list tlsOpt)) (ss : list Step) (a : A)
    (h' : Heap (list tlsOpt)) : Prop :=
  forall p, pr_heap p = h ->
  let '(done, ok, st) := run_plan ss (pr_platform p) in
  pr_steps (c p).2 = pr_steps p ++ done /\ pr_platform (c p).2 = st
  /\ if ok then (c p).1 = Ok a /\ pr_heap (c p).2 = h' else is_ok (c p).1 = false.

Lemma runs_ret {A} (a : A) h : runs (gret a) h [] a h.
Proof. intros p Hp. cbn. by rewrite app_nil_r. Qed.

Lemma runs_step e s h : runs (step_or e s) h [s] tt h.
Proof.
  intros p Hp. unfold step_or. cbn. destruct (perform_step s (pr_platform p)) as [[err|] st]; by split_and!.
Qed.

Lemma runs_heap {A} (c : Mem (list tlsOpt) A) h a h' : c h = (Ok a, h') -> runs (in_heap c) h [] a h'.
Proof. intros E p Hp. unfold in_heap. rewrite Hp, E. cbn. by rewrite app_nil_r. Qed.

Lemma runs_bind {A B} (c : M Process A) (k : A -> M Process B) h s1 a h1 s2 b h2 :
  runs c h s1 a h1 -> runs (k a) h1 s2 b h2 -> runs (gbind c k) h (s1 ++ s2) b h2.
Proof.
  intros Hc Hk p Hp. specialize (Hc p Hp). rewrite run_plan_app. unfold gbind.
  destruct (run_plan s1 (pr_platform p)) as [[d1 ok1] st1]. destruct Hc as (Hs & Hst & Hok).
  destruct (c p) as [r p1]; cbn [fst snd] in *. destruct ok1.
  - destruct Hok as [-> Hh]. specialize (Hk p1 Hh). rewrite Hst in Hk.
    destruct (run_plan s2 st1) as [[d2 ok2] st2]. destruct Hk as (Hs2 & Hst2 & Hok2).
    split_and!; [|done|done]. by rewrite Hs2, Hs, app_assoc.
  - by destruct r.
Qed.

(** *** Slices of options *)

Definition opts_of (h : Heap (list tlsOpt)) (s : option slice) : option (list tlsOpt) :=
  match s with None => Some [] | Some s => elements_of h s end.

(** A slice without spare capacity: appending to it allocates. *)
Definition full (s : option slice) : Prop :=
  match s with None => True | Some s => (sl_cap s <= sl_len s)%nat end.

Lemma opts_of_mono h h' s l : h ⊆ h' -> opts_of h s = Some l -> opts_of h' s = Some l.
Proof.
  intros Hs. destruct s as [s|]; [|done]. unfold opts_of, elements_of.
  intros (a & Ha & Hl)%bind_Some. by rewrite (array_at_mono _ _ _ _ Hs Ha).
Qed.

Lemma append_opt_spec grow s o h l :
  full s -> opts_of h s = Some l ->
  exists s' h', runs (append_opt grow s o) h [] (Some s') h'
    /\ opts_of h' (Some s') = Some (l ++ [o]) /\ h ⊆ h'
    /\ sl_len s' = S (length l)
    /\ sl_cap s' = grow (match s with None => 0%nat | Some s => sl_cap s end) (S (length l)).
Proof.
  intros Hf Hl.
  set (n := grow (match s with None => 0%nat | Some s => sl_cap s end) (S (length l))).
  destruct (alloc_spec (l ++ [o] ++ replicate (n - S (length l)) zero) h) as (x & Ex & Hx).
  exists (mkSlice x 0 (S (length l)) n), (<[x := to_cell (l ++ [o] ++ replicate (n - S (length l)) zero)]> h).
  split_and!; [|..|done|done].
  - apply runs_heap. unfold append_one, gbind. destruct s as [s|]; cbn in Hf, Hl.
    + pose proof (elements_of_length _ _ _ Hl) as Hlen.
      rewrite decide_False by lia. rewrite Hl, <- Hlen. fold n. by rewrite Ex.
    + injection Hl as <-. change (grow 0%nat 1%nat) with n. change 1%nat with (S (length (@nil tlsOpt))).
      change [o] with ([] ++ [o]). rewrite <- app_assoc. by rewrite Ex.
  - unfold opts_of, elements_of. cbn [sl_arr sl_off sl_len]. rewrite array_at_insert.
    cbn [mbind option_bind]. rewrite drop_0.
    rewrite app_assoc, take_app_length' by (rewrite length_app; cbn; lia).
    rewrite decide_True by (rewrite length_app; cbn; lia). done.
  - by apply fresh_subseteq.
Qed.

Definition base (f : Flags) : list tlsOpt := if enableHTTP2 f then [] else [disableHTTP2].
Definition certificate (w : option CertWatcher) : list tlsOpt := useCertificate <$> option_list w.

Lemma newCertWatcher_runs path name key h :
  let w := mkCertWatcher (Join path name) (Join path key) in
  runs (newCertWatcher path name key) h [NewCertWatcher w] w h.
Proof.
  cbv zeta. change [NewCertWatcher ?w] with ([NewCertWatcher w] ++ []).
  eapply runs_bind; [apply runs_step|apply runs_ret].
Qed.

Lemma webhookTLS_runs grow f s h l :
  full s -> opts_of h s = Some l ->
  exists s' h', runs (webhookTLS grow f s) h (NewCertWatcher <$> option_list (webhookWatcher f))
      (webhookWatcher f, s') h'
    /\ opts_of h' s' = Some (l ++ certificate (webhookWatcher f)) /\ h ⊆ h'.
Proof.
  intros Hf Hl. unfold webhookTLS, webhookWatcher, certificate. destruct (String.eqb _ "").
  - exists s, h. rewrite app_nil_r. split_and!; [apply runs_ret|done|done].
  - set (w := mkCertWatcher _ _). destruct (append_opt_spec grow s (useCertificate w) h l Hf Hl)
      as (s' & h' & Hr & Hl' & Hs & _).
    exists (Some s'), h'. split_and!; [|done|done].
    apply (runs_bind _ _ _ [NewCertWatcher w] w h [] _ h'); [apply newCertWatcher_runs|].
    apply (runs_bind _ _ _ [] (Some s') h' [] _ h'); [done|apply runs_ret].
Qed.

Lemma metricsTLS_runs grow f s h l :
  full s -> opts_of h s = Some l ->
  exists s' h', runs (metricsTLS grow f s) h (NewCertWatcher <$> option_list (metricsWatcher f))
      (metricsWatcher f, mkMetricsOptions (metricsAddr f) (secureMetrics f) s' (secureMetrics f)) h'
    /\ opts_of h' s' = Some (l ++ certificate (metricsWatcher f)) /\ h ⊆ h'.
Proof.
  intros Hf Hl. unfold metricsTLS, metricsWatcher, certificate.
  destruct (secureMetrics f); cbn [negb orb];
    [|exists s, h; rewrite app_nil_r; split_and!; [apply runs_ret|done|done]].
  destruct (String.eqb _ "").
  - exists s, h. rewrite app_nil_r. split_and!; [apply runs_ret|done|done].
  - set (w := mkCertWatcher _ _). destruct (append_opt_spec grow s (useCertificate w) h l Hf Hl)
      as (s' & h' & Hr & Hl' & Hs & _).
    exists (Some s'), h'. split_and!; [|done|done].
    apply (runs_bind _ _ _ [NewCertWatcher w] w h [] _ h'); [apply newCertWatcher_runs|].
    apply (runs_bind _ _ _ [] (Some s') h' [] _ h'); [done|apply runs_ret].
Qed.

Lemma addWatcher_runs w h : runs (addWatcher w) h (AddRunnable <$> option_list w) tt h.
Proof. destruct w; [apply runs_step|apply runs_ret]. Qed.

Lemma controllers_run f h :
  let r := reconcilerConfig f in
  runs (SleepInfo_SetupWithManager (mkReconcilerConfig nilClock (sleepDelta f) managerName
          (maxConcurrentReconciles f))) h
    [CompleteController (mkControllerSpec "SleepInfo" "kubegreen-sleepinfo"
       (Some (maxConcurrentReconciles f)) true r)] r h
  /\ runs (SleepInfoExecution_SetupWithManager r) h
    [CompleteController (mkControllerSpec "SleepInfoExecution" "kubegreen-sleepinfoexecution"
       None true r)] r h.
Proof.
  cbv zeta. split; (eapply (runs_bind _ _ _ [_] tt h [] _ h); [apply runs_step|apply runs_ret]).
Qed.

Lemma served_opts h s f w :
  opts_of h s = Some (base f ++ certificate w) -> served h s = expected f w.
Proof.
  intros E. assert (default [] (s ≫= elements_of h) = base f ++ certificate w) as Hd.
  { destruct s as [s|]; cbn in *; [by rewrite E|by simplify_eq]. }
  unfold served, expected, base, certificate in *. rewrite Hd. by destruct (enableHTTP2 f), w.
Qed.

(** The process from the slices of options on. *)
Lemma setup_from grow f h s0 h0 s1 h1 s2 h2 :
  runs (if negb (enableHTTP2 f) then append_opt grow None disableHTTP2 else gret None) h [] s0 h0 ->
  runs (webhookTLS grow f s0) h0 (NewCertWatcher <$> option_list (webhookWatcher f)) (webhookWatcher f, s1) h1 ->
  runs (metricsTLS grow f s0) h1 (NewCertWatcher <$> option_list (metricsWatcher f))
    (metricsWatcher f, mkMetricsOptions (metricsAddr f) (secureMetrics f) s2 (secureMetrics f)) h2 ->
  exists o, runs (setup grow f) h (setup_plan f o) tt h2 /\ options_ok f o
    /\ wo_TLSOpts (mg_WebhookServer o) = s1 /\ mo_TLSOpts (mg_Metrics o) = s2.
Proof.
  intros R0 R1 R2. eexists. split.
  - unfold setup, setup_plan. apply (runs_bind _ _ _ [] s0 h0 _ _ h2 R0).
    apply (runs_bind _ _ _ _ _ _ _ _ _ R1). cbv beta iota zeta.
    apply (runs_bind _ _ _ _ _ _ _ _ _ R2). cbv beta iota zeta.
    destruct (controllers_run f h2) as [Ra Rb].
    eapply (runs_bind _ _ _ [GetConfig]); [apply runs_step|].
    eapply (runs_bind _ _ _ [NewManager _]); [apply runs_step|].
    eapply (runs_bind _ _ _ [RegisterMetric _]); [apply runs_step|].
    apply (runs_bind _ _ _ _ _ _ _ _ _ Ra). apply (runs_bind _ _ _ _ _ _ _ _ _ Rb).
    eapply (runs_bind _ _ _ [CompleteWebhook _]); [apply runs_step|].
    eapply runs_bind; [apply addWatcher_runs|]. eapply runs_bind; [apply addWatcher_runs|].
    eapply (runs_bind _ _ _ [AddHealthzCheck _]); [apply runs_step|].
    apply runs_step.
  - by repeat split.
Qed.

(** *** Appending in place *)

(** The slice of [disableHTTP2] alone, with room for more in its array. *)
Definition roomy (x : loc) (n : nat) : option slice := Some (mkSlice x 0 1 n).

Lemma append_opt_shared grow x n o a l h :
  (1 < n)%nat -> array_at h x = Some (disableHTTP2 :: a :: l) ->
  exists h', runs (append_opt grow (roomy x n) o) h [] (Some (mkSlice x 0 2 n)) h'
    /\ array_at h' x = Some (disableHTTP2 :: o :: l).
Proof.
  intros Hn Ha. exists (<[x := to_cell (disableHTTP2 :: o :: l)]> h). split; [|apply array_at_insert].
  apply runs_heap. unfold append_one, roomy, gbind. cbn [sl_len sl_cap sl_arr sl_off].
  rewrite decide_True by done. by rewrite (store_at_ok x (0 + 1) o h _ Ha) by (cbn; lia).
Qed.

(** What a server is given, and what is then in the second place of the array. *)
Definition roomy_opts (x : loc) (n : nat) (w : option CertWatcher) : option slice :=
  match w with Some _ => Some (mkSlice x 0 2 n) | None => roomy x n end.
Definition second (w : option CertWatcher) (a : tlsOpt) : tlsOpt :=
  match w with Some w => useCertificate w | None => a end.

Lemma webhookTLS_shared grow f x n a l h :
  (1 < n)%nat -> array_at h x = Some (disableHTTP2 :: a :: l) ->
  exists h', runs (webhookTLS grow f (roomy x n)) h (NewCertWatcher <$> option_list (webhookWatcher f))
      (webhookWatcher f, roomy_opts x n (webhookWatcher f)) h'
    /\ array_at h' x = Some (disableHTTP2 :: second (webhookWatcher f) a :: l).
Proof.
  intros Hn Ha. unfold webhookTLS, webhookWatcher. destruct (String.eqb _ "").
  - exists h. split; [apply runs_ret|done].
  - set (w := mkCertWatcher _ _).
    destruct (append_opt_shared grow x n (useCertificate w) a l h Hn Ha) as (h' & Hr & Ha').
    exists h'. split; [|done].
    apply (runs_bind _ _ _ [NewCertWatcher w] w h [] _ h'); [apply newCertWatcher_runs|].
    apply (runs_bind _ _ _ [] _ h' [] _ h' Hr). apply runs_ret.
Qed.

Lemma metricsTLS_shared grow f x n a l h :
  (1 < n)%nat -> array_at h x = Some (disableHTTP2 :: a :: l) ->
  exists h', runs (metricsTLS grow f (roomy x n)) h (NewCertWatcher <$> option_list (metricsWatcher f))
      (metricsWatcher f, mkMetricsOptions (metricsAddr f) (secureMetrics f)
         (roomy_opts x n (metricsWatcher f)) (secureMetrics f)) h'
    /\ array_at h' x = Some (disableHTTP2 :: second (metricsWatcher f) a :: l).
Proof.
  intros Hn Ha. unfold metricsTLS, metricsWatcher.
  destruct (secureMetrics f); cbn [negb orb]; [|exists h; split; [apply runs_ret|done]].
  destruct (String.eqb _ "").
  - exists h. split; [apply runs_ret|done].
  - set (w := mkCertWatcher _ _).
    destruct (append_opt_shared grow x n (useCertificate w) a l h Hn Ha) as (h' & Hr & Ha').
    exists h'. split; [|done].
    apply (runs_bind _ _ _ [NewCertWatcher w] w h [] _ h'); [apply newCertWatcher_runs|].
    apply (runs_bind _ _ _ [] _ h' [] _ h' Hr). apply runs_ret.
Qed.

Lemma served_roomy h x n w a l f :
  enableHTTP2 f = false -> array_at h x = Some (disableHTTP2 :: a :: l) ->
  (forall c, w = Some c -> exists c', a = useCertificate c') ->
  served h (roomy_opts x n w)
  = expected f (match w, a with Some _, useCertificate c => Some c | _, _ => None end).
Proof.
  intros Hf Ha Hw. unfold served, roomy_opts, roomy, elements_of, expected. rewrite Hf.
  destruct w as [c|]; cbn; rewrite Ha; cbn; [|by rewrite decide_True by done].
  destruct (Hw c eq_refl) as [c' ->]. by rewrite decide_True by done.
Qed.

(** The certificate the webhook server presents: its own, unless the first array
    had room for a second option, into which both servers wrote. *)
Definition webhookCertificate (grow : nat -> nat -> nat) (f : Flags) : option CertWatcher :=
  match webhookWatcher f, metricsWatcher f with
  | Some _, Some m => if negb (enableHTTP2 f) && (1 <? grow 0%nat 1%nat)%nat then Some m else webhookWatcher f
  | w, _ => w
  end.

Definition setup_result (grow : nat -> nat -> nat) (f : Flags) (o : ManagerOptions)
    (h' : Heap (list tlsOpt)) : Prop :=
  served h' (wo_TLSOpts (mg_WebhookServer o)) = expected f (webhookCertificate grow f)
  /\ served h' (mo_TLSOpts (mg_Metrics o)) = expected f (metricsWatcher f).

(** Without room each server appends to an array of its own. *)
Lemma setup_separate grow f h s0 h0 :
  runs (if negb (enableHTTP2 f) then append_opt grow None disableHTTP2 else gret None) h [] s0 h0 ->
  opts_of h0 s0 = Some (base f) -> full s0 -> negb (enableHTTP2 f) && (1 <? grow 0%nat 1%nat)%nat = false ->
  exists o h', runs (setup grow f) h (setup_plan f o) tt h' /\ options_ok f o /\ setup_result grow f o h'.
Proof.
  intros R0 L0 F0 Hg.
  destruct (webhookTLS_runs grow f s0 h0 _ F0 L0) as (s1 & h1 & R1 & L1 & S1).
  destruct (metricsTLS_runs grow f s0 h1 _ F0 (opts_of_mono _ _ _ _ S1 L0)) as (s2 & h2 & R2 & L2 & S2).
  destruct (setup_from grow f h s0 h0 s1 h1 s2 h2 R0 R1 R2) as (o & Hr & Ho & <- & <-).
  exists o, h2. split; [done|]. split; [done|]. unfold setup_result, webhookCertificate. rewrite Hg.
  split; [|by apply served_opts].
  rewrite (served_opts _ _ f (webhookWatcher f)) by (by eapply opts_of_mono).
  by destruct (webhookWatcher f), (metricsWatcher f).
Qed.

(** With room both write into the second place of one array. *)
Lemma setup_shared grow f h s0 h0 :
  enableHTTP2 f = false -> (1 < grow 0 1)%nat ->
  runs (append_opt grow None disableHTTP2) h [] s0 h0 ->
  (exists x l, s0 = roomy x (grow 0%nat 1%nat) /\ array_at h0 x = Some (disableHTTP2 :: NilFunc :: l)) ->
  exists o h', runs (setup grow f) h (setup_plan f o) tt h' /\ options_ok f o /\ setup_result grow f o h'.
Proof.
  intros Hf Hn R0 (x & l & -> & Ha).
  destruct (webhookTLS_shared grow f x _ _ l h0 Hn Ha) as (h1 & R1 & Ha1).
  destruct (metricsTLS_shared grow f x _ _ l h1 Hn Ha1) as (h2 & R2 & Ha2).
  assert (runs (if negb (enableHTTP2 f) then append_opt grow None disableHTTP2 else gret None) h []
    (roomy x (grow 0%nat 1%nat)) h0) as R0' by (by rewrite Hf).
  destruct (setup_from grow f h _ h0 _ h1 _ h2 R0' R1 R2) as (o & Hr & Ho & E1 & E2).
  exists o, h2. split; [done|]. split; [done|]. unfold setup_result, webhookCertificate. rewrite Hf, E1, E2.
  apply Nat.ltb_lt in Hn. rewrite Hn. cbn [negb andb].
  rewrite !(served_roomy h2 x _ _ _ l f Hf Ha2) by (intros; simplify_eq/=; destruct (webhookWatcher f), (metricsWatcher f); naive_solver).
  by destruct (webhookWatcher f), (metricsWatcher f).
Qed.

Lemma setup_runs grow f h :
  exists o h', runs (setup grow f) h (setup_plan f o) tt h' /\ options_ok f o /\ setup_result grow f o h'.
Proof.
  destruct (enableHTTP2 f) eqn:Hf.
  - apply (setup_separate grow f h None h); unfold base; rewrite ?Hf; [apply runs_ret|done..].
  - set (n := grow 0%nat 1%nat).
    destruct (alloc_spec (disableHTTP2 :: replicate (n - 1) NilFunc) h) as (x & Ex & Hx).
    assert (runs (append_opt grow None disableHTTP2) h [] (roomy x n)
      (<[x := to_cell (disableHTTP2 :: replicate (n - 1) NilFunc)]> h)) as R0.
    { apply runs_heap. unfold append_one, gbind. fold n. cbn [app zero stored_opts]. by rewrite Ex. }
    destruct (decide (1 < n)%nat) as [Hn|Hn].
    + eapply setup_shared; [done|done|exact R0|]. exists x, (replicate (n - 2) NilFunc). split; [done|].
      rewrite array_at_insert. by replace (n - 1)%nat with (S (n - 2)) by lia.
    + eapply setup_separate; [rewrite Hf; exact R0| | |].
      * unfold base. rewrite Hf. cbn [opts_of roomy]. unfold elements_of. cbn [sl_arr sl_off sl_len].
        rewrite array_at_insert. cbn. done.
      * cbn. lia.
      * rewrite Hf. apply Nat.ltb_ge. fold n. lia.
Qed.

Section Growth.
(** The platform, and the capacity its run time gives a slice that grows, which is
    not part of the language. *)
Variable pf : platform.
Variable grow : nat -> nat -> nat.

(** The process without its arguments. *)
Lemma main_parsed extra args f p : parseFlags pf extra args = Ok f -> main grow pf extra args p = serve grow f p.
Proof. intros E. unfold main, gbind, glift. by rewrite E. Qed.

(** [C19] The manager does exactly the planned steps, in order, with the options
    of the flags, up to the first step that fails, and succeeds when all do:
    certificate watchers are made for the servers that have a certificate, both
    controllers run with the configured delta and a real clock, and the manager
    starts last, only after every other step succeeded.  When the arguments cannot
    be read it does nothing. *)
Theorem main_follows_plan extra args p :
  match parseFlags pf extra args with
  | Err e => main grow pf extra args p = (Err e, p)
  | Ok f =>
      exists o, options_ok f o
        /\ let '(done, ok, st) := run_plan (plan f o) (pr_platform p) in
           pr_steps (main grow pf extra args p).2 = pr_steps p ++ done
           /\ pr_platform (main grow pf extra args p).2 = st
           /\ is_ok (main grow pf extra args p).1 = ok
  end.
Proof.
  destruct (parseFlags pf extra args) as [f|e] eqn:E; [|unfold main, gbind, glift; by rewrite E].
  rewrite (main_parsed _ _ _ _ E).
  destruct (setup_runs grow f (pr_heap p)) as (o & h' & Hr & Ho & _). exists o. split; [done|].
  assert (runs (serve grow f) (pr_heap p) (plan f o) tt h') as Hm.
  { eapply runs_bind; [exact Hr|apply runs_step]. }
  specialize (Hm p eq_refl). destruct (run_plan _ _) as [[done ok] st].
  destruct Hm as (Hs & Hst & Hok). split_and!; [done|done|]. destruct ok; [by destruct Hok as [-> _]|done].
Qed.

Lemma run_plan_prefix ss st : (run_plan ss st).1.1 `prefix_of` ss.
Proof.
  revert st. induction ss as [|s ss IH]; intros st; cbn; [done|].
  destruct (perform_step s st) as [[e|] st']; [by apply prefix_cons, prefix_nil|].
  specialize (IH st'). destruct (run_plan ss st') as [[d ok] st'']. by apply prefix_cons.
Qed.

Lemma setup_plan_no_start f o : StartManager ∉ setup_plan f o.
Proof. unfold setup_plan. destruct (webhookWatcher f), (metricsWatcher f); cbn; set_solver. Qed.

Lemma run_plan_all ss st : (run_plan ss st).1.2 = true -> (run_plan ss st).1.1 = ss.
Proof.
  revert st. induction ss as [|s ss IH]; intros st; cbn; [done|].
  destruct (perform_step s st) as [[e|] st']; [done|]. specialize (IH st').
  destruct (run_plan ss st') as [[d ok] st'']. cbn in *. intros ->. by rewrite IH.
Qed.

(** [C18] When the manager starts, its servers read these TLS options, whatever
    capacity the run time gives to a slice that grows: each refuses HTTP/2 exactly
    if it is not enabled; the metrics server presents its own certificate exactly
    if they are served securely and a path is set for it; the webhook server
    presents its own exactly if a path is set for it, except where HTTP/2 is not
    enabled, both have a certificate and the run time made room for a second option
    in the first array: there it presents that of the metrics server, whose option
    has overwritten its own. *)
Theorem main_serves_tls extra args p :
  pr_steps p = [] -> In StartManager (pr_steps (main grow pf extra args p).2) ->
  exists f o, parseFlags pf extra args = Ok f
    /\ In (NewManager o) (pr_steps (main grow pf extra args p).2) /\ options_ok f o
    /\ let h := pr_heap (main grow pf extra args p).2 in
       served h (wo_TLSOpts (mg_WebhookServer o)) = expected f (webhookCertificate grow f)
       /\ served h (mo_TLSOpts (mg_Metrics o)) = expected f (metricsWatcher f).
Proof.
  intros Hp Hin. destruct (parseFlags pf extra args) as [f|e] eqn:Ef;
    [|unfold main, gbind, glift in Hin; rewrite Ef in Hin; cbn in Hin; by rewrite Hp in Hin].
  rewrite (main_parsed _ _ _ _ Ef) in *.
  destruct (setup_runs grow f (pr_heap p)) as (o & h' & Hr & Ho & Hw & Hm).
  specialize (Hr p eq_refl). pose proof (run_plan_prefix (setup_plan f o) (pr_platform p)) as Hpre.
  pose proof (run_plan_all (setup_plan f o) (pr_platform p)) as Hall.
  destruct (run_plan _ _) as [[done ok] st]; cbn in *. destruct Hr as (Hs & Hst & Hok).
  unfold serve, gbind in *. destruct (setup grow f p) as [r p1] eqn:E; cbn in *. rewrite Hp in Hs. cbn in Hs.
  destruct ok; [|destruct r; [done|]; exfalso; cbn in Hin; rewrite Hs in Hin;
    apply list_elem_of_In in Hin; eapply setup_plan_no_start, elem_of_prefix; eauto].
  destruct Hok as [-> Hh]. exists f, o. unfold step, step_or in *.
  destruct (perform_step StartManager (pr_platform p1)) as [err st']. cbn in *. rewrite Hh, Hs, Hall by done.
  split_and!; try done. apply in_app_iff. left. unfold setup_plan. rewrite !in_app_iff. cbn. tauto.
Qed.
End Growth.

End Spec.
