(* ===== verification/TestUtil.v ===== *)
(** * The helpers of the tests: internal/testutil

    testenv.go finds or installs the binaries of a test cluster and starts it,
    realk8s.go creates and deletes namespaces, random.go makes names.  What they
    ask of the operating system and of the e2e framework is a sequence of
    operations, each of which can fail. *)

From S2P Require Import Prelude GoStrings GoTime GoPath.

Inductive Op :=
| LookupEnv (name : string)
| Setenv (name value : string)
| Unsetenv (name : string)
| Stat (path : string)
(** [e.RunProc(cmd)] with the variable GOBIN that was set on [e]. *)
| RunProc (gobin : option string) (cmd : string)
| StartEnv (crdDirPaths : list string)
| StopEnv
| NewClient
| NewDiscoveryClient
| ServerVersion
| CreateNS (name : string) (labels : gmap string string)
| DeleteNS (name : string)
| NewResourcesClient
| DecodeEachFile (path pattern : string)
| RandInt (max : Z).

(** What an operation returns: the text or the number it yields, or its error. *)
Inductive Value := VUnit | VText (s : string) | VInt (z : Z).

Class TestPlatform := {
  TestState : Type;
  perform_op : Op -> TestState -> result Value * TestState;
  (** [envconf.RandomName], which cannot fail. *)
  RandomName : string -> Z -> TestState -> string * TestState
}.

Section TestUtil.
Context {TP : TestPlatform}.

(** The platform, the operations so far with their answers, the session [e] and the fields of
    [envconf.Config] that the helpers set. *)
Record TestWorld := mkTestWorld {
  tw_state : TestState;
  tw_log : list (Op * result Value);
  tw_gobin : option string;
  tw_client : bool;
  tw_namespace : string
}.

Definition op (o : Op) : M TestWorld Value :=
  fun w => let '(r, st) := perform_op o (tw_state w) in
    (r, mkTestWorld st (tw_log w ++ [(o, r)]) (tw_gobin w) (tw_client w) (tw_namespace w)).

Definition op_ (o : Op) : M TestWorld unit := op o;;~ gret tt.

(** An operation that yields a text. *)
Definition text (v : Value) : string := match v with VText s => s | _ => "" end.
Definition op_text (o : Op) : M TestWorld string := v <~ op o;; gret (text v).

Definition SetGoBin (v : string) : M TestWorld unit :=
  fun w => (Ok tt, mkTestWorld (tw_state w) (tw_log w) (Some v) (tw_client w) (tw_namespace w)).
(** [gexe.New()] *)
Definition NewSession : M TestWorld unit :=
  fun w => (Ok tt, mkTestWorld (tw_state w) (tw_log w) None (tw_client w) (tw_namespace w)).
Definition RunCommand (cmd : string) : M TestWorld string :=
  fun w => op_text (RunProc (tw_gobin w) cmd) w.
Definition random_name (prefix : string) (n : Z) : M TestWorld string :=
  fun w => let '(s, st) := RandomName prefix n (tw_state w) in
    (Ok s, mkTestWorld st (tw_log w) (tw_gobin w) (tw_client w) (tw_namespace w)).
Definition WithClient : M TestWorld unit :=
  fun w => (Ok tt, mkTestWorld (tw_state w) (tw_log w) (tw_gobin w) true (tw_namespace w)).
Definition WithNamespace (ns : string) : M TestWorld unit :=
  fun w => (Ok tt, mkTestWorld (tw_state w) (tw_log w) (tw_gobin w) (tw_client w) ns).

(** ** testenv.go *)

Definition kindVersionVariableName : string := "KIND_K8S_VERSION".
Definition localBinRelativePath : string := "../../bin".
Definition envtestBin : string := "setup-envtest".

(** The directory of testenv.go. *)
Variable basepath : string.

Definition getLocalBin : string := Join basepath localBinRelativePath.

(** Empty when the binary is not there. *)
Definition getSetupEnvPath : M TestWorld string :=
  let envtestBinPath := Join getLocalBin envtestBin in
  r <~ gtry (op_ (Stat envtestBinPath));;
  gret match r with Ok _ => envtestBinPath | Err _ => "" end.

Definition installCommand : string :=
  "go install sigs.k8s.io/controller-runtime/tools/setup-envtest@latest".

Definition installTestEnv : M TestWorld string :=
  SetGoBin getLocalBin;;~
  p <~ gtry (RunCommand installCommand);;
  match p with
  | Err e => gfail (errorf ("failed to install setup-envtest: " +:+ err_msg e))
  | Ok _ =>
      setupEnvPath <~ getSetupEnvPath;;
      if negb (String.eqb setupEnvPath "") then gret setupEnvPath
      else gfail (errorf "setup-envtest not available even after installation")
  end.

Definition useCommand (setupEnvCommand k8sVersion : string) : string :=
  setupEnvCommand +:+ " use -p path --bin-dir " +:+ getLocalBin +:+ " " +:+ k8sVersion.

Definition findOrInstallTestEnv (k8sVersion : string) : M TestWorld string :=
  setupEnvCommand <~ getSetupEnvPath;;
  setupEnvCommand <~ (if String.eqb setupEnvCommand "" then installTestEnv else gret setupEnvCommand);;
  let cmd := useCommand setupEnvCommand k8sVersion in
  p <~ gtry (RunCommand cmd);;
  match p with
  | Err e => gfail (errorf ("failed to use envtest at version " +:+ k8sVersion +:+ ": " +:+ err_msg e
                            +:+ ". Command: " +:+ cmd))
  | Ok result => gret result
  end.

(** [strings.TrimLeft(s, cutset)] with a cutset of one byte. *)
Fixpoint TrimLeft (c : ascii) (s : string) : string :=
  match s with
  | String x s' => if Ascii.eqb x c then TrimLeft c s' else s
  | EmptyString => s
  end.

(** The version for the binaries: without the patch, when there is one. *)
Definition envtestVersion (version : string) : string :=
  match split_on "." (TrimLeft "v" version) with
  | major :: minor :: _ :: _ => major +:+ "." +:+ minor
  | _ => version
  end.

(** A variable that is not set is empty. *)
Definition getK8sVersionForEnvtest : M TestWorld string :=
  version <~ gtry (op_text (LookupEnv kindVersionVariableName));;
  gret (envtestVersion (match version with Ok v => v | Err _ => "" end)).

(** ** realk8s.go *)

(** The version is printed; the helper returns the error. *)
Definition GetClusterVersion : M TestWorld unit :=
  op_ NewDiscoveryClient;;~
  op_ ServerVersion.

Definition SetupCRDs (crdPath pattern : string) : M TestWorld unit :=
  op_ NewResourcesClient;;~
  op_ (DecodeEachFile crdPath pattern).

(** The context: the namespace under the key [nsKey], if any. *)
Abbreviation Context_ := (option string).

Definition CreateNamespace (ctx : Context_) (runID : string) : M TestWorld (Context_ * option error) :=
  ns <~ random_name runID 32;;
  WithNamespace ns;;~
  r <~ gtry (op_ (CreateNS ns {["app.kubernetes.io/managed-by"%string := "kube-green-test"%string]}));;
  gret (Some ns, match r with Ok _ => None | Err e => Some e end).

Definition DeleteNamespace (ctx : Context_) : M TestWorld (Context_ * option error) :=
  match ctx with
  | None => gret (ctx, Some (errorf "namespace not in context"))
  | Some ns =>
      r <~ gtry (op_ (DeleteNS ns));;
      gret (ctx, match r with Ok _ => None | Err e => Some e end)
  end.

(** ** Starting and stopping *)

(** The environment returned, nil or with its CRDs, and the error. *)
Abbreviation EnvOutcome := (option (list string) * option error)%type.

Definition StartEnvTest (crdDirPaths : list string) : M TestWorld EnvOutcome :=
  let testEnv := crdDirPaths in
  NewSession;;~
  version <~ getK8sVersionForEnvtest;;
  a <~ gtry (findOrInstallTestEnv version);;
  match a with
  | Err e => gret (Some testEnv, Some e)
  | Ok assetsPath =>
      s <~ gtry (op_ (Setenv "KUBEBUILDER_ASSETS" assetsPath));;
      match s with
      | Err e => gret (Some testEnv, Some e)
      | Ok _ =>
          cfg <~ gtry (op_ (StartEnv crdDirPaths));;
          match cfg with
          | Err e => gret (Some testEnv, Some e)
          | Ok _ =>
              client <~ gtry (op_ NewClient);;
              match client with
              | Err e => gret (Some testEnv, Some e)
              | Ok _ =>
                  WithClient;;~
                  v <~ gtry GetClusterVersion;;
                  match v with
                  | Err e => gret (None, Some e)
                  | Ok _ => gret (Some testEnv, None)
                  end
              end
          end
      end
  end.

Definition StopEnvTest : M TestWorld unit :=
  op_ (Unsetenv "KUBEBUILDER_ASSETS");;~
  op_ StopEnv.

(** ** random.go *)

Definition letterBytes : string := "abcdefghijklmnopqrstuvwxyz".

Definition errPanic (msg : string) : error := errorf ("panic: " +:+ msg).

(** [letterBytes[i]] *)
Definition letter (i : Z) : result ascii :=
  if i <? 0 then Err (errPanic "index out of range")
  else match String.get (Z.to_nat i) letterBytes with
       | Some c => Ok c
       | None => Err (errPanic "index out of range")
       end.

Fixpoint rand_bytes (n : nat) : M TestWorld string :=
  match n with
  | O => gret ""%string
  | S n =>
      random <~ gtry (op (RandInt (Z.of_nat (String.length letterBytes))));;
      match random with
      | Err e => gfail (errPanic ("random error: " +:+ err_msg e))
      | Ok v =>
          c <~ glift (letter (match v with VInt i => i | _ => 0 end));;
          rest <~ rand_bytes n;;
          gret (String c rest)
      end
  end.

Definition RandString (n : Z) : M TestWorld string :=
  if n <? 0 then gfail (errPanic "makeslice: len out of range") else rand_bytes (Z.to_nat n).

(** ** The order of a start

    [installed] says whether the first look finds the binary. *)

Definition binary : string := Join getLocalBin envtestBin.

Definition locate_plan (installed : bool) : list Op :=
  if installed then [Stat binary] else [Stat binary; RunProc (Some getLocalBin) installCommand; Stat binary].

Definition start_plan (installed : bool) (version assets : string) (crdDirPaths : list string) : list Op :=
  LookupEnv kindVersionVariableName :: locate_plan installed
    ++ [RunProc (if installed then None else Some getLocalBin) (useCommand binary version);
        Setenv "KUBEBUILDER_ASSETS" assets; StartEnv crdDirPaths; NewClient; NewDiscoveryClient; ServerVersion].

Abbreviation Log := (list (Op * result Value)).

(** All operations of the log succeeded but possibly the first two. *)
Definition all_done (log : Log) : Prop := Forall (fun or => is_ok or.2 = true) (drop 2 log).

(** The last operation of the log failed, and none before it after the first two. *)
Definition stopped (log : Log) : Prop :=
  (exists o e, last log = Some (o, Err e)) /\ all_done (removelast log) /\ (2 < length log)%nat.

(** What a log says: whether the binary was found at first, the version and the
    path of the assets that were answered. *)
Definition found (log : Log) : bool :=
  match log !! 1%nat with Some (_, Ok _) => true | _ => false end.
Definition answer (log : Log) (i : nat) : string :=
  match log !! i with Some (_, Ok v) => text v | _ => "" end.
Definition plan_of (crdDirPaths : list string) (log : Log) : list Op :=
  start_plan (found log) (envtestVersion (answer log 0)) (answer log (if found log then 2 else 4)) crdDirPaths.

Definition start_outcome (crdDirPaths : list string) (r : EnvOutcome) (log : Log) (client : bool) : Prop :=
  log.*1 `prefix_of` plan_of crdDirPaths log
  /\ match r.2 with
      | None => r.1 = Some crdDirPaths /\ client = true /\ log.*1 = plan_of crdDirPaths log /\ all_done log
      | Some _ => stopped log
      end
  /\ (r.1 = None <-> r.2 <> None /\ NewDiscoveryClient ∈ log.*1).

Lemma binary_nonempty : String.eqb binary "" = false.
Proof. apply String.eqb_neq, Join_nonempty. done. Qed.

(** One more operation, with either answer. *)
Ltac step_op :=
  match goal with
  | |- context [perform_op ?o ?s] => destruct (perform_op o s) as [[?|?] ?]; cbn; rewrite ?binary_nonempty; cbn
  end.

(** On a concrete log. *)
Ltac done_or_stopped :=
  first [ split_and!; [done..|repeat constructor]
        | split_and!; [do 2 eexists; reflexivity|repeat constructor|cbn; lia] ].

(** [C31] Starting the test environment always returns.  It does a prefix of the
    plan: read the version, look for the binary, install it only when it is not
    there and look again, let it print the path of the assets of the version, set
    that path, start the environment, and ask the cluster for its version.  There
    is no error exactly when the whole plan was done and succeeded; otherwise the
    last operation is the one that failed.  The environment returned is nil exactly
    when the version of the cluster could not be read, after the environment was
    started: nothing stops it, and the caller cannot. *)
Theorem start_envtest_order crdDirPaths w :
  exists r log w', StartEnvTest crdDirPaths w = (Ok r, w') /\ tw_log w' = tw_log w ++ log
    /\ start_outcome crdDirPaths r log (tw_client w').
Proof.
  unfold StartEnvTest, findOrInstallTestEnv, installTestEnv, getK8sVersionForEnvtest, getSetupEnvPath,
    GetClusterVersion, NewSession, RunCommand, op_text, op_, SetGoBin, WithClient, op, gbind, gtry, gret, gfail.
  cbn. fold binary.
  repeat step_op.
  all: eexists _, _, _; (split; [reflexivity|]); (split; [cbn; rewrite <- !(assoc_L app); reflexivity|]).
  all: unfold start_outcome; cbn [fst snd fmap list_fmap].
  all: split; [by eexists; cbn|split].
  all: try done_or_stopped.
  all: cbn -[String.append]; rewrite ?elem_of_cons, ?elem_of_nil; naive_solver.
Qed.

(** ** Names and namespaces *)

(** The namespace that is deleted is the one whose creation was asked for, also
    when the creation failed. *)
Lemma delete_created ctx ctx1 runID w r r' w1 w2 :
  CreateNamespace ctx runID w = (Ok r, w1) -> DeleteNamespace r.1 w1 = (Ok (ctx1, r'), w2) ->
  exists ns labels a b, ctx1 = Some ns /\ tw_namespace w2 = ns
    /\ tw_log w2 = tw_log w ++ [(CreateNS ns labels, a); (DeleteNS ns, b)]
    /\ (r.2 = None <-> is_ok a = true) /\ (r' = None <-> is_ok b = true).
Proof.
  unfold CreateNamespace, DeleteNamespace, random_name, op_, op, gbind, gtry, gret, WithNamespace. cbn.
  destruct (RandomName runID 32 (tw_state w)) as [ns st]. cbn.
  repeat step_op; intros [= <- <-]; cbn; repeat step_op; intros [= <- <- <-]; cbn;
    do 4 eexists; (split; [done|]); (split; [done|]); rewrite <- (assoc_L app); (split; [reflexivity|]); done.
Qed.

(** [crypto/rand.Int] answers a number below its bound. *)
Definition random_in_range : Prop :=
  forall max st v st', perform_op (RandInt max) st = (Ok v, st') -> exists i, v = VInt i /\ 0 <= i < max.

Lemma letter_ok i :
  0 <= i < Z.of_nat (String.length letterBytes) -> exists c, letter i = Ok c /\ (97 <= nat_of_ascii c <= 122)%nat.
Proof.
  intros H. change (Z.of_nat (String.length letterBytes)) with 26 in H.
  assert (exists n, i = Z.of_nat n /\ (n < 26)%nat) as (n & -> & Hn) by (exists (Z.to_nat i); lia).
  do 26 (destruct n as [|n]; [eexists; split; [reflexivity|vm_compute; lia]|]). lia.
Qed.

Fixpoint all_letters (s : string) : Prop :=
  match s with
  | EmptyString => True
  | String c s => (97 <= nat_of_ascii c <= 122)%nat /\ all_letters s
  end.

Lemma rand_bytes_spec n w :
  random_in_range ->
  match (rand_bytes n w).1 with
  | Ok s => String.length s = n /\ all_letters s
  | Err _ => exists e, last (tw_log (rand_bytes n w).2) = Some (RandInt 26, Err e)
  end.
Proof.
  intros HR. revert w. induction n as [|n IH]; intros w; [done|].
  cbn [rand_bytes]. rewrite bind_try. unfold op.
  change (Z.of_nat (String.length letterBytes)) with 26.
  destruct (perform_op (RandInt 26) (tw_state w)) as [[v|e] st] eqn:E; cbn [fst snd].
  - destruct (HR _ _ _ _ E) as (i & -> & Hi). destruct (letter_ok i Hi) as (c & -> & Hc).
    unfold glift, gbind. set (w1 := mkTestWorld _ _ _ _ _). specialize (IH w1).
    destruct (rand_bytes n w1) as [[s|e] w2]; cbn in *; [|done]. destruct IH as [-> Hs]. done.
  - eexists. cbn. by rewrite last_snoc.
Qed.

(** A random name has the length asked for and small letters only; when the
    source of randomness fails the helper panics. *)
Lemma RandString_spec n w :
  random_in_range -> 0 <= n ->
  match (RandString n w).1 with
  | Ok s => Z.of_nat (String.length s) = n /\ all_letters s
  | Err _ => exists e, last (tw_log (RandString n w).2) = Some (RandInt 26, Err e)
  end.
Proof.
  intros HR Hn. unfold RandString. destruct (n <? 0) eqn:E; [lia|].
  pose proof (rand_bytes_spec (Z.to_nat n) w HR) as H.
  destruct (rand_bytes (Z.to_nat n) w) as [[s|e] w']; cbn in *; [|done]. destruct H as [-> Hs]. split; [lia|done].
Qed.

(** The version asked of the binaries: the patch and the leading letters are left
    out, and a version without a patch is kept as it is. *)
Lemma envtestVersion_patch major minor rest :
  count "." major = 0%nat -> count "." minor = 0%nat -> (forall s, major <> String "v" s) ->
  envtestVersion ("v" +:+ major +:+ "." +:+ minor +:+ "." +:+ rest) = major +:+ "." +:+ minor.
Proof.
  intros H1 H2 H3. unfold envtestVersion.
  assert (TrimLeft "v" ("v" +:+ major +:+ "." +:+ minor +:+ "." +:+ rest)
          = major +:+ String "." (minor +:+ String "." rest)) as ->.
  { change ("v" +:+ ?x) with (String "v" x). change ("." +:+ ?x) with (String "." x).
    cbn [TrimLeft]. rewrite Ascii.eqb_refl. destruct major as [|c s]; [done|].
    rewrite append_cons. cbn [TrimLeft]. destruct (Ascii.eqb_spec c "v") as [->|]; [by destruct (H3 s)|done]. }
  rewrite !split_on_app by done. by destruct (split_on "." rest) eqn:E; [destruct (split_on_nonnil _ _ E)|].
Qed.

Lemma envtestVersion_short version :
  (length (split_on "." (TrimLeft "v" version)) < 3)%nat -> envtestVersion version = version.
Proof. unfold envtestVersion. destruct (split_on _ _) as [|? [|? []]]; cbn; [done..|lia]. Qed.
End TestUtil.
