(* ===== verification/Reference.v ===== *)
(** * Reference libraries

    Concrete functions for the libraries of Libs.v, with proofs that they
    satisfy the laws: the laws can hold together, and the theorems can be run on
    examples.  None of them is a model of the real library beyond its laws. *)

From S2P Require Import Prelude GoStrings GoTime GoJson GoFloat GoAny Api Libs Merge.

(** ** Cron: once a day, UTC, not at midnight

    A schedule is a second of the day, counted from the first one. *)
Module Daily.
Definition day : Z := 86400 * Second.
Definition offset (s : Z) : Z := (s mod 86399 + 1) * Second.

Definition parse (spec : string) : result Z :=
  match split_on " " spec with
  | [m; h; "*"; "*"; "*"]%string =>
      match parse_int m, parse_int h with
      | Some m, Some h =>
          let s := h * 3600 + m * 60 in
          if (0 <=? m) && (m <? 60) && (0 <=? h) && (h <? 24) && (0 <? s) then Ok (s - 1)
          else Err (errorf "value out of range")
      | _, _ => Err (errorf "failed to parse int")
      end
  | _ => Err (errorf "unsupported spec")
  end.

Definition next (s : Z) (t : Time) : Time :=
  mkTime (((instant t - offset s) / day + 1) * day + offset s) (zone t).

Lemma offset_range s : 0 < offset s < day.
Proof.
  unfold offset, day, Second. pose proof (Z.mod_pos_bound s 86399). lia.
Qed.

Lemma next_mod s t : instant (next s t) mod day = offset s.
Proof.
  cbn [next instant]. pose proof (offset_range s).
  rewrite Z.add_comm, Z_mod_plus_full. apply Z.mod_small. lia.
Qed.

Lemma next_nonzero s t : IsZero (next s t) = false.
Proof.
  unfold IsZero. apply Z.eqb_neq. intros E. pose proof (next_mod s t) as H.
  rewrite E in H. pose proof (offset_range s). rewrite Z.mod_0_l in H; lia.
Qed.
End Daily.

#[export] Instance dailyCron : CronLib :=
  {| Schedule := Z; ParseStandard := Daily.parse; Next := Daily.next |}.

#[export] Instance dailyCronLaws : CronLaws.
Proof.
  refine {| fires := fun s x => x mod Daily.day = Daily.offset s |}.
  - intros s t _. split; [|apply Daily.next_mod].
    cbn [Next dailyCron Daily.next instant]. pose proof (Daily.offset_range s).
    pose proof (Z.mod_pos_bound (instant t - Daily.offset s) Daily.day).
    pose proof (Z.div_mod (instant t - Daily.offset s) Daily.day). lia.
  - intros s t x _. cbn [Next dailyCron Daily.next instant]. pose proof (Daily.offset_range s).
    intros [H1 H2] E. pose proof (Z.div_mod x Daily.day). rewrite E in *.
    pose proof (Z.mod_pos_bound (instant t - Daily.offset s) Daily.day).
    pose proof (Z.div_mod (instant t - Daily.offset s) Daily.day).
    assert ((instant t - Daily.offset s) / Daily.day < x / Daily.day
            < (instant t - Daily.offset s) / Daily.day + 1) by nia. lia.
  - intros s t x H. cbn in H. by rewrite Daily.next_nonzero in H.
Defined.

(** ** Map iteration: forwards and backwards in turn *)

Definition alternating {K A} `{Countable K} (n : nat) (m : gmap K A) : list (K * A) :=
  if Nat.even n then map_to_list m else reverse (map_to_list m).

#[export] Instance alternatingRange : MapRange.
Proof.
  refine {| range := fun K A _ _ => alternating |}.
  intros K A ? ? n m. unfold alternating. destruct (Nat.even n); [done|].
  apply reverse_Permutation.
Defined.

(** ** Selectors: lists of requirements *)

Module Reqs.
Definition parse_req (s : string) : result requirement :=
  match split_on "!" s with
  | [k; String "=" v] => Ok (ReqNe k v)
  | _ => match split_on "=" s with
         | [k; ""%string; v] => Ok (ReqEq k v)
         | _ => Err (errorf ("invalid selector: " +:+ s))
         end
  end.

Fixpoint parse_all (l : list string) : result (list requirement) :=
  match l with
  | [] => Ok []
  | x :: l' => let? r := parse_req x in let? rs := parse_all l' in Ok (r :: rs)
  end.

Definition parse (s : string) : result (list requirement) := parse_all (split_on "," s).

Lemma plain_count c s : name_char c = false -> plain s = true -> count c s = 0%nat.
Proof. unfold plain. rewrite andb_true_iff. intros Hc [_ H]. by eapply all_chars_count. Qed.

Lemma parse_req_String r : req_plain r = true -> parse_req (req_String r) = Ok r.
Proof.
  destruct r as [k v|k v]; cbn [req_plain req_String]; rewrite andb_true_iff; intros [Hk Hv];
    pose proof (plain_count "=" k eq_refl Hk); pose proof (plain_count "!" k eq_refl Hk);
    pose proof (plain_count "=" v eq_refl Hv); pose proof (plain_count "!" v eq_refl Hv);
    unfold parse_req.
  - rewrite (split_on_id "!") by (rewrite !count_append; cbn; lia).
    change ("==" +:+ v) with (String "=" ("" +:+ String "=" v)).
    by rewrite !split_on_app, split_on_id.
  - change ("!=" +:+ v) with (String "!" (String "=" v)).
    by rewrite split_on_app, split_on_id by (cbn; lia).
Qed.

Lemma req_String_comma r : req_plain r = true -> count "," (req_String r) = 0%nat.
Proof.
  destruct r as [k v|k v]; cbn [req_plain req_String]; rewrite andb_true_iff; intros [Hk Hv];
    rewrite !count_append, (plain_count "," k), (plain_count "," v) by done; done.
Qed.

Lemma parse_join rs :
  rs <> [] -> forallb req_plain rs = true -> parse (join "," (map req_String rs)) = Ok rs.
Proof.
  intros Hne Hp. unfold parse. change ","%string with (String "," "").
  rewrite split_on_join.
  - clear Hne. induction rs as [|r rs IH]; [done|]. cbn [forallb] in Hp.
    apply andb_true_iff in Hp as [Hr Hp]. cbn [map parse_all].
    rewrite parse_req_String by done. cbn [rbind]. rewrite IH by done. done.
  - by destruct rs.
  - apply Forall_forall. intros x (r & <- & Hr)%list_elem_of_In%in_map_iff.
    apply req_String_comma. rewrite forallb_forall in Hp. by apply Hp.
Qed.
End Reqs.

#[export] Instance reqSelectors : SelectorLib := {|
  FieldSelector := list requirement;
  LabelSelector := list requirement;
  ParseFieldSelector := Reqs.parse;
  ParseLabelSelector := Reqs.parse;
  FieldMatches sel set := forallb (req_holds set) sel;
  LabelMatches sel set := forallb (req_holds set) sel
|}.

#[export] Instance reqSelectorLaws : SelectorLaws.
Proof. split; intros rs Hne Hp; exists rs; (split; [by apply Reqs.parse_join|done]). Qed.

(** ** Unstructured objects *)

Module Meta.
(** Sets a field of the metadata, or removes it when there is no value. *)
Definition set (k : string) (v : option json) (u : Unstructured) : Unstructured :=
  let with_meta (m : gmap string json) :=
    mkUnstructured (<["metadata"%string := JObj (map_obj (match v with
      | Some x => <[k := x]> m | None => delete k m end))]> (Object u)) in
  match Object u !! "metadata"%string with
  | None => with_meta ∅
  | Some (JObj l) => with_meta (obj_map l)
  | _ => u
  end.

Definition str (n : string) : option json := if String.eqb n "" then None else Some (JStr n).

Definition field (k : string) (u : Unstructured) : string :=
  match Object u !! k with Some (JStr s) => s | _ => "" end.

Definition gvk (u : Unstructured) : GroupVersionKind :=
  match split_on "/" (field "apiVersion" u) with
  | [v] => mkGVK "" v (field "kind" u)
  | [g; v] => mkGVK g v (field "kind" u)
  | _ => mkGVK "" "" (field "kind" u)
  end.

Definition apiVersion (g : GroupVersionKind) : string :=
  if String.eqb (gvk_Group g) "" then gvk_Version g else gvk_Group g +:+ "/" +:+ gvk_Version g.

Definition set_gvk (g : GroupVersionKind) (u : Unstructured) : Unstructured :=
  mkUnstructured (<["kind"%string := JStr (gvk_Kind g)]>
                  (<["apiVersion"%string := JStr (apiVersion g)]> (Object u))).

(** A controller reference among the owners. *)
Definition has_controller (u : Unstructured) : bool :=
  match at_path ["metadata"; "ownerReferences"]%string (JObj (map_obj (Object u))) with
  | Some (JArr l) =>
      existsb (fun o => match member "controller" o with Some (JBool b) => b | _ => false end) l
  | _ => false
  end.

Lemma set_frame k v u k' : k' <> "metadata"%string -> Object (set k v u) !! k' = Object u !! k'.
Proof.
  intros H. unfold set. destruct (Object u !! "metadata"%string) as [[]|]; try done;
    cbn; by rewrite lookup_insert_ne.
Qed.

Lemma set_ok k v u : meta_ok u = true -> meta_ok (set k v u) = true.
Proof.
  unfold meta_ok, set. destruct (Object u !! "metadata"%string) as [[]|]; try done;
    intros _; cbn; by rewrite lookup_insert_eq.
Qed.

Lemma set_meta k v u :
  meta_ok u = true ->
  meta_map (set k v u) = match v with Some x => <[k := x]> (meta_map u) | None => delete k (meta_map u) end.
Proof.
  unfold meta_ok, meta_map, set.
  destruct (Object u !! "metadata"%string) as [[]|]; try done; intros _; cbn;
    by rewrite lookup_insert_eq, obj_map_map_obj.
Qed.

Lemma set_str k n u : meta_ok u = true -> meta_map (set k (str n) u) = set_string k n (meta_map u).
Proof. intros H. rewrite set_meta by done. unfold str, set_string. by destruct (String.eqb n ""). Qed.
End Meta.

#[export] Instance metaObjects : UnstructuredLib := {|
  GetName := meta_string "name";
  GetNamespace := meta_string "namespace";
  GetKind := Meta.field "kind";
  GetGroupVersionKind := Meta.gvk;
  SetName n := Meta.set "name" (Meta.str n);
  SetNamespace n := Meta.set "namespace" (Meta.str n);
  SetGroupVersionKind := Meta.set_gvk;
  ClearManagedFields := Meta.set "managedFields" None;
  SetResourceVersion v := Meta.set "resourceVersion" (Meta.str v);
  SetNestedField k v u := Ok (mkUnstructured (<[k := v]> (Object u)));
  HasController := Meta.has_controller
|}.

#[export] Instance metaObjectLaws : UnstructuredLaws.
Proof.
  split; cbn; intros; try (by apply Meta.set_frame); try done;
    try (split; [by apply Meta.set_ok|by first [apply Meta.set_str|apply Meta.set_meta]]).
  - by rewrite !lookup_insert_ne.
  - unfold Meta.gvk, Meta.field.
    by repeat match goal with E : Object _ !! _ = _ |- _ => rewrite E; clear E end.
  - destruct g as [g v k]. cbn in *. unfold Meta.gvk, Meta.field, Meta.set_gvk. cbn.
    rewrite lookup_insert_ne, !lookup_insert_eq by done. unfold Meta.apiVersion. cbn.
    destruct (String.eqb_spec g "") as [->|]; [by rewrite split_on_id|].
    change ("/" +:+ v) with (String "/" v). by rewrite split_on_app, split_on_id.
Qed.

(** ** Patches *)

Module Docs.
(** The merge patch from one document to another. *)
Fixpoint diff (a b : json) {struct a} : json :=
  match a, b with
  | JObj la, JObj lb =>
      let changed :=
        concat (map (fun kv : string * json =>
          match obj_map lb !! fst kv with
          | None => [(fst kv, JNull)]
          | Some y => if bool_decide (snd kv = y) then [] else [(fst kv, diff (snd kv) y)]
          end) la) in
      let added := List.filter (fun kv => negb (bool_decide (is_Some (obj_map la !! fst kv)))) lb in
      JObj (map_obj (obj_map (changed ++ added)))
  | _, _ => b
  end.

(** The member of a difference. *)
Definition diff_member (x y : option json) : option json :=
  match x, y with
  | Some _, None => Some JNull
  | Some x, Some y => if bool_decide (x = y) then None else Some (diff x y)
  | None, y => y
  end.

Lemma diff_lookup la lb k :
  NoDup la.*1 -> NoDup lb.*1 ->
  member k (diff (JObj la) (JObj lb)) = diff_member (obj_map la !! k) (obj_map lb !! k).
Proof.
  intros Ha Hb. cbn [diff member]. rewrite obj_map_map_obj.
  match goal with |- obj_map ?l !! k = _ => set (l0 := l) end.
  assert (forall v, (k, v) ∈ l0 <-> diff_member (obj_map la !! k) (obj_map lb !! k) = Some v) as Hl0.
  { intros v. unfold l0. rewrite elem_of_app, !list_elem_of_In.
    rewrite in_concat, filter_In. cbn [fst]. split.
    - intros [(x & Hx & Hin)|[Hin Hn]].
      + apply in_map_iff in Hx as ([k' x'] & <- & Hk'). cbn [fst snd] in Hin.
        assert (k' = k) as -> by (destruct (obj_map lb !! k');
          [destruct (bool_decide _); [done|]|]; destruct Hin as [[= -> _]|[]]; done).
        assert (obj_map la !! k = Some x') as ->
          by (apply obj_map_lookup_nodup; [done|by apply list_elem_of_In]).
        destruct (obj_map lb !! k) as [y|]; cbn; [case_bool_decide; [done|]|];
          by destruct Hin as [[= <-]|[]].
      + apply negb_true_iff, bool_decide_eq_false, eq_None_not_Some in Hn. rewrite Hn. cbn.
        apply obj_map_lookup_nodup; [done|by apply list_elem_of_In].
    - destruct (obj_map la !! k) as [x|] eqn:Ex; cbn.
      + intros Hd. left. apply obj_map_lookup_nodup in Ex; [|done].
        eexists. split; [apply in_map_iff; exists (k, x); split; [done|by apply list_elem_of_In]|].
        cbn [fst snd]. destruct (obj_map lb !! k) as [y|]; [case_bool_decide; [done|]|];
          injection Hd as <-; by left.
      + intros Hy. right. apply obj_map_lookup_nodup in Hy; [|done].
        split; [by apply list_elem_of_In|done]. }
  destruct (diff_member _ _) as [v|] eqn:Ed.
  - unfold obj_map. apply elem_of_list_to_map_1'.
    + intros y Hy. rewrite elem_of_reverse in Hy. apply Hl0 in Hy. congruence.
    + rewrite elem_of_reverse. by apply Hl0.
  - unfold obj_map. apply not_elem_of_list_to_map. rewrite fmap_reverse, elem_of_reverse.
    intros ([k' v] & -> & Hin)%list_elem_of_fmap. by apply Hl0 in Hin.
Qed.

Lemma canonical_eq m l : canonical (JObj l) = true -> m = obj_map l -> JObj (map_obj m) = JObj l.
Proof. cbn. rewrite andb_true_iff, bool_decide_eq_true. intros [Hl _] ->. by rewrite <- Hl. Qed.

(** A merge is an object when its members are. *)
Lemma merge_is t ps lb :
  NoDup ps.*1 -> canonical (JObj lb) = true ->
  (forall k, match obj_map ps !! k with None => member k t | Some p => merge_member (member k t) p end
             = obj_map lb !! k) ->
  rfc7396 t (JObj ps) = JObj lb.
Proof.
  intros Hd Hc H. cbn [rfc7396]. apply canonical_eq; [done|]. apply map_eq. intros k.
  rewrite <- H, <- member_merge by done. cbn [rfc7396 member]. by rewrite obj_map_map_obj.
Qed.

Lemma mergeable_member k a l y :
  NoDup l.*1 -> mergeable a (JObj l) = true -> obj_map l !! k = Some y ->
  member k a = Some y \/ is_null y = false /\ mergeable (default JNull (member k a)) y = true.
Proof.
  intros Hd Hn Hk%obj_map_lookup_nodup%list_elem_of_In; [|done].
  cbn [mergeable] in Hn. rewrite forallb_forall in Hn. specialize (Hn (k, y) Hk). cbn [fst snd] in Hn.
  apply orb_true_iff in Hn as [Hn%bool_decide_eq_true|Hn]; [by left|right].
  by apply andb_true_iff in Hn as [Hn%negb_true_iff ?].
Qed.

(** Merging a document into a value that is not an object gives the document. *)
Lemma merge_fresh b t :
  (forall k, member k t = None) -> canonical b = true -> mergeable t b = true -> rfc7396 t b = b.
Proof.
  revert t. induction b as [|b0|n0|s0|l IH|l IH] using json_ind; intros t Ht Hc Hn; try done.
  pose proof (canonical_nodup _ Hc) as Hd. apply merge_is; [done|done|]. intros k.
  destruct (obj_map l !! k) as [x|] eqn:Ex; [|apply Ht].
  destruct (mergeable_member k t l x Hd Hn Ex) as [E|[Hx Hnx]]; rewrite Ht in *; [done|].
  unfold merge_member. rewrite Hx. cbn. f_equal. rewrite Forall_forall in IH.
  apply (IH (k, x)); [by apply obj_map_lookup_nodup in Ex|done|by eapply (canonical_member k (JObj l))|done].
Qed.

Lemma diff_canonical la lb :
  exists lp, diff (JObj la) (JObj lb) = JObj lp /\ NoDup lp.*1.
Proof. cbn [diff]. eexists. split; [done|]. apply map_obj_nodup. Qed.

Lemma diff_not_null a b : is_null b = false -> is_null (diff a b) = false.
Proof. by destruct a, b. Qed.

Lemma merge_diff a b :
  canonical a = true -> canonical b = true -> mergeable a b = true -> rfc7396 a (diff a b) = b.
Proof.
  revert b. induction a as [|b0|n0|s0|l _|la IH] using json_ind; intros b Ha Hb Hn;
    try (cbn [diff]; by apply merge_fresh).
  destruct b as [| | | | |lb]; try done.
  pose proof (canonical_nodup _ Ha) as Hda. pose proof (canonical_nodup _ Hb) as Hdb.
  destruct (diff_canonical la lb) as (lp & El & Hlp). rewrite El.
  apply merge_is; [done|done|]. intros k.
  pose proof (diff_lookup la lb k Hda Hdb) as Hk. rewrite El in Hk. cbn [member] in Hk. rewrite Hk.
  pose proof (mergeable_member k (JObj la) lb) as Hm. cbn [member] in *.
  destruct (obj_map la !! k) as [x|] eqn:Ex, (obj_map lb !! k) as [y|] eqn:Ey; cbn [diff_member];
    try done.
  - case_bool_decide as Exy; [by subst|].
    destruct (Hm y Hdb Hn eq_refl) as [[= ?]|[Hy Hny]]; [done|].
    unfold merge_member. rewrite diff_not_null by done. cbn. f_equal.
    rewrite Forall_forall in IH. apply (IH (k, x)); [by apply obj_map_lookup_nodup in Ex| |by eapply (canonical_member k (JObj lb))|done].
    by eapply (canonical_member k (JObj la)).
  - destruct (Hm y Hdb Hn eq_refl) as [|[Hy Hny]]; [done|]. unfold merge_member. rewrite Hy. cbn.
    f_equal. apply merge_fresh; [done|by eapply (canonical_member k (JObj lb))|done].
Qed.

(** Prints a document, unless it cannot be read back. *)
Definition print (v : json) : result string :=
  if bool_decide (doc (Marshal v) = Some v) then Ok (Marshal v)
  else Err (errorf "document cannot be encoded").

Lemma print_doc v s : print v = Ok s -> doc s = Some v.
Proof. unfold print. case_bool_decide; [|done]. by intros [= <-]. Qed.

Lemma print_ok v : any_ok v = true -> is_ok (print v) = true.
Proof.
  unfold print, any_ok, doc. rewrite !andb_true_iff, Z.leb_le. intros [[[Hok Hc] _] Hh].
  rewrite parse_print by done. cbn [fmap option_fmap option_map].
  by rewrite canonical_canon, bool_decide_true.
Qed.

Definition both (f : json -> json -> json) (a b : string) : result string :=
  match doc a, doc b with
  | Some da, Some db => print (f da db)
  | _, _ => Err errSyntax
  end.
End Docs.

(** RFC 6902 operations on the members of objects: add, replace and remove. *)
Module Json6902.
Inductive operation :=
| OpAdd (path : list string) (v : json)
| OpReplace (path : list string) (v : json)
| OpRemove (path : list string).

(** [EnsurePathExistsOnAdd]: missing parents are created. *)
Fixpoint put (path : list string) (v : json) (d : json) : result json :=
  match path with
  | [] => Ok v
  | k :: path' =>
      match d with
      | JObj l =>
          let? x := put path' v (default (JObj []) (obj_map l !! k)) in
          Ok (JObj (map_obj (<[k := x]> (obj_map l))))
      | _ => Err (errorf "path does not exist")
      end
  end.

(** [AllowMissingPathOnRemove]: a missing member is no error. *)
Fixpoint del (path : list string) (d : json) : result json :=
  match path, d with
  | [k], JObj l => Ok (JObj (map_obj (delete k (obj_map l))))
  | k :: path', JObj l =>
      match obj_map l !! k with
      | None => Ok d
      | Some x => let? y := del path' x in Ok (JObj (map_obj (<[k := y]> (obj_map l))))
      end
  | _, _ => Err (errorf "path does not exist")
  end.

Definition step (o : operation) (d : json) : result json :=
  match o with
  | OpAdd path v => put path v d
  | OpReplace path v =>
      match at_path path d with
      | Some _ => put path v d
      | None => Err (errorf "replace operation does not apply")
      end
  | OpRemove path => del path d
  end.

Fixpoint steps (p : list operation) (d : json) : result json :=
  match p with
  | [] => Ok d
  | o :: p' => let? d' := step o d in steps p' d'
  end.

Definition decode_op (v : json) : result operation :=
  match member "op" v, member "path" v with
  | Some (JStr op), Some (JStr path) =>
      let path := List.tl (split_on "/" path) in
      match op, member "value" v with
      | "add"%string, Some x => Ok (OpAdd path x)
      | "replace"%string, Some x => Ok (OpReplace path x)
      | "remove"%string, _ => Ok (OpRemove path)
      | _, _ => Err (errorf "unsupported operation")
      end
  | _, _ => Err (errorf "operation missing op or path field")
  end.

Fixpoint decode_ops (l : list json) : result (list operation) :=
  match l with
  | [] => Ok []
  | v :: l' => let? o := decode_op v in let? os := decode_ops l' in Ok (o :: os)
  end.

Definition decode (s : string) : result (list operation) :=
  match doc s with
  | Some (JArr l) => decode_ops l
  | _ => Err errSyntax
  end.

Definition apply (p : list operation) (s : string) : result string :=
  match doc s with
  | Some d => let? d' := steps p d in Docs.print d'
  | None => Err errSyntax
  end.

(** JSON is YAML; besides, the patches of the default targets are known. *)
Definition q (s : string) : string := String dquote s +:+ String dquote "".
Definition one_op (path value : string) : string :=
  "[{" +:+ q "op" +:+ ":" +:+ q "add" +:+ "," +:+ q "path" +:+ ":" +:+ q path +:+ ","
  +:+ q "value" +:+ ":" +:+ value +:+ "}]".

Definition yaml (s : string) : result string :=
  if String.eqb s (p_Patch deploymentPatch) then Ok (one_op "/spec/replicas" "0")
  else if String.eqb s (p_Patch cronjobPatch) then Ok (one_op "/spec/suspend" "true")
  else match doc s with Some _ => Ok s | None => Err (errorf "yaml: cannot convert") end.
End Json6902.

#[export] Instance refPatches : PatchLib := {|
  YAMLToJSON := Json6902.yaml;
  Patch6902 := list Json6902.operation;
  DecodePatch := Json6902.decode;
  ApplyWithOptions p s opts := Json6902.apply p s;
  CreateMergePatch := Docs.both Docs.diff;
  MergePatch := Docs.both rfc7396;
  JsonEqual a b := bool_decide (doc a = doc b)
|}.

#[export] Instance refPatchLaws : PatchLaws.
Proof.
  split; cbn [MergePatch CreateMergePatch JsonEqual refPatches]; unfold Docs.both.
  - intros a p c da dp Ha Hp. rewrite Ha, Hp. apply Docs.print_doc.
  - intros a p la lp Ha Hp. rewrite Ha, Hp. apply Docs.print_ok.
  - intros a b p la lb Ha Hb Hn. rewrite Ha, Hb. intros Hp%Docs.print_doc.
    destruct (Docs.diff_canonical la lb) as (lp & El & _). exists lp. rewrite <- El.
    split; [done|]. apply Docs.merge_diff; [by eapply doc_canonical..|done].
  - intros a b da Ha Hb (l & ->). rewrite Ha, Hb.
    assert (Docs.diff (JObj l) (JObj l) = JObj []) as ->; [|vm_compute; done].
    pose proof (canonical_nodup _ (doc_canonical _ _ Ha)) as Hd.
    cbn [Docs.diff]. f_equal. apply map_obj_nil, map_empty. intros k.
    pose proof (Docs.diff_lookup l l k Hd Hd) as Hk. cbn [Docs.diff member] in Hk.
    rewrite obj_map_map_obj in Hk. rewrite Hk. unfold Docs.diff_member.
    destruct (obj_map l !! k); [by rewrite bool_decide_true|done].
  - intros a b da db Ha Hb. rewrite bool_decide_eq_true, Ha, Hb. split; congruence.
Qed.
