(* ===== verification/Server.v ===== *)
(** * A reference API server

    An in-memory [client.Client]: objects, SleepInfos, executions and secrets by
    namespace and name, and a plan of faults, one entry per call, so that
    failures can be placed anywhere in a run.  It stores secrets as
    [convertSecretStringData] does and lists objects by the selectors.  With it an
    in-memory client that does neither, for the fake client to wrap. *)

From S2P Require Import Prelude GoStrings GoTime GoJson GoFloat GoAny Api Libs Merge Client.
From S2P Require Import RestoreData SleepInfoData Patcher Resource ManagedResources.
From S2P Require Import ManagedResourcesSpec SleepWakeSpec Secrets Store FakeClient Reference.

Record Server := mkServer {
  sv_infos : gmap (string * string) SleepInfo;
  sv_secrets : gmap (string * string) Secret;
  sv_execs : gmap (string * string) SleepInfoExecution;
  sv_objects : list Unstructured;
  sv_faults : list (option string)
}.

Definition errNotFound (what : string) : error := mkError ENotFound (what +:+ " not found").

Module Srv.
(** The next entry of the fault plan decides whether a call fails, and with which
    message. *)
Definition guarded {A} (f : Server -> result A * Server) (s : Server) : result A * Server :=
  match sv_faults s with
  | Some msg :: fs => (Err (errorf msg), mkServer (sv_infos s) (sv_secrets s) (sv_execs s) (sv_objects s) fs)
  | None :: fs => f (mkServer (sv_infos s) (sv_secrets s) (sv_execs s) (sv_objects s) fs)
  | [] => f s
  end.

Definition get {A} (m : Server -> gmap (string * string) A) (what ns name : string)
  : Server -> result A * Server :=
  guarded (fun s => (match m s !! (ns, name) with
                     | Some x => Ok x
                     | None => Err (errNotFound what)
                     end, s)).

Definition set_objects (s : Server) (l : list Unstructured) : Server :=
  mkServer (sv_infos s) (sv_secrets s) (sv_execs s) l (sv_faults s).

Definition known (gk : GroupKind) : option GroupVersionKind :=
  if bool_decide (gk = mkGroupKind "apps" "Deployment") then Some (mkGVK "apps" "v1" "Deployment")
  else if bool_decide (gk = mkGroupKind "apps" "StatefulSet") then Some (mkGVK "apps" "v1" "StatefulSet")
  else if bool_decide (gk = mkGroupKind "batch" "CronJob") then Some (mkGVK "batch" "v1" "CronJob")
  else if bool_decide (gk = mkGroupKind "" "ConfigMap") then Some (mkGVK "" "v1" "ConfigMap")
  else None.

Definition rest_mapping (gk : GroupKind) : Server -> result GroupVersionKind * Server :=
  guarded (fun s => (match known gk with
                     | Some g => Ok g
                     | None => Err (mkError ENoMatch "no matches for kind")
                     end, s)).

Definition labels (u : Unstructured) : gmap string string :=
  match at_path ["metadata"; "labels"]%string (JObj (map_obj (Object u))) with
  | Some (JObj l) => obj_map (omap (fun kv => match snd kv with JStr v => Some (fst kv, v) | _ => None end) l)
  | _ => ∅
  end.

Definition listed (g : GroupVersionKind) (o : ListOptions) (u : Unstructured) : bool :=
  bool_decide (GetGroupVersionKind u = g)
  && String.eqb (GetNamespace u) (lo_Namespace o)
  && match lo_FieldSelector o with
     | Some f => FieldMatches f {["metadata.name"%string := GetName u]}
     | None => true
     end
  && match lo_LabelSelector o with
     | Some f => LabelMatches f (labels u)
     | None => true
     end.

(** At most as many items as the limit, unless it is zero. *)
Definition limited {A} (limit : Z) (l : list A) : list A :=
  if limit =? 0 then l else take (Z.to_nat limit) l.

Definition list_objects (g : GroupVersionKind) (o : ListOptions) (s : Server)
    : (list Unstructured * option error) * Server :=
  match guarded (fun s => (Ok (limited (lo_Limit o) (List.filter (listed g o) (sv_objects s))), s)) s with
  | (Ok l, s') => ((l, None), s')
  | (Err e, s') => (([], Some e), s')
  end.

Definition same_object (u v : Unstructured) : bool :=
  bool_decide (GetGroupVersionKind u = GetGroupVersionKind v)
  && String.eqb (GetNamespace u) (GetNamespace v) && String.eqb (GetName u) (GetName v).

Definition merged (u : Unstructured) (p : json) : Unstructured :=
  mkUnstructured (match rfc7396 (JObj (map_obj (Object u))) p with JObj l => obj_map l | _ => ∅ end).

Definition update (u : Unstructured) (p : json) (l : list Unstructured) : list Unstructured :=
  map (fun v => if same_object u v then merged v p else v) l.

(** An apply creates the object when it is missing. *)
Definition apply (u : Unstructured) (owner : string) (force : bool) : Server -> result unit * Server :=
  guarded (fun s =>
    (Ok tt, set_objects s
       (if existsb (same_object u) (sv_objects s) then update u (JObj (map_obj (Object u))) (sv_objects s)
        else sv_objects s ++ [u]))).

Definition patch (old new : Unstructured) : Server -> result unit * Server :=
  guarded (fun s =>
    if existsb (same_object old) (sv_objects s) then
      (Ok tt, set_objects s (update old
         (Docs.diff (JObj (map_obj (Object old))) (JObj (map_obj (Object new)))) (sv_objects s)))
    else (Err (errNotFound "object"), s)).

Definition with_secret (x : Secret) (s : Server) : Server :=
  mkServer (sv_infos s) (<[secret_key x := convertSecretStringData x]> (sv_secrets s))
    (sv_execs s) (sv_objects s) (sv_faults s).

Definition create_secret (x : Secret) : Server -> result unit * Server :=
  guarded (fun s =>
    match sv_secrets s !! secret_key x with
    | Some _ => (Err (errorf "secret already exists"), s)
    | None => (Ok tt, with_secret x s)
    end).

(** Without a resource version an update is unconditional. *)
Definition update_secret (x : Secret) : Server -> result unit * Server :=
  guarded (fun s =>
    match sv_secrets s !! secret_key x with
    | Some _ => (Ok tt, with_secret x s)
    | None => (Err (errNotFound "secret"), s)
    end).

(** A status update changes the status only. *)
Definition put_info_status (x : SleepInfo) : Server -> result unit * Server :=
  guarded (fun s =>
    let key := (om_Namespace (si_Meta x), om_Name (si_Meta x)) in
    match sv_infos s !! key with
    | None => (Err (errNotFound "sleepinfo"), s)
    | Some old =>
        (Ok tt, mkServer (<[key := mkSleepInfo (si_Meta old) (si_Spec old) (si_Status x)]> (sv_infos s))
           (sv_secrets s) (sv_execs s) (sv_objects s) (sv_faults s))
    end).

Definition put_exec (f : SleepInfoExecution -> SleepInfoExecution) (x : SleepInfoExecution)
  : Server -> result SleepInfoExecution * Server :=
  guarded (fun s =>
    let key := (om_Namespace (se_Meta x), om_Name (se_Meta x)) in
    match sv_execs s !! key with
    | None => (Err (errNotFound "execution"), s)
    | Some old =>
        let y := f old in
        (Ok y, mkServer (sv_infos s) (sv_secrets s) (<[key := y]> (sv_execs s)) (sv_objects s) (sv_faults s))
    end).

Definition exec_update (x : SleepInfoExecution) : Server -> result SleepInfoExecution * Server :=
  put_exec (fun old => mkSleepInfoExecution (se_Meta x) (se_Spec x) (se_Status old)) x.

Definition exec_status (x : SleepInfoExecution) (s : Server) : result unit * Server :=
  let '(r, s') := put_exec (fun old => mkSleepInfoExecution (se_Meta old) (se_Spec old) (se_Status x)) x s in
  (rmap (fun _ => tt) r, s').

Definition owner_ref (i : SleepInfo) : OwnerReference :=
  mkOwnerReference GroupVersion "SleepInfo" (si_Name i) (om_UID (si_Meta i)).

Definition own (i : SleepInfo) (x : SleepInfoExecution) : result SleepInfoExecution :=
  if existsb (fun o => bool_decide (o = owner_ref i)) (om_OwnerReferences (se_Meta x)) then Ok x
  else
    let m := se_Meta x in
    Ok (mkSleepInfoExecution
          (mkObjectMeta (om_Name m) (om_Namespace m) (om_UID m) (om_ResourceVersion m) (om_Labels m)
             (om_OwnerReferences m ++ [owner_ref i]))
          (se_Spec x) (se_Status x)).
End Srv.

#[export] Instance memoryClient : ClientLib := {|
  ApiState := Server;
  api_GetSleepInfo := Srv.get sv_infos "sleepinfo";
  api_GetSecret := Srv.get sv_secrets "secret";
  api_GetExecution := Srv.get sv_execs "execution";
  api_RESTMapping := Srv.rest_mapping;
  api_List := Srv.list_objects;
  api_Apply := Srv.apply;
  api_Patch := Srv.patch;
  api_CreateSecret := Srv.create_secret;
  api_UpdateSecret := Srv.update_secret;
  api_StatusUpdateSleepInfo := Srv.put_info_status;
  api_UpdateExecution := Srv.exec_update;
  api_StatusUpdateExecution := Srv.exec_status;
  SetOwnerReference := Srv.own
|}.

(** ** Its laws *)

(** A call either fails by the plan or runs, with the same contents. *)
Lemma guarded_cases {A} (f : Server -> result A * Server) s :
  exists s', sv_secrets s' = sv_secrets s /\ sv_infos s' = sv_infos s
    /\ ((exists msg, Srv.guarded f s = (Err (errorf msg), s')) \/ Srv.guarded f s = f s').
Proof.
  unfold Srv.guarded. destruct s as [i x e o [|[msg|] fs]]; cbn; eexists; (split; [|split]);
    [..|by right| | |left; by eexists| | |by right]; done.
Qed.

Lemma guarded_secrets {A} (f : Server -> result A * Server) s :
  (forall s, sv_secrets (f s).2 = sv_secrets s) -> sv_secrets (Srv.guarded f s).2 = sv_secrets s.
Proof. intros H. destruct (guarded_cases f s) as (s' & <- & _ & [(msg & ->)| ->]); [done|apply H]. Qed.

#[export] Instance memorySecrets : SecretStore := {|
  secret_at (s : ApiState) ns name := sv_secrets s !! (ns, name)
|}.

Lemma others_keep_secrets c (s : Server) :
  is_secret_write c = false -> sv_secrets (after c s : Server) = sv_secrets s.
Proof.
  intros Hc. destruct c; try done; cbn;
    unfold Srv.get, Srv.rest_mapping, Srv.apply, Srv.patch, Srv.put_info_status, Srv.exec_update, Srv.put_exec;
    try (apply guarded_secrets; intros; repeat case_match; done).
  - unfold Srv.list_objects. pose proof (guarded_secrets
      (fun s => (Ok (Srv.limited (lo_Limit opts) (List.filter (Srv.listed gvk opts) (sv_objects s))), s)) s
      (fun _ => eq_refl)) as H.
    by destruct (Srv.guarded _ s) as [[] s'].
  - unfold Srv.exec_status, Srv.put_exec.
    match goal with |- context [Srv.guarded ?f s] =>
      pose proof (guarded_secrets f s) as H; destruct (Srv.guarded f s) as [r s'] end.
    apply H. intros. repeat case_match; done.
Qed.

(** A write that stores the secret, or fails and leaves the secrets alone. *)
Definition writes_secret (x : Secret) (s : Server) (r : result unit * Server) : Prop :=
  (is_ok r.1 = false /\ sv_secrets r.2 = sv_secrets s)
  \/ sv_secrets r.2 = <[secret_key x := convertSecretStringData x]> (sv_secrets s).

Lemma create_secret_spec x s : writes_secret x s (Srv.create_secret x s).
Proof.
  unfold writes_secret, Srv.create_secret. match goal with |- context [Srv.guarded ?f s] =>
    destruct (guarded_cases f s) as (s' & <- & _ & [(msg & ->)| ->]) end; [by left|].
  destruct (sv_secrets s' !! secret_key x); [by left|by right].
Qed.

Lemma update_secret_spec x s : writes_secret x s (Srv.update_secret x s).
Proof.
  unfold writes_secret, Srv.update_secret. match goal with |- context [Srv.guarded ?f s] =>
    destruct (guarded_cases f s) as (s' & <- & _ & [(msg & ->)| ->]) end; [by left|].
  destruct (sv_secrets s' !! secret_key x); [by right|by left].
Qed.

#[export] Instance memoryStore : StoreLaws.
Proof.
  assert (forall x s r, writes_secret x s r -> r.1 = Ok tt ->
    stored_as x (sv_secrets r.2 !! ((secret_key x).1, (secret_key x).2))) as Hput.
  { intros x s r [[Hf _]| ->] E; [by rewrite E in Hf|].
    rewrite <- surjective_pairing, lookup_insert_eq. by eexists. }
  split; cbn.
  - intros ns name s x. unfold Srv.get. match goal with |- context [Srv.guarded ?f s] =>
      destruct (guarded_cases f s) as (s' & <- & _ & [(msg & ->)| ->]) end; cbn; [done|].
    by destruct (sv_secrets s' !! (ns, name)) as [y|]; intros [= ->].
  - intros ns name s e. unfold Srv.get. match goal with |- context [Srv.guarded ?f s] =>
      destruct (guarded_cases f s) as (s' & <- & _ & [(msg & ->)| ->]) end; cbn; [by intros [= <-]|].
    by destruct (sv_secrets s' !! (ns, name)).
  - intros c s ns name Hc. by rewrite others_keep_secrets.
  - intros x s. apply (Hput x s), create_secret_spec.
  - intros x s. apply (Hput x s), update_secret_spec.
  - intros c x s ns name Hc.
    assert (exists r, writes_secret x s r /\ after c s = r.2) as (r & Hw & ->).
    { destruct Hc as [->| ->]; eexists; (split; [|done]); [apply create_secret_spec|apply update_secret_spec]. }
    destruct Hw as [[_ ->]| ->]; [by left|].
    destruct (decide ((ns, name) = secret_key x)) as [E|Hne]; [right; split; [done|]|left].
    + rewrite E, lookup_insert_eq. by eexists.
    + by rewrite lookup_insert_ne.
Qed.

(** ** An in-memory client that stores what it is given

    As the one of controller-runtime: the string data of secrets stay beside the
    data, and field selectors are refused. *)

Module Raw.
Definition with_secret (x : Secret) (s : Server) : Server :=
  mkServer (sv_infos s) (<[secret_key x := x]> (sv_secrets s)) (sv_execs s) (sv_objects s) (sv_faults s).

Definition written (o : ClientObject) (r : result unit * Server) : (option error * ClientObject) * Server :=
  ((match r.1 with Ok _ => None | Err e => Some e end, o), r.2).

Definition unsupported : error := errorf "unsupported object".

Definition put (present : bool) (x : Secret) : Server -> result unit * Server :=
  Srv.guarded (fun s =>
    match sv_secrets s !! secret_key x with
    | Some _ => if present then (Ok tt, with_secret x s) else (Err (errorf "secret already exists"), s)
    | None => if present then (Err (errNotFound "secret"), s) else (Ok tt, with_secret x s)
    end).

Definition create (o : ClientObject) (s : Server) : (option error * ClientObject) * Server :=
  written o (match o with
             | ObjSecret x => put false x s
             | ObjUnstructured u => (Ok tt, Srv.set_objects s (sv_objects s ++ [u]))
             | ObjExecution _ => (Err unsupported, s)
             end).

Definition update (o : ClientObject) (s : Server) : (option error * ClientObject) * Server :=
  match o with
  | ObjSecret x => written o (put true x s)
  | ObjExecution e =>
      match Srv.exec_update e s with
      | (Ok e', s') => ((None, ObjExecution e'), s')
      | (Err err, s') => ((Some err, o), s')
      end
  | ObjUnstructured _ => ((Some unsupported, o), s)
  end.

Definition patch (o : ClientObject) (p : ClientPatch) (s : Server) : (option error * ClientObject) * Server :=
  match o, p with
  | ObjUnstructured new, MergeFrom (ObjUnstructured old) => written o (Srv.patch old new s)
  | _, _ => ((Some unsupported, o), s)
  end.

Definition list_objects (g : GroupVersionKind) (o : ListOptions) (s : Server)
    : (list Unstructured * option error) * Server :=
  match lo_FieldSelector o with
  | Some _ => (([], Some (errorf "field selectors are not supported")), s)
  | None => Srv.list_objects g o s
  end.

Definition apply (u : Unstructured) (owner : string) (force : bool) (s : Server) : option error * Server :=
  let '(r, s') := Srv.apply u owner force s in (match r with Ok _ => None | Err e => Some e end, s').
End Raw.

#[export] Instance rawClient : CtrlClient := {|
  CtrlState := Server;
  ctrl_GetSleepInfo := Srv.get sv_infos "sleepinfo";
  ctrl_GetSecret := Srv.get sv_secrets "secret";
  ctrl_GetExecution := Srv.get sv_execs "execution";
  ctrl_RESTMapping := Srv.rest_mapping;
  ctrl_List := Raw.list_objects;
  ctrl_Create := Raw.create;
  ctrl_Update := Raw.update;
  ctrl_Patch := Raw.patch;
  ctrl_Apply := Raw.apply;
  ctrl_StatusUpdateSleepInfo := Srv.put_info_status;
  ctrl_StatusUpdateExecution := Srv.exec_status;
  ctrl_SetOwnerReference := Srv.own
|}.

(** Its calls that write no secret are those of the reference server. *)
Lemma raw_others c (s : Server) :
  is_secret_write c = false ->
  sv_secrets (@after _ (reconciler_client rawClient) c s : Server) = sv_secrets s.
Proof.
  intros Hc. pose proof (others_keep_secrets c s Hc) as H. destruct c; try done; cbn in *; try done.
  - unfold Raw.list_objects. by destruct (lo_FieldSelector opts).
  - unfold Raw.apply. by destruct (Srv.apply obj owner force s) as [[] s'].
  - by destruct (Srv.exec_update e s) as [[] s'].
Qed.

Lemma put_spec present x s :
  let r := Raw.put present x s in
  (is_ok r.1 = false /\ sv_secrets r.2 = sv_secrets s) \/ sv_secrets r.2 = <[secret_key x := x]> (sv_secrets s).
Proof.
  cbv zeta. unfold Raw.put. match goal with |- context [Srv.guarded ?f s] =>
    destruct (guarded_cases f s) as (s' & <- & _ & [(msg & ->)| ->]) end; [by left|].
  destruct (sv_secrets s' !! secret_key x), present; cbn; by (left + right).
Qed.

#[export] Instance rawLaws : MemoryLaws rawClient.
Proof.
  refine {| kept := fun (s : @CtrlState _ rawClient) ns name => sv_secrets s !! (ns, name) |}; cbn.
  - apply (get_found (StoreLaws := memoryStore)).
  - apply (get_missing (StoreLaws := memoryStore)).
  - intros c s ns name Hc. by rewrite raw_others.
  - intros create x s ns name _.
    assert (forall r : result unit * Server,
      (is_ok r.1 = false /\ sv_secrets r.2 = sv_secrets s) \/ sv_secrets r.2 = <[secret_key x := x]> (sv_secrets s) ->
      (((Raw.written (ObjSecret x) r).1.1 = None ->
         kept_as x (sv_secrets r.2 !! ((secret_key x).1, (secret_key x).2)))
       /\ (sv_secrets r.2 !! (ns, name) = sv_secrets s !! (ns, name)
           \/ (ns, name) = secret_key x /\ kept_as x (sv_secrets r.2 !! (ns, name))))) as H.
    { intros r [[Hf ->]| ->]; [split; [by destruct r as [[] ?]|by left]|]. split.
      - intros _. rewrite <- surjective_pairing, lookup_insert_eq. by eexists.
      - destruct (decide ((ns, name) = secret_key x)) as [E|Hne]; [right; split; [done|]|left].
        + rewrite E, lookup_insert_eq. by eexists.
        + by rewrite lookup_insert_ne. }
    destruct create; [apply (H (Raw.put false x s))|apply (H (Raw.put true x s))]; apply put_spec.
Defined.

#[export] Instance metaLib : MetaLib := {|
  ExtractList l := Ok l; Accessor u := Ok u; SetList _ l := Ok l
|}.

#[export] Instance metaLaws : MetaLaws.
Proof. by split. Qed.

Lemma memory_limit : respects_limit.
Proof.
  intros g o s Ho. cbn. unfold Srv.list_objects, Srv.limited.
  rewrite (proj2 (Z.eqb_neq _ 0)) by lia. match goal with |- context [Srv.guarded ?f s] =>
    destruct (guarded_cases f s) as (s' & _ & _ & [(msg & ->)| ->]) end; cbn; [lia|].
  rewrite length_take. lia.
Qed.
