(* ===== verification/Scenario.v ===== *)
(** * A scenario

    A namespace with one Deployment of three replicas and a SleepInfo that
    sleeps at 20:00 and wakes up at 08:00, run on the reference libraries; the
    theorems of the other files are applied to it. *)

From S2P Require Import Prelude GoStrings GoTime GoJson GoFloat GoAny Api Libs Merge Client.
From S2P Require Import RestoreData SleepInfoData Legacy Schedule Patcher Webhook Resource.
From S2P Require Import ManagedResources ManagedResourcesSpec SleepWakeSpec RoundTrip Secrets.
From S2P Require Import Reconcile Execution ReconcileSpec ExecutionSpec Store Lifecycle Night Rhythm Losses.
From S2P Require Import Reference Server.

Definition info_spec : SleepInfoSpec :=
  mkSleepInfoSpec "*" "20:00" "08:00" "" [] [] false None (Some false) [].

Definition info : SleepInfo :=
  mkSleepInfo (mkObjectMeta "night" "team" "uid-1" "1" ∅ []) info_spec (mkSleepInfoStatus zeroTime "").

Definition obj (l : list (string * json)) : json := JObj (map_obj (obj_map l)).

(** As API servers before Kubernetes 1.34 return it, the template of the pods has a
    null in its metadata. *)
Definition deployment (replicas : string) : Unstructured :=
  mkUnstructured (obj_map
    [("apiVersion", JStr "apps/v1"); ("kind", JStr "Deployment");
     ("metadata", obj [("name", JStr "web"); ("namespace", JStr "team"); ("resourceVersion", JStr "1")]);
     ("spec", obj [("replicas", JNum replicas); ("paused", JBool false);
        ("template", obj [("metadata", obj [("creationTimestamp", JNull)])])])]%string).

Definition cfg : SleepInfoReconciler := mkSleepInfoReconciler 60 "kube-green".

(** 2024-01-01, at an hour and minute. *)
Definition at_time (h m : Z) : Time := mkTime ((738885 * 86400 + h * 3600 + m * 60) * Second) 0.
Definition next_day (t : Time) : Time := mkTime (instant t + 86400 * Second) (zone t).

Definition server (objs : list Unstructured) (faults : list (option string)) : Server :=
  mkServer {[("team", "night")%string := info]} ∅ ∅ objs faults.

Definition world (s : Server) (now : Time) : World := mkWorld s now ∅ 0 [].

Definition at_clock (w : World) (now : Time) : World :=
  mkWorld (w_api w) now (w_gauge w) (w_tick w) [].

(** Proves a decidable statement by evaluating it. *)
Ltac decided := apply (bool_decide_unpack _); vm_compute; exact I.
Ltac run := vm_compute; reflexivity.

Definition value {A} (d : A) (r : result A) : A := match r with Ok a => a | Err _ => d end.

Lemma ran {A W} (a : A) (x : result A * W) : x.1 = Ok a -> x = (Ok a, x.2).
Proof. destruct x as [r w]. cbn. by intros ->. Defined.

Lemma got {A} (d : A) (x : result A) : is_ok x = true -> x = Ok (value d x).
Proof. by destruct x. Defined.

Definition nothing : Outcome := (noResult, None).

(** ** One night

    The reconciliation at 20:00 and the one at 08:00 of the next day. *)
Definition w20 : World := world (server [deployment "3"] []) (at_time 20 0).
Definition night : result Outcome * World := Reconcile.Reconcile cfg "team" "night" w20.
Definition w8 : World := at_clock night.2 (next_day (at_time 8 0)).
Definition morning : result Outcome * World := Reconcile.Reconcile cfg "team" "night" w8.

Definition replicas_of (w : World) : list (option json) :=
  map (fun u => at_path ["spec"; "replicas"]%string (JObj (map_obj (Object u)))) (sv_objects (w_api w)).

Definition secret_of (w : World) : option Secret :=
  sv_secrets (w_api w) !! ("team", "sleepinfo-night")%string.

Definition saved_of (w : World) : option string :=
  match secret_of w with
  | Some s => default ∅ (sec_Data s) !! originalJSONPatchDataKey
  | None => None
  end.

(** The deployment sleeps at 20:00 and is back at 08:00; both runs ask for the
    next one twelve hours later. *)
Example one_night :
  night.1 = Ok (requeueIn (12 * 3600 * Second), None)
  /\ replicas_of night.2 = [Some (JNum "0")]
  /\ phase_of (secret_of night.2) = Asleep
  /\ morning.1 = Ok (requeueIn (12 * 3600 * Second), None)
  /\ sv_objects (w_api morning.2) = [deployment "3"]
  /\ phase_of (secret_of morning.2) = Awake.
Proof. by vm_compute. Qed.

(** ** The parts of the night *)

Definition client : ResourceClient := mkResourceClient true (Some info) "kube-green".
Definition none : managedResources := mkManagedResources ∅ "".

Definition collected : result managedResources * World := NewResources client "team" None w20.
Definition g0 : managedResources := Eval vm_compute in value none collected.1.
Definition slept_run : result managedResources * World := Sleep g0 collected.2.
Definition g1 : managedResources := Eval vm_compute in value none slept_run.1.

Definition dummy : genericResource := newGenericResource client deploymentPatch (Some ∅).
Definition gr0 : genericResource := Eval vm_compute in default dummy (resMapping g0 !! DeploymentTarget).
Definition gr1 : genericResource := Eval vm_compute in default dummy (resMapping g1 !! DeploymentTarget).

Definition zero_replicas : Patcher := value (mkPatcher []) (New (p_Patch deploymentPatch)).
Definition modified : string := value ""%string (Exec zero_replicas (MarshalMap (Object (deployment "3")))).
Definition restore : string := default ""%string (sleep_effect zero_replicas (deployment "3")).

Lemma g0_ready : ready "kube-green" g0.
Proof. unfold ready. decided. Defined.

Lemma slept_ok : Sleep g0 collected.2 = (Ok g1, slept_run.2).
Proof. apply ran. run. Defined.

Lemma patch_ok : New (p_Patch (gr_patchData gr0)) = Ok zero_replicas.
Proof. unfold zero_replicas. apply got. run. Defined.

Lemma patch_not_empty : p_Patch (gr_patchData gr0) <> ""%string.
Proof. apply String.eqb_neq. run. Defined.

Lemma gr0_data : gr_data gr0 = [deployment "3"].
Proof. run. Defined.

(** At wake up the resource version has moved and a controller has written a
    status. *)
Definition touched : Unstructured :=
  mkUnstructured (<["status"%string := obj [("observed"%string, JNum "1")]]>
    (Object (SetResourceVersion "7" (deployment "0")))).

Lemma sleep_then_wake_restores_witness :
  exists o, w_trace (wake_resource zero_replicas gr1 touched w8).2 = w_trace w8 ++ [CPatch touched o]
    /\ at_path ["spec"; "replicas"]%string (JObj (map_obj (Object o))) = Some (JNum "3").
Proof.
  destruct (sleep_then_wake_restores "kube-green" g0 g1 collected.2 slept_run.2 DeploymentTarget gr0 gr1
    zero_replicas (deployment "3") restore modified (map_obj (Object (deployment "0"))))
    with (gr2 := gr1) (r2 := touched) (w2 := w8) (l2 := map_obj (Object touched)) as [(o & H & Ho)|[_ (e & H)]];
    [apply g0_ready|apply slept_ok|run|run|apply patch_ok|rewrite gr0_data; decided
    |rewrite gr0_data; by left|run|run|run|run|run|run|run|run|run|run| |].
  - exists o. split; [exact H|]. refine (eq_trans (Ho "spec"%string ["replicas"%string] _) _); run.
  - assert (is_ok (wake_resource zero_replicas gr1 touched w8).1 = true) as E by run.
    rewrite H in E. discriminate E.
Defined.

Lemma sleep_saves_restore_patches_witness :
  dom (resMapping g1) = dom (resMapping g0)
  /\ exists gr', resMapping g1 !! DeploymentTarget = Some gr' /\ slept gr0 gr'.
Proof.
  destruct (sleep_saves_restore_patches "kube-green" g0 collected.2 g1 slept_run.2 g0_ready slept_ok)
    as (_ & Hdom & Hall & _).
  split; [exact Hdom|]. apply (Hall DeploymentTarget gr0). run.
Defined.

(** What the next morning collects. *)
Definition saved : SavedPatches :=
  {[target_String DeploymentTarget := Some (gr_restorePatches gr1)]}.
Definition collected8 : result managedResources * World := NewResources client "team" (Some saved) w8.
Definition g8 : managedResources := Eval vm_compute in value none collected8.1.
Definition woken_run : result managedResources * World := WakeUp g8 collected8.2.

Definition woken_g : managedResources := Eval vm_compute in value none woken_run.1.

Lemma wake_up_calls_witness :
  exists order, order ≡ₚ map_to_list (resMapping g8)
    /\ w_trace woken_run.2
       = w_trace collected8.2 ++ concat (map (fun kv => wake_calls (snd kv)) order).
Proof.
  destruct (wake_up_calls "kube-green" g8 collected8.2 woken_g woken_run.2)
    as (_ & _ & _ & order & H1 & H2); [unfold ready; decided|apply ran; run|].
  exists order. split; [exact H1|exact H2].
Defined.

Definition gr8 : genericResource := Eval vm_compute in default dummy (resMapping g8 !! DeploymentTarget).

Lemma g8_mapping :
  map_to_list (resMapping g8) = [(DeploymentTarget, gr8)]
  /\ p_Patch (gr_patchData gr8) = p_Patch (gr_patchData gr0) /\ gr_data gr8 = [deployment "0"].
Proof. split; [run|]. split; run. Defined.

Lemma resleep_noop_witness :
  exists w', Sleep g8 collected8.2 = (Ok g8, w') /\ w_trace w' = w_trace collected8.2
    /\ w_api w' = w_api collected8.2.
Proof.
  apply (resleep_noop "kube-green"); [unfold ready; decided|].
  destruct g8_mapping as (Hm & Hp & Hd). apply map_Forall_to_list. rewrite Hm.
  constructor; [|constructor]. cbn [uncurry]. rewrite Hp, Hd.
  split; [exact patch_not_empty|]. exists zero_replicas. split; [exact patch_ok|]. constructor; [|constructor]. right.
  exists (MarshalMap (Object (deployment "0"))), (map_obj (Object (deployment "0"))).
  split; [run|]. split; run.
Defined.

Lemma g1_some : resMapping g1 <> ∅.
Proof.
  intros E. assert (size (resMapping g1) = 1%nat) as H by run. rewrite E in H. discriminate H.
Defined.

Lemma g1_dot_free : dot_free g1.
Proof.
  change (set_Forall (fun t => count "." (pt_Kind t) = 0%nat) (dom (resMapping g1))). decided.
Defined.

Lemma g1_utf8 : restore_names_utf8 g1.
Proof. unfold restore_names_utf8. decided. Defined.

Lemma restore_data_roundtrip_applied :
  exists data m, (GetOriginalInfoToSave g1 w8).1 = Ok (Some data)
    /\ Jsonpatch.GetOriginalInfoToRestore (Some data) = Ok (Some m)
    /\ patches_for m (target_String DeploymentTarget) = gr_restorePatches gr1.
Proof.
  destruct (restore_data_roundtrip g1 w8 (GetOriginalInfoToSave g1 w8).1 (GetOriginalInfoToSave g1 w8).2)
    as (data & m & H1 & H2 & H3);
    [apply g1_some|apply g1_dot_free|apply g1_utf8|apply surjective_pairing|].
  exists data, m. split; [exact H1|]. split; [exact H2|]. apply H3. run.
Defined.

(** ** The secret, the schedule and the reconciler *)

Definition cron20 : string := "00 20 * * *".
Definition cron8 : string := "00 08 * * *".

Lemma info_schedules : schedules_of info cron20 cron8.
Proof. split; run. Defined.

(** The state read in the evening and in the morning. *)
Definition data20 : SleepInfoData := mkSleepInfoData zeroTime sleepOperation cron20 cron8 None.
Definition data8 : SleepInfoData :=
  mkSleepInfoData (at_time 20 0) wakeUpOperation cron8 cron20 (Some saved).

Definition at20 : Schedule := 71999.
Definition at8 : Schedule := 28799.

Lemma always s : recurring s.
Proof. intros t _. apply Daily.next_nonzero. Defined.

Lemma now_delta : delta_ok 60.
Proof. unfold delta_ok. lia. Defined.

Lemma secret_roundtrip_witness :
  exists sec d,
    w_trace (upsertSecret cfg (at_time 20 0) "sleepinfo-night" "team" info None data20 g1 w20).2
    = w_trace w20 ++ [CCreateSecret sec]
    /\ getSleepInfoData (Some (convertSecretStringData sec)) info = Ok d
    /\ LastSchedule d = at_time 20 0 /\ CurrentOperationType d = wakeUpOperation.
Proof.
  destruct (secret_roundtrip cfg (at_time 20 0) "sleepinfo-night" "team" info None data20 g1 w20
    cron20 cron8 info_schedules eq_refl g1_dot_free g1_utf8)
    as (sec & d & H1 & _ & _ & H2 & H3 & H4 & _).
  exists sec, d. split; [exact H1|]. split; [exact H2|]. split; [rewrite H3; run|].
  rewrite H4. run.
Defined.

Lemma runs_only_when_due_witness :
  exists f, fires at20 f /\ Z.abs (instant (at_time 20 0) - f) < 60 * Second + Millisecond
    /\ (IsZero (LastSchedule data20) = true \/ instant (LastSchedule data20) < f).
Proof.
  apply (runs_only_when_due 60 data20 (at_time 20 0) at20 now_delta eq_refl (always _))
    with (next := next_day (at_time 8 0)) (rq := 12 * 3600 * Second); [by vm_compute..|run].
Defined.

Lemma runs_when_due_applied :
  exists next rq, getNextSchedule 60 data8 (next_day (at_time 8 0)) = Ok (true, next, rq).
Proof.
  apply (runs_when_due 60 data8 (next_day (at_time 8 0)) at8 now_delta eq_refl (always _))
    with (f := instant (next_day (at_time 8 0))); [by vm_compute|by vm_compute|run|run|by vm_compute|].
  right. by vm_compute.
Defined.

(** At noon nothing is due; the next run is at 20:00. *)
Lemma requeue_at_next_firing_witness :
  getNextSchedule 60 data20 (at_time 12 0) = Ok (false, at_time 20 0, 8 * 3600 * Second)
  /\ quiet at20 (instant (at_time 12 0) + 60 * Second) (instant (at_time 20 0)).
Proof.
  assert (getNextSchedule 60 data20 (at_time 12 0)
          = Ok (false, at_time 20 0, 8 * 3600 * Second)) as H by run.
  split; [exact H|].
  apply (requeue_at_next_firing 60 data20 (at_time 12 0) at20 now_delta eq_refl (always _))
    with (b := false) (rq := 8 * 3600 * Second) (nextOp := at8);
    [by vm_compute|by vm_compute|run|apply always|by vm_compute|exact H].
Defined.

Lemma reads20 : reads "team" "night" w20 info None.
Proof. split; run. Defined.

Lemma timely20 : timely 60 (w_now w20) data20 at20 at8.
Proof. split; [apply now_delta|by vm_compute|by vm_compute|run|run|apply always..]. Defined.

(** The calls of the evening: two reads, two for the Deployments, the status,
    one apply and the secret. *)
Definition calls20 : list Call := w_trace night.2.

Lemma night_ran : Reconcile.Reconcile cfg "team" "night" w20
  = (Ok (requeueIn (12 * 3600 * Second), None), night.2).
Proof. apply ran. run. Defined.

Definition write_at (n : nat) (l : list Call) : Call := nth n l (CGetSecret "" "").

Lemma nth_in_calls n l : (n < length l)%nat -> In (write_at n l) l.
Proof. intros H. by apply nth_In. Defined.

Lemma reconcile_writes_only_when_due_witness :
  exists f, fires at20 f
    /\ Z.abs (instant (w_now w20) - f) < SleepDelta cfg * Second + Millisecond
    /\ (IsZero (LastSchedule data20) = true \/ instant (LastSchedule data20) < f).
Proof.
  apply (reconcile_writes_only_when_due cfg "team" "night" w20 info None data20 at20 at8
    reads20 eq_refl timely20) with (new := calls20) (c := write_at 5 calls20) (1 := night_ran);
    [done|apply nth_in_calls, Nat.ltb_lt; run|run].
Defined.

Lemma reconcile_comes_back_witness :
  (requeueIn (12 * 3600 * Second), @None error).2 <> None
  \/ Requeue (requeueIn (12 * 3600 * Second)) = true
  \/ 0 < RequeueAfter (requeueIn (12 * 3600 * Second)).
Proof.
  exact (reconcile_comes_back cfg "team" "night" w20 info None data20 at20 at8
    reads20 eq_refl timely20 _ _ night_ran).
Defined.

Lemma reconcile_refines_phases_witness :
  exists s secret sec sleep wake op,
    reads "team" "night" w20 s secret /\ schedules_of s sleep wake
    /\ (write_at 6 calls20 = CCreateSecret sec \/ write_at 6 calls20 = CUpdateSecret sec)
    /\ op_step (negb (String.eqb wake "")) (phase_of secret) op
         (phase_of (Some (convertSecretStringData sec)))
    /\ In (CStatusSleepInfo (written s (w_now w20) op)) calls20.
Proof.
  apply (reconcile_refines_phases cfg "team" "night" w20 _ night.2 calls20 (write_at 6 calls20)
    night_ran); [done|apply nth_in_calls, Nat.ltb_lt; run|run].
Defined.

Definition empty_world : World := world (mkServer ∅ ∅ ∅ [] []) (at_time 20 0).

Lemma deleted_sleepinfo :
  exists w', Reconcile.Reconcile cfg "team" "night" empty_world = (Ok (noResult, None), w')
    /\ w_trace w' = w_trace empty_world ++ [CGetSleepInfo "team" "night"]
    /\ w_gauge w' = delete ("night"%string, "team"%string) (w_gauge empty_world).
Proof.
  apply (reconcile_not_found cfg "team" "night" empty_world (errNotFound "sleepinfo")); run.
Defined.

(** ** Executions *)

Definition execution (op phase : string) : SleepInfoExecution :=
  mkSleepInfoExecution (mkObjectMeta "now" "team" "uid-2" "1" ∅ [])
    (mkSleepInfoExecutionSpec "night" op) (mkSleepInfoExecutionStatus phase None None "").

Definition exec_server (e : SleepInfoExecution) : Server :=
  mkServer {[("team", "night")%string := info]} ∅ {[("team", "now")%string := e]} [deployment "3"] [].

(** A sleep asked for at noon. *)
Definition asked : SleepInfoExecution := execution "SLEEP" "".
Definition w12 : World := world (exec_server asked) (at_time 12 0).
Definition noon : result Outcome * World := Execution.Reconcile cfg "team" "now" w12.
Definition calls12 : list Call := w_trace noon.2.

Example sleep_now :
  noon.1 = Ok nothing
  /\ replicas_of noon.2 = [Some (JNum "0")]
  /\ phase_of (secret_of noon.2) = Asleep
  /\ (Phase ∘ se_Status <$> sv_execs (w_api noon.2) !! ("team", "now")%string) = Some "Succeeded"%string.
Proof. by vm_compute. Qed.

Lemma noon_ran : Execution.Reconcile cfg "team" "now" w12 = (Ok nothing, noon.2).
Proof. apply ran. run. Defined.

Definition processed : SleepInfoExecution := execution "SLEEP" "Succeeded".

Lemma execution_processed_once_applied :
  exists w', Execution.Reconcile cfg "team" "now" (world (exec_server processed) (at_time 12 0))
      = (Ok (noResult, None), w')
    /\ w_trace w' = [] ++ [CGetExecution "team" "now"].
Proof.
  apply (execution_processed_once cfg "team" "now" (world (exec_server processed) (at_time 12 0)) processed);
    run.
Defined.

Lemma execution_terminates_witness :
  exists out w' pre post,
    Execution.Reconcile cfg "team" "now" w12 = (Ok out, w')
    /\ w_trace w' = w_trace w12 ++ pre ++ post
    /\ Forall (fun c => is_status_execution c = false) pre
    /\ ((post = [] /\ out.2 <> None)
        \/ exists e', post = [CStatusExecution e'] /\ IsProcessed e' = true
              /\ CompletionTime (se_Status e') = Some (w_now w12)
              /\ StartTime (se_Status e') <> None).
Proof. apply (execution_terminates cfg "team" "now" w12 asked); run. Defined.

Lemma execution_guarded_witness :
  exists execution s secret sleep wake next,
    fetched "team" "now" w12 asked execution s secret /\ schedules_of s sleep wake
    /\ op_step (negb (String.eqb wake "")) (phase_of secret) (Operation (se_Spec execution)) next
    /\ phase_of secret <> next
    /\ forall sec, write_at 7 calls12 = CCreateSecret sec \/ write_at 7 calls12 = CUpdateSecret sec ->
         phase_of (Some (convertSecretStringData sec)) = next.
Proof.
  apply (execution_guarded cfg "team" "now" w12 asked nothing noon.2 calls12 (write_at 7 calls12));
    [run|run|apply noon_ran|done|apply nth_in_calls, Nat.ltb_lt; run|right; run].
Defined.

(** ** Admission, schedules and filters *)

Lemma admitted_schedules_parse_witness :
  is_ok (getNextSchedule 60 data20 (at_time 12 0)) = true.
Proof.
  apply (admitted_schedules_parse info w20 [] (ValidateCreate (ObjSleepInfo info) w20).2 None);
    [apply ran; run|run].
Defined.

Lemma selected_operation :
  exists sleep wake, schedules_of info sleep wake
    /\ CurrentOperationType data20 = sleepOperation /\ CurrentOperationSchedule data20 = sleep.
Proof.
  destruct (operation_selection None info data20 eq_refl) as (sleep & wake & H & H1 & H2 & _).
  exists sleep, wake. split; [exact H|]. split; [exact H1|exact H2].
Defined.

Lemma override_spec_applied :
  applyExecutionOverride data8 "SLEEP" info
  = Ok (mkSleepInfoData (at_time 20 0) "SLEEP" cron20 cron8 (Some saved))
  /\ LastSchedule (mkSleepInfoData (at_time 20 0) "SLEEP" cron20 cron8 (Some saved))
     = LastSchedule data8.
Proof.
  pose proof (override_spec data8 "SLEEP" info cron20 cron8 info_schedules) as H.
  assert (applyExecutionOverride data8 "SLEEP" info
    = Ok (mkSleepInfoData (at_time 20 0) "SLEEP" cron20 cron8 (Some saved))) as E by reflexivity.
  rewrite E in H. split; [exact E|]. apply H.
Defined.

Lemma sleep_schedule_fields_witness :
  exists h m sched, split_on ":" "20:00" = [h; m] /\ GetSleepSchedule info = Ok sched
    /\ split_on " " sched = [] ++ [m; h; "*"%string; "*"%string; "*"%string].
Proof. apply (sleep_schedule_fields info); run. Defined.



Definition ConfigMapTarget : PatchTarget := mkPatchTarget "" "ConfigMap".

Lemma core_group_names_ignored_witness :
  getFieldToExclude [mkFilterRef "v1" "ConfigMap" "settings" ∅] ConfigMapTarget = []
  /\ getFieldToInclude [mkFilterRef "v1" "ConfigMap" "settings" ∅] ConfigMapTarget = ([], ∅).
Proof.
  apply (core_group_names_ignored ConfigMapTarget); [done|]. constructor; [done|constructor].
Defined.

Lemma NewResources_sound_witness :
  exists g w' new,
    NewResources client "team" None w20 = (Ok g, w')
    /\ namespace g = "team"%string
    /\ map_Forall (entry_ok client ∅ (GetPatches info)) (resMapping g)
    /\ (HasResource g = true <-> resMapping g <> ∅)
    /\ w_trace w' = w_trace w20 ++ new /\ Forall (fun c => is_write c = false) new.
Proof. exact (NewResources_sound client info "team" None w20 eq_refl). Defined.

(** The forward patch of the night. *)
Lemma targets_limited_witness :
  exists g w', NewResources client "team" None w20 = (Ok g, w')
    /\ map_Forall (fun _ gr => (length (gr_data gr) <= 500)%nat) (resMapping g).
Proof. exact (targets_limited client info "team" None w20 memory_limit eq_refl). Defined.

Definition forward : string := MarshalMap {["spec"%string := obj [("replicas"%string, JNum "0")]]}.

Lemma sparse_object_spec_witness :
  exists sparse w', buildSparseApplyObject (deployment "3") forward w20 = (Ok sparse, w')
    /\ GetName (applied sparse) = "web"%string
    /\ meta_map (applied sparse) = {["name"%string := JStr "web"; "namespace"%string := JStr "team"]}
    /\ Object (applied sparse) !! "spec"%string = Some (obj [("replicas"%string, JNum "0")]).
Proof.
  destruct (sparse_object_spec (deployment "3") forward
    {["spec"%string := obj [("replicas"%string, JNum "0")]]} w20)
    as (sparse & w' & H1 & _ & H2 & _ & H3 & H4);
    [run|run|unfold gvk_ok; decided|].
  exists sparse, w'. split; [exact H1|]. split; [rewrite H2; run|]. split; [rewrite H3; run|].
  rewrite H4 by done. run.
Defined.

(** ** Older secrets *)

Definition old_replicas : list Deployments.OriginalReplicas :=
  [Deployments.mkOriginalReplicas "web" 3; Deployments.mkOriginalReplicas "api" 2].
Definition old_status : list Cronjobs.OriginalCronJobStatus :=
  [Cronjobs.mkOriginalCronJobStatus "backup" false].
Definition old_data : gmap string string :=
  {[replicasBeforeSleepKey := Marshal (JArr (map encode_replicas old_replicas));
    originalCronjobStatusKey := Marshal (JArr (map encode_status old_status))]}.

Lemma legacy_data_converted_witness :
  exists m md, convertOldSecretDataToNewFormat None old_data = Ok m
    /\ m !! target_String DeploymentTarget = Some (Some md)
    /\ exists p, md !! "web"%string = Some p /\ doc p = Some (spec_patch "replicas" (JNum "3")).
Proof.
  destruct (legacy_data_converted None old_data old_replicas old_status)
    as (m & md & mc & H1 & H2 & _ & _ & H3 & _);
    [unfold name_ok, int32; decided|unfold name_ok; decided|decided|decided|run|run|].
  exists m, md. split; [exact H1|]. split; [exact H2|].
  apply (H3 (Deployments.mkOriginalReplicas "web" 3)). by left.
Defined.

(** ** The night as a whole *)

Lemma is_due r data now :
  (match getNextSchedule (SleepDelta r) data now with Ok (b, _, _) => b | Err _ => false end) = true ->
  due r data now.
Proof.
  unfold due. destruct (getNextSchedule _ _ _) as [[[b next] rq]|e]; [|discriminate].
  intros ->. by exists next, rq.
Defined.

Lemma collects_run r ns name w s data g :
  (NewResources (mkResourceClient true (Some s) (ManagerName r)) ns
    (OriginalGenericResourceInfo data) (read_world ns name w)).1 = Ok g -> collects r ns name w s data g.
Proof. intros H. eexists. by apply ran. Defined.

Lemma g0_restorable : restorable g0.
Proof.
  split; [change (set_Forall (fun t => count "." (pt_Kind t) = 0%nat) (dom (resMapping g0))); decided|].
  assert (map_to_list (resMapping g0) = [(DeploymentTarget, gr0)]) as Hm by run.
  apply map_Forall_to_list. rewrite Hm. constructor; [|constructor]. cbn [uncurry].
  split; [run|]. intros p Hp. assert (p = zero_replicas) as -> by (rewrite patch_ok in Hp; congruence).
  decided.
Defined.

Lemma waits ns name w now : rtc (idle ns name) w (at_clock w now).
Proof. by apply rtc_once, idle_environment. Defined.

(** The SleepInfo and the resources of the morning. *)
Definition info8 : SleepInfo :=
  mkSleepInfo (si_Meta info) (si_Spec info) (mkSleepInfoStatus (at_time 20 0) "SLEEP").
Definition g8' : managedResources := Eval vm_compute in value none (NewResources
  (mkResourceClient true (Some info8) "kube-green") "team" (Some saved) (read_world "team" "night" w8)).1.
Definition gr8' : genericResource := Eval vm_compute in default dummy (resMapping g8' !! DeploymentTarget).

(** Another morning, on which the Deployment has been touched. *)
Definition with_objects (w : World) (objs : list Unstructured) (now : Time) : World :=
  let s := w_api w in
  mkWorld (mkServer (sv_infos s) (sv_secrets s) (sv_execs s) objs (sv_faults s)) now (w_gauge w) (w_tick w) [].
Definition w8_touched : World := with_objects night.2 [touched] (next_day (at_time 8 0)).
Definition touched_morning : result Outcome * World := Reconcile.Reconcile cfg "team" "night" w8_touched.
Definition g8_touched : managedResources := Eval vm_compute in value none (NewResources
  (mkResourceClient true (Some info8) "kube-green") "team" (Some saved) (read_world "team" "night" w8_touched)).1.
Definition gr8_touched : genericResource := Eval vm_compute in default dummy (resMapping g8_touched !! DeploymentTarget).

Lemma touched_waits ns name w objs now : rtc (idle ns name) w (with_objects w objs now).
Proof. by apply rtc_once, idle_environment. Defined.

Lemma night_restores_workload_witness :
  exists new o', w_trace touched_morning.2 = w_trace w8_touched ++ new /\ In (CPatch touched o') new
    /\ at_path ["spec"; "replicas"]%string (JObj (map_obj (Object o'))) = Some (JNum "3").
Proof.
  destruct (night_restores_workload cfg "team" "night" w20 night.2 info None data20
    (requeueIn (12 * 3600 * Second), None) g0 DeploymentTarget gr0 zero_replicas (deployment "3")
    restore modified (map_obj (Object (deployment "0")))) with
    (w2 := w8_touched) (s2 := info8) (sleep := cron20) (wake := cron8) (data2 := data8) (g2 := g8_touched)
    (gr2 := gr8_touched) (o2 := touched) (l2 := map_obj (Object touched))
    (out2 := (requeueIn (12 * 3600 * Second), @None error)) (w3 := touched_morning.2)
    as [H|(new & o' & H1 & H2 & H3)];
    [apply reads20|run|run|apply is_due; run|run|apply night_ran|by split|apply collects_run; run
    |apply g0_restorable|run|apply patch_ok|rewrite gr0_data; decided|rewrite gr0_data; by left
    |run|run|run|run|run|apply touched_waits|run|split; run|done|run|apply is_due; run|apply collects_run; run
    |run|exact patch_ok|by left|run|run|run|apply ran; run|by destruct H|].
  exists new, o'. split; [exact H1|]. split; [exact H2|].
  refine (eq_trans (H3 "spec"%string ["replicas"%string] _) _); run.
Defined.




(** ** The next run *)

Lemma next_run_is_due_witness :
  due cfg data8 (w_now w8)
  /\ exists sched, ParseStandard (CurrentOperationSchedule data8) = Ok sched
       /\ fires sched (instant (w_now w8)).
Proof.
  destruct (next_run_is_due cfg "team" "night" w20 night.2 info None data20
    (requeueIn (12 * 3600 * Second), None) at20 at8 cron20 cron8) with
    (w2 := w8) (s2 := info8) (data2 := data8) as (H1 & sched & H2 & H3 & _);
    [apply reads20|run|apply timely20|run|apply Z.leb_le; run|apply info_schedules|apply night_ran
    |by split|apply Z.ltb_lt; run|apply waits|split; run|run
    |split; [apply Z.leb_le|apply Z.ltb_lt]; run|].
  split; [exact H1|]. exists sched. split; [exact H2|exact H3].
Defined.

(** A SleepInfo without a wake up, in a namespace without resources. *)
Definition info_forever : SleepInfo :=
  mkSleepInfo (si_Meta info)
    (mkSleepInfoSpec "*" "20:00" "" "" [] [] false None (Some false) []) (si_Status info).
Definition empty_server (objs : list Unstructured) : Server :=
  mkServer {[("team", "night")%string := info_forever]} ∅ ∅ objs [].
Definition w20_empty : World := world (empty_server []) (at_time 20 0).
Definition empty_night : result Outcome * World := Reconcile.Reconcile cfg "team" "night" w20_empty.
Definition data_forever : SleepInfoData := mkSleepInfoData zeroTime sleepOperation cron20 cron20 None.

Lemma empty_night_ran :
  Reconcile.Reconcile cfg "team" "night" w20_empty = (Ok (requeueIn (48 * 3600 * Second), None), empty_night.2).
Proof. apply ran. run. Defined.

Lemma empty_sleep_skips_firing_witness :
  exists f, fires at20 f /\ window_end cfg w20_empty < f < instant (w_now w20_empty) + 48 * 3600 * Second.
Proof.
  apply (empty_sleep_skips_firing cfg "team" "night" w20_empty empty_night.2 info_forever None data_forever
    (requeueIn (48 * 3600 * Second), None) at20 at20 cron20 ""%string);
    [split; run|run
    |split; [apply now_delta|by vm_compute|by vm_compute|run|run|apply always..]
    |apply Z.leb_le; run|split; run|apply empty_night_ran|by split|apply Z.ltb_lt; run|done|].
  split; [run|]. split; [apply is_due; run|]. exists (mkManagedResources ∅ "team"). split; [apply collects_run; run|run].
Defined.

(** ** Failures

    Runs in which the API server fails once. *)

Definition reconcile_at (w : World) (now : Time) : result Outcome * World :=
  Reconcile.Reconcile cfg "team" "night" (at_clock w now).

Definition with_faults (w : World) (faults : list (option string)) : World :=
  let s := w_api w in
  mkWorld (mkServer (sv_infos s) (sv_secrets s) (sv_execs s) (sv_objects s) faults)
    (w_now w) (w_gauge w) (w_tick w) (w_trace w).

Definition down : string := "the server is currently unable to handle the request".
Definition nth_fails (n : nat) : list (option string) := repeat None (n - 1) ++ [Some down].

(** The secret cannot be written after the sleep, the seventh call: the run is
    retried at once, and the retry finds nothing left to change, so it saves no
    restore patch; the morning cannot restore the replicas. *)
Example lost_after_failed_secret_write :
  let first := Reconcile.Reconcile cfg "team" "night" (with_faults w20 (nth_fails 7)) in
  let retry := reconcile_at first.2 (at_time 20 0) in
  let wake := reconcile_at retry.2 (next_day (at_time 8 0)) in
  first.1 = Ok (requeueNow, None) /\ replicas_of first.2 = [Some (JNum "0")]
  /\ retry.1 = Ok (requeueIn (12 * 3600 * Second), None)
  /\ wake.1 = Ok (requeueIn (12 * 3600 * Second), None)
  /\ replicas_of wake.2 = [Some (JNum "0")]
  /\ phase_of (secret_of wake.2) = Awake.
Proof. by vm_compute. Qed.

(** The Deployments cannot be listed at wake up, the fourth call: the run succeeds,
    the secret is written without the restore patches, the namespace counts as awake
    and the replicas stay at zero. *)
Example lost_after_failed_list :
  let wake := Reconcile.Reconcile cfg "team" "night" (with_faults w8 (nth_fails 4)) in
  wake.1 = Ok (requeueIn (12 * 3600 * Second), None)
  /\ replicas_of wake.2 = [Some (JNum "0")]
  /\ phase_of (secret_of wake.2) = Awake
  /\ saved_of w8 <> None /\ saved_of wake.2 = None.
Proof. by vm_compute. Qed.

(** The Deployment cannot be put to sleep, the sixth call: the run fails, but the
    status already names the operation and its time. *)
Example status_before_operation :
  let first := Reconcile.Reconcile cfg "team" "night" (with_faults w20 (nth_fails 6)) in
  (exists e, first.1 = Ok (requeueNow, Some e))
  /\ replicas_of first.2 = [Some (JNum "3")] /\ secret_of first.2 = None
  /\ (si_Status <$> sv_infos (w_api first.2) !! ("team", "night")%string)
     = Some (mkSleepInfoStatus (at_time 20 0) "SLEEP").
Proof. vm_compute. repeat split. by eexists. Qed.

Definition failed_night : result Outcome * World :=
  Reconcile.Reconcile cfg "team" "night" (with_faults w20 (nth_fails 6)).
Definition failed_out : Outcome := Eval vm_compute in value nothing failed_night.1.

Lemma failed_run_has_status_witness :
  failed_out.2 <> None
  /\ exists rd ops, w_trace failed_night.2
       = w_trace (with_faults w20 (nth_fails 6)) ++ rd
         ++ [CStatusSleepInfo (mkSleepInfo (si_Meta info) (si_Spec info) (mkSleepInfoStatus (at_time 20 0) "SLEEP"))]
         ++ ops.
Proof.
  assert (failed_out.2 <> None) as Hout by done. split; [exact Hout|].
  destruct (failed_run_has_status cfg "team" "night" (with_faults w20 (nth_fails 6)) info None data20 g0
    failed_out failed_night.2) as (rd & ops & H & _);
    [split; run|run|apply is_due; run|apply collects_run; run|run|apply ran; run|exact Hout|].
  exists rd, ops. exact H.
Defined.

(** The three runs of [lost_after_failed_secret_write]. *)
Definition w20_unsaved : World := with_faults w20 (nth_fails 7).
Definition unsaved : result Outcome * World := Reconcile.Reconcile cfg "team" "night" w20_unsaved.
Definition w20_retry : World := at_clock unsaved.2 (at_time 20 0).
Definition retried : result Outcome * World := Reconcile.Reconcile cfg "team" "night" w20_retry.
Definition w8_lost : World := at_clock retried.2 (next_day (at_time 8 0)).
Definition lost_morning : result Outcome * World := Reconcile.Reconcile cfg "team" "night" w8_lost.

Definition g_retry : managedResources := Eval vm_compute in value none (NewResources
  (mkResourceClient true (Some info8) "kube-green") "team" None (read_world "team" "night" w20_retry)).1.
Definition gr_retry : genericResource := Eval vm_compute in default dummy (resMapping g_retry !! DeploymentTarget).
Definition data_lost : SleepInfoData :=
  mkSleepInfoData (at_time 20 0) wakeUpOperation cron8 cron20 (Some ∅).
Definition g_lost : managedResources := Eval vm_compute in value none (NewResources
  (mkResourceClient true (Some info8) "kube-green") "team" (Some ∅) (read_world "team" "night" w8_lost)).1.

Lemma g_retry_restorable : restorable g_retry.
Proof.
  split; [change (set_Forall (fun t => count "." (pt_Kind t) = 0%nat) (dom (resMapping g_retry))); decided|].
  assert (map_to_list (resMapping g_retry) = [(DeploymentTarget, gr_retry)]) as Hm by run.
  apply map_Forall_to_list. rewrite Hm. constructor; [|constructor]. cbn [uncurry].
  split; [run|]. intros p Hp. assert (New (p_Patch (gr_patchData gr_retry)) = Ok zero_replicas) as E
    by exact patch_ok.
  assert (p = zero_replicas) as -> by (rewrite E in Hp; congruence). decided.
Defined.

Lemma unsaved_sleep_forgotten_witness :
  exists new, w_trace lost_morning.2 = w_trace w8_lost ++ new
    /\ forall c, In c new -> is_resource_write c = true ->
         exists u v t' gr', c = CPatch u v /\ resMapping g_lost !! t' = Some gr' /\ u ∈ gr_data gr'
           /\ (t' = DeploymentTarget -> GetName u <> "web"%string).
Proof.
  apply (unsaved_sleep_forgotten cfg "team" "night" DeploymentTarget "web" w20_unsaved unsaved.2 info None data20
    cron20 cron8) with (w2 := w20_retry) (w3 := retried.2) (s := info8) (secret := None)
    (out := (requeueIn (12 * 3600 * Second), @None error)) (g := g_retry) (gr := gr_retry) (p := zero_replicas)
    (s2 := info8) (sleep2 := cron20) (wake2 := cron8) (data2 := data_lost)
    (out2 := (requeueIn (12 * 3600 * Second), @None error));
    [split; run|split; run|run|run|run|apply ran; run|run|apply waits|split; run|split; run|apply is_due; run
    |run|apply collects_run; run|apply g_retry_restorable|run|exact patch_ok|unfold settled; decided
    |apply ran; run|by split|apply waits|run|split; run|done|run|apply collects_run; run|apply ran; run].
Defined.
