(* ===== verification/ScenarioProcess.v ===== *)
(** * A scenario for the process

    A SleepInfo in memory, the manager with certificates for its two servers,
    and the fake client over an in-memory client: the theorems on deep copies, on
    [main] and on the fake client are applied to them, and a night runs with the
    fake client, also one whose list of Deployments fails. *)

From S2P Require Import Prelude GoStrings GoTime GoJson GoFloat GoAny Api Libs Merge GoHeap GoFlag CommandLine Client.
From S2P Require Import RestoreData SleepInfoData Patcher Resource ManagedResources.
From S2P Require Import ManagedResourcesSpec SleepWakeSpec Secrets Reconcile ReconcileSpec Store Lifecycle Night Losses FakeClient Mocks Scheme DeepCopy Manager TestUtil.
From S2P Require Import Reference Server Scenario.

(** ** Memory *)

(** Deep copies of the metadata, written as the generated ones are. *)
Definition copy_Owner (o : OwnerS) : Mem cell OwnerS :=
  Controller <~ copy_option (copy_ptr (fun b : bool => gret b)) (o_Controller o);;
  BlockOwnerDeletion <~ copy_option (copy_ptr (fun b : bool => gret b)) (o_BlockOwnerDeletion o);;
  gret (mkOwnerR (o_APIVersion o) (o_Kind o) (o_Name o) (o_UID o) Controller BlockOwnerDeletion).

Definition copy_Fields (f : FieldsS) : Mem cell FieldsS :=
  Raw <~ copy_option (copy_slice (fun b : ascii => gret b)) (fv_Raw f);;
  gret (mkFieldsR Raw).

Definition copy_Managed (m : ManagedS) : Mem cell ManagedS :=
  Time <~ copy_option (copy_ptr (fun t : Time => gret t)) (mf_Time m);;
  FieldsV1 <~ copy_option (copy_ptr copy_Fields) (mf_FieldsV1 m);;
  gret (mkManagedR (mf_Manager m) (mf_Operation m) (mf_APIVersion m) Time (mf_FieldsType m) FieldsV1
    (mf_Subresource m)).

#[export] Instance metaCopy : MetaCopy := {|
  ObjectMeta_DeepCopyInto m :=
    DeletionTimestamp <~ copy_option (copy_ptr (fun t : Time => gret t)) (m_DeletionTimestamp m);;
    DeletionGracePeriodSeconds <~ copy_option (copy_ptr (fun z : Z => gret z)) (m_DeletionGracePeriodSeconds m);;
    Labels <~ copy_option copy_map (m_Labels m);;
    Annotations <~ copy_option copy_map (m_Annotations m);;
    OwnerReferences <~ copy_option (copy_slice copy_Owner) (m_OwnerReferences m);;
    Finalizers <~ copy_option (copy_slice (fun s : string => gret s)) (m_Finalizers m);;
    ManagedFields <~ copy_option (copy_slice copy_Managed) (m_ManagedFields m);;
    gret (mkMetaR (m_Name m) (m_GenerateName m) (m_Namespace m) (m_SelfLink m) (m_UID m) (m_ResourceVersion m)
      (m_Generation m) (m_CreationTimestamp m) DeletionTimestamp DeletionGracePeriodSeconds Labels Annotations
      OwnerReferences Finalizers ManagedFields);
  ListMeta_DeepCopyInto m :=
    RemainingItemCount <~ copy_option (copy_ptr (fun z : Z => gret z)) (lm_RemainingItemCount m);;
    gret (mkListMetaR (lm_SelfLink m) (lm_ResourceVersion m) (lm_Continue m) RemainingItemCount);
  Time_DeepCopyInto t := gret t;
  Time_DeepCopy := copy_ptr (fun t : Time => gret t)
|}.

Lemma Owner_copied : copies view_Owner copy_Owner.
Proof.
  copies_record copy_Owner (fun (o : OwnerS) '((c, b) : option ptr * option ptr) =>
    mkOwnerR (o_APIVersion o) (o_Kind o) (o_Name o) (o_UID o) c b).
Qed.

Lemma Fields_copied : copies view_Fields copy_Fields.
Proof. copies_record copy_Fields (fun (_ : FieldsS) (r : option slice) => mkFieldsR r). Qed.
#[local] Hint Resolve Owner_copied Fields_copied : copy.

Lemma Managed_copied : copies view_Managed copy_Managed.
Proof.
  copies_record copy_Managed (fun (m : ManagedS) '((t, f) : option ptr * option ptr) =>
    mkManagedR (mf_Manager m) (mf_Operation m) (mf_APIVersion m) t (mf_FieldsType m) f (mf_Subresource m)).
Qed.
#[local] Hint Resolve Managed_copied : copy.

#[export] Instance metaCopyLaws : MetaCopyLaws.
Proof.
  split.
  - eapply (copies_with _ _ (fun (s : MetaS) '((d, (p, (l, (a, (o, (f, e)))))) :
        option ptr * (option ptr * (option loc * (option loc * (option slice * (option slice * option slice)))))) =>
      mkMetaR (m_Name s) (m_GenerateName s) (m_Namespace s) (m_SelfLink s) (m_UID s) (m_ResourceVersion s)
        (m_Generation s) (m_CreationTimestamp s) d p l a o f e));
      [| | |eauto 30 with copy]; [intros; cbn [ObjectMeta_DeepCopyInto metaCopy]; sequences
      |by intros; destruct_and_pairs..].
  - eapply (copies_with _ _ (fun (s : ListMetaS) (i : option ptr) =>
      mkListMetaR (lm_SelfLink s) (lm_ResourceVersion s) (lm_Continue s) i));
      [| | |eauto 20 with copy]; [intros; cbn [ListMeta_DeepCopyInto metaCopy]; sequences|done..].
  - apply copies_plain.
  - apply copies_ptr; [apply _|apply copies_plain].
Qed.

(** A SleepInfo at location 1 with labels, an owner that is its controller, a
    finalizer and managed fields, two filters in an array of three, one of them with
    match labels, a pointer to true, and no patches. *)
Definition heap0 : Heap cell :=
  {[ 1%positive := CInfos [mkInfoR (mkTypeMeta "SleepInfo" GroupVersion)
       (mkMetaR "night" "" "team" "" "uid-1" "1" 1 (at_time 12 0) None None (Some 2%positive) None
          (Some (mkSlice 6 0 1 1)) (Some (mkSlice 7 0 1 1)) (Some (mkSlice 8 0 1 1)))
       (mkSpecR "*" "20:00" "08:00" "" (Some (mkSlice 3 1 2 2)) None false (Some (mkPtr 5 0)) None None)
       zeroStatus];
     2%positive := CMaps [{["app"%string := "web"%string]}];
     3%positive := CFilterRefs [mkFilterRefR "" "" "" None; mkFilterRefR "apps/v1" "Deployment" "api" None;
       mkFilterRefR "apps/v1" "Deployment" "" (Some 4%positive)];
     4%positive := CMaps [{["tier"%string := "db"%string]}];
     5%positive := CBools [true];
     6%positive := COwners [mkOwnerR "apps/v1" "Deployment" "owner" "uid-0" (Some (mkPtr 5 0)) None];
     7%positive := CStrings ["kube-green.com/finalizer"%string];
     8%positive := CManaged [mkManagedR "kubectl" "Apply" GroupVersion (Some (mkPtr 9 0)) "FieldsV1"
       (Some (mkPtr 10 0)) ""];
     9%positive := CTimes [at_time 12 0];
     10%positive := CFields [mkFieldsR (Some (mkSlice 11 0 2 2))];
     11%positive := CBytes ["{"; "}"]%char ]}.

Definition cur : ptr := mkPtr 1 0.

Definition info_value : InfoV :=
  mkInfoR (mkTypeMeta "SleepInfo" GroupVersion)
    (mkMetaR "night" "" "team" "" "uid-1" "1" 1 (at_time 12 0) None None
       (Some {["app"%string := "web"%string]}) None
       (Some [mkOwnerR "apps/v1" "Deployment" "owner" "uid-0" (Some true) None])
       (Some ["kube-green.com/finalizer"%string])
       (Some [mkManagedR "kubectl" "Apply" GroupVersion (Some (at_time 12 0)) "FieldsV1"
          (Some (mkFieldsR (Some ["{"; "}"]%char))) ""]))
    (mkSpecR "*" "20:00" "08:00" ""
      (Some [mkFilterRefR "apps/v1" "Deployment" "api" None;
             mkFilterRefR "apps/v1" "Deployment" "" (Some {["tier"%string := "db"%string]})])
      None false (Some true) None None)
    zeroStatus.

Definition reached : gset positive := {[1; 2; 3; 4; 5; 6; 7; 8; 9; 10; 11]}%positive.

Lemma heap0_view : view_object heap0 (OSleepInfo cur) = Some (VSleepInfo info_value, reached).
Proof. run. Defined.

Lemma deepcopy_equal_witness :
  exists o' h' L', DeepCopyObject (OSleepInfo cur) heap0 = (Ok (Some o'), h')
    /\ view_object h' o' = Some (VSleepInfo info_value, L').
Proof.
  destruct (deepcopy_equal heap0 (OSleepInfo cur) (VSleepInfo info_value) reached heap0_view)
    as (o' & h' & L' & E & H & _).
  exists o', h', L'. split; [exact E|exact H].
Defined.

Definition copied0 : result (option runtimeObject) * Heap cell := DeepCopyObject (OSleepInfo cur) heap0.
Definition copy0 : runtimeObject := Eval vm_compute in
  match copied0.1 with Ok (Some o) => o | _ => OSleepInfo cur end.

Lemma deepcopy_independent_witness :
  exists L', view_object copied0.2 copy0 = Some (VSleepInfo info_value, L') /\ reached ## L'
    /\ forall h2, same_outside L' copied0.2 h2 ->
         view_object h2 (OSleepInfo cur) = Some (VSleepInfo info_value, reached).
Proof.
  destruct (deepcopy_independent heap0 (OSleepInfo cur) (VSleepInfo info_value) reached copy0 copied0.2
    heap0_view) as (L' & H1 & H2 & H3 & _); [run|].
  exists L'. split; [exact H1|]. split; [exact H2|exact H3].
Defined.

Lemma status_update_on_copy_witness :
  exists q h' v' L',
    handleSleepInfoStatus_memory (at_time 20 0) cur "SLEEP" (HasResource g0) heap0 = (Ok q, h')
    /\ view_ptr view_Info h' q = Some (v', L')
    /\ handleSleepInfoStatus (at_time 20 0) (plain_info info_value) "SLEEP" g0 w20
       = StatusUpdateSleepInfo (plain_info v') w20.
Proof.
  destruct (status_update_on_copy (at_time 20 0) cur "SLEEP" g0 heap0 info_value reached w20)
    as (q & h' & v' & L' & E & _ & H1 & H2); [run|].
  exists q, h', v', L'. split; [exact E|]. split; [exact H1|exact H2].
Defined.

(** ** The manager *)

(** The platform follows a plan: a message for a step that fails. *)
#[export] Instance planned : Platform := {|
  PlatformState := list (option string);
  perform_step s st := match st with [] => (None, []) | m :: st => (errorf <$> m, st) end
|}.

Definition start (st : list (option string)) : Process := mkProcess ∅ st [].

(** Certificates for both servers, in various forms; exact growth. *)
Definition secure_args : list string :=
  ["--metrics-bind-address"; ":8443"; "-leader-elect"; "--webhook-cert-path=/certs/webhook";
   "-metrics-cert-path"; "/certs/metrics"; "--zap-devel"; "--"; "ignored"]%string.
Definition secure : Flags :=
  mkFlags "" 9443 ":8443" ":8081" 60 true true "/certs/webhook" "tls.crt" "tls.key"
    "/certs/metrics" "tls.crt" "tls.key" false 20.
(** The flag of the logger. *)
Definition zap (name : string) : option (Flag unit) :=
  if String.eqb name "zap-devel" then Some (mkFlag true (fun v _ => let? _ := ParseBool v in Ok tt)) else None.
Definition exact_growth (oldCap newLen : nat) : nat := newLen.
Definition started : result unit * Process := main exact_growth Platform64 zap secure_args (start []).

Lemma command_line_read_witness :
  Parse (commandLine Platform32 zap)
    ["--metrics-bind-address"; ":8443"; "-leader-elect"; "--webhook-cert-path=/certs/webhook";
     "-metrics-cert-path"; "/certs/metrics"; "--"; "ignored"]%string defaultFlags
  = Ok (secure, ["ignored"]%string).
Proof.
  apply (command_line_read Platform32 zap secure
    [("metrics-bind-address", ":8443"); ("leader-elect", "true"); ("webhook-cert-path", "/certs/webhook");
     ("metrics-cert-path", "/certs/metrics")]%string
    [["--metrics-bind-address"; ":8443"]; ["-leader-elect"]; ["--webhook-cert-path=/certs/webhook"];
     ["-metrics-cert-path"; "/certs/metrics"]]%string ["--"; "ignored"]%string).
  - unfold ints_fit, in_int. cbn. lia.
  - unfold settings. cbn. repeat (apply sublist_skip || apply sublist_cons || apply sublist_nil_l).
  - intros nv Hin Hni. unfold settings in Hin. cbn in Hin.
    repeat (apply elem_of_cons in Hin as [->|Hin]; [first [decided|exfalso; apply Hni; decided]|]).
    by apply elem_of_nil in Hin.
  - repeat apply Forall2_cons_2; [| | | |apply Forall2_nil_2].
    + eapply (renders_next _ _ _ "--"); [by right|reflexivity|reflexivity].
    + eapply (renders_bool _ _ _ "-"); [by left|reflexivity|reflexivity|reflexivity].
    + exact (renders_equals _ "webhook-cert-path" "/certs/webhook" "--" (or_intror eq_refl)).
    + eapply (renders_next _ _ _ "-"); [by left|reflexivity|reflexivity].
  - constructor.
Defined.

Lemma main_follows_plan_witness :
  exists o, options_ok secure o /\ pr_steps started.2 = plan secure o /\ is_ok started.1 = true.
Proof.
  pose proof (main_follows_plan Platform64 exact_growth zap secure_args (start [])) as H.
  assert (parseFlags Platform64 zap secure_args = Ok secure) as E by run. rewrite E in H.
  destruct H as (o & Ho & H1 & _ & H2). exists o. split; [exact Ho|]. split; [exact H1|exact H2].
Defined.

(** An unknown flag ends the process before it does anything. *)
Example unknown_flag :
  let p := main exact_growth Platform64 zap ["--webhook-prt=1"]%string (start []) in
  is_ok p.1 = false /\ pr_steps p.2 = [].
Proof. by vm_compute. Qed.

Lemma nth_in_steps n l : (n < length l)%nat -> In (nth n l GetConfig) l.
Proof. intros H. by apply nth_In. Defined.

Lemma main_serves_tls_witness :
  exists o, In (NewManager o) (pr_steps started.2)
    /\ served (pr_heap started.2) (wo_TLSOpts (mg_WebhookServer o))
       = mkTlsConfig ["http/1.1"%string]
           (Some (mkCertWatcher "/certs/webhook/tls.crt" "/certs/webhook/tls.key")).
Proof.
  destruct (main_serves_tls Platform64 exact_growth zap secure_args (start []) eq_refl)
    as (f & o & Ef & Hin & _ & Hw & _).
  - assert (StartManager = nth 12 (pr_steps started.2) GetConfig) as E by run.
    rewrite E. apply nth_in_steps, Nat.ltb_lt. run.
  - assert (f = secure) as -> by (assert (parseFlags Platform64 zap secure_args = Ok secure) as E by run; congruence).
    exists o. split; [exact Hin|]. refine (eq_trans Hw _). run.
Defined.

(** The seventh step, the webhook, fails: the manager never starts. *)
Example webhook_setup_fails :
  let p := main exact_growth Platform64 zap secure_args (start (repeat None 7 ++ [Some "denied"%string])) in
  is_ok p.1 = false /\ last (pr_steps p.2) = Some (CompleteWebhook "SleepInfo").
Proof. by vm_compute. Qed.

(** What the two servers read, the webhook server first. *)
Definition certificates (p : Process) : list (option CertWatcher * option CertWatcher) :=
  omap (fun s => match s with
                 | NewManager o =>
                     Some (GetCertificate (served (pr_heap p) (wo_TLSOpts (mg_WebhookServer o))),
                           GetCertificate (served (pr_heap p) (mo_TLSOpts (mg_Metrics o))))
                 | _ => None
                 end) (pr_steps p).

(** An array of one word comes from the smallest size class, of eight bytes: on a
    platform of 32 bits (linux/arm/v7) the first append leaves room for a second
    option, and the certificate of the metrics server overwrites that of the webhook
    server. *)
Definition size_class (pf : platform) (oldCap newLen : nat) : nat :=
  match pf with Platform64 => newLen | Platform32 => Nat.max 2 newLen end.

Example shared_array :
  let metrics := Some (mkCertWatcher "/certs/metrics/tls.crt" "/certs/metrics/tls.key") in
  let webhook := Some (mkCertWatcher "/certs/webhook/tls.crt" "/certs/webhook/tls.key") in
  let started_on pf := main (size_class pf) pf zap secure_args (start []) in
  certificates (started_on Platform64).2 = [(webhook, metrics)]
  /\ certificates (started_on Platform32).2 = [(metrics, metrics)].
Proof. by vm_compute. Qed.

(** An int of 32 bits does not hold every number. *)
Example too_many_reconciles :
  let args := ["--max-concurrent-reconciles=2147483648"; "--sleep-delta=2147483648"]%string in
  is_ok (parseFlags Platform32 zap args) = false
  /\ (maxConcurrentReconciles <$> match parseFlags Platform64 zap args with Ok f => Some f | Err _ => None end)
     = Some 2147483648.
Proof. by vm_compute. Qed.

(** ** The fake client *)

(** Over the in-memory client, told to fail the lists of Deployments. *)
Definition no_deployments : FakeClient :=
  mkFakeClient rawClient (Some (fun m o => match m, o with
    | MList, RList gvk => String.eqb (gvk_Kind gvk) "Deployment" | _, _ => false end)).

Definition told_nothing : FakeClient := mkFakeClient rawClient None.

Lemma fake_client_serves_witness :
  @StoreLaws _ (reconciler_client (fakeClient told_nothing)) (fake_secrets told_nothing rawLaws).
Proof. exact (proj1 (fake_client_serves told_nothing rawLaws)). Defined.

(** The night of Scenario.v with the fake client, which the in-memory client alone
    does not get through: it refuses the selectors, and what it keeps of the secret
    is not read. *)
Definition plain_world (C : CtrlClient) (s : @CtrlState _ C) (now : Time) : @World _ (reconciler_client C) :=
  @mkWorld _ (reconciler_client C) s now ∅ 0 [].

Definition one_server : Server := server [deployment "3"] [].

Definition fake_night : result Outcome * @World _ (reconciler_client (fakeClient told_nothing)) :=
  Reconcile.Reconcile (CL := reconciler_client (fakeClient told_nothing)) cfg "team" "night"
    (plain_world (fakeClient told_nothing) one_server (at_time 20 0)).

Definition stored_keys (s : Server) : list (bool * bool) :=
  map (fun kv => (bool_decide (is_Some (default ∅ (sec_Data kv.2) !! lastScheduleKey)),
                  bool_decide (is_Some (sec_StringData kv.2)))) (map_to_list (sv_secrets s)).

Example night_with_fake_client :
  let raw := Reconcile.Reconcile (CL := reconciler_client rawClient) cfg "team" "night"
    (plain_world rawClient one_server (at_time 20 0)) in
  fake_night.1 = Ok (requeueIn (12 * 3600 * Second), None)
  /\ stored_keys (w_api fake_night.2) = [(true, false)] /\ stored_keys (w_api raw.2) = [(false, true)].
Proof. by vm_compute. Qed.

(** ** A wake up without its Deployments *)

#[local] Existing Instance rawLaws.
Definition failing : ClientLib := reconciler_client (fakeClient no_deployments).
Definition failing_store : @SecretStore _ failing := fake_secrets no_deployments rawLaws.

(** The evening on the reference server, the morning with failing lists. *)
Definition w8_failing : @World _ failing :=
  @mkWorld _ failing (w_api w8) (next_day (at_time 8 0)) ∅ 0 [].
Definition failing_morning : result Outcome * @World _ failing :=
  Reconcile.Reconcile (CL := failing) cfg "team" "night" w8_failing.

Lemma deployments_unlisted (w : @World _ failing) :
  is_ok (getListByNamespace (CL := failing) info8 "team" DeploymentTarget w).1 = false.
Proof.
  destruct w as [[infos secrets execs objs [|[msg|] fs]] now gauge n tr]; reflexivity.
Defined.

Definition failing_out : Outcome := Eval vm_compute in value nothing failing_morning.1.

Lemma unlisted_target_forgotten_witness :
  failing_out = (requeueIn (12 * 3600 * Second), None)
  /\ exists sec, @secret_at _ failing failing_store (w_api failing_morning.2) "team" "sleepinfo-night" = Some sec
       /\ exists data2, getSleepInfoData (Some sec) info8 = Ok data2
            /\ IsSleepOperation data2 = true /\ OriginalGenericResourceInfo data2 = Some ∅.
Proof.
  split; [reflexivity|].
  destruct (unlisted_target_forgotten (CL := failing) (SS := failing_store)
    (SW := fake_store no_deployments rawLaws) cfg "team" "night" w8_failing info8
    (secret_of w8) data8 DeploymentTarget failing_out failing_morning.2)
    as [_ (sec & H1 & H2)];
    [split; run|run|run|apply is_due; run|run|apply deployments_unlisted|apply ran; run|run|run|].
  exists sec. split; [exact H1|]. apply (H2 info8 cron20 cron8). split; run.
Defined.

(** ** The test environment *)

(** The platform answers from a plan; random names are fixed. *)
#[export] Instance scripted : TestPlatform := {|
  TestState := list (result Value);
  perform_op _ st := match st with [] => (Ok VUnit, []) | a :: st => (a, st) end;
  RandomName prefix _ st := ((prefix +:+ "-x7k")%string, st)
|}.

Definition bare (st : list (result Value)) : TestWorld := mkTestWorld st [] None false "".

Definition missing : result Value := Err (errorf "no such file").

(** The binary has to be installed first. *)
Example installs_first :
  let '(r, w) := StartEnvTest "/kg/internal/testutil" ["/kg/crd"]%string
    (bare [Ok (VText "v1.28.3"); missing; Ok VUnit; Ok VUnit; Ok (VText "/kg/bin/1.28")]) in
  r = Ok (Some ["/kg/crd"]%string, None)
  /\ (tw_log w).*1 = [LookupEnv "KIND_K8S_VERSION"; Stat "/kg/bin/setup-envtest";
       RunProc (Some "/kg/bin") installCommand; Stat "/kg/bin/setup-envtest";
       RunProc (Some "/kg/bin") "/kg/bin/setup-envtest use -p path --bin-dir /kg/bin 1.28";
       Setenv "KUBEBUILDER_ASSETS" "/kg/bin/1.28"; StartEnv ["/kg/crd"]; NewClient; NewDiscoveryClient;
       ServerVersion]%string.
Proof. by vm_compute. Qed.

(** The environment has started, and the caller gets nil. *)
Example started_and_lost :
  let '(r, w) := StartEnvTest "/kg/internal/testutil" []
    (bare [Ok (VText "1.28"); Ok VUnit; Ok (VText "/a"); Ok VUnit; Ok VUnit; Ok VUnit; Ok VUnit; missing]) in
  r = Ok (None, Some (errorf "no such file"))
  /\ (tw_log w).*1 = [LookupEnv "KIND_K8S_VERSION"; Stat "/kg/bin/setup-envtest";
       RunProc None "/kg/bin/setup-envtest use -p path --bin-dir /kg/bin 1.28";
       Setenv "KUBEBUILDER_ASSETS" "/a"; StartEnv []; NewClient; NewDiscoveryClient; ServerVersion]%string.
Proof. by vm_compute. Qed.

(** ** Mocks *)

Definition json_name (field : string) : string :=
  if String.eqb field "ObjectMeta" then "metadata"
  else if String.eqb field "APIVersion" then "apiVersion"
  else match field with String c s => String (lower c) s | EmptyString => "" end.

(** A converter by the names of the API: empty fields are left out, and the
    [TypeMeta] of an object is inlined. *)
Fixpoint to_json (v : GoValue) : option json :=
  match v with
  | GString s => if String.eqb s "" then None else Some (JStr s)
  | GInt z => Some (JNum (itoa z))
  | GBool b => Some (JBool b)
  | GNil => None
  | GPtr v | GInterface v => to_json v
  | GMap m => Some (JObj (map_obj (JStr <$> m)))
  | GSlice l => Some (JArr (omap to_json l))
  | GStruct _ fields =>
      Some (obj (concat (map (fun f =>
        match to_json f.2 with
        | Some (JObj l) => if String.eqb f.1 "TypeMeta" then l else [(json_name f.1, JObj l)]
        | Some j => [(json_name f.1, j)]
        | None => []
        end) fields)))
  end.

#[export] Instance converter : UnstructuredConverter := {|
  ToUnstructured v := match to_json v with
                      | Some (JObj l) => Ok (obj_map l)
                      | _ => Err (errorf "unable to convert")
                      end
|}.

(** The mock of a Deployment is found under its name, and the default patch
    scales it to zero. *)
Example mock_sleeps :
  match Mock_Unstructured (Deployment (mkDeploymentOptions "team" "web" None (Some 3) "1" None None)) with
  | Err _ => False
  | Ok u => GetName u = "web"%string /\ GetKind u = "Deployment"%string
      /\ at_path ["spec"; "replicas"]%string (JObj (map_obj (Object u))) = Some (JNum "3")
      /\ at_path ["spec"; "selector"; "matchLabels"; "app"]%string (JObj (map_obj (Object u))) = Some (JStr "web")
      /\ match UnmarshalMap (value ""%string (Exec zero_replicas (MarshalMap (Object u)))) with
         | Ok o => at_path ["spec"; "replicas"]%string (JObj (map_obj o)) = Some (JNum "0")
         | Err _ => False
         end
  end.
Proof. by vm_compute. Qed.

(** ** The scheme *)

#[export] Instance lists : SchemeLib := {|
  RuntimeScheme := list (GroupVersionKind * GoType);
  NewScheme := [];
  knows s k := snd <$> (snd <$> list_find (fun e => e.1 = k) s);
  clientgo_AddToScheme s := Ok s;
  Builder := (string * string) * list GoType;
  newBuilder gv := (gv, []);
  Register l b := (b.1, b.2 ++ l);
  Builder_AddToScheme b s := Ok (map (fun t => (kind_in b.1 t, t)) b.2 ++ s)
|}.

Lemma lists_found gv l s t :
  t ∈ l -> knows (SchemeLib := lists) (map (fun t => (kind_in gv t, t)) l ++ s) (kind_in gv t) = Some t.
Proof.
  cbn. induction l as [|x l IH]; intros Hin; [by apply elem_of_nil in Hin|]. cbn.
  destruct (decide (kind_in gv x = kind_in gv t)) as [E|E].
  - injection E as E. by apply type_name_inj in E as ->.
  - apply elem_of_cons in Hin as [->|Hin]; [done|]. specialize (IH Hin).
    destruct (list_find _ (map _ l ++ s)) as [[i [k y]]|]; done.
Qed.

#[export] Instance listsLaws : SchemeLaws.
Proof.
  refine {| registered := fun b : Builder => b.2; builder_gv := fun b : Builder => b.1 |}; try done.
  intros b s s' t [= <-]. apply lists_found.
Qed.

Example scheme_ready :
  match main_init api_package with
  | Ok s => map (fun k => knows s (mkGVK "kube-green.com" "v1alpha1" k)) ["SleepInfo"; "SleepInfoExecution"; "Pod"]%string
            = [Some TSleepInfo; Some TSleepInfoExecution; None]
  | Err _ => False
  end.
Proof. by vm_compute. Qed.
