(* ===== verification/Race.v ===== *)
(** * Two controllers at once

    The controllers of SleepInfos and of executions have workers of their own, so
    that a scheduled run and an on-demand run of one SleepInfo can overlap.  Every
    theorem on a single run holds then as well, since the server may answer
    anything.  What is not protected is the secret, which both read first and
    write last, without a resource version.

    [interleaved] is a client over a server on which another run takes place
    between two calls of the first: the theorem of Losses.v on what an on-demand run
    saves is applied to it, and the workloads stay asleep. *)

From S2P Require Import Prelude GoStrings GoTime GoJson GoFloat GoAny Api Libs Merge Client.
From S2P Require Import RestoreData SleepInfoData Schedule Patcher Resource ManagedResources.
From S2P Require Import ManagedResourcesSpec SleepWakeSpec Secrets Reconcile Execution ReconcileSpec ExecutionSpec.
From S2P Require Import Night Losses.
From S2P Require Import Reference Server Scenario.

Section Interleaving.
Context {SL : SelectorLib} (CL : ClientLib).

(** The server, and what the other run does to it after a number of calls. *)
Record Shared := mkShared {
  sh_state : ApiState;
  sh_other : ApiState -> ApiState;
  sh_after : option nat
}.

(** The other run takes its turn when the count reaches zero, once. *)
Definition turn (s : Shared) : Shared :=
  match sh_after s with
  | Some O => mkShared (sh_other s (sh_state s)) (sh_other s) None
  | Some (S n) => mkShared (sh_state s) (sh_other s) (Some n)
  | None => s
  end.

Definition shared {A} (f : ApiState -> A * ApiState) (s : Shared) : A * Shared :=
  let s := turn s in
  let '(a, st) := f (sh_state s) in
  (a, mkShared st (sh_other s) (sh_after s)).

Definition interleaved : ClientLib := {|
  ApiState := Shared;
  api_GetSleepInfo ns name := shared (api_GetSleepInfo ns name);
  api_GetSecret ns name := shared (api_GetSecret ns name);
  api_GetExecution ns name := shared (api_GetExecution ns name);
  api_RESTMapping gk := shared (api_RESTMapping gk);
  api_List gvk o := shared (api_List gvk o);
  api_Apply u owner force := shared (api_Apply u owner force);
  api_Patch old new := shared (api_Patch old new);
  api_CreateSecret x := shared (api_CreateSecret x);
  api_UpdateSecret x := shared (api_UpdateSecret x);
  api_StatusUpdateSleepInfo i := shared (api_StatusUpdateSleepInfo i);
  api_UpdateExecution e := shared (api_UpdateExecution e);
  api_StatusUpdateExecution e := shared (api_StatusUpdateExecution e);
  SetOwnerReference := SetOwnerReference
|}.
End Interleaving.

(** ** A race

    The evening after the night of Scenario.v: the secret exists, the namespace is
    awake.  An on-demand sleep is asked for when the scheduled one is due. *)

Definition evening : Time := next_day (at_time 20 0).

Definition evening_server : Server :=
  let s := w_api morning.2 in
  mkServer (sv_infos s) (sv_secrets s) {[("team", "now")%string := asked]} (sv_objects s) [].

(** The scheduled run, from its first call to its last. *)
Definition scheduled (s : Server) : Server :=
  w_api (Reconcile.Reconcile cfg "team" "night" (world s evening)).2.

(** The on-demand run, with the scheduled run after [n] of its calls. *)
Definition on_demand (n : nat) : result Outcome * @World _ (interleaved memoryClient) :=
  Execution.Reconcile (CL := interleaved memoryClient) cfg "team" "now"
    (@mkWorld _ (interleaved memoryClient) (mkShared memoryClient evening_server scheduled (Some n))
       evening ∅ 0 []).

(** The server when both have run. *)
Definition server_after (n : nat) : Server :=
  let s := w_api (on_demand n).2 in
  match sh_after memoryClient s with
  | Some _ => scheduled (sh_state memoryClient s)
  | None => sh_state memoryClient s
  end.

Definition phase_after (n : nat) : option string :=
  Phase ∘ se_Status <$> sv_execs (server_after n) !! ("team", "now")%string.

(** The Deployments the next morning. *)
Definition next_morning (n : nat) : list (option json) :=
  replicas_of (Reconcile.Reconcile cfg "team" "night"
    (world (server_after n) (next_day (next_day (at_time 8 0))))).2.

(** A race between the controllers loses the restore data.  When the scheduled run
    takes place after the on-demand run has read the secret and before it lists the
    Deployments, both succeed, the on-demand run finds nothing left to change and
    overwrites the secret without the restore patch: the replicas are not restored.
    One after the other, in either order, the two runs are harmless. *)
Example race_loses_restore_data :
  (on_demand 4).1 = Ok nothing /\ phase_after 4 = Some "Succeeded"%string
  /\ next_morning 4 = [Some (JNum "0")]
  /\ phase_after 0 = Some "Skipped"%string /\ next_morning 0 = [Some (JNum "3")]
  /\ phase_after 10 = Some "Succeeded"%string /\ next_morning 10 = [Some (JNum "3")].
Proof. by vm_compute. Qed.



